(* ===== verification/_CoqProject ===== *)
-Q . S2P
Prelude.v
GoStrings.v
GoEncoding.v
GoNet.v
GoHttp.v
GoOS.v
GoFlag.v
Config.v
Rules.v
SqlDb.v
AuthStore.v
Auth.v
GoIO.v
Udp.v
ConnTracker.v
Icmp.v
Listener.v
P2P.v
Server.v
Proxy.v
AdminStore.v
AdminConfig.v
AdminApi.v
AdminClient.v
Tunnel.v
Acme.v
Manage.v
Console.v
Wizard.v
TtAdmin.v
Endpoint.v
Process.v
Accounts.v
Admission.v
Interleaving.v
Dialer.v
Tun.v
TunFrame.v
Flow.v
Stream.v
Routes.v
RouteSpec.v
RoutesWin.v
Teardown.v
ClientCore.v
Profile.v
Enroll.v
App.v
Platform.v
Desktop.v
