(* ===== verification/Prelude.v ===== *)
(** Verification library of ttgo, a TrustTunnel VPN endpoint and its desktop
    client, both in Go.  This root file documents the development and holds what
    all files share: results, machine integers, bytes, generic lemmas, tactics.

    * The program

    The endpoint accepts HTTP/1.1, HTTP/2 and HTTP/3 connections on one port.
    A client asks for a tunnel with a CONNECT request; the handler admits it
    (revocation, Basic credentials, state of the account, device limit, routing
    rules) and opens a TCP tunnel, or joins a pseudo-host that carries UDP, ICMP
    or a peer-to-peer stream.  A tracker counts connections and traffic per
    user; a flusher writes the traffic to the store.  An admin API and terminal
    tools edit users, rules and the configuration file.  The client opens a TUN
    device, sends every TCP flow of the machine through a tunnel, relays DNS,
    and rewrites the system's routes while it is connected; a desktop shell keeps
    its profiles, its settings and the state of the session.

    * Files and sources (all under src/)

    Go's library, as far as the repository uses it:
    - GoStrings: package strings, [%q] of fmt; GoEncoding: encoding/binary, hex,
      base64; GoNet: package net (IP, CIDR, host:port); GoHttp: headers,
      responses, URLs and queries; GoOS: files and paths; GoFlag: package flag;
      GoIO: readers; SqlDb: the SQL engine as a class, with an in-memory
      instance.

    The endpoint:
    - Config: internal/config/config.go.
    - Rules: internal/rules/rules.go.
    - AuthStore: internal/auth/store/*.go; Auth: internal/auth/auth.go.
    - Udp: internal/udp/mux.go; Icmp: internal/icmp/mux.go.
    - ConnTracker: internal/server/conntrack.go.
    - Listener: internal/server/listener.go, tlspeek.go, session.go.
    - P2P: internal/proxy/p2p.go and copyFlush of handler.go.
    - Server: internal/server/server.go, tls.go, quic.go, system.go.
    - Proxy: internal/proxy/handler.go, http1.go.
    - Admission: handler.go, auth.go and the user edits of adminapi.go again, at
      the grain of their locks and store reads; Interleaving: its histories.

    Its administration:
    - AdminStore: internal/admin/store.go, userstore.go, the loader of
      vpnconfig.go, the copy of migrate.go, the hosts edit of manage.go.
    - AdminConfig: internal/admin/configwriter.go, vpnconfig.go.
    - AdminApi: internal/server/adminapi.go.
    - AdminClient: internal/admin/apiclient.go; Tunnel: tunnel.go.
    - Acme: internal/admin/acme.go.
    - Manage: the handlers of internal/admin/manage.go, and paths.go; Console:
      manage.go as one program of pages, dialogs, keys, a timer and certificate
      jobs; Wizard: wizard.go, migrate.go.
    - TtAdmin: cmd/ttadmin/main.go.
    - Endpoint: cmd/endpoint/main.go (the adapters, the assembly); Process: its
      main from the command line to the exit status, with the signals of
      server.go.
    - Accounts: no file of its own; the abstract map of accounts that the stores
      of internal/admin and internal/auth/store implement.

    The client:
    - Dialer: internal/client/dialer.go, tls.go.
    - Tun: internal/client/tun.go, adblock.go; TunFrame: the frames of
      tun_darwin.go, tun_windows.go, tun_other.go and the pumps of tun.go.
    - Flow: no file of its own; a flow from handleTCP of tun.go through dialer.go
      and handler.go to the address that net.Dialer connects to. Stream: its
      bytes, through the goroutines of relayTCP (tun.go) and of handleTCPTunnel
      (handler.go).
    - Routes: internal/client/route_darwin.go; RoutesWin: route_windows.go;
      RouteSpec: the abstract machine both refine.
    - ClientCore: internal/client/client.go and OpenTUN of tun.go; Teardown:
      Disconnect again, in steps, with what runs beside it (Restore and the
      dynamic bypasses of route_darwin.go, the DNS relays, the pumps, the polls).
    - Profile: internal/client/profile.go, settings.go; Enroll: enroll.go.
    - App: cmd/ttclient (app.go, main.go, logs.go, and what its platform files
      decide); Platform: the start of the program, elevation, clipboard and the
      driver's download in its platform files; Desktop: the link schemes they
      register and the loops of hot key and status.

    A struct is a record of the same name, a method a function of the record's
    state that returns the new one; fields and functions keep their Go names, a
    prefix added where two would clash.  Code that shares state under a mutex is
    a step function, and histories of steps ([event], [run], [step]) stand for
    every interleaving.  A step is what the code does under one lock, or what
    nothing shared can disturb; where a file takes a longer stretch as one step
    it says so (Proxy and AdminApi take a request, ClientCore a call; Admission
    and Teardown, which cut them, prove that one alone does the same).  A call that fails returns [res]; a call that also
    changes state returns the state and an [option string], the error.

    The disk is [GoOS.fs]: the files, the paths that cannot be opened
    ([fs_locked]) and how much of a write a full disk takes ([fs_full]).  Like
    os.WriteFile, [GoOS.WriteFile] truncates before it writes, so a write that
    fails after the file was opened leaves it cut short ([GoOS.torn]); where the
    code drops the error (acme.go, enroll.go) the model drops it too, and a
    theorem whose conclusion needs the file asks that it be [GoOS.writable], or
    says what is left otherwise.  A program that dereferences nil has no state
    after it: the step returns [None].

    * How the components meet

    [AuthStore.UserStore] is what the authenticator asks of a store; the three
    stores are its instances, and Auth's theorems are about any instance.
    [AdminApi.AdminUserStore] and [AdminStore.UserStore] are the same for the
    admin side; Endpoint turns one into the other.  [SqlDb.SqlTable] states what
    the stores ask of an SQL engine.  [Accounts.AccountStore] states that an
    admin store and the endpoint's running store over the same data hold one map
    of accounts, the endpoint as of its last look; the SQLite pair, which looks at
    every query, and the file pair, which polls every ten seconds, are its
    instances, and what an edit means for a login is proved once, against the
    class.  Proxy composes Auth, Rules, ConnTracker, Udp, Icmp and P2P as ServeHTTP
    does; AdminApi composes the tracker, the
    authenticator and the stores; ClientCore composes Dialer, Tun and Routes,
    and Dialer connects the client to Proxy's handler for the theorem that
    client and endpoint agree on who may connect; Flow puts Tun in front of
    the two and a network behind.  [RouteSpec.RouteImpl] states
    what a route manager is; Routes and RoutesWin are its instances.
    AdminClient's requests are answered by [AdminApi.serve]; Manage works on a
    store and on AdminClient; Wizard composes the stores, the configuration
    writer and Acme, whose cryptography is the class [Acme.crypto_laws]; Tunnel
    opens the streams P2P joins, for the settings TtAdmin reads.  Console drives
    Manage's handlers.  [Endpoint.boot] is main up to the server, and Process
    runs it with Server and the tracker; App drives ClientCore, Profile and
    Enroll, Platform starts App and Desktop runs its hot key.

    * What the theorems show

    - Admission (Proxy, Auth, Rules, Dialer): whatever the handler opens was
      asked by an admitted request; an accepted request carried the store's
      credentials, at most one cache lifetime old; the rules engine computes the
      first match of a reference policy; refusals have the right status and no
      effect; the client's check of its credentials succeeds exactly when the
      endpoint admits them; an update of the rules that reports an error has
      still activated them, and its file is the old one, the new one or the
      beginning of the new one.
    - Accounting (ConnTracker, Proxy): registrations form a multiset; with a store
      that may refuse a write, bytes stored, lost and pending add up to those
      counted ([ConnTracker.ledger]); kicks revoke exactly their targets, a request
      leaves the registrations as they were; requests over HTTP/3 are not tracked.
    - Interleaving (Admission, Interleaving): the steps of a request or an edit
      alone are the request or the edit (lemmas that tie the two grains); with any other steps between them, an
      edit that ends while no lookup of its user is under way decides every
      later request, the connections counted are those of the requests inside,
      and a kick reaches all of these; and three histories in which the code's
      races let someone in.
    - Transport (Udp, Icmp, Listener, P2P): the frames decode to what was
      encoded and are accepted exactly when well formed; no socket of a session
      leaks; a reply reaches only requests of its identifier, a packet has the
      TTL of its request unless another request comes in between; peeking loses no
      byte; peers are joined in pairs of one user and room; the copy loop ends
      and moves a prefix.
    - Tunnels end to end (Flow, Stream): a TCP flow of the machine is dialled at
      exactly its address, when the user is admitted, the rules allow it and
      the address is not private; its bytes arrive in order however the
      goroutines of client and endpoint interleave and whatever breaks, and when
      nothing does and both sides close, all of them and then both functions
      return; and what the code does not do: check the other addresses of a
      name, pass on the end of an answer, leave the response alone after its
      return.
    - Stores and configuration (AuthStore, AdminStore, AdminConfig, Config,
      Server): migrations, reloads and edits do what they say on every branch,
      errors included; both stores refine one machine of accounts, edit by edit
      and poll by poll, and after any edits and polls a login gets what the
      endpoint last saw of it.
    - Processes (TtAdmin, Process): the command lines of the two ends of a tunnel
      are read back, and both ends make the same request, which net/http sends
      when its room is a valid header value; the server's exit statuses, what a
      reload may change, and what a stop loses of the counted traffic, where the
      ticks of the flusher, its single writes with their errors, and the ten
      seconds a shutdown may last are steps of their own.
    - Administration (AdminApi, AdminClient, Manage, Wizard, Acme, Tunnel,
      Endpoint): the API does nothing without its token and its changes take
      effect at once; each operation of the client is the one of the server, so
      a deletion in the tool cuts the user off; in every history of the tool,
      accounts and sessions change only by a button of a dialog, which was opened
      on the line of its user, and without one the server only reloads its
      certificates; the pages of the setup type the answers, and a setup that
      finishes leaves the configuration of these answers ([Wizard.answered],
      [Wizard.set_up]); what is left when a certificate was obtained, a full disk
      included; expose keeps to its pool, and returns because its requests live
      under the context of the run; a server and its API are about the same
      accounts.
    - Client (ClientCore, Routes, RoutesWin, Tun, TunFrame, Dialer): the life
      cycle leaves all parts or none, a disconnect removes exactly the routes
      added, on both systems by one abstract machine, a disconnect during which
      DNS answers come leaves exactly their late routes and can always end
      (Teardown), the record of connections
      and the counters are right, the DNS relay answers as it should and its
      loops end or hang exactly when stated, the packet pumps move every IP packet
      in order and end when they must; profiles are stored, edited,
      enrolled and revoked one file at a time.
    - Desktop (App, Desktop): whatever bindings are called and whatever the files hold,
      the session shown is the one there is, and the program crashes only where
      it has no store of settings or, at its start, of profiles; a window opens only with the rights it needs; the
      bundle registered for links is the one that holds the program.
    - Divergences: theorems that show a defect on the modelled code say so in
      their comment (for instance [ClientCore.failed_connect_leaks_routes],
      [Icmp.icmp_reuse_loses_reply], [AdminConfig.patch_loses_section_header]).

    * Fuel, bounds, parameters

    Loops over data recur on it. [GoNet.v6_fields] has one unit of fuel per
    field an address can have. [Udp.serve_loop] gets one unit more than the
    bytes left of the body, which [Udp.serve_loop_returns] proves enough;
    [P2P.copyFlush_loop] recurs on the reads of its source. The loops over a DNS
    answer take a fuel, and [Tun.dns_loops_end] says when they end;
    [App.split_go] has one unit per character, so one for every separator there
    can be; [Desktop.bundle_walk] has one per character of the path, and
    [Desktop.registerURLScheme_bundle] proves that the walk ends. Counters keep the width of the source ([u64], [i32], ...).

    Parameters stand for code outside the repository: TOML and JSON decoders,
    certificate parsing, the SQL engines, the DNS message format, the
    netstack, sockets, resolvers, the system's commands, the clock.  What a
    theorem asks of one is a hypothesis or a class law, and its witness
    instantiates it.

    * Not modelled

    The drawing of the terminal, web and desktop interfaces, their texts and the
    options of the window; logging; the netstack itself (gVisor) and the creation
    of the TUN device beyond its outcome; the delivery of the hot key; the
    progress texts of a certificate job; and the front ends in other languages.
    One binding of the window and one event of a tool run at a time.  In
    Admission a step of a PATCH keeps its edit and its kick together, and its
    histories have no reload and no stop of the process, which are in Process.
    Teardown has the routes of macOS; Stream is about HTTP/2, which is what the
    client speaks. *)
From Stdlib Require Export ZArith Lia.
From Stdlib Require Export Strings.Byte.
From Stdlib Require Export Ascii.
From stdpp Require Export base numbers gmap strings list fin_maps pretty.
#[local] Open Scope Z_scope.

(** ** Results

    A Go function of type [(T, error)] is a [res T]; the error is its text, as
    [err.Error()] gives it.  The type is a monad for stdpp's [x ← e; k]. *)

Inductive res (A : Type) : Type :=
| Ok (a : A)
| Err (msg : string).
Arguments Ok {A} _.
Arguments Err {A} _.

#[export] Instance res_ret : MRet res := fun A a => Ok a.
#[export] Instance res_bind : MBind res := fun A B f r =>
  match r with Ok a => f a | Err e => Err e end.
#[export] Instance res_fmap : FMap res := fun A B f r =>
  match r with Ok a => Ok (f a) | Err e => Err e end.

#[export] Instance res_eq_dec `{EqDecision A} : EqDecision (res A).
Proof. solve_decision. Defined.

Definition is_ok {A} (r : res A) : bool :=
  match r with Ok _ => true | Err _ => false end.

Definition res_opt {A} (r : res A) : option A :=
  match r with Ok a => Some a | Err _ => None end.

Definition map_err {A} (f : string -> string) (r : res A) : res A :=
  match r with Ok a => Ok a | Err e => Err (f e) end.

(** [fmt.Errorf(prefix + "%w", err)] *)
Definition wrap_err {A} (prefix : string) (r : res A) : res A :=
  map_err (fun e => prefix +:+ e) r.

(** A loop that stops at the first error. *)
Fixpoint mapR {A B} (f : A -> res B) (l : list A) : res (list B) :=
  match l with
  | [] => Ok []
  | x :: l => y ← f x; ys ← mapR f l; Ok (y :: ys)
  end.

(** ** Machine integers *)

Definition u16 (z : Z) : Z := z `mod` 2 ^ 16.
Definition u32 (z : Z) : Z := z `mod` 2 ^ 32.
Definition u64 (z : Z) : Z := z `mod` 2 ^ 64.
Definition i32 (z : Z) : Z := (z + 2 ^ 31) `mod` 2 ^ 32 - 2 ^ 31.
Definition i64 (z : Z) : Z := (z + 2 ^ 63) `mod` 2 ^ 64 - 2 ^ 63.

Definition in_u64 (z : Z) : Prop := 0 ≤ z < 2 ^ 64.

(** [time.Duration] and [time.Time] are counted in nanoseconds. *)
Definition second : Z := 1000000000.

(** ** Bytes *)

#[export] Instance byte_eq_dec : EqDecision byte := Byte.byte_eq_dec.
#[export] Instance byte_inhabited : Inhabited byte := populate x00.

Definition bval (b : byte) : Z := Z.of_N (Byte.to_N b).
Definition mkbyte (z : Z) : byte := default x00 (Byte.of_N (Z.to_N (z `mod` 256))).

(** [[]byte(s)] and [string(b)] *)
Definition bytes_of (s : string) : list byte := String.list_byte_of_string s.
Definition str_of (b : list byte) : string := String.string_of_list_byte b.

(** A character's code. *)
Definition aval (c : Ascii.ascii) : Z := Z.of_N (Ascii.N_of_ascii c).
Definition achr (z : Z) : Ascii.ascii := Ascii.ascii_of_N (Z.to_N z).

(** ** Generic lemmas *)

Lemma u64_id z : in_u64 z -> u64 z = z.
Proof. exact (Z.mod_small z (2 ^ 64)). Qed.

Lemma u64_range z : in_u64 (u64 z).
Proof. unfold in_u64, u64. apply Z.mod_pos_bound. lia. Qed.

Lemma u64_add_u64 a b : u64 (u64 a + b) = u64 (a + b).
Proof. unfold u64. rewrite Zplus_mod_idemp_l. done. Qed.

Lemma u64_add_u64_r a b : u64 (a + u64 b) = u64 (a + b).
Proof. unfold u64. rewrite Zplus_mod_idemp_r. done. Qed.

Lemma bval_range b : 0 ≤ bval b < 256.
Proof.
  unfold bval. pose proof (Byte.to_N_bounded b). lia.
Qed.

Lemma mkbyte_bval b : mkbyte (bval b) = b.
Proof.
  unfold mkbyte. rewrite Z.mod_small by apply bval_range.
  unfold bval. rewrite N2Z.id, Byte.of_to_N. done.
Qed.

Lemma bval_mkbyte z : bval (mkbyte z) = z `mod` 256.
Proof.
  unfold mkbyte. pose proof (Z.mod_pos_bound z 256 eq_refl) as Hb.
  destruct (Byte.of_N (Z.to_N (z `mod` 256))) as [b|] eqn:E; simpl.
  - unfold bval. apply Byte.to_of_N in E. lia.
  - apply Byte.of_N_None_iff in E. lia.
Qed.

Lemma bval_mkbyte_small z : 0 ≤ z < 256 -> bval (mkbyte z) = z.
Proof. intros. rewrite bval_mkbyte. apply Z.mod_small. done. Qed.

#[export] Instance bval_inj : Inj (=) (=) bval.
Proof. intros a b H. by rewrite <- (mkbyte_bval a), <- (mkbyte_bval b), H. Qed.

Lemma str_of_bytes_of s : str_of (bytes_of s) = s.
Proof. apply String.string_of_list_byte_of_string. Qed.

Lemma bytes_of_str_of b : bytes_of (str_of b) = b.
Proof. apply String.list_byte_of_string_of_list_byte. Qed.

Lemma is_ok_true {A} (r : res A) : is_ok r = true <-> exists a, r = Ok a.
Proof. destruct r; simpl; split; [eauto|done|done|by intros [? [=]]]. Qed.

Lemma mapR_Ok {A B} (f : A -> res B) l ys :
  mapR f l = Ok ys <-> Forall2 (fun x y => f x = Ok y) l ys.
Proof.
  revert ys. induction l as [|x l IH]; intros ys; simpl.
  - split; [intros [= <-]; constructor | intros H; by inversion H].
  - split.
    + intros H. destruct (f x) eqn:Hx; [|done]. simpl in H.
      destruct (mapR f l) eqn:Hl; [|done]. simpl in H. injection H as <-.
      constructor; [done|]. by apply IH.
    + intros H. inversion H as [|? y ? ys' Hx Hr]; subst. rewrite Hx. simpl.
      apply IH in Hr. by rewrite Hr.
Qed.

Lemma mapR_total {A B} (f : A -> res B) (g : A -> B) l :
  (forall x, f x = Ok (g x)) -> mapR f l = Ok (map g l).
Proof.
  intros Hf. induction l as [|x l IH]; simpl; [done|]. by rewrite Hf; simpl; rewrite IH.
Qed.

(** Checking a decidable fact on every integer below a bound. *)
Lemma z_check (f : Z -> bool) (n : nat) :
  forallb (fun k => f (Z.of_nat k)) (seq 0 n) = true ->
  forall z, 0 ≤ z < Z.of_nat n -> f z = true.
Proof.
  intros H z Hz. rewrite forallb_forall in H.
  specialize (H (Z.to_nat z)). rewrite Z2Nat.id in H by lia.
  apply H, list_elem_of_In, elem_of_seq. lia.
Qed.

(** ** Automation

    [go_simpl] splits the matches and conditionals of an executed definition
    and closes the branches that contradict the hypotheses. *)

Ltac go_case :=
  match goal with
  | |- context [match ?x with _ => _ end] => destruct x eqn:?
  | H : context [match ?x with _ => _ end] |- _ => destruct x eqn:?
  end.

Ltac go_simpl := repeat (go_case; simplify_eq/=; try done).

(** [destruct_and?] plus equalities, for statements about records. *)
Ltac go_split := repeat match goal with
  | H : _ /\ _ |- _ => destruct H
  | H : exists _, _ |- _ => destruct H
  end; simplify_eq/=.

(** Linear arithmetic with division and remainder by constants. *)
Ltac dlia := Z.to_euclidean_division_equations; lia.

Create HintDb go discriminated.
#[export] Hint Resolve u64_range bval_range : go.
