(* ===== verification/GoStrings.v ===== *)
(** The functions of Go's packages strings, strconv, unicode/utf8 and fmt that
    the repository uses, on Go strings (sequences of bytes, [string]).  They
    are executable and follow the documented behaviour of the standard library;
    the one table not written out, [unicode.IsPrint] above ASCII, is the class
    [UnicodeTables]. *)
From S2P Require Import Prelude.
#[local] Open Scope Z_scope.

(** The double quote, as a character. *)
Definition dq : Ascii.ascii := "034"%char.
Definition nl : Ascii.ascii := "010"%char.
Definition nls : string := String nl "".

Fixpoint sdrop (n : nat) (s : string) : string :=
  match n, s with
  | O, _ => s
  | S n, String _ s => sdrop n s
  | _, EmptyString => ""
  end.

Fixpoint stake (n : nat) (s : string) : string :=
  match n, s with
  | O, _ => ""
  | S n, String c s => String c (stake n s)
  | _, EmptyString => ""
  end.

Fixpoint HasPrefix (s p : string) {struct p} : bool :=
  match p, s with
  | EmptyString, _ => true
  | String a p, String b s => bool_decide (a = b) && HasPrefix s p
  | String _ _, EmptyString => false
  end.

Definition HasSuffix (s suf : string) : bool :=
  (String.length suf <=? String.length s)%nat &&
  bool_decide (sdrop (String.length s - String.length suf) s = suf).

Definition TrimPrefix (s p : string) : string :=
  if HasPrefix s p then sdrop (String.length p) s else s.

Definition TrimSuffix (s suf : string) : string :=
  if HasSuffix s suf then stake (String.length s - String.length suf) s else s.

(** [strings.Index]; [None] is -1. *)
Fixpoint Index (s sub : string) : option nat :=
  if HasPrefix s sub then Some O
  else match s with
       | EmptyString => None
       | String _ s => S <$> Index s sub
       end.

Definition Contains (s sub : string) : bool := bool_decide (is_Some (Index s sub)).

(** Cut at the first occurrence of a character. *)
Fixpoint Cut (c : Ascii.ascii) (s : string) : option (string * string) :=
  match s with
  | EmptyString => None
  | String a s =>
      if bool_decide (a = c) then Some ("", s)
      else prod_map (String a) id <$> Cut c s
  end.

(** Cut at the last occurrence. *)
Fixpoint CutLast (c : Ascii.ascii) (s : string) : option (string * string) :=
  match s with
  | EmptyString => None
  | String a s =>
      match CutLast c s with
      | Some (l, r) => Some (String a l, r)
      | None => if bool_decide (a = c) then Some ("", s) else None
      end
  end.

(** [strings.SplitN(s, c, 2)] and [strings.Split(s, c)] for a one-byte [c]. *)
Definition SplitN2 (c : Ascii.ascii) (s : string) : list string :=
  match Cut c s with Some (a, b) => [a; b] | None => [s] end.

Fixpoint Split (c : Ascii.ascii) (s : string) : list string :=
  match s with
  | EmptyString => [""]
  | String a s =>
      if bool_decide (a = c) then "" :: Split c s
      else match Split c s with
           | x :: l => String a x :: l
           | [] => [String a ""]
           end
  end.

Fixpoint Join (sep : string) (l : list string) : string :=
  match l with
  | [] => ""
  | [x] => x
  | x :: l => x +:+ sep +:+ Join sep l
  end.

Fixpoint has_char (c : Ascii.ascii) (s : string) : bool :=
  match s with
  | EmptyString => false
  | String a s => bool_decide (a = c) || has_char c s
  end.

Fixpoint srev_app (s acc : string) : string :=
  match s with EmptyString => acc | String c s => srev_app s (String c acc) end.
Definition srev (s : string) : string := srev_app s "".

(** [strings.TrimLeft] and [strings.TrimRight] with an ASCII cutset. *)
Fixpoint TrimLeft (s cutset : string) : string :=
  match s with
  | EmptyString => ""
  | String c s' => if has_char c cutset then TrimLeft s' cutset else s
  end.
Definition TrimRight (s cutset : string) : string := srev (TrimLeft (srev s) cutset).
Definition Trim (s cutset : string) : string := TrimRight (TrimLeft s cutset) cutset.

(** [unicode.IsSpace] on a UTF-8 encoded rune given by its bytes. *)
Definition is_space1 (a : Z) : bool := ((9 <=? a) && (a <=? 13)) || (a =? 32).
Definition is_space2 (a b : Z) : bool := (a =? 0xC2) && ((b =? 0x85) || (b =? 0xA0)).
Definition is_space3 (a b c : Z) : bool :=
  ((a =? 0xE1) && (b =? 0x9A) && (c =? 0x80)) ||
  ((a =? 0xE2) && (b =? 0x80) &&
     (((0x80 <=? c) && (c <=? 0x8A)) || (c =? 0xA8) || (c =? 0xA9) || (c =? 0xAF))) ||
  ((a =? 0xE2) && (b =? 0x81) && (c =? 0x9F)) ||
  ((a =? 0xE3) && (b =? 0x80) && (c =? 0x80)).

Fixpoint TrimLeftSpace (s : string) : string :=
  match s with
  | EmptyString => ""
  | String a s1 =>
      if is_space1 (aval a) then TrimLeftSpace s1
      else match s1 with
           | String b s2 =>
               if is_space2 (aval a) (aval b) then TrimLeftSpace s2
               else match s2 with
                    | String c s3 =>
                        if is_space3 (aval a) (aval b) (aval c)
                        then TrimLeftSpace s3 else s
                    | EmptyString => s
                    end
           | EmptyString => s
           end
  end.

(** The same from the right, on the reversed string. *)
Fixpoint TrimLeftSpaceRev (s : string) : string :=
  match s with
  | EmptyString => ""
  | String a s1 =>
      if is_space1 (aval a) then TrimLeftSpaceRev s1
      else match s1 with
           | String b s2 =>
               if is_space2 (aval b) (aval a) then TrimLeftSpaceRev s2
               else match s2 with
                    | String c s3 =>
                        if is_space3 (aval c) (aval b) (aval a)
                        then TrimLeftSpaceRev s3 else s
                    | EmptyString => s
                    end
           | EmptyString => s
           end
  end.
Definition TrimSpace (s : string) : string :=
  srev (TrimLeftSpaceRev (srev (TrimLeftSpace s))).

(** [strings.Fields]; [cur] is the field being read. *)
Fixpoint fields_go (cur s : string) : list string :=
  let flush := if bool_decide (cur = "") then id else cons cur in
  match s with
  | EmptyString => flush []
  | String a s1 =>
      if is_space1 (aval a) then flush (fields_go "" s1)
      else let next := fields_go (cur +:+ String a "") s1 in
           match s1 with
           | String b s2 =>
               if is_space2 (aval a) (aval b) then flush (fields_go "" s2)
               else match s2 with
                    | String c s3 =>
                        if is_space3 (aval a) (aval b) (aval c)
                        then flush (fields_go "" s3) else next
                    | EmptyString => next
                    end
           | EmptyString => next
           end
  end.
Definition Fields (s : string) : list string := fields_go "" s.

(** [strings.ToLower] on ASCII letters; other bytes are kept, which is what the
    comparisons with ASCII literals in the repository depend on. *)
Definition lower1 (c : Ascii.ascii) : Ascii.ascii :=
  if (65 <=? aval c) && (aval c <=? 90) then achr (aval c + 32) else c.
Definition upper1 (c : Ascii.ascii) : Ascii.ascii :=
  if (97 <=? aval c) && (aval c <=? 122) then achr (aval c - 32) else c.
Fixpoint smap (f : Ascii.ascii -> Ascii.ascii) (s : string) : string :=
  match s with EmptyString => "" | String c s => String (f c) (smap f s) end.
Definition ToLower : string -> string := smap lower1.

(** [strings.Replace(s, old, new, 1)] *)
Definition Replace1 (s old new : string) : string :=
  match Index s old with
  | Some i => stake i s +:+ new +:+ sdrop (i + String.length old) s
  | None => s
  end.

(** [%d] and [%t] *)
Definition fmt_d (z : Z) : string := pretty z.
Definition fmt_t (b : bool) : string := if b then "true" else "false".

(** ** strconv.Quote, fmt's [%q] *)

Class UnicodeTables := { uni_IsPrint : Z -> bool }.

Definition hexdigit (z : Z) : Ascii.ascii :=
  if z <? 10 then achr (48 + z) else achr (87 + z).

(** [n] lower-case hexadecimal digits of [z]. *)
Fixpoint hexn (n : nat) (z : Z) : string :=
  match n with
  | O => ""
  | S n => String (hexdigit (Z.shiftr z (4 * Z.of_nat n) `mod` 16)) (hexn n z)
  end.

Definition is_cont (b : Z) : bool := (0x80 <=? b) && (b <=? 0xBF).

(** [utf8.DecodeRuneInString] on a non-empty string given by its first byte
    and the rest: the rune and its width, [None] for an invalid encoding (which
    is read as one byte). *)
Definition decode_rune (a : Ascii.ascii) (s : string) : option (Z * nat) :=
  let x := aval a in
  if x <? 0x80 then Some (x, 1%nat)
  else match s with
  | EmptyString => None
  | String b s2 =>
      let y := aval b in
      if (0xC2 <=? x) && (x <=? 0xDF) then
        if is_cont y then Some ((x - 0xC0) * 64 + (y - 0x80), 2%nat) else None
      else match s2 with
      | EmptyString => None
      | String c s3 =>
          let z := aval c in
          if (0xE0 <=? x) && (x <=? 0xEF) then
            let lo := if x =? 0xE0 then 0xA0 else 0x80 in
            let hi := if x =? 0xED then 0x9F else 0xBF in
            if (lo <=? y) && (y <=? hi) && is_cont z
            then Some (((x - 0xE0) * 64 + (y - 0x80)) * 64 + (z - 0x80), 3%nat)
            else None
          else match s3 with
          | EmptyString => None
          | String d _ =>
              let w := aval d in
              if (0xF0 <=? x) && (x <=? 0xF4) then
                let lo := if x =? 0xF0 then 0x90 else 0x80 in
                let hi := if x =? 0xF4 then 0x8F else 0xBF in
                if (lo <=? y) && (y <=? hi) && is_cont z && is_cont w
                then Some ((((x - 0xF0) * 64 + (y - 0x80)) * 64 + (z - 0x80)) * 64
                           + (w - 0x80), 4%nat)
                else None
              else None
          end
      end
  end.

Definition bslash : Ascii.ascii := "\"%char.
Definition esc (c : Ascii.ascii) : string := String bslash (String c "").

Section quote.
Context {UT : UnicodeTables}.

Definition IsPrint (r : Z) : bool :=
  if r <? 0x80 then (0x20 <=? r) && (r <? 0x7F) else uni_IsPrint r.

(** [appendEscapedRune] with quote = the double quote; [raw] is the rune's
    encoding. *)
Definition escaped_rune (r : Z) (raw : string) : string :=
  if (r =? 34) || (r =? 92) then String bslash raw
  else if IsPrint r then raw
  else if r =? 7 then esc "a"%char else if r =? 8 then esc "b"%char
  else if r =? 12 then esc "f"%char else if r =? 10 then esc "n"%char
  else if r =? 13 then esc "r"%char else if r =? 9 then esc "t"%char
  else if r =? 11 then esc "v"%char
  else if (r <? 32) || (r =? 127) then esc "x"%char +:+ hexn 2 r
  else if r <? 0x10000 then esc "u"%char +:+ hexn 4 r
  else esc "U"%char +:+ hexn 8 r.

(** The body of a quoted string; [skip] bytes belong to the last rune. *)
Fixpoint quote_body (skip : nat) (s : string) : string :=
  match s with
  | EmptyString => ""
  | String a s' =>
      match skip with
      | S k => quote_body k s'
      | O =>
          match decode_rune a s' with
          | None => esc "x"%char +:+ hexn 2 (aval a) +:+ quote_body 0 s'
          | Some (r, w) =>
              escaped_rune r (stake w s) +:+ quote_body (pred w) s'
          end
      end
  end.

Definition Quote (s : string) : string :=
  String dq (quote_body 0 s +:+ String dq "").
End quote.

(** ** Lemmas *)

Lemma sapp_nil_r s : s +:+ "" = s.
Proof. induction s; unfold String.app in *; simpl; congruence. Qed.

Lemma sapp_assoc a b c : (a +:+ b) +:+ c = a +:+ b +:+ c.
Proof. induction a; unfold String.app in *; simpl; congruence. Qed.

Lemma scons_app c a b : String c a +:+ b = String c (a +:+ b).
Proof. done. Qed.

Lemma snil_app b : "" +:+ b = b.
Proof. done. Qed.

Lemma slength_app a b : String.length (a +:+ b) = (String.length a + String.length b)%nat.
Proof. induction a; unfold String.app in *; simpl; congruence. Qed.

Lemma sdrop_app a b : sdrop (String.length a) (a +:+ b) = b.
Proof. induction a; unfold String.app in *; simpl; done. Qed.

Lemma stake_app a b : stake (String.length a) (a +:+ b) = a.
Proof. induction a; unfold String.app in *; simpl; congruence. Qed.

Lemma stake_sdrop n s : stake n s +:+ sdrop n s = s.
Proof.
  revert s. induction n as [|n IH]; intros [|c s]; simpl; [done..|].
  rewrite scons_app. by f_equal.
Qed.

Lemma HasPrefix_spec s p : HasPrefix s p = true <-> exists t, s = p +:+ t.
Proof.
  revert s. induction p as [|a p IH]; intros s; simpl.
  - split; [intros _; by exists s | done].
  - destruct s as [|b s]; [split; [done | by intros [t [=]]]|].
    rewrite andb_true_iff, bool_decide_eq_true, IH. split.
    + intros [-> [t ->]]. by exists t.
    + intros [t Ht]. rewrite scons_app in Ht. injection Ht as -> ->. eauto.
Qed.

Lemma HasPrefix_app p t : HasPrefix (p +:+ t) p = true.
Proof. apply HasPrefix_spec. eauto. Qed.

Lemma TrimPrefix_app p t : TrimPrefix (p +:+ t) p = t.
Proof. unfold TrimPrefix. by rewrite HasPrefix_app, sdrop_app. Qed.

Lemma slength_sdrop n s : String.length (sdrop n s) = (String.length s - n)%nat.
Proof. revert s. induction n; intros [|c s]; simpl; auto. Qed.

Lemma HasSuffix_spec s suf : HasSuffix s suf = true <-> exists t, s = t +:+ suf.
Proof.
  unfold HasSuffix. rewrite andb_true_iff, Nat.leb_le, bool_decide_eq_true. split.
  - intros [_ H]. exists (stake (String.length s - String.length suf) s).
    rewrite <- H at 2. by rewrite stake_sdrop.
  - intros [t ->]. rewrite slength_app. split; [lia|].
    replace (String.length t + String.length suf - String.length suf)%nat
      with (String.length t) by lia.
    apply sdrop_app.
Qed.

Lemma Split_not_nil c s : Split c s <> [].
Proof.
  induction s as [|a s IH]; simpl; [done|]. case_bool_decide; [done|].
  by destruct (Split c s).
Qed.

Lemma Join_cons sep x l : l <> [] -> Join sep (x :: l) = x +:+ sep +:+ Join sep l.
Proof. destruct l; done. Qed.

Lemma Join_Split c s : Join (String c "") (Split c s) = s.
Proof.
  induction s as [|a s IH]; [done|]. cbn [Split]. case_bool_decide as Hc.
  - subst. rewrite Join_cons by apply Split_not_nil. rewrite IH. done.
  - pose proof (Split_not_nil c s). destruct (Split c s) as [|x l]; [done|].
    rewrite <- IH. destruct l; done.
Qed.

Lemma has_char_app c a b : has_char c (a +:+ b) = has_char c a || has_char c b.
Proof.
  induction a as [|x a IH]; [done|].
  simpl. by rewrite IH, orb_assoc.
Qed.

Lemma Split_no_char c s : has_char c s = false -> Split c s = [s].
Proof.
  induction s as [|a s IH]; [done|]. simpl. intros H. apply orb_false_iff in H as [H1 H2].
  rewrite H1, (IH H2). done.
Qed.

Lemma Split_app c x s :
  has_char c x = false -> Split c (x +:+ String c s) = x :: Split c s.
Proof.
  induction x as [|a x IH]; simpl.
  - intros _. unfold String.app. simpl. by rewrite bool_decide_true.
  - intros H. apply orb_false_iff in H as [H1 H2]. by rewrite H1, (IH H2).
Qed.

Lemma Split_app_any c x s : Split c (x +:+ String c s) = Split c x ++ Split c s.
Proof.
  induction x as [|a x IH].
  - rewrite snil_app. cbn [Split]. by rewrite bool_decide_true.
  - rewrite scons_app. cbn [Split]. rewrite IH. case_bool_decide; [done|].
    pose proof (Split_not_nil c x). by destruct (Split c x).
Qed.

Lemma Split_Join c l :
  l <> [] -> Forall (fun x => has_char c x = false) l ->
  Split c (Join (String c "") l) = l.
Proof.
  intros Hne Hl. induction Hl as [|x l Hx Hl IH]; [done|].
  destruct l as [|y l]; [by apply Split_no_char|].
  rewrite Join_cons by done.
  change (String c "" +:+ Join (String c "") (y :: l))
    with (String c (Join (String c "") (y :: l))).
  rewrite Split_app by done. by rewrite IH.
Qed.

Lemma Split_pieces c s : Forall (fun x => has_char c x = false) (Split c s).
Proof.
  induction s as [|a s IH]; simpl; [by repeat constructor|].
  case_bool_decide as Hc; [by constructor|].
  pose proof (Split_not_nil c s). destruct (Split c s) as [|x l]; [done|].
  inversion IH; subst. constructor; [|done]. simpl. by rewrite bool_decide_false.
Qed.

Lemma CutLast_app c a b : has_char c b = false -> CutLast c (a +:+ String c b) = Some (a, b).
Proof.
  intros H. assert (Hb : CutLast c b = None).
  { clear a. induction b as [|x b IH]; cbn in *; [done|]. apply orb_false_iff in H as [H1 H2].
    rewrite IH by done. by rewrite H1. }
  induction a as [|x a IH].
  - change ("" +:+ String c b) with (String c b). cbn. rewrite Hb. by rewrite bool_decide_true.
  - rewrite scons_app. cbn. by rewrite IH.
Qed.

Lemma Cut_app c x s : has_char c x = false -> Cut c (x +:+ String c s) = Some (x, s).
Proof.
  induction x as [|a x IH]; simpl.
  - intros _. unfold String.app. simpl. by rewrite bool_decide_true.
  - intros H. apply orb_false_iff in H as [H1 H2]. by rewrite H1, (IH H2).
Qed.

Lemma Cut_spec c s a b :
  Cut c s = Some (a, b) -> s = a +:+ String c b /\ has_char c a = false.
Proof.
  revert a. induction s as [|x s IH]; intros a; simpl; [done|].
  case_bool_decide as Hx.
  - intros [= <- <-]. subst. done.
  - destruct (Cut c s) as [[a' b']|] eqn:E; [|done]. simpl. intros [= <- <-].
    destruct (IH a' eq_refl) as [-> Ha]. split; [done|]. simpl. by rewrite bool_decide_false.
Qed.

Lemma Cut_None c s : Cut c s = None <-> has_char c s = false.
Proof.
  induction s as [|x s IH]; simpl; [done|]. case_bool_decide; [done|]. simpl.
  rewrite <- IH. destruct (Cut c s); done.
Qed.

(** ** Reversal *)

Lemma srev_app_app a acc b : srev_app a acc +:+ b = srev_app a (acc +:+ b).
Proof. revert acc. induction a as [|c a IH]; intros acc; cbn; [done|]. rewrite IH. by rewrite scons_app. Qed.

Lemma srev_cat a b : srev (a +:+ b) = srev b +:+ srev a.
Proof.
  unfold srev. rewrite srev_app_app, snil_app. generalize "" at 1 2 as acc. revert b.
  induction a as [|c a IH]; intros b acc; [by rewrite snil_app|]. rewrite scons_app. cbn. apply IH.
Qed.

Lemma srev_cons c s : srev (String c s) = srev s +:+ String c "".
Proof. change (String c s) with (String c "" +:+ s). by rewrite srev_cat. Qed.

Lemma srev_srev s : srev (srev s) = s.
Proof.
  induction s as [|c s IH]; [done|].
  rewrite srev_cons, srev_cat, IH. done.
Qed.

(** Trimming on the left keeps a suffix, on both sides a prefix of it. *)
Lemma TrimLeftSpaceRev_suffix s : exists u, s = u +:+ TrimLeftSpaceRev s.
Proof.
  enough (forall n s, (String.length s <= n)%nat -> exists u, s = u +:+ TrimLeftSpaceRev s) by eauto.
  clear s. induction n as [|n IH]; intros s Hn; [destruct s; [by exists ""|cbn in Hn; lia]|].
  assert (Hrec : forall u t, s = u +:+ t -> (String.length t <= n)%nat ->
            exists v, s = v +:+ TrimLeftSpaceRev t).
  { intros u t -> Ht. destruct (IH t Ht) as [v Hv]. exists (u +:+ v). by rewrite sapp_assoc, <- Hv. }
  destruct s as [|a [|b [|c s]]]; cbn [String.length] in Hn; cbn [TrimLeftSpaceRev].
  - by exists "".
  - destruct (is_space1 _); [apply (Hrec (String a "") ""); cbn; [done|lia]|by exists ""].
  - destruct (is_space1 _); [apply (Hrec (String a "") (String b "")); cbn; [done|lia]|].
    destruct (is_space2 _ _); [apply (Hrec (String a (String b "")) ""); cbn; [done|lia]|by exists ""].
  - destruct (is_space1 _); [apply (Hrec (String a "") (String b (String c s))); cbn; [done|lia]|].
    destruct (is_space2 _ _); [apply (Hrec (String a (String b "")) (String c s)); cbn; [done|lia]|].
    destruct (is_space3 _ _ _); [apply (Hrec (String a (String b (String c ""))) s); cbn; [done|lia]|by exists ""].
Qed.

Lemma TrimSpace_prefix s : exists u, TrimLeftSpace s = TrimSpace s +:+ u.
Proof.
  unfold TrimSpace. destruct (TrimLeftSpaceRev_suffix (srev (TrimLeftSpace s))) as [u Hu].
  exists (srev u). by rewrite <- srev_cat, <- Hu, srev_srev.
Qed.
