(* ===== verification/GoEncoding.v ===== *)
(** Go's packages encoding/binary (big endian), encoding/hex and
    encoding/base64 (StdEncoding), as far as the repository uses them, with
    their round trips. *)
From S2P Require Import Prelude GoStrings.
#[local] Open Scope Z_scope.

(** ** binary.BigEndian *)

Definition PutUint16 (v : Z) : list byte := [mkbyte (v / 256); mkbyte v].
Definition PutUint32 (v : Z) : list byte :=
  [mkbyte (v / 2 ^ 24); mkbyte (v / 2 ^ 16); mkbyte (v / 2 ^ 8); mkbyte v].

Definition be_val (bs : list byte) : Z :=
  fold_left (fun acc b => acc * 256 + bval b) bs 0.
Definition Uint16 (bs : list byte) : Z := be_val (take 2 bs).
Definition Uint32 (bs : list byte) : Z := be_val (take 4 bs).

(** [b[i:j]] on a slice that is long enough. *)
Definition slice {A} (i j : nat) (l : list A) : list A := take (j - i) (drop i l).

(** ** hex *)

Definition hexval (c : ascii) : option Z :=
  let x := aval c in
  if (48 <=? x) && (x <=? 57) then Some (x - 48)
  else if (97 <=? x) && (x <=? 102) then Some (x - 87)
  else if (65 <=? x) && (x <=? 70) then Some (x - 55)
  else None.

(** [hex.InvalidByteError]: [%#U] of the byte. *)
Definition hex_invalid (c : ascii) : string :=
  "encoding/hex: invalid byte: U+00" +:+ smap upper1 (hexn 2 (aval c)).
Definition hex_errlen : string := "encoding/hex: odd length hex string".

(** [hex.DecodeString]: an invalid byte is reported before an odd length. *)
Fixpoint hex_DecodeString (s : string) : res (list byte) :=
  match s with
  | EmptyString => Ok []
  | String a EmptyString =>
      match hexval a with Some _ => Err hex_errlen | None => Err (hex_invalid a) end
  | String a (String b s) =>
      match hexval a, hexval b with
      | None, _ => Err (hex_invalid a)
      | _, None => Err (hex_invalid b)
      | Some x, Some y => r ← hex_DecodeString s; Ok (mkbyte (x * 16 + y) :: r)
      end
  end.

Fixpoint hex_EncodeToString (bs : list byte) : string :=
  match bs with
  | [] => ""
  | b :: bs => hexn 2 (bval b) +:+ hex_EncodeToString bs
  end.

(** ** base64.StdEncoding *)

Definition b64char (z : Z) : ascii :=
  if z <? 26 then achr (65 + z)
  else if z <? 52 then achr (71 + z)
  else if z <? 62 then achr (z - 4)
  else if z =? 62 then "+"%char else "/"%char.

Definition b64val (c : ascii) : option Z :=
  let x := aval c in
  if (65 <=? x) && (x <=? 90) then Some (x - 65)
  else if (97 <=? x) && (x <=? 122) then Some (x - 71)
  else if (48 <=? x) && (x <=? 57) then Some (x + 4)
  else if x =? 43 then Some 62
  else if x =? 47 then Some 63
  else None.

Definition pad : ascii := "="%char.

Fixpoint b64_EncodeToString (bs : list byte) : string :=
  match bs with
  | [] => ""
  | [a] =>
      let x := bval a in
      String (b64char (x / 4)) (String (b64char (x `mod` 4 * 16))
        (String pad (String pad "")))
  | [a; b] =>
      let x := bval a in let y := bval b in
      String (b64char (x / 4)) (String (b64char (x `mod` 4 * 16 + y / 16))
        (String (b64char (y `mod` 16 * 4)) (String pad "")))
  | a :: b :: c :: bs =>
      let x := bval a in let y := bval b in let z := bval c in
      String (b64char (x / 4)) (String (b64char (x `mod` 4 * 16 + y / 16))
        (String (b64char (y `mod` 16 * 4 + z / 64)) (String (b64char (z `mod` 64))
          (b64_EncodeToString bs))))
  end.

(** The decoder skips CR and LF anywhere. *)
Fixpoint b64_strip (s : string) : string :=
  match s with
  | EmptyString => ""
  | String c s =>
      if bool_decide (c = "010"%char) || bool_decide (c = "013"%char)
      then b64_strip s else String c (b64_strip s)
  end.

Fixpoint b64_quanta (s : string) : option (list byte) :=
  match s with
  | EmptyString => Some []
  | String c0 (String c1 (String c2 (String c3 s))) =>
      match b64val c0, b64val c1, b64val c2, b64val c3 with
      | Some p, Some q, Some r, Some t =>
          rest ← b64_quanta s;
          Some (mkbyte (p * 4 + q / 16) :: mkbyte (q `mod` 16 * 16 + r / 4)
                :: mkbyte (r `mod` 4 * 64 + t) :: rest)
      | Some p, Some q, Some r, None =>
          if bool_decide (c3 = pad) && bool_decide (s = "")
          then Some [mkbyte (p * 4 + q / 16); mkbyte (q `mod` 16 * 16 + r / 4)]
          else None
      | Some p, Some q, None, _ =>
          if bool_decide (c2 = pad) && bool_decide (c3 = pad) && bool_decide (s = "")
          then Some [mkbyte (p * 4 + q / 16)] else None
      | _, _, _, _ => None
      end
  | _ => None
  end.

Definition b64_DecodeString (s : string) : option (list byte) := b64_quanta (b64_strip s).

(** ** Lemmas *)

Lemma be_val_snoc bs b : be_val (bs ++ [b]) = be_val bs * 256 + bval b.
Proof. unfold be_val. by rewrite fold_left_app. Qed.

Lemma Uint16_Put v r : 0 ≤ v < 2 ^ 16 -> Uint16 (PutUint16 v ++ r) = v.
Proof.
  intros Hv. unfold Uint16, PutUint16, be_val. simpl. rewrite !bval_mkbyte.
  change (2 ^ 16) with 65536 in Hv.
  dlia.
Qed.

Lemma Uint32_Put v r : 0 ≤ v < 2 ^ 32 -> Uint32 (PutUint32 v ++ r) = v.
Proof.
  intros Hv. unfold Uint32, PutUint32, be_val. simpl. rewrite !bval_mkbyte.
  change (2 ^ 32) with 4294967296 in Hv. change (2 ^ 24) with 16777216.
  change (2 ^ 16) with 65536. change (2 ^ 8) with 256. dlia.
Qed.

Lemma be_val_range bs : 0 ≤ be_val bs < 256 ^ Z.of_nat (length bs).
Proof.
  induction bs as [|b bs IH] using rev_ind; [done|].
  rewrite be_val_snoc, length_app, Nat2Z.inj_add, Z.pow_add_r by lia.
  pose proof (bval_range b). simpl (256 ^ Z.of_nat (length [b])). lia.
Qed.

Lemma Uint16_range bs : 0 ≤ Uint16 bs < 2 ^ 16.
Proof.
  unfold Uint16. pose proof (be_val_range (take 2 bs)) as H.
  assert (length (take 2 bs) ≤ 2)%nat as Hlen by (rewrite length_take; lia).
  assert (256 ^ Z.of_nat (length (take 2 bs)) ≤ 256 ^ 2) by (apply Z.pow_le_mono_r; lia).
  change (2 ^ 16) with (256 ^ 2). lia.
Qed.

Lemma b64val_char z : 0 ≤ z < 64 -> b64val (b64char z) = Some z.
Proof.
  intros Hz. apply (bool_decide_eq_true_1 (b64val (b64char z) = Some z)).
  by refine (z_check (fun z => bool_decide (b64val (b64char z) = Some z)) 64 _ z Hz).
Qed.

Lemma b64char_clean z :
  0 ≤ z < 64 -> b64char z <> "010"%char /\ b64char z <> "013"%char.
Proof.
  intros Hz. apply (bool_decide_eq_true_1 (b64char z <> "010"%char /\ b64char z <> "013"%char)).
  by refine (z_check (fun z => bool_decide (b64char z <> "010"%char /\ b64char z <> "013"%char)) 64 _ z Hz).
Qed.

Lemma list_ind3 {A} (P : list A -> Prop) :
  P [] -> (forall a, P [a]) -> (forall a b, P [a; b]) ->
  (forall a b c l, P l -> P (a :: b :: c :: l)) -> forall l, P l.
Proof.
  intros H0 H1 H2 H3.
  refine (fix go l := match l with
                      | [] => H0 | [a] => H1 a | [a; b] => H2 a b
                      | a :: b :: c :: l => H3 a b c l (go l) end).
Qed.

Lemma b64_strip_cons c s :
  c <> "010"%char /\ c <> "013"%char -> b64_strip (String c s) = String c (b64_strip s).
Proof. intros [H1 H2]. simpl. by rewrite !bool_decide_false. Qed.

Ltac b64_bytes :=
  repeat match goal with b : byte |- _ =>
    lazymatch goal with
    | _ : 0 ≤ bval b < 256 |- _ => fail
    | _ => pose proof (bval_range b)
    end end.

Lemma b64_strip_encode bs : b64_strip (b64_EncodeToString bs) = b64_EncodeToString bs.
Proof.
  induction bs as [|a|a b|a b c bs IH] using list_ind3; cbn [b64_EncodeToString]; b64_bytes;
    rewrite ?b64_strip_cons by (apply b64char_clean; dlia); [done| | |by rewrite IH];
    by rewrite !b64_strip_cons by done.
Qed.

(** Decoding what was encoded gives the bytes back. *)
Lemma b64_roundtrip bs : b64_DecodeString (b64_EncodeToString bs) = Some bs.
Proof.
  unfold b64_DecodeString. rewrite b64_strip_encode.
  induction bs as [|a|a b|a b c bs IH] using list_ind3; cbn [b64_EncodeToString b64_quanta];
    b64_bytes; rewrite ?b64val_char by dlia; [done| | |].
  - rewrite !bool_decide_true by done. simpl. do 2 f_equal.
    rewrite <- (mkbyte_bval a) at 3. f_equal. dlia.
  - rewrite !bool_decide_true by done. simpl. do 2 f_equal.
    + rewrite <- (mkbyte_bval a) at 3. f_equal. dlia.
    + f_equal. rewrite <- (mkbyte_bval b) at 3. f_equal. dlia.
  - rewrite IH. simpl. do 2 f_equal; [|f_equal; [|f_equal]].
    + rewrite <- (mkbyte_bval a) at 3. f_equal. dlia.
    + rewrite <- (mkbyte_bval b) at 3. f_equal. dlia.
    + rewrite <- (mkbyte_bval c) at 3. f_equal. dlia.
Qed.

Lemma slice_length {A} i j (l : list A) :
  (i <= j)%nat -> (j <= length l)%nat -> length (slice i j l) = (j - i)%nat.
Proof. intros. unfold slice. rewrite length_take, length_drop. lia. Qed.

Lemma slice_lookup {A} i j k (l : list A) :
  (k < j - i)%nat -> slice i j l !! k = l !! (i + k)%nat.
Proof. intros. unfold slice. by rewrite lookup_take_lt, lookup_drop by done. Qed.

(** A slice of a concatenation that lies in its second part. *)
Lemma slice_app_r {A} i j n (l r : list A) :
  length l = n -> slice (n + i) (n + j) (l ++ r) = slice i j r.
Proof.
  intros <-. unfold slice. replace (length l + j - (length l + i))%nat with (j - i)%nat by lia.
  by rewrite drop_app_add'.
Qed.

Lemma slice_0_app {A} n (l r : list A) : length l = n -> slice 0 n (l ++ r) = l.
Proof. intros <-. unfold slice. rewrite Nat.sub_0_r, drop_0. apply take_app_length. Qed.

(** The other round trip: a field of two or four bytes is the encoding of its
    value. *)
Lemma mkbyte_of z b k : z = bval b + 256 * k -> mkbyte z = b.
Proof.
  intros ->. apply (inj bval). rewrite bval_mkbyte, Z.mul_comm, Z_mod_plus_full.
  apply Z.mod_small, bval_range.
Qed.

Lemma Put_Uint16 bs : length bs = 2%nat -> PutUint16 (Uint16 bs) = bs.
Proof.
  destruct bs as [|a [|b [|]]]; try done. intros _. unfold PutUint16, Uint16, be_val. cbn.
  pose proof (bval_range a). pose proof (bval_range b).
  f_equal; [|f_equal]; [apply (mkbyte_of _ _ 0) | apply (mkbyte_of _ _ (bval a))]; dlia.
Qed.

Lemma Put_Uint32 bs : length bs = 4%nat -> PutUint32 (Uint32 bs) = bs.
Proof.
  destruct bs as [|a [|b [|c [|d [|]]]]]; try done. intros _. unfold PutUint32, Uint32, be_val. cbn.
  pose proof (bval_range a). pose proof (bval_range b). pose proof (bval_range c).
  pose proof (bval_range d).
  repeat f_equal; [apply (mkbyte_of _ _ 0) | apply (mkbyte_of _ _ (bval a))
    | apply (mkbyte_of _ _ (bval a * 256 + bval b))
    | apply (mkbyte_of _ _ (bval a * 65536 + bval b * 256 + bval c))]; dlia.
Qed.

Lemma length_PutUint16 v : length (PutUint16 v) = 2%nat.
Proof. done. Qed.
Lemma length_PutUint32 v : length (PutUint32 v) = 4%nat.
Proof. done. Qed.

Lemma Uint32_range bs : 0 ≤ Uint32 bs < 2 ^ 32.
Proof.
  unfold Uint32. pose proof (be_val_range (take 4 bs)) as H.
  assert (256 ^ Z.of_nat (length (take 4 bs)) <= 256 ^ 4).
  { apply Z.pow_le_mono_r; [lia|]. rewrite length_take. lia. }
  lia.
Qed.

Lemma slice_skip {A} i j n (l r : list A) :
  length l = n -> (n <= i)%nat -> slice i j (l ++ r) = slice (i - n) (j - n) r.
Proof.
  intros Hl Hi. unfold slice. rewrite drop_app_ge by lia. rewrite Hl.
  f_equal. lia.
Qed.

(** Cutting a list at a position. *)
Lemma slice_drop {A} i j (l : list A) : (i <= j)%nat -> slice i j l ++ drop j l = drop i l.
Proof.
  intros H. unfold slice. replace j with (i + (j - i))%nat at 2 by lia.
  rewrite <- drop_drop. apply take_drop.
Qed.
