(* ===== verification/GoNet.v ===== *)
(** Go's package net, as far as the repository uses it: textual IP addresses,
    CIDR blocks, host:port strings.  An [IP] is a byte slice; [[]] is nil. *)
From S2P Require Import Prelude GoStrings GoEncoding.
#[local] Open Scope Z_scope.

Abbreviation IP := (list byte) (only parsing).

Definition v4InV6Prefix : list byte := replicate 10 x00 ++ [xff; xff].

Definition To4 (ip : IP) : option (list byte) :=
  if (length ip =? 4)%nat then Some ip
  else if (length ip =? 16)%nat && bool_decide (take 12 ip = v4InV6Prefix)
       then Some (drop 12 ip) else None.

Definition To16 (ip : IP) : IP :=
  if (length ip =? 4)%nat then v4InV6Prefix ++ ip
  else if (length ip =? 16)%nat then ip else [].

(** ** Parsing *)

Definition decval (c : ascii) : option Z :=
  let x := aval c in if (48 <=? x) && (x <=? 57) then Some (x - 48) else None.

Fixpoint dec_go (s : string) (acc : Z) : option Z :=
  match s with
  | EmptyString => Some acc
  | String c s => d ← decval c; dec_go s (acc * 10 + d)
  end.

(** A decimal number: digits only, at least one. *)
Definition dec_number (s : string) : option Z :=
  if bool_decide (s = "") then None else dec_go s 0.

(** One field of a dotted address: at most 255, no leading zero. *)
Definition v4_field (s : string) : option byte :=
  v ← dec_number s;
  if (255 <? v) || ((1 <? String.length s)%nat && HasPrefix s "0") then None
  else Some (mkbyte v).

Definition parseIPv4 (s : string) : option (list byte) :=
  match Split "."%char s with
  | [a; b; c; d] =>
      a ← v4_field a; b ← v4_field b; c ← v4_field c; d ← v4_field d;
      Some [a; b; c; d]
  | _ => None
  end.

(** The longest prefix of hexadecimal digits, and what follows it. *)
Fixpoint hex_run (s : string) : list Z * string :=
  match s with
  | EmptyString => ([], "")
  | String c s' =>
      match hexval c with
      | Some d => let '(ds, r) := hex_run s' in (d :: ds, r)
      | None => ([], s)
      end
  end.

(** The loop of [netip.parseIPv6]: [acc] holds the bytes read, [ell] the place
    of the double colon; [fuel] is the number of 2-byte fields still free. *)
Fixpoint v6_fields (fuel : nat) (s : string) (acc : list byte) (ell : option nat)
  : option (list byte * option nat * string) :=
  match fuel with
  | O => Some (acc, ell, s)
  | S fuel =>
      let '(ds, rest) := hex_run s in
      if (length ds =? 0)%nat || (4 <? length ds)%nat then None
      else
        let v := fold_left (fun a d => a * 16 + d) ds 0 in
        match rest with
        | EmptyString => Some (acc ++ PutUint16 v, ell, "")
        | String c rest' =>
            if bool_decide (c = "."%char) then
              if (bool_decide (ell = None) && negb (length acc =? 12)%nat)
                 || (16 <? length acc + 4)%nat then None
              else v4 ← parseIPv4 s; Some (acc ++ v4, ell, "")
            else if bool_decide (c = ":"%char) then
              match rest' with
              | EmptyString => None
              | String c2 rest2 =>
                  if bool_decide (c2 = ":"%char) then
                    match ell with
                    | Some _ => None
                    | None =>
                        let acc := acc ++ PutUint16 v in
                        if bool_decide (rest2 = "") then Some (acc, Some (length acc), "")
                        else v6_fields fuel rest2 acc (Some (length acc))
                    end
                  else v6_fields fuel rest' (acc ++ PutUint16 v) ell
              end
            else None
        end
  end.

Definition parseIPv6 (s : string) : option (list byte) :=
  if has_char "%"%char s then None else
  let finish r :=
    '(acc, ell, rest) ← r;
    if negb (bool_decide (rest = "")) then None
    else if (length acc <? 16)%nat then
      match ell with
      | None => None
      | Some e => Some (take e acc ++ replicate (16 - length acc) x00 ++ drop e acc)
      end
    else match ell with Some _ => None | None => Some acc end in
  if HasPrefix s "::" then
    if bool_decide (sdrop 2 s = "") then Some (replicate 16 x00)
    else finish (v6_fields 8 (sdrop 2 s) [] (Some O))
  else finish (v6_fields 8 s [] None).

(** [netip.ParseAddr] without zones: 4 or 16 bytes. *)
Fixpoint addr_kind (s : string) : option bool :=
  match s with
  | EmptyString => None
  | String c s =>
      if bool_decide (c = "."%char) then Some true
      else if bool_decide (c = ":"%char) then Some false
      else if bool_decide (c = "%"%char) then None
      else addr_kind s
  end.

Definition ParseAddr (s : string) : option (list byte) :=
  match addr_kind s with
  | Some true => parseIPv4 s
  | Some false => parseIPv6 s
  | None => None
  end.

(** [net.ParseIP]: 16 bytes, or nil. *)
Definition ParseIP (s : string) : IP :=
  match ParseAddr s with Some a => To16 a | None => [] end.

(** ** Printing *)

Fixpoint trim_zeros (s : string) : string :=
  match s with
  | String c ((String _ _) as s') => if bool_decide (c = "0"%char) then trim_zeros s' else s
  | _ => s
  end.

Fixpoint groups (ip : list byte) : list Z :=
  match ip with
  | a :: b :: r => bval a * 256 + bval b :: groups r
  | _ => []
  end.

Fixpoint zero_run (gs : list Z) : nat :=
  match gs with
  | g :: gs => if g =? 0 then S (zero_run gs) else O
  | [] => O
  end.

(** The first longest run of at least two zero groups: start and length. *)
Fixpoint best_run (i : nat) (gs : list Z) (best : option (nat * nat)) : option (nat * nat) :=
  match gs with
  | [] => best
  | _ :: gs' =>
      let l := zero_run gs in
      let cur := match best with Some (_, n) => n | None => O end in
      best_run (S i) gs'
        (if (2 <=? l)%nat && (cur <? l)%nat then Some (i, l) else best)
  end.

Definition show_group (g : Z) : string := trim_zeros (hexn 4 g).

Definition v6_string (ip : list byte) : string :=
  let gs := groups ip in
  match best_run 0 gs None with
  | None => Join ":" (map show_group gs)
  | Some (st, l) =>
      Join ":" (map show_group (take st gs)) +:+ "::" +:+
      Join ":" (map show_group (drop (st + l) gs))
  end.

Definition v4_string (ip : list byte) : string :=
  Join "." (map (fun b => fmt_d (bval b)) ip).

(** [IP.String] *)
Definition IP_String (ip : IP) : string :=
  match ip with
  | [] => "<nil>"
  | _ =>
      match To4 ip with
      | Some v4 => v4_string v4
      | None =>
          if (length ip =? 16)%nat then v6_string ip
          else "?" +:+ hex_EncodeToString ip
      end
  end.

(** ** CIDR blocks *)

Record IPNet := { net_IP : IP; net_Mask : list byte }.

(** [net.CIDRMask(n, 8 * len)] *)
Fixpoint CIDRMask (n : nat) (len : nat) : list byte :=
  match len with
  | O => []
  | S len =>
      (if (8 <=? n)%nat then xff else mkbyte (256 - 2 ^ (8 - Z.of_nat n)))
      :: CIDRMask (n - 8) len
  end.

Definition bland (a b : byte) : byte := mkbyte (Z.land (bval a) (bval b)).

(** [IP.Mask] for the lengths that occur: a 16-byte IP and a 4- or 16-byte mask. *)
Definition IP_Mask (ip : IP) (mask : list byte) : IP :=
  let ip := if (length mask =? 4)%nat && (length ip =? 16)%nat
               && bool_decide (take 12 ip = v4InV6Prefix) then drop 12 ip else ip in
  if (length ip =? length mask)%nat then zip_with bland ip mask else [].

Definition cidr_error (s : string) : string := "invalid CIDR address: " +:+ s.

(** [net.ParseCIDR]: the address and the block. *)
Definition ParseCIDR (s : string) : res (IP * IPNet) :=
  match Cut "/"%char s with
  | None => Err (cidr_error s)
  | Some (addr, mask) =>
      match ParseAddr addr, dec_number mask with
      | Some a, Some n =>
          if n <=? 8 * Z.of_nat (length a) then
            let m := CIDRMask (Z.to_nat n) (length a) in
            Ok (To16 a, {| net_IP := IP_Mask (To16 a) m; net_Mask := m |})
          else Err (cidr_error s)
      | _, _ => Err (cidr_error s)
      end
  end.

(** [networkNumberAndMask] *)
Definition net_number_mask (n : IPNet) : option (list byte * list byte) :=
  ip ← (match To4 (net_IP n) with
        | Some v4 => Some v4
        | None => if (length (net_IP n) =? 16)%nat then Some (net_IP n) else None
        end);
  let m := net_Mask n in
  if (length m =? 4)%nat then if (length ip =? 4)%nat then Some (ip, m) else None
  else if (length m =? 16)%nat then
    Some (ip, if (length ip =? 4)%nat then drop 12 m else m)
  else None.

(** The byte loop of [IPNet.Contains]. *)
Fixpoint masked_eq (nn m ip : list byte) : bool :=
  match nn, m, ip with
  | a :: nn, k :: m, b :: ip =>
      (Z.land (bval a) (bval k) =? Z.land (bval b) (bval k)) && masked_eq nn m ip
  | _, _, _ => true
  end.

Definition IPNet_Contains (n : IPNet) (ip : IP) : bool :=
  let ip := default ip (To4 ip) in
  match net_number_mask n with
  | None => (length ip =? 0)%nat
  | Some (nn, m) => (length ip =? length nn)%nat && masked_eq nn m ip
  end.

(** [IPNet.String] of a block made by [ParseCIDR]: the mask is canonical. *)
Fixpoint mask_ones (m : list byte) : Z :=
  match m with
  | [] => 0
  | b :: m => (if bval b =? 0 then 0 else 8 - Z.log2 (256 - bval b)) + mask_ones m
  end.
Definition IPNet_String (n : IPNet) : string :=
  match net_number_mask n with
  | None => "<nil>"
  | Some (nn, m) => IP_String nn +:+ "/" +:+ fmt_d (mask_ones m)
  end.

(** ** host:port *)

Definition addr_error (why addr : string) : string :=
  if bool_decide (addr = "") then why else "address " +:+ addr +:+ ": " +:+ why.
Definition missingPort : string := "missing port in address".
Definition tooManyColons : string := "too many colons in address".

Definition SplitHostPort (hp : string) : res (string * string) :=
  match CutLast ":"%char hp with
  | None => Err (addr_error missingPort hp)
  | Some (before, port) =>
      match hp with
      | String "["%char t =>
          match Cut "]"%char t with
          | None => Err (addr_error "missing ']' in address" hp)
          | Some (host, b) =>
              match b with
              | EmptyString => Err (addr_error missingPort hp)
              | String c p =>
                  if negb (bool_decide (c = ":"%char)) then Err (addr_error missingPort hp)
                  else if has_char ":"%char p then Err (addr_error tooManyColons hp)
                  else if has_char "["%char t then Err (addr_error "unexpected '[' in address" hp)
                  else if has_char "]"%char b then Err (addr_error "unexpected ']' in address" hp)
                  else Ok (host, port)
              end
          end
      | _ =>
          if has_char ":"%char before then Err (addr_error tooManyColons hp)
          else if has_char "["%char hp then Err (addr_error "unexpected '[' in address" hp)
          else if has_char "]"%char hp then Err (addr_error "unexpected ']' in address" hp)
          else Ok (before, port)
      end
  end.

Definition JoinHostPort (host port : string) : string :=
  if has_char ":"%char host then "[" +:+ host +:+ "]:" +:+ port
  else host +:+ ":" +:+ port.

(** A host with a colon and no bracket does not take a port. *)
Lemma SplitHostPort_colons host port : has_char ":"%char host = true -> (exists c r, host = String c r /\ c <> "["%char) ->
  has_char ":"%char port = false -> exists e, SplitHostPort (host +:+ ":" +:+ port) = Err e.
Proof.
  intros Hh (c & r & -> & Hc) Hp. unfold SplitHostPort.
  change (":" +:+ port) with (String ":"%char port). rewrite CutLast_app, Hh by done.
  exists (addr_error tooManyColons (String c r +:+ String ":" port)).
  change (String c r +:+ String ":" port) with (String c (r +:+ String ":" port)).
  destruct c as [[] [] [] [] [] [] [] []]; done.
Qed.

(** ** Checks on the documentation's examples *)

Example ParseIP_v4 : ParseIP "10.0.0.1" = v4InV6Prefix ++ [x0a; x00; x00; x01].
Proof. vm_compute. done. Qed.
Example ParseIP_bad :
  map ParseIP ["10.0.0"; "256.1.1.1"; "01.2.3.4"; "::1%eth0"; "1:2:3:4:5:6:7:8:9"; "1::2::3"; ":1"; ""]
  = replicate 8 [].
Proof. vm_compute. done. Qed.
Example ParseIP_v6_print :
  map (fun s => IP_String (ParseIP s))
    ["2001:db8::1"; "::"; "::1"; "1:0:0:2:0:0:0:3"; "::ffff:1.2.3.4"; "64:ff9b::1.2.3.4"; "fe80::"; "1:2:3:4:5:6:7:8"]
  = ["2001:db8::1"; "::"; "::1"; "1:0:0:2::3"; "1.2.3.4"; "64:ff9b::102:304"; "fe80::"; "1:2:3:4:5:6:7:8"].
Proof. vm_compute. done. Qed.
Example ParseCIDR_print :
  match ParseCIDR "192.168.17.5/20" with Ok (_, n) => IPNet_String n | Err e => e end = "192.168.16.0/20".
Proof. vm_compute. done. Qed.
Example SplitHostPort_examples :
  map SplitHostPort ["a:1"; "[::1]:443"; "::1"; "a"; "[::1]"; ":80"] =
  [Ok ("a", "1"); Ok ("::1", "443"); Err "address ::1: too many colons in address";
   Err "address a: missing port in address"; Err "address [::1]: missing port in address"; Ok ("", "80")].
Proof. vm_compute. done. Qed.

(** ** Containment is equality of the first bits

    [first_bits n ip] is the number made of the first [n] bits of an address. *)

Definition first_bits (n : nat) (ip : list byte) : Z :=
  be_val ip / 2 ^ (8 * Z.of_nat (length ip) - Z.of_nat n).

Lemma be_val_cons b bs : be_val (b :: bs) = bval b * 256 ^ Z.of_nat (length bs) + be_val bs.
Proof.
  induction bs as [|c bs IH] using rev_ind; [unfold be_val; simpl; lia|].
  rewrite app_comm_cons, !be_val_snoc, IH, length_app, Nat2Z.inj_add, Z.pow_add_r by lia.
  simpl (256 ^ Z.of_nat (length [c])). lia.
Qed.

Lemma land_mask_byte k b :
  0 ≤ k < 8 -> 0 ≤ b < 256 -> Z.land b (256 - 2 ^ (8 - k)) = b / 2 ^ (8 - k) * 2 ^ (8 - k).
Proof.
  intros Hk Hb. apply Z.eqb_eq. revert b Hb.
  apply (z_check (fun b => Z.land b (256 - 2 ^ (8 - k)) =? b / 2 ^ (8 - k) * 2 ^ (8 - k)) 256).
  revert k Hk.
  by apply (z_check (fun k => forallb (fun b => Z.land (Z.of_nat b) (256 - 2 ^ (8 - k)) =?
    Z.of_nat b / 2 ^ (8 - k) * 2 ^ (8 - k)) (seq 0 256)) 8).
Qed.

Lemma land_ff b : 0 ≤ b < 256 -> Z.land b 255 = b.
Proof. intros. change 255 with (Z.ones 8). rewrite Z.land_ones by lia. by apply Z.mod_small. Qed.

Lemma mask_byte_val n :
  (n < 8)%nat -> bval (mkbyte (256 - 2 ^ (8 - Z.of_nat n))) =
                 if (n =? 0)%nat then 0 else 256 - 2 ^ (8 - Z.of_nat n).
Proof. intros Hn. do 8 (destruct n as [|n]; [vm_compute; done|]). lia. Qed.

Lemma land_mask n b :
  (n < 8)%nat ->
  Z.land (bval b) (bval (mkbyte (256 - 2 ^ (8 - Z.of_nat n)))) =
  bval b / 2 ^ (8 - Z.of_nat n) * 2 ^ (8 - Z.of_nat n).
Proof.
  intros Hn. pose proof (bval_range b). rewrite mask_byte_val by done.
  destruct (Nat.eqb_spec n 0) as [->|].
  - rewrite Z.land_0_r. change (2 ^ (8 - Z.of_nat 0)) with 256. dlia.
  - apply land_mask_byte; lia.
Qed.

Lemma masked_eq_zero nn ip m :
  Forall (fun k => bval k = 0) m -> masked_eq nn m ip = true.
Proof.
  intros Hm. revert nn ip. induction Hm as [|k m Hk _ IH]; intros [|a nn] [|b ip]; simpl; try done.
  by rewrite Hk, !Z.land_0_r, Z.eqb_refl, IH.
Qed.

Lemma CIDRMask_0 len : Forall (fun k => bval k = 0) (CIDRMask 0 len).
Proof. induction len; simpl; constructor; done. Qed.

Lemma length_CIDRMask n len : length (CIDRMask n len) = len.
Proof. revert n. induction len; intros; simpl; auto. Qed.

(** Splitting a quotient at the first byte. *)
Lemma first_bits_cons_big n b bs :
  (8 <= n <= 8 * length (b :: bs))%nat ->
  first_bits n (b :: bs) =
  bval b * 2 ^ (Z.of_nat n - 8) + first_bits (n - 8) bs.
Proof.
  intros Hn. unfold first_bits. rewrite be_val_cons.
  cbn [length] in *.
  replace (8 * Z.of_nat (S (length bs)) - Z.of_nat n)
    with (8 * Z.of_nat (length bs) - Z.of_nat (n - 8)) by lia.
  set (e := 8 * Z.of_nat (length bs) - Z.of_nat (n - 8)).
  replace (256 ^ Z.of_nat (length bs)) with (2 ^ (Z.of_nat n - 8) * 2 ^ e).
  - rewrite Z.mul_assoc, Z.div_add_l by (apply Z.pow_nonzero; unfold e; lia). done.
  - rewrite <- Z.pow_add_r by (unfold e; lia). change 256 with (2 ^ 8).
    rewrite <- Z.pow_mul_r by lia. f_equal. unfold e. lia.
Qed.

Lemma first_bits_cons_small n b bs :
  (n < 8)%nat -> first_bits n (b :: bs) = bval b / 2 ^ (8 - Z.of_nat n).
Proof.
  intros Hn. unfold first_bits. rewrite be_val_cons. cbn [length].
  pose proof (be_val_range bs) as Hr. set (l := Z.of_nat (length bs)) in *.
  replace (8 * Z.of_nat (S (length bs)) - Z.of_nat n) with (8 * l + (8 - Z.of_nat n)) by lia.
  rewrite Z.pow_add_r by lia. replace (2 ^ (8 * l)) with (256 ^ l).
  - rewrite <- Z.div_div by (try apply Z.pow_nonzero; lia).
    rewrite Z.div_add_l by lia. rewrite (Z.div_small (be_val bs)) by done. by rewrite Z.add_0_r.
  - change 256 with (2 ^ 8). rewrite <- Z.pow_mul_r by lia. done.
Qed.

Lemma first_bits_range n bs :
  (n <= 8 * length bs)%nat -> 0 ≤ first_bits n bs < 2 ^ Z.of_nat n.
Proof.
  intros Hn. unfold first_bits. pose proof (be_val_range bs) as Hr. split.
  - apply Z.div_pos; [lia|]. apply Z.pow_pos_nonneg; lia.
  - apply Z.div_lt_upper_bound; [apply Z.pow_pos_nonneg; lia|].
    rewrite <- Z.pow_add_r by lia.
    replace (8 * Z.of_nat (length bs) - Z.of_nat n + Z.of_nat n)
      with (8 * Z.of_nat (length bs)) by lia.
    rewrite Z.pow_mul_r by lia. apply Hr.
Qed.

(** The byte loop under a CIDR mask compares the first [n] bits. *)
Lemma masked_eq_first_bits nn ip n :
  length nn = length ip -> (n <= 8 * length nn)%nat ->
  masked_eq nn (CIDRMask n (length nn)) ip = (first_bits n nn =? first_bits n ip).
Proof.
  revert ip n. induction nn as [|a nn IH]; intros [|b ip] n Hl Hn; try done; cbn [length] in Hn.
  injection Hl as Hl. cbn [length CIDRMask masked_eq].
  pose proof (bval_range a). pose proof (bval_range b).
  destruct (Nat.leb_spec 8 n) as [H8|H8].
  - change (bval xff) with 255. rewrite !land_ff by done.
    rewrite IH by lia. rewrite !first_bits_cons_big by (cbn [length]; lia).
    pose proof (first_bits_range (n - 8) nn ltac:(lia)).
    pose proof (first_bits_range (n - 8) ip ltac:(lia)).
    replace (Z.of_nat (n - 8)) with (Z.of_nat n - 8) in * by lia.
    set (p := 2 ^ (Z.of_nat n - 8)) in *. apply Bool.eq_iff_eq_true.
    rewrite andb_true_iff, !Z.eqb_eq. split; [intros [-> ->]; done|]. intros He.
    assert (bval a = bval b) as Hab by nia. rewrite Hab in *. split; [done|lia].
  - replace (n - 8)%nat with 0%nat by lia.
    rewrite masked_eq_zero by apply CIDRMask_0. rewrite andb_true_r.
    rewrite !land_mask by done. rewrite !first_bits_cons_small by done.
    assert (0 < 2 ^ (8 - Z.of_nat n)) by (apply Z.pow_pos_nonneg; lia).
    apply Bool.eq_iff_eq_true. rewrite !Z.eqb_eq. split; [nia | by intros ->].
Qed.

Lemma masked_eq_mask nn m ip :
  length nn = length m -> masked_eq (zip_with bland nn m) m ip = masked_eq nn m ip.
Proof.
  revert m ip. induction nn as [|a nn IH]; intros [|k m] [|b ip] Hl; try done.
  injection Hl as Hl. simpl. rewrite IH by done. f_equal. f_equal.
  unfold bland. rewrite bval_mkbyte.
  pose proof (bval_range a). pose proof (bval_range k).
  change 256 with (2 ^ 8). rewrite <- Z.land_ones by lia. change (Z.ones 8) with 255.
  rewrite <- (Z.land_assoc _ (bval k) 255), land_ff by done.
  by rewrite <- Z.land_assoc, Z.land_diag.
Qed.

Lemma length_zip_bland a m : length a = length m -> length (zip_with bland a m) = length a.
Proof. intros. rewrite length_zip_with. lia. Qed.

Lemma To4_length ip v4 : To4 ip = Some v4 -> length v4 = 4%nat.
Proof.
  unfold To4. destruct (Nat.eqb_spec (length ip) 4); [intros [= <-]; done|].
  destruct (Nat.eqb_spec (length ip) 16) as [H|]; [|done]. simpl.
  case_bool_decide; [|done]. intros [= <-]. rewrite length_drop. lia.
Qed.

Lemma To4_of_4 ip : length ip = 4%nat -> To4 ip = Some ip.
Proof. intros H. unfold To4. by rewrite H. Qed.

(** A block over the address [a] (4 or 16 bytes) with [n] bits, as [ParseCIDR]
    builds it. *)
Definition block_of (a : list byte) (n : nat) : IPNet :=
  let m := CIDRMask n (length a) in {| net_IP := IP_Mask (To16 a) m; net_Mask := m |}.

Lemma ParseCIDR_block s ip net :
  ParseCIDR s = Ok (ip, net) ->
  exists a n, ip = To16 a /\ (n <= 8 * length a)%nat /\ net = block_of a n.
Proof.
  unfold ParseCIDR. intros H. destruct (Cut "/"%char s) as [[x y]|]; [|done].
  destruct (ParseAddr x) as [a|]; [|done]. destruct (dec_number y) as [n|]; [|done].
  destruct (Z.leb_spec n (8 * Z.of_nat (length a))); [|done]. simplify_eq.
  exists a, (Z.to_nat n). split_and!; [done|lia|done].
Qed.

(** Containment in a block made by [ParseCIDR]: same family, same first bits. *)
Lemma block_of_IP a n :
  (length a = 4 \/ length a = 16)%nat ->
  net_IP (block_of a n) = zip_with bland a (CIDRMask n (length a)).
Proof.
  intros [Ha|Ha]; unfold block_of, IP_Mask, To16; cbn [net_IP]; rewrite Ha, length_CIDRMask.
  - destruct a as [|b0 [|b1 [|b2 [|b3 [|]]]]]; done.
  - cbn [Nat.eqb andb]. by rewrite Ha.
Qed.

Lemma Contains_v4 a n ip :
  length a = 4%nat -> (n <= 32)%nat ->
  IPNet_Contains (block_of a n) ip =
  match To4 ip with
  | Some v4 => first_bits n a =? first_bits n v4
  | None => false
  end.
Proof.
  intros Ha Hn. unfold IPNet_Contains, net_number_mask.
  rewrite block_of_IP by auto. cbn [net_Mask block_of].
  set (m := CIDRMask n (length a)).
  assert (Hm : length m = 4%nat) by (unfold m; by rewrite length_CIDRMask).
  assert (Hz : length (zip_with bland a m) = 4%nat) by (rewrite length_zip_bland; lia).
  rewrite (To4_of_4 _ Hz). cbn [mbind option_bind]. rewrite Hm, Hz. cbn [Nat.eqb].
  destruct (To4 ip) as [v4|] eqn:E; cbn [default from_option]; unfold id.
  - apply To4_length in E. rewrite E, Hz. cbn [Nat.eqb andb].
    rewrite masked_eq_mask by lia. apply masked_eq_first_bits; lia.
  - unfold To4 in E. rewrite Hz. by destruct (Nat.eqb_spec (length ip) 4).
Qed.

Lemma Contains_v6 a n ip :
  length a = 16%nat -> (n <= 128)%nat -> To4 (net_IP (block_of a n)) = None ->
  IPNet_Contains (block_of a n) ip =
  match To4 ip with
  | Some _ => false
  | None => (length ip =? 16)%nat && (first_bits n a =? first_bits n ip)
  end.
Proof.
  intros Ha Hn H4. unfold IPNet_Contains, net_number_mask. rewrite H4.
  rewrite block_of_IP by auto. cbn [net_Mask block_of].
  set (m := CIDRMask n (length a)).
  assert (Hm : length m = 16%nat) by (unfold m; by rewrite length_CIDRMask).
  assert (Hz : length (zip_with bland a m) = 16%nat) by (rewrite length_zip_bland; lia).
  rewrite Hz. cbn [Nat.eqb mbind option_bind]. rewrite Hm, Hz. cbn [Nat.eqb].
  destruct (To4 ip) as [v4|] eqn:E; cbn [default from_option]; unfold id.
  - apply To4_length in E. by rewrite E, Hz.
  - rewrite Hz. destruct (Nat.eqb_spec (length ip) 16) as [Hip|]; [|done]. cbn [andb].
    rewrite masked_eq_mask by lia. apply masked_eq_first_bits; lia.
Qed.

(** ** Decimal numbers are read back *)

Lemma decval_pretty_char d : (d < 10)%N -> decval (pretty_N_char d) = Some (Z.of_N d).
Proof.
  intros Hd. assert (Hs : d ∈ [0; 1; 2; 3; 4; 5; 6; 7; 8; 9]%N) by (rewrite !elem_of_cons; lia).
  repeat (apply elem_of_cons in Hs as [->|Hs]; [done|]). by apply elem_of_nil in Hs.
Qed.

Lemma dec_go_pretty x s : dec_go (pretty_N_go x s) 0 = dec_go s (Z.of_N x).
Proof.
  revert s. induction (N.lt_wf_0 x) as [x _ IH]. intros s.
  destruct (decide (0 < x)%N) as [Hx|Hx]; [|by replace x with 0%N by lia].
  rewrite pretty_N_go_step by done. rewrite IH by (by apply N.div_lt). cbn [dec_go].
  rewrite decval_pretty_char by (by apply N.mod_lt). cbn [mbind option_bind]. f_equal.
  rewrite N2Z.inj_div, N2Z.inj_mod. cbn. pose proof (Z.div_mod (Z.of_N x) 10). lia.
Qed.

Lemma pretty_N_go_not_empty x s : s <> "" -> pretty_N_go x s <> "".
Proof.
  revert s. induction (N.lt_wf_0 x) as [x _ IH]. intros s Hs.
  destruct (decide (0 < x)%N) as [Hx|Hx]; [|by replace x with 0%N by lia].
  rewrite pretty_N_go_step by done. apply IH; [by apply N.div_lt|done].
Qed.

Lemma dec_number_fmt z : 0 <= z -> dec_number (fmt_d z) = Some z.
Proof.
  intros Hz. unfold fmt_d, dec_number. destruct z as [|q|q]; [done| |lia].
  change (pretty (Z.pos q)) with (pretty (N.pos q)). unfold pretty, pretty_N. case_decide; [done|].
  rewrite bool_decide_false; [by rewrite dec_go_pretty|].
  rewrite pretty_N_go_step by lia. by apply pretty_N_go_not_empty.
Qed.

Lemma dec_go_no_char c s acc v : decval c = None -> dec_go s acc = Some v -> has_char c s = false.
Proof.
  intros Hc. revert acc. induction s as [|d s IH]; intros acc; [done|]. cbn.
  destruct (decval d) eqn:Ed; [|done]. cbn. intros H. rewrite (IH _ H), bool_decide_false; [done|congruence].
Qed.

Lemma fmt_d_no_char c z : 0 <= z -> decval c = None -> has_char c (fmt_d z) = false.
Proof.
  intros Hz Hc. pose proof (dec_number_fmt z Hz) as H. unfold dec_number in H. case_bool_decide; [done|].
  by apply (dec_go_no_char c _ 0 z).
Qed.

(** ** An IPv4 block is read back from its text *)

Definition plain_num (z : Z) : bool :=
  bool_decide (v4_field (fmt_d z) = Some (mkbyte z)) &&
  bool_decide (dec_number (fmt_d z) = Some z) &&
  negb (has_char "."%char (fmt_d z)) && negb (has_char ":"%char (fmt_d z)) &&
  negb (has_char "%"%char (fmt_d z)) && negb (has_char "/"%char (fmt_d z)).

Lemma plain_num_byte b : plain_num (bval b) = true.
Proof. apply (z_check plain_num 256); [vm_compute; done|apply bval_range]. Qed.

Lemma plain_num_spec z : plain_num z = true ->
  v4_field (fmt_d z) = Some (mkbyte z) /\ dec_number (fmt_d z) = Some z /\
  has_char "."%char (fmt_d z) = false /\ has_char ":"%char (fmt_d z) = false /\
  has_char "%"%char (fmt_d z) = false /\ has_char "/"%char (fmt_d z) = false.
Proof.
  unfold plain_num. rewrite !andb_true_iff, !negb_true_iff, !bool_decide_eq_true. tauto.
Qed.

Lemma addr_kind_app x s :
  has_char "."%char x = false -> has_char ":"%char x = false -> has_char "%"%char x = false ->
  addr_kind (x +:+ s) = addr_kind s.
Proof.
  induction x as [|c x IH]; intros H1 H2 H3; [done|]. cbn in *.
  apply orb_false_iff in H1 as [Hc1 H1], H2 as [Hc2 H2], H3 as [Hc3 H3].
  apply bool_decide_eq_false in Hc1, Hc2, Hc3.
  rewrite scons_app. cbn [addr_kind]. rewrite !bool_decide_false by done. by apply IH.
Qed.

Lemma v4_string_text a : length a = 4%nat ->
  has_char "/"%char (v4_string a) = false /\ ParseAddr (v4_string a) = Some a.
Proof.
  intros Ha. destruct a as [|b0 [|b1 [|b2 [|b3 [|]]]]]; try done.
  destruct (plain_num_spec _ (plain_num_byte b0)) as (F0 & _ & D0 & C0 & P0 & S0).
  destruct (plain_num_spec _ (plain_num_byte b1)) as (F1 & _ & D1 & C1 & P1 & S1).
  destruct (plain_num_spec _ (plain_num_byte b2)) as (F2 & _ & D2 & C2 & P2 & S2).
  destruct (plain_num_spec _ (plain_num_byte b3)) as (F3 & _ & D3 & C3 & P3 & S3).
  rewrite !mkbyte_bval in *. split.
  - unfold v4_string. cbn [map Join]. by rewrite !has_char_app, S0, S1, S2, S3.
  - unfold ParseAddr.
    assert (Hk : addr_kind (v4_string [b0; b1; b2; b3]) = Some true).
    { unfold v4_string. cbn [map Join]. by rewrite addr_kind_app by done. }
    rewrite Hk. unfold parseIPv4, v4_string. change "."%string with (String "."%char "").
    rewrite Split_Join; [|done|repeat constructor; done].
    cbn [map]. by rewrite F0, F1, F2, F3.
Qed.

Lemma bland_idemp a m : bland (bland a m) m = bland a m.
Proof.
  apply bval_inj. unfold bland. rewrite !bval_mkbyte.
  assert (Hl : 0 ≤ Z.land (bval a) (bval m) < 256).
  { pose proof (bval_range a). pose proof (bval_range m). split; [apply Z.land_nonneg; lia|].
    apply Z.log2_lt_cancel. change (Z.log2 256) with 8.
    eapply Z.le_lt_trans; [apply Z.log2_land; lia|]. apply Z.min_lt_iff. left.
    destruct (Z.eq_dec (bval a) 0) as [->|]; [done|]. apply Z.log2_lt_pow2; lia. }
  rewrite (Z.mod_small (Z.land (bval a) (bval m))) by done.
  rewrite <- Z.land_assoc, Z.land_diag. by apply Z.mod_small.
Qed.

Lemma zip_bland_idemp a m : zip_with bland (zip_with bland a m) m = zip_with bland a m.
Proof. revert m. induction a as [|x a IH]; intros [|y m]; cbn; [done..|]. by rewrite bland_idemp, IH. Qed.

Lemma mask_ones_CIDRMask n : (n <= 32)%nat -> mask_ones (CIDRMask n 4) = Z.of_nat n.
Proof.
  intros Hn. pose proof (z_check (fun z => mask_ones (CIDRMask (Z.to_nat z) 4) =? z) 33 ltac:(vm_compute; done)
    (Z.of_nat n) ltac:(lia)) as H. cbn beta in H. rewrite Nat2Z.id in H. by apply Z.eqb_eq.
Qed.

Lemma ParseCIDR_String a n : length a = 4%nat -> (n <= 32)%nat ->
  exists ip, ParseCIDR (IPNet_String (block_of a n)) = Ok (ip, block_of a n).
Proof.
  intros Ha Hn. pose proof (block_of_IP a n (or_introl Ha)) as Hip.
  assert (Hm : net_Mask (block_of a n) = CIDRMask n 4) by (unfold block_of; by rewrite Ha).
  set (a' := zip_with bland a (CIDRMask n 4)). rewrite Ha in Hip. fold a' in Hip.
  assert (Ha' : length a' = 4%nat) by (unfold a'; rewrite length_zip_bland; [done|by rewrite length_CIDRMask]).
  assert (Hs : IPNet_String (block_of a n) = v4_string a' +:+ "/" +:+ fmt_d (Z.of_nat n)).
  { unfold IPNet_String, net_number_mask. rewrite Hip, Hm, (To4_of_4 _ Ha'). cbn [mbind option_bind].
    rewrite length_CIDRMask, Ha'. cbn [Nat.eqb]. rewrite mask_ones_CIDRMask by done.
    unfold IP_String. rewrite (To4_of_4 _ Ha'). destruct a'; done. }
  destruct (v4_string_text a' Ha') as [Hc Hp].
  assert (Hd : dec_number (fmt_d (Z.of_nat n)) = Some (Z.of_nat n)) by (apply dec_number_fmt; lia).
  exists (To16 a'). unfold ParseCIDR. rewrite Hs. change ("/" +:+ ?x) with (String "/"%char x).
  rewrite (Cut_app _ _ _ Hc), Hp, Hd, Ha'. destruct (Z.leb_spec (Z.of_nat n) (8 * Z.of_nat 4)); [|lia].
  rewrite Nat2Z.id. do 2 f_equal.
  pose proof (block_of_IP a' n (or_introl Ha')) as Hip'. unfold block_of in Hip'. cbn [net_IP] in Hip'.
  rewrite Ha' in Hip'. rewrite Hip'. unfold a' at 1. rewrite zip_bland_idemp. fold a'.
  rewrite <- Hip, <- Hm. by destruct (block_of a n).
Qed.
