(* ===== verification/GoHttp.v ===== *)
(** Go's package net/http, as far as the repository uses it: canonical header
    names, the state of a ResponseWriter, [http.Error], the status codes; and of
    package net/url: escaping, URLs, queries. *)
From S2P Require Import Prelude GoStrings GoEncoding.
#[local] Open Scope Z_scope.

Definition StatusOK : Z := 200.
Definition StatusNoContent : Z := 204.
Definition StatusTemporaryRedirect : Z := 307.
Definition StatusBadRequest : Z := 400.
Definition StatusUnauthorized : Z := 401.
Definition StatusForbidden : Z := 403.
Definition StatusNotFound : Z := 404.
Definition StatusMethodNotAllowed : Z := 405.
Definition StatusProxyAuthRequired : Z := 407.
Definition StatusConflict : Z := 409.
Definition StatusTooManyRequests : Z := 429.
Definition StatusInternalServerError : Z := 500.
Definition StatusBadGateway : Z := 502.
Definition StatusServiceUnavailable : Z := 503.
Definition StatusGatewayTimeout : Z := 504.

(** [textproto.CanonicalMIMEHeaderKey] on header names made of token bytes. *)
Fixpoint canon_go (up : bool) (s : string) : string :=
  match s with
  | EmptyString => ""
  | String c s =>
      String ((if up then upper1 else lower1) c) (canon_go (bool_decide (c = "-"%char)) s)
  end.
Definition CanonicalKey (s : string) : string := canon_go true s.

Abbreviation header := (gmap string string) (only parsing).

Definition Header_Get (h : header) (k : string) : string := default "" (h !! CanonicalKey k).
Definition Header_Set (h : header) (k v : string) : header := <[CanonicalKey k := v]> h.

(** A response: the header map the handler edits, the status and the headers
    that went out with the first [WriteHeader], and the body. *)
Record response := {
  w_header : header;
  w_status : option Z;
  w_sent : header;
  w_body : string;
}.

Definition new_response : response :=
  {| w_header := ∅; w_status := None; w_sent := ∅; w_body := "" |}.

Definition SetHeader (k v : string) (w : response) : response :=
  {| w_header := Header_Set (w_header w) k v; w_status := w_status w;
     w_sent := w_sent w; w_body := w_body w |}.

(** Only the first call has an effect; it sends the header map. *)
Definition WriteHeader (code : Z) (w : response) : response :=
  match w_status w with
  | Some _ => w
  | None => {| w_header := w_header w; w_status := Some code;
               w_sent := w_header w; w_body := w_body w |}
  end.

(** [w.Write]: an implicit [WriteHeader(200)] first. *)
Definition WriteBody (s : string) (w : response) : response :=
  let w := WriteHeader StatusOK w in
  {| w_header := w_header w; w_status := w_status w; w_sent := w_sent w;
     w_body := w_body w +:+ s |}.

Definition Flush (w : response) : response := WriteHeader StatusOK w.

(** [http.Error] *)
Definition http_Error (msg : string) (code : Z) (w : response) : response :=
  WriteBody (msg +:+ nls)
    (WriteHeader code
      (SetHeader "X-Content-Type-Options" "nosniff"
        (SetHeader "Content-Type" "text/plain; charset=utf-8" w))).

(** What the server sends when a handler returns: a handler that wrote nothing
    answers 200. *)
Definition final_status (w : response) : Z := default StatusOK (w_status w).

Record request := {
  r_Method : string;
  r_Host : string;
  r_URLHost : string;
  r_Path : string;
  r_Query : gmap string string;   (* first value of each key *)
  r_Header : header;
  r_RemoteAddr : string;
  r_ProtoMajor : Z;
}.

Definition Query_Get (r : request) (k : string) : string := default "" (r_Query r !! k).

Definition MethodGet : string := "GET".
Definition MethodPost : string := "POST".
Definition MethodPut : string := "PUT".
Definition MethodPatch : string := "PATCH".
Definition MethodDelete : string := "DELETE".
Definition MethodOptions : string := "OPTIONS".
Definition MethodConnect : string := "CONNECT".

(** [http.StatusText] of the codes above. *)
Definition StatusText (code : Z) : string :=
  default "" ((list_to_map
    [(200, "OK"); (204, "No Content"); (307, "Temporary Redirect"); (400, "Bad Request");
     (401, "Unauthorized"); (403, "Forbidden"); (404, "Not Found"); (405, "Method Not Allowed");
     (407, "Proxy Authentication Required"); (409, "Conflict"); (429, "Too Many Requests");
     (500, "Internal Server Error"); (502, "Bad Gateway"); (503, "Service Unavailable");
     (504, "Gateway Timeout")] : gmap Z string) !! code).

(** A header value the HTTP client sends: no control character but a tab. *)
Definition field_char (c : ascii) : bool := (32 <=? aval c) && negb (aval c =? 127) || (aval c =? 9).
Fixpoint valid_field (s : string) : bool :=
  match s with EmptyString => true | String c s => field_char c && valid_field s end.
Definition sendable (r : request) : bool := bool_decide (map_Forall (fun _ v => valid_field v = true) (r_Header r)).

Lemma valid_field_app a b : valid_field (a +:+ b) = valid_field a && valid_field b.
Proof. induction a as [|c a IH]; [done|]. rewrite scons_app. cbn. by rewrite IH, andb_assoc. Qed.

Lemma b64_valid bs : valid_field (b64_EncodeToString bs) = true.
Proof.
  assert (Hc : forall z, 0 <= z < 64 -> field_char (b64char z) = true)
    by (intros z Hz; by refine (z_check (fun z => field_char (b64char z)) 64 _ z Hz)).
  induction bs as [|a|a b|a b c bs IH] using list_ind3; cbn [b64_EncodeToString valid_field]; b64_bytes;
    rewrite ?Hc by dlia; [done..|by rewrite IH].
Qed.

(** [resp.Status] of a client. *)
Definition status_line (code : Z) : string := fmt_d code +:+ " " +:+ StatusText code.

(** ** URLs (package net/url) *)

Definition is_ctl (c : ascii) : bool := (aval c <? 32) || (aval c =? 127).
Fixpoint has_ctl (s : string) : bool :=
  match s with EmptyString => false | String c s => is_ctl c || has_ctl s end.

(** [QueryUnescape]; the error is the escape it quotes. *)
Fixpoint QueryUnescape (s : string) : res string :=
  match s with
  | EmptyString => Ok ""
  | String c s1 =>
      if bool_decide (c = "%"%char) then
        match s1 with
        | String a (String b s2) =>
            match hexval a, hexval b with
            | Some x, Some y => r ← QueryUnescape s2; Ok (String (achr (16 * x + y)) r)
            | _, _ => Err (stake 3 s)
            end
        | _ => Err s
        end
      else r ← QueryUnescape s1; Ok (String (if bool_decide (c = "+"%char) then " "%char else c) r)
  end.

(** One piece of a query between ampersands. *)
Definition query_pair (kv : string) : option (string * string) :=
  if has_char ";"%char kv || bool_decide (kv = "") then None
  else
    let '(k, v) := default (kv, "") (Cut "="%char kv) in
    match QueryUnescape k, QueryUnescape v with
    | Ok k, Ok v => Some (k, v)
    | _, _ => None
    end.

(** [URL.Query], the first value of each key. *)
Definition ParseQuery (raw : string) : gmap string string :=
  foldr (fun kv m => <[kv.1 := kv.2]> m) ∅ (omap query_pair (Split "&"%char raw)).

(** What [url.Parse] makes of the part of a URL behind the authority: the path
    and the raw query.  The fragment is checked and dropped. *)
Definition parse_target (t : string) : res (string * string) :=
  let '(u, frag) := match Cut "#"%char t with Some (u, f) => (u, f) | None => (t, "") end in
  if has_ctl u then Err "net/url: invalid control character in URL"
  else match QueryUnescape frag with
       | Err e => Err ("invalid URL escape " +:+ String dq (e +:+ String dq ""))
       | Ok _ => Ok (default (u, "") (Cut "?"%char u))
       end.

(** ** Lemmas *)

(** Text that a query carries as it is. *)
Definition query_safe (s : string) : bool :=
  negb (has_ctl s) && negb (has_char "%"%char s) && negb (has_char "+"%char s) &&
  negb (has_char "&"%char s) && negb (has_char ";"%char s) && negb (has_char "#"%char s) &&
  negb (has_char " "%char s) && negb (has_char "?"%char s).

Lemma query_safe_spec s : query_safe s = true ->
  has_ctl s = false /\ has_char "%"%char s = false /\ has_char "+"%char s = false /\
  has_char "&"%char s = false /\ has_char ";"%char s = false /\ has_char "#"%char s = false /\
  has_char " "%char s = false /\ has_char "?"%char s = false.
Proof. unfold query_safe. rewrite !andb_true_iff, !negb_true_iff. tauto. Qed.

Lemma has_ctl_app a b : has_ctl (a +:+ b) = has_ctl a || has_ctl b.
Proof. induction a as [|c a IH]; [done|]. rewrite scons_app. cbn. by rewrite IH, orb_assoc. Qed.

Lemma QueryUnescape_plain s :
  has_char "%"%char s = false -> has_char "+"%char s = false -> QueryUnescape s = Ok s.
Proof.
  induction s as [|c s IH]; intros H1 H2; [done|]. cbn in H1, H2.
  apply orb_false_iff in H1 as [Hc1 H1], H2 as [Hc2 H2].
  cbn [QueryUnescape]. rewrite Hc1, Hc2, IH by done. done.
Qed.

(** A key and a plain value, read as they were written. *)
Lemma query_pair_plain k v :
  has_char "="%char k = false -> has_char ";"%char k = false ->
  has_char "%"%char k = false -> has_char "+"%char k = false ->
  query_safe v = true -> query_pair (k +:+ String "="%char v) = Some (k, v).
Proof.
  intros H1 H2 H3 H4 (Hv1 & Hv2 & Hv3 & _ & Hv5 & _)%query_safe_spec. unfold query_pair.
  rewrite has_char_app, H2. cbn [has_char orb]. rewrite Hv5, orb_false_r.
  rewrite !bool_decide_false; [|by destruct k|done]. cbn [orb].
  rewrite (Cut_app _ _ _ H1). cbn [default from_option id].
  by rewrite !QueryUnescape_plain.
Qed.

Lemma WriteHeader_fresh code w :
  w_status w = None ->
  w_status (WriteHeader code w) = Some code /\ w_sent (WriteHeader code w) = w_header w.
Proof. intros H. unfold WriteHeader. by rewrite H. Qed.

Lemma WriteHeader_again code w c :
  w_status w = Some c -> WriteHeader code w = w.
Proof. intros H. unfold WriteHeader. by rewrite H. Qed.

Lemma http_Error_status msg code w :
  w_status w = None -> w_status (http_Error msg code w) = Some code.
Proof. intros H. unfold http_Error, WriteBody, WriteHeader; simpl. by rewrite H. Qed.

(** Headers set after the status was sent are not sent. *)
Lemma SetHeader_late k v w c :
  w_status w = Some c -> w_sent (SetHeader k v w) = w_sent w /\ w_status (SetHeader k v w) = Some c.
Proof. done. Qed.

Lemma Header_Get_Set_eq h k v : Header_Get (Header_Set h k v) k = v.
Proof. unfold Header_Get, Header_Set. by rewrite lookup_insert_eq. Qed.

#[export] Hint Resolve http_Error_status : go.
