(* ===== verification/GoOS.v ===== *)
(** Go's packages os and path/filepath, as far as the repository uses them: a
    flat file system, with the paths on which the operating system refuses
    access and a disk that may take only the beginning of a write, and the
    operations on paths. *)
From S2P Require Import Prelude GoStrings.

(** The files, the paths on which access is refused, and those on which the disk
    is full: how many bytes a write to them still takes. *)
Record fs := { fs_files : gmap string string; fs_locked : gset string; fs_full : gmap string nat }.

Definition err_perm (op p : string) : string := op +:+ " " +:+ p +:+ ": permission denied".
Definition err_space (p : string) : string := "write " +:+ p +:+ ": no space left on device".
Definition err_noent (op p : string) : string :=
  op +:+ " " +:+ p +:+ ": no such file or directory".

Definition ReadFile (f : fs) (p : string) : res string :=
  if bool_decide (p ∈ fs_locked f) then Err (err_perm "open" p)
  else match fs_files f !! p with
       | Some s => Ok s
       | None => Err (err_noent "open" p)
       end.

(** [os.Stat] fails with IsNotExist exactly on an absent file. *)
Definition file_exists (f : fs) (p : string) : bool := bool_decide (is_Some (fs_files f !! p)).

Definition set_files (f : fs) (m : gmap string string) : fs :=
  {| fs_files := m; fs_locked := fs_locked f; fs_full := fs_full f |}.

(** What reaches the disk of a text written to an empty file. *)
Definition written (f : fs) (p s : string) : string :=
  match fs_full f !! p with Some n => stake n s | None => s end.

(** [os.WriteFile] opens with O_TRUNC: when the write fails, the file is left
    with what was written of the text. *)
Definition WriteFile (f : fs) (p s : string) : fs * option string :=
  if bool_decide (p ∈ fs_locked f) then (f, Some (err_perm "open" p))
  else (set_files f (<[p := written f p s]> (fs_files f)),
        if bool_decide (written f p s = s) then None else Some (err_space p)).

Definition Remove (f : fs) (p : string) : fs * option string :=
  if bool_decide (p ∈ fs_locked f) then (f, Some (err_perm "remove" p))
  else match fs_files f !! p with
       | Some _ => (set_files f (delete p (fs_files f)), None)
       | None => (f, Some (err_noent "remove" p))
       end.

Definition Rename (f : fs) (p q : string) : fs * option string :=
  if bool_decide (p ∈ fs_locked f) || bool_decide (q ∈ fs_locked f)
  then (f, Some (err_perm "rename" p))
  else match fs_files f !! p with
       | Some s => (set_files f (<[q := s]> (delete p (fs_files f))), None)
       | None => (f, Some (err_noent "rename" p))
       end.

(** [toml.DecodeFile] for a decoder of the file's text. *)
Definition DecodeFile {A} (decode : string -> res A) (f : fs) (p : string) : res A :=
  s ← ReadFile f p; decode s.

(** A flat file system has every directory; a locked one cannot be made. *)
Definition MkdirAll (f : fs) (d : string) : option string :=
  if bool_decide (d ∈ fs_locked f) then Some (err_perm "mkdir" d) else None.

(** ** Paths (package path/filepath, with slashes) *)

Fixpoint clean_elems (rooted : bool) (stack parts : list string) : list string :=
  match parts with
  | [] => rev stack
  | p :: parts =>
      if bool_decide (p = "") || bool_decide (p = ".") then clean_elems rooted stack parts
      else if bool_decide (p = "..") then
        match stack with
        | x :: st => if bool_decide (x = "..") then clean_elems rooted (".." :: stack) parts
                     else clean_elems rooted st parts
        | [] => clean_elems rooted (if rooted then [] else [".."]) parts
        end
      else clean_elems rooted (p :: stack) parts
  end.

Definition path_Clean (p : string) : string :=
  if bool_decide (p = "") then "."
  else
    let rooted := HasPrefix p "/" in
    let body := Join "/" (clean_elems rooted [] (Split "/"%char p)) in
    if rooted then "/" +:+ body else if bool_decide (body = "") then "." else body.

Definition path_Dir (p : string) : string :=
  match CutLast "/"%char p with Some (d, _) => path_Clean (d +:+ "/") | None => "." end.

Definition path_Join (a b : string) : string :=
  match bool_decide (a = ""), bool_decide (b = "") with
  | true, true => ""
  | true, false => path_Clean b
  | false, true => path_Clean a
  | false, false => path_Clean (a +:+ "/" +:+ b)
  end.

Example path_examples :
  (map path_Dir ["/etc/tt/hosts.toml"; "hosts.toml"; "a//b/"; "/x"],
   map (path_Join "/etc/tt") ["a.crt"; "../a.crt"; "../../../a"; "./x//y"],
   map path_Clean ["../.."; "a/../.."; "/.."; "a/./b/.."]) =
  (["/etc/tt"; "."; "a/b"; "/"], ["/etc/tt/a.crt"; "/etc/a.crt"; "/a"; "/etc/tt/x/y"],
   ["../.."; ".."; "/"; "a"]).
Proof. vm_compute. done. Qed.

(** ** Lemmas *)

Definition writable (f : fs) (p : string) : Prop := p ∉ fs_locked f /\ fs_full f !! p = None.

Lemma written_writable f p s : writable f p -> written f p s = s.
Proof. intros [_ H]. unfold written. by rewrite H. Qed.

Lemma written_prefix f p s : exists t, s = written f p s +:+ t.
Proof.
  unfold written. destruct (fs_full f !! p) as [n|]; [|exists ""; by rewrite sapp_nil_r].
  exists (sdrop n s). by rewrite stake_sdrop.
Qed.

Lemma WriteFile_ok f p s :
  writable f p -> WriteFile f p s = (set_files f (<[p := s]> (fs_files f)), None).
Proof.
  intros H. unfold WriteFile. rewrite (written_writable _ _ _ H), bool_decide_false by apply H.
  by rewrite bool_decide_true.
Qed.

Lemma WriteFile_None f p s f' :
  WriteFile f p s = (f', None) ->
  p ∉ fs_locked f /\ f' = set_files f (<[p := s]> (fs_files f)).
Proof.
  unfold WriteFile. case_bool_decide; [done|]. case_bool_decide as E; [|done]. intros [= <-]. by rewrite E.
Qed.

(** A failed write: the file could not be opened, or it has a part of the text. *)
Definition torn (f : fs) (p s : string) (f' : fs) : Prop :=
  p ∉ fs_locked f /\ written f p s <> s /\ f' = set_files f (<[p := written f p s]> (fs_files f)).

Lemma WriteFile_Some f p s f' e :
  WriteFile f p s = (f', Some e) -> p ∈ fs_locked f /\ f' = f \/ torn f p s f'.
Proof.
  unfold WriteFile. case_bool_decide; [intros [= <- _]; by left|]. case_bool_decide; [done|].
  intros [= <- _]. by right.
Qed.

(** Whatever comes of a write, it touches one file. *)
Lemma WriteFile_other f p s q : q <> p -> fs_files (WriteFile f p s).1 !! q = fs_files f !! q.
Proof. intros Hq. unfold WriteFile. case_bool_decide; [done|]. cbn. by rewrite lookup_insert_ne. Qed.

Lemma WriteFile_paths f p s :
  fs_locked (WriteFile f p s).1 = fs_locked f /\ fs_full (WriteFile f p s).1 = fs_full f.
Proof. unfold WriteFile. by case_bool_decide. Qed.

Lemma ReadFile_written f p s :
  p ∉ fs_locked f -> ReadFile (set_files f (<[p := s]> (fs_files f))) p = Ok s.
Proof.
  intros H. unfold ReadFile. simpl. rewrite bool_decide_false by done.
  by rewrite lookup_insert_eq.
Qed.
