(* ===== verification/GoFlag.v ===== *)
(** Go's package flag, as far as the repository uses it, with strconv.ParseBool
    and strconv.ParseInt as its values use them: a set of flags with their
    defaults, parsed from the arguments of a command. *)
From S2P Require Import Prelude GoStrings GoNet.
#[local] Open Scope Z_scope.

(** ** strconv *)

Definition ParseBool (s : string) : option bool :=
  if bool_decide (s ∈ ["1"; "t"; "T"; "true"; "TRUE"; "True"]) then Some true
  else if bool_decide (s ∈ ["0"; "f"; "F"; "false"; "FALSE"; "False"]) then Some false
  else None.

(** The value of a digit or letter, [None] for other characters. *)
Definition digit_val (c : ascii) : option Z :=
  let v := aval c in
  if (48 <=? v) && (v <=? 57) then Some (v - 48)
  else let l := aval (lower1 c) in
       if (97 <=? l) && (l <=? 122) then Some (l - 97 + 10) else None.

(** The digits of a number in a base, underscores skipped; [None] is a syntax
    error. *)
Fixpoint digits (base acc : Z) (s : string) : option Z :=
  match s with
  | EmptyString => Some acc
  | String c s =>
      if bool_decide (c = "_"%char) then digits base acc s
      else match digit_val c with
           | Some d => if d <? base then digits base (acc * base + d) s else None
           | None => None
           end
  end.

(** [underscoreOK]: underscores only between digits, or after the prefix. *)
Inductive seen := SeenStart | SeenDigit | SeenUnderscore | SeenOther.
#[export] Instance seen_eq_dec : EqDecision seen.
Proof. solve_decision. Defined.

Fixpoint underscores (hex : bool) (i : seen) (s : string) : bool :=
  match s with
  | EmptyString => negb (bool_decide (i = SeenUnderscore))
  | String c s =>
      let v := aval c in let l := aval (lower1 c) in
      if ((48 <=? v) && (v <=? 57)) || (hex && (97 <=? l) && (l <=? 102)) then underscores hex SeenDigit s
      else if bool_decide (c = "_"%char)
      then if bool_decide (i = SeenDigit) then underscores hex SeenUnderscore s else false
      else if bool_decide (i = SeenUnderscore) then false else underscores hex SeenOther s
  end.

Definition underscoreOK (s : string) : bool :=
  let s := match s with
           | String c r => if bool_decide (c = "-"%char) || bool_decide (c = "+"%char) then r else s
           | EmptyString => s
           end in
  match s with
  | String z (String p r) =>
      let p := lower1 p in
      if bool_decide (z = "0"%char) && bool_decide (p ∈ ["b"%char; "o"%char; "x"%char])
      then underscores (bool_decide (p = "x"%char)) SeenDigit r else underscores false SeenStart s
  | _ => underscores false SeenStart s
  end.

(** The base that a prefix chooses, with the digits behind it. *)
Definition base_prefix (s : string) : Z * string :=
  match s with
  | String z r =>
      if bool_decide (z = "0"%char) then
        match r with
        | String p (String _ _ as ds) =>
            let p := lower1 p in
            if bool_decide (p = "b"%char) then (2, match r with String _ ds => ds | _ => r end)
            else if bool_decide (p = "o"%char) then (8, match r with String _ ds => ds | _ => r end)
            else if bool_decide (p = "x"%char) then (16, match r with String _ ds => ds | _ => r end)
            else (8, r)
        | _ => (8, r)
        end
      else (10, s)
  | EmptyString => (10, s)
  end.

Inductive num_error := ErrSyntax | ErrRange.

(** [ParseInt(s, 0, 64)]. *)
Definition ParseInt0 (s : string) : Z + num_error :=
  let '(neg, rest) := match s with
                      | String c r => if bool_decide (c = "-"%char) then (true, r)
                                      else if bool_decide (c = "+"%char) then (false, r) else (false, s)
                      | EmptyString => (false, s)
                      end in
  if bool_decide (rest = "") then inr ErrSyntax
  else let '(base, ds) := base_prefix rest in
       match digits base 0 ds with
       | None => inr ErrSyntax
       | Some v =>
           if has_char "_"%char rest && negb (underscoreOK rest) then inr ErrSyntax
           else if neg then if v <=? 2 ^ 63 then inl (- v) else inr ErrRange
           else if v <? 2 ^ 63 then inl v else inr ErrRange
       end.

(** ** Flag sets *)

Inductive value := VString (s : string) | VBool (b : bool) | VInt (z : Z).

(** The flags by name, with their values so far. *)
Abbreviation flags := (gmap string value).

(** What parsing ends with: the values and the arguments left, a request for
    help, or the error printed. *)
Inductive parsed :=
| Parsed (fl : flags) (rest : list string)
| Help
| Bad (msg : string).

Section flags.
Context {UT : UnicodeTables}.

(** [Value.Set]: the new value of a flag like [old], or the error. *)
Definition Set_ (old : value) (s : string) : value + string :=
  match old with
  | VString _ => inl (VString s)
  | VBool _ => match ParseBool s with Some b => inl (VBool b) | None => inr "parse error" end
  | VInt _ => match ParseInt0 s with
              | inl z => inl (VInt z)
              | inr ErrSyntax => inr "parse error"
              | inr ErrRange => inr "value out of range"
              end
  end.

(** An argument: not a flag (nor [-] alone), the end of the flags, or a flag
    with the text behind its dashes. *)
Inductive arg := NotFlag | EndOfFlags | FlagArg (body : string).
#[export] Instance arg_eq_dec : EqDecision arg.
Proof. solve_decision. Defined.

Definition classify (s : string) : arg :=
  match s with
  | String c0 (String c1 r) =>
      if bool_decide (c0 = "-"%char) then
        if bool_decide (c1 = "-"%char) then if bool_decide (r = "") then EndOfFlags else FlagArg r
        else FlagArg (String c1 r)
      else NotFlag
  | _ => NotFlag
  end.

(** [name=value]; the first character belongs to the name. *)
Definition split_value (body : string) : string * option string :=
  match body with
  | EmptyString => ("", None)
  | String c r => match Cut "="%char r with
                  | Some (n, v) => (String c n, Some v)
                  | None => (body, None)
                  end
  end.

Definition bad_name (body : string) : bool := HasPrefix body "-" || HasPrefix body "=" || bool_decide (body = "").

Definition invalid (v name e : string) : string :=
  "invalid value " +:+ Quote v +:+ " for flag -" +:+ name +:+ ": " +:+ e.
Definition invalid_bool (v name e : string) : string :=
  "invalid boolean value " +:+ Quote v +:+ " for -" +:+ name +:+ ": " +:+ e.

(** [FlagSet.Parse]. *)
Fixpoint Parse (fl : flags) (args : list string) : parsed :=
  match args with
  | [] => Parsed fl []
  | s :: args' =>
      match classify s with
      | NotFlag => Parsed fl args
      | EndOfFlags => Parsed fl args'
      | FlagArg body =>
          if bad_name body then Bad ("bad flag syntax: " +:+ s)
          else
            let '(name, given) := split_value body in
            match fl !! name with
            | None => if bool_decide (name = "help") || bool_decide (name = "h") then Help
                      else Bad ("flag provided but not defined: -" +:+ name)
            | Some (VBool _ as old) =>
                match given with
                | None => Parse (<[name := VBool true]> fl) args'
                | Some v => match Set_ old v with
                            | inl v' => Parse (<[name := v']> fl) args'
                            | inr e => Bad (invalid_bool v name e)
                            end
                end
            | Some old =>
                match given, args' with
                | Some v, _ => match Set_ old v with
                               | inl v' => Parse (<[name := v']> fl) args'
                               | inr e => Bad (invalid v name e)
                               end
                | None, [] => Bad ("flag needs an argument: -" +:+ name)
                | None, v :: args'' => match Set_ old v with
                                       | inl v' => Parse (<[name := v']> fl) args''
                                       | inr e => Bad (invalid v name e)
                                       end
                end
            end
      end
  end.
End flags.

Definition flag_string (fl : flags) (name : string) : string :=
  match fl !! name with Some (VString s) => s | _ => "" end.
Definition flag_bool (fl : flags) (name : string) : bool :=
  match fl !! name with Some (VBool b) => b | _ => false end.
Definition flag_int (fl : flags) (name : string) : Z :=
  match fl !! name with Some (VInt z) => z | _ => 0 end.

Definition string_flags (l : list (string * string)) : flags :=
  list_to_map (map (fun p => (p.1, VString p.2)) l).

Example ParseInt0_examples :
  map ParseInt0 ["0"; "4"; "-12"; "0x1F"; "0b101"; "017"; "1_000"; "_1"; "1__0"; ""; "0x"; "4k"; "9223372036854775808"] =
  [inl 0; inl 4; inl (-12); inl 31; inl 5; inl 15; inl 1000; inr ErrSyntax; inr ErrSyntax; inr ErrSyntax;
   inr ErrSyntax; inr ErrSyntax; inr ErrRange].
Proof. vm_compute. done. Qed.

(** ** A printed number is read back *)

Lemma digit_val_pretty d : (d < 10)%N -> digit_val (pretty_N_char d) = Some (Z.of_N d) /\ pretty_N_char d <> "_"%char.
Proof.
  intros Hd. assert (Hs : d ∈ [0; 1; 2; 3; 4; 5; 6; 7; 8; 9]%N) by (rewrite !elem_of_cons; lia).
  repeat (apply elem_of_cons in Hs as [->|Hs]; [done|]). by apply elem_of_nil in Hs.
Qed.

Lemma digits_pretty x s : digits 10 0 (pretty_N_go x s) = digits 10 (Z.of_N x) s.
Proof.
  revert s. induction (N.lt_wf_0 x) as [x _ IH]. intros s.
  destruct (decide (0 < x)%N) as [Hx|Hx]; [|by replace x with 0%N by lia].
  rewrite pretty_N_go_step by done. rewrite IH by (by apply N.div_lt). cbn [digits].
  assert (Hm : (x `mod` 10 < 10)%N) by (by apply N.mod_lt).
  destruct (digit_val_pretty _ Hm) as [Hv Hu].
  rewrite bool_decide_false by done. rewrite Hv. destruct (Z.ltb_spec (Z.of_N (x `mod` 10)) 10); [|lia].
  f_equal. rewrite N2Z.inj_div, N2Z.inj_mod. cbn. pose proof (Z.div_mod (Z.of_N x) 10). lia.
Qed.

(** Its first digit is not 0. *)
Lemma pretty_first x s : (0 < x)%N -> exists d r, pretty_N_go x s = String (pretty_N_char d) r /\ (0 < d < 10)%N.
Proof.
  revert s. induction (N.lt_wf_0 x) as [x _ IH]. intros s Hx. rewrite pretty_N_go_step by done.
  destruct (decide (0 < x / 10)%N) as [Hq|Hq].
  - apply IH; [by apply N.div_lt|done].
  - assert (Hx10 : (x < 10)%N) by (pose proof (N.div_mod x 10); pose proof (N.mod_lt x 10); lia).
    rewrite N.div_small, N.mod_small by done. exists x, s. split; [done|lia].
Qed.

(** A number that starts with another digit than 0 is decimal. *)
Lemma ParseInt0_number d r v :
  (0 < d < 10)%N -> let s := String (pretty_N_char d) r in
  digits 10 0 s = Some v -> has_char "_"%char s = false -> v < 2 ^ 63 -> ParseInt0 s = inl v.
Proof.
  intros Hd s Hv Hu Hb. assert (Hpre : base_prefix s = (10, s) /\ ParseInt0 s =
    match digits 10 0 s with
    | None => inr ErrSyntax
    | Some v => if has_char "_"%char s && negb (underscoreOK s) then inr ErrSyntax
                else if v <? 2 ^ 63 then inl v else inr ErrRange
    end).
  { subst s. assert (Hs : d ∈ [1; 2; 3; 4; 5; 6; 7; 8; 9]%N) by (rewrite !elem_of_cons; lia). clear Hv Hu.
    repeat (apply elem_of_cons in Hs as [->|Hs]; [done|]). by apply elem_of_nil in Hs. }
  destruct Hpre as [_ ->]. rewrite Hv, Hu. cbn [andb]. destruct (Z.ltb_spec v (2 ^ 63)); [done|lia].
Qed.

Lemma ParseInt0_fmt z : 0 <= z < 2 ^ 63 -> ParseInt0 (fmt_d z) = inl z.
Proof.
  intros [Hz Hb]. destruct z as [|q|q]; [done| |lia].
  pose proof (fmt_d_no_char "_"%char (Z.pos q) Hz eq_refl) as Hu. unfold fmt_d in *.
  change (pretty (Z.pos q)) with (pretty (N.pos q)) in *. unfold pretty, pretty_N in *.
  case_decide; [done|]. destruct (pretty_first (N.pos q) "") as (d & r & Hr & Hd); [lia|].
  pose proof (digits_pretty (N.pos q) "") as Hv. rewrite Hr in *. by apply (ParseInt0_number d r).
Qed.

(** ** One flag at a time *)

Definition names (arg name : string) : bool :=
  bool_decide (classify arg = FlagArg name) && negb (bad_name name) && bool_decide (split_value name = (name, None)).

Section parse.
Context {UT : UnicodeTables}.

Lemma names_spec arg name : names arg name = true ->
  classify arg = FlagArg name /\ bad_name name = false /\ split_value name = (name, None).
Proof. unfold names. rewrite !andb_true_iff, negb_true_iff, !bool_decide_eq_true. tauto. Qed.

(** The argument after a flag that takes a value is its value, whatever it is. *)
Lemma Parse_value fl arg name old v new args : names arg name = true ->
  fl !! name = Some old -> (forall b, old <> VBool b) -> Set_ old v = inl new ->
  Parse fl (arg :: v :: args) = Parse (<[name := new]> fl) args.
Proof.
  intros (Hc & Hb & Hs)%names_spec Hl Hn Hset. cbn [Parse]. rewrite Hc, Hb, Hs, Hl.
  destruct old as [?|b|?]; [by rewrite Hset|by destruct (Hn b)|by rewrite Hset].
Qed.

Lemma Parse_string fl arg name old v args : names arg name = true -> fl !! name = Some (VString old) ->
  Parse fl (arg :: v :: args) = Parse (<[name := VString v]> fl) args.
Proof. intros Hn Hl. by apply (Parse_value fl arg name (VString old)). Qed.

Lemma Parse_int fl arg name old z args : names arg name = true -> fl !! name = Some (VInt old) -> 0 <= z < 2 ^ 63 ->
  Parse fl (arg :: fmt_d z :: args) = Parse (<[name := VInt z]> fl) args.
Proof.
  intros Hn Hl Hz. apply (Parse_value fl arg name (VInt old)); [done..|]. unfold Set_. by rewrite ParseInt0_fmt.
Qed.

Lemma Parse_bool fl arg name b args : names arg name = true ->
  fl !! name = Some (VBool b) -> Parse fl (arg :: args) = Parse (<[name := VBool true]> fl) args.
Proof. intros (Hc & Hb & Hs)%names_spec Hl. cbn [Parse]. by rewrite Hc, Hb, Hs, Hl. Qed.

(** Parsing stops at the first argument that is no flag. *)
Lemma Parse_stops fl s args : classify s = NotFlag -> Parse fl (s :: args) = Parsed fl (s :: args).
Proof. intros Hc. cbn [Parse]. by rewrite Hc. Qed.
End parse.
