(* ===== verification/Config.v ===== *)
(** internal/config/config.go: the server's configuration, its defaults and
    its loading.  The TOML decoder is a parameter. *)
From S2P Require Import Prelude GoStrings GoOS.
#[local] Open Scope Z_scope.

Record HTTP1Config := { UploadBufferSize : Z }.

Record HTTP2Config := {
  InitialConnectionWindowSize : Z;
  InitialStreamWindowSize : Z;
  MaxConcurrentStreams : Z;
  MaxFrameSize : Z;
  HeaderTableSize : Z;
}.

Record QUICConfig := {
  RecvUDPPayloadSize : Z;
  SendUDPPayloadSize : Z;
  InitialMaxData : Z;
  InitialMaxStreamDataBidiLocal : Z;
  InitialMaxStreamDataBidiRemote : Z;
  InitialMaxStreamDataUni : Z;
  InitialMaxStreamsBidi : Z;
  InitialMaxStreamsUni : Z;
  MaxConnectionWindow : Z;
  MaxStreamWindow : Z;
  DisableActiveMigration : bool;
  EnableEarlyData : bool;
  MessageQueueCapacity : Z;
}.

Record ListenProtocols := {
  HTTP1 : option HTTP1Config;
  HTTP2 : option HTTP2Config;
  QUIC : option QUICConfig;
}.

Record SOCKS5Config := { SOCKS5Address : string; ExtendedAuth : bool }.
Record ForwardProtocol := { Direct : option unit; SOCKS5 : option SOCKS5Config }.

Record ICMPConfig := {
  InterfaceName : string;
  RequestTimeoutSecs : Z;
  RecvMessageQueueCap : Z;
}.

Record MetricsConfig := { MetricsAddress : string; MetricsTimeoutSecs : Z }.

Record AdminConfig := { Address : string; Token : string; WebRoot : string }.

Record Config := {
  ListenAddress : string;
  IPv6Available : bool;
  AllowPrivateNet : bool;
  TLSHandshakeTimeoutSecs : Z;
  ClientListenerTimeoutSecs : Z;
  ConnectionEstablishTimeoutSecs : Z;
  TCPConnectionsTimeoutSecs : Z;
  UDPConnectionsTimeoutSecs : Z;
  CredentialsFile : string;
  RulesFile : string;
  AuthFailureStatusCode : Z;
  StoreType : string;
  StoreDSN : string;
  CacheTTLSecs : Z;
  cfg_ListenProtocols : ListenProtocols;
  cfg_ForwardProtocol : ForwardProtocol;
  cfg_ICMP : option ICMPConfig;
  cfg_Metrics : option MetricsConfig;
  cfg_Admin : option AdminConfig;
}.

Record TLSHost := { Hostname : string; CertChainPath : string; PrivateKeyPath : string }.

Record HostsConfig := {
  MainHosts : list TLSHost;
  PingHosts : list TLSHost;
  SpeedtestHosts : list TLSHost;
  ReverseProxyHosts : list TLSHost;
}.

Definition or_str (s d : string) : string := if bool_decide (s = "") then d else s.
Definition or_int (n d : Z) : Z := if n =? 0 then d else n.

Definition default_HTTP2 : HTTP2Config := {|
  InitialConnectionWindowSize := 8388608;
  InitialStreamWindowSize := 131072;
  MaxConcurrentStreams := 1000;
  MaxFrameSize := 16384;
  HeaderTableSize := 65536;
|}.

Definition defaults (c : Config) : Config := {|
  ListenAddress := or_str (ListenAddress c) "0.0.0.0:443";
  IPv6Available := IPv6Available c;
  AllowPrivateNet := AllowPrivateNet c;
  TLSHandshakeTimeoutSecs := or_int (TLSHandshakeTimeoutSecs c) 10;
  ClientListenerTimeoutSecs := or_int (ClientListenerTimeoutSecs c) 600;
  ConnectionEstablishTimeoutSecs := or_int (ConnectionEstablishTimeoutSecs c) 30;
  TCPConnectionsTimeoutSecs := or_int (TCPConnectionsTimeoutSecs c) 604800;
  UDPConnectionsTimeoutSecs := or_int (UDPConnectionsTimeoutSecs c) 300;
  CredentialsFile := CredentialsFile c;
  RulesFile := RulesFile c;
  AuthFailureStatusCode := or_int (AuthFailureStatusCode c) 407;
  StoreType := or_str (StoreType c) "file";
  StoreDSN := StoreDSN c;
  CacheTTLSecs := or_int (CacheTTLSecs c) 30;
  cfg_ListenProtocols :=
    let lp := cfg_ListenProtocols c in
    {| HTTP1 := HTTP1 lp;
       HTTP2 := match HTTP2 lp with None => Some default_HTTP2 | h => h end;
       QUIC := QUIC lp |};
  cfg_ForwardProtocol := cfg_ForwardProtocol c;
  cfg_ICMP := cfg_ICMP c;
  cfg_Metrics := cfg_Metrics c;
  cfg_Admin := cfg_Admin c;
|}.

Section load.
(** The TOML decoder on each of the two document types. *)
Variable toml_Config : string -> res Config.
Variable toml_Hosts : string -> res HostsConfig.

Definition Load (f : fs) (vpnPath : string) : res Config :=
  cfg ← wrap_err ("parse " +:+ vpnPath +:+ ": ") (DecodeFile toml_Config f vpnPath);
  Ok (defaults cfg).

Definition LoadHosts (f : fs) (hostsPath : string) : res HostsConfig :=
  wrap_err ("parse " +:+ hostsPath +:+ ": ") (DecodeFile toml_Hosts f hostsPath).
End load.

(** ** What a loaded configuration guarantees *)

(** Every setting the server divides by, listens on or dispatches on is set. *)
Definition effective (c : Config) : Prop :=
  ListenAddress c <> "" /\ StoreType c <> "" /\
  Forall (fun n => n <> 0)
    [TLSHandshakeTimeoutSecs c; ClientListenerTimeoutSecs c;
     ConnectionEstablishTimeoutSecs c; TCPConnectionsTimeoutSecs c;
     UDPConnectionsTimeoutSecs c; AuthFailureStatusCode c; CacheTTLSecs c] /\
  is_Some (HTTP2 (cfg_ListenProtocols c)).

Lemma or_str_ne s d : d <> "" -> or_str s d <> "".
Proof. unfold or_str. by case_bool_decide. Qed.

Lemma or_int_ne n d : d <> 0 -> or_int n d <> 0.
Proof. unfold or_int. by destruct (Z.eqb_spec n 0). Qed.

Lemma or_str_id s d : s <> "" -> or_str s d = s.
Proof. intros. unfold or_str. by rewrite bool_decide_false. Qed.

Lemma or_int_id n d : n <> 0 -> or_int n d = n.
Proof. intros. unfold or_int. by destruct (Z.eqb_spec n 0). Qed.

Lemma defaults_effective c : effective (defaults c).
Proof.
  split_and!; try (by apply or_str_ne).
  - repeat constructor; by apply or_int_ne.
  - simpl. by destruct (HTTP2 _).
Qed.

(** On an effective configuration the defaults change nothing. *)
Lemma defaults_id c : effective c -> defaults c = c.
Proof.
  intros (Ha & Hs & Hz & [h Hh]). rewrite !Forall_cons in Hz. destruct_and!.
  destruct c as [????????????????? [] ?]; cbn in *.
  - unfold defaults; cbn. rewrite !or_str_id, !or_int_id by done. f_equal.
    destruct cfg_ListenProtocols0; cbn in *. by rewrite Hh.
  - unfold defaults; cbn. rewrite !or_str_id, !or_int_id by done. f_equal.
    destruct cfg_ListenProtocols0; cbn in *. by rewrite Hh.
Qed.

(** [c'] differs from [c] only in settings [c] leaves at their zero value. *)
Definition keeps (c c' : Config) : Prop :=
  (ListenAddress c <> "" -> ListenAddress c' = ListenAddress c) /\
  (StoreType c <> "" -> StoreType c' = StoreType c) /\
  Forall (fun g : Config -> Z => g c <> 0 -> g c' = g c)
    [TLSHandshakeTimeoutSecs; ClientListenerTimeoutSecs; ConnectionEstablishTimeoutSecs;
     TCPConnectionsTimeoutSecs; UDPConnectionsTimeoutSecs; AuthFailureStatusCode;
     CacheTTLSecs] /\
  (is_Some (HTTP2 (cfg_ListenProtocols c)) ->
   cfg_ListenProtocols c' = cfg_ListenProtocols c) /\
  QUIC (cfg_ListenProtocols c') = QUIC (cfg_ListenProtocols c) /\
  cfg_ICMP c' = cfg_ICMP c /\ cfg_Admin c' = cfg_Admin c /\
  (IPv6Available c', AllowPrivateNet c', CredentialsFile c', RulesFile c', StoreDSN c') =
  (IPv6Available c, AllowPrivateNet c, CredentialsFile c, RulesFile c, StoreDSN c).

Lemma defaults_keeps c : keeps c (defaults c).
Proof.
  unfold keeps; cbn. split_and!; try (intros; by rewrite ?or_str_id); try done.
  - repeat constructor; intros; by apply or_int_id.
  - intros [h Hh]. rewrite Hh. by destruct (cfg_ListenProtocols c); cbn in *; subst.
Qed.

(** Loading vpn.toml either fails with the decoder's or the OS's error
    under the prefix naming the file, or gives a configuration in which every
    setting the server depends on is set, that keeps every setting the file
    sets, and that the defaults leave unchanged. *)
Theorem Load_spec (toml : string -> res Config) (f : fs) (p : string) :
  match DecodeFile toml f p with
  | Err e => Load toml f p = Err ("parse " +:+ p +:+ ": " +:+ e)
  | Ok c => exists c', Load toml f p = Ok c' /\ effective c' /\ keeps c c' /\ defaults c' = c'
  end.
Proof.
  unfold Load. destruct (DecodeFile toml f p) as [c|e]; cbn.
  - exists (defaults c). split_and!; [done| |apply defaults_keeps|];
      [|apply defaults_id]; apply defaults_effective.
  - by rewrite !sapp_assoc.
Qed.
