(* ===== verification/Rules.v ===== *)
(** internal/rules/rules.go: the traffic rules engine.  Rules filter a
    connection by client address (CIDR) and by a prefix of the TLS ClientHello
    random, with an optional mask; the first matching rule decides. *)
From S2P Require Import Prelude GoStrings GoEncoding GoNet GoOS.
#[local] Open Scope Z_scope.

Definition ActionAllow : string := "allow".
Definition ActionDeny : string := "deny".

(** A rule with its compiled fields; [None] is Go's nil, which differs from an
    empty slice. *)
Record Rule := {
  CIDR : string;
  ClientRandomPrefix : string;
  Action : string;
  network : option IPNet;
  prefix : option (list byte);
  mask : option (list byte);
}.

Record RuleView := {
  v_CIDR : string;
  v_ClientRandomPrefix : string;
  v_Action : string;
}.

Record Engine := { rules : list Rule; path : string }.

Definition New : Engine := {| rules := []; path := "" |}.

Definition Path (e : Engine) : string := path e.

Definition Snapshot (e : Engine) : list RuleView :=
  map (fun r => {| v_CIDR := CIDR r; v_ClientRandomPrefix := ClientRandomPrefix r;
                   v_Action := Action r |}) (rules e).

Definition with_random (r : Rule) (p m : option (list byte)) : Rule :=
  {| CIDR := CIDR r; ClientRandomPrefix := ClientRandomPrefix r; Action := Action r;
     network := network r; prefix := p; mask := m |}.

Definition with_network (r : Rule) (n : option IPNet) : Rule :=
  {| CIDR := CIDR r; ClientRandomPrefix := ClientRandomPrefix r; Action := Action r;
     network := n; prefix := prefix r; mask := mask r |}.

Definition parseClientRandom (r : Rule) : res Rule :=
  let s := ClientRandomPrefix r in
  match Cut "/"%char s with
  | Some (before, after) =>
      p ← wrap_err "client_random_prefix hex: " (hex_DecodeString before);
      m ← wrap_err "client_random_prefix mask: " (hex_DecodeString after);
      if negb (length p =? length m)%nat
      then Err "client_random_prefix/mask length mismatch"
      else Ok (with_random r (Some p) (Some m))
  | None =>
      p ← wrap_err "client_random_prefix: " (hex_DecodeString s);
      Ok (with_random r (Some p) None)
  end.

(** The loop of [matchRandom] over the indices of the prefix. *)
Fixpoint mask_match (random p m : list byte) {struct p} : bool :=
  match p with
  | [] => true
  | b :: p =>
      match random, m with
      | a :: random, k :: m =>
          (Z.land (bval a) (bval k) =? Z.land (bval b) (bval k)) && mask_match random p m
      | _, _ => false   (* out of range: excluded by the length checks *)
      end
  end.

Definition matchIP (r : Rule) (ip : IP) : bool :=
  match network r with
  | None => true
  | Some n => IPNet_Contains n ip
  end.

Definition matchRandom (r : Rule) (random : list byte) : bool :=
  match prefix r with
  | None => true
  | Some p =>
      if (length random <? length p)%nat then false
      else match mask r with
           | None => bool_decide (take (length p) random = p)
           | Some m => mask_match random p m
           end
  end.

(** The first rule that matches decides; no rule allows. *)
Fixpoint allow_loop (rs : list Rule) (ip : IP) (random : list byte) : bool :=
  match rs with
  | [] => true
  | r :: rs =>
      if negb (matchIP r ip) then allow_loop rs ip random
      else if negb (matchRandom r random) then allow_loop rs ip random
      else bool_decide (Action r = ActionAllow)
  end.

Definition Allow (e : Engine) (ip : IP) (random : list byte) : bool :=
  allow_loop (rules e) ip random.

Section with_quote.
Context {UT : UnicodeTables}.

Definition compile (r : Rule) : res Rule :=
  r ← (if bool_decide (CIDR r = "") then Ok r
       else '(_, n) ← wrap_err ("invalid cidr " +:+ Quote (CIDR r) +:+ ": ")
                        (ParseCIDR (CIDR r));
            Ok (with_network r (Some n)));
  r ← (if bool_decide (ClientRandomPrefix r = "") then Ok r else parseClientRandom r);
  if bool_decide (Action r <> ActionAllow) && bool_decide (Action r <> ActionDeny)
  then Err ("invalid action " +:+ Quote (Action r))
  else Ok r.

Definition rule_of_view (v : RuleView) : Rule :=
  {| CIDR := v_CIDR v; ClientRandomPrefix := v_ClientRandomPrefix v; Action := v_Action v;
     network := None; prefix := None; mask := None |}.

(** The compile loop of [Set]; [i] is the index in the error message. *)
Fixpoint compile_views (i : nat) (views : list RuleView) : res (list Rule) :=
  match views with
  | [] => Ok []
  | v :: views =>
      r ← wrap_err ("rule " +:+ fmt_d (Z.of_nat i) +:+ ": ") (compile (rule_of_view v));
      rs ← compile_views (S i) views;
      Ok (r :: rs)
  end.

Definition render_view (v : RuleView) : string :=
  "[[rule]]" +:+ nls +:+
  (if bool_decide (v_CIDR v = "") then ""
   else "cidr = " +:+ Quote (v_CIDR v) +:+ nls) +:+
  (if bool_decide (v_ClientRandomPrefix v = "") then ""
   else "client_random_prefix = " +:+ Quote (v_ClientRandomPrefix v) +:+ nls) +:+
  "action = " +:+ Quote (v_Action v) +:+ nls +:+ nls.

Definition saveRulesFile (f : fs) (p : string) (views : list RuleView) : fs * option string :=
  WriteFile f p (fold_right (fun v s => render_view v +:+ s) "" views).

(** [Engine.Set]: the new engine, the files, and the error. *)
Definition Set_ (e : Engine) (f : fs) (views : list RuleView) : Engine * fs * option string :=
  match compile_views 0 views with
  | Err msg => (e, f, Some msg)
  | Ok compiled =>
      let e := {| rules := compiled; path := path e |} in
      if bool_decide (path e = "") then (e, f, None)
      else let '(f, err) := saveRulesFile f (path e) views in (e, f, err)
  end.

(** [LoadFile]: [toml_rules] decodes the document into uncompiled rules. *)
Definition LoadFile (toml_rules : string -> res (list Rule)) (e : Engine) (f : fs) (p : string)
  : Engine * option string :=
  let e := {| rules := rules e; path := p |} in
  if bool_decide (p = "") then (e, None)
  else if negb (file_exists f p) then (e, None)
  else match wrap_err "parse rules: " (DecodeFile toml_rules f p) with
       | Err msg => (e, Some msg)
       | Ok rf =>
           match wrap_err "compile rule: " (mapR compile rf) with
           | Err msg => (e, Some msg)
           | Ok rs => ({| rules := rs; path := p |}, None)
           end
       end.
End with_quote.

(** ** Specification of a rule, on its text *)

(** The random matches [p] under the bits of [m]. *)
Definition masked_prefix (random p m : list byte) : Prop :=
  (length p <= length random)%nat /\
  forall i a b k, random !! i = Some a -> p !! i = Some b -> m !! i = Some k ->
    Z.land (bval a) (bval k) = Z.land (bval b) (bval k).

Definition random_spec (text : string) (random : list byte) : Prop :=
  text = "" \/
  match Cut "/"%char text with
  | None => exists p rest, hex_DecodeString text = Ok p /\ random = p ++ rest
  | Some (pt, mt) =>
      exists p m, hex_DecodeString pt = Ok p /\ hex_DecodeString mt = Ok m /\
        length p = length m /\ masked_prefix random p m
  end.

Definition cidr_spec (text : string) (ip : IP) : Prop :=
  text = "" \/ exists a n, ParseCIDR text = Ok (a, n) /\ IPNet_Contains n ip = true.

Definition view_matches (v : RuleView) (ip : IP) (random : list byte) : Prop :=
  cidr_spec (v_CIDR v) ip /\ random_spec (v_ClientRandomPrefix v) random.

(** The policy a list of views states. *)
Inductive policy : list RuleView -> IP -> list byte -> bool -> Prop :=
| policy_default ip random : policy [] ip random true
| policy_hit v vs ip random :
    view_matches v ip random ->
    policy (v :: vs) ip random (bool_decide (v_Action v = "allow"))
| policy_skip v vs ip random b :
    ~ view_matches v ip random -> policy vs ip random b -> policy (v :: vs) ip random b.

(** ** Lemmas *)

Lemma mask_match_spec random p m :
  length p = length m -> (length p <= length random)%nat ->
  mask_match random p m = true <-> masked_prefix random p m.
Proof.
  intros Hl Hr. unfold masked_prefix.
  assert (Hx : mask_match random p m = true <->
    forall i a b k, random !! i = Some a -> p !! i = Some b -> m !! i = Some k ->
      Z.land (bval a) (bval k) = Z.land (bval b) (bval k)); [|rewrite Hx; clear Hx; tauto].
  revert random m Hl Hr. induction p as [|b p IH]; intros random m Hl Hr.
  { split; [|done]. intros _ i a b k _ H. by rewrite lookup_nil in H. }
  destruct m as [|k m]; [done|]. destruct random as [|a random]; [simpl in Hr; lia|].
  simpl in *. rewrite andb_true_iff, Z.eqb_eq, IH by lia. split.
  - intros [H0 H] [|i]; simpl; [naive_solver|apply H].
  - intros H. split; [by apply (H 0%nat)|]. intros i. apply (H (S i)).
Qed.

Lemma take_prefix_iff (p random : list byte) :
  (length p <= length random)%nat ->
  take (length p) random = p <-> exists rest, random = p ++ rest.
Proof.
  intros Hl. split.
  - intros H. exists (drop (length p) random). rewrite <- H at 1. by rewrite take_drop.
  - intros [rest ->]. apply take_app_length.
Qed.

Section facts.
Context {UT : UnicodeTables}.

(** The two compile steps, with what each adds to a rule. *)
Definition compile_network (r : Rule) : res Rule :=
  if bool_decide (CIDR r = "") then Ok r
  else '(_, n) ← wrap_err ("invalid cidr " +:+ Quote (CIDR r) +:+ ": ") (ParseCIDR (CIDR r));
       Ok (with_network r (Some n)).

Definition compile_random (r : Rule) : res Rule :=
  if bool_decide (ClientRandomPrefix r = "") then Ok r else parseClientRandom r.

Lemma compile_network_Ok r r1 :
  network r = None -> compile_network r = Ok r1 ->
  CIDR r1 = CIDR r /\ ClientRandomPrefix r1 = ClientRandomPrefix r /\ Action r1 = Action r /\
  prefix r1 = prefix r /\ mask r1 = mask r /\
  forall ip, matchIP r1 ip = true <-> cidr_spec (CIDR r) ip.
Proof.
  unfold compile_network, cidr_spec, matchIP. intros Hn H. case_bool_decide as Hc.
  - injection H as <-. rewrite Hn. split_and!; try done. tauto.
  - destruct (ParseCIDR (CIDR r)) as [[a n]|] eqn:E; [|done]. simplify_eq/=.
    split_and!; try done. intros ip. split; [eauto 6|].
    by intros [|(a' & n' & [= <- <-] & Hi)].
Qed.

Lemma compile_random_Ok r r2 :
  prefix r = None -> mask r = None -> compile_random r = Ok r2 ->
  CIDR r2 = CIDR r /\ ClientRandomPrefix r2 = ClientRandomPrefix r /\ Action r2 = Action r /\
  network r2 = network r /\
  forall random, matchRandom r2 random = true <-> random_spec (ClientRandomPrefix r) random.
Proof.
  unfold compile_random, parseClientRandom, random_spec, matchRandom. intros Hp Hm H.
  case_bool_decide as Hx; [injection H as <-; rewrite Hp; split_and!; tauto|].
  destruct (Cut "/"%char (ClientRandomPrefix r)) as [[pt mt]|].
  - destruct (hex_DecodeString pt) as [p|] eqn:Ep; [|done].
    destruct (hex_DecodeString mt) as [m|] eqn:Em; [|done]. cbn in H.
    destruct (Nat.eqb_spec (length p) (length m)) as [Hl|]; [|done]. simplify_eq/=.
    split_and!; try done. intros random.
    destruct (Nat.ltb_spec (length random) (length p)).
    + split; [done|]. intros [|(p' & m' & [= <-] & [= <-] & _ & Hle & _)]; [done|lia].
    + rewrite mask_match_spec by (try done; lia). split; [eauto 8|].
      by intros [|(p' & m' & [= <-] & [= <-] & _ & Hpm)].
  - destruct (hex_DecodeString (ClientRandomPrefix r)) as [p|] eqn:Ep; [|done].
    simplify_eq/=. split_and!; try done. intros random.
    destruct (Nat.ltb_spec (length random) (length p)) as [Hlt|Hge].
    + split; [done|]. intros [|(p' & rest & [= <-] & ->)]; [done|].
      rewrite length_app in Hlt. lia.
    + rewrite bool_decide_eq_true, take_prefix_iff by lia. split.
      * intros [rest Hrest]. eauto.
      * intros [|(p' & rest & [= <-] & Hrest)]; [done|eauto].
Qed.

Lemma compile_steps r :
  compile r = (r ← compile_network r; r ← compile_random r;
    if bool_decide (Action r <> ActionAllow) && bool_decide (Action r <> ActionDeny)
    then Err ("invalid action " +:+ Quote (Action r)) else Ok r).
Proof. done. Qed.

(** A compiled rule keeps its text, has a valid action, and matches exactly
    what its text says. *)
Lemma compile_Ok v r :
  compile (rule_of_view v) = Ok r ->
  CIDR r = v_CIDR v /\ ClientRandomPrefix r = v_ClientRandomPrefix v /\ Action r = v_Action v /\
  (v_Action v = ActionAllow \/ v_Action v = ActionDeny) /\
  forall ip random,
    matchIP r ip && matchRandom r random = true <-> view_matches v ip random.
Proof.
  rewrite compile_steps. intros H.
  destruct (compile_network _) as [r1|] eqn:E1; [|done].
  apply compile_network_Ok in E1 as (Hc1 & Hx1 & Ha1 & Hp1 & Hm1 & Hip); [|done].
  cbn in H. destruct (compile_random r1) as [r2|] eqn:E2; [|done].
  apply compile_random_Ok in E2 as (Hc2 & Hx2 & Ha2 & Hn2 & Hr); [|done..].
  cbn in H, Hc1, Hx1, Ha1, Hip. rewrite Ha2, Ha1 in H.
  assert (r2 = r /\ (v_Action v = ActionAllow \/ v_Action v = ActionDeny)) as [-> Hact].
  { revert H. repeat case_bool_decide; cbn; intros [=]; tauto. }
  split_and!; try congruence. intros ip random.
  rewrite andb_true_iff, Hr, Hx1. unfold matchIP. rewrite Hn2.
  fold (matchIP r1 ip). by rewrite Hip.
Qed.

Lemma compile_views_Ok i vs rs :
  compile_views i vs = Ok rs -> Forall2 (fun v r => compile (rule_of_view v) = Ok r) vs rs.
Proof.
  revert i rs. induction vs as [|v vs IH]; intros i rs H; cbn in H.
  - injection H as <-. constructor.
  - destruct (compile (rule_of_view v)) as [r|] eqn:E; [|done]. cbn in H.
    destruct (compile_views (S i) vs) as [rs'|] eqn:Es; [|done]. cbn in H.
    injection H as <-. constructor; eauto.
Qed.

Lemma compiled_snapshot vs rs p :
  Forall2 (fun v r => compile (rule_of_view v) = Ok r) vs rs ->
  Snapshot {| rules := rs; path := p |} = vs.
Proof.
  unfold Snapshot. cbn. induction 1 as [|v r vs rs H _ IH]; cbn; [done|].
  rewrite IH. apply compile_Ok in H as (-> & -> & -> & _). by destruct v.
Qed.

Lemma allow_loop_policy vs rs ip random b :
  Forall2 (fun v r => compile (rule_of_view v) = Ok r) vs rs ->
  allow_loop rs ip random = b <-> policy vs ip random b.
Proof.
  intros H. revert b. induction H as [|v r vs rs H _ IH]; intros b; cbn.
  - split; [intros <-; constructor|by inversion 1].
  - apply compile_Ok in H as (_ & _ & Ha & _ & Hm). specialize (Hm ip random).
    destruct (matchIP r ip), (matchRandom r random); cbn in Hm |- *.
    1: { rewrite Ha. split; [intros <-; constructor; by apply Hm|].
         inversion 1; subst; [done|]. exfalso; tauto. }
    all: rewrite IH; split; [intros; constructor; [by rewrite <- Hm|done]|].
    all: inversion 1; subst; [exfalso; by intuition|done].
Qed.

(** ** Properties *)

(** C6: the engine implements the policy its rules state.  After a [Set] that
    reports no compile error (its error, if any, is the write of the file) the
    snapshot is the list of views given, every action is allow or deny, and
    [Allow] answers for every address and client random what the first view
    that matches says, true when none does; a rule matches by the addresses of
    its CIDR text and by the masked prefix of its random text. *)
Theorem Set_Allow_policy (e e' : Engine) (f f' : fs) (views : list RuleView) (err : option string)
  (Hset : Set_ e f views = (e', f', err)) (Hc : is_ok (compile_views 0 views) = true) :
  Snapshot e' = views /\
  Forall (fun v => v_Action v = "allow" \/ v_Action v = "deny") views /\
  forall ip random b, Allow e' ip random = b <-> policy views ip random b.
Proof.
  unfold Set_ in Hset. destruct (compile_views 0 views) as [rs|] eqn:E; [|done].
  apply compile_views_Ok in E.
  assert (e' = {| rules := rs; path := path e |}) as ->.
  { revert Hset. case_bool_decide; [|destruct (saveRulesFile _ _ _)]; by intros [= <- <- <-]. }
  split_and!.
  - by eapply compiled_snapshot.
  - clear Hset Hc. induction E as [|v r vs rs' H _ IH]; constructor; [|done].
    by apply compile_Ok in H as (_ & _ & _ & H & _).
  - intros ip random b. by apply allow_loop_policy.
Qed.

(** C7: what an update of the rules leaves.  On a compile error the engine and
    the files are untouched and the error names the rule.  Otherwise the new
    rules are active, whatever comes of the file; without an error the file, if
    the engine has a path, holds their rendering; with one it could not be
    opened and is as before, or it was truncated and holds an incomplete part of
    the rendering, from its start; no other file changes. *)
Theorem Set_outcomes (e : Engine) (f : fs) (views : list RuleView) :
  let '(e', f', err) := Set_ e f views in
  let text := fold_right (fun v s => render_view v +:+ s) "" views in
  match compile_views 0 views with
  | Err msg => e' = e /\ f' = f /\ err = Some msg
  | Ok rs =>
      rules e' = rs /\ path e' = path e /\
      (forall p, p <> path e -> fs_files f' !! p = fs_files f !! p) /\
      match err with
      | None => if bool_decide (path e = "") then f' = f else ReadFile f' (path e) = Ok text
      | Some _ => path e <> "" /\
          (path e ∈ fs_locked f /\ f' = f \/
           exists done_ rest, text = done_ +:+ rest /\ rest <> "" /\ ReadFile f' (path e) = Ok done_)
      end
  end.
Proof.
  unfold Set_. destruct (compile_views 0 views) as [rs|]; [|done]. cbn [path].
  case_bool_decide as Hp; [done|]. unfold saveRulesFile. set (text := fold_right _ _ views).
  pose proof (fun q => WriteFile_other f (path e) text q) as Hother.
  destruct (WriteFile f (path e) text) as [f' [msg|]] eqn:W; cbn [rules path fst] in *.
  - apply WriteFile_Some in W as [[Hl ->]|(Hl & Hne & ->)]; (split_and!; [done..|]); [by left|]. right.
    destruct (written_prefix f (path e) text) as [rest Hr]. exists (written f (path e) text), rest.
    split_and!; [done| |by apply ReadFile_written]. intros ->. by rewrite sapp_nil_r in Hr.
  - apply WriteFile_None in W as [Hl ->]. split_and!; [done..|]. by apply ReadFile_written.
Qed.
End facts.

(** A concrete configuration: deny one client random under a mask inside
    10.0.0.0/8, then deny everything. *)
#[local] Instance ascii_only : UnicodeTables := {| uni_IsPrint := fun _ => false |}.

Definition ex_views : list RuleView :=
  [ {| v_CIDR := "10.0.0.0/8"; v_ClientRandomPrefix := "a0b0/f0f0"; v_Action := "allow" |};
    {| v_CIDR := ""; v_ClientRandomPrefix := ""; v_Action := "deny" |} ].

Definition ex_fs : fs := {| fs_files := ∅; fs_locked := ∅; fs_full := ∅ |}.
Definition ex_engine : Engine := {| rules := []; path := "/etc/rules.toml" |}.
Definition ex_set : Engine * fs * option string := Set_ ex_engine ex_fs ex_views.

Example ex_torn :
  let '(e, f, err) := Set_ ex_engine {| fs_files := {[ "/etc/rules.toml" := "old" ]}; fs_locked := ∅;
                                        fs_full := {[ "/etc/rules.toml" := 8%nat ]} |} ex_views in
  (length (rules e), fs_files f !! "/etc/rules.toml", bool_decide (err = None)) = (2%nat, Some "[[rule]]", false).
Proof. vm_compute. reflexivity. Qed.

Example ex_allow :
  let e := ex_set.1.1 in
  (Allow e (ParseIP "10.1.2.3") (bytes_of "") , Allow e (ParseIP "10.1.2.3") [xaf; xb1; x00],
   Allow e (ParseIP "11.1.2.3") [xaf; xb1; x00]) = (false, true, false).
Proof. vm_compute. reflexivity. Qed.

Lemma Set_Allow_policy_witness :
  is_ok (compile_views 0 ex_views) = true /\ Snapshot ex_set.1.1 = ex_views.
Proof.
  split; [vm_compute; reflexivity|].
  apply (Set_Allow_policy ex_engine ex_set.1.1 ex_fs ex_set.1.2 ex_views ex_set.2).
  - vm_compute. reflexivity.
  - vm_compute. reflexivity.
Defined.
