(* ===== verification/SqlDb.v ===== *)
(** The users table as the repository reaches it through database/sql: the
    statements it issues, as an interface to the SQL engine, the documented
    behaviour the theorems use, and a table in memory that has it. *)
From S2P Require Import Prelude GoStrings.
#[local] Open Scope Z_scope.

(** The columns of the table users, but for its key, the username. *)
Record row := {
  row_password : string;
  row_max_devices : Z;
  row_enabled : Z;
  row_expires_at : Z;
  row_traffic_limit : Z;
  row_traffic_used : Z;
}.

#[export] Instance row_eq_dec : EqDecision row.
Proof. solve_decision. Defined.

(** The defaults of the DDL for the columns an INSERT leaves out. *)
Definition default_row (pw : string) : row :=
  {| row_password := pw; row_max_devices := 0; row_enabled := 1; row_expires_at := 0;
     row_traffic_limit := 0; row_traffic_used := 0 |}.

(** The columns an UPDATE of the repository sets. *)
Inductive assignment :=
| set_password (s : string)
| set_max_devices (n : Z)
| set_enabled (n : Z)
| set_expires_at (n : Z)
| set_traffic_limit (n : Z)
| set_traffic_used (n : Z)
| add_traffic_used (n : Z).

Definition assigned_column (a : assignment) : string :=
  match a with
  | set_password _ => "password"
  | set_max_devices _ => "max_devices"
  | set_enabled _ => "enabled"
  | set_expires_at _ => "expires_at"
  | set_traffic_limit _ => "traffic_limit_bytes"
  | set_traffic_used _ | add_traffic_used _ => "traffic_used_bytes"
  end.

Definition assign (a : assignment) (r : row) : row :=
  let mk p m e x l t := {| row_password := p; row_max_devices := m; row_enabled := e;
    row_expires_at := x; row_traffic_limit := l; row_traffic_used := t |} in
  let '(p, m, e, x, l, t) := (row_password r, row_max_devices r, row_enabled r,
    row_expires_at r, row_traffic_limit r, row_traffic_used r) in
  match a with
  | set_password s => mk s m e x l t
  | set_max_devices n => mk p n e x l t
  | set_enabled n => mk p m n x l t
  | set_expires_at n => mk p m e n l t
  | set_traffic_limit n => mk p m e x n t
  | set_traffic_used n => mk p m e x l n
  | add_traffic_used n => mk p m e x l (t + n)
  end.

(** The engine adds 64-bit integers; past them it goes over to floating point. *)
Definition no_overflow (a : assignment) (r : option row) : Prop :=
  match a, r with
  | add_traffic_used n, Some r => - 2 ^ 63 <= row_traffic_used r + n < 2 ^ 63
  | _, _ => True
  end.

(** The statements.  An UPDATE or DELETE reports the rows it affected. *)
Class SqlDriver (DB : Type) := {
  sql_Open : string -> string -> res DB;             (* driver, DSN *)
  sql_Ping : DB -> option string;
  sql_CreateUsers : DB -> list string -> DB * option string;   (* IF NOT EXISTS *)
  sql_AddColumn : DB -> string -> DB * option string;
  sql_SelectUser : DB -> list string -> string -> res (option row);
  sql_SelectAll : DB -> list string -> res (list (string * row));  (* ORDER BY username *)
  sql_Insert : DB -> string -> string -> DB * option string;   (* username, password *)
  sql_Update : DB -> assignment -> string -> DB * res Z;
  sql_Delete : DB -> string -> DB * res Z;
}.

(** What the engine promises: a table of columns and rows while it is up. *)
Class SqlTable (DB : Type) `{SqlDriver DB} := {
  tbl_up : DB -> Prop;
  tbl_cols : DB -> option (list string);     (* None: no table yet *)
  tbl_rows : DB -> gmap string row;
  create_ok db cols : tbl_up db ->
    exists db', sql_CreateUsers db cols = (db', None) /\ tbl_up db' /\ tbl_rows db' = tbl_rows db /\
      tbl_cols db' = Some (default cols (tbl_cols db));
  add_column_new db cs c : tbl_up db -> tbl_cols db = Some cs -> c ∉ cs ->
    exists db', sql_AddColumn db c = (db', None) /\ tbl_up db' /\ tbl_rows db' = tbl_rows db /\
      tbl_cols db' = Some (cs ++ [c]);
  add_column_old db cs c : tbl_up db -> tbl_cols db = Some cs -> c ∈ cs ->
    exists e, sql_AddColumn db c = (db, Some e);
  select_ok db cs cols u : tbl_up db -> tbl_cols db = Some cs -> cols ⊆ cs ->
    sql_SelectUser db cols u = Ok (tbl_rows db !! u);
  select_all_ok db cs cols : tbl_up db -> tbl_cols db = Some cs -> cols ⊆ cs ->
    exists l, sql_SelectAll db cols = Ok l /\ NoDup l.*1 /\
      forall u r, (u, r) ∈ l <-> tbl_rows db !! u = Some r;
  select_all_missing db cs cols c : tbl_cols db = Some cs -> c ∈ cols -> c ∉ cs ->
    exists e, sql_SelectAll db cols = Err e;
  insert_new db cs u pw : tbl_up db -> tbl_cols db = Some cs -> tbl_rows db !! u = None ->
    exists db', sql_Insert db u pw = (db', None) /\ tbl_up db' /\ tbl_cols db' = Some cs /\
      tbl_rows db' = <[u := default_row pw]> (tbl_rows db);
  insert_old db cs u pw r : tbl_up db -> tbl_cols db = Some cs -> tbl_rows db !! u = Some r ->
    exists e, sql_Insert db u pw = (db, Some e);
  update_ok db cs a u : tbl_up db -> tbl_cols db = Some cs -> assigned_column a ∈ cs ->
    no_overflow a (tbl_rows db !! u) ->
    exists db', sql_Update db a u = (db', Ok (if tbl_rows db !! u then 1 else 0)) /\
      tbl_up db' /\ tbl_cols db' = Some cs /\ tbl_rows db' = alter (assign a) u (tbl_rows db);
  delete_ok db cs u : tbl_up db -> tbl_cols db = Some cs ->
    exists db', sql_Delete db u = (db', Ok (if tbl_rows db !! u then 1 else 0)) /\
      tbl_up db' /\ tbl_cols db' = Some cs /\ tbl_rows db' = delete u (tbl_rows db);
}.

(** ** A table in memory *)

Record mem_db := { mem_cols : option (list string); mem_rows : gmap string row; mem_up : bool }.

Definition with_rows (db : mem_db) (m : gmap string row) : mem_db :=
  {| mem_cols := mem_cols db; mem_rows := m; mem_up := mem_up db |}.
Definition with_cols (db : mem_db) (cs : list string) : mem_db :=
  {| mem_cols := Some cs; mem_rows := mem_rows db; mem_up := mem_up db |}.

Definition mem_guard {A} (db : mem_db) (cols : list string) (ok : A) : res A :=
  if mem_up db then
    match mem_cols db with
    | None => Err "no such table: users"
    | Some cs => if bool_decide (Forall (fun c => c ∈ cs) cols) then Ok ok else Err "no such column"
    end
  else Err "database is closed".

(** The database that opening finds. *)
Class MemInit := mem_init : mem_db.

#[export] Instance mem_driver {MI : MemInit} : SqlDriver mem_db := {|
  sql_Open := fun _ _ => Ok mem_init;
  sql_Ping := fun db => if mem_up db then None else Some "database is closed";
  sql_CreateUsers := fun db cols =>
    if mem_up db then (with_cols db (default cols (mem_cols db)), None)
    else (db, Some "database is closed");
  sql_AddColumn := fun db c =>
    match mem_guard db [] tt, mem_cols db with
    | Ok _, Some cs => if bool_decide (c ∈ cs) then (db, Some "duplicate column name")
                       else (with_cols db (cs ++ [c]), None)
    | Err e, _ => (db, Some e)
    | _, None => (db, Some "no such table: users")
    end;
  sql_SelectUser := fun db cols u => mem_guard db cols (mem_rows db !! u);
  sql_SelectAll := fun db cols => mem_guard db cols (map_to_list (mem_rows db));
  sql_Insert := fun db u pw =>
    match mem_guard db [] tt, mem_rows db !! u with
    | Ok _, None => (with_rows db (<[u := default_row pw]> (mem_rows db)), None)
    | Ok _, Some _ => (db, Some "UNIQUE constraint failed: users.username")
    | Err e, _ => (db, Some e)
    end;
  sql_Update := fun db a u =>
    match mem_guard db [assigned_column a] tt with
    | Ok _ => (with_rows db (alter (assign a) u (mem_rows db)),
               Ok (if mem_rows db !! u then 1 else 0))
    | Err e => (db, Err e)
    end;
  sql_Delete := fun db u =>
    match mem_guard db [] tt with
    | Ok _ => (with_rows db (delete u (mem_rows db)), Ok (if mem_rows db !! u then 1 else 0))
    | Err e => (db, Err e)
    end;
|}.

Lemma mem_guard_ok {A} db cs cols (x : A) :
  mem_up db = true -> mem_cols db = Some cs -> cols ⊆ cs -> mem_guard db cols x = Ok x.
Proof.
  intros Hu Hc Hs. unfold mem_guard. rewrite Hu, Hc, bool_decide_true; [done|].
  apply Forall_forall. auto.
Qed.

#[export] Program Instance mem_table {MI : MemInit} : SqlTable mem_db := {|
  tbl_up := fun db => mem_up db = true; tbl_cols := mem_cols; tbl_rows := mem_rows |}.
Next Obligation. intros MI db cols Hu. cbn. rewrite Hu. eauto. Qed.
Next Obligation.
  intros MI db cs c Hu Hc Hn. cbn. rewrite (mem_guard_ok db cs), Hc, bool_decide_false by (done || set_solver).
  eauto.
Qed.
Next Obligation.
  intros MI db cs c Hu Hc Hn. cbn. rewrite (mem_guard_ok db cs), Hc, bool_decide_true by (done || set_solver).
  eauto.
Qed.
Next Obligation. intros MI db cs cols u Hu Hc Hs. cbn. by rewrite (mem_guard_ok db cs). Qed.
Next Obligation.
  intros MI db cs cols Hu Hc Hs. exists (map_to_list (mem_rows db)). cbn.
  rewrite (mem_guard_ok db cs) by done. split_and!; [done|apply NoDup_fst_map_to_list|].
  intros u r. apply elem_of_map_to_list.
Qed.
Next Obligation.
  intros MI db cs cols c Hc Hi Hn. cbn. unfold mem_guard. rewrite Hc.
  destruct (mem_up db); [|eauto]. rewrite bool_decide_false; [eauto|].
  rewrite Forall_forall. auto.
Qed.
Next Obligation.
  intros MI db cs u pw Hu Hc Hn. cbn. rewrite (mem_guard_ok db cs) by (done || set_solver).
  rewrite Hn. eauto.
Qed.
Next Obligation.
  intros MI db cs u pw r Hu Hc Hn. cbn. rewrite (mem_guard_ok db cs) by (done || set_solver).
  rewrite Hn. eauto.
Qed.
Next Obligation.
  intros MI db cs a u Hu Hc Hi _. cbn. rewrite (mem_guard_ok db cs) by (done || set_solver). eauto.
Qed.
Next Obligation.
  intros MI db cs u Hu Hc. cbn. rewrite (mem_guard_ok db cs) by (done || set_solver). eauto.
Qed.

(** [sql.Rows affected = 0] and driver errors, as every writer of the table
    reports them. *)
Definition in_int64 (n : Z) : bool := (- 2 ^ 63 <=? n) && (n <? 2 ^ 63).
