(* ===== verification/AuthStore.v ===== *)
(** internal/auth/store: the credential stores the endpoint authenticates
    against (file.go, sqlite.go, postgres.go), behind the interfaces that
    internal/auth/auth.go declares for them. *)
From S2P Require Import Prelude GoStrings GoOS SqlDb.
#[local] Open Scope Z_scope.

(** auth.UserStore with its two optional interfaces: [None] when the type
    assertion on the store fails.  A lifecycle is (enabled, expiresAt,
    trafficLimit, trafficUsed). *)
Class UserStore (S : Type) := {
  GetPassword : S -> string -> res string;
  GetMaxDevices : option (S -> string -> res Z);
  GetLifecycle : option (S -> string -> res (bool * Z * Z * Z));
}.

(** ** file.go *)

Record fileEntry := { fe_password : string; fe_maxDevices : Z }.

Record fileClient := { fc_Username : string; fc_Password : string; fc_MaxDevices : Z }.

Record FileStore := { fst_path : string; fst_users : gmap string fileEntry }.

(** A missing key reads Go's zero value. *)
Definition file_entry (s : FileStore) (username : string) : fileEntry :=
  default {| fe_password := ""; fe_maxDevices := 0 |} (fst_users s !! username).

Definition file_GetPassword (s : FileStore) (username : string) : res string :=
  Ok (fe_password (file_entry s username)).

Definition file_GetMaxDevices (s : FileStore) (username : string) : res Z :=
  Ok (fe_maxDevices (file_entry s username)).

Section file_store.
(** toml.DecodeFile into fileCredentials. *)
Variable toml_clients : string -> res (list fileClient).

(** The loop of [reload] over the decoded clients. *)
Definition client_map (cs : list fileClient) : gmap string fileEntry :=
  foldl (fun m c => <[fc_Username c :=
    {| fe_password := fc_Password c; fe_maxDevices := fc_MaxDevices c |}]> m) ∅ cs.

Definition file_reload (f : fs) (s : FileStore) : FileStore * option string :=
  match DecodeFile toml_clients f (fst_path s) with
  | Err e => (s, Some e)
  | Ok cs => ({| fst_path := fst_path s; fst_users := client_map cs |}, None)
  end.

Definition NewFileStore (f : fs) (path : string) : FileStore :=
  (file_reload f {| fst_path := path; fst_users := ∅ |}).1.

(** [watchLoop]: one tick reloads and only logs an error. *)
Definition watch_tick (f : fs) (s : FileStore) : FileStore := (file_reload f s).1.
End file_store.

#[export] Instance file_user_store : UserStore FileStore := {|
  GetPassword := file_GetPassword;
  GetMaxDevices := Some file_GetMaxDevices;
  GetLifecycle := None;
|}.

(** ** sqlite.go and postgres.go *)

Section sql_stores.
Context {DB : Type} `{SqlDriver DB}.

Definition sqlite_columns : list string :=
  ["username"; "password"; "max_devices"; "enabled"; "expires_at";
   "traffic_limit_bytes"; "traffic_used_bytes"].

(** The ALTER TABLE statements; their errors are dropped. *)
Definition sqlite_alters : list string :=
  ["max_devices"; "enabled"; "expires_at"; "traffic_limit_bytes"; "traffic_used_bytes"].

Definition add_columns (db : DB) (cs : list string) : DB :=
  foldl (fun db c => (sql_AddColumn db c).1) db cs.

Definition NewSQLiteStore (dsn : string) : res DB :=
  db ← wrap_err "sqlite open: " (sql_Open "sqlite" dsn);
  match sql_Ping db with
  | Some e => Err ("sqlite ping: " +:+ e)
  | None =>
      match sql_CreateUsers db sqlite_columns with
      | (_, Some e) => Err ("sqlite migrate: " +:+ e)
      | (db, None) => Ok (add_columns db sqlite_alters)
      end
  end.

(** [sql.ErrNoRows] is the [None] of the query. *)
Definition sqlite_GetLifecycle (db : DB) (username : string) : res (bool * Z * Z * Z) :=
  r ← sql_SelectUser db ["enabled"; "expires_at"; "traffic_limit_bytes"; "traffic_used_bytes"]
        username;
  match r with
  | None => Ok (false, 0, 0, 0)
  | Some r => Ok (negb (row_enabled r =? 0), row_expires_at r,
                  u64 (row_traffic_limit r), u64 (row_traffic_used r))
  end.

(** database/sql refuses a uint64 argument with its high bit set. *)
Definition sqlite_AddTraffic (db : DB) (username : string) (n : Z) : DB * option string :=
  if in_int64 n then
    match sql_Update db (add_traffic_used n) username with
    | (db, Ok _) => (db, None)
    | (db, Err e) => (db, Some e)
    end
  else (db, Some "sql: converting argument $1 type: uint64 values with high bit set are not supported").

Definition sqlite_GetPassword (db : DB) (username : string) : res string :=
  r ← sql_SelectUser db ["password"] username;
  match r with None => Ok "" | Some r => Ok (row_password r) end.

Definition sqlite_GetMaxDevices (db : DB) (username : string) : res Z :=
  r ← sql_SelectUser db ["max_devices"] username;
  match r with None => Ok 0 | Some r => Ok (row_max_devices r) end.

Definition postgres_columns : list string := ["username"; "password"; "max_devices"].

(** The prepared statement is the SELECT it was prepared from; preparing
    it fails as that SELECT does. *)
Definition NewPostgresStore (dsn : string) : res DB :=
  db ← wrap_err "postgres open: " (sql_Open "postgres" dsn);
  match sql_Ping db with
  | Some e => Err ("postgres ping: " +:+ e)
  | None =>
      match sql_CreateUsers db postgres_columns with
      | (_, Some e) => Err ("postgres migrate: " +:+ e)
      | (db, None) =>
          let db := add_columns db ["max_devices"] in
          _ ← wrap_err "postgres prepare: " (sql_SelectUser db ["password"] "");
          Ok db
      end
  end.

Definition postgres_GetPassword (db : DB) (username : string) : res string :=
  r ← sql_SelectUser db ["password"] username;
  match r with None => Ok "" | Some r => Ok (row_password r) end.

Definition postgres_GetMaxDevices (db : DB) (username : string) : res Z :=
  r ← sql_SelectUser db ["max_devices"] username;
  match r with None => Ok 0 | Some r => Ok (row_max_devices r) end.

(** The two stores wrap the same handle type; the interface each implements. *)
Record SQLiteStore := { sq_db : DB }.
Record PostgresStore := { pg_db : DB }.

#[export] Instance sqlite_user_store : UserStore SQLiteStore := {|
  GetPassword s := sqlite_GetPassword (sq_db s);
  GetMaxDevices := Some (fun s => sqlite_GetMaxDevices (sq_db s));
  GetLifecycle := Some (fun s => sqlite_GetLifecycle (sq_db s));
|}.

#[export] Instance postgres_user_store : UserStore PostgresStore := {|
  GetPassword s := postgres_GetPassword (pg_db s);
  GetMaxDevices := Some (fun s => postgres_GetMaxDevices (pg_db s));
  GetLifecycle := None;
|}.
End sql_stores.
Arguments SQLiteStore : clear implicits.
Arguments PostgresStore : clear implicits.

(** ** Lemmas *)

(** The last client of the file with a name is the one that counts. *)
Definition last_client (u : string) (cs : list fileClient) : option fileClient :=
  last (filter (fun c => fc_Username c = u) cs).

Lemma client_map_last u cs :
  client_map cs !! u =
  (fun c => {| fe_password := fc_Password c; fe_maxDevices := fc_MaxDevices c |})
    <$> last_client u cs.
Proof.
  unfold client_map, last_client. induction cs as [|c cs IH] using rev_ind; [done|].
  rewrite foldl_snoc, filter_app, filter_cons. case_decide as Hc.
  - subst. by rewrite lookup_insert_eq, filter_nil, last_snoc.
  - by rewrite lookup_insert_ne, IH, filter_nil, app_nil_r.
Qed.

Section table_facts.
Context {DB : Type} `{SqlTable DB}.

Lemma add_columns_spec db cs news :
  tbl_up db -> tbl_cols db = Some cs ->
  let db' := add_columns db news in
  exists cs', tbl_up db' /\ tbl_cols db' = Some cs' /\ cs ⊆ cs' /\ news ⊆ cs' /\
    tbl_rows db' = tbl_rows db.
Proof.
  unfold add_columns. revert db cs. induction news as [|c news IH]; intros db cs Hu Hc; cbn.
  - exists cs. split_and!; try done. set_solver.
  - destruct (decide (c ∈ cs)) as [Hin|Hin].
    + destruct (add_column_old db cs c Hu Hc Hin) as [e He]. rewrite He. cbn.
      destruct (IH db cs Hu Hc) as (cs' & ? & ? & ? & ? & ?). exists cs'.
      split_and!; try done. set_solver.
    + destruct (add_column_new db cs c Hu Hc Hin) as (db1 & E & Hu1 & Hr1 & Hc1).
      rewrite E. cbn. destruct (IH db1 _ Hu1 Hc1) as (cs' & ? & ? & ? & ? & Hr).
      exists cs'. rewrite Hr, Hr1. split_and!; try done; set_solver.
Qed.

Lemma select_user_ok db cs cols u :
  tbl_up db -> tbl_cols db = Some cs -> cols ⊆ cs -> sql_SelectUser db cols u = Ok (tbl_rows db !! u).
Proof. apply select_ok. Qed.
End table_facts.

(** ** Properties *)

(** What the file store answers after a reload.  A file that cannot be read
    or parsed leaves the users as they were; otherwise the password and the
    device limit of a name are those of the last client entry with that name,
    and empty and zero when there is none. *)
Theorem file_reload_spec (toml : string -> res (list fileClient)) (f : fs) (s : FileStore)
    (u : string) :
  let '(s', err) := file_reload toml f s in
  match DecodeFile toml f (fst_path s) with
  | Err e => s' = s /\ err = Some e
  | Ok cs =>
      err = None /\
      file_GetPassword s' u = Ok (from_option fc_Password "" (last_client u cs)) /\
      file_GetMaxDevices s' u = Ok (from_option fc_MaxDevices 0 (last_client u cs))
  end.
Proof.
  unfold file_reload. destruct (DecodeFile toml f (fst_path s)) as [cs|]; [|done].
  unfold file_GetPassword, file_GetMaxDevices, file_entry. cbn [fst_users].
  rewrite client_map_last. by destruct (last_client u cs).
Qed.

(** Opening the SQLite store migrates whatever users table it finds.  With
    an engine that is up and a table, if there is one, that has a password
    column, [NewSQLiteStore] succeeds without touching a row, and afterwards
    every query of the store answers from the row of the user, the defaults of
    an absent user included, and AddTraffic of an amount that fits a signed
    64-bit integer, as its sum with the counter does, adds it to that user's
    counter and to nothing else. *)
Theorem sqlite_store_migrates {DB} `{SqlTable DB} (dsn : string) (db : DB)
  (Hopen : sql_Open "sqlite" dsn = Ok db) (Hping : sql_Ping db = None) (Hup : tbl_up db)
  (Hpw : "password" ∈ default sqlite_columns (tbl_cols db)) :
  exists db', NewSQLiteStore dsn = Ok db' /\ tbl_rows db' = tbl_rows db /\
  forall u,
    let row := tbl_rows db !! u in
    sqlite_GetPassword db' u = Ok (from_option row_password "" row) /\
    sqlite_GetMaxDevices db' u = Ok (from_option row_max_devices 0 row) /\
    sqlite_GetLifecycle db' u =
      Ok (from_option (fun r => (negb (row_enabled r =? 0), row_expires_at r,
            u64 (row_traffic_limit r), u64 (row_traffic_used r))) (false, 0, 0, 0) row) /\
    forall n, 0 <= n < 2 ^ 63 -> no_overflow (add_traffic_used n) row ->
      exists db'', sqlite_AddTraffic db' u n = (db'', None) /\
        tbl_rows db'' = alter (assign (add_traffic_used n)) u (tbl_rows db).
Proof.
  unfold NewSQLiteStore. rewrite Hopen. cbn. rewrite Hping.
  destruct (create_ok db sqlite_columns Hup) as (db1 & -> & Hu1 & Hr1 & Hc1).
  destruct (add_columns_spec db1 _ sqlite_alters Hu1 Hc1) as (cs & Hu & Hc & Hsub & Hnew & Hr).
  set (db' := add_columns db1 sqlite_alters) in *.
  exists db'. rewrite <- Hr1, <- Hr. split_and!; [done..|]. intros u.
  unfold sqlite_GetPassword, sqlite_GetMaxDevices, sqlite_GetLifecycle, sqlite_AddTraffic.
  unfold sqlite_alters in *.
  rewrite !(select_user_ok db' cs) by (done || set_solver).
  split_and!; [by destruct (tbl_rows db' !! u)..|].
  intros n Hn Hfit. unfold in_int64.
  destruct (Z.leb_spec (- 2 ^ 63) n); [|lia]. destruct (Z.ltb_spec n (2 ^ 63)); [|lia]. cbn [andb].
  destruct (update_ok db' cs (add_traffic_used n) u Hu Hc) as (db2 & -> & _ & _ & Hr2);
    [set_solver|done|]. eauto.
Qed.

(** An old two-column table with one user. *)
Definition old_table : mem_db :=
  {| mem_cols := Some ["username"; "password"]; mem_rows := {[ "ann" := default_row "pw" ]};
     mem_up := true |}.
#[local] Instance old_init : MemInit := old_table.

Lemma sqlite_store_migrates_witness :
  exists db' : mem_db, NewSQLiteStore "users.db" = Ok db' /\
    sqlite_GetLifecycle db' "ann" = Ok (true, 0, 0, 0).
Proof.
  destruct (sqlite_store_migrates "users.db" old_table) as (db' & H1 & _ & H2);
    [reflexivity | reflexivity | reflexivity | vm_compute; repeat constructor |].
  exists db'. split; [exact H1|]. exact (proj1 (proj2 (proj2 (H2 "ann")))).
Defined.
