(* ===== verification/Auth.v ===== *)
(** internal/auth/auth.go: HTTP Basic proxy authentication over a user store,
    with a cache of users, negative entries included, that expires after a TTL.
    A call reads the clock once here: the argument [now], in nanoseconds. *)
From S2P Require Import Prelude GoStrings GoEncoding GoHttp AuthStore.
#[local] Open Scope Z_scope.

Record cacheEntry := {
  ce_password : string;
  ce_maxDevices : Z;
  ce_enabled : bool;
  ce_expiresAt : Z;
  ce_trafficLimit : Z;
  ce_trafficUsed : Z;
  ce_hasLifecycle : bool;
  ce_cacheExpiresAt : Z;
  ce_notFound : bool;
}.

Record Authenticator := { a_ttl : Z; a_cache : gmap string cacheEntry }.

Definition New (cacheTTL : Z) : Authenticator :=
  {| a_ttl := if cacheTTL =? 0 then 30 * second else cacheTTL; a_cache := ∅ |}.

Definition DenyNone : string := "".
Definition DenyBadCreds : string := "Invalid credentials".
Definition DenyDisabled : string := "Account disabled".
Definition DenyExpired : string := "Account expired".
Definition DenyTrafficLimit : string := "Traffic limit reached".

Record CheckResult := { Username : string; MaxDevices : Z; Deny : string }.

Definition denied (u why : string) : CheckResult :=
  {| Username := u; MaxDevices := 0; Deny := why |}.

Definition set_entry (a : Authenticator) (u : string) (e : cacheEntry) : Authenticator :=
  {| a_ttl := a_ttl a; a_cache := <[u := e]> (a_cache a) |}.

Definition negative_entry (exp : Z) : cacheEntry :=
  {| ce_password := ""; ce_maxDevices := 0; ce_enabled := false; ce_expiresAt := 0;
     ce_trafficLimit := 0; ce_trafficUsed := 0; ce_hasLifecycle := false;
     ce_cacheExpiresAt := exp; ce_notFound := true |}.

(** The Basic header: user and password split at the first colon. *)
Definition parse_basic (hdr : string) : option (string * string) :=
  if HasPrefix hdr "Basic " then
    decoded ← b64_DecodeString (TrimPrefix hdr "Basic ");
    Cut ":"%char (str_of decoded)
  else None.

(** The lifecycle checks of [CheckExt]. *)
Definition lifecycle_deny (e : cacheEntry) (now : Z) : string :=
  if negb (ce_hasLifecycle e) then DenyNone
  else if negb (ce_enabled e) then DenyDisabled
  else if (0 <? ce_expiresAt e) && (ce_expiresAt e <=? now / second) then DenyExpired
  else if (0 <? ce_trafficLimit e) && (ce_trafficLimit e <=? ce_trafficUsed e)
  then DenyTrafficLimit
  else DenyNone.

Section store.
Context {S : Type} `{UserStore S}.

(** What a lookup past the cache reads from the store for a password [pw]:
    an error of an optional query leaves its fields zero. *)
Definition fetch_entry (st : S) (username pw : string) (exp : Z) : cacheEntry :=
  let md := match GetMaxDevices with
            | Some q => match q st username with Ok md => md | Err _ => 0 end
            | None => 0
            end in
  let '(enabled, expAt, limit, used, has) :=
    match GetLifecycle with
    | Some q => match q st username with
                | Ok (enabled, expAt, limit, used) => (enabled, expAt, limit, used, true)
                | Err _ => (false, 0, 0, 0, false)
                end
    | None => (false, 0, 0, 0, false)
    end in
  {| ce_password := pw; ce_maxDevices := md; ce_enabled := enabled; ce_expiresAt := expAt;
     ce_trafficLimit := limit; ce_trafficUsed := used; ce_hasLifecycle := has;
     ce_cacheExpiresAt := exp; ce_notFound := false |}.

Definition lookupEntry (a : Authenticator) (st : S) (now : Z) (username : string)
  : Authenticator * option cacheEntry :=
  let hit := a_cache a !! username in
  let found e := if ce_notFound e then None else Some e in
  match hit with
  | Some e => if now <? ce_cacheExpiresAt e then (a, found e) else
      match GetPassword st username with
      | Err _ => (a, found e)
      | Ok pw => if bool_decide (pw = "")
                 then (set_entry a username (negative_entry (now + a_ttl a)), None)
                 else let out := fetch_entry st username pw (now + a_ttl a) in
                      (set_entry a username out, Some out)
      end
  | None =>
      match GetPassword st username with
      | Err _ => (a, None)
      | Ok pw => if bool_decide (pw = "")
                 then (set_entry a username (negative_entry (now + a_ttl a)), None)
                 else let out := fetch_entry st username pw (now + a_ttl a) in
                      (set_entry a username out, Some out)
      end
  end.

Definition CheckExt (a : Authenticator) (st : S) (now : Z) (r : request)
  : Authenticator * CheckResult :=
  match parse_basic (Header_Get (r_Header r) "Proxy-Authorization") with
  | None => (a, denied "" DenyBadCreds)
  | Some (username, password) =>
      let '(a, entry) := lookupEntry a st now username in
      match entry with
      | None => (a, denied "" DenyBadCreds)
      | Some e =>
          if bool_decide (password = ce_password e) then
            let why := lifecycle_deny e now in
            if bool_decide (why = DenyNone)
            then (a, {| Username := username; MaxDevices := ce_maxDevices e; Deny := DenyNone |})
            else (a, denied username why)
          else (a, denied "" DenyBadCreds)
      end
  end.

Definition Check (a : Authenticator) (st : S) (now : Z) (r : request) : Authenticator * string :=
  let '(a, res) := CheckExt a st now r in (a, Username res).
End store.

Definition Invalidate (a : Authenticator) (username : string) : Authenticator :=
  {| a_ttl := a_ttl a; a_cache := delete username (a_cache a) |}.

Definition InvalidateAll (a : Authenticator) : Authenticator :=
  {| a_ttl := a_ttl a; a_cache := ∅ |}.

(** One tick of [evictLoop]. *)
Definition evict (a : Authenticator) (now : Z) : Authenticator :=
  {| a_ttl := a_ttl a;
     a_cache := filter (fun kv => ~ (ce_cacheExpiresAt kv.2 < now)) (a_cache a) |}.

(** [OnInvalidate] is the callback, nil as [None], acting on the rest [W] of
    the server. *)
Definition InvalidateWithNotify {W} (OnInvalidate : option (string -> W -> W))
    (a : Authenticator) (username : string) (w : W) : Authenticator * W :=
  (Invalidate a username,
   match OnInvalidate with Some cb => cb username w | None => w end).

(** ** Histories: what happens to an authenticator and its store over time *)

Section history.
Context {S : Type} `{UserStore S}.

Inductive event :=
| EvTick (d : N)                  (* time passes *)
| EvStore (st : S)                (* the store's content changes *)
| EvCheck (r : request)
| EvInvalidate (u : string)
| EvInvalidateAll
| EvEvict.

Record world := { w_auth : Authenticator; w_store : S; w_now : Z }.

Definition step (w : world) (ev : event) : world :=
  let upd a := {| w_auth := a; w_store := w_store w; w_now := w_now w |} in
  match ev with
  | EvTick d => {| w_auth := w_auth w; w_store := w_store w; w_now := w_now w + Z.of_N d |}
  | EvStore st => {| w_auth := w_auth w; w_store := st; w_now := w_now w |}
  | EvCheck r => upd (CheckExt (w_auth w) (w_store w) (w_now w) r).1
  | EvInvalidate u => upd (Invalidate (w_auth w) u)
  | EvInvalidateAll => upd (InvalidateAll (w_auth w))
  | EvEvict => upd (evict (w_auth w) (w_now w))
  end.

Definition run (evs : list event) (w : world) : world := foldl step w evs.

Definition invalidates (u : string) (ev : event) : Prop :=
  match ev with EvInvalidate v => u = v | EvInvalidateAll => True | _ => False end.

(** A positive entry is what the store said at some moment of the history,
    with no invalidation of the user since. *)
Definition fetched (w0 : world) (evs : list event) (u : string) (e : cacheEntry) : Prop :=
  exists pre post pw, evs = pre ++ post /\ Forall (fun ev => ~ invalidates u ev) post /\
    let w := run pre w0 in
    GetPassword (w_store w) u = Ok pw /\ pw <> "" /\
    e = fetch_entry (w_store w) u pw (w_now w + a_ttl (w_auth w)).

(** ** Lemmas *)

Lemma run_snoc evs ev w : run (evs ++ [ev]) w = step (run evs w) ev.
Proof. unfold run. by rewrite foldl_snoc. Qed.

(** Every lookup either leaves the cache alone or stores what the store says. *)
Lemma lookupEntry_spec a st now u :
  let '(a', oe) := lookupEntry a st now u in
  a_ttl a' = a_ttl a /\
  (* served from the cache *)
  ((a' = a /\ (forall e, oe = Some e -> a_cache a !! u = Some e /\ ce_notFound e = false /\
        (now < ce_cacheExpiresAt e \/ exists msg, GetPassword st u = Err msg))) \/
  (* unknown to the store *)
   (a' = set_entry a u (negative_entry (now + a_ttl a)) /\ oe = None /\
      GetPassword st u = Ok "") \/
  (* fetched *)
   (exists pw, GetPassword st u = Ok pw /\ pw <> "" /\
      let e := fetch_entry st u pw (now + a_ttl a) in a' = set_entry a u e /\ oe = Some e)).
Proof.
  unfold lookupEntry. destruct (a_cache a !! u) as [e|] eqn:E.
  - destruct (Z.ltb_spec now (ce_cacheExpiresAt e)).
    + split; [done|]. left. split; [done|]. intros e' He. destruct (ce_notFound e) eqn:?; naive_solver.
    + destruct (GetPassword st u) as [pw|msg].
      * case_bool_decide; subst; (split; [done|]); right; [left|right]; eauto.
      * split; [done|]. left. split; [done|]. intros e' He.
        destruct (ce_notFound e) eqn:?; simplify_eq. eauto.
  - destruct (GetPassword st u) as [pw|msg].
    + case_bool_decide; subst; (split; [done|]); right; [left|right]; eauto.
    + split; [done|]. by left.
Qed.

Lemma CheckExt_lookup a st now r :
  (CheckExt a st now r).1 = a \/ exists u, (CheckExt a st now r).1 = (lookupEntry a st now u).1.
Proof.
  unfold CheckExt. destruct (parse_basic _) as [[u pw]|]; [|by left]. right. exists u.
  destruct (lookupEntry a st now u) as [a' [e|]]; [|done].
  repeat case_bool_decide; done.
Qed.

(** Acceptance, in full. *)
Lemma CheckExt_accept a st now r a' res :
  CheckExt a st now r = (a', res) -> Deny res = DenyNone ->
  exists pw e, parse_basic (Header_Get (r_Header r) "Proxy-Authorization") = Some (Username res, pw) /\
    lookupEntry a st now (Username res) = (a', Some e) /\ pw = ce_password e /\
    lifecycle_deny e now = DenyNone /\ MaxDevices res = ce_maxDevices e.
Proof.
  unfold CheckExt. destruct (parse_basic _) as [[u pw]|]; [|by intros [= <- <-]].
  destruct (lookupEntry a st now u) as [a'' [e|]] eqn:E; [|by intros [= <- <-]].
  case_bool_decide; [|by intros [= <- <-]].
  case_bool_decide; intros [= <- <-]; [|done]. cbn. intros _. eauto 10.
Qed.

Lemma fetched_snoc w0 evs ev u e :
  fetched w0 evs u e -> ~ invalidates u ev -> fetched w0 (evs ++ [ev]) u e.
Proof.
  intros (pre & post & pw & -> & Hpost & Hf) Hev. exists pre, (post ++ [ev]), pw.
  split_and!; [by rewrite app_assoc| |by destruct Hf..].
  apply Forall_app. by repeat constructor.
Qed.

Lemma fetched_now w0 evs ev u pw :
  let w := run evs w0 in
  GetPassword (w_store w) u = Ok pw -> pw <> "" -> ~ invalidates u ev ->
  fetched w0 (evs ++ [ev]) u (fetch_entry (w_store w) u pw (w_now w + a_ttl (w_auth w))).
Proof.
  cbn. intros Hp Hne Hev. exists evs, [ev], pw. split_and!; [done|by repeat constructor|done..].
Qed.

Lemma cache_fetched evs w0 u e :
  a_cache (w_auth w0) = ∅ ->
  a_cache (w_auth (run evs w0)) !! u = Some e -> ce_notFound e = false -> fetched w0 evs u e.
Proof.
  intros H0. revert u e. induction evs as [|ev evs IH] using rev_ind; intros u e Hu Hn.
  { cbn in Hu. by rewrite H0, lookup_empty in Hu. }
  rewrite run_snoc in Hu.
  assert (Hold : a_cache (w_auth (run evs w0)) !! u = Some e -> ~ invalidates u ev ->
    fetched w0 (evs ++ [ev]) u e) by (intros; apply fetched_snoc; auto).
  destruct ev as [d|st|r|v| |]; cbn in Hu.
  1, 2: apply Hold; [done|cbn; tauto].
  - destruct (CheckExt_lookup (w_auth (run evs w0)) (w_store (run evs w0))
      (w_now (run evs w0)) r) as [E|[v E]]; rewrite E in Hu; [apply Hold; [done|cbn; tauto]|].
    pose proof (lookupEntry_spec (w_auth (run evs w0)) (w_store (run evs w0))
      (w_now (run evs w0)) v) as Hs.
    destruct (lookupEntry _ _ _ v) as [a' oe]. cbn in Hu.
    destruct Hs as (_ & [[-> _]|[(-> & _ & _)|(pw & Hp & Hne & -> & _)]]); [apply Hold; [done|cbn; tauto]|..];
      cbn in Hu; apply lookup_insert_Some in Hu as [[-> <-]|[_ Hu]]; try done; try (apply Hold; [done|cbn; tauto]).
    apply fetched_now; cbn; tauto.
  - apply lookup_delete_Some in Hu as [Hne Hu]. apply Hold; [done|]. cbn. congruence.
  - by rewrite lookup_empty in Hu.
  - apply map_lookup_filter_Some in Hu as [Hu _]. apply Hold; [done|cbn; tauto].
Qed.

Lemma run_ttl evs w : a_ttl (w_auth (run evs w)) = a_ttl (w_auth w).
Proof.
  induction evs as [|ev evs IH] using rev_ind; [done|]. rewrite run_snoc, <- IH.
  destruct ev as [| |r| | |]; try done. cbn.
  destruct (CheckExt_lookup (w_auth (run evs w)) (w_store (run evs w)) (w_now (run evs w)) r)
    as [->|[v ->]]; [done|].
  pose proof (lookupEntry_spec (w_auth (run evs w)) (w_store (run evs w))
    (w_now (run evs w)) v) as Hs.
  destruct (lookupEntry _ _ _ v) as [a' oe]. by destruct Hs.
Qed.
End history.
Arguments event : clear implicits.
Arguments world : clear implicits.

(** ** Specification *)

(** The account may use the proxy at time [now], as the store describes it. *)
Definition lifecycle_permits {S} `{UserStore S} (st : S) (u : string) (now : Z) : Prop :=
  match GetLifecycle with
  | None => True
  | Some q => match q st u with
              | Err _ => True
              | Ok (enabled, expiresAt, limit, used) =>
                  enabled = true /\ (expiresAt <= 0 \/ now / second < expiresAt) /\
                  (limit <= 0 \/ used < limit)
              end
  end.

Definition basic_credentials (r : request) : option (string * string) :=
  parse_basic (Header_Get (r_Header r) "Proxy-Authorization").

(** What a client encodes is what is decoded, for a user name without a colon. *)
Lemma parse_basic_encoded u pw : has_char ":"%char u = false ->
  parse_basic ("Basic " +:+ b64_EncodeToString (bytes_of (u +:+ ":" +:+ pw))) = Some (u, pw).
Proof.
  intros Hu. unfold parse_basic. rewrite HasPrefix_app, TrimPrefix_app, b64_roundtrip.
  cbn [mbind option_bind]. rewrite str_of_bytes_of. by apply (Cut_app ":"%char).
Qed.

Section properties.
Context {S : Type} `{UserStore S}.

Lemma lifecycle_deny_none st u pw exp now :
  lifecycle_deny (fetch_entry st u pw exp) now = DenyNone <-> lifecycle_permits st u now.
Proof.
  unfold lifecycle_deny, fetch_entry, lifecycle_permits.
  destruct GetLifecycle as [q|]; [|done]. destruct (q st u) as [[[[en x] l] us]|]; [|done].
  cbn -[Z.div second]. destruct en; cbn -[Z.div second]; [|split; [done|by intros [? _]]].
  destruct (Z.ltb_spec 0 x), (Z.leb_spec x (now / second)); cbn -[Z.div second];
    try (split; [done|intros (_ & [|] & _); lia]).
  all: destruct (Z.ltb_spec 0 l), (Z.leb_spec l us); cbn -[Z.div second];
    try (split; [done|intros (_ & _ & [|]); lia]);
    (split; [intros _; split_and!; [done|lia|lia] | done]).
Qed.

Lemma fetch_entry_fields st u pw exp :
  let e := fetch_entry st u pw exp in
  ce_password e = pw /\ ce_cacheExpiresAt e = exp /\ ce_notFound e = false.
Proof.
  unfold fetch_entry. destruct GetLifecycle as [q|]; [|done].
  by destruct (q st u) as [[[[? ?] ?] ?]|].
Qed.

(** A lookup without a live entry asks the store and keeps what it says. *)
Lemma lookupEntry_fresh a st now u pw :
  (forall e, a_cache a !! u = Some e -> ce_cacheExpiresAt e <= now) -> GetPassword st u = Ok pw ->
  lookupEntry a st now u =
    if bool_decide (pw = "") then (set_entry a u (negative_entry (now + a_ttl a)), None)
    else (set_entry a u (fetch_entry st u pw (now + a_ttl a)), Some (fetch_entry st u pw (now + a_ttl a))).
Proof.
  intros Hstale Hstore. unfold lookupEntry. rewrite Hstore.
  destruct (a_cache a !! u) as [e|] eqn:E; [|done].
  specialize (Hstale e eq_refl). by destruct (Z.ltb_spec now (ce_cacheExpiresAt e)); [lia|].
Qed.

(** The decision then is the store's. *)
Lemma CheckExt_fresh a st now r u given pw :
  basic_credentials r = Some (u, given) ->
  (forall e, a_cache a !! u = Some e -> ce_cacheExpiresAt e <= now) -> GetPassword st u = Ok pw ->
  Deny (CheckExt a st now r).2 = DenyNone <-> given = pw /\ pw <> "" /\ lifecycle_permits st u now.
Proof.
  unfold basic_credentials. intros Hcred Hstale Hstore. unfold CheckExt.
  rewrite Hcred, (lookupEntry_fresh a st now u pw) by done. case_bool_decide as Hpw; subst; [split; [done|tauto]|].
  destruct (fetch_entry_fields st u pw (now + a_ttl a)) as (E1 & _ & _).
  rewrite E1. pose proof (lifecycle_deny_none st u pw (now + a_ttl a) now) as Hd.
  case_bool_decide as Hg; [|split; [done|tauto]].
  case_bool_decide as Hn; cbn [Deny denied snd]; tauto.
Qed.

(** C2: an accepted request carries credentials that were right, recently.
    Whatever happened to the authenticator and to its store since start-up
    (checks, store changes, invalidations, evictions, time), if a request is
    accepted now then it names, in its Basic header, a user and the non-empty
    password which the store gave for that user at some moment of the history
    after the user's last invalidation, when the store's lifecycle data
    permitted the account (its expiry judged now); and that moment lies less
    than the cache TTL back, unless the store is failing for that user now.  A
    check is one step here; Interleaving.v says what is left of this when
    another request comes between its parts. *)
Theorem auth_sound (w0 : world S) (evs : list (event S)) (r : request)
    (a' : Authenticator) (res : CheckResult)
  (Hempty : a_cache (w_auth w0) = ∅) (Httl : 0 < a_ttl (w_auth w0))
  (Hcheck : CheckExt (w_auth (run evs w0)) (w_store (run evs w0)) (w_now (run evs w0)) r = (a', res))
  (Hok : Deny res = DenyNone) :
  exists pre post pw, evs = pre ++ post /\
    Forall (fun ev => ~ invalidates (Username res) ev) post /\
    basic_credentials r = Some (Username res, pw) /\ pw <> "" /\
    GetPassword (w_store (run pre w0)) (Username res) = Ok pw /\
    lifecycle_permits (w_store (run pre w0)) (Username res) (w_now (run evs w0)) /\
    (w_now (run evs w0) < w_now (run pre w0) + a_ttl (w_auth w0) \/
     exists msg, GetPassword (w_store (run evs w0)) (Username res) = Err msg).
Proof.
  destruct (CheckExt_accept _ _ _ _ _ _ Hcheck Hok) as (pw & e & Hb & Hl & Hpw & Hlife & _).
  pose proof (lookupEntry_spec (w_auth (run evs w0)) (w_store (run evs w0))
    (w_now (run evs w0)) (Username res)) as Hs. rewrite Hl in Hs.
  destruct Hs as (_ & [[_ Hhit]|[(_ & ? & _)|(pw' & Hp & Hne & _ & [= ->])]]); [|done|].
  - destruct (Hhit e eq_refl) as (Hc & Hn & Hfresh).
    destruct (cache_fetched evs w0 _ e Hempty Hc Hn) as (pre & post & pw' & -> & Hpost & Hp & Hne & ->).
    rewrite run_ttl in *.
    destruct (fetch_entry_fields (w_store (run pre w0)) (Username res) pw'
      (w_now (run pre w0) + a_ttl (w_auth w0))) as (E1 & E2 & _).
    rewrite E1 in Hpw. rewrite E2 in Hfresh. subst pw'.
    apply lifecycle_deny_none in Hlife. exists pre, post, pw. split_and!; done.
  - destruct (fetch_entry_fields (w_store (run evs w0)) (Username res) pw'
      (w_now (run evs w0) + a_ttl (w_auth (run evs w0)))) as (E1 & _ & _).
    rewrite E1 in Hpw. subst pw'. apply lifecycle_deny_none in Hlife.
    exists evs, [], pw. split_and!; [by rewrite app_nil_r|constructor|done..|left; lia].
Qed.

(** C3: past the cache the decision is the store's.  With no live entry for the
    user of the header and a store that answers, the request is accepted
    exactly when the password is the store's, is not empty and the lifecycle
    permits the account; and the answer is kept: the request of a user the store
    did not know, repeated until the TTL runs out, stays rejected whatever the
    store says by then. *)
Theorem auth_fresh_decision (a : Authenticator) (st : S) (now : Z) (r : request)
    (u given pw : string)
  (Hcred : basic_credentials r = Some (u, given))
  (Hstale : forall e, a_cache a !! u = Some e -> ce_cacheExpiresAt e <= now)
  (Hstore : GetPassword st u = Ok pw) :
  let '(a', res) := CheckExt a st now r in
  (Deny res = DenyNone <-> given = pw /\ pw <> "" /\ lifecycle_permits st u now) /\
  (pw = "" -> forall st' now', now' < now + a_ttl a ->
     CheckExt a' st' now' r = (a', denied "" DenyBadCreds)).
Proof.
  pose proof (CheckExt_fresh a st now r u given pw Hcred Hstale Hstore) as Hd.
  destruct (CheckExt a st now r) as [a' res] eqn:E. split; [exact Hd|]. intros -> st' now' Hlt.
  unfold CheckExt, basic_credentials in *. rewrite Hcred in E |- *.
  rewrite (lookupEntry_fresh a st now u "") in E by done. cbn in E. injection E as <- _.
  unfold lookupEntry. cbn [a_cache set_entry]. rewrite lookup_insert_eq.
  cbn [ce_cacheExpiresAt negative_entry]. by destruct (Z.ltb_spec now' (now + a_ttl a)); [|lia].
Qed.
End properties.

(** A small store: one account, as lifecycle data of sqlite gives it. *)
Record ex_store := { ex_pw : string; ex_life : bool * Z * Z * Z; ex_down : bool }.
#[local] Instance ex_user_store : UserStore ex_store := {|
  GetPassword st u := if ex_down st then Err "down" else
    Ok (if bool_decide (u = "ann") then ex_pw st else "");
  GetMaxDevices := Some (fun _ _ => Ok 2);
  GetLifecycle := Some (fun st _ => Ok (ex_life st));
|}.

Definition ex_request : request :=
  {| r_Method := MethodConnect; r_Host := "example.org:443"; r_URLHost := ""; r_Path := "";
     r_Query := ∅;
     r_Header := Header_Set ∅ "Proxy-Authorization"
                   ("Basic " +:+ b64_EncodeToString (bytes_of "ann:secret"));
     r_RemoteAddr := "203.0.113.9:5555"; r_ProtoMajor := 2 |}.

Definition ex_world : world ex_store :=
  {| w_auth := New 0; w_store := {| ex_pw := "secret"; ex_life := (true, 0, 0, 0); ex_down := false |};
     w_now := 0 |}.

(** The password changes after the first check; the stale entry still answers. *)
Definition ex_events : list (event ex_store) :=
  [EvCheck ex_request;
   EvStore {| ex_pw := "new"; ex_life := (false, 0, 0, 0); ex_down := false |}; EvTick 1000].

Lemma auth_sound_witness :
  let w := run ex_events ex_world in
  let res := (CheckExt (w_auth w) (w_store w) (w_now w) ex_request).2 in
  Deny res = "" /\
  exists pre, GetPassword (w_store (run pre ex_world)) "ann" = Ok "secret".
Proof.
  split; [vm_compute; reflexivity|].
  destruct (auth_sound ex_world ex_events ex_request
    (CheckExt (w_auth (run ex_events ex_world)) (w_store (run ex_events ex_world))
       (w_now (run ex_events ex_world)) ex_request).1
    (CheckExt (w_auth (run ex_events ex_world)) (w_store (run ex_events ex_world))
       (w_now (run ex_events ex_world)) ex_request).2)
    as (pre & _ & pw & _ & _ & Hc & _ & Hp & _).
  - reflexivity.
  - reflexivity.
  - vm_compute. reflexivity.
  - vm_compute. reflexivity.
  - exists pre. vm_compute in Hc. injection Hc as <-. exact Hp.
Defined.

Lemma auth_fresh_decision_witness :
  let w := ex_world in
  basic_credentials ex_request = Some ("ann", "secret") /\
  Deny (CheckExt (w_auth w) (w_store w) 0 ex_request).2 = DenyNone.
Proof.
  split; [vm_compute; reflexivity|].
  assert (Hc : basic_credentials ex_request = Some ("ann", "secret")) by (vm_compute; reflexivity).
  pose proof (auth_fresh_decision (w_auth ex_world) (w_store ex_world) 0 ex_request
    "ann" "secret" "secret" Hc) as Hd.
  destruct (CheckExt (w_auth ex_world) (w_store ex_world) 0 ex_request) as [a' res].
  apply Hd; [intros e He; discriminate He | reflexivity |].
  split; [reflexivity|]. split; [discriminate|]. vm_compute. split; [reflexivity|].
  split; left; discriminate.
Defined.
