(* ===== verification/GoIO.v ===== *)
(** Go's package io, as far as the repository uses it: a reader as the bytes it
    still delivers and the error it ends with. *)
From S2P Require Import Prelude.

Record reader := { rd_data : list byte; rd_end : string }.

Definition EOF : string := "EOF".
Definition ErrUnexpectedEOF : string := "unexpected EOF".

(** A body that ends normally. *)
Definition body_of (l : list byte) : reader := {| rd_data := l; rd_end := EOF |}.

Definition drop_rd (n : nat) (r : reader) : reader :=
  {| rd_data := drop n (rd_data r); rd_end := rd_end r |}.

(** [io.ReadFull] into a buffer of [n] bytes. *)
Definition ReadFull (n : nat) (r : reader) : res (list byte) * reader :=
  if (n <=? length (rd_data r))%nat then (Ok (take n (rd_data r)), drop_rd n r)
  else let r' := drop_rd (length (rd_data r)) r in
       if bool_decide (rd_end r = EOF)
       then (Err (if bool_decide (rd_data r = []) then EOF else ErrUnexpectedEOF), r')
       else (Err (rd_end r), r').

(** ** Lemmas *)

Lemma ReadFull_app n l rest e :
  length l = n ->
  ReadFull n {| rd_data := l ++ rest; rd_end := e |} = (Ok l, {| rd_data := rest; rd_end := e |}).
Proof.
  intros <-. unfold ReadFull, drop_rd. cbn [rd_data rd_end].
  rewrite length_app. destruct (Nat.leb_spec (length l) (length l + length rest)); [|lia].
  by rewrite take_app_length, drop_app_length.
Qed.

Lemma ReadFull_Ok n r b r' :
  ReadFull n r = (Ok b, r') -> length b = n /\ rd_data r = b ++ rd_data r' /\ rd_end r' = rd_end r.
Proof.
  unfold ReadFull. destruct (Nat.leb_spec n (length (rd_data r))).
  - intros [= <- <-]. cbn. rewrite length_take, take_drop. split_and!; [lia|done..].
  - case_bool_decide; by intros [= ].
Qed.
