(* ===== verification/Udp.v ===== *)
(** internal/udp/mux.go: UDP over one HTTP stream.  Frames of the client are
    parsed, dispatched to one connected socket per (source, destination) pair,
    and answers are framed back. *)
From S2P Require Import Prelude GoStrings GoEncoding GoNet GoIO.
#[local] Open Scope Z_scope.

Record Mux := { mux_idleTimeout : Z }.

Definition NewMux (idleTimeoutSecs : Z) : Mux :=
  let d := idleTimeoutSecs * second in
  {| mux_idleTimeout := if d =? 0 then 300 * second else d |}.

Record connKey := { k_srcAddr : string; k_srcPort : Z; k_dstAddr : string; k_dstPort : Z }.

#[export] Instance connKey_eq_dec : EqDecision connKey.
Proof. solve_decision. Defined.
#[export] Instance connKey_countable : Countable connKey.
Proof.
  apply (inj_countable' (fun k => (k_srcAddr k, k_srcPort k, k_dstAddr k, k_dstPort k))
    (fun '(a, b, c, d) => {| k_srcAddr := a; k_srcPort := b; k_dstAddr := c; k_dstPort := d |})).
  by intros [].
Defined.

(** ** Frames *)

Record packet := { p_payload : list byte; p_srcIP : IP; p_dstIP : IP; p_srcPort : Z; p_dstPort : Z }.

(** [readOutgoing] *)
Definition readOutgoing (r : reader) : res packet * reader :=
  match ReadFull 4 r with
  | (Err e, r) => (Err e, r)
  | (Ok hdr, r) =>
      match ReadFull (Z.to_nat (Uint32 hdr)) r with
      | (Err e, r) => (Err e, r)
      | (Ok body, r) =>
          if (length body <? 37)%nat then (Err "udp: packet too short", r)
          else
            let appNameLen := Z.to_nat (bval (nth 36 body x00)) in
            let start := (37 + appNameLen)%nat in
            if (length body <? start)%nat then (Err "udp: truncated", r)
            else (Ok {| p_payload := drop start body;
                        p_srcIP := To16 (slice 0 16 body);
                        p_dstIP := To16 (slice 18 34 body);
                        p_srcPort := Uint16 (slice 16 18 body);
                        p_dstPort := Uint16 (slice 34 36 body) |}, r)
      end
  end.

(** [copy] of an address into 16 zero bytes. *)
Definition copy16 (ip : IP) : list byte := let b := To16 ip in b ++ replicate (16 - length b) x00.

(** [writeIncoming]: the bytes written. *)
Definition writeIncoming (srcIP : IP) (srcPort : Z) (dstIP : IP) (dstPort : Z)
    (payload : list byte) : list byte :=
  let inner := 36 + Z.of_nat (length payload) in
  PutUint32 (u32 inner) ++ copy16 srcIP ++ PutUint16 srcPort ++ copy16 dstIP
    ++ PutUint16 dstPort ++ payload.

(** ** Sessions

    A [udpConn] is a heap object; its socket's number names it.  The kernel
    side of the model: the sockets that are open, their peers, what was sent. *)

Abbreviation sock := nat (only parsing).

Record Session := {
  s_conns : gmap connKey sock;
  s_lastSeen : gmap sock Z;       (* the field of the udpConn object *)
  s_idleTimeout : Z;
  s_closed : bool;
}.

Record net_state := {
  n_next : sock;
  n_open : gset sock;
  n_peer : gmap sock (IP * Z);
  n_sent : list (sock * list byte);
}.

Record state := { sess : Session; netw : net_state }.

Definition NewSession (idle : Z) : Session :=
  {| s_conns := ∅; s_lastSeen := ∅; s_idleTimeout := idle; s_closed := false |}.

Definition Mux_NewSession (m : Mux) : Session := NewSession (mux_idleTimeout m).

Definition no_net : net_state :=
  {| n_next := 0; n_open := ∅; n_peer := ∅; n_sent := [] |}.

Definition close_socks (n : net_state) (X : gset sock) : net_state :=
  {| n_next := n_next n; n_open := n_open n ∖ X; n_peer := n_peer n; n_sent := n_sent n |}.

Definition set_conns (s : Session) (m : gmap connKey sock) : Session :=
  {| s_conns := m; s_lastSeen := s_lastSeen s; s_idleTimeout := s_idleTimeout s;
     s_closed := s_closed s |}.

Definition socks_of (m : gmap connKey sock) : gset sock := list_to_set (map_to_list m).*2.

Definition Close (w : state) : state :=
  {| sess := {| s_conns := ∅; s_lastSeen := s_lastSeen (sess w);
                s_idleTimeout := s_idleTimeout (sess w); s_closed := true |};
     netw := close_socks (netw w) (socks_of (s_conns (sess w))) |}.

(** net.DialUDP: [dial_err] is what the system answers. *)
Definition getOrDial (w : state) (key : connKey) (dstIP : IP) (dstPort now : Z)
    (dial_err : option string) : state * res sock :=
  let s := sess w in
  if s_closed s then (w, Err "session closed")
  else match s_conns s !! key with
  | Some uc => (w, Ok uc)
  | None =>
      match dial_err with
      | Some e => (w, Err e)
      | None =>
          let n := netw w in let uc := n_next n in
          ({| sess := {| s_conns := <[key := uc]> (s_conns s);
                         s_lastSeen := <[uc := now]> (s_lastSeen s);
                         s_idleTimeout := s_idleTimeout s; s_closed := false |};
              netw := {| n_next := S uc; n_open := {[uc]} ∪ n_open n;
                         n_peer := <[uc := (dstIP, dstPort)]> (n_peer n);
                         n_sent := n_sent n |} |}, Ok uc)
      end
  end.

Definition touch (w : state) (uc : sock) (now : Z) : state :=
  {| sess := {| s_conns := s_conns (sess w); s_lastSeen := <[uc := now]> (s_lastSeen (sess w));
                s_idleTimeout := s_idleTimeout (sess w); s_closed := s_closed (sess w) |};
     netw := netw w |}.

(** [uc.conn.Write]: fails on a closed socket, or as the system says. *)
Definition conn_write (w : state) (uc : sock) (payload : list byte) (write_err : option string)
  : state * option string :=
  if bool_decide (uc ∈ n_open (netw w)) then
    match write_err with
    | Some e => (w, Some e)
    | None => ({| sess := sess w;
                  netw := {| n_next := n_next (netw w); n_open := n_open (netw w);
                             n_peer := n_peer (netw w);
                             n_sent := n_sent (netw w) ++ [(uc, payload)] |} |}, None)
    end
  else (w, Some "use of closed network connection").

Definition remove (w : state) (key : connKey) : state :=
  match s_conns (sess w) !! key with
  | Some uc => {| sess := set_conns (sess w) (delete key (s_conns (sess w)));
                  netw := close_socks (netw w) {[uc]} |}
  | None => w
  end.

(** One tick of [reaper]; [None] when it returns. *)
Definition expired (s : Session) (now : Z) (uc : sock) : bool :=
  s_idleTimeout s <? now - default 0 (s_lastSeen s !! uc).

Definition reap (w : state) (now : Z) : option state :=
  if s_closed (sess w) then None
  else let old := filter (fun kv => expired (sess w) now kv.2 = true) (s_conns (sess w)) in
       Some {| sess := set_conns (sess w)
                 (filter (fun kv => ~ (expired (sess w) now kv.2 = true)) (s_conns (sess w)));
               netw := close_socks (netw w) (socks_of old) |}.

(** The system's answers during one frame. *)
Record env := { e_now : Z; e_dial : option string; e_write : option string }.

Definition key_of (p : packet) : connKey :=
  {| k_srcAddr := IP_String (p_srcIP p); k_srcPort := p_srcPort p;
     k_dstAddr := IP_String (p_dstIP p); k_dstPort := p_dstPort p |}.

(** One turn of the loop of [ServeHTTP], after the read. *)
Definition serve_frame (w : state) (p : packet) (e : env) : state :=
  match getOrDial w (key_of p) (p_dstIP p) (p_dstPort p) (e_now e) (e_dial e) with
  | (w, Err _) => w
  | (w, Ok uc) =>
      let w := touch w uc (e_now e) in
      match conn_write w uc (p_payload p) (e_write e) with
      | (w, None) => w
      | (w, Some _) => remove w (key_of p)
      end
  end.

(** [ServeHTTP]: [envs] are the answers for the frames in order.  Fuel bounds
    the frames; the number of bytes of the body is enough. *)
Fixpoint serve_loop (fuel : nat) (w : state) (r : reader) (envs : nat -> env) (i : nat)
  : option state :=
  match fuel with
  | O => None
  | S fuel =>
      match readOutgoing r with
      | (Err _, _) => Some w
      | (Ok p, r) => serve_loop fuel (serve_frame w p (envs i)) r envs (S i)
      end
  end.

Definition ServeHTTP (w : state) (r : reader) (envs : nat -> env) : option state :=
  Close <$> serve_loop (S (length (rd_data r))) w r envs 0.

(** The frame the reader goroutine of a connection writes for a datagram. *)
Definition answer_frame (key : connKey) (addrIP : IP) (addrPort : Z) (data : list byte) : list byte :=
  writeIncoming (To16 addrIP) (u16 addrPort) (To16 (ParseIP (k_srcAddr key))) (k_srcPort key) data.

(** ** Interleavings: the frames of one or more streams, the reaper, Close *)

Inductive step : state -> state -> Prop :=
| step_dial w key ip port now err w' r :
    getOrDial w key ip port now err = (w', r) -> step w w'
| step_touch w uc now : step w (touch w uc now)
| step_write w uc b err w' r : conn_write w uc b err = (w', r) -> step w w'
| step_remove w key : step w (remove w key)
| step_reap w now w' : reap w now = Some w' -> step w w'
| step_close w : step w (Close w).

Inductive reachable (idle : Z) : state -> Prop :=
| reach_init : reachable idle {| sess := NewSession idle; netw := no_net |}
| reach_step w w' : reachable idle w -> step w w' -> reachable idle w'.

(** ** Specification *)

(** The frame of a packet, as the client writes it. *)
Definition packet_frame (p : packet) (app : list byte) : list byte :=
  PutUint32 (37 + Z.of_nat (length app) + Z.of_nat (length (p_payload p)))
    ++ p_srcIP p ++ PutUint16 (p_srcPort p) ++ p_dstIP p ++ PutUint16 (p_dstPort p)
    ++ [mkbyte (Z.of_nat (length app))] ++ app ++ p_payload p.

Definition packet_wf (p : packet) (app : list byte) : Prop :=
  length (p_srcIP p) = 16%nat /\ length (p_dstIP p) = 16%nat /\
  0 <= p_srcPort p < 2 ^ 16 /\ 0 <= p_dstPort p < 2 ^ 16 /\ (length app < 256)%nat /\
  37 + Z.of_nat (length app) + Z.of_nat (length (p_payload p)) < 2 ^ 32.

(** Every open socket is the socket of exactly one key, and a closed session
    has none. *)
Definition no_leak (w : state) : Prop :=
  (forall uc, uc ∈ n_open (netw w) <-> exists k, s_conns (sess w) !! k = Some uc) /\
  (forall k1 k2 uc, s_conns (sess w) !! k1 = Some uc -> s_conns (sess w) !! k2 = Some uc -> k1 = k2) /\
  (forall uc, uc ∈ n_open (netw w) -> (uc < n_next (netw w))%nat) /\
  (s_closed (sess w) = true -> s_conns (sess w) = ∅).

(** ** Lemmas: frames *)

(** The body of a frame, after its length. *)
Definition packet_body (p : packet) (app : list byte) : list byte :=
  p_srcIP p ++ PutUint16 (p_srcPort p) ++ p_dstIP p ++ PutUint16 (p_dstPort p)
    ++ [mkbyte (Z.of_nat (length app))] ++ app ++ p_payload p.

Lemma length_packet_body p app :
  packet_wf p app ->
  length (packet_body p app) = (37 + length app + length (p_payload p))%nat.
Proof.
  intros (Hs & Hd & _). unfold packet_body.
  rewrite !length_app, !length_PutUint16, Hs, Hd. cbn. lia.
Qed.

Lemma packet_frame_body p app :
  packet_wf p app ->
  packet_frame p app = PutUint32 (Z.of_nat (length (packet_body p app))) ++ packet_body p app.
Proof.
  intros Hwf. rewrite length_packet_body by done. unfold packet_frame, packet_body.
  do 2 f_equal. lia.
Qed.

Lemma To16_16 ip : length ip = 16%nat -> To16 ip = ip.
Proof. intros H. unfold To16. by rewrite H. Qed.

(** What [readOutgoing] does with the body of a frame. *)
Definition parse_body (body : list byte) : res packet :=
  if (length body <? 37)%nat then Err "udp: packet too short"
  else
    let start := (37 + Z.to_nat (bval (nth 36 body x00)))%nat in
    if (length body <? start)%nat then Err "udp: truncated"
    else Ok {| p_payload := drop start body;
               p_srcIP := To16 (slice 0 16 body); p_dstIP := To16 (slice 18 34 body);
               p_srcPort := Uint16 (slice 16 18 body); p_dstPort := Uint16 (slice 34 36 body) |}.

Lemma parse_packet_body p app : packet_wf p app -> parse_body (packet_body p app) = Ok p.
Proof.
  intros Hwf. pose proof (length_packet_body p app Hwf) as Hl.
  destruct Hwf as (Hs & Hd & Hsp & Hdp & Ha & _).
  unfold parse_body. rewrite Hl. destruct (Nat.ltb_spec (37 + length app + length (p_payload p)) 37); [lia|].
  assert (Hn : nth 36 (packet_body p app) x00 = mkbyte (Z.of_nat (length app))).
  { unfold packet_body. do 4 (rewrite app_nth2 by (rewrite ?length_PutUint16, ?Hs, ?Hd; lia)).
    by rewrite Hs, Hd. }
  rewrite Hn, bval_mkbyte_small, Nat2Z.id by lia.
  destruct (Nat.ltb_spec (37 + length app + length (p_payload p)) (37 + length app)); [lia|].
  f_equal. destruct p as [pl sip dip sp dp]. cbn [p_payload p_srcIP p_dstIP p_srcPort p_dstPort] in *.
  unfold packet_body. cbn [p_payload p_srcIP p_dstIP p_srcPort p_dstPort].
  f_equal.
  - replace (37 + length app)%nat
      with (length (sip ++ PutUint16 sp ++ dip ++ PutUint16 dp
                    ++ [mkbyte (Z.of_nat (length app))] ++ app)).
    + rewrite !app_assoc. apply drop_app_length.
    + rewrite !length_app, !length_PutUint16, Hs, Hd. cbn. lia.
  - rewrite slice_0_app by done. by apply To16_16.
  - rewrite (slice_skip _ _ 16), (slice_skip _ _ 2), slice_0_app by (done || cbn; lia).
    by apply To16_16.
  - rewrite (slice_skip _ _ 16), slice_0_app by (done || lia).
    rewrite <- (app_nil_r (PutUint16 sp)). by apply Uint16_Put.
  - rewrite (slice_skip _ _ 16), (slice_skip _ _ 2), (slice_skip _ _ 16), slice_0_app
      by (done || cbn; lia).
    rewrite <- (app_nil_r (PutUint16 dp)). by apply Uint16_Put.
Qed.

(** Every accepted body is the body of a well-formed packet. *)
Lemma parse_body_inv body p :
  parse_body body = Ok p -> Z.of_nat (length body) < 2 ^ 32 ->
  exists app, packet_wf p app /\ body = packet_body p app.
Proof.
  unfold parse_body. destruct (Nat.ltb_spec (length body) 37); [done|].
  set (k := nth 36 body x00). set (start := (37 + Z.to_nat (bval k))%nat).
  destruct (Nat.ltb_spec (length body) start) as [|Hst]; [done|]. intros [= <-] Hmax.
  pose proof (bval_range k) as Hk.
  assert (Happ : length (slice 37 start body) = Z.to_nat (bval k)).
  { rewrite slice_length by (unfold start; lia). unfold start. lia. }
  exists (slice 37 start body). split.
  - unfold packet_wf. cbn [p_payload p_srcIP p_dstIP p_srcPort p_dstPort].
    rewrite !To16_16, !slice_length by (rewrite ?slice_length; lia).
    rewrite length_drop. pose proof (Uint16_range (slice 16 18 body)).
    pose proof (Uint16_range (slice 34 36 body)). unfold start in *. split_and!; try done; lia.
  - unfold packet_body. cbn [p_payload p_srcIP p_dstIP p_srcPort p_dstPort].
    rewrite !To16_16, !Put_Uint16 by (rewrite slice_length; lia).
    rewrite Happ, Z2Nat.id, mkbyte_bval by lia.
    rewrite (slice_drop 37 start) by (unfold start; lia).
    assert ([k] ++ drop 37 body = drop 36 body) as ->.
    { symmetry. apply drop_S. destruct (lookup_lt_is_Some_2 body 36) as [y Hy]; [lia|].
      unfold k. rewrite nth_lookup. by rewrite Hy. }
    rewrite (slice_drop 34 36), (slice_drop 18 34), (slice_drop 16 18), (slice_drop 0 16) by lia.
    done.
Qed.

Lemma readOutgoing_body r :
  readOutgoing r =
  match ReadFull 4 r with
  | (Err e, r) => (Err e, r)
  | (Ok hdr, r) => match ReadFull (Z.to_nat (Uint32 hdr)) r with
                   | (Err e, r) => (Err e, r)
                   | (Ok body, r) => (parse_body body, r)
                   end
  end.
Proof.
  unfold readOutgoing, parse_body. destruct (ReadFull 4 r) as [[hdr|] r1]; [|done].
  destruct (ReadFull _ r1) as [[body|] r2]; [|done]. by repeat case_match.
Qed.

Lemma readOutgoing_frame p app rest e :
  packet_wf p app ->
  readOutgoing {| rd_data := packet_frame p app ++ rest; rd_end := e |} =
    (Ok p, {| rd_data := rest; rd_end := e |}).
Proof.
  intros Hwf. rewrite readOutgoing_body, packet_frame_body by done.
  rewrite <- app_assoc, (ReadFull_app 4) by done.
  rewrite <- (app_nil_r (PutUint32 _)), Uint32_Put, Nat2Z.id.
  - by rewrite (ReadFull_app (length (packet_body p app))), parse_packet_body.
  - rewrite length_packet_body by done. unfold packet_wf in Hwf. lia.
Qed.

Lemma readOutgoing_inv r p r' :
  readOutgoing r = (Ok p, r') ->
  exists app, packet_wf p app /\ rd_data r = packet_frame p app ++ rd_data r' /\
    rd_end r' = rd_end r.
Proof.
  rewrite readOutgoing_body. destruct (ReadFull 4 r) as [[hdr|] r1] eqn:E1; [|done].
  apply ReadFull_Ok in E1 as (Hh & Hd1 & He1).
  destruct (ReadFull _ r1) as [[body|] r2] eqn:E2; [|done].
  apply ReadFull_Ok in E2 as (Hb & Hd2 & He2). intros [= Hp <-].
  pose proof (Uint32_range hdr).
  destruct (parse_body_inv body p Hp) as (app & Hwf & ->); [lia|].
  exists app. split; [done|]. split; [|congruence].
  rewrite Hd1, Hd2, packet_frame_body, <- app_assoc, Hb, Z2Nat.id, Put_Uint32 by (done || lia). done.
Qed.

(** ** Lemmas: sessions *)

Lemma elem_of_socks_of m uc : uc ∈ socks_of m <-> exists k, m !! k = Some uc.
Proof.
  unfold socks_of. rewrite elem_of_list_to_set, list_elem_of_fmap. split.
  - intros ([k v] & -> & H). exists k. by apply elem_of_map_to_list.
  - intros [k H]. exists (k, uc). split; [done|]. by apply elem_of_map_to_list.
Qed.

(** Forgetting some keys and closing exactly their sockets keeps [no_leak]. *)
Lemma no_leak_drop w s' X :
  no_leak w ->
  (forall k uc, s_conns s' !! k = Some uc -> s_conns (sess w) !! k = Some uc) ->
  (forall k uc, s_conns (sess w) !! k = Some uc -> s_conns s' !! k = Some uc <-> uc ∉ X) ->
  (s_closed s' = true -> s_conns s' = ∅) ->
  no_leak {| sess := s'; netw := close_socks (netw w) X |}.
Proof.
  intros (Ho & Hi & Hn & _) Hsub Hiff Hc. unfold no_leak. cbn. split_and!.
  - intros uc. rewrite elem_of_difference, Ho. split.
    + intros [[k Hk] HX]. exists k. by apply (Hiff k uc Hk).
    + intros [k Hk]. pose proof (Hsub _ _ Hk) as Hk'. split; [eauto|]. by apply (Hiff k uc Hk').
  - intros k1 k2 uc H1 H2. eauto.
  - intros uc [Hin _]%elem_of_difference. auto.
  - done.
Qed.

Lemma no_leak_same w s' n' :
  no_leak w -> s_conns s' = s_conns (sess w) -> s_closed s' = s_closed (sess w) ->
  n_open n' = n_open (netw w) -> n_next n' = n_next (netw w) ->
  no_leak {| sess := s'; netw := n' |}.
Proof. intros H E1 E2 E3 E4. unfold no_leak. cbn. by rewrite E1, E2, E3, E4. Qed.

Lemma no_leak_Close w : no_leak w -> no_leak (Close w).
Proof.
  intros H. apply no_leak_drop; [done|..]; cbn.
  - intros k uc. by rewrite lookup_empty.
  - intros k uc Hk. rewrite lookup_empty. split; [done|]. intros Hn. destruct Hn.
    apply elem_of_socks_of. eauto.
  - done.
Qed.

Lemma no_leak_getOrDial w key ip port now err w' r :
  no_leak w -> getOrDial w key ip port now err = (w', r) -> no_leak w'.
Proof.
  intros H. unfold getOrDial. destruct (s_closed (sess w)) eqn:Ec; [by intros [= <- <-]|].
  destruct (s_conns (sess w) !! key) as [uc|] eqn:Ek; [by intros [= <- <-]|].
  destruct err as [e|]; intros [= <- <-]; [done|]. destruct H as (Ho & Hi & Hn & _).
  assert (Hfresh : forall k, s_conns (sess w) !! k <> Some (n_next (netw w))).
  { intros k Hk. assert (n_next (netw w) ∈ n_open (netw w)) as Hin by (apply Ho; eauto).
    apply Hn in Hin. lia. }
  unfold no_leak. cbn. split_and!.
  - intros uc. rewrite elem_of_union, elem_of_singleton, Ho. split.
    + intros [->|[k Hk]]; [exists key; by rewrite lookup_insert_eq|].
      exists k. rewrite lookup_insert_ne; congruence.
    + intros [k Hk]. apply lookup_insert_Some in Hk as [[_ <-]|[_ Hk]]; eauto.
  - intros k1 k2 uc H1 H2. apply lookup_insert_Some in H1 as [[<- <-]|[_ H1]];
      apply lookup_insert_Some in H2 as [[<- H2]|[_ H2]]; eauto; try done.
    + by apply Hfresh in H2.
    + subst uc. by apply Hfresh in H1.
  - intros uc [->%elem_of_singleton|Hin]%elem_of_union; [lia|]. apply Hn in Hin. lia.
  - done.
Qed.

Lemma no_leak_remove w key : no_leak w -> no_leak (remove w key).
Proof.
  intros H. unfold remove. destruct (s_conns (sess w) !! key) as [uc|] eqn:E; [|done].
  pose proof H as (_ & Hi & _ & Hc). apply no_leak_drop; [done|..]; cbn.
  - intros k uc'. rewrite lookup_delete_Some. tauto.
  - intros k uc' Hk. rewrite lookup_delete_Some, not_elem_of_singleton. split.
    + intros [Hne _] ->. by apply Hne, (Hi _ _ uc).
    + intros Hne. split; [congruence|done].
  - intros Hcl. by rewrite (Hc Hcl), delete_empty.
Qed.

Lemma no_leak_reap w now w' : no_leak w -> reap w now = Some w' -> no_leak w'.
Proof.
  intros H. unfold reap. destruct (s_closed (sess w)) eqn:Ec; [done|]. intros [= <-].
  pose proof H as (_ & Hi & _ & _). apply no_leak_drop; [done|..]; cbn.
  - intros k uc Hk. by apply map_lookup_filter_Some in Hk as [].
  - intros k uc Hk. rewrite map_lookup_filter_Some, elem_of_socks_of. cbn. split.
    + intros [_ Hx] [k' Hk']. apply map_lookup_filter_Some in Hk' as [_ Hk']. done.
    + intros Hn. split; [done|]. intros Hx. apply Hn. exists k.
      by apply map_lookup_filter_Some.
  - by rewrite Ec.
Qed.

Lemma no_leak_step w w' : no_leak w -> step w w' -> no_leak w'.
Proof.
  intros H Hs. revert H.
  destruct Hs as [w1 key ip port now err w1' r E|w1 uc now|w1 uc b err w1' r E|w1 key|w1 now w1' E|w1];
    intros H.
  - by eapply no_leak_getOrDial.
  - by apply (no_leak_same w1).
  - unfold conn_write in E. by case_bool_decide; [destruct err|]; injection E as <- <-.
  - by apply no_leak_remove.
  - by eapply no_leak_reap.
  - by apply no_leak_Close.
Qed.

Lemma no_leak_reachable idle w : reachable idle w -> no_leak w.
Proof.
  induction 1 as [|w w' _ IH Hs]; [|by eapply no_leak_step].
  unfold no_leak. cbn. split_and!; try done. intros uc. split; [by intros ?%elem_of_empty|].
  intros [k Hk]. by rewrite lookup_empty in Hk.
Qed.

(** On a closed session a frame does nothing. *)
Lemma serve_frame_closed w p e : s_closed (sess w) = true -> serve_frame w p e = w.
Proof. intros H. unfold serve_frame, getOrDial. by rewrite H. Qed.

Lemma serve_loop_closed fuel w r envs i w' :
  s_closed (sess w) = true -> serve_loop fuel w r envs i = Some w' -> w' = w.
Proof.
  intros Hc. revert r i. induction fuel as [|fuel IH]; intros r i; cbn; [done|].
  destruct (readOutgoing r) as [[p|] r']; [|by intros [= <-]].
  rewrite serve_frame_closed by done. apply IH.
Qed.

Lemma serve_loop_returns fuel w r envs i :
  (length (rd_data r) < fuel)%nat -> exists w', serve_loop fuel w r envs i = Some w'.
Proof.
  revert w r i. induction fuel as [|fuel IH]; intros w r i Hf; cbn; [lia|].
  destruct (readOutgoing r) as [[p|] r'] eqn:E; [|eauto]. apply IH.
  apply readOutgoing_inv in E as (app & Hwf & Hd & _).
  rewrite Hd, packet_frame_body, !length_app, length_PutUint32 in Hf by done. lia.
Qed.

Lemma serve_frame_steps w p e : rtc step w (serve_frame w p e).
Proof.
  unfold serve_frame.
  destruct (getOrDial _ _ _ _ _ _) as [w1 [uc|]] eqn:E1;
    [|eapply rtc_once, step_dial, E1].
  eapply rtc_l; [eapply step_dial, E1|]. eapply rtc_l; [apply (step_touch _ uc (e_now e))|].
  destruct (conn_write _ _ _ _) as [w2 [msg|]] eqn:E2.
  - eapply rtc_l; [eapply step_write, E2|]. apply rtc_once, step_remove.
  - eapply rtc_once, step_write, E2.
Qed.

Lemma serve_loop_steps fuel w r envs i w' :
  serve_loop fuel w r envs i = Some w' -> rtc step w w'.
Proof.
  revert w r i. induction fuel as [|fuel IH]; intros w r i; cbn; [done|].
  destruct (readOutgoing r) as [[p|] r']; [|by intros [= <-]].
  intros H. etrans; [apply serve_frame_steps|by eapply IH].
Qed.

Lemma reachable_rtc idle w w' : reachable idle w -> rtc step w w' -> reachable idle w'.
Proof. intros H Hr. induction Hr; [done|]. apply IHHr. by eapply reach_step. Qed.

(** ** Properties *)

(** The parser of client frames accepts exactly the frames of the
    protocol.  [readOutgoing] returns a packet exactly when the body starts
    with the encoding of that packet (16-byte addresses, 16-bit ports, an
    application name below 256 bytes, a length that fits 32 bits), and it
    consumes that frame and nothing more. *)
Theorem readOutgoing_iff (d : list byte) (e : string) (p : packet) (r' : reader) :
  readOutgoing {| rd_data := d; rd_end := e |} = (Ok p, r') <->
  exists app rest, packet_wf p app /\ d = packet_frame p app ++ rest /\
    r' = {| rd_data := rest; rd_end := e |}.
Proof.
  split.
  - intros H. apply readOutgoing_inv in H as (app & Hwf & Hd & He). cbn in *.
    exists app, (rd_data r'). split_and!; [done|done|]. destruct r'. by cbn in *; subst.
  - intros (app & rest & Hwf & -> & ->). by apply readOutgoing_frame.
Qed.

(** The frame of an answer decodes to what went in.  Its length field
    counts the bytes that follow, and the addresses, the ports and the payload
    are at their offsets. *)
Theorem writeIncoming_spec (src dst : IP) (sp dp : Z) (payload : list byte)
  (Hs : length src = 16%nat) (Hd : length dst = 16%nat)
  (Hsp : 0 <= sp < 2 ^ 16) (Hdp : 0 <= dp < 2 ^ 16) (Hp : Z.of_nat (length payload) <= 65535) :
  let b := writeIncoming src sp dst dp payload in
  Uint32 b = Z.of_nat (length (drop 4 b)) /\ slice 4 20 b = src /\ Uint16 (slice 20 22 b) = sp /\
  slice 22 38 b = dst /\ Uint16 (slice 38 40 b) = dp /\ drop 40 b = payload.
Proof.
  cbn zeta. unfold writeIncoming, copy16. rewrite !To16_16, Hs, Hd, !app_nil_r by done.
  assert (E : u32 (36 + Z.of_nat (length payload)) = 36 + Z.of_nat (length payload)).
  { unfold u32. apply Z.mod_small. lia. }
  rewrite E. split_and!.
  - rewrite Uint32_Put, (drop_app_length' (PutUint32 _)) by (done || lia).
    rewrite !length_app, !length_PutUint16, Hs, Hd. lia.
  - rewrite (slice_skip _ _ 4), slice_0_app by (done || lia). done.
  - rewrite (slice_skip _ _ 4), (slice_skip _ _ 16), slice_0_app by (done || lia).
    rewrite <- (app_nil_r (PutUint16 sp)). by apply Uint16_Put.
  - rewrite (slice_skip _ _ 4), (slice_skip _ _ 16), (slice_skip _ _ 2), slice_0_app by (done || lia).
    done.
  - rewrite (slice_skip _ _ 4), (slice_skip _ _ 16), (slice_skip _ _ 2), (slice_skip _ _ 16),
      slice_0_app by (done || lia).
    rewrite <- (app_nil_r (PutUint16 dp)). by apply Uint16_Put.
  - rewrite !app_assoc. apply drop_app_length'.
    rewrite !length_app, !length_PutUint16, length_PutUint32, Hs, Hd. done.
Qed.

(** C26: no socket leaks.  However the streams of a session, its reaper and
    Close interleave, the open sockets are exactly the values of the
    connection table, no two keys share one, and once the session is closed
    none is open. *)
Theorem udp_no_leak (idle : Z) (w : state) (Hr : reachable idle w) :
  (forall uc, uc ∈ n_open (netw w) <-> exists k, s_conns (sess w) !! k = Some uc) /\
  (forall k1 k2 uc, s_conns (sess w) !! k1 = Some uc -> s_conns (sess w) !! k2 = Some uc -> k1 = k2) /\
  (s_closed (sess w) = true -> n_open (netw w) = ∅).
Proof.
  apply no_leak_reachable in Hr as (Ho & Hi & _ & Hc). split_and!; [done|done|].
  intros Hcl. apply set_eq. intros uc. rewrite Ho, (Hc Hcl). set_solver.
Qed.

(** A stream returns, and takes the session with it.  [ServeHTTP] ends on
    every body; afterwards the session is closed and has no open socket,
    although other streams may share it; and a stream that starts on a closed
    session dials nothing and sends nothing, whatever frames it carries. *)
Theorem udp_ServeHTTP (idle : Z) (w : state) (r : reader) (envs : nat -> env)
  (Hr : reachable idle w) :
  exists w', ServeHTTP w r envs = Some w' /\ reachable idle w' /\
    s_closed (sess w') = true /\ n_open (netw w') = ∅ /\
    (s_closed (sess w) = true -> netw w' = netw w).
Proof.
  unfold ServeHTTP.
  destruct (serve_loop_returns (S (length (rd_data r))) w r envs 0) as [w1 E]; [lia|].
  rewrite E. exists (Close w1). split; [done|].
  assert (Hw1 : reachable idle w1) by (eapply reachable_rtc; [done|by eapply serve_loop_steps]).
  assert (Hw : reachable idle (Close w1)) by (eapply reach_step; [done|apply step_close]).
  apply no_leak_reachable in Hw as Hnl. destruct Hnl as (Ho & _).
  split_and!; [done|done| |].
  - apply set_eq. intros uc. rewrite Ho. cbn. setoid_rewrite lookup_empty. set_solver.
  - intros Hc. apply serve_loop_closed in E; [subst w1|done].
    apply no_leak_reachable in Hr as (_ & _ & _ & He). unfold Close. cbn. rewrite (He Hc).
    unfold close_socks, socks_of. rewrite map_to_list_empty. cbn.
    rewrite difference_empty_L. by destruct (netw w).
Qed.

(** A session that serves one frame to 192.0.2.1:53. *)
Definition ex_packet : packet :=
  {| p_payload := bytes_of "query"; p_srcIP := To16 [x0a; x00; x00; x02];
     p_dstIP := To16 [xc0; x00; x02; x01]; p_srcPort := 40000; p_dstPort := 53 |}.
Definition ex_env (_ : nat) : env := {| e_now := 1; e_dial := None; e_write := None |}.
Definition ex_start : state := {| sess := NewSession 300; netw := no_net |}.
Definition ex_served : state := serve_frame ex_start ex_packet (ex_env 0).

Example ex_sent :
  n_sent (netw ex_served) = [(0%nat, bytes_of "query")] /\
  ServeHTTP ex_start (body_of (packet_frame ex_packet (bytes_of "dig"))) ex_env
    = Some (Close ex_served).
Proof. vm_compute. done. Qed.

Lemma ex_reachable : reachable 300 ex_served.
Proof. eapply reachable_rtc; [apply reach_init|apply serve_frame_steps]. Qed.

Lemma writeIncoming_spec_witness :
  let b := writeIncoming (p_dstIP ex_packet) 53 (p_srcIP ex_packet) 40000 (bytes_of "reply") in
  Uint16 (slice 20 22 b) = 53.
Proof.
  refine (proj1 (proj2 (proj2 (writeIncoming_spec (p_dstIP ex_packet) (p_srcIP ex_packet) 53 40000
    (bytes_of "reply") _ _ _ _ _)))); [reflexivity|reflexivity|lia|lia|].
  vm_compute. discriminate.
Defined.

Lemma udp_no_leak_witness :
  exists k, s_conns (sess ex_served) !! k = Some 0%nat.
Proof.
  apply (udp_no_leak 300 ex_served ex_reachable). vm_compute. reflexivity.
Defined.

Lemma udp_ServeHTTP_witness :
  exists w', ServeHTTP ex_served (body_of (packet_frame ex_packet [])) ex_env = Some w' /\
    n_open (netw w') = ∅.
Proof.
  destruct (udp_ServeHTTP 300 ex_served (body_of (packet_frame ex_packet [])) ex_env ex_reachable)
    as (w' & H1 & _ & _ & H2 & _). exists w'. split; [exact H1 | exact H2].
Defined.
