(* ===== verification/ConnTracker.v ===== *)
(** internal/server/conntrack.go: the registry of client connections, with the
    traffic counters of each connection and of each user, the revocations, and
    the flush of the traffic to the persistent store. *)
From stdpp Require Import gmultiset.
From S2P Require Import Prelude GoStrings GoEncoding.
#[local] Open Scope Z_scope.

(** A net.Conn: its identity and its remote address; nil is [None]. *)
Record Conn := { c_id : nat; c_addr : string }.

#[export] Instance Conn_eq_dec : EqDecision Conn.
Proof. solve_decision. Defined.
#[export] Instance Conn_countable : Countable Conn.
Proof.
  apply (inj_countable' (fun c => (c_id c, c_addr c)) (fun '(i, a) => {| c_id := i; c_addr := a |})).
  by intros [].
Defined.

Record connEntry := {
  username : string;
  remoteAddr : string;
  connectedAt : Z;
  bytesIn : Z;
  bytesOut : Z;
  openTunnels : Z;
  totalTunnels : Z;
}.

Record userTotals := {
  tot_bytesIn : Z;
  tot_bytesOut : Z;
  tot_totalTunnels : Z;
  firstSeenAt : Z;
  flushedBytes : Z;
}.

Record ConnTracker := {
  entries : gmap Conn connEntry;
  byUser : gmap string (list Conn);
  revoked : gmap Conn string;
  totalsByUser : gmap string userTotals;
}.

Definition empty_tracker : ConnTracker :=
  {| entries := ∅; byUser := ∅; revoked := ∅; totalsByUser := ∅ |}.

Record SessionInfo := {
  si_Username : string; si_RemoteAddr : string; si_ConnectedAt : Z;
  si_BytesIn : Z; si_BytesOut : Z; si_OpenTunnels : Z; si_TotalTunnels : Z;
}.

Record UserStats_ := {
  us_Username : string; us_ActiveConns : Z; us_BytesIn : Z; us_BytesOut : Z;
  us_OpenTunnels : Z; us_TotalTunnels : Z; us_FirstSeenAt : Z;
}.

Definition with_entries (t : ConnTracker) (m : gmap Conn connEntry) : ConnTracker :=
  {| entries := m; byUser := byUser t; revoked := revoked t; totalsByUser := totalsByUser t |}.
Definition with_totals (t : ConnTracker) (m : gmap string userTotals) : ConnTracker :=
  {| entries := entries t; byUser := byUser t; revoked := revoked t; totalsByUser := m |}.
Definition with_revoked (t : ConnTracker) (m : gmap Conn string) : ConnTracker :=
  {| entries := entries t; byUser := byUser t; revoked := m; totalsByUser := totalsByUser t |}.

(** A nil slice and an absent key read the same. *)
Definition conns_of (t : ConnTracker) (u : string) : list Conn := default [] (byUser t !! u).

Definition new_totals (now : Z) : userTotals :=
  {| tot_bytesIn := 0; tot_bytesOut := 0; tot_totalTunnels := 0; firstSeenAt := now;
     flushedBytes := 0 |}.

Definition Register (t : ConnTracker) (u : string) (conn : option Conn) (now : Z) : ConnTracker :=
  match conn with
  | None => t
  | Some c =>
      let entry := {| username := u; remoteAddr := c_addr c; connectedAt := now; bytesIn := 0;
                      bytesOut := 0; openTunnels := 0; totalTunnels := 0 |} in
      {| entries := <[c := entry]> (entries t);
         byUser := <[u := conns_of t u ++ [c]]> (byUser t);
         revoked := revoked t;
         totalsByUser := match totalsByUser t !! u with
                         | Some _ => totalsByUser t
                         | None => <[u := new_totals now]> (totalsByUser t)
                         end |}
  end.

(** Deleting the first occurrence. *)
Fixpoint remove_first (c : Conn) (l : list Conn) : list Conn :=
  match l with
  | [] => []
  | x :: l => if bool_decide (x = c) then l else x :: remove_first c l
  end.

Definition Unregister (t : ConnTracker) (u : string) (conn : option Conn) : ConnTracker :=
  match conn with
  | None => t
  | Some c =>
      let l := remove_first c (conns_of t u) in
      {| entries := delete c (entries t);
         byUser := if bool_decide (l = []) then delete u (byUser t) else <[u := l]> (byUser t);
         revoked := delete c (revoked t);
         totalsByUser := totalsByUser t |}
  end.

Definition connEntryFor (t : ConnTracker) (conn : option Conn) : option connEntry :=
  c ← conn; entries t !! c.

Definition entry_tunnels (d : Z) (fresh : Z) (e : connEntry) : connEntry :=
  {| username := username e; remoteAddr := remoteAddr e; connectedAt := connectedAt e;
     bytesIn := bytesIn e; bytesOut := bytesOut e; openTunnels := i32 (openTunnels e + d);
     totalTunnels := u64 (totalTunnels e + fresh) |}.

Definition entry_bytes (i o : Z) (e : connEntry) : connEntry :=
  {| username := username e; remoteAddr := remoteAddr e; connectedAt := connectedAt e;
     bytesIn := u64 (bytesIn e + i); bytesOut := u64 (bytesOut e + o);
     openTunnels := openTunnels e; totalTunnels := totalTunnels e |}.

Definition totals_tunnel (x : userTotals) : userTotals :=
  {| tot_bytesIn := tot_bytesIn x; tot_bytesOut := tot_bytesOut x;
     tot_totalTunnels := u64 (tot_totalTunnels x + 1); firstSeenAt := firstSeenAt x;
     flushedBytes := flushedBytes x |}.

Definition totals_bytes (i o : Z) (x : userTotals) : userTotals :=
  {| tot_bytesIn := u64 (tot_bytesIn x + i); tot_bytesOut := u64 (tot_bytesOut x + o);
     tot_totalTunnels := tot_totalTunnels x; firstSeenAt := firstSeenAt x;
     flushedBytes := flushedBytes x |}.

Definition TunnelOpened (t : ConnTracker) (conn : option Conn) : ConnTracker :=
  match conn, connEntryFor t conn with
  | Some c, Some e =>
      {| entries := <[c := entry_tunnels 1 1 e]> (entries t); byUser := byUser t;
         revoked := revoked t;
         totalsByUser := alter totals_tunnel (username e) (totalsByUser t) |}
  | _, _ => t
  end.

Definition TunnelClosed (t : ConnTracker) (conn : option Conn) : ConnTracker :=
  match conn, connEntryFor t conn with
  | Some c, Some e => with_entries t (<[c := entry_tunnels (-1) 0 e]> (entries t))
  | _, _ => t
  end.

(** Adding a zero is skipped in the code, and changes nothing. *)
Definition AddBytes (t : ConnTracker) (conn : option Conn) (i o : Z) : ConnTracker :=
  match conn, connEntryFor t conn with
  | Some c, Some e =>
      {| entries := <[c := entry_bytes i o e]> (entries t); byUser := byUser t;
         revoked := revoked t;
         totalsByUser := alter (totals_bytes i o) (username e) (totalsByUser t) |}
  | _, _ => t
  end.

Definition IsRevoked (t : ConnTracker) (conn : option Conn) : bool * string :=
  match conn with
  | None => (false, "")
  | Some c => match revoked t !! c with Some r => (true, r) | None => (false, "") end
  end.

(** The kicks return the connections handed to [scheduleKick], which writes a
    GOAWAY frame to each and closes it two seconds later. *)
Definition KickUser (t : ConnTracker) (u reason : string) : ConnTracker * list Conn :=
  let l := conns_of t u in
  (with_revoked t (foldl (fun m c => <[c := reason]> m) (revoked t) l), l).

Fixpoint find_session (t : ConnTracker) (addr : string) (l : list Conn) : option Conn :=
  match l with
  | [] => None
  | c :: l => match entries t !! c with
              | Some e => if bool_decide (remoteAddr e = addr) then Some c else find_session t addr l
              | None => find_session t addr l
              end
  end.

Definition KickSession (t : ConnTracker) (u addr reason : string) : ConnTracker * list Conn * bool :=
  match find_session t addr (conns_of t u) with
  | None => (t, [], false)
  | Some c => (with_revoked t (<[c := reason]> (revoked t)), [c], true)
  end.

Definition goawayFrame (lastStreamID errorCode : Z) : list byte :=
  [x00; x00; x08; x07; x00] ++ PutUint32 0 ++ PutUint32 (Z.land lastStreamID 0x7FFFFFFF)
    ++ PutUint32 errorCode.

(** What [scheduleKick] does after its sleep. *)
Inductive kick_action := KWrite (c : Conn) (b : list byte) | KClose (c : Conn).

Definition scheduleKick (l : list Conn) : list kick_action :=
  l ≫= fun c => [KWrite c (goawayFrame 0 0x1F); KClose c].

Definition Sessions (t : ConnTracker) : list SessionInfo :=
  map (fun kv => let e := kv.2 in
    {| si_Username := username e; si_RemoteAddr := remoteAddr e; si_ConnectedAt := connectedAt e;
       si_BytesIn := bytesIn e; si_BytesOut := bytesOut e; si_OpenTunnels := openTunnels e;
       si_TotalTunnels := totalTunnels e |}) (map_to_list (entries t)).

Definition zero_stats (u : string) : UserStats_ :=
  {| us_Username := u; us_ActiveConns := 0; us_BytesIn := 0; us_BytesOut := 0;
     us_OpenTunnels := 0; us_TotalTunnels := 0; us_FirstSeenAt := 0 |}.

Definition add_live (e : connEntry) (s : UserStats_) : UserStats_ :=
  {| us_Username := us_Username s; us_ActiveConns := us_ActiveConns s + 1;
     us_BytesIn := u64 (us_BytesIn s + bytesIn e); us_BytesOut := u64 (us_BytesOut s + bytesOut e);
     us_OpenTunnels := i32 (us_OpenTunnels s + openTunnels e);
     us_TotalTunnels := us_TotalTunnels s; us_FirstSeenAt := us_FirstSeenAt s |}.

Definition set_cumulative (x : userTotals) (s : UserStats_) : UserStats_ :=
  {| us_Username := us_Username s; us_ActiveConns := us_ActiveConns s;
     us_BytesIn := tot_bytesIn x; us_BytesOut := tot_bytesOut x;
     us_OpenTunnels := us_OpenTunnels s;
     us_TotalTunnels := tot_totalTunnels x; us_FirstSeenAt := firstSeenAt x |}.

Definition stats_of (live : gmap string UserStats_) (u : string) : UserStats_ :=
  default (zero_stats u) (live !! u).

Definition UserStats (t : ConnTracker) : list UserStats_ :=
  let live := foldl (fun m kv => <[username kv.2 := add_live kv.2 (stats_of m (username kv.2))]> m)
                ∅ (map_to_list (entries t)) in
  let live := foldl (fun m kv => <[kv.1 := set_cumulative kv.2 (stats_of m kv.1)]> m)
                live (map_to_list (totalsByUser t)) in
  (map_to_list live).*2.

Definition IsKnown (t : ConnTracker) (conn : option Conn) : bool :=
  match conn with
  | None => false
  | Some c => bool_decide (is_Some (entries t !! c))
  end.

Definition total_bytes (x : userTotals) : Z := u64 (tot_bytesIn x + tot_bytesOut x).

Definition set_flushed (x : userTotals) : userTotals :=
  if flushedBytes x <? total_bytes x
  then {| tot_bytesIn := tot_bytesIn x; tot_bytesOut := tot_bytesOut x;
          tot_totalTunnels := tot_totalTunnels x; firstSeenAt := firstSeenAt x;
          flushedBytes := total_bytes x |}
  else x.

(** [flushOnce]: the tracker and the (user, bytes) writes, in the order of the
    iteration over the map; an error of the store is dropped. *)
Definition pending_of (kv : string * userTotals) : option (string * Z) :=
  if flushedBytes kv.2 <? total_bytes kv.2
  then Some (kv.1, total_bytes kv.2 - flushedBytes kv.2) else None.

Definition flush_collect (t : ConnTracker) : ConnTracker * list (string * Z) :=
  (with_totals t (set_flushed <$> totalsByUser t), omap pending_of (map_to_list (totalsByUser t))).

Definition flushOnce {F} (AddTraffic : F -> string -> Z -> F * option string)
    (t : ConnTracker) (fl : F) : ConnTracker * F :=
  let '(t, pendings) := flush_collect t in
  (t, foldl (fun fl p => (AddTraffic fl p.1 p.2).1) fl pendings).

(** [StartTrafficFlusher]: [ticks] runs of the ticker, then the final flush
    when the context ends; nothing without a store or with no interval. *)
Definition StartTrafficFlusher {F} (AddTraffic : F -> string -> Z -> F * option string)
    (ticks : nat) (interval : Z) (t : ConnTracker) (fl : option F) : ConnTracker * option F :=
  match fl with
  | None => (t, None)
  | Some f => if interval <=? 0 then (t, Some f)
              else let '(t, f) := Nat.iter (S ticks) (fun tf => flushOnce AddTraffic tf.1 tf.2) (t, f) in
                   (t, Some f)
  end.

Definition ResetUserTraffic (t : ConnTracker) (u : string) : ConnTracker :=
  {| entries := (fun e => if bool_decide (username e = u)
       then {| username := username e; remoteAddr := remoteAddr e; connectedAt := connectedAt e;
               bytesIn := 0; bytesOut := 0; openTunnels := openTunnels e;
               totalTunnels := totalTunnels e |} else e) <$> entries t;
     byUser := byUser t; revoked := revoked t;
     totalsByUser := alter (fun x => {| tot_bytesIn := 0; tot_bytesOut := 0;
         tot_totalTunnels := tot_totalTunnels x; firstSeenAt := firstSeenAt x;
         flushedBytes := 0 |}) u (totalsByUser t) |}.

Definition CountUser (t : ConnTracker) (u : string) : nat := length (conns_of t u).

Definition ActiveUsers (t : ConnTracker) : gmap string nat := length <$> byUser t.

(** ** Traces of operations *)

Inductive op :=
| ORegister (u : string) (c : Conn) (now : Z)
| OUnregister (u : string) (c : Conn)
| OOpened (c : Conn)
| OClosed (c : Conn)
| OAdd (c : Conn) (i o : Z)
| OKickUser (u reason : string)
| OKickSession (u addr reason : string)
| OFlush
| OReset (u : string).

(** The tracker with what its flushes handed to the store. *)
Definition op_step (s : ConnTracker * list (string * Z)) (o : op) : ConnTracker * list (string * Z) :=
  let '(t, log) := s in
  match o with
  | ORegister u c now => (Register t u (Some c) now, log)
  | OUnregister u c => (Unregister t u (Some c), log)
  | OOpened c => (TunnelOpened t (Some c), log)
  | OClosed c => (TunnelClosed t (Some c), log)
  | OAdd c i out => (AddBytes t (Some c) i out, log)
  | OKickUser u reason => ((KickUser t u reason).1, log)
  | OKickSession u addr reason => ((KickSession t u addr reason).1.1, log)
  | OFlush => let '(t, ps) := flush_collect t in (t, log ++ ps)
  | OReset u => (ResetUserTraffic t u, log)
  end.

Definition run (ops : list op) : ConnTracker * list (string * Z) :=
  foldl op_step (empty_tracker, []) ops.

(** What became of the bytes handed to the store: a write that fails stores
    nothing, and [flushOnce] drops its error and its bytes. *)
Record ledger := { l_stored : list (string * Z); l_lost : list (string * Z) }.
Definition no_ledger : ledger := {| l_stored := []; l_lost := [] |}.

(** AddTraffic of a store that answers so. *)
Definition book (answer : string -> Z -> option string) (l : ledger) (u : string) (n : Z) : ledger * option string :=
  (match answer u n with
   | None => {| l_stored := l_stored l ++ [(u, n)]; l_lost := l_lost l |}
   | Some _ => {| l_stored := l_stored l; l_lost := l_lost l ++ [(u, n)] |}
   end, answer u n).

(** The same with the flushes of [flushOnce], and the answers of the store to each. *)
Definition flush_step (s : ConnTracker * ledger) (ev : op * (string -> Z -> option string)) : ConnTracker * ledger :=
  let '(t, l) := s in
  match ev.1 with
  | OFlush => flushOnce (book ev.2) t l
  | o => ((op_step (t, []) o).1, l)
  end.

Definition flush_run (evs : list (op * (string -> Z -> option string))) : ConnTracker * ledger :=
  foldl flush_step (empty_tracker, no_ledger) evs.

(** ** Specification *)

(** The bytes an operation counts for [u]: those of a known connection
    registered under that name. *)
Definition credit (u : string) (t : ConnTracker) (o : op) : Z :=
  match o with
  | OAdd c i out => match entries t !! c with
                    | Some e => if bool_decide (username e = u) then i + out else 0
                    | None => 0
                    end
  | _ => 0
  end.

Fixpoint counted_from (u : string) (s : ConnTracker * list (string * Z)) (ops : list op) : Z :=
  match ops with
  | [] => 0
  | o :: ops => credit u s.1 o + counted_from u (op_step s o) ops
  end.

Definition counted (u : string) (ops : list op) : Z := counted_from u (empty_tracker, []) ops.

(** The bytes the log has for [u]. *)
Definition flushed_to (u : string) (log : list (string * Z)) : Z :=
  foldr (fun p s => if bool_decide (p.1 = u) then p.2 + s else s) 0 log.

Arguments flushed_to _ _ : simpl never.

Definition unflushed (u : string) (t : ConnTracker) : Z :=
  match totalsByUser t !! u with
  | Some x => total_bytes x - flushedBytes x
  | None => 0
  end.

(** The multiset of connections a trace leaves registered under a name. *)
Definition registered_step (u : string) (X : gmultiset Conn) (o : op) : gmultiset Conn :=
  match o with
  | ORegister v c _ => if bool_decide (v = u) then X ⊎ {[+ c +]} else X
  | OUnregister v c => if bool_decide (v = u) then X ∖ {[+ c +]} else X
  | _ => X
  end.

Definition registered (u : string) (ops : list op) : gmultiset Conn :=
  foldl (registered_step u) ∅ ops.

(** ** Lemmas: registration *)

Lemma remove_first_multiset c l :
  list_to_set_disj (remove_first c l) =@{gmultiset Conn} list_to_set_disj l ∖ {[+ c +]}.
Proof.
  induction l as [|x l IH]; [multiset_solver|].
  cbn [remove_first]. rewrite list_to_set_disj_cons. case_bool_decide as E.
  - subst. multiset_solver.
  - rewrite list_to_set_disj_cons, IH. multiset_solver.
Qed.

Lemma conns_of_insert t e r tot u v l :
  conns_of {| entries := e; byUser := <[v := l]> (byUser t); revoked := r; totalsByUser := tot |} u =
  if bool_decide (v = u) then l else conns_of t u.
Proof.
  unfold conns_of. cbn. case_bool_decide; subst; [by rewrite lookup_insert_eq|].
  by rewrite lookup_insert_ne.
Qed.

Lemma conns_of_Unregister t u c v :
  conns_of (Unregister t v (Some c)) u =
  if bool_decide (v = u) then remove_first c (conns_of t v) else conns_of t u.
Proof.
  cbn. case_bool_decide as El.
  - unfold conns_of at 1. cbn. case_bool_decide; subst; [by rewrite lookup_delete_eq, El|].
    by rewrite lookup_delete_ne.
  - apply conns_of_insert.
Qed.

(** The operations other than [Register] and [Unregister] keep [byUser]. *)
Lemma op_step_byUser t log o :
  match o with ORegister _ _ _ | OUnregister _ _ => False | _ => True end ->
  byUser (op_step (t, log) o).1 = byUser t.
Proof.
  destruct o as [u c now|u c|c|c|c i out|u r|u addr r| |u]; try done; intros _; cbn.
  1-3: by destruct (entries t !! c).
  unfold KickSession. by destruct (find_session t addr (conns_of t u)).
Qed.

Lemma conns_of_byUser t t' u : byUser t' = byUser t -> conns_of t' u = conns_of t u.
Proof. unfold conns_of. by intros ->. Qed.

Lemma run_op_snoc ops o : run (ops ++ [o]) = op_step (run ops) o.
Proof. unfold run. by rewrite foldl_snoc. Qed.

Lemma run_registered ops u :
  list_to_set_disj (conns_of (run ops).1 u) = registered u ops.
Proof.
  induction ops as [|o ops IH] using rev_ind; [done|].
  unfold registered in *. rewrite run_op_snoc, foldl_snoc. destruct (run ops) as [t log]. cbn in IH.
  assert (Hk : byUser (op_step (t, log) o).1 = byUser t ->
    list_to_set_disj (conns_of (op_step (t, log) o).1 u) = foldl (registered_step u) ∅ ops).
  { intros E. by rewrite (conns_of_byUser t). }
  destruct o as [v c now|v c|c|c|c i out|v r|v addr r| |v];
    try (apply Hk, op_step_byUser; exact I); clear Hk; cbn [op_step fst registered_step].
  - unfold Register. rewrite conns_of_insert. case_bool_decide; subst; [|done].
    rewrite list_to_set_disj_app, list_to_set_disj_cons, IH. multiset_solver.
  - rewrite conns_of_Unregister.
    case_bool_decide; subst; [|done]. by rewrite remove_first_multiset, IH.
Qed.

Lemma run_no_empty ops u : byUser (run ops).1 !! u <> Some [].
Proof.
  induction ops as [|o ops IH] using rev_ind; [done|].
  rewrite run_op_snoc. destruct (run ops) as [t log]. cbn in IH.
  assert (Hk : byUser (op_step (t, log) o).1 = byUser t ->
    byUser (op_step (t, log) o).1 !! u <> Some []) by (by intros ->).
  destruct o as [v c now|v c|c|c|c i out|v r|v addr r| |v];
    try (apply Hk, op_step_byUser; exact I); clear Hk; cbn.
  - intros [[_ E]|[_ E]]%lookup_insert_Some; [|done]. by destruct (conns_of t v).
  - case_bool_decide.
    + by intros [_ E]%lookup_delete_Some.
    + by intros [[_ E]|[_ E]]%lookup_insert_Some.
Qed.

(** ** Lemmas: accounting *)

Definition acct (u : string) (n : Z) (s : ConnTracker * list (string * Z)) : Prop :=
  let '(t, log) := s in
  (forall c e, entries t !! c = Some e -> is_Some (totalsByUser t !! username e)) /\
  match totalsByUser t !! u with
  | Some x => 0 <= tot_bytesIn x /\ 0 <= tot_bytesOut x /\ tot_bytesIn x + tot_bytesOut x = n /\
              0 <= flushedBytes x <= n /\ flushed_to u log = flushedBytes x
  | None => n = 0 /\ flushed_to u log = 0
  end.

Lemma flushed_to_app u l1 l2 : flushed_to u (l1 ++ l2) = flushed_to u l1 + flushed_to u l2.
Proof.
  unfold flushed_to. induction l1 as [|p l1 IH]; cbn; [done|]. rewrite IH.
  case_bool_decide; lia.
Qed.

Definition due (x : userTotals) : Z :=
  if flushedBytes x <? total_bytes x then total_bytes x - flushedBytes x else 0.

Lemma flushed_to_cons u v x l :
  flushed_to u (omap pending_of ((v, x) :: l)) =
  (if bool_decide (v = u) then due x else 0) + flushed_to u (omap pending_of l).
Proof.
  unfold due. change (omap pending_of ((v, x) :: l)) with
    (match pending_of (v, x) with Some p => p :: omap pending_of l | None => omap pending_of l end).
  unfold pending_of at 1. cbn [fst snd].
  destruct (flushedBytes x <? total_bytes x); [|by case_bool_decide].
  unfold flushed_to at 1. cbn [foldr fst snd]. fold (flushed_to u (omap pending_of l)).
  by case_bool_decide.
Qed.

Lemma flushed_to_pending u l :
  NoDup l.*1 ->
  flushed_to u (omap pending_of l) = from_option due 0 (list_to_map (M := gmap string _) l !! u).
Proof.
  assert (Habs : forall l, u ∉ l.*1 -> flushed_to u (omap pending_of l) = 0).
  { induction l0 as [|[v x] l0 IH]; [done|]. intros [Hne Hl]%not_elem_of_cons. cbn in Hne.
    rewrite flushed_to_cons, bool_decide_false, IH by done. done. }
  induction l as [|[v x] l IH]; [done|]. intros [Hv Hnd]%NoDup_cons. cbn in Hv.
  rewrite flushed_to_cons. case_bool_decide as E.
  - subst v. rewrite list_to_map_cons, lookup_insert_eq, Habs by done. cbn. lia.
  - rewrite list_to_map_cons, lookup_insert_ne, <- IH by done. done.
Qed.

Lemma flush_log u t :
  flushed_to u (flush_collect t).2 = from_option due 0 (totalsByUser t !! u).
Proof.
  unfold flush_collect. cbn [snd]. rewrite flushed_to_pending by apply NoDup_fst_map_to_list.
  by rewrite list_to_map_to_list.
Qed.

(** Operations that keep the totals and only forget or copy entries. *)
Lemma acct_keep u n t log t' :
  acct u n (t, log) -> totalsByUser t' = totalsByUser t ->
  (forall c e, entries t' !! c = Some e -> exists c0 e0, entries t !! c0 = Some e0 /\ username e = username e0) ->
  acct u n (t', log).
Proof.
  intros [He Ht] E Hs. split; [|by rewrite E]. intros c e Hc.
  apply Hs in Hc as (c0 & e0 & Hc0 & ->). rewrite E. eauto.
Qed.

Lemma total_bytes_small x n :
  tot_bytesIn x + tot_bytesOut x = n -> 0 <= n < 2 ^ 64 -> total_bytes x = n.
Proof. intros <- Hn. unfold total_bytes. by apply u64_id. Qed.

Definition op_ok (u : string) (o : op) : Prop :=
  match o with OAdd _ i out => 0 <= i /\ 0 <= out | OReset v => v <> u | _ => True end.

(** Updating entry [c] in place keeps every entry's user known. *)
Lemma entries_update_known (t : ConnTracker) c e e' (m : gmap string userTotals) :
  (forall c e, entries t !! c = Some e -> is_Some (totalsByUser t !! username e)) ->
  entries t !! c = Some e -> username e' = username e ->
  (forall v, is_Some (totalsByUser t !! v) -> is_Some (m !! v)) ->
  forall c0 e0, <[c := e']> (entries t) !! c0 = Some e0 -> is_Some (m !! username e0).
Proof.
  intros He Hc Hu Hm c0 e0 [[-> <-]|[_ H]]%lookup_insert_Some; apply Hm.
  - rewrite Hu. eauto.
  - eauto.
Qed.

Lemma is_Some_alter {A} (f : A -> A) (m : gmap string A) v w :
  is_Some (m !! v) -> is_Some (alter f w m !! v).
Proof.
  intros [x Hx]. destruct (decide (w = v)) as [->|].
  - rewrite lookup_alter_eq, Hx. eauto.
  - rewrite lookup_alter_ne, Hx by done. eauto.
Qed.

Lemma acct_add u n t log c i out :
  acct u n (t, log) -> 0 <= i -> 0 <= out -> n + credit u t (OAdd c i out) < 2 ^ 64 ->
  acct u (n + credit u t (OAdd c i out)) (AddBytes t (Some c) i out, log).
Proof.
  intros [He Ht] Hi Ho Hmax. unfold credit, AddBytes, connEntryFor in *. cbn in *.
  destruct (entries t !! c) as [e|] eqn:Ec; cbn; [|by rewrite Z.add_0_r].
  split.
  { apply (entries_update_known t c e (entry_bytes i out e)); auto using is_Some_alter. }
  cbn. case_bool_decide as Hu.
  - subst u. rewrite lookup_alter_eq. destruct (He _ _ Ec) as [x Hx]. rewrite Hx in *. cbn.
    destruct Ht as (H1 & H2 & H3 & H4 & H5).
    rewrite !u64_id by (unfold in_u64; lia). split_and!; lia.
  - rewrite lookup_alter_ne by done. by rewrite Z.add_0_r.
Qed.

Lemma acct_flush u n t log :
  acct u n (t, log) -> n < 2 ^ 64 -> acct u n ((flush_collect t).1, log ++ (flush_collect t).2).
Proof.
  intros [He Ht] Hn. split; cbn -[flush_collect].
  - intros c e Hc. apply He in Hc as [x Hx]. cbn. rewrite lookup_fmap, Hx. eauto.
  - rewrite flushed_to_app, flush_log. cbn. rewrite lookup_fmap.
    destruct (totalsByUser t !! u) as [x|]; cbn; [|lia].
    destruct Ht as (H1 & H2 & H3 & H4 & H5).
    unfold due, set_flushed. rewrite (total_bytes_small x n) by lia.
    destruct (Z.ltb_spec (flushedBytes x) n); cbn; rewrite ?(total_bytes_small x n) by lia; lia.
Qed.

Lemma acct_step u n s o :
  acct u n s -> op_ok u o -> n + credit u s.1 o < 2 ^ 64 -> acct u (n + credit u s.1 o) (op_step s o).
Proof.
  destruct s as [t log]. intros H Hok Hmax.
  destruct o as [v c now|v c|c|c|c i out|v r|v addr r| |v]; cbn [fst] in *;
    try (cbn [credit] in *; rewrite Z.add_0_r in *).
  - destruct H as [He Ht]. cbn. split; cbn.
    + intros c0 e0 [[_ <-]|[_ Hc]]%lookup_insert_Some; cbn.
      * destruct (totalsByUser t !! v) eqn:Ev; [by rewrite Ev|]. rewrite lookup_insert_eq. eauto.
      * apply He in Hc. destruct (totalsByUser t !! v) eqn:Ev; [done|].
        by apply lookup_insert_is_Some'; right.
    + destruct (totalsByUser t !! v) eqn:Ev; [done|]. destruct (decide (v = u)) as [->|].
      * rewrite lookup_insert_eq. rewrite Ev in Ht. cbn. lia.
      * by rewrite lookup_insert_ne.
  - apply (acct_keep u n t); [done..|]. cbn. intros c0 e0 [_ Hc]%lookup_delete_Some. eauto.
  - cbn. unfold connEntryFor. cbn. destruct (entries t !! c) as [e|] eqn:Ec; cbn; [|done].
    destruct H as [He Ht]. split; cbn.
    + apply (entries_update_known t c e (entry_tunnels 1 1 e)); auto using is_Some_alter.
    + destruct (decide (username e = u)) as [<-|].
      * rewrite lookup_alter_eq. destruct (totalsByUser t !! username e); cbn; [|done].
        unfold total_bytes in *. done.
      * by rewrite lookup_alter_ne.
  - cbn [op_step]. unfold TunnelClosed. change (connEntryFor t (Some c)) with (entries t !! c).
    destruct (entries t !! c) as [e|] eqn:Ec; [|done].
    apply (acct_keep u n t); [done..|]. cbn.
    intros c0 e0 [[_ <-]|[_ Hc]]%lookup_insert_Some; eauto.
  - destruct Hok. by apply acct_add.
  - apply (acct_keep u n t); [done..|]. cbn. eauto.
  - cbn [op_step]. unfold KickSession.
    apply (acct_keep u n t); [done|..]; destruct (find_session _ _ _); cbn; eauto.
  - cbn [op_step]. by apply (acct_flush u n t log).
  - destruct H as [He Ht]. split; cbn.
    + intros c e Hc. rewrite lookup_fmap in Hc. destruct (entries t !! c) as [e0|] eqn:E0; [|done].
      injection Hc as <-. apply He in E0. apply is_Some_alter. by case_bool_decide.
    + cbn in Hok. by rewrite lookup_alter_ne.
Qed.

Lemma counted_from_snoc u s ops o :
  counted_from u s (ops ++ [o]) = counted_from u s ops + credit u (foldl op_step s ops).1 o.
Proof.
  revert s. induction ops as [|o' ops IH]; intros s; cbn; [lia|]. rewrite IH. lia.
Qed.

Lemma credit_nonneg u t o : op_ok u o -> 0 <= credit u t o.
Proof.
  destruct o; cbn; try lia. intros [H1 H2]. destruct (entries t !! c); [|lia]. case_bool_decide; lia.
Qed.

Lemma acct_run u ops :
  Forall (op_ok u) ops -> counted u ops < 2 ^ 64 -> acct u (counted u ops) (run ops).
Proof.
  induction ops as [|o ops IH] using rev_ind; intros Hok Hmax.
  { cbn. split; [|done]. intros c e. by rewrite lookup_empty. }
  apply Forall_app in Hok as [Hok [Ho _]%Forall_cons]. unfold counted in *.
  rewrite counted_from_snoc in *. fold (run ops) in *. rewrite run_op_snoc.
  apply acct_step; [|done|done]. apply IH; [done|]. pose proof (credit_nonneg u (run ops).1 o Ho). lia.
Qed.

(** ** Lemmas: kicks and statistics *)

Lemma revoke_all reason (l : list Conn) (m : gmap Conn string) c :
  foldl (fun m c => <[c := reason]> m) m l !! c =
  if bool_decide (c ∈ l) then Some reason else m !! c.
Proof.
  revert m. induction l as [|x l IH]; intros m; cbn [foldl]; [done|]. rewrite IH.
  destruct (decide (c = x)) as [->|Hne].
  - rewrite lookup_insert_eq. rewrite (bool_decide_true (x ∈ x :: l)) by set_solver.
    by case_bool_decide.
  - rewrite lookup_insert_ne by done. by rewrite (bool_decide_ext (c ∈ x :: l) (c ∈ l)) by set_solver.
Qed.

Definition has_addr (t : ConnTracker) (addr : string) (c : Conn) : Prop :=
  exists e, entries t !! c = Some e /\ remoteAddr e = addr.

Lemma find_session_spec t addr l :
  match find_session t addr l with
  | Some c => exists l1 l2, l = l1 ++ c :: l2 /\ has_addr t addr c /\ Forall (fun c => ~ has_addr t addr c) l1
  | None => Forall (fun c => ~ has_addr t addr c) l
  end.
Proof.
  induction l as [|c l IH]; cbn; [constructor|].
  assert (Hcase : forall b : bool, (b = true -> has_addr t addr c) -> (b = false -> ~ has_addr t addr c) ->
    match (if b then Some c else find_session t addr l) with
    | Some c0 => exists l1 l2, c :: l = l1 ++ c0 :: l2 /\ has_addr t addr c0 /\
                   Forall (fun c => ~ has_addr t addr c) l1
    | None => Forall (fun c => ~ has_addr t addr c) (c :: l)
    end).
  { intros [] Ht Hf; [exists [], l; auto|]. destruct (find_session t addr l) as [c0|].
    - destruct IH as (l1 & l2 & -> & H0 & H1). exists (c :: l1), l2. auto.
    - auto. }
  unfold has_addr in *. destruct (entries t !! c) as [e|] eqn:E.
  - apply Hcase; rewrite ?bool_decide_eq_true, ?bool_decide_eq_false; naive_solver.
  - apply (Hcase false); naive_solver.
Qed.

(** A fold that updates one key per element, seen at one key. *)
Lemma fold_keyed {A B} (k : A -> string) (f : A -> B -> B) (z : string -> B)
    (l : list A) (m : gmap string B) u :
  foldl (fun m x => <[k x := f x (default (z (k x)) (m !! k x))]> m) m l !! u =
  match filter (fun x => k x = u) l with
  | [] => m !! u
  | xs => Some (foldl (fun s x => f x s) (default (z u) (m !! u)) xs)
  end.
Proof.
  revert m. induction l as [|x l IH]; intros m; [done|]. cbn [foldl]. rewrite IH, filter_cons.
  destruct (decide (k x = u)) as [<-|Hne].
  - rewrite lookup_insert_eq. by destruct (filter _ l).
  - by rewrite lookup_insert_ne.
Qed.

Definition entries_of (t : ConnTracker) (u : string) : list (Conn * connEntry) :=
  filter (fun kv => username kv.2 = u) (map_to_list (entries t)).

Lemma filter_totals (m : gmap string userTotals) u :
  filter (fun kv : string * userTotals => kv.1 = u) (map_to_list m) =
  match m !! u with Some x => [(u, x)] | None => [] end.
Proof.
  assert (Hnd : NoDup (map_to_list m).*1) by apply NoDup_fst_map_to_list.
  assert (Hl : forall x, (u, x) ∈ map_to_list m <-> m !! u = Some x) by (intros; apply elem_of_map_to_list).
  revert Hnd Hl. generalize (map_to_list m) as l. intros l Hnd Hl.
  assert (Hlk : m !! u = (list_to_map l : gmap string userTotals) !! u).
  { apply option_eq. intros x. rewrite <- Hl. by rewrite <- elem_of_list_to_map. }
  rewrite Hlk. clear Hl Hlk. induction l as [|[v x] l IH]; [done|].
  apply NoDup_cons in Hnd as [Hv Hnd]. cbn in Hv. rewrite filter_cons. cbn.
  case_decide as E; subst.
  - rewrite lookup_insert_eq. rewrite IH by done.
    assert ((list_to_map l : gmap string userTotals) !! u = None) as -> by (by apply not_elem_of_list_to_map_1).
    done.
  - rewrite lookup_insert_ne by done. by apply IH.
Qed.

Lemma add_live_fold (l : list (Conn * connEntry)) s :
  us_ActiveConns (foldl (fun s kv => add_live kv.2 s) s l) = us_ActiveConns s + Z.of_nat (length l) /\
  us_Username (foldl (fun s kv => add_live kv.2 s) s l) = us_Username s.
Proof.
  revert s. induction l as [|kv l IH]; intros s; cbn [foldl length]; [split; [lia|done]|].
  destruct (IH (add_live kv.2 s)) as [-> ->]. cbn. split; [lia|done].
Qed.

(** The statistics of one user, as the two loops leave them. *)
Definition user_stats (t : ConnTracker) (u : string) : option UserStats_ :=
  let live := foldl (fun s kv => add_live kv.2 s) (zero_stats u) (entries_of t u) in
  match totalsByUser t !! u with
  | Some x => Some (set_cumulative x live)
  | None => match entries_of t u with [] => None | _ => Some live end
  end.

Lemma user_stats_name t u s : user_stats t u = Some s -> us_Username s = u.
Proof.
  unfold user_stats. pose proof (add_live_fold (entries_of t u) (zero_stats u)) as [_ Hn].
  destruct (totalsByUser t !! u); [intros [= <-]; exact Hn|].
  destruct (entries_of t u) eqn:E; [done|]. intros [= <-]. exact Hn.
Qed.

Lemma UserStats_lookup t :
  exists live : gmap string UserStats_, UserStats t = (map_to_list live).*2 /\
    forall u, live !! u = user_stats t u.
Proof.
  eexists. split; [reflexivity|]. intros u. unfold stats_of.
  rewrite (fold_keyed (fun kv : string * userTotals => kv.1) (fun kv => set_cumulative kv.2) zero_stats).
  rewrite filter_totals.
  rewrite (fold_keyed (fun kv : Conn * connEntry => username kv.2) (fun kv => add_live kv.2) zero_stats).
  fold (entries_of t u). rewrite lookup_empty. unfold user_stats.
  destruct (totalsByUser t !! u); destruct (entries_of t u); done.
Qed.

(** What the flushes have stored and what is still pending. *)
Lemma flush_account u ops : Forall (op_ok u) ops -> counted u ops < 2 ^ 64 ->
  flushed_to u (run ops).2 + unflushed u (run ops).1 = counted u ops /\
  flushed_to u (op_step (run ops) OFlush).2 = counted u ops /\
  unflushed u (op_step (run ops) OFlush).1 = 0.
Proof.
  intros Hok Hmax.
  assert (Hone : forall ops, Forall (op_ok u) ops -> counted u ops < 2 ^ 64 ->
    flushed_to u (run ops).2 + unflushed u (run ops).1 = counted u ops).
  { intros os H1 H2. pose proof (acct_run u os H1 H2) as H. destruct (run os) as [t log].
    destruct H as [_ Ht]. unfold unflushed. cbn. destruct (totalsByUser t !! u) as [x|]; [|lia].
    rewrite (total_bytes_small x (counted u os)) by lia. lia. }
  pose proof (Hone ops Hok Hmax) as H1. pose proof (acct_run u ops Hok Hmax) as Ha.
  assert (Hc : counted u (ops ++ [OFlush]) = counted u ops).
  { unfold counted. rewrite counted_from_snoc. cbn. lia. }
  pose proof (Hone (ops ++ [OFlush])) as H2. rewrite Hc in H2.
  assert (Hok' : Forall (op_ok u) (ops ++ [OFlush])) by (apply Forall_app; split; [done|by repeat constructor]).
  specialize (H2 Hok' Hmax).
  rewrite run_op_snoc in *. destruct (run ops) as [t log]. split; [done|].
  enough (unflushed u (op_step (t, log) OFlush).1 = 0) by lia.
  destruct Ha as [_ Ht]. unfold unflushed. cbn. rewrite lookup_fmap.
  destruct (totalsByUser t !! u) as [x|]; cbn; [|done]. unfold set_flushed.
  rewrite (total_bytes_small x (counted u ops)) by lia.
  destruct (Z.ltb_spec (flushedBytes x) (counted u ops)); cbn;
    rewrite (total_bytes_small _ (counted u ops)) by (cbn; lia); lia.
Qed.

(** ** Lemmas: the answers of the store *)

Lemma flushed_to_snoc u l p : flushed_to u (l ++ [p]) = flushed_to u l + (if bool_decide (p.1 = u) then p.2 else 0).
Proof. rewrite flushed_to_app. unfold flushed_to at 2. cbn. by case_bool_decide; rewrite ?Z.add_0_r. Qed.

Lemma flushed_to_absent u l : u ∉ l.*1 -> flushed_to u l = 0.
Proof.
  unfold flushed_to. induction l as [|p l IH]; [done|]. cbn. intros [Hne Hl]%not_elem_of_cons.
  rewrite bool_decide_false by congruence. by apply IH.
Qed.

(** The writes of one flush, by their answers. *)
Lemma book_fold answer ps l u : NoDup ps.*1 ->
  let l' := foldl (fun fl p => (book answer fl p.1 p.2).1) l ps in
  flushed_to u (l_stored l') =
    flushed_to u (l_stored l) + (if answer u (flushed_to u ps) is None then flushed_to u ps else 0) /\
  flushed_to u (l_lost l') =
    flushed_to u (l_lost l) + (if answer u (flushed_to u ps) is None then 0 else flushed_to u ps).
Proof.
  cbn zeta. revert l. induction ps as [|[v n] ps IH]; intros l Hnd.
  { cbn. change (flushed_to u []) with 0. destruct (answer u 0); split; lia. }
  apply NoDup_cons in Hnd as [Hv Hnd]. cbn in Hv. cbn [foldl fst snd]. destruct (IH (book answer l v n).1 Hnd) as [-> ->].
  assert (Hcons : flushed_to u ((v, n) :: ps) = (if bool_decide (v = u) then n else 0) + flushed_to u ps)
    by (unfold flushed_to; cbn; by case_bool_decide).
  rewrite Hcons. unfold book. cbn [fst]. case_bool_decide as E; [subst v|].
  - rewrite (flushed_to_absent u ps) by done. rewrite Z.add_0_r.
    assert (Hz : forall x : option string, (if x is None then 0 else 0) = 0) by (by intros []).
    destruct (answer u n); cbn; rewrite flushed_to_snoc, bool_decide_true by done; rewrite !Hz; cbn; split; lia.
  - rewrite Z.add_0_l. destruct (answer v n); cbn; rewrite flushed_to_snoc, bool_decide_false by done; split; lia.
Qed.

Lemma pending_names t : NoDup (flush_collect t).2.*1.
Proof.
  unfold flush_collect. cbn [snd].
  refine (sublist_NoDup _ (map_to_list (totalsByUser t)).*1 (NoDup_fst_map_to_list _) _).
  generalize (map_to_list (totalsByUser t)). intros l. induction l as [|kv l IH]; [done|]. cbn [omap list_omap].
  unfold pending_of at 1. destruct (_ <? _); cbn; by constructor.
Qed.

(** One flush books what was pending. *)
Lemma flushOnce_books answer t l u n :
  from_option due 0 (totalsByUser t !! u) = n ->
  let '(t', l') := flushOnce (book answer) t l in
  t' = (flush_collect t).1 /\
  flushed_to u (l_stored l') = flushed_to u (l_stored l) + (if answer u n is None then n else 0) /\
  flushed_to u (l_lost l') = flushed_to u (l_lost l) + (if answer u n is None then 0 else n).
Proof.
  intros <-. rewrite <- flush_log. pose proof (pending_names t) as Hnd. unfold flushOnce.
  destruct (flush_collect t) as [t' ps]. cbn [fst snd] in *. split; [done|]. by apply book_fold.
Qed.

Lemma flush_run_snoc evs ev : flush_run (evs ++ [ev]) = flush_step (flush_run evs) ev.
Proof. unfold flush_run. by rewrite foldl_snoc. Qed.

Lemma op_step_log t log log' o : (op_step (t, log) o).1 = (op_step (t, log') o).1.
Proof. by destruct o. Qed.

(** What was handed over was stored or lost. *)
Lemma flush_run_handed u evs :
  (flush_run evs).1 = (run (map fst evs)).1 /\
  flushed_to u (l_stored (flush_run evs).2) + flushed_to u (l_lost (flush_run evs).2) =
    flushed_to u (run (map fst evs)).2.
Proof.
  induction evs as [|[o answer] evs IH] using rev_ind; [done|].
  rewrite map_app, flush_run_snoc. cbn [map fst]. rewrite run_op_snoc.
  destruct (flush_run evs) as [t l], (run (map fst evs)) as [t0 log]. cbn [fst snd] in IH. destruct IH as [-> Hs].
  destruct o; try exact (conj eq_refl Hs). cbn [flush_step fst snd op_step].
  pose proof (flushOnce_books answer t0 l u _ eq_refl) as H. destruct (flushOnce (book answer) t0 l) as [t' l'].
  destruct H as (-> & H1 & H2). pose proof (flush_log u t0) as Hlog.
  destruct (flush_collect t0) as [t1 ps]. cbn [fst snd] in *. split; [done|]. rewrite flushed_to_app, H1, H2, Hlog.
  destruct (answer u _); lia.
Qed.

Lemma flush_run_none_lost u evs : (forall ev, ev ∈ evs -> forall n, ev.2 u n = None) ->
  flushed_to u (l_lost (flush_run evs).2) = 0.
Proof.
  induction evs as [|[o answer] evs IH] using rev_ind; [done|]. intros Hok. rewrite flush_run_snoc.
  specialize (IH ltac:(intros ev Hev; apply Hok, elem_of_app; by left)).
  assert (Ha : forall n, answer u n = None) by (apply (Hok (o, answer)), elem_of_app; right; by left).
  destruct (flush_run evs) as [t l]. cbn [snd] in *. destruct o; try exact IH. cbn [flush_step fst snd].
  pose proof (flushOnce_books answer t l u _ eq_refl) as H. destruct (flushOnce (book answer) t l) as [t' l'].
  destruct H as (_ & _ & H2). cbn. by rewrite H2, Ha, IH.
Qed.

(** ** Properties *)

(** C12: traffic is flushed at most once, and exactly once while the store answers.
    After any sequence of operations that does not reset the user's counters, with
    flushes whose writes the store may refuse, the bytes stored for the user, those
    lost with a refused write and those still pending add up to the bytes counted
    for that user on known connections (as long as their sum fits 64 bits).  The
    next flush hands over all that is pending, in a single write: it is stored, or lost
    when the store refuses it.  Nothing is lost while the store refuses nothing. *)
Theorem tracker_flush_exact (u : string) (evs : list (op * (string -> Z -> option string)))
  (Hok : Forall (op_ok u) (map fst evs)) (Hmax : counted u (map fst evs) < 2 ^ 64) :
  let '(t, l) := flush_run evs in
  flushed_to u (l_stored l) + flushed_to u (l_lost l) + unflushed u t = counted u (map fst evs) /\
  (forall answer, let '(t', l') := flushOnce (book answer) t l in
    let refused := answer u (unflushed u t) in
    unflushed u t' = 0 /\
    flushed_to u (l_stored l') = flushed_to u (l_stored l) + (if refused is None then unflushed u t else 0) /\
    flushed_to u (l_lost l') = flushed_to u (l_lost l) + (if refused is None then 0 else unflushed u t)) /\
  ((forall ev, ev ∈ evs -> forall n, ev.2 u n = None) -> flushed_to u (l_lost l) = 0).
Proof.
  pose proof (flush_account u (map fst evs) Hok Hmax) as (H1 & _ & H3).
  pose proof (acct_run u (map fst evs) Hok Hmax) as Ha.
  pose proof (flush_run_handed u evs) as [Ht Hs]. pose proof (flush_run_none_lost u evs) as Hl.
  destruct (flush_run evs) as [t l], (run (map fst evs)) as [t0 log]. cbn [fst snd] in *. subst t0.
  split; [lia|]. split; [|exact Hl]. intros answer.
  assert (Hdue : from_option due 0 (totalsByUser t !! u) = unflushed u t).
  { destruct Ha as [_ Ha]. unfold unflushed. destruct (totalsByUser t !! u) as [x|]; [|done]. cbn. unfold due.
    rewrite (total_bytes_small x (counted u (map fst evs))) by lia. destruct (Z.ltb_spec (flushedBytes x) (counted u (map fst evs))); lia. }
  pose proof (flushOnce_books answer t l u _ Hdue) as H. destruct (flushOnce (book answer) t l) as [t' l'].
  destruct H as (-> & H4 & H5). cbn zeta. split_and!; [exact H3|exact H4|exact H5].
Qed.

(** C5: the tracker refines a multiset.  After any sequence of operations the
    connections listed for a user are, as a multiset, those registered less
    those unregistered under that name; [CountUser] is its size, and
    [ActiveUsers] lists exactly the users for whom it is not empty. *)
Theorem tracker_registrations (ops : list op) (u : string) :
  list_to_set_disj (conns_of (run ops).1 u) = registered u ops /\
  CountUser (run ops).1 u = size (registered u ops) /\
  ActiveUsers (run ops).1 !! u =
    (if bool_decide (registered u ops = ∅) then None else Some (size (registered u ops))).
Proof.
  pose proof (run_registered ops u) as Hr. pose proof (run_no_empty ops u) as Hn.
  assert (Hs : length (conns_of (run ops).1 u) = size (registered u ops)).
  { rewrite <- Hr. generalize (conns_of (run ops).1 u). induction l as [|c l IH]; [done|].
    rewrite list_to_set_disj_cons, gmultiset_size_disj_union, gmultiset_size_singleton, <- IH. done. }
  split_and!; [done|exact Hs|]. unfold ActiveUsers. rewrite lookup_fmap. revert Hr Hs Hn.
  unfold conns_of. destruct (byUser (run ops).1 !! u) as [l|]; cbn; intros Hr Hs Hn.
  - rewrite bool_decide_false; [by rewrite Hs|]. intros E. rewrite E, gmultiset_size_empty in Hs.
    by destruct l.
  - by rewrite <- Hr, bool_decide_true.
Qed.

(** A kick revokes what it should.  [KickUser] revokes every connection
    listed for the user with its reason, leaves every other connection as it
    was, and hands exactly the listed connections to the delayed close;
    [KickSession] does so for the first listed connection with the remote
    address, and reports false, changing nothing, when there is none. *)
Theorem tracker_kick (t : ConnTracker) (u addr reason : string) :
  (let '(t', l) := KickUser t u reason in
   l = conns_of t u /\
   forall c, IsRevoked t' (Some c) =
     if bool_decide (c ∈ conns_of t u) then (true, reason) else IsRevoked t (Some c)) /\
  (let '(t', l, found) := KickSession t u addr reason in
   if found then
     exists c l1 l2, conns_of t u = l1 ++ c :: l2 /\ has_addr t addr c /\
       Forall (fun c => ~ has_addr t addr c) l1 /\ l = [c] /\
       forall c', IsRevoked t' (Some c') = if bool_decide (c' = c) then (true, reason) else IsRevoked t (Some c')
   else t' = t /\ l = [] /\ Forall (fun c => ~ has_addr t addr c) (conns_of t u)).
Proof.
  split.
  - cbn. split; [done|]. intros c. rewrite revoke_all. by case_bool_decide.
  - unfold KickSession. pose proof (find_session_spec t addr (conns_of t u)) as H.
    destruct (find_session t addr (conns_of t u)) as [c|]; [|done].
    destruct H as (l1 & l2 & H1 & H2 & H3). exists c, l1, l2. split_and!; try done.
    intros c'. cbn. case_bool_decide; subst; [by rewrite lookup_insert_eq|by rewrite lookup_insert_ne].
Qed.

(** The statistics report has one line per user, for exactly the users
    with a live connection or a lifetime total; the line counts the live
    connections and shows the lifetime bytes when there are totals. *)
Theorem tracker_UserStats (t : ConnTracker) :
  NoDup (us_Username <$> UserStats t) /\
  (forall u, u ∈ us_Username <$> UserStats t <->
     entries_of t u <> [] \/ is_Some (totalsByUser t !! u)) /\
  forall s, s ∈ UserStats t ->
    us_ActiveConns s = Z.of_nat (length (entries_of t (us_Username s))) /\
    match totalsByUser t !! us_Username s with
    | Some x => us_BytesIn s = tot_bytesIn x /\ us_BytesOut s = tot_bytesOut x /\
                us_TotalTunnels s = tot_totalTunnels x /\ us_FirstSeenAt s = firstSeenAt x
    | None => True
    end.
Proof.
  destruct (UserStats_lookup t) as (live & -> & Hlive).
  assert (Hnames : us_Username <$> (map_to_list live).*2 = (map_to_list live).*1).
  { rewrite <- list_fmap_compose. apply list_fmap_ext. intros i [u s] Hi.
    apply list_elem_of_lookup_2, elem_of_map_to_list in Hi. rewrite Hlive in Hi.
    by apply user_stats_name in Hi. }
  rewrite Hnames. split_and!.
  - apply NoDup_fst_map_to_list.
  - intros u. rewrite list_elem_of_fmap. split.
    + intros ([v s] & -> & Hi). apply elem_of_map_to_list in Hi. rewrite Hlive in Hi.
      unfold user_stats in Hi. cbn. destruct (totalsByUser t !! v); [eauto|].
      destruct (entries_of t v); [done|by left].
    + intros H. destruct (user_stats t u) as [s|] eqn:E.
      * exists (u, s). split; [done|]. apply elem_of_map_to_list. by rewrite Hlive.
      * exfalso. unfold user_stats in E. destruct (totalsByUser t !! u) eqn:Et; [done|].
        destruct H as [H|[? ?]]; [|done]. by destruct (entries_of t u).
  - intros s Hs. apply list_elem_of_fmap in Hs as ([u s'] & -> & Hi). cbn [snd].
    apply elem_of_map_to_list in Hi. rewrite Hlive in Hi. pose proof (user_stats_name _ _ _ Hi) as ->.
    pose proof (add_live_fold (entries_of t u) (zero_stats u)) as [Ha _].
    unfold user_stats in Hi. destruct (totalsByUser t !! u) as [x|].
    + injection Hi as <-. split_and!; done.
    + destruct (entries_of t u) eqn:E; [done|]. injection Hi as <-. split; [|done].
      exact Ha.
Qed.

(** The GOAWAY frame of a kick, field by field (RFC 9113, section 6.8):
    17 bytes, payload length 8, type 7, no flags, stream 0, the last stream
    without its reserved bit, the error code. *)
Theorem goawayFrame_layout (lastStreamID errorCode : Z)
  (Hl : 0 <= lastStreamID < 2 ^ 32) (He : 0 <= errorCode < 2 ^ 32) :
  let f := goawayFrame lastStreamID errorCode in
  length f = 17%nat /\ be_val (slice 0 3 f) = 8 /\ bval (nth 3 f x00) = 7 /\
  bval (nth 4 f x00) = 0 /\ Uint32 (slice 5 9 f) = 0 /\
  Uint32 (slice 9 13 f) = lastStreamID `mod` 2 ^ 31 /\ Uint32 (slice 13 17 f) = errorCode.
Proof.
  cbn zeta. unfold goawayFrame. change 0x7FFFFFFF with (Z.ones 31).
  rewrite Z.land_ones by lia.
  pose proof (Z.mod_pos_bound lastStreamID (2 ^ 31)) as Hm.
  split_and!; try done.
  - rewrite (slice_skip _ _ 5), (slice_skip _ _ 4), slice_0_app by (done || cbn; lia).
    rewrite <- (app_nil_r (PutUint32 _)). apply Uint32_Put. lia.
  - rewrite (slice_skip _ _ 5), (slice_skip _ _ 4), (slice_skip _ _ 4) by (done || cbn; lia).
    rewrite <- (app_nil_r (PutUint32 errorCode)), slice_0_app by done.
    rewrite <- (app_nil_r (PutUint32 errorCode)). by apply Uint32_Put.
Qed.

(** Two streams of one connection: the end of the first stops the counting. *)
Definition ex_conn : Conn := {| c_id := 1; c_addr := "198.51.100.7:4000" |}.
Definition ex_ops : list op :=
  [ORegister "ann" ex_conn 5; OAdd ex_conn 100 50; ORegister "ann" ex_conn 6;
   OAdd ex_conn 1 2; OUnregister "ann" ex_conn; OAdd ex_conn 1000 1000; OFlush].

Example ex_run :
  CountUser (run ex_ops).1 "ann" = 1%nat /\ IsKnown (run ex_ops).1 (Some ex_conn) = false /\
  (run ex_ops).2 = [("ann", 153)].
Proof. vm_compute. done. Qed.

(** The store refuses the first flush; 153 bytes are lost, the next 7 stored. *)
Definition ex_evs : list (op * (string -> Z -> option string)) :=
  map (fun o => (o, fun _ _ => Some "database is locked")) ex_ops ++
  [(ORegister "ann" ex_conn 7, fun _ _ => None); (OAdd ex_conn 3 4, fun _ _ => None)].

Lemma tracker_flush_exact_witness :
  let '(t, l) := flush_run ex_evs in
  flushed_to "ann" (l_lost l) = 153 /\
  flushed_to "ann" (l_stored (flushOnce (book (fun _ _ => None)) t l).2) = 7.
Proof.
  assert (H1 : Forall (op_ok "ann") (map fst ex_evs)) by (repeat constructor; discriminate).
  assert (H2 : counted "ann" (map fst ex_evs) < 2 ^ 64) by (vm_compute; reflexivity).
  pose proof (tracker_flush_exact "ann" ex_evs H1 H2) as H.
  assert (E : flush_run ex_evs = ((flush_run ex_evs).1, {| l_stored := []; l_lost := [("ann", 153)] |}) /\
    unflushed "ann" (flush_run ex_evs).1 = 7) by (vm_compute; split; reflexivity).
  destruct E as [E1 E2]. rewrite E1 in H |- *. destruct H as (_ & Hflush & _).
  specialize (Hflush (fun _ _ => None)). destruct (flushOnce _ _ _) as [t' l'].
  destruct Hflush as (_ & Hst & _). split; [reflexivity|]. cbn [snd]. rewrite Hst, E2. reflexivity.
Defined.

Lemma goawayFrame_layout_witness :
  Uint32 (slice 13 17 (goawayFrame 0 0x1F)) = 31.
Proof.
  refine (proj2 (proj2 (proj2 (proj2 (proj2 (proj2 (goawayFrame_layout 0 0x1F _ _))))))); lia.
Defined.
