(* ===== verification/Icmp.v ===== *)
(** internal/icmp/mux.go: echo requests of the client streams over one raw
    socket.  Each request waits in its own goroutine for a reply that the read
    loop hands out by ICMP identifier. *)
From S2P Require Import Prelude GoStrings GoEncoding GoNet GoIO Config.
#[local] Open Scope Z_scope.

Record pendingKey := { sessionID : Z; key_id : Z }.

#[export] Instance pendingKey_eq_dec : EqDecision pendingKey.
Proof. solve_decision. Defined.
#[export] Instance pendingKey_countable : Countable pendingKey.
Proof.
  apply (inj_countable' (fun k => (sessionID k, key_id k)) (fun '(a, b) => {| sessionID := a; key_id := b |})).
  by intros [].
Defined.

Record replyMsg := { r_srcIP : IP; r_typ : Z; r_code : Z; r_seq : Z }.

#[export] Instance replyMsg_eq_dec : EqDecision replyMsg.
Proof. solve_decision. Defined.

(** The timeout [NewMux] takes from the configuration, in nanoseconds. *)
Definition mux_timeout (cfg : option ICMPConfig) : Z :=
  match cfg with
  | Some c => if 0 <? RequestTimeoutSecs c then RequestTimeoutSecs c * second else 3 * second
  | None => 3 * second
  end.

(** ** Frames *)

Record echoRequest := { e_id : Z; e_dst : IP; e_seq : Z; e_ttl : Z }.

Definition readEchoRequest (r : reader) : res echoRequest * reader :=
  match ReadFull 23 r with
  | (Err e, r) => (Err e, r)
  | (Ok buf, r) =>
      (Ok {| e_id := Uint16 (slice 0 2 buf); e_dst := To16 (slice 2 18 buf);
             e_seq := Uint16 (slice 18 20 buf); e_ttl := bval (nth 20 buf x00) |}, r)
  end.

(** [copy(buf[2:18], r.srcIP)]: at most 16 bytes, the rest stays zero. *)
Definition copy_ip (ip : IP) : list byte := take 16 ip ++ replicate (16 - length ip) x00.

Definition writeEchoReply (id : Z) (r : replyMsg) : list byte :=
  PutUint16 id ++ copy_ip (r_srcIP r) ++ [mkbyte (r_typ r); mkbyte (r_code r)] ++ PutUint16 (r_seq r).

(** ** The mux

    [pending] maps a key to a channel of capacity one; a goroutine is named by
    the channel it waits on. *)

Abbreviation chan := nat (only parsing).

(** A goroutine is before the call that sets the socket's TTL, between it and
    the write, or past the write. *)
Inductive phase := Sending | Marked | Waiting.

Record goroutine := { g_key : pendingKey; g_req : echoRequest; g_phase : phase }.

Record state := {
  pending : gmap pendingKey chan;
  chans : gmap chan (option replyMsg);
  waiters : gmap chan goroutine;
  next_chan : chan;
  next_session : Z;                        (* globalSessionID *)
  sock_ttl : option Z;                     (* of the raw socket; [None] is the system's *)
  sent : list (echoRequest * option Z);    (* on the raw socket, with the TTL of the packet *)
  seen : list (Z * replyMsg);              (* echo messages the read loop got *)
  out : list (pendingKey * replyMsg);      (* replies written to the streams *)
}.

Definition init : state :=
  {| pending := ∅; chans := ∅; waiters := ∅; next_chan := 0; next_session := 0;
     sock_ttl := None; sent := []; seen := []; out := [] |}.

Definition NewSession (st : state) : state * Z :=
  let n := u64 (next_session st + 1) in
  ({| pending := pending st; chans := chans st; waiters := waiters st; next_chan := next_chan st;
      next_session := n; sock_ttl := sock_ttl st; sent := sent st; seen := seen st; out := out st |}, n).

(** The body of the loop of [ServeHTTP] after a read: register and start. *)
Definition request (s : Z) (rq : echoRequest) (st : state) : state :=
  let key := {| sessionID := s; key_id := e_id rq |} in
  let ch := next_chan st in
  {| pending := <[key := ch]> (pending st); chans := <[ch := None]> (chans st);
     waiters := <[ch := {| g_key := key; g_req := rq; g_phase := Sending |}]> (waiters st);
     next_chan := S ch; next_session := next_session st;
     sock_ttl := sock_ttl st; sent := sent st; seen := seen st; out := out st |}.

(** The deferred function of a goroutine, then its end. *)
Definition finish (ch : chan) (st : state) : state :=
  match waiters st !! ch with
  | None => st
  | Some g =>
      {| pending := delete (g_key g) (pending st); chans := chans st;
         waiters := delete ch (waiters st); next_chan := next_chan st;
         next_session := next_session st; sock_ttl := sock_ttl st; sent := sent st; seen := seen st; out := out st |}
  end.

(** [mux.send], up to the call of SetTTL: [err] is what marshalling answers;
    the error of SetTTL is dropped, [accepted] says whether it took effect. *)
Definition set_ttl (ch : chan) (err : option string) (accepted : bool) (st : state) : option state :=
  match waiters st !! ch with
  | Some {| g_key := k; g_req := rq; g_phase := Sending |} =>
      match err with
      | Some _ => Some (finish ch st)
      | None =>
          Some {| pending := pending st; chans := chans st;
                  waiters := <[ch := {| g_key := k; g_req := rq; g_phase := Marked |}]> (waiters st);
                  next_chan := next_chan st; next_session := next_session st;
                  sock_ttl := if accepted then Some (e_ttl rq) else sock_ttl st;
                  sent := sent st; seen := seen st; out := out st |}
      end
  | _ => None
  end.

(** [mux.send], its write: [err] is what the socket answers. *)
Definition send (ch : chan) (err : option string) (st : state) : option state :=
  match waiters st !! ch with
  | Some {| g_key := k; g_req := rq; g_phase := Marked |} =>
      match err with
      | Some _ => Some (finish ch st)
      | None =>
          Some {| pending := pending st; chans := chans st;
                  waiters := <[ch := {| g_key := k; g_req := rq; g_phase := Waiting |}]> (waiters st);
                  next_chan := next_chan st; next_session := next_session st; sock_ttl := sock_ttl st;
                  sent := sent st ++ [(rq, sock_ttl st)]; seen := seen st; out := out st |}
      end
  | _ => None
  end.

(** The select of a waiting goroutine takes the reply. *)
Definition receive (ch : chan) (st : state) : option state :=
  match waiters st !! ch, chans st !! ch with
  | Some {| g_key := k; g_phase := Waiting |}, Some (Some r) =>
      Some (finish ch {| pending := pending st; chans := <[ch := None]> (chans st);
              waiters := waiters st; next_chan := next_chan st; next_session := next_session st;
              sock_ttl := sock_ttl st; sent := sent st; seen := seen st; out := out st ++ [(k, r)] |})
  | _, _ => None
  end.

(** The select takes the timeout or the end of the request. *)
Definition abandon (ch : chan) (st : state) : option state :=
  match waiters st !! ch with
  | Some {| g_phase := Waiting |} => Some (finish ch st)
  | _ => None
  end.

(** The non-blocking send of [readLoop]. *)
Definition try_send (r : replyMsg) (m : gmap chan (option replyMsg)) (ch : chan)
  : gmap chan (option replyMsg) :=
  match m !! ch with Some None => <[ch := Some r]> m | _ => m end.

(** One echo message in [readLoop]: every pending key with the identifier. *)
Definition read_reply (id : Z) (r : replyMsg) (st : state) : state :=
  {| pending := pending st;
     chans := foldl (try_send r) (chans st)
                (filter (fun kv => key_id kv.1 = id) (map_to_list (pending st))).*2;
     waiters := waiters st; next_chan := next_chan st; next_session := next_session st;
     sock_ttl := sock_ttl st; sent := sent st; seen := seen st ++ [(id, r)]; out := out st |}.

(** ** Interleavings *)

Inductive event :=
| EvSession
| EvRequest (s : Z) (rq : echoRequest)
| EvTTL (ch : chan) (err : option string) (accepted : bool)
| EvSend (ch : chan) (err : option string)
| EvReply (id : Z) (r : replyMsg)
| EvReceive (ch : chan)
| EvGiveUp (ch : chan).

Definition step (st : state) (ev : event) : option state :=
  match ev with
  | EvSession => Some (NewSession st).1
  | EvRequest s rq => Some (request s rq st)
  | EvTTL ch err accepted => set_ttl ch err accepted st
  | EvSend ch err => send ch err st
  | EvReply id r => Some (read_reply id r st)
  | EvReceive ch => receive ch st
  | EvGiveUp ch => abandon ch st
  end.

Fixpoint run (st : state) (evs : list event) : option state :=
  match evs with
  | [] => Some st
  | ev :: evs => st ← step st ev; run st evs
  end.

(** ** Lemmas *)

(** A frame of the client. *)
Definition echo_frame (rq : echoRequest) (dataSize : Z) : list byte :=
  PutUint16 (e_id rq) ++ e_dst rq ++ PutUint16 (e_seq rq) ++ [mkbyte (e_ttl rq)] ++ PutUint16 dataSize.

Definition echo_wf (rq : echoRequest) : Prop :=
  0 <= e_id rq < 2 ^ 16 /\ length (e_dst rq) = 16%nat /\ 0 <= e_seq rq < 2 ^ 16 /\ 0 <= e_ttl rq < 256.

(** What holds of every reachable state: the channel of a goroutine or of a
    pending entry carries only replies seen with its identifier. *)
Definition chan_of (st : state) (ch : chan) (id : Z) : Prop :=
  (exists g, waiters st !! ch = Some g /\ key_id (g_key g) = id) \/
  (exists k, pending st !! k = Some ch /\ key_id k = id).

Definition sound (st : state) : Prop :=
  (forall ch id r, chan_of st ch id -> chans st !! ch = Some (Some r) -> (id, r) ∈ seen st) /\
  (forall k r, (k, r) ∈ out st -> (key_id k, r) ∈ seen st) /\
  (forall ch id, chan_of st ch id -> (ch < next_chan st)%nat) /\
  (forall ch id1 id2, chan_of st ch id1 -> chan_of st ch id2 -> id1 = id2).

Lemma try_send_lookup r m l ch x :
  foldl (try_send r) m l !! ch = Some (Some x) ->
  m !! ch = Some (Some x) \/ (ch ∈ l /\ x = r).
Proof.
  revert m. induction l as [|c l IH]; intros m; cbn [foldl]; [by left|].
  intros H. destruct (IH _ H) as [Hm|[Hin ->]]; [|right; set_solver].
  unfold try_send in Hm. destruct (m !! c) as [[y|]|] eqn:E; [by left| |by left].
  apply lookup_insert_Some in Hm as [[-> [= ->]]|[_ Hm]]; [right; set_solver|by left].
Qed.

Lemma sound_finish st ch : sound st -> sound (finish ch st).
Proof.
  intros (H1 & H2 & H3 & H4). unfold finish. destruct (waiters st !! ch) as [g|] eqn:E; [|done].
  assert (Hc : forall c id, chan_of {| pending := delete (g_key g) (pending st); chans := chans st;
      waiters := delete ch (waiters st); next_chan := next_chan st; next_session := next_session st;
      sock_ttl := sock_ttl st; sent := sent st; seen := seen st; out := out st |} c id -> chan_of st c id).
  { intros c id [(g' & Hg & Hi)|(k & Hk & Hi)]; cbn in *.
    - apply lookup_delete_Some in Hg as [_ Hg]. left. eauto.
    - apply lookup_delete_Some in Hk as [_ Hk]. right. eauto. }
  unfold sound. cbn. split_and!; eauto.
Qed.

(** Neither a phase nor the socket matters for it. *)
Lemma sound_phase st ch k rq ph ph' ttl snt :
  sound st -> waiters st !! ch = Some {| g_key := k; g_req := rq; g_phase := ph |} ->
  sound {| pending := pending st; chans := chans st;
           waiters := <[ch := {| g_key := k; g_req := rq; g_phase := ph' |}]> (waiters st);
           next_chan := next_chan st; next_session := next_session st; sock_ttl := ttl;
           sent := snt; seen := seen st; out := out st |}.
Proof.
  intros (H1 & H2 & H3 & H4) E. set (st' := {| pending := _ |}).
  assert (Hc : forall c id, chan_of st' c id -> chan_of st c id).
  { intros c id [(g & Hg & Hi)|(k' & Hk & Hi)]; cbn in *; [|right; eauto].
    apply lookup_insert_Some in Hg as [[<- <-]|[_ Hg]]; left; eauto. }
  unfold sound. split_and!; cbn; eauto.
Qed.

Lemma sound_step st ev st' : sound st -> step st ev = Some st' -> sound st'.
Proof.
  intros Hs. pose proof Hs as (H1 & H2 & H3 & H4).
  destruct ev as [|s rq|ch err acc|ch err|id r|ch|ch]; cbn.
  - intros [= <-]. exact Hs.
  - intros [= <-]. set (st' := request s rq st).
    assert (Hc : forall c id, chan_of st' c id -> (c = next_chan st /\ id = e_id rq) \/
      (c <> next_chan st /\ chan_of st c id)).
    { intros c id [(g & Hg & Hi)|(k & Hk & Hi)]; cbn in *.
      - apply lookup_insert_Some in Hg as [[<- <-]|[Hne Hg]]; [by left|right].
        split; [done|]. left. eauto.
      - apply lookup_insert_Some in Hk as [[<- <-]|[Hne Hk]]; [by left|right].
        assert (chan_of st c id) as Hold by (right; eauto).
        split; [|done]. apply H3 in Hold. lia. }
    unfold sound. split_and!; cbn.
    + intros c id r [[-> ->]|[Hne Hold]]%Hc; [by rewrite lookup_insert_eq|].
      rewrite lookup_insert_ne by done. eauto.
    + done.
    + intros c id [[-> ->]|[_ Hold]]%Hc; [lia|]. apply H3 in Hold. lia.
    + intros c id1 id2 [[-> ->]|[Hn1 Ho1]]%Hc [[? ->]|[Hn2 Ho2]]%Hc; try done. eauto.
  - unfold set_ttl. destruct (waiters st !! ch) as [[k rq []]|] eqn:E; try done.
    destruct err; intros [= <-]; [by apply sound_finish|]. by eapply (sound_phase st).
  - unfold send. destruct (waiters st !! ch) as [[k rq []]|] eqn:E; try done.
    destruct err; intros [= <-]; [by apply sound_finish|]. by eapply (sound_phase st).
  - intros [= <-]. set (st' := read_reply id r st).
    assert (Hc : forall c i, chan_of st' c i -> chan_of st c i) by (intros c i [?|?]; [left|right]; done).
    unfold sound. split_and!; cbn; [|set_solver|eauto|eauto].
    intros c i x Hci Hx. apply try_send_lookup in Hx as [Hx|[Hin ->]].
    + apply elem_of_app. left. eauto.
    + apply list_elem_of_fmap in Hin as ([k c'] & -> & Hk).
      apply list_elem_of_filter in Hk as [Hid Hk]. apply elem_of_map_to_list in Hk. cbn in *.
      assert (chan_of st c' id) as Ho by (right; eauto).
      rewrite (H4 _ _ _ (Hc _ _ Hci) Ho). set_solver.
  - unfold receive. destruct (waiters st !! ch) as [[k rq []]|] eqn:E; try done.
    destruct (chans st !! ch) as [[r|]|] eqn:Er; try done. intros [= <-]. apply sound_finish.
    assert (Hk : chan_of st ch (key_id k)) by (left; eauto).
    unfold sound. split_and!; cbn; [| |eauto|eauto].
    + intros c id x Hc [[_ ?]|[_ Hx]]%lookup_insert_Some; [done|]. eapply H1; eauto.
    + intros k' x [Hin|[= -> ->]%list_elem_of_singleton]%elem_of_app; eauto.
  - unfold abandon. destruct (waiters st !! ch) as [[k rq []]|] eqn:E; try done.
    intros [= <-]. by apply sound_finish.
Qed.

Lemma sound_run evs st st' : sound st -> run st evs = Some st' -> sound st'.
Proof.
  revert st. induction evs as [|ev evs IH]; intros st Hs; cbn; [by intros [= <-]|].
  destruct (step st ev) as [st1|] eqn:E; [|done]. cbn. apply IH. by eapply sound_step.
Qed.

Lemma run_app st evs1 evs2 : run st (evs1 ++ evs2) = st' ← run st evs1; run st' evs2.
Proof.
  revert st. induction evs1 as [|ev evs1 IH]; intros st; cbn; [done|].
  destruct (step st ev); cbn; [apply IH|done].
Qed.

(** With no table entry and no filled channel nothing is written any more. *)
Lemma dead_run evs st st' :
  pending st = ∅ -> (forall ch x, chans st !! ch <> Some (Some x)) -> out st = [] ->
  Forall (fun ev => match ev with EvRequest _ _ => False | _ => True end) evs ->
  run st evs = Some st' -> out st' = [].
Proof.
  intros Hp Hc Ho Hev. revert st Hp Hc Ho. induction Hev as [|ev evs Hne _ IH]; intros st Hp Hc Ho; cbn.
  { by intros [= <-]. }
  assert (Hfin : forall ch, pending (finish ch st) = ∅ /\ chans (finish ch st) = chans st /\
    out (finish ch st) = out st).
  { intros ch. unfold finish. destruct (waiters st !! ch); [|done]. cbn. by rewrite Hp, delete_empty. }
  destruct ev as [|s rq|ch err acc|ch err|id r|ch|ch]; cbn.
  - by apply IH.
  - done.
  - unfold set_ttl. destruct (waiters st !! ch) as [[k rq []]|]; try done.
    destruct err; cbn; [|by apply IH]. destruct (Hfin ch) as (? & E & ?).
    apply IH; [done|by rewrite E|congruence].
  - unfold send. destruct (waiters st !! ch) as [[k rq []]|]; try done.
    destruct err; cbn; [|by apply IH]. destruct (Hfin ch) as (? & E & ?).
    apply IH; [done|by rewrite E|congruence].
  - apply IH; cbn; [done| |done]. by rewrite Hp, map_to_list_empty.
  - unfold receive. destruct (waiters st !! ch) as [[k rq []]|]; try done.
    destruct (chans st !! ch) as [[r|]|] eqn:E; try done. by apply Hc in E.
  - unfold abandon. destruct (waiters st !! ch) as [[k rq []]|]; try done. cbn.
    destruct (Hfin ch) as (? & E & ?). apply IH; [done|by rewrite E|congruence].
Qed.

(** A request that is registered and sent without interruption. *)
Definition pinged (s : Z) (rq : echoRequest) (st : state) : state :=
  let key := {| sessionID := s; key_id := e_id rq |} in
  let ch := next_chan st in
  {| pending := <[key := ch]> (pending st); chans := <[ch := None]> (chans st);
     waiters := <[ch := {| g_key := key; g_req := rq; g_phase := Waiting |}]> (waiters st);
     next_chan := S ch; next_session := next_session st; sock_ttl := Some (e_ttl rq);
     sent := sent st ++ [(rq, Some (e_ttl rq))]; seen := seen st; out := out st |}.

Lemma run_ping s rq st ch evs : ch = next_chan st ->
  run st (EvRequest s rq :: EvTTL ch None true :: EvSend ch None :: evs) = run (pinged s rq st) evs.
Proof.
  intros ->. cbn. unfold set_ttl. cbn. rewrite lookup_insert_eq. cbn. unfold send. cbn. rewrite lookup_insert_eq.
  cbn. f_equal. unfold pinged. by rewrite !insert_insert_eq.
Qed.

(** The socket's TTL stays what the last call made it. *)
Definition sets_ttl (ev : event) : bool := match ev with EvTTL _ _ _ => true | _ => false end.

Lemma finish_ttl ch st : sock_ttl (finish ch st) = sock_ttl st /\ sent (finish ch st) = sent st /\
  forall ch', ch' <> ch -> waiters (finish ch st) !! ch' = waiters st !! ch'.
Proof.
  unfold finish. destruct (waiters st !! ch); [|done]. split_and!; [done..|].
  intros ch' Hne. cbn. by rewrite lookup_delete_ne.
Qed.

(** A goroutine between the call and the write is there until its own event. *)
Definition own_event (ch : chan) (ev : event) : bool :=
  match ev with EvTTL c _ _ | EvSend c _ | EvReceive c | EvGiveUp c => bool_decide (c = ch) | _ => false end.

Lemma step_keeps_waiter ch g st ev st' : (ch < next_chan st)%nat -> waiters st !! ch = Some g ->
  own_event ch ev = false -> step st ev = Some st' ->
  waiters st' !! ch = Some g /\ (ch < next_chan st')%nat /\ (sets_ttl ev = false -> sock_ttl st' = sock_ttl st).
Proof.
  intros Hlt Hg Hown Hs.
  assert (Hfin : forall c st1, c <> ch -> (ch < next_chan st1)%nat -> waiters st1 !! ch = Some g ->
    waiters (finish c st1) !! ch = Some g /\ (ch < next_chan (finish c st1))%nat /\
    sock_ttl (finish c st1) = sock_ttl st1).
  { intros c st1 Hc Hl Hw. destruct (finish_ttl c st1) as (H1 & _ & H2). rewrite H2 by done. split_and!; [done| |done].
    unfold finish. by destruct (waiters st1 !! c). }
  destruct ev as [|s rq|c err acc|c err|id r|c|c]; cbn in Hs, Hown; try rewrite bool_decide_eq_false in Hown.
  - by injection Hs as <-.
  - injection Hs as <-. cbn. split_and!; [|lia|done]. rewrite lookup_insert_ne; [done|lia].
  - unfold set_ttl in Hs. destruct (waiters st !! c) as [[k rq []]|]; try done.
    destruct err; injection Hs as <-; [by destruct (Hfin c st Hown Hlt Hg) as (? & ? & ?)|].
    cbn. by rewrite lookup_insert_ne.
  - unfold send in Hs. destruct (waiters st !! c) as [[k rq []]|]; try done.
    destruct err; injection Hs as <-; [by destruct (Hfin c st Hown Hlt Hg) as (? & ? & ?)|].
    cbn. by rewrite lookup_insert_ne.
  - by injection Hs as <-.
  - unfold receive in Hs. destruct (waiters st !! c) as [[k rq []]|]; try done.
    destruct (chans st !! c) as [[r|]|]; try done. injection Hs as <-.
    set (st1 := {| pending := _ |}). by destruct (Hfin c st1 Hown Hlt Hg) as (? & ? & ?).
  - unfold abandon in Hs. destruct (waiters st !! c) as [[k rq []]|]; try done. injection Hs as <-.
    by destruct (Hfin c st Hown Hlt Hg) as (? & ? & ?).
Qed.

Lemma run_keeps_waiter ch g evs st st' : (ch < next_chan st)%nat -> waiters st !! ch = Some g ->
  Forall (fun ev => own_event ch ev = false) evs -> run st evs = Some st' ->
  waiters st' !! ch = Some g /\ (Forall (fun ev => sets_ttl ev = false) evs -> sock_ttl st' = sock_ttl st).
Proof.
  intros Hlt Hg Hown. revert st Hlt Hg. induction Hown as [|ev evs Ho _ IH]; intros st Hlt Hg; cbn.
  { by intros [= <-]. }
  destruct (step st ev) as [st1|] eqn:E; [|done]. cbn. intros Hr.
  destruct (step_keeps_waiter _ _ _ _ _ Hlt Hg Ho E) as (Hg1 & Hlt1 & Ht1). destruct (IH st1 Hlt1 Hg1 Hr) as [Hg2 Ht2].
  split; [done|]. intros Hf. inversion Hf; subst. rewrite Ht2 by done. auto.
Qed.

(** ** Properties *)

(** The ICMP frames.  [readEchoRequest] reads exactly the 23-byte request
    frames and consumes nothing more; the 22 bytes of [writeEchoReply] hold the
    identifier, the source, the type, the code and the sequence number at their
    offsets. *)
Theorem icmp_frames (rq : echoRequest) (dataSize : Z) (rest : list byte) (e : string) (r : replyMsg)
  (Hrq : echo_wf rq) (Hd : 0 <= dataSize < 2 ^ 16) (Hip : length (r_srcIP r) = 16%nat)
  (Ht : 0 <= r_typ r < 256) (Hc : 0 <= r_code r < 256) (Hs : 0 <= r_seq r < 2 ^ 16) :
  readEchoRequest {| rd_data := echo_frame rq dataSize ++ rest; rd_end := e |} =
    (Ok rq, {| rd_data := rest; rd_end := e |}) /\
  let b := writeEchoReply (e_id rq) r in
  length b = 22%nat /\ Uint16 (slice 0 2 b) = e_id rq /\ slice 2 18 b = r_srcIP r /\
  bval (nth 18 b x00) = r_typ r /\ bval (nth 19 b x00) = r_code r /\ Uint16 (slice 20 22 b) = r_seq r.
Proof.
  destruct Hrq as (H1 & H2 & H3 & H4). split.
  - unfold readEchoRequest, echo_frame.
    rewrite (ReadFull_app 23) by (rewrite !length_app, H2; done).
    destruct rq as [id dst seq ttl]. cbn [e_id e_dst e_seq e_ttl] in *.
    repeat f_equal.
    + rewrite slice_0_app by done. rewrite <- (app_nil_r (PutUint16 id)). by apply Uint16_Put.
    + rewrite (slice_skip _ _ 2), slice_0_app by (done || lia). unfold To16. by rewrite H2.
    + rewrite (slice_skip _ _ 2), (slice_skip _ _ 16), slice_0_app by (done || lia).
      rewrite <- (app_nil_r (PutUint16 seq)). by apply Uint16_Put.
    + rewrite !app_nth2 by (rewrite ?length_PutUint16, ?H2; lia).
      rewrite length_PutUint16, H2, length_PutUint16. cbn. by apply bval_mkbyte_small.
  - cbn zeta. unfold writeEchoReply, copy_ip. rewrite Hip, take_ge, app_nil_r by lia. split_and!.
    + rewrite !length_app, Hip. done.
    + rewrite slice_0_app by done. rewrite <- (app_nil_r (PutUint16 _)). by apply Uint16_Put.
    + rewrite (slice_skip _ _ 2), slice_0_app by (done || lia). done.
    + rewrite !app_nth2 by (rewrite ?length_PutUint16, ?Hip; lia).
      rewrite length_PutUint16, Hip. cbn. by apply bval_mkbyte_small.
    + rewrite !app_nth2 by (rewrite ?length_PutUint16, ?Hip; lia).
      rewrite length_PutUint16, Hip. cbn. by apply bval_mkbyte_small.
    + rewrite (slice_skip _ _ 2), (slice_skip _ _ 16), (slice_skip _ _ 2) by (done || cbn; lia).
      rewrite <- (app_nil_r (PutUint16 (r_seq r))), slice_0_app by done.
      rewrite <- (app_nil_r (PutUint16 (r_seq r))). by apply Uint16_Put.
Qed.

(** C28: a reply reaches only requests of its identifier.  In every
    interleaving of requests, sends, messages from the network, receptions and
    timeouts, each reply written to a stream is one the read loop got, with the
    identifier of the request it answers. *)
Theorem icmp_reply_sound (evs : list event) (st : state) (k : pendingKey) (r : replyMsg)
  (Hrun : run init evs = Some st) (Hout : (k, r) ∈ out st) :
  (key_id k, r) ∈ seen st.
Proof.
  assert (Hi : sound init).
  { unfold sound, chan_of. cbn. repeat setoid_rewrite lookup_empty. split_and!; try naive_solver.
    set_solver. }
  destruct (sound_run evs init st Hi Hrun) as (_ & H & _). eauto.
Qed.

(** The clean-up of one request can lose the reply of another.  When a
    session reuses an identifier while an earlier request with it still waits,
    the end of the earlier request removes the table entry of the later one:
    the later request is sent, its reply arrives at the socket, and nothing is
    written for it. *)
Theorem icmp_reuse_loses_reply (s : Z) (rq : echoRequest) (r : replyMsg) :
  exists st, run init [EvRequest s rq; EvTTL 0 None true; EvSend 0 None; EvRequest s rq; EvTTL 1 None true;
                       EvSend 1 None; EvGiveUp 0; EvReply (e_id rq) r] = Some st /\
    map fst (sent st) = [rq; rq] /\ (e_id rq, r) ∈ seen st /\ is_Some (waiters st !! 1%nat) /\
    forall evs st', Forall (fun ev => match ev with EvRequest _ _ => False | _ => True end) evs ->
       run st evs = Some st' -> out st' = [].
Proof.
  rewrite !run_ping by done. cbn [run step].
  unfold abandon. cbn [pinged waiters next_chan init]. rewrite lookup_insert_ne, lookup_insert_eq by done.
  unfold finish. cbn [waiters pinged next_chan init]. rewrite lookup_insert_ne, lookup_insert_eq by done.
  cbn [g_key pending mbind option_bind pinged init]. rewrite insert_insert_eq, delete_insert_id by done.
  eexists. split; [reflexivity|]. cbn [read_reply sent seen waiters pinged init next_chan chans out].
  split_and!; [done|set_solver|by eexists|].
  intros evs st'. apply (dead_run evs).
  - done.
  - intros ch x. cbn. rewrite map_to_list_empty. cbn.
    intros [[_ ?]|[_ [[_ ?]|[_ Hx]]%lookup_insert_Some]]%lookup_insert_Some; try done.
  - done.
Qed.

(** A packet leaves with the TTL of its request unless another request comes in
    between.  From the call that sets the TTL to the write, in any interleaving in
    which no other request sets it, the packet carries the TTL asked for. *)
Theorem icmp_ttl (st : state) (ch : chan) (k : pendingKey) (rq : echoRequest) (evs : list event) (st' : state)
  (Hg : waiters st !! ch = Some {| g_key := k; g_req := rq; g_phase := Sending |})
  (Hch : (ch < next_chan st)%nat)
  (Hothers : Forall (fun ev => own_event ch ev = false /\ sets_ttl ev = false) evs)
  (Hrun : run st (EvTTL ch None true :: evs ++ [EvSend ch None]) = Some st') :
  exists before, sent st' = before ++ [(rq, Some (e_ttl rq))].
Proof.
  cbn [run step] in Hrun. unfold set_ttl in Hrun. rewrite Hg in Hrun. cbn [mbind option_bind] in Hrun.
  set (st1 := {| pending := _ |}) in Hrun. rewrite run_app in Hrun.
  destruct (run st1 evs) as [st2|] eqn:E; [|done]. cbn [mbind option_bind run step] in Hrun.
  destruct (run_keeps_waiter ch {| g_key := k; g_req := rq; g_phase := Marked |} evs st1 st2) as [Hg2 Ht2]; [done| | |done|].
  - apply lookup_insert_eq.
  - eapply Forall_impl; [exact Hothers|]. by intros ? [? ?].
  - unfold send in Hrun. rewrite Hg2, Ht2 in Hrun by (eapply Forall_impl; [exact Hothers|]; by intros ? [? ?]).
    injection Hrun as <-. cbn. eauto.
Qed.

(** With another one in between it does not.  Two requests whose goroutines
    interleave at the shared socket: the packet of the first, which asked for
    another TTL, leaves with the TTL of the second. *)
Theorem icmp_ttl_race (s : Z) (rq rq' : echoRequest) :
  exists st, run init [EvRequest s rq; EvRequest s rq'; EvTTL 0 None true; EvTTL 1 None true; EvSend 0 None]
             = Some st /\ sent st = [(rq, Some (e_ttl rq'))].
Proof.
  cbn. unfold set_ttl. cbn. rewrite lookup_insert_ne, lookup_insert_eq by done. cbn.
  rewrite lookup_insert_ne, lookup_insert_eq by done. unfold send. cbn.
  rewrite lookup_insert_ne, lookup_insert_eq by done. cbn. eauto.
Qed.

Definition ex_req : echoRequest := {| e_id := 7; e_dst := replicate 16 x01; e_seq := 1; e_ttl := 64 |}.
Definition ex_reply : replyMsg := {| r_srcIP := replicate 16 x01; r_typ := 0; r_code := 0; r_seq := 1 |}.

Lemma icmp_frames_witness :
  (readEchoRequest {| rd_data := echo_frame ex_req 0 ++ []; rd_end := EOF |}).1 = Ok ex_req.
Proof.
  refine (f_equal fst (proj1 (icmp_frames ex_req 0 [] EOF ex_reply _ _ _ _ _ _)));
    try reflexivity; try (cbn; lia).
  unfold echo_wf. cbn. split_and!; try reflexivity; lia.
Defined.

Definition ex_events : list event :=
  [EvSession; EvRequest 1 ex_req; EvTTL 0 None true; EvSend 0 None; EvReply 7 ex_reply; EvReceive 0].

Lemma icmp_reply_sound_witness :
  exists st, run init ex_events = Some st /\ (7, ex_reply) ∈ seen st.
Proof.
  eexists. split; [reflexivity|].
  apply (icmp_reply_sound ex_events _ {| sessionID := 1; key_id := 7 |} ex_reply).
  - reflexivity.
  - vm_compute. constructor.
Defined.
