(* ===== verification/Listener.v ===== *)
(** internal/server/tlspeek.go, listener.go and session.go: the listener that
    peeks the TLS ClientHello random, the connection that replays the peeked
    bytes, the context of a connection and its session. *)
From S2P Require Import Prelude GoStrings GoEncoding GoHttp ConnTracker.
From S2P Require Udp Icmp.
#[local] Open Scope Z_scope.

(** ** tlspeek.go *)

Definition tlsRandomOffset : nat := 5 + 4 + 2.
Definition tlsMinClientHelloLen : nat := tlsRandomOffset + 32.

(** nil is [None]. *)
Definition extractClientRandom (buf : list byte) : option (list byte) :=
  if (length buf <? tlsMinClientHelloLen)%nat then None
  else if negb (bval (nth 0 buf x00) =? 0x16) then None
  else if negb (bval (nth 5 buf x00) =? 0x01) then None
  else Some (slice tlsRandomOffset (tlsRandomOffset + 32) buf).

(** A connection that replays a buffer before the connection below; the bytes
    the peer will still send stand for the latter.  peekConn and randomConn
    have the same Read. *)
Record peekConn := { pc_rest : list byte; pc_buf : list byte; pc_offset : nat }.

Definition newPeekConn (rest peeked : list byte) : peekConn :=
  {| pc_rest := rest; pc_buf := peeked; pc_offset := 0 |}.

(** [Read] into [n] bytes; [avail] bytes have arrived on the connection below. *)
Definition peek_Read (c : peekConn) (n avail : nat) : list byte * peekConn :=
  if (pc_offset c <? length (pc_buf c))%nat then
    let got := take n (drop (pc_offset c) (pc_buf c)) in
    (got, {| pc_rest := pc_rest c; pc_buf := pc_buf c; pc_offset := pc_offset c + length got |})
  else
    let k := Nat.min n avail in
    (take k (pc_rest c), {| pc_rest := drop k (pc_rest c); pc_buf := pc_buf c; pc_offset := pc_offset c |}).

Fixpoint peek_reads (c : peekConn) (rs : list (nat * nat)) : list byte * peekConn :=
  match rs with
  | [] => ([], c)
  | (n, k) :: rs => let '(b, c) := peek_Read c n k in
                    let '(bs, c) := peek_reads c rs in (b ++ bs, c)
  end.

(** ** listener.go *)

(** A connection of the kernel's accept queue: the bytes it sends, and whether
    it then ends (or fails); if not it stays open and silent. *)
Record arrival := { ar_conn : Conn; ar_bytes : list byte; ar_ends : bool }.

Record randomConn := { rc_conn : Conn; rc_peek : peekConn; rc_random : option (list byte) }.

Definition randomConn_Read (c : randomConn) (n avail : nat) : list byte * randomConn :=
  let '(b, p) := peek_Read (rc_peek c) n avail in
  (b, {| rc_conn := rc_conn c; rc_peek := p; rc_random := rc_random c |}).

Inductive accepted :=
| Accepted (c : randomConn) (closed : list Conn) (queue : list arrival)
| Blocked (closed : list Conn) (on : Conn)
| NoMore (closed : list Conn).

(** [Accept]: io.ReadAtLeast of 43 bytes runs before the next connection is
    looked at.  An empty queue waits for the next arrival. *)
Fixpoint Accept (closed : list Conn) (queue : list arrival) : accepted :=
  match queue with
  | [] => NoMore closed
  | a :: queue =>
      if (tlsMinClientHelloLen <=? length (ar_bytes a))%nat then
        let buf := take tlsMinClientHelloLen (ar_bytes a) in
        Accepted {| rc_conn := ar_conn a;
                    rc_peek := newPeekConn (drop tlsMinClientHelloLen (ar_bytes a)) buf;
                    rc_random := extractClientRandom buf |} closed queue
      else if ar_ends a then Accept (closed ++ [ar_conn a]) queue
      else Blocked closed (ar_conn a)
  end.

(** ** session.go: the state of one TLS connection *)

Record Session := { ss_udp : option Udp.state; ss_icmp : option Z }.

Definition newSession : Session := {| ss_udp := None; ss_icmp := None |}.

(** The goroutine of [newSession] when the connection's context ends. *)
Definition session_cleanup (s : Session) : Session :=
  {| ss_udp := Udp.Close <$> ss_udp s; ss_icmp := ss_icmp s |}.

Definition Session_UDP (factory : Udp.Mux) (s : Session) : Session * Udp.state :=
  match ss_udp s with
  | Some u => (s, u)
  | None => let u := {| Udp.sess := Udp.Mux_NewSession factory; Udp.netw := Udp.no_net |} in
            ({| ss_udp := Some u; ss_icmp := ss_icmp s |}, u)
  end.

Definition Session_ICMP (m : Icmp.state) (s : Session) : Session * Icmp.state * Z :=
  match ss_icmp s with
  | Some n => (s, m, n)
  | None => let '(m, n) := Icmp.NewSession m in
            ({| ss_udp := ss_udp s; ss_icmp := Some n |}, m, n)
  end.

(** ** The context of a connection *)

(** The dynamic type of a net.Conn, as [ConnContextFunc] inspects it. *)
Inductive netConn :=
| Plain (c : Conn)
| Peeked (self : Conn) (rc : randomConn)
| Tls (self : Conn) (inner : netConn).

Definition conn_self (c : netConn) : Conn :=
  match c with Plain c => c | Peeked s _ => s | Tls s _ => s end.

Record context := {
  ctx_random : option (list byte);
  ctx_rawConn : option Conn;
  ctx_session : option Session;
}.

Definition background : context := {| ctx_random := None; ctx_rawConn := None; ctx_session := None |}.

Definition TLSRandomFromContext (c : context) : list byte := default [] (ctx_random c).
Definition RawConnFromContext (c : context) : option Conn := ctx_rawConn c.
Definition SessionFromContext (c : context) : option Session := ctx_session c.

Definition ConnContextFunc (ctx : context) (c : netConn) : context :=
  let '(random, rawConn) :=
    match c with
    | Tls _ inner =>
        match inner with
        | Peeked _ rc => (rc_random rc, Some (rc_conn rc))
        | _ => (None, Some (conn_self inner))
        end
    | _ => (None, None)
    end in
  {| ctx_random := match random with Some r => Some r | None => ctx_random ctx end;
     ctx_rawConn := match rawConn with Some r => Some r | None => ctx_rawConn ctx end;
     ctx_session := Some newSession |}.

(** ** Handlers over a state [W] of the program *)

Definition handler (W : Type) : Type := W -> request -> response -> W * response.

Definition WrapHandler {W} (h : handler W) (port : string) : handler W :=
  if bool_decide (port = "") then h
  else fun w r resp =>
    h w r (SetHeader "Alt-Svc" ("h3=" +:+ String dq (port +:+ String dq "; ma=86400")) resp).

(** ** Lemmas *)

(** The bytes a replaying connection has not delivered yet. *)
Definition remaining (c : peekConn) : list byte := drop (pc_offset c) (pc_buf c) ++ pc_rest c.

Lemma peek_Read_remaining c n k :
  let '(b, c') := peek_Read c n k in remaining c = b ++ remaining c'.
Proof.
  unfold peek_Read, remaining. destruct (Nat.ltb_spec (pc_offset c) (length (pc_buf c))); cbn.
  - rewrite <- drop_drop, app_assoc. f_equal. set (l := drop (pc_offset c) (pc_buf c)).
    rewrite length_take. destruct (Nat.le_ge_cases n (length l)).
    + by rewrite Nat.min_l, take_drop by done.
    + by rewrite Nat.min_r, take_ge, drop_all, app_nil_r by done.
  - rewrite !drop_ge by lia. cbn. by rewrite take_drop.
Qed.

Lemma peek_reads_remaining c rs :
  let '(b, c') := peek_reads c rs in remaining c = b ++ remaining c'.
Proof.
  revert c. induction rs as [|[n k] rs IH]; intros c; cbn; [done|].
  pose proof (peek_Read_remaining c n k) as H. destruct (peek_Read c n k) as [b c1].
  specialize (IH c1). destruct (peek_reads c1 rs) as [bs c2]. by rewrite H, IH, app_assoc.
Qed.

(** A ClientHello at the start of a stream. *)
Definition client_hello (bytes : list byte) : Prop :=
  bytes !! 0%nat = Some x16 /\ bytes !! 5%nat = Some x01 /\ (43 <= length bytes)%nat.

Lemma nth_bval bytes i v b :
  (i < length bytes)%nat -> bval b = v -> bval (nth i bytes x00) = v <-> bytes !! i = Some b.
Proof.
  intros Hi <-. rewrite nth_lookup. destruct (lookup_lt_is_Some_2 bytes i Hi) as [c Hc].
  rewrite Hc. cbn. split; [by intros ->%(inj bval)|by intros [= ->]].
Qed.

Lemma extractClientRandom_Some bytes random :
  extractClientRandom bytes = Some random <->
  client_hello bytes /\ random = slice 11 43 bytes.
Proof.
  unfold extractClientRandom, client_hello.
  change tlsMinClientHelloLen with 43%nat. change tlsRandomOffset with 11%nat.
  destruct (Nat.ltb_spec (length bytes) 43); [split; [done|lia]|].
  rewrite <- (nth_bval bytes 0 0x16 x16), <- (nth_bval bytes 5 0x01 x01) by (lia || done).
  destruct (Z.eqb_spec (bval (nth 0 bytes x00)) 0x16); cbn [negb]; [|split; [done|tauto]].
  destruct (Z.eqb_spec (bval (nth 5 bytes x00)) 0x01); cbn [negb]; [|split; [done|tauto]].
  cbn [Nat.add]. split; [intros [= <-]; tauto|intros [_ ->]; done].
Qed.

Lemma Accept_spec closed queue :
  match Accept closed queue with
  | Accepted c cl rest =>
      exists skipped a, queue = skipped ++ a :: rest /\ cl = closed ++ (ar_conn <$> skipped) /\
        Forall (fun a => (length (ar_bytes a) < 43)%nat /\ ar_ends a = true) skipped /\
        rc_conn c = ar_conn a /\ remaining (rc_peek c) = ar_bytes a /\
        rc_random c = extractClientRandom (ar_bytes a)
  | Blocked cl on =>
      exists skipped a rest, queue = skipped ++ a :: rest /\ on = ar_conn a /\
        (length (ar_bytes a) < 43)%nat /\ ar_ends a = false
  | NoMore cl => Forall (fun a => (length (ar_bytes a) < 43)%nat /\ ar_ends a = true) queue
  end.
Proof.
  revert closed. induction queue as [|a queue IH]; intros closed; cbn [Accept]; [constructor|].
  change tlsMinClientHelloLen with 43%nat in *.
  destruct (Nat.leb_spec 43 (length (ar_bytes a))) as [Hl|Hl].
  - exists [], a. cbn [rc_conn rc_peek rc_random]. unfold remaining, newPeekConn.
    cbn [pc_offset pc_buf pc_rest]. rewrite drop_0, take_drop. split_and!; try done.
    + by rewrite app_nil_r.
    + apply option_eq. intros x. rewrite !extractClientRandom_Some. unfold client_hello.
      rewrite !lookup_take_lt, length_take by lia. unfold slice. cbn [Nat.sub].
      rewrite skipn_firstn_comm. cbn [Nat.sub]. rewrite take_take, Nat.min_id, Nat.min_l by lia.
      split; intros; intuition lia.
  - destruct (ar_ends a) eqn:Ee.
    + specialize (IH (closed ++ [ar_conn a])).
      destruct (Accept (closed ++ [ar_conn a]) queue) as [c cl rest|cl on|cl].
      * destruct IH as (sk & b & -> & -> & Hsk & H). exists (a :: sk), b.
        rewrite <- app_assoc. destruct H as (H1 & H2 & H3).
        split_and!; try done. by constructor.
      * destruct IH as (sk & b & rest & -> & H). by exists (a :: sk), b, rest.
      * by constructor.
    + by exists [], a, queue.
Qed.

(** ** Properties *)

(** C29: peeking is invisible.  A connection that [Accept] returns is the first
    of the queue with at least 43 bytes; all before it had ended short and were
    closed.  Whatever sizes the reads have, they deliver the bytes the peer
    sent, in order and from the first on; and the recorded random is bytes 11
    to 42 of the stream exactly when the stream starts with a ClientHello
    record. *)
Theorem Accept_transparent (queue rest : list arrival) (closed : list Conn) (c : randomConn)
  (Ha : Accept [] queue = Accepted c closed rest) :
  exists skipped a, queue = skipped ++ a :: rest /\ rc_conn c = ar_conn a /\
    closed = ar_conn <$> skipped /\
    Forall (fun a => (length (ar_bytes a) < 43)%nat /\ ar_ends a = true) skipped /\
    (forall rs, let '(b, c') := peek_reads (rc_peek c) rs in ar_bytes a = b ++ remaining c') /\
    (forall random, rc_random c = Some random <->
       client_hello (ar_bytes a) /\ random = slice 11 43 (ar_bytes a)).
Proof.
  pose proof (Accept_spec [] queue) as H. rewrite Ha in H.
  destruct H as (sk & a & -> & -> & Hsk & Hc & Hrem & Hr). exists sk, a.
  split_and!; try done.
  - intros rs. pose proof (peek_reads_remaining (rc_peek c) rs) as Hp.
    destruct (peek_reads (rc_peek c) rs) as [b c']. by rewrite <- Hrem.
  - intros random. rewrite Hr. apply extractClientRandom_Some.
Qed.

(** One silent client stops the listener.  The peek runs inside [Accept]
    with no deadline: a connection that stays open with fewer than 43 bytes
    keeps every later connection out, however many there are. *)
Theorem Accept_blocked_by_silent_client (closed : list Conn) (a : arrival) (queue : list arrival)
  (Hshort : (length (ar_bytes a) < 43)%nat) (Hopen : ar_ends a = false) :
  Accept closed (a :: queue) = Blocked closed (ar_conn a).
Proof.
  cbn [Accept]. change tlsMinClientHelloLen with 43%nat.
  destruct (Nat.leb_spec 43 (length (ar_bytes a))); [lia|]. by rewrite Hopen.
Qed.

(** A ClientHello behind a port scan. *)
Definition ex_hello : list byte :=
  [x16; x03; x01; x00; x80; x01; x00; x00; x7c; x03; x03] ++ replicate 32 xab ++ bytes_of "rest".
Definition ex_queue : list arrival :=
  [ {| ar_conn := {| c_id := 1; c_addr := "192.0.2.9:1" |}; ar_bytes := []; ar_ends := true |};
    {| ar_conn := {| c_id := 2; c_addr := "192.0.2.9:2" |}; ar_bytes := ex_hello; ar_ends := false |} ].

Lemma Accept_transparent_witness :
  exists c closed, Accept [] ex_queue = Accepted c closed [] /\
    exists a, rc_conn c = ar_conn a /\ client_hello (ar_bytes a).
Proof.
  eexists. eexists. split; [reflexivity|].
  destruct (Accept_transparent ex_queue [] _ _ eq_refl) as (sk & a & _ & Hc & _ & _ & _ & Hr).
  exists a. split; [exact Hc|]. apply (proj1 (Hr (replicate 32 xab)) eq_refl).
Defined.

Lemma Accept_blocked_by_silent_client_witness :
  Accept [] ({| ar_conn := {| c_id := 1; c_addr := "192.0.2.9:1" |}; ar_bytes := [x16]; ar_ends := false |}
             :: ex_queue) = Blocked [] {| c_id := 1; c_addr := "192.0.2.9:1" |}.
Proof.
  refine (Accept_blocked_by_silent_client []
    {| ar_conn := {| c_id := 1; c_addr := "192.0.2.9:1" |}; ar_bytes := [x16]; ar_ends := false |}
    ex_queue _ _); [|reflexivity].
  cbn. lia.
Defined.
