(* ===== verification/P2P.v ===== *)
(** internal/proxy/p2p.go: the broker that joins two streams of one user in a
    room, and the copy loop of handler.go it uses for the bytes. *)
From S2P Require Import Prelude GoStrings GoHttp.
#[local] Open Scope Z_scope.

(** ** copyFlush

    The source is the results of its reads in order, an error included; the
    destination accepts [cap] bytes before its writes fail, all when [None]. *)

Definition EOF : string := "EOF".

Definition write_to (cap : option nat) (b : list byte) : list byte * option nat * option string :=
  match cap with
  | None => (b, None, None)
  | Some n => if (length b <=? n)%nat then (b, Some (n - length b)%nat, None)
              else (take n b, Some 0%nat, Some "write error")
  end.

(** Only a read that returned bytes is written. *)
Definition write_some (cap : option nat) (b : list byte) : list byte * option nat * option string :=
  if (0 <? length b)%nat then write_to cap b else ([], cap, None).

(** What was written, the total reported and the error; [None] when the reads
    given run out without an error: the loop still waits for the source. *)
Fixpoint copyFlush_loop (reads : list (list byte * option string)) (cap : option nat)
    (out : list byte) (total : Z) : option (list byte * Z * option string) :=
  match reads with
  | [] => None
  | (b, err) :: reads =>
      let '(wb, cap', werr) := write_some cap b in
      let out := out ++ wb in
      let total := total + Z.of_nat (length wb) in
      match werr with
      | Some e => Some (out, total, Some e)
      | None =>
          match err with
          | Some e => Some (out, total, if bool_decide (e = EOF) then None else Some e)
          | None => copyFlush_loop reads cap' out total
          end
      end
  end.

Definition copyFlush (reads : list (list byte * option string)) (cap : option nat)
  : option (list byte * Z * option string) := copyFlush_loop reads cap [] 0.

(** ** The broker

    A request is named by a number; [pr_key] is the key of the table. *)

Record p2pPeer := { pr_id : nat; pr_username : string; pr_room : string }.

#[export] Instance p2pPeer_eq_dec : EqDecision p2pPeer.
Proof. solve_decision. Defined.

Definition pr_key (p : p2pPeer) : string := pr_username p +:+ ":" +:+ pr_room p.

Record P2PBroker := { waiting : gmap string p2pPeer; pairs : list (p2pPeer * p2pPeer) }.

Definition NewP2PBroker : P2PBroker := {| waiting := ∅; pairs := [] |}.

Definition p2p_timeout : Z := 60 * second.

Definition respond_status (status : string) (w : response) : response :=
  Flush (SetHeader "X-P2P-Status" status (WriteHeader StatusOK w)).

(** How [Handle] begins: what it decides under the lock, and its response. *)
Inductive p2p_role := Rejected | Waits (self : p2pPeer) | Joins (self peer : p2pPeer).

Definition Handle (b : P2PBroker) (w : response) (r : request) (id : nat) (username : string)
  : P2PBroker * response * p2p_role :=
  let room := Header_Get (r_Header r) "X-P2P-Room" in
  if bool_decide (room = "")
  then (b, http_Error "X-P2P-Room header required" StatusBadRequest w, Rejected)
  else
    let self := {| pr_id := id; pr_username := username; pr_room := room |} in
    match waiting b !! pr_key self with
    | None => ({| waiting := <[pr_key self := self]> (waiting b); pairs := pairs b |},
               respond_status "waiting" w, Waits self)
    | Some peer => ({| waiting := delete (pr_key self) (waiting b);
                       pairs := pairs b ++ [(peer, self)] |},
                    respond_status "connected" w, Joins self peer)
    end.

(** A waiting request ends by disconnection or by the timeout: it removes the
    table entry if that is still its own. *)
Definition leave (b : P2PBroker) (self : p2pPeer) : P2PBroker :=
  if bool_decide (waiting b !! pr_key self = Some self)
  then {| waiting := delete (pr_key self) (waiting b); pairs := pairs b |} else b.

(** The bytes of a joined pair, when both directions have run. *)
Definition relay (reads_self reads_peer : list (list byte * option string)) (cap_self cap_peer : option nat)
  : option (list byte * Z * option string) * option (list byte * Z * option string) :=
  (copyFlush reads_self cap_peer, copyFlush reads_peer cap_self).

(** ** Interleavings *)

Inductive event :=
| Arrive (r : request) (username : string)
| Leave (p : p2pPeer).

(** Requests get increasing numbers. *)
Definition step (s : P2PBroker * nat) (ev : event) : P2PBroker * nat :=
  let '(b, n) := s in
  match ev with
  | Arrive r u => ((Handle b new_response r n u).1.1, S n)
  | Leave p => (leave b p, n)
  end.

Definition run (evs : list event) : P2PBroker * nat := foldl step (NewP2PBroker, 0%nat) evs.

(** ** Lemmas *)

Lemma pr_key_inj p q :
  has_char ":" (pr_username p) = false -> has_char ":" (pr_username q) = false ->
  pr_key p = pr_key q -> pr_username p = pr_username q /\ pr_room p = pr_room q.
Proof.
  intros Hp Hq E. unfold pr_key in E.
  change (":" +:+ pr_room p) with (String ":" (pr_room p)) in E.
  change (":" +:+ pr_room q) with (String ":" (pr_room q)) in E.
  apply (f_equal (Cut ":")) in E. rewrite !Cut_app in E by done. by injection E as -> ->.
Qed.

(** The pairs have one key, and no request is in two places. *)
Definition ids (b : P2PBroker) : list nat :=
  (pr_id <$> (map_to_list (waiting b)).*2) ++ (pairs b ≫= fun pq => [pr_id pq.1; pr_id pq.2]).

Definition consistent (s : P2PBroker * nat) : Prop :=
  let '(b, n) := s in
  (forall k p, waiting b !! k = Some p -> pr_key p = k) /\
  Forall (fun pq => pr_key pq.1 = pr_key pq.2) (pairs b) /\
  NoDup (ids b) /\ Forall (fun i => (i < n)%nat) (ids b).

Lemma ids_delete b k p :
  waiting b !! k = Some p ->
  ids b ≡ₚ pr_id p :: ids {| waiting := delete k (waiting b); pairs := pairs b |}.
Proof.
  intros H. unfold ids. cbn [waiting pairs].
  rewrite <- (map_to_list_delete (waiting b) k p H). done.
Qed.

Lemma consistent_leave b n p : consistent (b, n) -> consistent (leave b p, n).
Proof.
  intros (H1 & H2 & H3 & H4). unfold leave. case_bool_decide as E; [|done].
  pose proof (ids_delete b _ p E) as Hids. rewrite Hids in H3, H4.
  apply NoDup_cons in H3 as [_ H3]. apply Forall_cons in H4 as [_ H4].
  split_and!; cbn; [|done..]. intros k q [_ Hk]%lookup_delete_Some. eauto.
Qed.

Lemma consistent_arrive b n r u :
  consistent (b, n) -> consistent ((Handle b new_response r n u).1.1, S n).
Proof.
  intros (H1 & H2 & H3 & H4). unfold Handle. set (room := Header_Get _ _).
  assert (Hup : Forall (fun i => (i < S n)%nat) (ids b)) by (eapply Forall_impl; [done|]; cbn; lia).
  assert (Hn : n ∉ ids b) by (intros Hin; rewrite Forall_forall in H4; apply H4 in Hin; lia).
  case_bool_decide; [done|]. set (self := {| pr_id := n; pr_username := u; pr_room := room |}).
  destruct (waiting b !! pr_key self) as [peer|] eqn:E; cbn [fst].
  - assert (Hids : ids {| waiting := delete (pr_key self) (waiting b); pairs := pairs b ++ [(peer, self)] |}
      ≡ₚ n :: ids b).
    { rewrite (ids_delete b _ peer E). unfold ids. cbn [waiting pairs].
      rewrite bind_app. cbn. rewrite app_assoc. rewrite !Permutation_app_comm with (l' := [_; _]).
      cbn. apply perm_swap. }
    split_and!; cbn [waiting pairs].
    + intros k q [_ Hk]%lookup_delete_Some. eauto.
    + apply Forall_app. split; [done|]. repeat constructor. cbn. by apply H1.
    + rewrite Hids. by constructor.
    + rewrite Hids. constructor; [lia|done].
  - assert (Hids : ids {| waiting := <[pr_key self := self]> (waiting b); pairs := pairs b |} ≡ₚ n :: ids b).
    { unfold ids. cbn [waiting pairs]. by rewrite map_to_list_insert. }
    split_and!; cbn [waiting pairs].
    + intros k q [[<- <-]|[_ Hk]]%lookup_insert_Some; eauto.
    + done.
    + rewrite Hids. by constructor.
    + rewrite Hids. constructor; [lia|done].
Qed.

Lemma consistent_run evs : consistent (run evs).
Proof.
  unfold run. induction evs as [|ev evs IH] using rev_ind.
  - cbn. split_and!; try constructor. intros k p. by rewrite lookup_empty.
  - rewrite foldl_snoc. destruct (foldl step _ evs) as [b n].
    destruct ev as [r u|p]; [by apply consistent_arrive|by apply consistent_leave].
Qed.

Lemma copyFlush_loop_spec reads cap out total wb tot err :
  copyFlush_loop reads cap out total = Some (wb, tot, err) ->
  exists moved rest, wb = out ++ moved /\ tot = total + Z.of_nat (length moved) /\
    (reads ≫= fst) = moved ++ rest /\
    (err = None -> exists before b after, reads = before ++ (b, Some EOF) :: after /\
       Forall (fun x => x.2 = None) before /\ moved = (before ≫= fst) ++ b).
Proof.
  revert cap out total. induction reads as [|[b e] reads IH]; intros cap out total;
    cbn [copyFlush_loop]; [done|].
  assert (Hw : exists r, b = (write_some cap b).1.1 ++ r /\ ((write_some cap b).2 = None -> r = [])).
  { unfold write_some. destruct (Nat.ltb_spec 0 (length b)).
    - unfold write_to. destruct cap as [n|]; [|exists []; by rewrite app_nil_r].
      destruct (Nat.leb_spec (length b) n); [exists []; by rewrite app_nil_r|].
      exists (drop n b). cbn. by rewrite take_drop.
    - exists []. destruct b; [done|cbn in *; lia]. }
  change (((b, e) :: reads) ≫= fst) with (b ++ (reads ≫= fst)).
  destruct (write_some cap b) as [[wb' cap'] werr]. destruct Hw as (r & Hb & Hr). cbn in Hb, Hr.
  destruct werr as [we|].
  { intros [= <- <- <-]. exists wb', (r ++ (reads ≫= fst)). subst b. rewrite app_assoc.
    split_and!; done. }
  rewrite (Hr eq_refl), app_nil_r in Hb. subst wb'. destruct e as [e|].
  - intros [= <- <- <-]. exists b, (reads ≫= fst). split_and!; try done.
    case_bool_decide; [|done]. subst. intros _. exists [], b, reads. by split_and!.
  - intros H. apply IH in H as (moved & rest & -> & -> & Hm & He). exists (b ++ moved), rest.
    rewrite Hm, !app_assoc. split_and!; try done; [rewrite length_app; lia|].
    intros Hn. destruct (He Hn) as (before & b' & after & -> & Hbf & ->).
    exists ((b, None) :: before), b', after. split_and!; [done|by constructor|].
    cbn. by rewrite app_assoc.
Qed.

(** ** Properties *)

(** C30: streams are joined in pairs of the same user and room.  In every
    interleaving of arrivals and departures, and with user names without a
    colon, the two requests of a pair name the same user and the same room; no
    request is in two pairs, nor in a pair and still in the table. *)
Theorem p2p_pairing (evs : list event) (p q : p2pPeer)
  (Hin : (p, q) ∈ pairs (run evs).1)
  (Hp : has_char ":" (pr_username p) = false) (Hq : has_char ":" (pr_username q) = false) :
  pr_username p = pr_username q /\ pr_room p = pr_room q /\ NoDup (ids (run evs).1).
Proof.
  pose proof (consistent_run evs) as H. destruct (run evs) as [b n].
  destruct H as (_ & H2 & H3 & _). rewrite Forall_forall in H2. apply H2 in Hin. cbn in Hin.
  destruct (pr_key_inj p q Hp Hq Hin). done.
Qed.

(** The copy loop moves a prefix, and reports it.  Whatever the reads and
    wherever the writes start to fail, what reached the destination is a prefix
    of what was read and the total is its length; without an error the source
    ended with EOF and everything before it arrived. *)
Theorem copyFlush_spec (reads : list (list byte * option string)) (cap : option nat)
    (out : list byte) (total : Z) (err : option string)
  (H : copyFlush reads cap = Some (out, total, err)) :
  total = Z.of_nat (length out) /\ (exists rest, reads ≫= fst = out ++ rest) /\
  (err = None -> exists before b after, reads = before ++ (b, Some EOF) :: after /\
     Forall (fun x => x.2 = None) before /\ out = (before ≫= fst) ++ b).
Proof.
  apply copyFlush_loop_spec in H as (moved & rest & -> & -> & Hm & He). cbn.
  split_and!; eauto.
Qed.

(** The status header of the broker never leaves.  [Handle] sets
    X-P2P-Status after it has written the response header, so that no client
    of a room is told whether it waits or is connected, whatever the request. *)
Theorem p2p_status_not_sent (b : P2PBroker) (r : request) (id : nat) (u : string) :
  let '(_, w, role) := Handle b new_response r id u in
  Header_Get (w_sent w) "X-P2P-Status" = "" /\
  final_status w = match role with Rejected => StatusBadRequest | _ => StatusOK end.
Proof.
  unfold Handle. case_bool_decide; [done|].
  by destruct (waiting b !! _).
Qed.

Definition ex_room : request :=
  {| r_Method := MethodConnect; r_Host := "_p2p"; r_URLHost := ""; r_Path := ""; r_Query := ∅;
     r_Header := Header_Set ∅ "X-P2P-Room" "lan"; r_RemoteAddr := "192.0.2.9:9"; r_ProtoMajor := 2 |}.
Definition ex_events : list event :=
  [Arrive ex_room "ann"; Arrive ex_room "bob"; Arrive ex_room "ann"].
Definition ex_peer (id : nat) : p2pPeer := {| pr_id := id; pr_username := "ann"; pr_room := "lan" |}.

Lemma p2p_pairing_witness :
  (ex_peer 0, ex_peer 2) ∈ pairs (run ex_events).1 /\ NoDup (ids (run ex_events).1).
Proof.
  assert (Hin : (ex_peer 0, ex_peer 2) ∈ pairs (run ex_events).1).
  { assert (E : pairs (run ex_events).1 = [(ex_peer 0, ex_peer 2)]) by (vm_compute; reflexivity).
    rewrite E. constructor. }
  split; [exact Hin|].
  apply (p2p_pairing ex_events (ex_peer 0) (ex_peer 2) Hin); reflexivity.
Defined.

Lemma copyFlush_spec_witness :
  exists out total, copyFlush [(bytes_of "ab", None); (bytes_of "c", Some EOF)] None
      = Some (out, total, None) /\ total = Z.of_nat (length out).
Proof.
  eexists. eexists. split; [reflexivity|].
  apply (copyFlush_spec [(bytes_of "ab", None); (bytes_of "c", Some EOF)] None _ _ None).
  reflexivity.
Defined.
