(* ===== verification/Server.v ===== *)
(** internal/server/server.go, tls.go, quic.go and system.go: private address
    ranges, certificates, the routing of requests to the VPN handler, the
    assembly of the servers, the reload on SIGHUP, the QUIC settings. *)
From S2P Require Import Prelude GoStrings GoEncoding GoNet GoHttp GoOS Config ConnTracker Listener.
#[local] Open Scope Z_scope.

(** ** Private addresses *)

Definition private_cidrs : list string :=
  ["10.0.0.0/8"; "172.16.0.0/12"; "192.168.0.0/16"; "127.0.0.0/8"; "::1/128"; "fc00::/7";
   "fe80::/10"; "169.254.0.0/16"].

Definition privateBlocks : list IPNet :=
  omap (fun c => match ParseCIDR c with Ok (_, b) => Some b | Err _ => None end) private_cidrs.

Definition IsPrivateIP (ip : IP) : bool := existsb (fun b => IPNet_Contains b ip) privateBlocks.

(** ** tls.go *)

Section tls.
(** A certificate, and crypto/tls reading a pair of files. *)
Context {Cert : Type}.
Variable LoadX509KeyPair : string -> string -> res Cert.

Record TLSManager := { certs : gmap string Cert }.

Definition NewTLSManager : TLSManager := {| certs := ∅ |}.

Fixpoint load_certs (hosts : list TLSHost) (m : gmap string Cert) : res (gmap string Cert) :=
  match hosts with
  | [] => Ok m
  | h :: hosts =>
      c ← wrap_err ("load cert for " +:+ Hostname h +:+ ": ")
            (LoadX509KeyPair (CertChainPath h) (PrivateKeyPath h));
      load_certs hosts (<[Hostname h := c]> m)
  end.

Definition TLSManager_Load (m : TLSManager) (hosts : list TLSHost) : TLSManager * option string :=
  match load_certs hosts ∅ with
  | Ok cs => ({| certs := cs |}, None)
  | Err e => (m, Some e)
  end.

(** An unknown name gets the first certificate of the map's iteration. *)
Definition GetCertificate {UT : UnicodeTables} (m : TLSManager) (serverName : string) : res Cert :=
  match certs m !! serverName with
  | Some c => Ok c
  | None => match (map_to_list (certs m)).*2 with
            | c :: _ => Ok c
            | [] => Err ("no certificate for " +:+ Quote serverName)
            end
  end.
End tls.
Arguments TLSManager : clear implicits.

(** ** quic.go *)

Record QuicConf := {
  MaxIdleTimeout : Z;
  InitialStreamReceiveWindow : Z;
  MaxStreamReceiveWindow : Z;
  InitialConnectionReceiveWindow : Z;
  MaxConnectionReceiveWindow : Z;
  MaxIncomingStreams : Z;
  MaxIncomingUniStreams : Z;
  Allow0RTT : bool;
  DisablePathMTUDiscovery : bool;
}.

Definition quic_default : QuicConf := {|
  MaxIdleTimeout := 2 * (30 + 7) * second;
  InitialStreamReceiveWindow := 1048576;
  MaxStreamReceiveWindow := 16777216;
  InitialConnectionReceiveWindow := 104857600;
  MaxConnectionReceiveWindow := 25165824;
  MaxIncomingStreams := 4096;
  MaxIncomingUniStreams := 4096;
  Allow0RTT := true;
  DisablePathMTUDiscovery := false;
|}.

Definition positive_or (n d : Z) : Z := if 0 <? n then n else d.

Definition buildQUICConfig (q : option QUICConfig) : QuicConf :=
  let d := quic_default in
  match q with
  | None => d
  | Some q => {|
      MaxIdleTimeout := MaxIdleTimeout d;
      InitialStreamReceiveWindow :=
        positive_or (InitialMaxStreamDataBidiRemote q) (InitialStreamReceiveWindow d);
      MaxStreamReceiveWindow := positive_or (MaxStreamWindow q) (MaxStreamReceiveWindow d);
      InitialConnectionReceiveWindow :=
        positive_or (InitialMaxData q) (InitialConnectionReceiveWindow d);
      MaxConnectionReceiveWindow := positive_or (MaxConnectionWindow q) (MaxConnectionReceiveWindow d);
      MaxIncomingStreams := positive_or (InitialMaxStreamsBidi q) (MaxIncomingStreams d);
      MaxIncomingUniStreams := positive_or (InitialMaxStreamsUni q) (MaxIncomingUniStreams d);
      Allow0RTT := EnableEarlyData q;
      DisablePathMTUDiscovery := DisablePathMTUDiscovery d;
    |}
  end.

(** ** Routing

    http.ServeMux with the one pattern of the root: a path that is not clean is
    redirected (the query of the Location is left out), the others reach the
    handler. *)

Fixpoint clean_parts (stack : list string) (parts : list string) : list string :=
  match parts with
  | [] => rev stack
  | p :: parts =>
      if bool_decide (p = "") || bool_decide (p = ".") then clean_parts stack parts
      else if bool_decide (p = "..") then clean_parts (tail stack) parts
      else clean_parts (p :: stack) parts
  end.

Definition cleanPath (p : string) : string :=
  if bool_decide (p = "") then "/"
  else
    let p := if HasPrefix p "/" then p else "/" +:+ p in
    let np := "/" +:+ Join "/" (clean_parts [] (Split "/" p)) in
    if HasSuffix p "/" && bool_decide (np <> "/") then np +:+ "/" else np.

Definition ServeMux_root {W} (h : handler W) : handler W := fun w r resp =>
  if bool_decide (r_Path r = "*") then (w, WriteHeader StatusBadRequest resp)
  else if bool_decide (cleanPath (r_Path r) <> r_Path r)
  then (w, WriteHeader StatusTemporaryRedirect (SetHeader "Location" (cleanPath (r_Path r)) resp))
  else h w r resp.

(** The host of a request without its port. *)
Definition request_host (r : request) : string :=
  match SplitHostPort (r_Host r) with Ok (h, _) => h | Err _ => r_Host r end.

Definition buildMux {W} (hosts : HostsConfig) (vpn : handler W) : handler W :=
  let pingSet : gset string := list_to_set (Hostname <$> PingHosts hosts) in
  let root : handler W := fun w r resp =>
    if bool_decide (request_host r ∈ pingSet) && bool_decide (r_Method r = MethodGet)
    then (w, WriteHeader StatusOK resp)
    else vpn w r resp in
  fun w r resp =>
    if bool_decide (r_Method r = MethodConnect) then vpn w r resp
    else ServeMux_root root w r resp.

(** ** The server *)

Record TLSConf := { MinVersion : Z; NextProtos : list string }.

Definition VersionTLS12 : Z := 0x0303.

Definition buildTLSConfig (cfg : Config) : TLSConf :=
  let np := ["h2"; "http/1.1"] in
  {| MinVersion := VersionTLS12;
     NextProtos := match QUIC (cfg_ListenProtocols cfg) with
                   | Some _ => ["h3"] ++ np
                   | None => np
                   end |}.

Record H2Opts := {
  MaxUploadBufferPerStream : Z;
  MaxConcurrentStreams_ : Z;
  MaxReadFrameSize : Z;
}.

(** The conversions to int32 and uint32 wrap. *)
Definition h2_options (h2 : option HTTP2Config) : H2Opts :=
  match h2 with
  | None => {| MaxUploadBufferPerStream := 131072; MaxConcurrentStreams_ := 1000; MaxReadFrameSize := 0 |}
  | Some c => {|
      MaxUploadBufferPerStream :=
        if 0 <? InitialStreamWindowSize c then i32 (InitialStreamWindowSize c) else 131072;
      MaxConcurrentStreams_ :=
        if 0 <? MaxConcurrentStreams c then u32 (MaxConcurrentStreams c) else 1000;
      MaxReadFrameSize := if 0 <? MaxFrameSize c then u32 (MaxFrameSize c) else 0;
    |}
  end.

Section server.
Context {W Cert : Type} {UT : UnicodeTables}.
Variable LoadX509KeyPair : string -> string -> res Cert.
(** toml.DecodeFile of the hosts file. *)
Variable toml_hosts : string -> res HostsConfig.

Record h2server := { h2_Handler : handler W; h2_opts : H2Opts; h2_tls : TLSConf; h2_IdleTimeout : Z }.
Record h3server := { h3_Handler : handler W; h3_tls : TLSConf; h3_quic : QuicConf }.

Record Server := {
  s_cfg : Config;
  s_hostsPath : string;
  s_tlsMgr : TLSManager Cert;
  s_mainMux : handler W;
  s_vpnHandler : handler W;
  s_h2srv : option h2server;
  s_h3srv : option h3server;
}.

Definition New (cfg : Config) (f : fs) (hostsPath : string) (vpn : handler W) : res Server :=
  hosts ← LoadHosts toml_hosts f hostsPath;
  match TLSManager_Load LoadX509KeyPair NewTLSManager (MainHosts hosts) with
  | (_, Some e) => Err e
  | (mgr, None) =>
      Ok {| s_cfg := cfg; s_hostsPath := hostsPath; s_tlsMgr := mgr; s_mainMux := buildMux hosts vpn;
            s_vpnHandler := vpn; s_h2srv := None; s_h3srv := None |}
  end.

Definition startHTTP2 (s : Server) (tls : TLSConf) (h : handler W) (configure listen : option string)
  : res Server :=
  let srv := {| h2_Handler := h; h2_opts := h2_options (HTTP2 (cfg_ListenProtocols (s_cfg s)));
                h2_tls := tls; h2_IdleTimeout := ClientListenerTimeoutSecs (s_cfg s) * second |} in
  match configure, listen with
  | Some e, _ => Err ("configure http2: " +:+ e)
  | None, Some e => Err ("listen: " +:+ e)
  | None, None => Ok {| s_cfg := s_cfg s; s_hostsPath := s_hostsPath s; s_tlsMgr := s_tlsMgr s;
                        s_mainMux := s_mainMux s; s_vpnHandler := s_vpnHandler s;
                        s_h2srv := Some srv; s_h3srv := s_h3srv s |}
  end.

Definition startHTTP3 (s : Server) (tls : TLSConf) (h : handler W) : Server :=
  {| s_cfg := s_cfg s; s_hostsPath := s_hostsPath s; s_tlsMgr := s_tlsMgr s;
     s_mainMux := s_mainMux s; s_vpnHandler := s_vpnHandler s; s_h2srv := s_h2srv s;
     s_h3srv := Some {| h3_Handler := h; h3_tls := tls;
                        h3_quic := buildQUICConfig (QUIC (cfg_ListenProtocols (s_cfg s))) |} |}.

(** The port of the listen address, 443 when there is none. *)
Definition listen_port (cfg : Config) : string :=
  match SplitHostPort (ListenAddress cfg) with
  | Ok (_, p) => if bool_decide (p = "") then "443" else p
  | Err _ => "443"
  end.

(** [Run] up to the wait; the two errors are what the system answers. *)
Definition Run (s : Server) (configure listen : option string) : res Server :=
  let quic := QUIC (cfg_ListenProtocols (s_cfg s)) in
  let h := match quic with
           | Some _ => WrapHandler (s_mainMux s) (":" +:+ listen_port (s_cfg s))
           | None => s_mainMux s
           end in
  let tls := buildTLSConfig (s_cfg s) in
  s ← startHTTP2 s tls h configure listen;
  Ok (match quic with Some _ => startHTTP3 s tls h | None => s end).

(** One turn of [sighupLoop]. *)
Definition sighup (s : Server) (f : fs) : Server :=
  match LoadHosts toml_hosts f (s_hostsPath s) with
  | Err _ => s
  | Ok hosts =>
      match TLSManager_Load LoadX509KeyPair (s_tlsMgr s) (MainHosts hosts) with
      | (_, Some _) => s
      | (mgr, None) =>
          let mux := buildMux hosts (s_vpnHandler s) in
          {| s_cfg := s_cfg s; s_hostsPath := s_hostsPath s; s_tlsMgr := mgr; s_mainMux := mux;
             s_vpnHandler := s_vpnHandler s;
             s_h2srv := (fun h => {| h2_Handler := mux; h2_opts := h2_opts h; h2_tls := h2_tls h;
                                     h2_IdleTimeout := h2_IdleTimeout h |}) <$> s_h2srv s;
             s_h3srv := s_h3srv s |}
      end
  end.
End server.
Arguments Server : clear implicits.
Arguments h2server : clear implicits.
Arguments h3server : clear implicits.

(** ** system.go: the figures the tracker gives *)

Definition gather_counts (t : ConnTracker) : Z * Z :=
  (foldr (fun kv n => Z.of_nat kv.2 + n) 0 (map_to_list (ActiveUsers t)),
   Z.of_nat (size (ActiveUsers t))).

(** ** Lemmas *)

(** The certificate of a name after a load: that of its last entry. *)
Lemma load_certs_spec {Cert} (pair : string -> string -> res Cert) hosts m cs :
  load_certs pair hosts m = Ok cs ->
  forall name, cs !! name =
    match last (filter (fun h => Hostname h = name) hosts) with
    | Some h => res_opt (pair (CertChainPath h) (PrivateKeyPath h))
    | None => m !! name
    end.
Proof.
  revert m. induction hosts as [|h hosts IH]; intros m; cbn [load_certs].
  { by intros [= <-]. }
  destruct (pair (CertChainPath h) (PrivateKeyPath h)) as [c|] eqn:Ec; [|done]. cbn.
  intros H name. rewrite (IH _ H name).
  destruct (decide (Hostname h = name)) as [<-|Hne].
  - rewrite lookup_insert_eq, last_cons. destruct (last (filter _ hosts)); [done|]. by rewrite Ec.
  - by rewrite lookup_insert_ne.
Qed.

(** The blocks, as [ParseCIDR] builds them. *)
Lemma privateBlocks_eq :
  privateBlocks =
  [ block_of [x0a; x00; x00; x00] 8; block_of [xac; x10; x00; x00] 12;
    block_of [xc0; xa8; x00; x00] 16; block_of [x7f; x00; x00; x00] 8;
    block_of (replicate 15 x00 ++ [x01]) 128; block_of (xfc :: replicate 15 x00) 7;
    block_of (xfe :: x80 :: replicate 14 x00) 10; block_of [xa9; xfe; x00; x00] 16 ].
Proof. vm_compute. reflexivity. Qed.

Lemma first_bits_8 a b c d : first_bits 8 [a; b; c; d] = bval a.
Proof.
  unfold first_bits, be_val. cbn. pose proof (bval_range b). pose proof (bval_range c).
  pose proof (bval_range d). change (2 ^ 24) with 16777216. dlia.
Qed.
Lemma first_bits_12 a b c d : first_bits 12 [a; b; c; d] = bval a * 16 + bval b / 16.
Proof.
  unfold first_bits, be_val. cbn. pose proof (bval_range b). pose proof (bval_range c).
  pose proof (bval_range d). change (2 ^ 20) with 1048576. dlia.
Qed.
Lemma first_bits_16 a b c d : first_bits 16 [a; b; c; d] = bval a * 256 + bval b.
Proof.
  unfold first_bits, be_val. cbn. pose proof (bval_range b). pose proof (bval_range c).
  pose proof (bval_range d). change (2 ^ 16) with 65536. dlia.
Qed.

Lemma first_bits_v6_7 a b rest :
  length rest = 14%nat -> first_bits 7 (a :: b :: rest) = bval a / 2.
Proof.
  intros Hl. unfold first_bits. rewrite !be_val_cons. cbn [length]. rewrite Hl.
  pose proof (be_val_range rest) as Hr. rewrite Hl in Hr. pose proof (bval_range b).
  change (256 ^ Z.of_nat 14) with (256 ^ 14) in *. change (256 ^ Z.of_nat 15) with (256 * 256 ^ 14).
  change (2 ^ (8 * Z.of_nat 16 - Z.of_nat 7)) with (2 * (256 * 256 ^ 14)).
  change (256 ^ Z.of_nat (S 14)) with (256 * 256 ^ 14).
  change (256 ^ 14) with 5192296858534827628530496329220096 in *. dlia.
Qed.

Lemma first_bits_v6_10 a b rest :
  length rest = 14%nat -> first_bits 10 (a :: b :: rest) = bval a * 4 + bval b / 64.
Proof.
  intros Hl. unfold first_bits. rewrite !be_val_cons. cbn [length]. rewrite Hl.
  pose proof (be_val_range rest) as Hr. rewrite Hl in Hr. pose proof (bval_range b).
  change (256 ^ Z.of_nat 14) with (256 ^ 14) in *.
  change (2 ^ (8 * Z.of_nat 16 - Z.of_nat 10)) with (64 * 256 ^ 14).
  change (256 ^ Z.of_nat (S 14)) with (256 * 256 ^ 14).
  change (256 ^ 14) with 5192296858534827628530496329220096 in *. dlia.
Qed.

Lemma first_bits_v6_128 ip : length ip = 16%nat -> first_bits 128 ip = be_val ip.
Proof. intros Hl. unfold first_bits. rewrite Hl. apply Z.div_1_r. Qed.

(** ** Properties *)

(** Which addresses the endpoint calls private.  An address with an IPv4
    form is private exactly in 10/8, 172.16/12, 192.168/16, 127/8 and
    169.254/16; any other address exactly when it has 16 bytes and is ::1, in
    fc00::/7 or in fe80::/10.  The unspecified addresses are not private. *)
Theorem IsPrivateIP_iff (ip : IP) :
  IsPrivateIP ip = true <->
  match To4 ip with
  | Some v4 =>
      let a := bval (nth 0 v4 x00) in let b := bval (nth 1 v4 x00) in
      a = 10 \/ (a = 172 /\ 16 <= b <= 31) \/ (a = 192 /\ b = 168) \/ a = 127 \/ (a = 169 /\ b = 254)
  | None =>
      let a := bval (nth 0 ip x00) in let b := bval (nth 1 ip x00) in
      length ip = 16%nat /\ (be_val ip = 1 \/ 0xfc <= a <= 0xfd \/ (a = 0xfe /\ 0x80 <= b <= 0xbf))
  end.
Proof.
  unfold IsPrivateIP. rewrite privateBlocks_eq. cbn [existsb].
  rewrite !(Contains_v4 [_; _; _; _]) by (done || lia).
  rewrite !Contains_v6 by (try (vm_compute; reflexivity); lia).
  destruct (To4 ip) as [v4|] eqn:E4.
  - apply To4_length in E4. destruct v4 as [|a [|b [|c [|d [|]]]]]; try done. cbn [nth].
    rewrite !first_bits_8, !first_bits_12, !first_bits_16.
    rewrite !orb_true_iff, !Z.eqb_eq. cbn [bval Byte.to_N].
    change (bval x0a) with 10. change (bval xac) with 172. change (bval x10) with 16.
    change (bval xc0) with 192. change (bval xa8) with 168. change (bval x7f) with 127.
    change (bval xa9) with 169. change (bval xfe) with 254.
    pose proof (bval_range a). pose proof (bval_range b).
    split; [intros H'; repeat destruct H' as [H'|H']; try done; dlia | intros H'; dlia].
  - cbn [orb]. destruct (Nat.eqb_spec (length ip) 16) as [Hl|Hl]; cbn [andb orb].
    2: { split; [done|tauto]. }
    destruct ip as [|a [|b rest]]; try done. cbn [nth].
    assert (Hr : length rest = 14%nat) by (cbn in Hl; lia).
    change (replicate 15 x00 ++ [x01]) with (x00 :: replicate 14 x00 ++ [x01]).
    rewrite !first_bits_v6_128 by done. cbn [replicate].
    rewrite !first_bits_v6_7, !first_bits_v6_10 by done.
    rewrite !orb_true_iff, !Z.eqb_eq.
    change (bval xfc) with 252. change (bval xfe) with 254. change (bval x80) with 128.
    change (be_val _) with 1 at 1.
    pose proof (bval_range a). pose proof (bval_range b).
    split.
    + intros H'. split; [done|]. destruct H' as [E|[E|[E|E]]]; [lia|dlia|dlia|done].
    + intros [_ [E|[E|E]]]; [left; lia|right; left; dlia|right; right; left; dlia].
Qed.

Lemma TLSManager_Load_Ok {Cert} (pair : string -> string -> res Cert) m hosts m' :
  TLSManager_Load pair m hosts = (m', None) -> load_certs pair hosts ∅ = Ok (certs m').
Proof. unfold TLSManager_Load. destruct (load_certs pair hosts ∅); by intros [= <-]. Qed.

(** A load that succeeds has read every pair of the list. *)
Lemma load_certs_pairs {Cert} (pair : string -> string -> res Cert) hosts m cs h :
  load_certs pair hosts m = Ok cs -> h ∈ hosts ->
  exists c, pair (CertChainPath h) (PrivateKeyPath h) = Ok c.
Proof.
  intros Hl Hh. revert m Hl. induction Hh as [h hs|h x hs _ IH]; intros m; cbn.
  - destruct (pair _ _); [eauto|done].
  - destruct (pair (CertChainPath x) (PrivateKeyPath x)); [|done]. cbn. apply IH.
Qed.

Lemma last_filter_elem {A} (P : A -> Prop) `{forall x, Decision (P x)} l x :
  last (filter P l) = Some x -> x ∈ l /\ P x.
Proof. intros E. apply last_Some_elem_of, list_elem_of_filter in E. tauto. Qed.

(** The loaded map: its keys are the listed names, its values listed pairs. *)
Lemma load_certs_lookup {Cert} (pair : string -> string -> res Cert) hosts cs name :
  load_certs pair hosts ∅ = Ok cs ->
  match cs !! name with
  | Some c => exists h, h ∈ hosts /\ pair (CertChainPath h) (PrivateKeyPath h) = Ok c
  | None => Forall (fun h => Hostname h <> name) hosts
  end.
Proof.
  intros Hl. rewrite (load_certs_spec _ _ _ _ Hl name).
  destruct (last (filter _ hosts)) as [h|] eqn:E.
  - apply last_filter_elem in E as [Hh _]. destruct (load_certs_pairs _ _ _ _ _ Hl Hh) as [c Hc].
    rewrite Hc. cbn. eauto.
  - rewrite lookup_empty. apply last_None in E. apply Forall_forall. intros h Hh Hn.
    assert (Hf : h ∈ filter (fun x => Hostname x = name) hosts) by (by apply list_elem_of_filter).
    rewrite E in Hf. by apply not_elem_of_nil in Hf.
Qed.

(** Certificates are replaced all at once or not at all.  A load that
    fails on any host leaves the manager as it was.  After one that succeeds, a
    name of the list is served the pair of its last entry, every other name
    some listed certificate, and there is an error exactly when the list is
    empty. *)
Theorem TLSManager_Load_spec {Cert} {UT : UnicodeTables} (pair : string -> string -> res Cert)
    (m m' : TLSManager Cert) (hosts : list TLSHost) (err : option string)
  (Hload : TLSManager_Load pair m hosts = (m', err)) :
  match err with
  | Some _ => m' = m
  | None =>
      (forall name h, last (filter (fun h => Hostname h = name) hosts) = Some h ->
         GetCertificate m' name = pair (CertChainPath h) (PrivateKeyPath h)) /\
      (forall name c, GetCertificate m' name = Ok c ->
         exists h, h ∈ hosts /\ pair (CertChainPath h) (PrivateKeyPath h) = Ok c) /\
      (forall name, is_ok (GetCertificate m' name) = false <-> hosts = [])
  end.
Proof.
  destruct err as [e|].
  { revert Hload. unfold TLSManager_Load. by destruct (load_certs pair hosts ∅); intros [= <- _]. }
  apply TLSManager_Load_Ok in Hload as Hl.
  pose proof (fun n => load_certs_lookup _ _ _ n Hl) as Hin. unfold GetCertificate. split_and!.
  - intros name h Hh. apply last_filter_elem in Hh as Hmem.
    rewrite (load_certs_spec _ _ _ _ Hl name), Hh.
    destruct (load_certs_pairs _ _ _ _ h Hl) as [c ->]; tauto.
  - intros name c. pose proof (Hin name) as Hn. destruct (certs m' !! name) as [c'|].
    + by intros [= <-].
    + destruct (map_to_list (certs m')) as [|[n c'] l] eqn:El; [done|]. cbn. intros [= <-].
      assert (Hc : certs m' !! n = Some c') by (apply elem_of_map_to_list; rewrite El; constructor).
      pose proof (Hin n) as H'. by rewrite Hc in H'.
  - intros name. split.
    + destruct (certs m' !! name); [done|].
      destruct (map_to_list (certs m')) as [|[n c] l] eqn:El; [|done]. intros _.
      apply map_to_list_empty_iff in El. destruct hosts as [|h hs]; [done|]. exfalso.
      pose proof (Hin (Hostname h)) as Hx. rewrite El, lookup_empty in Hx.
      by apply Forall_cons in Hx as [Hx _].
    + intros ->. cbn in Hl. injection Hl as <-. by rewrite lookup_empty, map_to_list_empty.
Qed.

(** A reload drops the HTTP/3 advertisement.  On a server that runs with
    QUIC, CONNECT requests reach the VPN handler with Alt-Svc set; after a
    SIGHUP that reloads hosts and certificates they reach it without, and the
    HTTP/3 server keeps the handler of the old hosts. *)
Theorem sighup_drops_alt_svc {W Cert} (pair : string -> string -> res Cert)
    (toml_hosts : string -> res HostsConfig) (s s1 : Server W Cert) (f : fs)
    (hosts : HostsConfig) (mgr : TLSManager Cert) (q : QUICConfig)
    (w : W) (r : request) (resp : response)
  (Hquic : QUIC (cfg_ListenProtocols (s_cfg s)) = Some q)
  (Hmux : exists hosts0, s_mainMux s = buildMux hosts0 (s_vpnHandler s))
  (Hrun : Run s None None = Ok s1)
  (Hhosts : LoadHosts toml_hosts f (s_hostsPath s) = Ok hosts)
  (Hcerts : TLSManager_Load pair (s_tlsMgr s) (MainHosts hosts) = (mgr, None))
  (Hconnect : r_Method r = MethodConnect) :
  let s2 := sighup pair toml_hosts s1 f in
  let alt := "h3=" +:+ String dq ((":" +:+ listen_port (s_cfg s)) +:+ String dq "; ma=86400") in
  exists h1 h2, s_h2srv s1 = Some h1 /\ s_h2srv s2 = Some h2 /\
    h2_Handler h1 w r resp = s_vpnHandler s w r (SetHeader "Alt-Svc" alt resp) /\
    h2_Handler h2 w r resp = s_vpnHandler s w r resp /\
    s_h3srv s2 = s_h3srv s1 /\ certs (s_tlsMgr s2) = certs mgr.
Proof.
  unfold Run in Hrun. rewrite Hquic in Hrun. cbn in Hrun. injection Hrun as <-.
  unfold sighup. cbn [startHTTP3 s_hostsPath s_tlsMgr s_vpnHandler s_h2srv s_h3srv].
  rewrite Hhosts, Hcerts. cbn [s_h2srv s_h3srv s_tlsMgr fmap option_fmap option_map].
  destruct Hmux as [hosts0 ->].
  eexists _, _. split_and!; try reflexivity; cbn [h2_Handler]; unfold WrapHandler, buildMux.
  - rewrite bool_decide_false by done. by rewrite bool_decide_true.
  - by rewrite bool_decide_true.
Qed.

(** A small configuration with QUIC, two hosts files and certificates that are
    named by their paths. *)
Definition ex_quic : QUICConfig :=
  {| RecvUDPPayloadSize := 0; SendUDPPayloadSize := 0; InitialMaxData := 0;
     InitialMaxStreamDataBidiLocal := 0; InitialMaxStreamDataBidiRemote := 0;
     InitialMaxStreamDataUni := 0; InitialMaxStreamsBidi := 0; InitialMaxStreamsUni := 0;
     MaxConnectionWindow := 0; MaxStreamWindow := 0; DisableActiveMigration := false;
     EnableEarlyData := false; MessageQueueCapacity := 0 |}.
Definition ex_cfg : Config := defaults
  {| ListenAddress := "0.0.0.0:8443"; IPv6Available := false; AllowPrivateNet := false;
     TLSHandshakeTimeoutSecs := 0; ClientListenerTimeoutSecs := 0;
     ConnectionEstablishTimeoutSecs := 0; TCPConnectionsTimeoutSecs := 0;
     UDPConnectionsTimeoutSecs := 0; CredentialsFile := ""; RulesFile := "";
     AuthFailureStatusCode := 0; StoreType := ""; StoreDSN := ""; CacheTTLSecs := 0;
     cfg_ListenProtocols := {| HTTP1 := None; HTTP2 := None; QUIC := Some ex_quic |};
     cfg_ForwardProtocol := {| Direct := None; SOCKS5 := None |};
     cfg_ICMP := None; cfg_Metrics := None; cfg_Admin := None |}.
Definition ex_host (n : string) : TLSHost :=
  {| Hostname := n; CertChainPath := n +:+ ".crt"; PrivateKeyPath := n +:+ ".key" |}.
Definition ex_hosts : HostsConfig :=
  {| MainHosts := [ex_host "a"; ex_host "b"]; PingHosts := [ex_host "ping"];
     SpeedtestHosts := []; ReverseProxyHosts := [] |}.
Definition ex_pair (c k : string) : res string := Ok (c +:+ "+" +:+ k).
#[local] Instance ex_tables : UnicodeTables := {| uni_IsPrint := fun _ => false |}.

Lemma TLSManager_Load_spec_witness :
  exists m', TLSManager_Load ex_pair NewTLSManager (MainHosts ex_hosts) = (m', None) /\
    GetCertificate m' "b" = Ok "b.crt+b.key".
Proof.
  eexists. split; [reflexivity|].
  exact (proj1 (TLSManager_Load_spec ex_pair NewTLSManager _ (MainHosts ex_hosts) None eq_refl)
    "b" (ex_host "b") eq_refl).
Defined.

Definition ex_fs : fs := {| fs_files := {[ "hosts.toml" := "" ]}; fs_locked := ∅; fs_full := ∅ |}.
Definition ex_vpn : handler nat := fun w _ resp => (S w, WriteHeader StatusOK resp).
Definition ex_server : Server nat string :=
  {| s_cfg := ex_cfg; s_hostsPath := "hosts.toml"; s_tlsMgr := NewTLSManager;
     s_mainMux := buildMux ex_hosts ex_vpn; s_vpnHandler := ex_vpn; s_h2srv := None; s_h3srv := None |}.
Definition ex_connect : request :=
  {| r_Method := MethodConnect; r_Host := "example.org:443"; r_URLHost := ""; r_Path := "";
     r_Query := ∅; r_Header := ∅; r_RemoteAddr := "192.0.2.9:9"; r_ProtoMajor := 2 |}.

Definition ex_running : Server nat string :=
  match Run ex_server None None with Ok s => s | Err _ => ex_server end.

Lemma sighup_drops_alt_svc_witness :
  Run ex_server None None = Ok ex_running /\
  exists h2, s_h2srv (sighup ex_pair (fun _ => Ok ex_hosts) ex_running ex_fs) = Some h2 /\
    h2_Handler h2 0%nat ex_connect new_response = ex_vpn 0%nat ex_connect new_response.
Proof.
  split; [reflexivity|].
  destruct (sighup_drops_alt_svc ex_pair (fun _ => Ok ex_hosts) ex_server ex_running ex_fs ex_hosts
    (TLSManager_Load ex_pair NewTLSManager (MainHosts ex_hosts)).1 ex_quic 0%nat ex_connect new_response)
    as (h1 & h2 & _ & H2 & _ & H3 & _).
  - reflexivity.
  - exists ex_hosts. reflexivity.
  - reflexivity.
  - reflexivity.
  - reflexivity.
  - reflexivity.
  - exists h2. split; [exact H2 | exact H3].
Defined.
