(* ===== verification/Proxy.v ===== *)
(** internal/proxy/handler.go and http1.go: the CONNECT handler.  It admits a
    request (revocation, credentials, account state, device limit, rules),
    routes it by its target, and opens the tunnels. *)
From stdpp Require Import gmultiset.
From S2P Require Import Prelude GoStrings GoEncoding GoNet GoHttp GoIO AuthStore ConnTracker Listener.
From S2P Require Auth Rules Udp Icmp P2P Server.
#[local] Open Scope Z_scope.

Definition pseudoHostUDP : string := "_udp2".
Definition pseudoHostICMP : string := "_icmp".
Definition pseudoHostCheck : string := "_check".
Definition pseudoHostP2P : string := "_p2p".

Record Options := {
  AllowPrivateNet : bool;
  ConnectTimeoutSecs : Z;
  TCPIdleTimeoutSecs : Z;
  AuthFailureCode : Z;
}.

(** The timeout of the dialer that [New] builds, in nanoseconds. *)
Definition dial_timeout (o : Options) : Z :=
  let t := ConnectTimeoutSecs o * second in if t =? 0 then 30 * second else t.

(** The handler with its multiplexers, nil as [None] and [false]. *)
Record Handler := { h_opts : Options; h_udpMux : option Udp.Mux; h_icmpMux : bool }.

(** What a request does beyond its response. *)
Inductive effect :=
| Dial (target : string)
| RawWrite (s : string)          (* on a hijacked connection *)
| UdpStream
| IcmpStream (session : Z)
| P2PStream (id : nat).

(** The state the handler works on; [w_session] is the session object of the
    connection the request came in on. *)
Record world := {
  w_auth : Auth.Authenticator;
  w_rules : Rules.Engine;
  w_tracker : ConnTracker;
  w_p2p : P2P.P2PBroker;
  w_next : nat;
  w_session : option Session;
  w_icmp : Icmp.state;
  w_effects : list effect;
}.

Definition upd_tracker (w : world) (t : ConnTracker) : world :=
  {| w_auth := w_auth w; w_rules := w_rules w; w_tracker := t; w_p2p := w_p2p w; w_next := w_next w;
     w_session := w_session w; w_icmp := w_icmp w; w_effects := w_effects w |}.
Definition upd_auth (w : world) (a : Auth.Authenticator) : world :=
  {| w_auth := a; w_rules := w_rules w; w_tracker := w_tracker w; w_p2p := w_p2p w; w_next := w_next w;
     w_session := w_session w; w_icmp := w_icmp w; w_effects := w_effects w |}.
Definition add_effect (w : world) (e : effect) : world :=
  {| w_auth := w_auth w; w_rules := w_rules w; w_tracker := w_tracker w; w_p2p := w_p2p w;
     w_next := w_next w; w_session := w_session w; w_icmp := w_icmp w;
     w_effects := w_effects w ++ [e] |}.

(** The outside world during a request: the store, the clock, the resolver, the
    dialer, and what the two directions of a tunnel moved before the handler
    returned ([None]: not finished when the request's context ended). *)
Record env (S : Type) := {
  e_store : S;
  e_now : Z;
  e_lookup : string -> res (list IP);
  e_dial : string -> option string;
  e_up : option Z;
  e_down : option Z;
  e_hijacker : bool;
  e_hijack : res Conn;           (* the client connection of a hijack *)
  e_udp_body : reader;
  e_udp_env : nat -> Udp.env;
}.
Arguments e_store {S} _.
Arguments e_now {S} _.
Arguments e_lookup {S} _ _.
Arguments e_dial {S} _ _.
Arguments e_up {S} _.
Arguments e_down {S} _.
Arguments e_hijacker {S} _.
Arguments e_hijack {S} _.
Arguments e_udp_body {S} _.
Arguments e_udp_env {S} _ _.

(** ** Addresses *)

Definition remoteIP (r : request) : IP :=
  let from_addr :=
    ParseIP (match SplitHostPort (r_RemoteAddr r) with Ok (h, _) => h | Err _ => "" end) in
  let xff := Header_Get (r_Header r) "X-Forwarded-For" in
  if bool_decide (xff = "") then from_addr
  else
    let first := match Cut ","%char xff with Some (a, _) => a | None => xff end in
    match ParseIP (TrimSpace first) with
    | [] => from_addr
    | ip => ip
    end.

Definition resolveIP {S} (e : env S) (host : string) : IP :=
  match ParseIP host with
  | [] => match e_lookup e host with
          | Ok (ip :: _) => ip
          | _ => []
          end
  | ip => ip
  end.

Definition target_host (target : string) : string :=
  match SplitHostPort target with
  | Ok (h, _) => if bool_decide (h = "") then target else h
  | Err _ => target
  end.

Definition request_target (r : request) : string :=
  if bool_decide (r_Host r = "") then r_URLHost r else r_Host r.

Definition isHTTP1 (r : request) : bool := r_ProtoMajor r =? 1.

(** ** Tunnels *)

(** The accounting of a tunnel on [conn], from its opening to the return. *)
Definition tunnel_accounting (t : ConnTracker) (conn : option Conn) (up down : option Z) : ConnTracker :=
  let t := TunnelOpened t conn in
  let t := match up with Some n => AddBytes t conn (u64 n) 0 | None => t end in
  let t := match down with Some n => AddBytes t conn 0 (u64 n) | None => t end in
  TunnelClosed t conn.

Section handler.
Context {S : Type} `{UserStore S}.

Definition serveHTTP1Tunnel (w : world) (e : env S) (resp : response) (target : string)
  : world * response :=
  if negb (e_hijacker e)
  then (w, http_Error "hijack not supported" StatusInternalServerError resp)
  else
    let w := add_effect w (Dial target) in
    match e_dial e target with
    | Some _ => (w, http_Error ("cannot connect to " +:+ target) StatusBadGateway resp)
    | None =>
        match e_hijack e with
        | Err _ => (w, resp)
        | Ok c =>
            let w := add_effect w (RawWrite "HTTP/1.1 200 Connection established") in
            (upd_tracker w (tunnel_accounting (w_tracker w) (Some c) (e_up e) (e_down e)), resp)
        end
    end.

Definition handleTCPTunnel (h : Handler) (w : world) (ctx : context) (e : env S) (r : request)
    (resp : response) (target : string) : world * response :=
  let ip := resolveIP e (target_host target) in
  if negb (AllowPrivateNet (h_opts h)) && bool_decide (ip <> []) && Server.IsPrivateIP ip
  then (w, http_Error (target +:+ " is a private address") StatusForbidden resp)
  else if isHTTP1 r then serveHTTP1Tunnel w e resp target
  else
    let w := add_effect w (Dial target) in
    match e_dial e target with
    | Some _ => (w, http_Error ("cannot connect to " +:+ target) StatusBadGateway resp)
    | None =>
        let resp := Flush (WriteHeader StatusOK resp) in
        (upd_tracker w (tunnel_accounting (w_tracker w) (RawConnFromContext ctx) (e_up e) (e_down e)),
         resp)
    end.

(** ** Admission *)

Definition proxy_auth (resp : response) : response :=
  SetHeader "Proxy-Authenticate" ("Basic realm=" +:+ String dq ("TrustTunnel" +:+ String dq "")) resp.

Definition revoke (reason : string) (resp : response) : response :=
  SetHeader "X-Revoke-Reason" reason (proxy_auth resp).

Definition device_message (active : nat) (max : Z) : string :=
  "Device limit reached: " +:+ fmt_d (Z.of_nat active) +:+ "/" +:+ fmt_d max +:+ " connections in use".

(** Everything up to [Register]: the user, or the response of the refusal. *)
Definition authenticate (h : Handler) (w : world) (ctx : context) (e : env S) (r : request)
    (resp : response) : world * (response + string) :=
  if bool_decide (r_Method r <> MethodConnect)
  then (w, inl (http_Error "Method Not Allowed" StatusMethodNotAllowed resp))
  else
    let raw := RawConnFromContext ctx in
    match IsRevoked (w_tracker w) raw with
    | (true, reason) =>
        (w, inl (http_Error ("Session revoked: " +:+ reason) StatusProxyAuthRequired (revoke reason resp)))
    | (false, _) =>
        let '(a, ar) := Auth.CheckExt (w_auth w) (e_store e) (e_now e) r in
        let w := upd_auth w a in
        let username := Auth.Username ar in
        if bool_decide (username <> "") && bool_decide (Auth.Deny ar <> Auth.DenyNone)
        then (w, inl (http_Error (Auth.Deny ar) StatusProxyAuthRequired (revoke (Auth.Deny ar) resp)))
        else if bool_decide (username = "") then
          (w, inl (if AuthFailureCode (h_opts h) =? 405
                   then http_Error "Method Not Allowed" StatusMethodNotAllowed resp
                   else http_Error "Proxy Authentication Required" StatusProxyAuthRequired (proxy_auth resp)))
        else
          let active := CountUser (w_tracker w) username in
          if (0 <? Auth.MaxDevices ar) && bool_decide (raw <> None)
             && negb (IsKnown (w_tracker w) raw) && (Auth.MaxDevices ar <=? Z.of_nat active)
          then (w, inl (http_Error (device_message active (Auth.MaxDevices ar)) StatusProxyAuthRequired
                         (revoke "Device limit reached" resp)))
          else (w, inr username)
    end.

(** The switch on the target, for an admitted user. *)
Definition route (h : Handler) (w : world) (ctx : context) (e : env S) (r : request)
    (resp : response) (username : string) : world * response :=
  let target := request_target r in
  if bool_decide (target = pseudoHostCheck) then (w, WriteHeader StatusOK resp)
  else if bool_decide (target = pseudoHostUDP) then
    match h_udpMux h with
    | None => (w, http_Error "UDP not available" StatusServiceUnavailable resp)
    | Some mux =>
        match w_session w with
        | None => (w, http_Error "no session" StatusInternalServerError resp)
        | Some sess =>
            let '(sess, u) := Session_UDP mux sess in
            let u := default u (Udp.ServeHTTP u (e_udp_body e) (e_udp_env e)) in
            (add_effect
               {| w_auth := w_auth w; w_rules := w_rules w; w_tracker := w_tracker w; w_p2p := w_p2p w;
                  w_next := w_next w;
                  w_session := Some {| ss_udp := Some u; ss_icmp := ss_icmp sess |};
                  w_icmp := w_icmp w; w_effects := w_effects w |} UdpStream,
             Flush (WriteHeader StatusOK resp))
        end
    end
  else if bool_decide (target = pseudoHostICMP) then
    if negb (h_icmpMux h) then (w, http_Error "ICMP not available" StatusServiceUnavailable resp)
    else match w_session w with
    | None => (w, http_Error "no session" StatusInternalServerError resp)
    | Some sess =>
        let '(sess, m, n) := Session_ICMP (w_icmp w) sess in
        (add_effect
           {| w_auth := w_auth w; w_rules := w_rules w; w_tracker := w_tracker w; w_p2p := w_p2p w;
              w_next := w_next w; w_session := Some sess; w_icmp := m; w_effects := w_effects w |}
           (IcmpStream n), Flush (WriteHeader StatusOK resp))
    end
  else if bool_decide (target = pseudoHostP2P) then
    let '(b, resp, _) := P2P.Handle (w_p2p w) resp r (w_next w) username in
    (add_effect
       {| w_auth := w_auth w; w_rules := w_rules w; w_tracker := w_tracker w; w_p2p := b;
          w_next := Datatypes.S (w_next w); w_session := w_session w; w_icmp := w_icmp w;
          w_effects := w_effects w |} (P2PStream (w_next w)), resp)
  else handleTCPTunnel h w ctx e r resp target.

Definition ServeHTTP (h : Handler) (ctx : context) (e : env S) (w : world) (r : request)
    (resp : response) : world * response :=
  match authenticate h w ctx e r resp with
  | (w, inl resp) => (w, resp)
  | (w, inr username) =>
      let raw := RawConnFromContext ctx in
      let w := upd_tracker w (Register (w_tracker w) username raw (e_now e)) in
      let '(w, resp) :=
        if negb (Rules.Allow (w_rules w) (remoteIP r) (TLSRandomFromContext ctx))
        then (w, http_Error "Forbidden" StatusForbidden resp)
        else route h w ctx e r resp username in
      (upd_tracker w (Unregister (w_tracker w) username raw), resp)
  end.

(** ** Lemmas *)

(** Who passes [authenticate]. *)
Definition admitted (h : Handler) (w : world) (ctx : context) (e : env S) (r : request)
    (username : string) : Prop :=
  r_Method r = MethodConnect /\
  (IsRevoked (w_tracker w) (RawConnFromContext ctx)).1 = false /\
  let ar := (Auth.CheckExt (w_auth w) (e_store e) (e_now e) r).2 in
  Auth.Username ar = username /\ username <> "" /\ Auth.Deny ar = Auth.DenyNone /\
  (Auth.MaxDevices ar <= 0 \/ RawConnFromContext ctx = None \/
   IsKnown (w_tracker w) (RawConnFromContext ctx) = true \/
   Z.of_nat (CountUser (w_tracker w) username) < Auth.MaxDevices ar).

Lemma authenticate_spec h w ctx e r resp :
  let '(w', d) := authenticate h w ctx e r resp in
  w_tracker w' = w_tracker w /\ w_rules w' = w_rules w /\ w_effects w' = w_effects w /\
  match d with
  | inr username => admitted h w ctx e r username
  | inl resp' => w_status resp = None ->
      w_status resp' = Some StatusMethodNotAllowed \/ w_status resp' = Some StatusProxyAuthRequired
  end.
Proof.
  unfold authenticate, admitted. case_bool_decide as Hm; [split_and!; auto using http_Error_status|].
  assert (Hm' : r_Method r = MethodConnect) by (by destruct (decide (r_Method r = MethodConnect))).
  destruct (IsRevoked _ _) as [[] reason]; [split_and!; auto using http_Error_status|].
  destruct (Auth.CheckExt _ _ _ _) as [a ar]. cbn [snd].
  destruct (decide (Auth.Username ar = "")) as [Hu|Hu].
  - rewrite (bool_decide_false (Auth.Username ar <> "")) by tauto. cbn [andb].
    rewrite bool_decide_true by done. split_and!; try done.
    destruct (_ =? 405); auto using http_Error_status.
  - rewrite (bool_decide_true (Auth.Username ar <> "")) by tauto. cbn [andb].
    destruct (decide (Auth.Deny ar = Auth.DenyNone)) as [Hd|Hd].
    + rewrite (bool_decide_false (Auth.Deny ar <> Auth.DenyNone)) by tauto.
      rewrite bool_decide_false by done.
      destruct ((_ && _ && _) && _) eqn:Ed; [split_and!; auto using http_Error_status|].
      cbn. split_and!; try done.
      destruct (Z.ltb_spec 0 (Auth.MaxDevices ar)); [|left; lia].
      destruct (decide (RawConnFromContext ctx = None)); [auto|].
      rewrite bool_decide_true in Ed by done.
      destruct (IsKnown _ _); [auto|]. cbn in Ed. apply Z.leb_gt in Ed. auto.
    + rewrite (bool_decide_true (Auth.Deny ar <> Auth.DenyNone)) by tauto.
      split_and!; auto using http_Error_status.
Qed.

(** An admitted user passes. *)
Lemma authenticate_admitted h w ctx e r resp u :
  admitted h w ctx e r u -> exists w', authenticate h w ctx e r resp = (w', inr u).
Proof.
  intros (Hm & Hr & Hu & Hne & Hd & Hmax). unfold authenticate.
  rewrite bool_decide_false by (by intros []). destruct (IsRevoked _ _) as [[] reason]; [done|].
  destruct (Auth.CheckExt _ _ _ _) as [a ar]. cbn in Hu, Hd, Hmax. subst u.
  rewrite (bool_decide_false (Auth.Deny ar <> Auth.DenyNone)) by (by intros []).
  rewrite (bool_decide_false (Auth.Username ar = "")), andb_false_r by done. cbn.
  destruct (_ && _ && _ && _) eqn:E; [exfalso|by eexists].
  apply andb_true_iff in E as [E Hle]. apply andb_true_iff in E as [E Hk].
  apply andb_true_iff in E as [Hpos Hraw]. apply Z.ltb_lt in Hpos. apply Z.leb_le in Hle.
  apply bool_decide_eq_true in Hraw. destruct Hmax as [?|[?|[Hk'|?]]]; [lia|done| |lia].
  by rewrite Hk' in Hk.
Qed.

(** What a routed request may do. *)
Definition permitted (h : Handler) (e : env S) (r : request) (username : string) (ef : effect) : Prop :=
  match ef with
  | Dial t =>
      t = request_target r /\
      t ∉ [pseudoHostCheck; pseudoHostUDP; pseudoHostICMP; pseudoHostP2P] /\
      (AllowPrivateNet (h_opts h) = true \/ Server.IsPrivateIP (resolveIP e (target_host t)) = false)
  | RawWrite _ => isHTTP1 r = true
  | UdpStream => request_target r = pseudoHostUDP
  | IcmpStream _ => request_target r = pseudoHostICMP
  | P2PStream _ => request_target r = pseudoHostP2P
  end.

Lemma IsPrivateIP_nil : Server.IsPrivateIP [] = false.
Proof. vm_compute. reflexivity. Qed.

Lemma handleTCPTunnel_effects h w ctx e r resp target username :
  target = request_target r ->
  target ∉ [pseudoHostCheck; pseudoHostUDP; pseudoHostICMP; pseudoHostP2P] ->
  exists new, w_effects (handleTCPTunnel h w ctx e r resp target).1 = w_effects w ++ new /\
    Forall (permitted h e r username) new.
Proof.
  intros Ht Hn. unfold handleTCPTunnel. cbn zeta.
  destruct (negb _ && _ && _) eqn:Eb; [exists []; by rewrite app_nil_r|].
  assert (Hp : AllowPrivateNet (h_opts h) = true \/
      Server.IsPrivateIP (resolveIP e (target_host target)) = false).
  { destruct (AllowPrivateNet (h_opts h)); [by left|right]. cbn [negb andb] in Eb.
    destruct (decide (resolveIP e (target_host target) = [])) as [->|Hne]; [apply IsPrivateIP_nil|].
    by rewrite bool_decide_true in Eb by done. }
  assert (Hd : Forall (permitted h e r username) [Dial target]) by (apply Forall_singleton; done).
  unfold serveHTTP1Tunnel. destruct (isHTTP1 r) eqn:E1.
  - destruct (e_hijacker e); cbn [negb]; [|exists []; by rewrite app_nil_r].
    destruct (e_dial e target); [by exists [Dial target]|].
    destruct (e_hijack e); cbn; [|by exists [Dial target]].
    rewrite <- app_assoc. eexists. split; [done|].
    apply Forall_app. split; [done|]. by apply Forall_singleton.
  - destruct (e_dial e target); by exists [Dial target].
Qed.

Lemma route_effects h w ctx e r resp username :
  exists new, w_effects (route h w ctx e r resp username).1 = w_effects w ++ new /\
    Forall (permitted h e r username) new.
Proof.
  assert (Hnone : forall w0 : world, w_effects w0 = w_effects w ->
    exists new, w_effects w0 = w_effects w ++ new /\ Forall (permitted h e r username) new).
  { intros w0 E. exists []. by rewrite app_nil_r. }
  unfold route. cbn zeta. case_bool_decide as H1; [by apply Hnone|].
  case_bool_decide as H2.
  { destruct (h_udpMux h); [|by apply Hnone]. destruct (w_session w); [|by apply Hnone].
    destruct (Session_UDP _ _). exists [UdpStream]. rewrite Forall_singleton. done. }
  case_bool_decide as H3.
  { destruct (h_icmpMux h); [|by apply Hnone]. destruct (w_session w); [|by apply Hnone]. cbn [negb].
    destruct (Session_ICMP _ _) as [[? ?] n]. exists [IcmpStream n]. rewrite Forall_singleton. done. }
  case_bool_decide as H4.
  { destruct (P2P.Handle _ _ _ _ _) as [[b resp'] role]. cbn.
    exists [P2PStream (w_next w)]. rewrite Forall_singleton. done. }
  apply handleTCPTunnel_effects; [done|].
  rewrite !not_elem_of_cons. split_and!; try done. apply not_elem_of_nil.
Qed.
End handler.

(** The tunnels keep the lists of connections. *)
Lemma tunnel_accounting_byUser t conn up down :
  byUser (tunnel_accounting t conn up down) = byUser t.
Proof.
  assert (H1 : forall t, byUser (TunnelOpened t conn) = byUser t).
  { intros t0. unfold TunnelOpened. by destruct conn as [c|]; [destruct (connEntryFor t0 (Some c))|]. }
  assert (H2 : forall t i o, byUser (AddBytes t conn i o) = byUser t).
  { intros t0 i o. unfold AddBytes. by destruct conn as [c|]; [destruct (connEntryFor t0 (Some c))|]. }
  assert (H3 : forall t, byUser (TunnelClosed t conn) = byUser t).
  { intros t0. unfold TunnelClosed. by destruct conn as [c|]; [destruct (connEntryFor t0 (Some c))|]. }
  unfold tunnel_accounting. rewrite H3. destruct up, down; rewrite ?H2, ?H1; done.
Qed.

Section facts.
Context {S : Type} `{UserStore S}.

Lemma route_byUser h w ctx (e : env S) r resp username :
  byUser (w_tracker (route h w ctx e r resp username).1) = byUser (w_tracker w).
Proof.
  unfold route. cbn zeta. case_bool_decide; [done|]. case_bool_decide.
  { destruct (h_udpMux h); [|done]. destruct (w_session w); [|done]. by destruct (Session_UDP _ _). }
  case_bool_decide.
  { destruct (h_icmpMux h); [|done]. destruct (w_session w); [|done]. cbn [negb].
    by destruct (Session_ICMP _ _) as [[? ?] ?]. }
  case_bool_decide; [by destruct (P2P.Handle _ _ _ _ _) as [[? ?] ?]|].
  unfold handleTCPTunnel, serveHTTP1Tunnel. cbn zeta.
  destruct (negb _ && _ && _); [done|]. destruct (isHTTP1 r).
  - destruct (e_hijacker e); cbn [negb]; [|done]. destruct (e_dial e _); [done|].
    destruct (e_hijack e); [|done]. apply tunnel_accounting_byUser.
  - destruct (e_dial e _); [done|]. apply tunnel_accounting_byUser.
Qed.

Lemma Register_Unregister t t' u (c : Conn) now v :
  byUser t' = byUser (Register t u (Some c) now) ->
  list_to_set_disj (conns_of (Unregister t' u (Some c)) v) =@{gmultiset Conn}
  list_to_set_disj (conns_of t v).
Proof.
  intros E. rewrite conns_of_Unregister.
  assert (Hc : forall x, conns_of t' x = conns_of (Register t u (Some c) now) x)
    by (intros; by apply conns_of_byUser).
  rewrite !Hc. unfold Register. rewrite !conns_of_insert, (bool_decide_true (u = u)) by done.
  case_bool_decide; [subst|done].
  rewrite remove_first_multiset, list_to_set_disj_app, list_to_set_disj_cons. multiset_solver.
Qed.

(** A connection that is not tracked leaves the tracker alone. *)
Lemma tunnel_accounting_None t up down : tunnel_accounting t None up down = t.
Proof. unfold tunnel_accounting. by destruct up, down. Qed.

Lemma route_untracked h w (e : env S) r resp username : isHTTP1 r = false ->
  w_tracker (route h w background e r resp username).1 = w_tracker w.
Proof.
  intros H1. unfold route. cbn zeta. case_bool_decide; [done|]. case_bool_decide.
  { destruct (h_udpMux h); [|done]. destruct (w_session w); [|done]. by destruct (Session_UDP _ _). }
  case_bool_decide.
  { destruct (h_icmpMux h); [|done]. destruct (w_session w); [|done]. cbn [negb].
    by destruct (Session_ICMP _ _) as [[? ?] ?]. }
  case_bool_decide; [by destruct (P2P.Handle _ _ _ _ _) as [[? ?] ?]|].
  unfold handleTCPTunnel. rewrite H1. cbn zeta. destruct (negb _ && _ && _); [done|].
  destruct (e_dial e _); [done|]. apply tunnel_accounting_None.
Qed.

Lemma authenticate_session h w ctx (e : env S) r resp :
  w_session (authenticate h w ctx e r resp).1 = w_session w.
Proof.
  unfold authenticate. case_bool_decide; [done|]. destruct (IsRevoked _ _) as [[] ?]; [done|].
  destruct (Auth.CheckExt _ _ _ _). cbn zeta. by repeat case_match.
Qed.

(** A dialled target passed the check of its address. *)
Lemma dial_permitted h ctx (e : env S) w r resp t new :
  w_effects (ServeHTTP h ctx e w r resp).1 = w_effects w ++ new -> Dial t ∈ new ->
  AllowPrivateNet (h_opts h) = true \/ Server.IsPrivateIP (resolveIP e (target_host t)) = false.
Proof.
  unfold ServeHTTP. pose proof (authenticate_spec h w ctx e r resp) as Ha.
  destruct (authenticate h w ctx e r resp) as [w1 [resp'|u]]; destruct Ha as (_ & _ & He & _).
  { cbn. rewrite He, <- (app_nil_r (w_effects w)) at 1. by intros <-%app_inv_head ?%not_elem_of_nil. }
  cbn zeta. set (w2 := upd_tracker w1 _). destruct (Rules.Allow _ _ _); cbn [negb].
  - pose proof (route_effects h w2 ctx e r resp u) as (new' & Hnew & Hall).
    destruct (route h w2 ctx e r resp u) as [w3 resp3]. cbn in *. rewrite Hnew, He.
    intros <-%app_inv_head Hin. rewrite Forall_forall in Hall. by destruct (Hall _ Hin) as (_ & _ & ?).
  - cbn. rewrite He, <- (app_nil_r (w_effects w)) at 1. by intros <-%app_inv_head ?%not_elem_of_nil.
Qed.

(** ** Properties *)

(** C1: nothing is opened for a request that was not admitted.  Whatever the
    handler dials or starts, it does so for a CONNECT request on a connection
    that is not revoked, whose credentials the authenticator accepted for an
    account in good standing within its device limit, which the rules allow;
    a dialled target is the one requested, no pseudo-host, and, unless private
    networks are allowed, the address its host resolved to is not private. *)
Theorem proxy_admission (h : Handler) (ctx : context) (e : env S) (w : world) (r : request)
    (resp : response) :
  exists new, w_effects (ServeHTTP h ctx e w r resp).1 = w_effects w ++ new /\
  forall ef, ef ∈ new -> exists username,
    admitted h w ctx e r username /\
    Rules.Allow (w_rules w) (remoteIP r) (TLSRandomFromContext ctx) = true /\
    permitted h e r username ef.
Proof.
  unfold ServeHTTP. pose proof (authenticate_spec h w ctx e r resp) as Ha.
  destruct (authenticate h w ctx e r resp) as [w1 [resp'|username]]; destruct Ha as (_ & Hr & He & Ha).
  { exists []. rewrite app_nil_r. split; [done|]. by intros ef ?%not_elem_of_nil. }
  cbn zeta. set (w2 := upd_tracker w1 _). change (w_rules w2) with (w_rules w1). rewrite Hr.
  destruct (Rules.Allow _ _ _) eqn:Eal; cbn [negb].
  - pose proof (route_effects h w2 ctx e r resp username) as (new & Hnew & Hall).
    destruct (route h w2 ctx e r resp username) as [w3 resp3]. cbn in *. exists new.
    split; [by rewrite Hnew, He|]. intros ef Hef. exists username. rewrite Forall_forall in Hall. auto.
  - cbn. exists []. rewrite app_nil_r. split; [done|]. by intros ef ?%not_elem_of_nil.
Qed.

(** Refusals are final and have the right status.  A request the handler
    does not admit gets 405 or 407 and one the rules deny 403; in both cases
    nothing is opened. *)
Theorem proxy_refusals (h : Handler) (ctx : context) (e : env S) (w : world) (r : request)
  (Hno : (forall u, ~ admitted h w ctx e r u) \/
         Rules.Allow (w_rules w) (remoteIP r) (TLSRandomFromContext ctx) = false) :
  let '(w', resp) := ServeHTTP h ctx e w r new_response in
  w_effects w' = w_effects w /\
  (w_status resp = Some StatusMethodNotAllowed \/ w_status resp = Some StatusProxyAuthRequired \/
   w_status resp = Some StatusForbidden).
Proof.
  unfold ServeHTTP. pose proof (authenticate_spec h w ctx e r new_response) as Ha.
  destruct (authenticate h w ctx e r new_response) as [w1 [resp'|username]];
    destruct Ha as (_ & Hr & He & Ha).
  { split; [done|]. destruct (Ha eq_refl); auto. }
  destruct Hno as [Hno|Hno]; [by apply Hno in Ha|]. cbn zeta.
  cbn [w_rules upd_tracker]. rewrite Hr, Hno. cbn. split; [done|].
  by right; right.
Qed.

(** The registration is balanced.  After a request, however it ended, the
    connections counted for every user are those from before it. *)
Theorem proxy_registration_balanced (h : Handler) (ctx : context) (e : env S) (w : world)
    (r : request) (resp : response) (u : string) :
  let w' := (ServeHTTP h ctx e w r resp).1 in
  list_to_set_disj (conns_of (w_tracker w') u) =@{gmultiset Conn}
  list_to_set_disj (conns_of (w_tracker w) u).
Proof.
  unfold ServeHTTP. pose proof (authenticate_spec h w ctx e r resp) as Ha.
  destruct (authenticate h w ctx e r resp) as [w1 [resp'|username]]; destruct Ha as (Ht & _).
  { cbn. by rewrite Ht. }
  cbn zeta. set (raw := RawConnFromContext ctx). set (w2 := upd_tracker w1 _).
  assert (Hw : exists w3 resp3,
    (if negb (Rules.Allow (w_rules w2) (remoteIP r) (TLSRandomFromContext ctx))
     then (w2, http_Error "Forbidden" StatusForbidden resp)
     else route h w2 ctx e r resp username) = (w3, resp3) /\ byUser (w_tracker w3) = byUser (w_tracker w2)).
  { destruct (Rules.Allow _ _ _); cbn [negb]; [|by eauto].
    destruct (route h w2 ctx e r resp username) as [w3 resp3] eqn:E. exists w3, resp3.
    split; [done|]. pose proof (route_byUser h w2 ctx e r resp username) as Hb. by rewrite E in Hb. }
  destruct Hw as (w3 & resp3 & -> & Hb). cbn. subst w2. cbn in Hb. rewrite Ht in Hb.
  destruct raw as [c|]; [by apply Register_Unregister with (now := e_now e)|].
  cbn in *. by rewrite (conns_of_byUser (w_tracker w)).
Qed.
(** C14: Clients of HTTP/3 are not tracked.  The HTTP/3 server is started without
    the context function, so its requests come with the background context: no
    request of theirs changes the tracker, so that nothing is listed, counted
    or can be kicked; they are admitted whatever the device limit; the rules
    are asked about an empty client random; and UDP and ICMP are answered with
    an error for the missing session. *)
Theorem http3_untracked (h : Handler) (e : env S) (w : world) (r : request) (resp : response)
  (Hver : isHTTP1 r = false) (Hsess : w_session w = None) :
  let '(w', resp') := ServeHTTP h background e w r resp in
  w_tracker w' = w_tracker w /\
  forall u, r_Method r = MethodConnect ->
    let ar := (Auth.CheckExt (w_auth w) (e_store e) (e_now e) r).2 in
    Auth.Username ar = u -> u <> "" -> Auth.Deny ar = Auth.DenyNone ->
    admitted h w background e r u /\
    (Rules.Allow (w_rules w) (remoteIP r) [] = true ->
     request_target r = pseudoHostUDP /\ is_Some (h_udpMux h) \/
     request_target r = pseudoHostICMP /\ h_icmpMux h = true ->
     resp' = http_Error "no session" StatusInternalServerError resp).
Proof.
  assert (Hadm : forall u, r_Method r = MethodConnect ->
    let ar := (Auth.CheckExt (w_auth w) (e_store e) (e_now e) r).2 in
    Auth.Username ar = u -> u <> "" -> Auth.Deny ar = Auth.DenyNone -> admitted h w background e r u).
  { intros u Hm ar Hu Hne Hd. split_and!; [done|done|]. cbn zeta. split_and!; auto. }
  unfold ServeHTTP. pose proof (authenticate_spec h w background e r resp) as Ha.
  pose proof (authenticate_session h w background e r resp) as Hs.
  destruct (authenticate h w background e r resp) as [w1 [resp'|username]] eqn:Eauth; destruct Ha as (Ht & Hr & _ & Ha).
  - split; [done|]. intros u Hm Hu Hne Hd.
    destruct (authenticate_admitted h w background e r resp u (Hadm u Hm Hu Hne Hd)) as [w2 E]. congruence.
  - change (TLSRandomFromContext background) with (@nil byte). cbn [Register RawConnFromContext background ctx_rawConn Unregister].
    set (w2 := upd_tracker w1 (w_tracker w1)).
    change (w_rules w2) with (w_rules w1). rewrite Hr. cbn in Hs.
    assert (Hw2 : w_tracker w2 = w_tracker w /\ w_session w2 = None) by (cbn; by rewrite Hs).
    destruct Hw2 as [Ht2 Hs2]. clearbody w2.
    destruct (Rules.Allow _ _ _) eqn:Eal; cbn [negb].
    + pose proof (route_untracked h w2 e r resp username Hver) as Hrt.
      destruct (route h w2 background e r resp username) as [w3 resp3] eqn:Ero. cbn in Hrt |- *.
      split; [by rewrite Hrt, Ht2|]. intros u Hm Hu Hne Hd. split; [by apply Hadm|]. intros _ Htgt.
      unfold route in Ero. cbn zeta in Ero. rewrite Hs2 in Ero.
      destruct Htgt as [[Etgt [mux Hmux]]|[Etgt Hicmp]]; rewrite Etgt in Ero.
      * rewrite bool_decide_false, bool_decide_true, Hmux in Ero by done. by injection Ero.
      * rewrite bool_decide_false, bool_decide_false, bool_decide_true, Hicmp in Ero by done. by injection Ero.
    + split; [done|]. intros u Hm Hu Hne Hd. by split; [apply Hadm|].
Qed.
End facts.

(** The rules can be told any address.  The address the rules see is read
    from X-Forwarded-For, which the client writes: for every address text
    there is a header with which [remoteIP] is that address, whatever address
    the request came from. *)
Theorem remoteIP_forged (r : request) (text : string)
  (Hip : ParseIP text <> []) (Htrim : TrimSpace text = text) (Hcomma : has_char "," text = false) :
  remoteIP {| r_Method := r_Method r; r_Host := r_Host r; r_URLHost := r_URLHost r; r_Path := r_Path r;
              r_Query := r_Query r; r_Header := Header_Set (r_Header r) "X-Forwarded-For" text;
              r_RemoteAddr := r_RemoteAddr r; r_ProtoMajor := r_ProtoMajor r |} = ParseIP text.
Proof.
  unfold remoteIP. cbn [r_Header r_RemoteAddr]. rewrite Header_Get_Set_eq.
  rewrite bool_decide_false by (intros ->; by apply Hip).
  apply Cut_None in Hcomma. rewrite Hcomma, Htrim. by destruct (ParseIP text).
Qed.

(** The end of one stream stops the accounting of the next.  Streams of
    one connection share one entry of the tracker: after two registrations of a
    connection and one removal it is still counted for the device limit, but it
    is not known any more, and the bytes it moves are not counted. *)
Theorem second_stream_uncounted (t : ConnTracker) (u : string) (c : Conn) (n1 n2 i o : Z) :
  let t' := Unregister (Register (Register t u (Some c) n1) u (Some c) n2) u (Some c) in
  c ∈ conns_of t' u /\ IsKnown t' (Some c) = false /\ AddBytes t' (Some c) i o = t'.
Proof.
  cbn zeta. split_and!.
  - rewrite conns_of_Unregister, bool_decide_true by done. unfold Register at 1.
    rewrite conns_of_insert, bool_decide_true by done. unfold Register at 1.
    rewrite conns_of_insert, bool_decide_true by done. rewrite <- app_assoc. cbn [app].
    induction (conns_of t u) as [|x l IH]; cbn; [rewrite bool_decide_true by done; constructor|].
    case_bool_decide; [|by constructor]. apply elem_of_app. right. constructor.
  - cbn. by rewrite lookup_delete_eq.
  - unfold AddBytes, connEntryFor. cbn [mbind option_bind]. unfold Unregister at 1. cbn [entries].
    by rewrite lookup_delete_eq.
Qed.

Lemma remoteIP_forged_witness :
  exists r, remoteIP r = ParseIP "10.0.0.1" /\ r_RemoteAddr r = "203.0.113.9:5555".
Proof.
  eexists. split; [|shelve].
  refine (remoteIP_forged Auth.ex_request "10.0.0.1" _ _ _).
  - vm_compute. discriminate.
  - vm_compute. reflexivity.
  - vm_compute. reflexivity.
  Unshelve. reflexivity.
Defined.

(** A denied request: no credentials. *)
#[local] Instance ex_store : UserStore unit :=
  {| GetPassword _ _ := Ok ""; GetMaxDevices := None; GetLifecycle := None |}.
Definition ex_env : env unit :=
  {| e_store := tt; e_now := 0; e_lookup := fun _ => Err "no such host"; e_dial := fun _ => None;
     e_up := None; e_down := None; e_hijacker := true; e_hijack := Err "no"; e_udp_body := body_of [];
     e_udp_env := fun _ => {| Udp.e_now := 0; Udp.e_dial := None; Udp.e_write := None |} |}.
Definition ex_handler : Handler :=
  {| h_opts := {| AllowPrivateNet := false; ConnectTimeoutSecs := 0; TCPIdleTimeoutSecs := 0;
                  AuthFailureCode := 407 |}; h_udpMux := None; h_icmpMux := false |}.
Definition ex_world : world :=
  {| w_auth := Auth.New 0; w_rules := Rules.New; w_tracker := empty_tracker;
     w_p2p := P2P.NewP2PBroker; w_next := 0; w_session := None; w_icmp := Icmp.init; w_effects := [] |}.

Lemma proxy_refusals_witness :
  w_effects (ServeHTTP ex_handler background ex_env ex_world Auth.ex_request new_response).1 = [].
Proof.
  pose proof (proxy_refusals ex_handler background ex_env ex_world Auth.ex_request) as H.
  destruct (ServeHTTP ex_handler background ex_env ex_world Auth.ex_request new_response) as [w' resp].
  apply H. left. intros u (_ & _ & Hu & Hne & _). vm_compute in Hu. subst u. apply Hne. reflexivity.
Defined.

(** A user of a handler with UDP, whose request comes over HTTP/3. *)
Definition ex_pass : UserStore unit :=
  {| GetPassword _ u := Ok (if bool_decide (u = "ann") then "secret" else "");
     GetMaxDevices := Some (fun _ _ => Ok 1); GetLifecycle := None |}.
Definition ex_udp_handler : Handler :=
  {| h_opts := h_opts ex_handler; h_udpMux := Some (Udp.NewMux 0); h_icmpMux := false |}.
Definition ex_h3 : request :=
  {| r_Method := MethodConnect; r_Host := pseudoHostUDP; r_URLHost := ""; r_Path := ""; r_Query := ∅;
     r_Header := r_Header Auth.ex_request; r_RemoteAddr := "203.0.113.9:5555"; r_ProtoMajor := 3 |}.

Lemma http3_untracked_witness :
  let '(w', resp') := ServeHTTP (H := ex_pass) ex_udp_handler background ex_env ex_world ex_h3 new_response in
  w_tracker w' = empty_tracker /\ admitted (H := ex_pass) ex_udp_handler ex_world background ex_env ex_h3 "ann" /\
  resp' = http_Error "no session" StatusInternalServerError new_response.
Proof.
  pose proof (http3_untracked (H := ex_pass) ex_udp_handler ex_env ex_world ex_h3 new_response eq_refl eq_refl) as H.
  destruct (ServeHTTP (H := ex_pass) ex_udp_handler background ex_env ex_world ex_h3 new_response) as [w' resp'].
  destruct H as [Ht H]. split; [exact Ht|].
  destruct (H "ann" eq_refl) as [Ha Hr]; [vm_compute; reflexivity|discriminate|vm_compute; reflexivity|].
  split; [exact Ha|]. apply Hr; [vm_compute; reflexivity|]. left. split; [reflexivity|]. by eexists.
Defined.
