(* ===== verification/AdminStore.v ===== *)
(** internal/admin/store.go and userstore.go: the user stores that the admin
    tools and the admin API edit (the credentials file, the SQLite table), the
    hosts file, and the factory that picks a store from vpn.toml; with the
    migration step of migrate.go and addOrUpdateHost of manage.go. *)
From S2P Require Import Prelude GoStrings GoOS SqlDb.
From S2P Require AuthStore.
#[local] Open Scope Z_scope.

Record credEntry := {
  Username : string;
  Password : string;
  MaxDevices : Z;
  Enabled : bool;
  ExpiresAt : Z;
  TrafficLimit : Z;
  TrafficUsed : Z;
}.

#[export] Instance credEntry_eq_dec : EqDecision credEntry.
Proof. solve_decision. Defined.

(** An entry as the file has it: the lifecycle fields are not in the file. *)
Definition file_entry (u pw : string) (md : Z) : credEntry :=
  {| Username := u; Password := pw; MaxDevices := md; Enabled := false; ExpiresAt := 0;
     TrafficLimit := 0; TrafficUsed := 0 |}.

Record hostEntry := { h_Hostname : string; h_CertChainPath : string; h_PrivateKeyPath : string }.
Record hostsFile := {
  hf_MainHosts : list hostEntry;
  hf_PingHosts : list hostEntry;
  hf_SpeedtestHosts : list hostEntry;
}.

Definition empty_hosts : hostsFile :=
  {| hf_MainHosts := []; hf_PingHosts := []; hf_SpeedtestHosts := [] |}.

Record Paths := { p_VPN : string; p_Hosts : string; p_Creds : string }.

(** The part of vpn.toml the tools read (vpnConfigAdmin). *)
Record vpnConfigAdmin := {
  vc_StoreType : string;
  vc_StoreDSN : string;
  vc_CredentialsFile : string;
  vc_Admin : option (string * string);   (* address, token *)
}.

(** ** The interface *)

Record LifecycleAdmin (S : Type) := {
  lc_SetEnabled : S -> string -> bool -> S * option string;
  lc_SetExpiresAt : S -> string -> Z -> S * option string;
  lc_SetTrafficLimit : S -> string -> Z -> S * option string;
  lc_ResetTraffic : S -> string -> S * option string;
  lc_GetLifecycle : S -> string -> res (bool * Z * Z * Z);
}.
Arguments lc_SetEnabled {S} _ _ _ _.
Arguments lc_SetExpiresAt {S} _ _ _ _.
Arguments lc_SetTrafficLimit {S} _ _ _ _.
Arguments lc_ResetTraffic {S} _ _ _.
Arguments lc_GetLifecycle {S} _ _ _.

(** admin.UserStore; [us_lifecycle] is [None] when the type assertion to
    LifecycleAdmin fails. *)
Class UserStore (S : Type) := {
  us_List : S -> res (list credEntry);
  us_Add : S -> string -> string -> S * option string;
  us_Delete : S -> string -> S * option string;
  us_ChangePassword : S -> string -> string -> S * option string;
  us_SetMaxDevices : S -> string -> Z -> S * option string;
  us_StoreType : S -> string;
  us_Location : S -> string;
  us_lifecycle : option (LifecycleAdmin S);
}.

Section files.
Context {UT : UnicodeTables}.
(** toml.DecodeFile on the two file types. *)
Variable toml_creds : string -> res (list credEntry).
Variable toml_hosts : string -> res hostsFile.
Variable toml_vpn : string -> res vpnConfigAdmin.

Definition not_found (u : string) : string := "user " +:+ Quote u +:+ " not found".

(** ** credentials.toml *)

Definition loadCreds (f : fs) (path : string) : res (list credEntry) :=
  if negb (file_exists f path) then Ok [] else DecodeFile toml_creds f path.

Definition render_cred (e : credEntry) : string :=
  "[[client]]" +:+ nls +:+ "username = " +:+ Quote (Username e) +:+ nls +:+
  "password = " +:+ Quote (Password e) +:+ nls +:+
  (if 0 <? MaxDevices e then "max_devices = " +:+ fmt_d (MaxDevices e) +:+ nls else "") +:+ nls.

Definition render_creds (es : list credEntry) : string :=
  fold_right (fun e s => render_cred e +:+ s) "" es.

Definition saveCreds (f : fs) (path : string) (es : list credEntry) : fs * option string :=
  WriteFile f path (render_creds es).

Definition addUser (f : fs) (path u pw : string) : fs * option string :=
  match loadCreds f path with
  | Err e => (f, Some e)
  | Ok es =>
      if existsb (fun e => bool_decide (Username e = u)) es
      then (f, Some ("user " +:+ Quote u +:+ " already exists"))
      else saveCreds f path (es ++ [file_entry u pw 0])
  end.

Definition deleteUser (f : fs) (path u : string) : fs * option string :=
  match loadCreds f path with
  | Err e => (f, Some e)
  | Ok es =>
      let filtered := filter (fun e => Username e <> u) es in
      if (length filtered =? length es)%nat then (f, Some (not_found u))
      else saveCreds f path filtered
  end.

(** Updating the first entry with the name; [None] when there is none. *)
Fixpoint update_first (u : string) (g : credEntry -> credEntry) (es : list credEntry)
  : option (list credEntry) :=
  match es with
  | [] => None
  | e :: es => if bool_decide (Username e = u) then Some (g e :: es)
               else cons e <$> update_first u g es
  end.

Definition with_password (pw : string) (e : credEntry) : credEntry :=
  {| Username := Username e; Password := pw; MaxDevices := MaxDevices e; Enabled := Enabled e;
     ExpiresAt := ExpiresAt e; TrafficLimit := TrafficLimit e; TrafficUsed := TrafficUsed e |}.
Definition with_max_devices (n : Z) (e : credEntry) : credEntry :=
  {| Username := Username e; Password := Password e; MaxDevices := n; Enabled := Enabled e;
     ExpiresAt := ExpiresAt e; TrafficLimit := TrafficLimit e; TrafficUsed := TrafficUsed e |}.

Definition edit_first (f : fs) (path u : string) (g : credEntry -> credEntry) : fs * option string :=
  match loadCreds f path with
  | Err e => (f, Some e)
  | Ok es => match update_first u g es with
             | Some es => saveCreds f path es
             | None => (f, Some (not_found u))
             end
  end.

Definition changePassword (f : fs) (path u pw : string) : fs * option string :=
  edit_first f path u (with_password pw).

Definition file_SetMaxDevices (f : fs) (path u : string) (n : Z) : fs * option string :=
  edit_first f path u (with_max_devices n).

(** The file store: its path, and the files it edits. *)
Record fileUserStore := { fus_fs : fs; fus_path : string }.

Definition on_file (s : fileUserStore) (r : fs * option string) : fileUserStore * option string :=
  ({| fus_fs := r.1; fus_path := fus_path s |}, r.2).

#[export] Instance file_store : UserStore fileUserStore := {|
  us_List s := loadCreds (fus_fs s) (fus_path s);
  us_Add s u pw := on_file s (addUser (fus_fs s) (fus_path s) u pw);
  us_Delete s u := on_file s (deleteUser (fus_fs s) (fus_path s) u);
  us_ChangePassword s u pw := on_file s (changePassword (fus_fs s) (fus_path s) u pw);
  us_SetMaxDevices s u n := on_file s (file_SetMaxDevices (fus_fs s) (fus_path s) u n);
  us_StoreType _ := "file";
  us_Location := fus_path;
  us_lifecycle := None;
|}.

(** ** hosts.toml *)

Definition loadHosts (f : fs) (path : string) : res hostsFile :=
  if negb (file_exists f path) then Ok empty_hosts else DecodeFile toml_hosts f path.

Definition render_host (section : string) (h : hostEntry) : string :=
  "[[" +:+ section +:+ "]]" +:+ nls +:+ "hostname = " +:+ Quote (h_Hostname h) +:+ nls +:+
  "cert_chain_path = " +:+ Quote (h_CertChainPath h) +:+ nls +:+
  "private_key_path = " +:+ Quote (h_PrivateKeyPath h) +:+ nls +:+ nls.

Definition render_section (section : string) (hs : list hostEntry) : string :=
  fold_right (fun h s => render_host section h +:+ s) "" hs.

Definition saveHosts (f : fs) (path : string) (hf : hostsFile) : fs * option string :=
  WriteFile f path
    (render_section "main_hosts" (hf_MainHosts hf) +:+ render_section "ping_hosts" (hf_PingHosts hf)
       +:+ render_section "speedtest_hosts" (hf_SpeedtestHosts hf)).

(** The two loops of [addOrUpdateHost]: the first entry of the name, or the end. *)
Fixpoint put_host (entry : hostEntry) (hs : list hostEntry) : list hostEntry :=
  match hs with
  | [] => [entry]
  | h :: hs => if bool_decide (h_Hostname h = h_Hostname entry) then entry :: hs
               else h :: put_host entry hs
  end.

Definition addOrUpdateHost (f : fs) (paths : Paths) (hostname cert key : string) : fs * option string :=
  let hf := match loadHosts f (p_Hosts paths) with Ok hf => hf | Err _ => empty_hosts end in
  let entry := {| h_Hostname := hostname; h_CertChainPath := cert; h_PrivateKeyPath := key |} in
  saveHosts f (p_Hosts paths)
    {| hf_MainHosts := put_host entry (hf_MainHosts hf);
       hf_PingHosts := put_host entry (hf_PingHosts hf);
       hf_SpeedtestHosts := hf_SpeedtestHosts hf |}.

Definition loadVPNConfig (f : fs) (path : string) : res vpnConfigAdmin :=
  wrap_err ("parse " +:+ path +:+ ": ") (DecodeFile toml_vpn f path).

(** ** The SQLite store *)

Section sqlite.
Context {DB : Type} `{SqlDriver DB}.

Record sqliteUserStore := { sus_dsn : string; sus_db : DB }.

Definition NewSQLiteStore (dsn : string) : res sqliteUserStore :=
  let dsn := if bool_decide (dsn = "") then "users.db" else dsn in
  db ← wrap_err "sqlite open: " (sql_Open "sqlite" dsn);
  match sql_CreateUsers db ["username"; "password"; "max_devices"] with
  | (_, Some e) => Err ("sqlite migrate: " +:+ e)
  | (db, None) => Ok {| sus_dsn := dsn; sus_db := (sql_AddColumn db "max_devices").1 |}
  end.

Definition list_columns : list string := AuthStore.sqlite_columns.

Definition entry_of_row (u : string) (r : row) : credEntry :=
  {| Username := u; Password := row_password r; MaxDevices := row_max_devices r;
     Enabled := negb (row_enabled r =? 0); ExpiresAt := row_expires_at r;
     TrafficLimit := u64 (row_traffic_limit r); TrafficUsed := u64 (row_traffic_used r) |}.

Definition sqlite_List (s : sqliteUserStore) : res (list credEntry) :=
  rows ← sql_SelectAll (sus_db s) list_columns;
  Ok (map (fun ur => entry_of_row ur.1 ur.2) rows).

(** [notFoundIfZero] *)
Definition notFoundIfZero (s : sqliteUserStore) (r : DB * res Z) (u : string)
  : sqliteUserStore * option string :=
  let s' := {| sus_dsn := sus_dsn s; sus_db := r.1 |} in
  match r.2 with
  | Err e => (s', Some e)
  | Ok n => (s', if n =? 0 then Some (not_found u) else None)
  end.

Definition sqlite_update (s : sqliteUserStore) (a : assignment) (u : string)
  : sqliteUserStore * option string := notFoundIfZero s (sql_Update (sus_db s) a u) u.

Definition sqlite_SetEnabled s u (enabled : bool) := sqlite_update s (set_enabled (if enabled then 1 else 0)) u.
Definition sqlite_SetExpiresAt s u n := sqlite_update s (set_expires_at n) u.

(** database/sql refuses a uint64 argument with its high bit set. *)
Definition sqlite_SetTrafficLimit (s : sqliteUserStore) (u : string) (n : Z) :=
  if in_int64 n then sqlite_update s (set_traffic_limit n) u
  else (s, Some "sql: converting argument $1 type: uint64 values with high bit set are not supported").

Definition sqlite_ResetTraffic s u := sqlite_update s (set_traffic_used 0) u.
Definition sqlite_SetMaxDevices s u n := sqlite_update s (set_max_devices n) u.
Definition sqlite_ChangePassword s u pw := sqlite_update s (set_password pw) u.

Definition sqlite_GetLifecycle (s : sqliteUserStore) (u : string) : res (bool * Z * Z * Z) :=
  r ← sql_SelectUser (sus_db s)
        ["enabled"; "expires_at"; "traffic_limit_bytes"; "traffic_used_bytes"] u;
  match r with
  | None => Err "sql: no rows in result set"
  | Some r => Ok (negb (row_enabled r =? 0), row_expires_at r,
                  u64 (row_traffic_limit r), u64 (row_traffic_used r))
  end.

Definition sqlite_Add (s : sqliteUserStore) (u pw : string) : sqliteUserStore * option string :=
  let '(db, err) := sql_Insert (sus_db s) u pw in
  ({| sus_dsn := sus_dsn s; sus_db := db |},
   (fun e => "user " +:+ Quote u +:+ " already exists or DB error: " +:+ e) <$> err).

Definition sqlite_Delete (s : sqliteUserStore) (u : string) : sqliteUserStore * option string :=
  notFoundIfZero s (sql_Delete (sus_db s) u) u.

Definition sqlite_lifecycle : LifecycleAdmin sqliteUserStore :=
  {| lc_SetEnabled := sqlite_SetEnabled; lc_SetExpiresAt := sqlite_SetExpiresAt;
     lc_SetTrafficLimit := sqlite_SetTrafficLimit; lc_ResetTraffic := sqlite_ResetTraffic;
     lc_GetLifecycle := sqlite_GetLifecycle |}.

#[export] Instance sqlite_store : UserStore sqliteUserStore := {|
  us_List := sqlite_List;
  us_Add := sqlite_Add;
  us_Delete := sqlite_Delete;
  us_ChangePassword := sqlite_ChangePassword;
  us_SetMaxDevices := sqlite_SetMaxDevices;
  us_StoreType _ := "sqlite";
  us_Location := sus_dsn;
  us_lifecycle := Some sqlite_lifecycle;
|}.

(** ** The factory *)

Inductive anyStore := FileS (s : fileUserStore) | SqliteS (s : sqliteUserStore).

Definition OpenStoreFromVPN (f : fs) (paths : Paths) : res anyStore :=
  match loadVPNConfig f (p_VPN paths) with
  | Err _ => Ok (FileS {| fus_fs := f; fus_path := p_Creds paths |})
  | Ok cfg =>
      if bool_decide (vc_StoreType cfg = "sqlite") then
        s ← NewSQLiteStore (if bool_decide (vc_StoreDSN cfg = "") then "users.db" else vc_StoreDSN cfg);
        Ok (SqliteS s)
      else if bool_decide (vc_StoreType cfg = "postgres")
      then Err "postgres store is not yet supported in ttadmin (use psql directly)"
      else Ok (FileS {| fus_fs := f;
                        fus_path := if bool_decide (vc_CredentialsFile cfg = "") then p_Creds paths
                                    else vc_CredentialsFile cfg |})
  end.

(** ** migrate.go: the copy of the users of [doMigrate] *)

Definition migrate_one (acc : sqliteUserStore * nat * nat) (e : credEntry) : sqliteUserStore * nat * nat :=
  let '(s, migrated, skipped) := acc in
  match sqlite_Add s (Username e) (Password e) with
  | (s, Some _) => (s, migrated, S skipped)
  | (s, None) =>
      let s := if 0 <? MaxDevices e then (sqlite_SetMaxDevices s (Username e) (MaxDevices e)).1 else s in
      (s, S migrated, skipped)
  end.

Definition migrate_users (s : sqliteUserStore) (es : list credEntry) : sqliteUserStore * nat * nat :=
  foldl migrate_one (s, 0%nat, 0%nat) es.
End sqlite.

(** [AdminAPIFromVPN]: the address and token of the client, if configured. *)
Definition AdminAPIFromVPN (f : fs) (paths : Paths) : option (string * string) :=
  match loadVPNConfig f (p_VPN paths) with
  | Err _ => None
  | Ok cfg =>
      match vc_Admin cfg with
      | None => None
      | Some (addr, token) =>
          if bool_decide (addr = "") || bool_decide (token = "") then None
          else
            let addr := Replace1 addr "0.0.0.0:" "127.0.0.1:" in
            let addr := Replace1 addr "[::]:" "[::1]:" in
            Some (if negb (HasPrefix addr "http://") && negb (HasPrefix addr "https://")
                  then "http://" +:+ addr else addr, token)
      end
  end.
End files.
Arguments sqliteUserStore : clear implicits.
Arguments anyStore : clear implicits.

(** ** Lemmas *)

Section table.
Context {UT : UnicodeTables} {DB : Type} `{SqlTable DB}.

(** A store on an engine that is up, with some columns; with every column the
    tools use. *)
Definition has_columns (need : list string) (s : sqliteUserStore DB) : Prop :=
  tbl_up (sus_db s) /\ exists cs, tbl_cols (sus_db s) = Some cs /\ need ⊆ cs.

Definition ready (s : sqliteUserStore DB) : Prop := has_columns list_columns s.

Definition rows (s : sqliteUserStore DB) : gmap string row := tbl_rows (sus_db s).

(** The outcome of an update: not found, or the row of the user changed. *)
Definition row_updated (need : list string) (s : sqliteUserStore DB) (u : string) (g : row -> row)
    (r : sqliteUserStore DB * option string) : Prop :=
  has_columns need r.1 /\
  match rows s !! u with
  | None => r.2 = Some (not_found u) /\ rows r.1 = rows s
  | Some x => r.2 = None /\ rows r.1 = <[u := g x]> (rows s)
  end.

Lemma assigned_in_columns a : assigned_column a ∈ list_columns.
Proof. destruct a; vm_compute; repeat constructor. Qed.

Lemma sqlite_update_spec need s a u :
  assigned_column a ∈ need -> no_overflow a (rows s !! u) -> has_columns need s ->
  row_updated need s u (assign a) (sqlite_update s a u).
Proof.
  intros Ha Hfit (Hu & cs & Hc & Hsub). unfold sqlite_update, notFoundIfZero, row_updated, has_columns, rows.
  destruct (update_ok (sus_db s) cs a u Hu Hc) as (db' & -> & Hu' & Hc' & Hr').
  { by apply Hsub. } { done. }
  cbn [fst snd sus_db]. destruct (tbl_rows (sus_db s) !! u) as [x|] eqn:Ex; cbn [Z.eqb];
    cbn [fst snd sus_db]; rewrite Hr'.
  - split; [eauto|]. split; [done|]. apply map_eq. intros v. destruct (decide (u = v)) as [<-|Hne].
    + by rewrite lookup_alter_eq, lookup_insert_eq, Ex.
    + by rewrite lookup_alter_ne, lookup_insert_ne.
  - split; [eauto|]. split; [done|]. apply map_eq. intros v. destruct (decide (u = v)) as [<-|Hne].
    + by rewrite lookup_alter_eq, Ex.
    + by rewrite lookup_alter_ne.
Qed.

Lemma sqlite_Add_spec need s u pw :
  has_columns need s ->
  let r := sqlite_Add s u pw in
  has_columns need r.1 /\
  match rows s !! u with
  | Some _ => is_Some r.2 /\ rows r.1 = rows s
  | None => r.2 = None /\ rows r.1 = <[u := default_row pw]> (rows s)
  end.
Proof.
  intros (Hu & cs & Hc & Hsub). unfold sqlite_Add, has_columns, rows. cbn zeta.
  destruct (tbl_rows (sus_db s) !! u) as [x|] eqn:Ex.
  - destruct (insert_old (sus_db s) cs u pw x Hu Hc Ex) as [e ->]. cbn. eauto 6.
  - destruct (insert_new (sus_db s) cs u pw Hu Hc Ex) as (db' & -> & Hu' & Hc' & Hr'). cbn.
    split; [eauto|]. done.
Qed.

Lemma sqlite_Delete_spec need s u :
  has_columns need s ->
  let r := sqlite_Delete s u in
  has_columns need r.1 /\ rows r.1 = delete u (rows s) /\
  r.2 = match rows s !! u with Some _ => None | None => Some (not_found u) end.
Proof.
  intros (Hu & cs & Hc & Hsub). unfold sqlite_Delete, notFoundIfZero, has_columns, rows. cbn zeta.
  destruct (delete_ok (sus_db s) cs u Hu Hc) as (db' & -> & Hu' & Hc' & Hr'). cbn [fst snd].
  destruct (tbl_rows (sus_db s) !! u); cbn; (split; [eauto|done]).
Qed.

(** Opening: the columns of the migration are there, the accounts unchanged. *)
Lemma NewSQLiteStore_opens dsn db :
  sql_Open "sqlite" (if bool_decide (dsn = "") then "users.db" else dsn) = Ok db -> tbl_up db ->
  exists s, NewSQLiteStore dsn = Ok s /\ has_columns ["max_devices"] s /\ rows s = tbl_rows db.
Proof.
  intros Ho Hu. unfold NewSQLiteStore. rewrite Ho. cbn.
  destruct (create_ok db ["username"; "password"; "max_devices"] Hu) as (db1 & -> & Hu1 & Hr1 & Hc1).
  eexists. split; [reflexivity|]. unfold has_columns, rows. cbn [sus_db].
  set (cs := default _ (tbl_cols db)) in Hc1. destruct (decide ("max_devices" ∈ cs)) as [Hin|Hin].
  - destruct (add_column_old db1 cs _ Hu1 Hc1 Hin) as [e ->]. cbn. split; [|done].
    split; [done|]. exists cs. split; [done|set_solver].
  - destruct (add_column_new db1 cs _ Hu1 Hc1 Hin) as (db2 & -> & Hu2 & Hr2 & Hc2). cbn.
    split; [|congruence]. split; [done|]. exists (cs ++ ["max_devices"]). split; [done|set_solver].
Qed.

(** The row the migration makes of an entry. *)
Definition migrated_row (e : credEntry) : row :=
  let r := default_row (Password e) in
  if 0 <? MaxDevices e then assign (set_max_devices (MaxDevices e)) r else r.

Lemma migrate_one_spec need s m k e :
  "max_devices" ∈ need -> has_columns need s ->
  let '(s', m', k') := migrate_one (s, m, k) e in
  has_columns need s' /\
  match rows s !! Username e with
  | Some _ => rows s' = rows s /\ m' = m /\ k' = S k
  | None => rows s' = <[Username e := migrated_row e]> (rows s) /\ m' = S m /\ k' = k
  end.
Proof.
  intros Hn Hs. unfold migrate_one. pose proof (sqlite_Add_spec need s (Username e) (Password e) Hs) as Ha.
  destruct (sqlite_Add s (Username e) (Password e)) as [s1 err]. cbn in Ha. destruct Ha as [Hs1 Ha].
  destruct (rows s !! Username e) as [x|].
  - destruct Ha as [[msg ->] Hr]. done.
  - destruct Ha as [-> Hr]. unfold migrated_row. destruct (0 <? MaxDevices e); [|done].
    unfold sqlite_SetMaxDevices.
    pose proof (sqlite_update_spec need s1 (set_max_devices (MaxDevices e)) (Username e) Hn I Hs1) as [Hs2 Hu].
    rewrite Hr, lookup_insert_eq in Hu. destruct Hu as [_ Hu]. split; [done|].
    by rewrite Hu, insert_insert_eq.
Qed.

(** The first entry of a name decides. *)
Definition first_entry (u : string) (es : list credEntry) : option credEntry :=
  head (filter (fun e => Username e = u) es).

Lemma migrate_fold need es s m k :
  "max_devices" ∈ need -> has_columns need s ->
  let '(s', m', k') := foldl migrate_one (s, m, k) es in
  has_columns need s' /\ (m' + k' = m + k + length es)%nat /\
  forall u, rows s' !! u = match rows s !! u with
                           | Some x => Some x
                           | None => migrated_row <$> first_entry u es
                           end.
Proof.
  intros Hneed. revert s m k. induction es as [|e es IH]; intros s m k Hs; cbn [foldl].
  { split_and!; [done|cbn; lia|]. intros u. by destruct (rows s !! u). }
  pose proof (migrate_one_spec need s m k e Hneed Hs) as H1.
  destruct (migrate_one (s, m, k) e) as [[s1 m1] k1]. destruct H1 as [Hs1 H1].
  specialize (IH s1 m1 k1 Hs1). destruct (foldl migrate_one (s1, m1, k1) es) as [[s2 m2] k2].
  destruct IH as (Hs2 & Hn & Hr). split_and!; [done| |].
  - cbn [length]. destruct (rows s !! Username e); destruct H1 as (_ & -> & ->); lia.
  - intros u. rewrite Hr. unfold first_entry. rewrite filter_cons.
    destruct (decide (Username e = u)) as [<-|Hne].
    + destruct (rows s !! Username e) as [x|] eqn:Ex; destruct H1 as (-> & _); [by rewrite Ex|].
      by rewrite lookup_insert_eq.
    + destruct (rows s !! Username e) as [x|] eqn:Ex; destruct H1 as (-> & _); [done|].
      by rewrite lookup_insert_ne.
Qed.

(** ** Properties *)

(** The SQLite admin store is a map of accounts.  On an engine that is up
    with the full schema, List returns each account once with its columns
    decoded; Add creates an account with the default row or reports one that
    exists; Delete removes it; every setter changes its own column of that
    account and nothing else; the operations on an absent account report not
    found and change nothing. *)
Theorem sqlite_admin_spec (s : sqliteUserStore DB) (u pw : string) (Hs : ready s) :
  (exists es, sqlite_List s = Ok es /\
     forall e, e ∈ es <-> exists v x, rows s !! v = Some x /\ e = entry_of_row v x) /\
  (let r := sqlite_Add s u pw in
   match rows s !! u with
   | Some _ => is_Some r.2 /\ rows r.1 = rows s
   | None => r.2 = None /\ rows r.1 = <[u := default_row pw]> (rows s)
   end) /\
  (let r := sqlite_Delete s u in
   rows r.1 = delete u (rows s) /\
   r.2 = match rows s !! u with Some _ => None | None => Some (not_found u) end) /\
  row_updated list_columns s u (assign (set_password pw)) (sqlite_ChangePassword s u pw) /\
  (forall n, row_updated list_columns s u (assign (set_max_devices n)) (sqlite_SetMaxDevices s u n)) /\
  (forall b : bool, row_updated list_columns s u (assign (set_enabled (if b then 1 else 0))) (sqlite_SetEnabled s u b)) /\
  (forall n, row_updated list_columns s u (assign (set_expires_at n)) (sqlite_SetExpiresAt s u n)) /\
  (forall n, 0 <= n < 2 ^ 63 ->
     row_updated list_columns s u (assign (set_traffic_limit n)) (sqlite_SetTrafficLimit s u n)) /\
  row_updated list_columns s u (assign (set_traffic_used 0)) (sqlite_ResetTraffic s u).
Proof.
  split_and!; try (intros; by apply sqlite_update_spec; [apply assigned_in_columns|..]).
  - destruct Hs as (Hu & cs & Hc & Hsub).
    destruct (select_all_ok (sus_db s) cs list_columns Hu Hc Hsub) as (l & Hl & _ & Hin).
    unfold sqlite_List. rewrite Hl. cbn. eexists. split; [done|]. intros e.
    rewrite list_elem_of_In, in_map_iff. setoid_rewrite <- list_elem_of_In. split.
    + intros ([v x] & <- & Hx). exists v, x. split; [by apply Hin|done].
    + intros (v & x & Hx & ->). exists (v, x). split; [done|by apply Hin].
  - apply (sqlite_Add_spec _ s u pw Hs).
  - apply (sqlite_Delete_spec _ s u Hs).
  - intros n Hn. unfold sqlite_SetTrafficLimit, in_int64.
    destruct (Z.leb_spec (- 2 ^ 63) n); [|lia]. destruct (Z.ltb_spec n (2 ^ 63)); [|lia].
    apply sqlite_update_spec; [apply assigned_in_columns|done..].
Qed.

(** The migration copies every user once.  Into a store that is ready,
    users that exist stay as they are; every other user of the file gets the
    row of its first entry there, with the device limit when it is positive;
    and the two counters add up to the entries of the file. *)
Theorem migrate_users_spec (s : sqliteUserStore DB) (es : list credEntry) (Hs : ready s) :
  let '(s', migrated, skipped) := migrate_users s es in
  ready s' /\ (migrated + skipped = length es)%nat /\
  forall u, rows s' !! u = match rows s !! u with
                           | Some x => Some x
                           | None => migrated_row <$> first_entry u es
                           end.
Proof. apply (migrate_fold list_columns es s 0 0); [vm_compute; repeat constructor|exact Hs]. Qed.

(** The admin tools cannot list a table they created.  [NewSQLiteStore] of
    the admin package, on a database without a users table, succeeds, and List
    on the store it returns is an error: it selects columns which neither its
    CREATE TABLE nor its ALTER TABLE adds. *)
Theorem sqlite_List_fresh_fails (dsn : string) (db : DB)
  (Hopen : sql_Open "sqlite" (if bool_decide (dsn = "") then "users.db" else dsn) = Ok db)
  (Hup : tbl_up db) (Hfresh : tbl_cols db = None) :
  exists s e, NewSQLiteStore dsn = Ok s /\ sqlite_List s = Err e.
Proof.
  unfold NewSQLiteStore. rewrite Hopen. cbn.
  destruct (create_ok db ["username"; "password"; "max_devices"] Hup) as (db1 & -> & Hu1 & _ & Hc1).
  rewrite Hfresh in Hc1. cbn in Hc1.
  destruct (add_column_old db1 _ "max_devices" Hu1 Hc1) as [e He]; [set_solver|]. rewrite He.
  destruct (select_all_missing db1 _ list_columns "enabled" Hc1) as [e' He'].
  - vm_compute. repeat constructor.
  - set_solver.
  - eexists _, e'. split; [done|]. unfold sqlite_List. cbn [sus_db fst]. by rewrite He'.
Qed.
End table.

#[local] Instance ex_tables : UnicodeTables := {| uni_IsPrint := fun _ => false |}.
Definition ex_db : mem_db :=
  {| mem_cols := Some list_columns; mem_rows := {[ "ann" := default_row "pw" ]}; mem_up := true |}.
#[local] Instance ex_init : MemInit := {| mem_cols := None; mem_rows := ∅; mem_up := true |}.
Definition ex_store : sqliteUserStore mem_db := {| sus_dsn := "users.db"; sus_db := ex_db |}.

Lemma ex_ready : ready ex_store.
Proof. split; [done|]. by exists list_columns. Qed.

Lemma sqlite_admin_spec_witness :
  (sqlite_Delete ex_store "ann").2 = None /\ rows (sqlite_Delete ex_store "ann").1 = ∅.
Proof.
  destruct (sqlite_admin_spec ex_store "ann" "x" ex_ready) as (_ & _ & (Hd & He) & _).
  split; [exact He | rewrite Hd; reflexivity].
Defined.

Definition ex_entries : list credEntry :=
  [file_entry "ann" "other" 3; file_entry "bob" "b1" 2; file_entry "bob" "b2" 0].

Lemma migrate_users_spec_witness :
  rows (migrate_users ex_store ex_entries).1.1 !! "bob" = Some (migrated_row (file_entry "bob" "b1" 2)).
Proof.
  pose proof (migrate_users_spec ex_store ex_entries ex_ready) as H.
  destruct (migrate_users ex_store ex_entries) as [[s' m] k]. cbn [fst].
  exact (proj2 (proj2 H) "bob").
Defined.

Lemma sqlite_List_fresh_fails_witness :
  exists s e, NewSQLiteStore (DB := mem_db) "" = Ok s /\ sqlite_List s = Err e.
Proof. apply (sqlite_List_fresh_fails "" mem_init); reflexivity. Defined.
