(* ===== verification/AdminConfig.v ===== *)
(** internal/admin/configwriter.go and vpnconfig.go: edits of vpn.toml, line by
    line, that keep comments and order. *)
From S2P Require Import Prelude GoStrings GoOS.
#[local] Open Scope Z_scope.

Section writer.
Context {UT : UnicodeTables}.

(** ** configwriter.go *)

Record EditableConfig := {
  ListenAddress : option string;
  AllowPrivateNet : option bool;
  IPv6Available : option bool;
  CacheTTLSecs : option Z;
  TLSHandshakeTimeoutSecs : option Z;
  ConnectionEstablishTimeoutSecs : option Z;
  TCPConnectionsTimeoutSecs : option Z;
  UDPConnectionsTimeoutSecs : option Z;
}.

(** A patch: the key and the text of its value; every patch is raw. *)
Abbreviation patch := (string * string)%type (only parsing).

Definition patch_of {A} (key : string) (show : A -> string) (v : option A) : list patch :=
  match v with Some v => [(key, show v)] | None => [] end.

Definition patches_of (e : EditableConfig) : list patch :=
  patch_of "listen_address" Quote (ListenAddress e) ++
  patch_of "allow_private_network_connections" fmt_t (AllowPrivateNet e) ++
  patch_of "ipv6_available" fmt_t (IPv6Available e) ++
  patch_of "cache_ttl_secs" fmt_d (CacheTTLSecs e) ++
  patch_of "tls_handshake_timeout_secs" fmt_d (TLSHandshakeTimeoutSecs e) ++
  patch_of "connection_establishment_timeout_secs" fmt_d (ConnectionEstablishTimeoutSecs e) ++
  patch_of "tcp_connections_timeout_secs" fmt_d (TCPConnectionsTimeoutSecs e) ++
  patch_of "udp_connections_timeout_secs" fmt_d (UDPConnectionsTimeoutSecs e).

Definition is_section (line : string) : bool := HasPrefix (TrimSpace line) "[".

Fixpoint first_section (lines : list string) : nat :=
  match lines with
  | [] => 0
  | l :: lines => if is_section l then 0 else S (first_section lines)
  end.

Definition tab_set : string := String " " (String "009" "").

(** The key a line assigns: [None] for blank lines, comments, other text. *)
Definition line_key (line : string) : option string :=
  let trimmed := TrimLeft line tab_set in
  if bool_decide (trimmed = "") || HasPrefix trimmed "#" then None
  else match Cut "="%char trimmed with
       | Some (before, _) => Some (TrimSpace before)
       | None => None
       end.

Definition assignment_line (p : patch) : string := p.1 +:+ " = " +:+ p.2.

(** The patch that the inner loop applies to a line. *)
Definition patch_for (ps : list patch) (line : string) : option patch :=
  k ← line_key line; list_find (fun p : patch => p.1 = k) ps ≫= fun ip => Some ip.2.

Definition replace_line (ps : list patch) (line : string) : string :=
  match patch_for ps line with Some p => assignment_line p | None => line end.

(** The patches no top-level line took. *)
Definition missing (ps : list patch) (top : list string) : list patch :=
  filter (fun p => Forall (fun l => patch_for ps l <> Some p) top) ps.

Definition blank (line : string) : bool := bool_decide (TrimSpace line = "").

(** The new lines.  [before] and [after] are slices of one array: when a
    section follows, appending the empty line to [before] overwrites the first
    element of [after]. *)
Definition patched_lines (ps : list patch) (lines : list string) : list string :=
  let n := first_section lines in
  let extras := map assignment_line (missing ps (take n lines)) in
  let lines := map (replace_line ps) (take n lines) ++ drop n lines in
  if bool_decide (extras = []) then lines
  else
    let before := take n lines in
    let pad := match last before with Some l => negb (blank l) | None => false end in
    let shared := if pad && (n <? length lines)%nat then <[n := ""]> lines else lines in
    let before := if pad then before ++ [""] else before in
    let after := drop n shared in
    before ++ extras
      ++ (match after with a :: _ => if blank a then [] else [""] | [] => [] end) ++ after.

Definition PatchVPNConfig (f : fs) (path : string) (edit : EditableConfig) : fs * option string :=
  match ReadFile f path with
  | Err e => (f, Some e)
  | Ok data =>
      let ps := patches_of edit in
      if bool_decide (ps = []) then (f, None)
      else
        let tmp := path +:+ ".tmp" in
        match WriteFile f tmp (Join nls (patched_lines ps (Split nl data))) with
        | (f, Some e) => (f, Some e)
        | (f, None) => Rename f tmp path
        end
  end.

(** ** vpnconfig.go *)

Definition store_line (key v : string) : string := key +:+ " = " +:+ Quote v.

(** The switch of the loop, on the trimmed line. *)
Definition replace_store_line (storeType storeDSN credFile line : string) : string :=
  let t := TrimSpace line in
  if HasPrefix t "store_type" then store_line "store_type" storeType
  else if HasPrefix t "store_dsn" then store_line "store_dsn" storeDSN
  else if HasPrefix t "credentials_file" && bool_decide (credFile <> "")
  then store_line "credentials_file" credFile
  else line.

(** The index after the last line with the prefix. *)
Fixpoint insert_after (i : nat) (lines : list string) (found : option nat) : option nat :=
  match lines with
  | [] => found
  | l :: lines => insert_after (S i) lines
      (if HasPrefix (TrimSpace l) "auth_failure_status_code" then Some (S i) else found)
  end.

Definition store_type_lines (storeType storeDSN credFile : string) (lines : list string) : list string :=
  let seen_type := existsb (fun l => HasPrefix (TrimSpace l) "store_type") lines in
  let seen_dsn := existsb (fun l => negb (HasPrefix (TrimSpace l) "store_type")
                                    && HasPrefix (TrimSpace l) "store_dsn") lines in
  let lines := map (replace_store_line storeType storeDSN credFile) lines in
  let extras := (if seen_type then [] else [store_line "store_type" storeType])
                  ++ (if seen_dsn then [] else [store_line "store_dsn" storeDSN]) in
  match insert_after 0 lines None with
  | Some i => take i lines ++ extras ++ drop i lines
  | None => lines ++ extras
  end.

Definition patchVPNStoreType (f : fs) (path storeType storeDSN credFile : string) : fs * option string :=
  match ReadFile f path with
  | Err e => (f, Some e)
  | Ok data => WriteFile f path (Join nls (store_type_lines storeType storeDSN credFile (Split nl data)))
  end.

(** ** Lemmas *)

Lemma first_section_le lines : (first_section lines <= length lines)%nat.
Proof.
  induction lines as [|l lines IH]; cbn [first_section length]; [lia|]. destruct (is_section l); lia.
Qed.

Lemma patch_for_Some ps l p : patch_for ps l = Some p -> p ∈ ps /\ line_key l = Some p.1.
Proof.
  unfold patch_for. destruct (line_key l) as [k|]; [|done]. cbn.
  destruct (list_find _ ps) as [[i q]|] eqn:E; [|done]. cbn. intros [= <-].
  apply list_find_Some in E as (Hq & Hk & _). split; [by eapply list_elem_of_lookup_2|]. by rewrite <- Hk.
Qed.

(** The top-level lines after the edit, and whether the padding is needed. *)
Definition top_lines (ps : list patch) (lines : list string) : list string :=
  map (replace_line ps) (take (first_section lines) lines).

Definition needs_pad (ps : list patch) (lines : list string) : bool :=
  match last (top_lines ps lines) with Some l => negb (blank l) | None => false end.

Definition extra_lines (ps : list patch) (lines : list string) : list string :=
  map assignment_line (missing ps (take (first_section lines) lines)).

Definition separator (after : list string) : list string :=
  match after with a :: _ => if blank a then [] else [""] | [] => [] end.

(** What the edit computes, with the aliasing resolved. *)
Lemma patched_lines_eq ps lines :
  let n := first_section lines in
  patched_lines ps lines =
  if bool_decide (extra_lines ps lines = []) then top_lines ps lines ++ drop n lines
  else if needs_pad ps lines then
    top_lines ps lines ++ [""] ++ extra_lines ps lines
      ++ (if (n <? length lines)%nat then "" :: drop (S n) lines else [])
  else top_lines ps lines ++ extra_lines ps lines ++ separator (drop n lines) ++ drop n lines.
Proof.
  cbn zeta. unfold patched_lines. set (n := first_section lines).
  pose proof (first_section_le lines) as Hn. fold n in Hn.
  change (map assignment_line (missing ps (take n lines))) with (extra_lines ps lines).
  assert (Hl : length (top_lines ps lines) = n).
  { unfold top_lines. rewrite length_map, length_take. fold n. lia. }
  change (map (replace_line ps) (take n lines)) with (top_lines ps lines).
  assert (Ht : take n (top_lines ps lines ++ drop n lines) = top_lines ps lines)
    by (by apply take_app_length').
  assert (Hd : drop n (top_lines ps lines ++ drop n lines) = drop n lines)
    by (by apply drop_app_length').
  assert (Hlen : length (top_lines ps lines ++ drop n lines) = length lines)
    by (rewrite length_app, length_drop; lia).
  rewrite Ht, Hlen. change (match last (top_lines ps lines) with
    | Some l => negb (blank l) | None => false end) with (needs_pad ps lines).
  case_bool_decide as He; [done|]. destruct (needs_pad ps lines); cbn [andb]; [|by rewrite Hd].
  rewrite <- app_assoc. destruct (Nat.ltb_spec n (length lines)) as [Hlt|Hge].
  - assert (E : drop n (<[n := ""]> (top_lines ps lines ++ drop n lines)) = "" :: drop (S n) lines).
    { rewrite insert_app_r_alt, Hl, Nat.sub_diag by lia. rewrite drop_app_length' by done.
      destruct (lookup_lt_is_Some_2 lines n Hlt) as [x Hx]. by rewrite (drop_S lines x n Hx). }
    by rewrite E.
  - by rewrite Hd, drop_ge by lia.
Qed.

(** Every patch has its line among the top-level lines or the extra lines. *)
Lemma patch_has_line ps lines p :
  p ∈ ps -> assignment_line p ∈ top_lines ps lines ++ extra_lines ps lines.
Proof.
  intros Hp. apply elem_of_app. unfold top_lines, extra_lines, missing.
  set (top := take _ lines).
  destruct (decide (Forall (fun l => patch_for ps l <> Some p) top)) as [Hf|Hf].
  - right. apply list_elem_of_In, in_map, list_elem_of_In, list_elem_of_filter. done.
  - left. apply not_Forall_Exists in Hf; [|solve_decision]. apply Exists_exists in Hf as (l & Hl & Hx).
    apply dec_stable in Hx. assert (E : replace_line ps l = assignment_line p)
      by (unfold replace_line; by rewrite Hx).
    rewrite <- E. by apply list_elem_of_In, in_map, list_elem_of_In.
Qed.

(** ** Properties *)

(** A configuration edit does what it is asked.  Whenever every edited key
    is already present, or the top-level part is empty or ends in a blank line,
    or no section follows, [PatchVPNConfig] leaves every line from the first
    section on in place and in order at the end of the file, writes for every
    edit its assignment above them, and changes no top-level line that does not
    assign an edited key. *)
Theorem patch_keeps_sections (edit : EditableConfig) (lines : list string)
  (Hgood : extra_lines (patches_of edit) lines = [] \/ needs_pad (patches_of edit) lines = false \/
           first_section lines = length lines) :
  let ps := patches_of edit in
  exists head, patched_lines ps lines = head ++ drop (first_section lines) lines /\
    (forall p, p ∈ ps -> assignment_line p ∈ head) /\
    (forall l, l ∈ take (first_section lines) lines -> patch_for ps l = None -> l ∈ head).
Proof.
  cbn zeta. set (ps := patches_of edit) in *. rewrite patched_lines_eq.
  assert (Hkeep : forall l, l ∈ take (first_section lines) lines -> patch_for ps l = None ->
    l ∈ top_lines ps lines).
  { intros l Hl Hn. apply list_elem_of_In, in_map_iff. exists l. split; [|by apply list_elem_of_In].
    unfold replace_line. by rewrite Hn. }
  pose proof (fun p => patch_has_line ps lines p) as Hlines.
  case_bool_decide as He.
  { rewrite He, app_nil_r in Hlines. eauto. }
  destruct Hgood as [?|[Hp|Hend]]; [done| |].
  - rewrite Hp. rewrite !app_assoc. eexists. split; [reflexivity|]. split.
    + intros p Hp'. apply elem_of_app. left. auto.
    + intros l Hl Hn. rewrite <- app_assoc. apply elem_of_app. left. auto.
  - rewrite Hend, Nat.ltb_irrefl, drop_all. destruct (needs_pad ps lines).
    + exists (top_lines ps lines ++ [""] ++ extra_lines ps lines). rewrite !app_nil_r.
      split; [done|]. split.
      * intros p [?|?]%Hlines%elem_of_app; set_solver.
      * intros l Hl Hn. rewrite <- Hend in Hl. apply Hkeep in Hn; [|done]. set_solver.
    + exists (top_lines ps lines ++ extra_lines ps lines). cbn [separator]. rewrite !app_nil_r.
      split; [done|]. split; [auto|].
      intros l Hl Hn. rewrite <- Hend in Hl. apply elem_of_app. left. auto.
Qed.

(** An edit can delete a section header.  When an edited key is missing,
    the last top-level line is not blank and a section follows, the line of the
    first section is replaced by an empty line: the keys of that section become
    top-level keys. *)
Theorem patch_loses_section_header (edit : EditableConfig) (lines : list string)
  (Hmissing : extra_lines (patches_of edit) lines <> [])
  (Hpad : needs_pad (patches_of edit) lines = true)
  (Hsec : (first_section lines < length lines)%nat) :
  let ps := patches_of edit in
  patched_lines ps lines =
  top_lines ps lines ++ [""] ++ extra_lines ps lines ++ "" :: drop (S (first_section lines)) lines.
Proof.
  cbn zeta. rewrite patched_lines_eq, bool_decide_false, Hpad by done.
  by destruct (Nat.ltb_spec (first_section lines) (length lines)); [|lia].
Qed.

(** Only the edited keys are patched, each once. *)
Lemma patches_keys edit :
  (patches_of edit).*1 `sublist_of`
  ["listen_address"; "allow_private_network_connections"; "ipv6_available"; "cache_ttl_secs";
   "tls_handshake_timeout_secs"; "connection_establishment_timeout_secs";
   "tcp_connections_timeout_secs"; "udp_connections_timeout_secs"].
Proof.
  destruct edit as [a b c d e f g h]. unfold patches_of, patch_of. cbn.
  destruct a, b, c, d, e, f, g, h; cbn; repeat first [apply sublist_skip | apply sublist_cons | constructor].
Qed.
End writer.

#[local] Instance ex_tables : UnicodeTables := {| uni_IsPrint := fun _ => false |}.
Definition ex_edit : EditableConfig :=
  {| ListenAddress := None; AllowPrivateNet := Some true; IPv6Available := None;
     CacheTTLSecs := Some 60; TLSHandshakeTimeoutSecs := None; ConnectionEstablishTimeoutSecs := None;
     TCPConnectionsTimeoutSecs := None; UDPConnectionsTimeoutSecs := None |}.
Definition ex_good : list string := ["# endpoint"; "cache_ttl_secs = 30"; ""; "[admin]"; "token = 1"].
Definition ex_bad : list string := ["cache_ttl_secs = 30"; "[admin]"; "token = 1"].

Example ex_patched :
  patched_lines (patches_of ex_edit) ex_bad =
  ["cache_ttl_secs = 60"; ""; "allow_private_network_connections = true"; ""; "token = 1"].
Proof. vm_compute. reflexivity. Qed.

Lemma patch_keeps_sections_witness :
  exists head, patched_lines (patches_of ex_edit) ex_good = head ++ ["[admin]"; "token = 1"].
Proof.
  destruct (patch_keeps_sections ex_edit ex_good) as (head & H & _).
  - right; left. vm_compute. reflexivity.
  - exists head. exact H.
Defined.

Lemma patch_loses_section_header_witness :
  patched_lines (patches_of ex_edit) ex_bad =
  top_lines (patches_of ex_edit) ex_bad ++ [""] ++ extra_lines (patches_of ex_edit) ex_bad
    ++ "" :: ["token = 1"].
Proof.
  refine (patch_loses_section_header ex_edit ex_bad _ _ _).
  - vm_compute. discriminate.
  - vm_compute. reflexivity.
  - vm_compute. repeat constructor.
Defined.
