(* ===== verification/AdminApi.v ===== *)
(** internal/server/adminapi.go: the HTTP admin API over a user store, the
    connection tracker, the authenticator's cache and the rules engine.  The
    JSON decoder is a parameter; a JSON answer is kept as the value encoded. *)
From S2P Require Import Prelude GoStrings GoHttp GoOS ConnTracker.
From S2P Require Auth Rules Server Config.
#[local] Open Scope Z_scope.

Record AdminUser := {
  au_Username : string;
  au_MaxDevices : Z;
  au_Enabled : bool;
  au_ExpiresAt : Z;
  au_TrafficLimit : Z;
  au_TrafficUsed : Z;
}.

(** server.AdminLifecycle; the reset also reaches the tracker (main.go). *)
Record AdminLifecycle (S : Type) := {
  al_SetEnabled : S -> string -> bool -> S * option string;
  al_SetExpiresAt : S -> string -> Z -> S * option string;
  al_SetTrafficLimit : S -> string -> Z -> S * option string;
  al_ResetTraffic : S -> ConnTracker -> string -> S * ConnTracker * option string;
}.
Arguments al_SetEnabled {S} _ _ _ _.
Arguments al_SetExpiresAt {S} _ _ _ _.
Arguments al_SetTrafficLimit {S} _ _ _ _.
Arguments al_ResetTraffic {S} _ _ _ _.

Class AdminUserStore (S : Type) := {
  ad_List : S -> res (list AdminUser);
  ad_Add : S -> string -> string -> S * option string;
  ad_Delete : S -> string -> S * option string;
  ad_ChangePassword : S -> string -> string -> S * option string;
  ad_SetMaxDevices : S -> string -> Z -> S * option string;
  ad_lifecycle : option (AdminLifecycle S);
}.

(** The values the handlers encode as JSON. *)
Record enriched := { en_user : AdminUser; en_ActiveConns : nat; en_BytesIn : Z; en_BytesOut : Z;
                     en_TotalTunnels : Z }.

Inductive reply :=
| RStrings (fields : list (string * string))
| RWhoami (has_userstore : bool)
| RInfo (uptime : Z) (has_userstore has_tls_reload : bool)
| RSystem (counts : Z * Z)
| RRules (path : string) (rules : list Rules.RuleView)
| RSessions (l : list SessionInfo)
| RStats (l : list UserStats_)
| RActive (m : gmap string nat)
| RUsers (l : list enriched).

(** Requests whose bodies were decoded. *)
Record create_req := { cr_Username : string; cr_Password : string; cr_MaxDevices : Z;
                       cr_ExpiresAt : Z; cr_TrafficLimit : Z }.
Record patch_req := { pt_Password : option string; pt_MaxDevices : option Z; pt_Enabled : option bool;
                      pt_ExpiresAt : option Z; pt_TrafficLimit : option Z; pt_ResetTraffic : option bool }.

Record bodies := {
  b_raw : res string;
  b_rules : res (list Rules.RuleView);
  b_create : res create_req;
  b_patch : res patch_req;
}.

(** The settings of [StartAdminAPI]: the functions it was given, nil as
    [None]; [tls_reload] and [patch_config] give what they answer. *)
Record settings := {
  st_Address : string;
  st_Token : string;
  st_vpnPath : string;
  st_tls_reload : option (option string);
  st_patch_config : string -> string -> fs -> fs * option string;
  st_restart : bool;
}.

Inductive effect := TLSReload | Restart | Kick (l : list Conn).

Section api.
Context {UT : UnicodeTables} {S : Type} `{AdminUserStore S}.

(** The state the handlers share; the store may be nil. *)
Record world := {
  w_store : option S;
  w_tracker : ConnTracker;
  w_auth : Auth.Authenticator;
  w_rules : option Rules.Engine;
  w_fs : fs;
  w_effects : list effect;
}.

Definition set_store (w : world) (s : S) : world :=
  {| w_store := Some s; w_tracker := w_tracker w; w_auth := w_auth w; w_rules := w_rules w;
     w_fs := w_fs w; w_effects := w_effects w |}.
Definition set_tracker (w : world) (t : ConnTracker) : world :=
  {| w_store := w_store w; w_tracker := t; w_auth := w_auth w; w_rules := w_rules w;
     w_fs := w_fs w; w_effects := w_effects w |}.
Definition set_auth (w : world) (a : Auth.Authenticator) : world :=
  {| w_store := w_store w; w_tracker := w_tracker w; w_auth := a; w_rules := w_rules w;
     w_fs := w_fs w; w_effects := w_effects w |}.
Definition set_fs (w : world) (f : fs) : world :=
  {| w_store := w_store w; w_tracker := w_tracker w; w_auth := w_auth w; w_rules := w_rules w;
     w_fs := f; w_effects := w_effects w |}.
Definition set_rules (w : world) (e : Rules.Engine) (f : fs) : world :=
  {| w_store := w_store w; w_tracker := w_tracker w; w_auth := w_auth w; w_rules := Some e;
     w_fs := f; w_effects := w_effects w |}.
Definition emit (w : world) (e : effect) : world :=
  {| w_store := w_store w; w_tracker := w_tracker w; w_auth := w_auth w; w_rules := w_rules w;
     w_fs := w_fs w; w_effects := w_effects w ++ [e] |}.

(** An answer: the response, and the value of a JSON body. *)
Definition answer : Type := response * option reply.

Definition api : Type := world -> request -> bodies -> response -> world * answer.

Definition writeJSON (v : reply) (w : response) : answer :=
  (WriteHeader StatusOK (SetHeader "Content-Type" "application/json" w), Some v).

Definition writeStatus (code : Z) (v : reply) (w : response) : answer :=
  (WriteHeader code (SetHeader "Content-Type" "application/json" w), Some v).

Definition error (msg : string) (code : Z) (w : response) : answer := (http_Error msg code w, None).

Definition setCORS (w : response) : response :=
  SetHeader "Access-Control-Allow-Headers" "Authorization, Content-Type"
    (SetHeader "Access-Control-Allow-Methods" "GET, POST, PATCH, DELETE, OPTIONS"
      (SetHeader "Access-Control-Allow-Origin" "*" w)).

Definition request_token (r : request) : string :=
  let token := TrimPrefix (Header_Get (r_Header r) "Authorization") "Bearer " in
  if bool_decide (token = "") then Query_Get r "token" else token.

Definition authMW (cfg : settings) (next : api) : api := fun w r b resp =>
  if bool_decide (r_Method r = MethodOptions)
  then (w, (WriteHeader StatusNoContent (setCORS resp), None))
  else
    let resp := setCORS resp in
    if bool_decide (request_token r <> st_Token cfg)
    then (w, error "unauthorized" StatusUnauthorized resp)
    else next w r b resp.

Definition method_not_allowed (w : world) (resp : response) : world * answer :=
  (w, error "method not allowed" StatusMethodNotAllowed resp).

Definition status (s : string) : reply := RStrings [("status", s)].

(** [KickUser] of the tracker, with the delayed close it schedules. *)
Definition kick_user (w : world) (u reason : string) : world :=
  let '(t, l) := KickUser (w_tracker w) u reason in emit (set_tracker w t) (Kick l).

Definition invalidate (w : world) (u : string) : world :=
  set_auth w (Auth.Invalidate (w_auth w) u).

Definition or_default (s d : string) : string := if bool_decide (s = "") then d else s.

(** ** The handlers *)

Definition h_whoami : api := fun w r b resp =>
  (w, writeJSON (RWhoami (bool_decide (is_Some (w_store w)))) resp).

Definition h_info (cfg : settings) (uptime : Z) : api := fun w r b resp =>
  (w, writeJSON (RInfo uptime (bool_decide (is_Some (w_store w)))
                   (bool_decide (is_Some (st_tls_reload cfg)))) resp).

Definition h_tls_reload (cfg : settings) : api := fun w r b resp =>
  if bool_decide (r_Method r <> MethodPost) then method_not_allowed w resp
  else match st_tls_reload cfg with
       | None => (w, error "tls reload not configured" StatusServiceUnavailable resp)
       | Some (Some e) => (emit w TLSReload, error e StatusInternalServerError resp)
       | Some None => (emit w TLSReload, writeJSON (status "reloaded") resp)
       end.

Definition h_system : api := fun w r b resp =>
  (w, writeJSON (RSystem (Server.gather_counts (w_tracker w))) resp).

Definition h_config (cfg : settings) : api := fun w r b resp =>
  if bool_decide (r_Method r <> MethodPatch) then method_not_allowed w resp
  else if bool_decide (st_vpnPath cfg = "")
  then (w, error "config path unknown" StatusServiceUnavailable resp)
  else match b_raw b with
       | Err e => (w, error e StatusBadRequest resp)
       | Ok raw =>
           let '(f, err) := st_patch_config cfg (st_vpnPath cfg) raw (w_fs w) in
           let w := set_fs w f in
           match err with
           | Some e => (w, error e StatusInternalServerError resp)
           | None => (w, writeJSON (RStrings [("status", "saved"); ("path", st_vpnPath cfg)]) resp)
           end
       end.

Definition h_restart (cfg : settings) : api := fun w r b resp =>
  if bool_decide (r_Method r <> MethodPost) then method_not_allowed w resp
  else if negb (st_restart cfg) then (w, error "restart not configured" StatusServiceUnavailable resp)
  else (emit w Restart, writeJSON (status "restarting") resp).

(** The first rule whose action is neither allow nor deny. *)
Fixpoint bad_action (i : nat) (rs : list Rules.RuleView) : option nat :=
  match rs with
  | [] => None
  | r :: rs => if bool_decide (Rules.v_Action r <> "allow") && bool_decide (Rules.v_Action r <> "deny")
               then Some i else bad_action (Datatypes.S i) rs
  end.

Definition h_rules : api := fun w r b resp =>
  match w_rules w with
  | None => (w, error "rules engine unavailable" StatusServiceUnavailable resp)
  | Some eng =>
      if bool_decide (r_Method r = MethodGet)
      then (w, writeJSON (RRules (Rules.Path eng) (Rules.Snapshot eng)) resp)
      else if bool_decide (r_Method r = MethodPut) then
        match b_rules b with
        | Err e => (w, error e StatusBadRequest resp)
        | Ok views =>
            match bad_action 0 views with
            | Some i => (w, error ("rule " +:+ fmt_d (Z.of_nat i) +:+ ": action must be allow or deny")
                              StatusBadRequest resp)
            | None =>
                let '(eng, f, err) := Rules.Set_ eng (w_fs w) views in
                let w := set_rules w eng f in
                match err with
                | Some e => (w, error e StatusBadRequest resp)
                | None => (w, writeJSON (status "saved") resp)
                end
            end
        end
      else method_not_allowed w resp
  end.

Definition h_sessions : api := fun w r b resp => (w, writeJSON (RSessions (Sessions (w_tracker w))) resp).

Definition h_sessions_kick : api := fun w r b resp =>
  if bool_decide (r_Method r <> MethodPost) then method_not_allowed w resp
  else
    let username := Query_Get r "username" in
    let remote := Query_Get r "remote_addr" in
    if bool_decide (username = "") || bool_decide (remote = "")
    then (w, error "username and remote_addr required" StatusBadRequest resp)
    else
      let reason := or_default (Query_Get r "reason") "Session terminated by administrator" in
      let '(t, l, ok) := KickSession (w_tracker w) username remote reason in
      if negb ok then (w, writeStatus StatusNotFound (status "not_found") resp)
      else (emit (set_tracker w t) (Kick l),
            writeJSON (RStrings [("status", "kicked"); ("remote_addr", remote)]) resp).

(** The users of the store with their live figures; the last line of the
    statistics of a name counts. *)
Definition enrich (t : ConnTracker) (u : AdminUser) : enriched :=
  let stats := last (filter (fun s => us_Username s = au_Username u) (UserStats t)) in
  {| en_user := u; en_ActiveConns := default 0%nat (ActiveUsers t !! au_Username u);
     en_BytesIn := from_option us_BytesIn 0 stats; en_BytesOut := from_option us_BytesOut 0 stats;
     en_TotalTunnels := from_option us_TotalTunnels 0 stats |}.

(** The optional settings after a creation; their errors are dropped. *)
Definition create_settings (s : S) (q : create_req) : S :=
  let s := if 0 <? cr_MaxDevices q then (ad_SetMaxDevices s (cr_Username q) (cr_MaxDevices q)).1 else s in
  match ad_lifecycle with
  | None => s
  | Some lc =>
      let s := if 0 <? cr_ExpiresAt q then (al_SetExpiresAt lc s (cr_Username q) (cr_ExpiresAt q)).1 else s in
      if 0 <? cr_TrafficLimit q
      then (al_SetTrafficLimit lc s (cr_Username q) (cr_TrafficLimit q)).1 else s
  end.

Definition h_users : api := fun w r b resp =>
  match w_store w with
  | None => (w, error "user store unavailable" StatusServiceUnavailable resp)
  | Some s =>
      if bool_decide (r_Method r = MethodGet) then
        match ad_List s with
        | Err e => (w, error e StatusInternalServerError resp)
        | Ok users => (w, writeJSON (RUsers (map (enrich (w_tracker w)) users)) resp)
        end
      else if bool_decide (r_Method r = MethodPost) then
        match b_create b with
        | Err e => (w, error e StatusBadRequest resp)
        | Ok q =>
            if bool_decide (cr_Username q = "") || bool_decide (cr_Password q = "")
            then (w, error "username and password required" StatusBadRequest resp)
            else match ad_Add s (cr_Username q) (cr_Password q) with
                 | (s, Some e) => (set_store w s, error e StatusConflict resp)
                 | (s, None) => (set_store w (create_settings s q), writeJSON (status "created") resp)
                 end
        end
      else method_not_allowed w resp
  end.

(** The steps of a PATCH, in order; the first that fails ends the request with
    its error. *)
Definition patch_step : Type := S -> ConnTracker -> list effect -> S * ConnTracker * list effect * option (string * Z).

Definition store_step (code : Z) (r : S * option string) (t : ConnTracker) (l : list effect)
  : S * ConnTracker * list effect * option (string * Z) :=
  (r.1, t, l, (fun e => (e, code)) <$> r.2).

Definition patch_steps (u : string) (q : patch_req) : list patch_step :=
  let when {A} (v : option A) (f : A -> patch_step) : list patch_step :=
    match v with Some v => [f v] | None => [] end in
  let when_lc {A} (v : option A) (f : AdminLifecycle S -> A -> patch_step) : list patch_step :=
    match v, ad_lifecycle with Some v, Some lc => [f lc v] | _, _ => [] end in
  when (pt_Password q) (fun pw s t l => store_step StatusNotFound (ad_ChangePassword s u pw) t l) ++
  when (pt_MaxDevices q) (fun n s t l => store_step StatusNotFound (ad_SetMaxDevices s u n) t l) ++
  when_lc (pt_Enabled q) (fun lc (en : bool) s t l =>
    match al_SetEnabled lc s u en with
    | (s, Some e) => (s, t, l, Some (e, StatusBadRequest))
    | (s, None) => if en then (s, t, l, None)
                   else let '(t, c) := KickUser t u "Account disabled" in (s, t, l ++ [Kick c], None)
    end) ++
  when_lc (pt_ExpiresAt q) (fun lc n s t l => store_step StatusBadRequest (al_SetExpiresAt lc s u n) t l) ++
  when_lc (pt_TrafficLimit q) (fun lc n s t l => store_step StatusBadRequest (al_SetTrafficLimit lc s u n) t l) ++
  (if bool_decide (pt_ResetTraffic q = Some true) then
     match ad_lifecycle with
     | Some lc => [fun s t l => let '(s, t, e) := al_ResetTraffic lc s t u in
                                (s, t, l, (fun e => (e, StatusBadRequest)) <$> e)]
     | None => []
     end
   else []).

Fixpoint run_steps (steps : list patch_step) (s : S) (t : ConnTracker) (l : list effect)
  : S * ConnTracker * list effect * option (string * Z) :=
  match steps with
  | [] => (s, t, l, None)
  | f :: steps => match f s t l with
                  | (s, t, l, None) => run_steps steps s t l
                  | failed => failed
                  end
  end.

Definition patch_user (w : world) (s : S) (u : string) (q : patch_req) (resp : response) : world * answer :=
  let '(s, t, l, err) := run_steps (patch_steps u q) s (w_tracker w) (w_effects w) in
  let w := {| w_store := Some s; w_tracker := t; w_auth := w_auth w; w_rules := w_rules w;
              w_fs := w_fs w; w_effects := l |} in
  match err with
  | Some (e, code) => (w, error e code resp)
  | None => (invalidate w u, writeJSON (status "updated") resp)
  end.

(** The path below /api/users/, split. *)
Definition user_parts (r : request) : list string := Split "/" (TrimPrefix (r_Path r) "/api/users/").
Definition path_user (r : request) : string := default "" (head (user_parts r)).

Definition h_user : api := fun w r b resp =>
  match w_store w with
  | None => (w, error "user store unavailable" StatusServiceUnavailable resp)
  | Some s =>
      let u := path_user r in
      if bool_decide (u = "") then (w, error "username required" StatusBadRequest resp)
      else if (length (user_parts r) =? 2)%nat && bool_decide (user_parts r !! 1%nat = Some "kick") then
        if bool_decide (r_Method r <> MethodPost) then method_not_allowed w resp
        else
          let reason := or_default (Query_Get r "reason") "Account suspended by administrator" in
          (invalidate (kick_user w u reason) u, writeJSON (status "kicked") resp)
      else if bool_decide (r_Method r = MethodDelete) then
        match ad_Delete s u with
        | (s, Some e) => (set_store w s, error e StatusNotFound resp)
        | (s, None) => (invalidate (kick_user (set_store w s) u "Account deleted") u,
                        writeJSON (status "deleted") resp)
        end
      else if bool_decide (r_Method r = MethodPatch) then
        match b_patch b with
        | Err e => (w, error e StatusBadRequest resp)
        | Ok q => patch_user w s u q resp
        end
      else method_not_allowed w resp
  end.

Definition h_users_kick : api := fun w r b resp =>
  if bool_decide (r_Method r <> MethodPost) then method_not_allowed w resp
  else
    let u := Query_Get r "username" in
    if bool_decide (u = "") then (w, error "username required" StatusBadRequest resp)
    else
      let reason := or_default (Query_Get r "reason") "Account suspended by administrator" in
      (invalidate (kick_user w u reason) u,
       writeJSON (RStrings [("status", "kicked"); ("username", u)]) resp).

Definition h_users_active : api := fun w r b resp =>
  (w, writeJSON (RActive (ActiveUsers (w_tracker w))) resp).

(** The query of the Location is left out. *)
Definition h_sessions_redirect : api := fun w r b resp =>
  (w, (WriteHeader StatusTemporaryRedirect (SetHeader "Location" "/api/sessions/kick" resp), None)).

Definition h_stats : api := fun w r b resp => (w, writeJSON (RStats (UserStats (w_tracker w))) resp).

(** ** The routes: exact paths, and the subtree of /api/users/ *)

Definition routes (cfg : settings) (uptime : Z) : list (string * api) :=
  [("/api/whoami", h_whoami); ("/api/info", h_info cfg uptime); ("/api/tls/reload", h_tls_reload cfg);
   ("/api/system", h_system); ("/api/config", h_config cfg); ("/api/restart", h_restart cfg);
   ("/api/rules", h_rules); ("/api/sessions", h_sessions); ("/api/sessions/kick", h_sessions_kick);
   ("/api/users", h_users); ("/users/kick", h_users_kick); ("/users/active", h_users_active);
   ("/sessions", h_sessions); ("/sessions/kick", h_sessions_redirect); ("/stats", h_stats)].

Definition find_route (cfg : settings) (uptime : Z) (path : string) : option api :=
  match list_find (fun e => e.1 = path) (routes cfg uptime) with
  | Some (_, (_, h)) => Some h
  | None => if HasPrefix path "/api/users/" then Some h_user else None
  end.

(** *** The web interface *)

Inductive open_error := NotExist (e : string) | OtherError (e : string).

(** [spaFileSystem.Open]: what is not there is the page of the interface. *)
Definition spa_Open {File} (root : string -> File + open_error) (name : string) : File + open_error :=
  match root name with
  | inl f => inl f
  | inr (NotExist _) => root "/index.html"
  | inr e => inr e
  end.

(** The handler of "/": a file server over the directory, when there is one;
    [stat] tells whether it is there, [Dir] and [FileServer] are net/http's. *)
Definition webui {File} (stat : string -> bool) (Dir : string -> string -> File + open_error)
    (FileServer : (string -> File + open_error) -> api) (webRoot : string) : option api :=
  if negb (bool_decide (webRoot = "")) && stat webRoot then Some (FileServer (spa_Open (Dir webRoot))) else None.

(** [StartAdminAPI] serves nothing without an address and a token; a path with
    no route is the static site's.  ServeMux redirects a path that is not
    clean first, as in Server.v. *)
Definition serve (cfg : settings) (uptime : Z) (static : api) : option api :=
  if bool_decide (st_Token cfg = "") || bool_decide (st_Address cfg = "") then None
  else Some (fun w r b resp =>
    if bool_decide (r_Method r <> MethodConnect) && bool_decide (Server.cleanPath (r_Path r) <> r_Path r)
    then (w, (WriteHeader StatusTemporaryRedirect (SetHeader "Location" (Server.cleanPath (r_Path r)) resp),
              None))
    else match find_route cfg uptime (r_Path r) with
    | Some h => authMW cfg h w r b resp
    | None => static w r b resp
    end).

(** ** Lemmas *)

Lemma kick_user_revokes w u reason c :
  c ∈ conns_of (w_tracker w) u -> (IsRevoked (w_tracker (kick_user w u reason)) (Some c)).1 = true.
Proof.
  intros Hc. unfold kick_user, KickUser. cbn. rewrite revoke_all, bool_decide_true by done. done.
Qed.

Lemma invalidate_forgets w u : Auth.a_cache (w_auth (invalidate w u)) !! u = None.
Proof. cbn. apply lookup_delete_eq. Qed.

(** ** Properties *)

(** The web interface answers every path: with the file of that name, or with
    the page when there is no such file; only other errors, or a missing page,
    are reported. *)
Theorem spa_Open_spec {File} (root : string -> File + open_error) (name : string) :
  match spa_Open root name with
  | inl f => root name = inl f \/ (exists e, root name = inr (NotExist e)) /\ root "/index.html" = inl f
  | inr (NotExist e) => (exists e', root name = inr (NotExist e')) /\ root "/index.html" = inr (NotExist e)
  | inr (OtherError e) => root name = inr (OtherError e) \/ root "/index.html" = inr (OtherError e)
  end.
Proof. unfold spa_Open. destruct (root name) as [f|[e|e]] eqn:E; [by left| |by left].
  destruct (root "/index.html") as [f|[e'|e']] eqn:Ei; eauto.
Qed.

(** C15: the admin API does nothing without the token.  If a request to one of
    its routes changes any state or is answered with data, then the bearer
    token of the request, or its token parameter when there is none, is the
    configured one, and the method is not OPTIONS. *)
Theorem admin_api_guarded (cfg : settings) (uptime : Z) (static f : api) (w w' : world)
    (r : request) (b : bodies) (resp resp' : response) (rep : option reply)
  (Hserve : serve cfg uptime static = Some f)
  (Hroute : is_Some (find_route cfg uptime (r_Path r)))
  (Hf : f w r b resp = (w', (resp', rep)))
  (Heffect : w' <> w \/ is_Some rep) :
  request_token r = st_Token cfg /\ st_Token cfg <> "" /\ r_Method r <> MethodOptions.
Proof.
  assert (Hsame : forall rs, (w, (rs, None)) = (w', (resp', rep)) -> False).
  { intros rs [= -> _ <-]. destruct Heffect as [?|[? ?]]; done. }
  unfold serve in Hserve. destruct (decide (st_Token cfg = "")) as [Ht|Ht];
    [by rewrite bool_decide_true in Hserve by done|].
  rewrite bool_decide_false in Hserve by done. cbn [orb] in Hserve.
  case_bool_decide; [done|]. injection Hserve as <-.
  destruct (bool_decide _ && bool_decide _); [by apply Hsame in Hf|].
  destruct Hroute as [h Hh]. rewrite Hh in Hf. unfold authMW in Hf.
  case_bool_decide as Hm; [by apply Hsame in Hf|].
  case_bool_decide as Htok; [by apply Hsame in Hf|].
  done.
Qed.

(** C16: a change of an account takes effect at once.  When the API reports
    success for a kick, a deletion or an edit of a user, the authenticator has
    no cached entry of that user any more; after a kick or a deletion every
    connection listed for the user is revoked; and a deletion was carried out
    by the store. *)
Theorem user_change_takes_effect (w w' : world) (r : request) (b : bodies)
    (resp resp' : response) (v : reply)
  (Hok : h_user w r b resp = (w', (resp', Some v))) :
  let u := path_user r in
  Auth.a_cache (w_auth w') !! u = None /\
  (r_Method r <> MethodPatch -> forall c, c ∈ conns_of (w_tracker w) u ->
     (IsRevoked (w_tracker w') (Some c)).1 = true) /\
  (r_Method r = MethodDelete ->
     exists s s', w_store w = Some s /\ ad_Delete s u = (s', None) /\ w_store w' = Some s').
Proof.
  cbn zeta. unfold h_user in Hok. destruct (w_store w) as [s|] eqn:Es; [|done].
  case_bool_decide; [done|]. destruct (_ && _).
  { case_bool_decide as Hm; [done|]. injection Hok as <- _ _.
    split_and!; [apply invalidate_forgets|by intros; apply kick_user_revokes|by rewrite Hm]. }
  case_bool_decide as Hd.
  { destruct (ad_Delete s (path_user r)) as [s' [e|]] eqn:E; [done|]. injection Hok as <- _ _.
    split_and!; [apply invalidate_forgets|by intros; apply kick_user_revokes|]. intros _.
    by exists s, s'. }
  case_bool_decide as Hp; [|done]. destruct (b_patch b) as [q|]; [|done].
  unfold patch_user in Hok. destruct (run_steps _ _ _ _) as [[[s' t] l] [[e code]|]]; [done|].
  injection Hok as <- _ _. split_and!; [apply invalidate_forgets|by rewrite Hp|done].
Qed.

(** An edit that fails half way leaves the old password working.  When the
    password was changed but the next step fails, the store keeps the new
    password, and the cache, with the old one, is not invalidated. *)
Theorem patch_error_keeps_cache (w : world) (s s1 s2 : S) (u pw e : string) (n : Z) (q : patch_req)
    (resp : response)
  (Hpw : pt_Password q = Some pw) (Hn : pt_MaxDevices q = Some n)
  (H1 : ad_ChangePassword s u pw = (s1, None)) (H2 : ad_SetMaxDevices s1 u n = (s2, Some e)) :
  let '(w', (resp', _)) := patch_user w s u q resp in
  w_store w' = Some s2 /\ w_auth w' = w_auth w /\ resp' = http_Error e StatusNotFound resp.
Proof.
  unfold patch_user, patch_steps. rewrite Hpw, Hn. cbn [app run_steps]. unfold store_step.
  rewrite H1. cbn. rewrite H2. done.
Qed.

(** A new account can be refused by an old answer.  Creating a user does
    not touch the authenticator: while it remembers that the name was unknown,
    requests with the new credentials are rejected. *)
Theorem created_user_refused {T} `{AuthStore.UserStore T} (w w' : world) (r r' : request) (b : bodies)
    (resp resp' : response) (v : reply) (e : Auth.cacheEntry) (st : T) (now : Z) (u pw : string)
  (Hpost : r_Method r = MethodPost) (Hok : h_users w r b resp = (w', (resp', Some v)))
  (Hneg : Auth.a_cache (w_auth w) !! u = Some e) (Hnf : Auth.ce_notFound e = true)
  (Hlive : now < Auth.ce_cacheExpiresAt e)
  (Hcred : Auth.basic_credentials r' = Some (u, pw)) :
  (Auth.CheckExt (w_auth w') st now r').2 = Auth.denied "" Auth.DenyBadCreds.
Proof.
  assert (Ha : w_auth w' = w_auth w).
  { unfold h_users in Hok. destruct (w_store w); [|done].
    rewrite Hpost in Hok. rewrite bool_decide_false, bool_decide_true in Hok by done.
    destruct (b_create b) as [q|]; [|done]. destruct (_ || _); [done|].
    destruct (ad_Add _ _ _) as [s' [msg|]]; [done|]. by injection Hok as <- _ _. }
  unfold Auth.CheckExt. unfold Auth.basic_credentials in Hcred. rewrite Hcred, Ha.
  unfold Auth.lookupEntry. rewrite Hneg. destruct (Z.ltb_spec now (Auth.ce_cacheExpiresAt e)); [|lia].
  by rewrite Hnf.
Qed.
End api.
Arguments world : clear implicits.

(** A store in memory: passwords only; device limits are refused. *)
Definition mem_store : Type := gmap string string.
#[local] Instance ex_mem : AdminUserStore mem_store := {|
  ad_List m := Ok (map (fun kv => {| au_Username := kv.1; au_MaxDevices := 0; au_Enabled := true;
    au_ExpiresAt := 0; au_TrafficLimit := 0; au_TrafficUsed := 0 |}) (map_to_list m));
  ad_Add m u pw := match m !! u with Some _ => (m, Some "exists") | None => (<[u := pw]> m, None) end;
  ad_Delete m u := match m !! u with Some _ => (delete u m, None) | None => (m, Some "not found") end;
  ad_ChangePassword m u pw := (<[u := pw]> m, None);
  ad_SetMaxDevices m u n := (m, Some "read only");
  ad_lifecycle := None;
|}.
#[local] Instance ex_tables : UnicodeTables := {| uni_IsPrint := fun _ => false |}.
#[local] Instance ex_users : AuthStore.UserStore unit :=
  {| AuthStore.GetPassword _ _ := Ok "secret"; AuthStore.GetMaxDevices := None;
     AuthStore.GetLifecycle := None |}.

Definition ex_conn : Conn := {| c_id := 1; c_addr := "198.51.100.7:4000" |}.
Definition ex_auth : Auth.Authenticator :=
  Auth.set_entry (Auth.New 0) "ann" (Auth.negative_entry 1000).
Definition ex_world (m : mem_store) : world mem_store :=
  {| w_store := Some m; w_tracker := Register empty_tracker "ann" (Some ex_conn) 1;
     w_auth := ex_auth; w_rules := None; w_fs := {| fs_files := ∅; fs_locked := ∅; fs_full := ∅ |}; w_effects := [] |}.
Definition ex_settings : settings :=
  {| st_Address := "127.0.0.1:9090"; st_Token := "tok"; st_vpnPath := ""; st_tls_reload := None;
     st_patch_config := fun _ _ f => (f, Some "no"); st_restart := false |}.
Definition ex_req (m p : string) : request :=
  {| r_Method := m; r_Host := "127.0.0.1:9090"; r_URLHost := ""; r_Path := p; r_Query := ∅;
     r_Header := Header_Set ∅ "Authorization" "Bearer tok"; r_RemoteAddr := "127.0.0.1:5";
     r_ProtoMajor := 1 |}.
Definition ex_create : create_req :=
  {| cr_Username := "ann"; cr_Password := "secret"; cr_MaxDevices := 0; cr_ExpiresAt := 0;
     cr_TrafficLimit := 0 |}.
Definition ex_patch : patch_req :=
  {| pt_Password := Some "new"; pt_MaxDevices := Some 3; pt_Enabled := None; pt_ExpiresAt := None;
     pt_TrafficLimit := None; pt_ResetTraffic := None |}.
Definition ex_bodies : bodies :=
  {| b_raw := Err "EOF"; b_rules := Err "EOF"; b_create := Ok ex_create; b_patch := Ok ex_patch |}.
Definition ex_static : api (S := mem_store) := fun w _ _ resp => (w, error "404 page not found" StatusNotFound resp).

Lemma admin_api_guarded_witness : request_token (ex_req MethodGet "/api/whoami") = st_Token ex_settings.
Proof.
  eapply (admin_api_guarded ex_settings 0 ex_static _ (ex_world ∅) _ (ex_req MethodGet "/api/whoami")
    ex_bodies new_response).
  - reflexivity.
  - vm_compute. eexists. reflexivity.
  - reflexivity.
  - right. vm_compute. eexists. reflexivity.
Defined.

Lemma user_change_takes_effect_witness :
  let w' := (h_user (ex_world {["ann" := "pw"]}) (ex_req MethodDelete "/api/users/ann") ex_bodies new_response).1 in
  (IsRevoked (w_tracker w') (Some ex_conn)).1 = true.
Proof.
  refine (proj1 (proj2 (user_change_takes_effect (ex_world {["ann" := "pw"]}) _
    (ex_req MethodDelete "/api/users/ann") ex_bodies new_response _ (status "deleted") _)) _ ex_conn _).
  - reflexivity.
  - discriminate.
  - vm_compute. constructor.
Defined.

Lemma patch_error_keeps_cache_witness :
  let '(w', _) := patch_user (ex_world {["ann" := "pw"]}) {["ann" := "pw"]} "ann" ex_patch new_response in
  w_auth w' = ex_auth.
Proof.
  pose proof (patch_error_keeps_cache (ex_world {["ann" := "pw"]}) {["ann" := "pw"]} {["ann" := "new"]}
    {["ann" := "new"]} "ann" "new" "read only" 3 ex_patch new_response eq_refl eq_refl eq_refl eq_refl) as H.
  destruct (patch_user (ex_world {["ann" := "pw"]}) {["ann" := "pw"]} "ann" ex_patch new_response)
    as [w' [resp' rep]]. exact (proj1 (proj2 H)).
Defined.

Lemma created_user_refused_witness :
  let w' := (h_users (ex_world ∅) (ex_req MethodPost "/api/users") ex_bodies new_response).1 in
  (Auth.CheckExt (w_auth w') tt 500 Auth.ex_request).2 = Auth.denied "" Auth.DenyBadCreds.
Proof.
  refine (created_user_refused (ex_world ∅) _ (ex_req MethodPost "/api/users") Auth.ex_request ex_bodies
    new_response _ (status "created") (Auth.negative_entry 1000) tt 500 "ann" "secret" _ _ _ _ _ _).
  - reflexivity.
  - reflexivity.
  - reflexivity.
  - reflexivity.
  - reflexivity.
  - vm_compute. reflexivity.
Defined.
