(* ===== verification/AdminClient.v ===== *)
(** internal/admin/apiclient.go: the client of the admin API, over the API's
    own handler.  The network gives the handler an address leads to, or an
    error. *)
From S2P Require Import Prelude GoStrings GoHttp ConnTracker AdminApi.
From S2P Require Auth.
#[local] Open Scope Z_scope.

Record AdminClient := { Address : string; Token : string }.

(** The client's copies of the server's types. *)
Record SessionInfo := {
  c_Username : string; c_RemoteAddr : string; c_ConnectedAt : Z;
  c_BytesIn : Z; c_BytesOut : Z; c_OpenTunnels : Z; c_TotalTunnels : Z;
}.
Record UserStats := {
  s_Username : string; s_ActiveConns : Z; s_BytesIn : Z; s_BytesOut : Z;
  s_OpenTunnels : Z; s_TotalTunnels : Z; s_FirstSeenAt : Z;
}.

Definition session_of (x : ConnTracker.SessionInfo) : SessionInfo :=
  {| c_Username := si_Username x; c_RemoteAddr := si_RemoteAddr x; c_ConnectedAt := si_ConnectedAt x;
     c_BytesIn := si_BytesIn x; c_BytesOut := si_BytesOut x; c_OpenTunnels := si_OpenTunnels x;
     c_TotalTunnels := si_TotalTunnels x |}.
Definition stats_of (x : UserStats_) : UserStats :=
  {| s_Username := us_Username x; s_ActiveConns := us_ActiveConns x; s_BytesIn := us_BytesIn x;
     s_BytesOut := us_BytesOut x; s_OpenTunnels := us_OpenTunnels x; s_TotalTunnels := us_TotalTunnels x;
     s_FirstSeenAt := us_FirstSeenAt x |}.

Section client.
Context {UT : UnicodeTables} {S : Type} `{AdminUserStore S}.

Variable net : string -> res (api (S := S)).

(** Requests have no body. *)
Definition no_body : bodies :=
  {| b_raw := Ok ""; b_rules := Err "EOF"; b_create := Err "EOF"; b_patch := Err "EOF" |}.

Definition make_request (c : AdminClient) (method path raw : string) : request :=
  {| r_Method := method; r_Host := Address c; r_URLHost := Address c; r_Path := path;
     r_Query := ParseQuery raw; r_Header := Header_Set ∅ "Authorization" ("Bearer " +:+ Token c);
     r_RemoteAddr := ""; r_ProtoMajor := 1 |}.

(** [http.DefaultClient.Do] on a request without a body: a redirect is followed
    with the same method, headers and query, ten times at most.  A request line
    with a space in its target is malformed, and refused with 400. *)
Fixpoint follow (fuel : nat) (h : api) (c : AdminClient) (method path raw : string) (w : world S)
  : world S * res answer :=
  match fuel with
  | O => (w, Err "stopped after 10 redirects")
  | Datatypes.S fuel =>
      if has_char " "%char (path +:+ raw)
      then (w, Ok (http_Error "400 Bad Request" StatusBadRequest new_response, None))
      else
        let '(w, (resp, rep)) := h w (make_request c method path raw) no_body new_response in
        let loc := Header_Get (w_sent resp) "Location" in
        if (final_status resp =? StatusTemporaryRedirect) && bool_decide (loc <> "")
        then follow fuel h c method loc raw w
        else (w, Ok (resp, rep))
  end.

Definition Do (c : AdminClient) (method target : string) (w : world S) : world S * res answer :=
  match parse_target target with
  | Err e => (w, Err ("parse " +:+ Quote (Address c +:+ target) +:+ ": " +:+ e))
  | Ok (path, raw) =>
      match net (Address c) with
      | Err e => (w, Err e)
      | Ok h => follow 11 h c method path raw w
      end
  end.

Definition api_error (path : string) (resp : response) : string :=
  "admin api " +:+ path +:+ ": " +:+ status_line (final_status resp).

Definition post (c : AdminClient) (path : string) (w : world S) : world S * option string :=
  match Do c MethodPost path w with
  | (w, Err e) => (w, Some e)
  | (w, Ok (resp, _)) =>
      (w, if final_status resp =? StatusOK then None else Some (api_error path resp))
  end.

(** Nil, or not configured. *)
Definition usable (c : option AdminClient) : option AdminClient :=
  match c with
  | Some c => if bool_decide (Address c = "") || bool_decide (Token c = "") then None else Some c
  | None => None
  end.

Definition KickUser (c : option AdminClient) (username : string) (w : world S) : world S * option string :=
  match usable c with
  | None => (w, None)
  | Some c => post c ("/users/kick?username=" +:+ username) w
  end.

Definition KickSession (c : option AdminClient) (username remoteAddr : string) (w : world S)
  : world S * option string :=
  match usable c with
  | None => (w, None)
  | Some c => post c ("/sessions/kick?" +:+ ("username=" +:+ username +:+ "&remote_addr=" +:+ remoteAddr)) w
  end.

(** The JSON of an answer, decoded by [dec]; other documents do not fit the
    type asked for. *)
Definition getJSON {A} (dec : reply -> option A) (c : AdminClient) (path : string) (w : world S)
  : world S * res A :=
  match Do c MethodGet path w with
  | (w, Err e) => (w, Err e)
  | (w, Ok (resp, rep)) =>
      (w, if negb (final_status resp =? StatusOK) then Err (api_error path resp)
          else match rep ≫= dec with Some a => Ok a | None => Err "json: cannot unmarshal" end)
  end.

(** Only the address is needed here. *)
Definition addressed (c : option AdminClient) : option AdminClient :=
  match c with
  | Some c => if bool_decide (Address c = "") then None else Some c
  | None => None
  end.

(** A nil map or slice stands for no client. *)
Definition read {A} (empty : A) (dec : reply -> option A) (path : string) (c : option AdminClient)
    (w : world S) : world S * res A :=
  match addressed c with
  | None => (w, Ok empty)
  | Some c => getJSON dec c path w
  end.

Definition ActiveUsers : option AdminClient -> world S -> world S * res (gmap string nat) :=
  read ∅ (fun r => match r with RActive m => Some m | _ => None end) "/users/active".

Definition Sessions : option AdminClient -> world S -> world S * res (list SessionInfo) :=
  read [] (fun r => match r with RSessions l => Some (map session_of l) | _ => None end) "/sessions".

Definition UserStats_of : option AdminClient -> world S -> world S * res (list UserStats) :=
  read [] (fun r => match r with RStats l => Some (map stats_of l) | _ => None end) "/stats".
End client.

(** ** Lemmas *)

(** The queries of the two kicks, read back. *)
Lemma ParseQuery_one k v :
  query_pair (k +:+ String "="%char v) = Some (k, v) ->
  has_char "&"%char (k +:+ String "="%char v) = false ->
  ParseQuery (k +:+ String "="%char v) = {[ k := v ]}.
Proof. intros H Hs. unfold ParseQuery. rewrite Split_no_char by done. cbn. by rewrite H. Qed.

Lemma ParseQuery_two k1 v1 rest k2 v2 :
  query_pair (k1 +:+ String "="%char v1) = Some (k1, v1) ->
  has_char "&"%char (k1 +:+ String "="%char v1) = false ->
  rest = k2 +:+ String "="%char v2 ->
  query_pair rest = Some (k2, v2) -> has_char "&"%char rest = false ->
  ParseQuery ((k1 +:+ String "="%char v1) +:+ String "&"%char rest) = <[k1 := v1]> {[ k2 := v2 ]}.
Proof.
  intros H1 Hs1 -> H2 Hs2. unfold ParseQuery. rewrite Split_app, Split_no_char by done.
  cbn [omap list_omap]. by rewrite H1, H2.
Qed.

Lemma parse_target_query path raw :
  has_char "#"%char (path +:+ String "?"%char raw) = false ->
  has_ctl (path +:+ String "?"%char raw) = false -> has_char "?"%char path = false ->
  parse_target (path +:+ String "?"%char raw) = Ok (path, raw).
Proof.
  intros H1 H2 H3. unfold parse_target. destruct (Cut "#"%char _) as [[u f]|] eqn:E.
  - apply Cut_None in H1. by rewrite H1 in E.
  - rewrite H2. cbn. by rewrite (Cut_app _ _ _ H3).
Qed.

Section served.
#[local] Set Default Proof Using "Hserve Htoken".
Context {UT : UnicodeTables} {S : Type} `{AdminUserStore S}.
Variables (net : string -> res (api (S := S))) (cfg : settings) (uptime : Z) (static f : api (S := S)).
Variable c : AdminClient.
Hypothesis Hserve : serve cfg uptime static = Some f.
Hypothesis Hnet : net (Address c) = Ok f.
Hypothesis Htoken : Token c = st_Token cfg.

Lemma token_set : st_Token cfg <> "".
Proof using Hserve. intros E. unfold serve in Hserve. by rewrite (bool_decide_true _ E) in Hserve. Qed.

(** A request with the token to a clean path reaches the handler of the route. *)
Lemma served method path raw h w :
  method <> MethodConnect -> method <> MethodOptions ->
  Server.cleanPath path = path -> find_route cfg uptime path = Some h ->
  f w (make_request c method path raw) no_body new_response =
  h w (make_request c method path raw) no_body (setCORS new_response).
Proof.
  clear Hnet net. intros Hm Ho Hc Hr. pose proof token_set as Ht. unfold serve in Hserve.
  destruct (_ || _); [done|]. injection Hserve as <-. cbn [r_Method r_Path make_request].
  rewrite Hc, (bool_decide_false (path <> path)) by (intros X; done). rewrite andb_false_r, Hr.
  unfold authMW. cbn [r_Method make_request]. rewrite (bool_decide_false (method = _)) by done.
  rewrite bool_decide_false; [done|]. intros Hne. apply Hne. unfold request_token.
  cbn [r_Header make_request]. rewrite Header_Get_Set_eq, TrimPrefix_app, Htoken.
  by rewrite bool_decide_false.
Qed.

Lemma follow_once n method path raw h w w' resp rep :
  method <> MethodConnect -> method <> MethodOptions ->
  Server.cleanPath path = path -> find_route cfg uptime path = Some h ->
  has_char " "%char (path +:+ raw) = false ->
  h w (make_request c method path raw) no_body (setCORS new_response) = (w', (resp, rep)) ->
  follow (Datatypes.S n) f c method path raw w =
  if (final_status resp =? StatusTemporaryRedirect) && bool_decide (Header_Get (w_sent resp) "Location" <> "")
  then follow n f c method (Header_Get (w_sent resp) "Location") raw w' else (w', Ok (resp, rep)).
Proof.
  intros Hm Ho Hc Hr Hs Hh. cbn [follow]. rewrite Hs, (served _ _ _ h) by done. by rewrite Hh.
Qed.

(** A read. *)
Lemma getJSON_read {A} (dec : reply -> option A) path h w rep a :
  has_char "?"%char path = false -> has_char "#"%char path = false -> has_ctl path = false ->
  has_char " "%char path = false ->
  Server.cleanPath path = path -> find_route cfg uptime path = Some h ->
  (forall r resp, h w r no_body resp = (w, writeJSON rep resp)) -> dec rep = Some a ->
  getJSON net dec c path w = (w, Ok a).
Proof using Hserve Hnet Htoken.
  intros Hq Hf Hc Hsp Hcl Hr Hh Hd. unfold getJSON, Do.
  assert (Hp : parse_target path = Ok (path, "")).
  { unfold parse_target. apply Cut_None in Hf, Hq. rewrite Hf, Hc. cbn. by rewrite Hq. }
  rewrite Hp, Hnet. erewrite follow_once; [|done..|by rewrite sapp_nil_r|apply Hh].
  cbn. by rewrite Hd.
Qed.

(** What the three reads give; they change nothing on the server. *)
Lemma reads_served w : Address c <> "" ->
  ActiveUsers net (Some c) w = (w, Ok (ConnTracker.ActiveUsers (w_tracker w))) /\
  Sessions net (Some c) w = (w, Ok (map session_of (ConnTracker.Sessions (w_tracker w)))) /\
  UserStats_of net (Some c) w = (w, Ok (map stats_of (ConnTracker.UserStats (w_tracker w)))).
Proof using Hserve Hnet Htoken.
  intros Ha. assert (Had : addressed (Some c) = Some c) by (unfold addressed; by rewrite bool_decide_false).
  split_and!.
  - unfold ActiveUsers, read. rewrite Had.
    by apply (getJSON_read _ _ h_users_active) with (rep := RActive (ConnTracker.ActiveUsers (w_tracker w))).
  - unfold Sessions, read. rewrite Had.
    by apply (getJSON_read _ _ h_sessions) with (rep := RSessions (ConnTracker.Sessions (w_tracker w))).
  - unfold UserStats_of, read. rewrite Had.
    by apply (getJSON_read _ _ h_stats) with (rep := RStats (ConnTracker.UserStats (w_tracker w))).
Qed.
End served.

(** ** Properties *)

(** Characters of a text put together from constants and safe names. *)
Ltac scan_text := repeat (rewrite ?has_char_app, ?has_ctl_app; cbn [has_char has_ctl]);
  repeat match goal with H : has_char _ _ = false |- _ => rewrite !H | H : has_ctl _ = false |- _ => rewrite !H end;
  done.

(** The query of a kick carries a safe name unchanged. *)
Lemma kick_target u :
  query_safe u = true ->
  parse_target ("/users/kick?username=" +:+ u) = Ok ("/users/kick", "username=" +:+ u) /\
  ParseQuery ("username=" +:+ u) = {[ "username" := u ]} /\
  has_char " "%char ("/users/kick" +:+ ("username=" +:+ u)) = false.
Proof.
  intros Hu. pose proof (query_safe_spec u Hu) as (H1 & H2 & H3 & H4 & H5 & H6 & H7 & H8).
  change ("username=" +:+ u) with ("username" +:+ String "="%char u). split_and!.
  - apply (parse_target_query "/users/kick" ("username" +:+ String "="%char u)); [scan_text..|done].
  - apply ParseQuery_one; [by apply query_pair_plain|scan_text].
  - scan_text.
Qed.

Lemma session_target u a :
  query_safe u = true -> query_safe a = true ->
  let raw := "username=" +:+ u +:+ "&remote_addr=" +:+ a in
  parse_target ("/sessions/kick?" +:+ raw) = Ok ("/sessions/kick", raw) /\
  ParseQuery raw = <["username" := u]> {[ "remote_addr" := a ]} /\
  has_char " "%char ("/sessions/kick" +:+ raw) = false /\
  has_char " "%char ("/api/sessions/kick" +:+ raw) = false.
Proof.
  intros Hu Ha. pose proof (query_safe_spec u Hu) as (H1 & H2 & H3 & H4 & H5 & H6 & H7 & H8).
  pose proof (query_safe_spec a Ha) as (A1 & A2 & A3 & A4 & A5 & A6 & A7 & A8). cbn zeta.
  set (rest := "remote_addr" +:+ String "="%char a).
  assert (Hraw : "username=" +:+ u +:+ "&remote_addr=" +:+ a =
                 ("username" +:+ String "="%char u) +:+ String "&"%char rest) by (by rewrite sapp_assoc).
  rewrite Hraw. subst rest. split_and!.
  - apply (parse_target_query "/sessions/kick"); [scan_text..|done].
  - apply ParseQuery_two with (k2 := "remote_addr") (v2 := a); [by apply query_pair_plain|scan_text|done|
      by apply query_pair_plain|scan_text].
  - scan_text.
  - scan_text.
Qed.

Section remote.
Context {UT : UnicodeTables} {S : Type} `{AdminUserStore S}.

Lemma kick_session_runs (w : world S) (r : request) u a resp :
  r_Method r = MethodPost -> r_Query r = <["username" := u]> {[ "remote_addr" := a ]} ->
  u <> "" -> a <> "" ->
  h_sessions_kick w r no_body resp =
  let '(t, l, ok) := ConnTracker.KickSession (w_tracker w) u a "Session terminated by administrator" in
  if ok then (emit (set_tracker w t) (Kick l),
              writeJSON (RStrings [("status", "kicked"); ("remote_addr", a)]) resp)
  else (w, writeStatus StatusNotFound (status "not_found") resp).
Proof.
  intros Hm Hq Hu Ha. unfold h_sessions_kick, Query_Get. rewrite Hm, Hq.
  rewrite (bool_decide_false (MethodPost <> MethodPost)) by (intros X; done).
  set (q := <["username" := u]> _).
  assert (q !! "username" = Some u) as -> by apply lookup_insert_eq.
  assert (q !! "remote_addr" = Some a) as ->
    by (unfold q; rewrite lookup_insert_ne by done; apply lookup_singleton_eq).
  assert (q !! "reason" = None) as ->
    by (unfold q; rewrite lookup_insert_ne, lookup_singleton_ne by done; done).
  cbn [default from_option id].
  rewrite (bool_decide_false (u = "")), (bool_decide_false (a = "")) by done. cbn [orb].
  unfold or_default. rewrite (bool_decide_true ("" = "")) by done.
  by destruct (ConnTracker.KickSession _ _ _ _) as [[t l] [|]].
Qed.

(** A kick of a user is the kick on the server. *)
Lemma client_kicks (net : string -> res (api (S := S))) (cfg : settings) (uptime : Z)
    (static f : api (S := S)) (c : AdminClient) (w : world S) (u : string) :
  serve cfg uptime static = Some f -> net (Address c) = Ok f -> Address c <> "" ->
  Token c = st_Token cfg -> query_safe u = true /\ u <> "" ->
  KickUser net (Some c) u w = (invalidate (kick_user w u "Account suspended by administrator") u, None).
Proof.
  intros Hserve Hnet Haddr Htoken [Hu Hu0]. pose proof (token_set cfg uptime static f Hserve) as Ht.
  assert (Hus : usable (Some c) = Some c).
  { unfold usable. by rewrite !bool_decide_false by (rewrite ?Htoken; done). }
  destruct (kick_target u Hu) as (Hp & Hq & Hs). unfold KickUser, post, Do. rewrite Hus, Hp, Hnet.
  erewrite (follow_once cfg uptime static f c Hserve Htoken) with (h := h_users_kick); [|done..|].
  2:{ unfold h_users_kick, Query_Get. cbn [r_Method r_Query make_request]. rewrite Hq.
      rewrite bool_decide_false by (intros X; done). rewrite lookup_singleton_eq.
      rewrite lookup_singleton_ne by done. cbn [default from_option id].
      rewrite (bool_decide_false (u = "")) by done. reflexivity. }
  reflexivity.
Qed.

(** C17: the operations of the client are the operations of the server.  For
    a client with the server's address and token, and a user name and remote
    address that need no escaping in a query: kicking a user invalidates and
    kicks that user on the server; kicking a session revokes the session the
    tracker finds, following the redirect to the new path, and reports 404 when
    there is none; the three reads return the tracker's data and change nothing. *)
Theorem client_operates_server (net : string -> res (api (S := S))) (cfg : settings) (uptime : Z)
    (static f : api (S := S)) (c : AdminClient) (w : world S) (u a : string)
  (Hserve : serve cfg uptime static = Some f)
  (Hnet : net (Address c) = Ok f) (Haddr : Address c <> "")
  (Htoken : Token c = st_Token cfg)
  (Hu : query_safe u = true /\ u <> "") (Ha : query_safe a = true /\ a <> "") :
  KickUser net (Some c) u w =
    (invalidate (kick_user w u "Account suspended by administrator") u, None) /\
  KickSession net (Some c) u a w =
    (let '(t, l, ok) := ConnTracker.KickSession (w_tracker w) u a "Session terminated by administrator" in
     if ok then (emit (set_tracker w t) (Kick l), None)
     else (w, Some ("admin api /sessions/kick?username=" +:+ u +:+ "&remote_addr=" +:+ a +:+ ": 404 Not Found"))) /\
  ActiveUsers net (Some c) w = (w, Ok (ConnTracker.ActiveUsers (w_tracker w))) /\
  Sessions net (Some c) w = (w, Ok (map session_of (ConnTracker.Sessions (w_tracker w)))) /\
  UserStats_of net (Some c) w = (w, Ok (map stats_of (ConnTracker.UserStats (w_tracker w)))).
Proof.
  destruct Hu as [Hu Hu0], Ha as [Ha Ha0]. pose proof (token_set cfg uptime static f Hserve) as Ht.
  assert (Hus : usable (Some c) = Some c).
  { unfold usable. by rewrite !bool_decide_false by (rewrite ?Htoken; done). }
  split_and!.
  - by apply (client_kicks net cfg uptime static f).
  - destruct (session_target u a Hu Ha) as (Hp & Hq & Hs & Hs').
    unfold KickSession, post, Do. rewrite Hus, Hp, Hnet. set (raw := "username=" +:+ _) in *.
    erewrite (follow_once cfg uptime static f c Hserve Htoken) with (h := h_sessions_redirect); [|done..].
    cbn [andb]. unfold h_sessions_redirect. change (Header_Get _ _) with "/api/sessions/kick".
    rewrite (bool_decide_true ("/api/sessions/kick" <> "")) by done.
    change (if (_ =? StatusTemporaryRedirect) && true then ?x else _) with x.
    pose proof (kick_session_runs w (make_request c MethodPost "/api/sessions/kick" raw) u a) as Hk.
    cbn [r_Method r_Query make_request] in Hk. specialize (Hk (setCORS new_response) eq_refl Hq Hu0 Ha0).
    destruct (ConnTracker.KickSession _ _ _ _) as [[t l] [|]];
      (erewrite (follow_once cfg uptime static f c Hserve Htoken) with (h := h_sessions_kick); [|done..|exact Hk]);
      [reflexivity|].
    set (resp := WriteHeader _ _). assert (Hst : final_status resp = StatusNotFound) by reflexivity.
    rewrite Hst. cbn [Z.eqb Pos.eqb andb StatusNotFound StatusTemporaryRedirect StatusOK].
    unfold api_error. rewrite Hst. change (status_line StatusNotFound) with "404 Not Found".
    unfold raw. by rewrite !sapp_assoc.
  - by apply (reads_served net cfg uptime static f c Hserve Hnet Htoken w Haddr).
  - by apply (reads_served net cfg uptime static f c Hserve Hnet Htoken w Haddr).
  - by apply (reads_served net cfg uptime static f c Hserve Hnet Htoken w Haddr).
Qed.

(** A kick can hit another user.  The client puts the name into the query
    unescaped: kicking the user whose name is [u & rest] kicks and invalidates
    [u], when [rest] is a text without ampersand that is no reason and no
    name of its own. *)
Theorem kick_hits_other_user (net : string -> res (api (S := S))) (cfg : settings) (uptime : Z)
    (static f : api (S := S)) (c : AdminClient) (w : world S) (u rest : string)
  (Hserve : serve cfg uptime static = Some f)
  (Hnet : net (Address c) = Ok f) (Haddr : Address c <> "")
  (Htoken : Token c = st_Token cfg)
  (Hu : query_safe u = true /\ u <> "") (Hrest : query_safe rest = true)
  (Hplain : has_char "="%char rest = false) (Hkey : rest <> "username" /\ rest <> "reason") :
  KickUser net (Some c) (u +:+ "&" +:+ rest) w =
    (invalidate (kick_user w u "Account suspended by administrator") u, None).
Proof.
  destruct Hu as [Hu Hu0], Hkey as [Hk1 Hk2]. pose proof (token_set cfg uptime static f Hserve) as Ht.
  pose proof (query_safe_spec u Hu) as (H1 & H2 & H3 & H4 & H5 & H6 & H7 & H8).
  pose proof (query_safe_spec rest Hrest) as (A1 & A2 & A3 & A4 & A5 & A6 & A7 & A8).
  assert (Hus : usable (Some c) = Some c).
  { unfold usable. by rewrite !bool_decide_false by (rewrite ?Htoken; done). }
  set (raw := "username" +:+ String "="%char (u +:+ String "&"%char rest)).
  assert (Hp : parse_target ("/users/kick?username=" +:+ (u +:+ "&" +:+ rest)) = Ok ("/users/kick", raw)).
  { apply (parse_target_query "/users/kick" raw); unfold raw; [scan_text..|done]. }
  unfold KickUser, post, Do. rewrite Hus, Hp, Hnet.
  assert (Hget : ParseQuery raw !! "username" = Some u /\ ParseQuery raw !! "reason" = None).
  { unfold raw, ParseQuery. replace ("username" +:+ String "="%char (u +:+ String "&"%char rest))
      with (("username" +:+ String "="%char u) +:+ String "&"%char rest) by (by rewrite sapp_assoc).
    rewrite Split_app by scan_text. rewrite (Split_no_char _ rest) by scan_text. cbn [omap list_omap].
    rewrite query_pair_plain by done.
    assert (Hq : query_pair rest = None \/ query_pair rest = Some (rest, "")).
    { unfold query_pair. destruct (_ || _); [by left|right].
      apply Cut_None in Hplain. rewrite Hplain. cbn. by rewrite QueryUnescape_plain. }
    destruct Hq as [-> | ->]; cbn [foldr fst snd]; rewrite lookup_insert_eq, lookup_insert_ne by done;
      (split; [done|]); [by rewrite lookup_empty|]. by rewrite lookup_insert_ne, lookup_empty. }
  destruct Hget as [Hg1 Hg2].
  erewrite (follow_once cfg uptime static f c Hserve Htoken) with (h := h_users_kick);
    [|done..|unfold raw; scan_text|].
  2:{ unfold h_users_kick, Query_Get. cbn [r_Method r_Query make_request]. rewrite Hg1, Hg2.
      rewrite bool_decide_false by (intros X; done). cbn [default from_option id].
      rewrite (bool_decide_false (u = "")) by done. reflexivity. }
  reflexivity.
Qed.
End remote.

(** ** Witnesses *)

#[local] Existing Instances ex_mem ex_tables.

Definition ex_client : AdminClient := {| Address := "http://127.0.0.1:9090"; Token := "tok" |}.
Definition ex_handler := default ex_static (serve ex_settings 0 ex_static).
Definition ex_net (addr : string) : res api :=
  if bool_decide (addr = "http://127.0.0.1:9090") then Ok ex_handler else Err "connection refused".

Lemma client_operates_server_witness :
  let w := ex_world {["ann" := "pw"]} in
  (IsRevoked (w_tracker (KickSession ex_net (Some ex_client) "ann" "198.51.100.7:4000" w).1) (Some ex_conn)).1 = true
  /\ (ActiveUsers ex_net (Some ex_client) w).2 = Ok {["ann" := 1%nat]}.
Proof.
  cbn zeta. destruct (client_operates_server ex_net ex_settings 0 ex_static ex_handler ex_client
    (ex_world {["ann" := "pw"]}) "ann" "198.51.100.7:4000"
    ltac:(reflexivity) ltac:(reflexivity) ltac:(discriminate) ltac:(reflexivity)
    ltac:(split; [reflexivity|discriminate]) ltac:(split; [reflexivity|discriminate])) as (_ & Hk & Ha & _).
  rewrite Hk, Ha. split; vm_compute; reflexivity.
Defined.

Lemma kick_hits_other_user_witness :
  let w := ex_world {["ann" := "pw"]} in
  (IsRevoked (w_tracker (KickUser ex_net (Some ex_client) "ann&co" w).1) (Some ex_conn)).1 = true.
Proof.
  cbn zeta. change "ann&co" with ("ann" +:+ "&" +:+ "co").
  rewrite (kick_hits_other_user ex_net ex_settings 0 ex_static ex_handler ex_client
    (ex_world {["ann" := "pw"]}) "ann" "co"
    ltac:(reflexivity) ltac:(reflexivity) ltac:(discriminate) ltac:(reflexivity)
    ltac:(split; [reflexivity|discriminate]) ltac:(reflexivity) ltac:(reflexivity) ltac:(split; discriminate)).
  vm_compute. reflexivity.
Defined.
