(* ===== verification/Tunnel.v ===== *)
(** internal/admin/tunnel.go: exposing a local service in a room of the P2P
    broker (expose), and reaching it from elsewhere (reach).  The HTTP/2
    transport is a parameter; the goroutines of the two loops are sessions of a
    step relation. *)
From S2P Require Import Prelude GoStrings GoEncoding GoHttp.
From S2P Require P2P.
From stdpp Require Import relations.
#[local] Open Scope Z_scope.

Record TunnelConfig := {
  Server : string;
  Hostname : string;
  Username : string;
  Password : string;
  Room : string;
  Insecure : bool;
  Target : string;
  Pool : nat;
  Local : string;
}.

(** ** One CONNECT stream *)

Record tlsConfig := { InsecureSkipVerify : bool; ServerName : string; NextProtos : list string }.

Definition newHTTP2Client (cfg : TunnelConfig) : tlsConfig :=
  {| InsecureSkipVerify := Insecure cfg;
     ServerName := if bool_decide (Hostname cfg <> "") then Hostname cfg else "";
     NextProtos := ["h2"] |}.

(** The request: made for the server's URL, then pointed at the pseudo-host. *)
Definition p2p_request (cfg : TunnelConfig) : request :=
  let url_host := Server cfg in
  let req := {| r_Method := MethodConnect; r_Host := url_host; r_URLHost := url_host; r_Path := "/";
                r_Query := ∅; r_Header := ∅; r_RemoteAddr := ""; r_ProtoMajor := 2 |} in
  let auth := b64_EncodeToString (bytes_of (Username cfg +:+ ":" +:+ Password cfg)) in
  {| r_Method := r_Method req; r_Host := "_p2p"; r_URLHost := "_p2p"; r_Path := r_Path req;
     r_Query := r_Query req;
     r_Header := Header_Set (Header_Set (r_Header req) "Proxy-Authorization" ("Basic " +:+ auth))
                   "X-P2P-Room" (Room cfg);
     r_RemoteAddr := r_RemoteAddr req; r_ProtoMajor := r_ProtoMajor req |}.

(** The context [RunExpose] or [RunReach] was given, and the one that never ends. *)
Inductive context := OfRun | Background.
#[export] Instance context_eq_dec : EqDecision context.
Proof. solve_decision. Defined.

(** [http.NewRequestWithContext]: the request, and the context that it and the
    stream it opens live under. *)
Record outgoing := { o_ctx : context; o_req : request }.
Definition p2p_outgoing (ctx : context) (cfg : TunnelConfig) : outgoing :=
  {| o_ctx := ctx; o_req := p2p_request cfg |}.

(** What the transport answers: a status with the body of an error, or the
    body of an open stream, named [B]. *)
Inductive answer (B : Type) := Opened (body : B) | Refused (status : Z) (text : string).
Arguments Opened {B} _.
Arguments Refused {B} _ _.

(** The combined stream: closers not yet called, with the error each gives;
    [once] says whether [Close] has run. *)
Record rwcCombined (B : Type) := { rwc_body : B; rwc_closers : list (option string); rwc_once : bool }.
Arguments rwc_body {B} _.
Arguments rwc_closers {B} _.
Arguments rwc_once {B} _.

Definition first_error (errs : list (option string)) : option string := head (omap id errs).

Definition rwc_Close {B} (r : rwcCombined B) : rwcCombined B * option string :=
  if rwc_once r then (r, None)
  else ({| rwc_body := rwc_body r; rwc_closers := []; rwc_once := true |}, first_error (rwc_closers r)).

Section connect.
Context {B : Type}.
Variable transport : tlsConfig -> outgoing -> res (answer B).
Variable url_error : string -> option string.   (* what net/url says of a URL *)
Variable header_error : string.                 (* what net/http says of a header it does not send *)

(** [p2pConnect]; [errs] are the errors closing the body and the pipe would
    give. *)
Definition p2pConnect (ctx : context) (cfg : TunnelConfig) (errs : list (option string)) : res (rwcCombined B) :=
  match url_error ("https://" +:+ Server cfg +:+ "/") with
  | Some e => Err e
  | None =>
  let out := p2p_outgoing ctx cfg in
  if negb (sendable (o_req out)) then Err header_error
  else match transport (newHTTP2Client cfg) out with
  | Err e => Err e
  | Ok (Refused status text) =>
      Err ("server returned " +:+ status_line status +:+ ": " +:+ TrimSpace (stake 512 text))
  | Ok (Opened body) => Ok {| rwc_body := body; rwc_closers := errs; rwc_once := false |}
  end
  end.
End connect.

(** ** The loop of expose *)

(** The settings it runs with. *)
Definition expose_pool (cfg : TunnelConfig) : res nat :=
  if bool_decide (Target cfg = "") then Err "--target required"
  else Ok (if (Pool cfg <? 1)%nat then 4%nat else Pool cfg).

(** What a goroutine is at: in [p2pConnect], in the sleep after its failure,
    dialling the target with the stream open, copying. *)
Inductive session := Connecting | Sleeping | Dialing | Piping.

#[export] Instance session_eq_dec : EqDecision session.
Proof. solve_decision. Defined.

Record expose := {
  e_sessions : gmap nat session;
  e_next : nat;
  e_cancelled : bool;          (* the context is done *)
  e_stopping : bool;           (* the loop waits for the group *)
  e_opened : list nat;         (* streams returned by p2pConnect *)
  e_closed : list nat;         (* streams closed *)
}.

Definition expose_init : expose :=
  {| e_sessions := ∅; e_next := 0; e_cancelled := false; e_stopping := false;
     e_opened := []; e_closed := [] |}.

Definition put (e : expose) (m : gmap nat session) : expose :=
  {| e_sessions := m; e_next := e_next e; e_cancelled := e_cancelled e; e_stopping := e_stopping e;
     e_opened := e_opened e; e_closed := e_closed e |}.
Definition stream_opened (e : expose) (i : nat) : expose :=
  {| e_sessions := <[i := Dialing]> (e_sessions e); e_next := e_next e; e_cancelled := e_cancelled e;
     e_stopping := e_stopping e; e_opened := i :: e_opened e; e_closed := e_closed e |}.
Definition stream_closed (e : expose) (i : nat) : expose :=
  {| e_sessions := delete i (e_sessions e); e_next := e_next e; e_cancelled := e_cancelled e;
     e_stopping := e_stopping e; e_opened := e_opened e; e_closed := i :: e_closed e |}.

Inductive label :=
| Spawn                              (* the semaphore was free *)
| Cancel                             (* the context *)
| Stop                               (* the select took ctx.Done *)
| Connected (i : nat) (ok : bool)    (* p2pConnect returned *)
| Woke (i : nat)
| Dialed (i : nat) (ok : bool)       (* net.Dial of the target *)
| PipeEnded (i : nat).               (* one direction of the copy ended *)

(** One step with a pool of [n]; [None] when it cannot happen. *)
Definition step (n : nat) (e : expose) (l : label) : option expose :=
  match l with
  | Spawn =>
      if negb (e_stopping e) && (size (e_sessions e) <? n)%nat
      then Some {| e_sessions := <[e_next e := Connecting]> (e_sessions e); e_next := S (e_next e);
                   e_cancelled := e_cancelled e; e_stopping := e_stopping e;
                   e_opened := e_opened e; e_closed := e_closed e |}
      else None
  | Cancel =>
      if e_cancelled e then None
      else Some {| e_sessions := e_sessions e; e_next := e_next e; e_cancelled := true;
                   e_stopping := e_stopping e; e_opened := e_opened e; e_closed := e_closed e |}
  | Stop =>
      if e_cancelled e && negb (e_stopping e)
      then Some {| e_sessions := e_sessions e; e_next := e_next e; e_cancelled := e_cancelled e;
                   e_stopping := true; e_opened := e_opened e; e_closed := e_closed e |}
      else None
  | Connected i ok =>
      if bool_decide (e_sessions e !! i = Some Connecting)
      then Some (if ok then stream_opened e i else put e (<[i := Sleeping]> (e_sessions e)))
      else None
  | Woke i =>
      if bool_decide (e_sessions e !! i = Some Sleeping)
      then Some (put e (delete i (e_sessions e))) else None
  | Dialed i ok =>
      if bool_decide (e_sessions e !! i = Some Dialing)
      then Some (if ok then put e (<[i := Piping]> (e_sessions e)) else stream_closed e i)
      else None
  | PipeEnded i =>
      if bool_decide (e_sessions e !! i = Some Piping) then Some (stream_closed e i) else None
  end.

Definition steps (n : nat) (e e' : expose) : Prop := exists l, step n e l = Some e'.

(** A context that is done. *)
Definition ctx_done (e : expose) (ctx : context) : bool :=
  match ctx with OfRun => e_cancelled e | Background => false end.

(** The steps that come without the other side: a sleep ends, [net.Dial] returns,
    and net/http ends what lives under a context that is done, the request with an
    error and the reads of its stream, one direction of the copy.  A partner that
    does not come, or sends nothing, makes the others wait. *)
Definition forced (cfg : TunnelConfig) (e : expose) (l : label) : bool :=
  let ctx := o_ctx (p2p_outgoing OfRun cfg) in
  match l with
  | Woke _ | Dialed _ _ => true
  | Connected _ ok => negb ok && ctx_done e ctx
  | PipeEnded _ => ctx_done e ctx
  | Spawn | Cancel | Stop => false
  end.

(** [RunExpose] returns [ctx.Err()] once the group is empty. *)
Definition returned (e : expose) : bool := e_stopping e && bool_decide (e_sessions e = ∅).

(** ** The loop of reach: every accepted connection is a session without the
    sleep and the dial; the loop returns as soon as the listener is closed. *)

Record reach := {
  k_sessions : gmap nat session;
  k_next : nat;
  k_returned : option string;
  k_opened : list nat;
  k_closed : list nat;
  k_locals_closed : list nat;
}.

Definition reach_init : reach :=
  {| k_sessions := ∅; k_next := 0; k_returned := None; k_opened := []; k_closed := []; k_locals_closed := [] |}.

Definition k_put (k : reach) (m : gmap nat session) (opened closed locals : list nat) : reach :=
  {| k_sessions := m; k_next := k_next k; k_returned := k_returned k; k_opened := opened; k_closed := closed;
     k_locals_closed := locals |}.

Inductive reach_label :=
| Accepted
| AcceptFailed (ctx_err : option string) (err : string)
| ReachConnected (i : nat) (ok : bool)
| ReachEnded (i : nat).

Definition reach_step (k : reach) (l : reach_label) : option reach :=
  match l with
  | Accepted =>
      match k_returned k with
      | Some _ => None
      | None => Some {| k_sessions := <[k_next k := Connecting]> (k_sessions k); k_next := S (k_next k);
                        k_returned := None; k_opened := k_opened k; k_closed := k_closed k;
                        k_locals_closed := k_locals_closed k |}
      end
  | AcceptFailed ctx_err err =>
      match k_returned k with
      | Some _ => None
      | None => Some {| k_sessions := k_sessions k; k_next := k_next k;
                        k_returned := Some (default err ctx_err); k_opened := k_opened k;
                        k_closed := k_closed k; k_locals_closed := k_locals_closed k |}
      end
  | ReachConnected i ok =>
      if bool_decide (k_sessions k !! i = Some Connecting)
      then Some (if ok then k_put k (<[i := Piping]> (k_sessions k)) (i :: k_opened k) (k_closed k) (k_locals_closed k)
                 else k_put k (delete i (k_sessions k)) (k_opened k) (k_closed k) (i :: k_locals_closed k))
      else None
  | ReachEnded i =>
      if bool_decide (k_sessions k !! i = Some Piping)
      then Some (k_put k (delete i (k_sessions k)) (k_opened k) (i :: k_closed k) (i :: k_locals_closed k))
      else None
  end.

Definition RunReach (cfg : TunnelConfig) (listen : string -> option string) : res reach :=
  if bool_decide (Local cfg = "") then Err "--local required"
  else match listen (Local cfg) with
       | Some e => Err ("listen " +:+ Local cfg +:+ ": " +:+ e)
       | None => Ok reach_init
       end.

(** ** Invariant and measure *)

Definition streaming (s : option session) : Prop := s = Some Dialing \/ s = Some Piping.

Record ok (n : nat) (e : expose) : Prop := {
  ok_size : (size (e_sessions e) <= n)%nat;
  ok_fresh : forall i, is_Some (e_sessions e !! i) \/ i ∈ e_opened e \/ i ∈ e_closed e -> (i < e_next e)%nat;
  ok_opened : forall i, i ∈ e_opened e <-> i ∈ e_closed e \/ streaming (e_sessions e !! i);
  ok_gone : forall i, i ∈ e_closed e -> e_sessions e !! i = None;
  ok_once : NoDup (e_opened e) /\ NoDup (e_closed e);
  ok_stop : e_stopping e = true -> e_cancelled e = true;
}.

(** How many of its steps a goroutine can still make. *)
Definition rank (s : session) : nat :=
  match s with Connecting => 3 | Dialing => 2 | Piping => 1 | Sleeping => 1 end.

Definition measure (e : expose) : nat := sum_list_with rank (map_to_list (e_sessions e)).*2.

Lemma sum_list_with_perm (l k : list session) : l ≡ₚ k -> sum_list_with rank l = sum_list_with rank k.
Proof. induction 1; cbn; lia. Qed.

Lemma measure_delete (m : gmap nat session) i s : m !! i = Some s ->
  sum_list_with rank (map_to_list m).*2 = (rank s + sum_list_with rank (map_to_list (delete i m)).*2)%nat.
Proof.
  intros H. rewrite (sum_list_with_perm _ ((i, s) :: map_to_list (delete i m)).*2); [done|].
  by rewrite map_to_list_delete.
Qed.

Lemma measure_insert (m : gmap nat session) i s : m !! i = None ->
  sum_list_with rank (map_to_list (<[i := s]> m)).*2 = (rank s + sum_list_with rank (map_to_list m).*2)%nat.
Proof.
  intros H. rewrite (sum_list_with_perm _ ((i, s) :: map_to_list m).*2); [done|].
  by rewrite map_to_list_insert.
Qed.

Lemma measure_replace (m : gmap nat session) i s s' : m !! i = Some s ->
  (sum_list_with rank (map_to_list (<[i := s']> m)).*2 + rank s =
   sum_list_with rank (map_to_list m).*2 + rank s')%nat.
Proof.
  intros H. rewrite <- insert_delete_eq, measure_insert by apply lookup_delete_eq.
  rewrite (measure_delete m i s H). lia.
Qed.

Lemma measure_bound (m : gmap nat session) : (sum_list_with rank (map_to_list m).*2 <= 3 * size m)%nat.
Proof.
  rewrite <- length_map_to_list. induction (map_to_list m) as [|[i s] l IH]; cbn; [lia|].
  destruct s; cbn in *; lia.
Qed.

Lemma size_insert_Some (m : gmap nat session) i s s' : m !! i = Some s -> size (<[i := s']> m) = size m.
Proof. intros H. by rewrite map_size_insert, H. Qed.

Lemma size_delete_Some (m : gmap nat session) i s : m !! i = Some s -> (size (delete i m) <= size m)%nat.
Proof. intros H. rewrite map_size_delete, H. lia. Qed.

Lemma ok_init n : ok n expose_init.
Proof.
  split; cbn; try done; try (split; constructor).
  - rewrite map_size_empty. lia.
  - intros i [[? H]|[H|H]]; [by rewrite lookup_empty in H|by apply elem_of_nil in H..].
  - intros i. split; [by intros ?%elem_of_nil|].
    by intros [?%elem_of_nil|[H|H]]; [|rewrite lookup_empty in H..].
Qed.

(** A goroutine moves on without a change of its stream. *)
Lemma ok_move n e i s0 (s1 : option session) :
  ok n e -> e_sessions e !! i = Some s0 ->
  (s1 = None \/ is_Some s1) -> (streaming (Some s0) <-> streaming s1) -> (s1 = None -> ~ streaming (Some s0)) ->
  ok n (put e (partial_alter (fun _ => s1) i (e_sessions e))).
Proof.
  intros [Hs Hf Ho Hg Hn Hst] Hi _ Hstr _.
  assert (Hlk : forall j, partial_alter (fun _ => s1) i (e_sessions e) !! j =
                          if decide (j = i) then s1 else e_sessions e !! j).
  { intros j. destruct (decide (j = i)) as [->|]; [by rewrite lookup_partial_alter_eq|].
    by rewrite lookup_partial_alter_ne. }
  split; cbn; try done.
  - destruct s1 as [s|].
    + change (partial_alter (fun _ => Some s) i (e_sessions e)) with (<[i := s]> (e_sessions e)).
      by rewrite (size_insert_Some _ _ _ _ Hi).
    + change (partial_alter (fun _ => None) i (e_sessions e)) with (delete i (e_sessions e)).
      pose proof (size_delete_Some _ _ _ Hi). lia.
  - intros j. rewrite Hlk. destruct (decide (j = i)) as [->|]; [intros _; apply Hf; eauto|apply Hf].
  - intros j. rewrite Hlk, (Ho j). destruct (decide (j = i)) as [->|]; [|done]. by rewrite Hi, Hstr.
  - intros j Hj. rewrite Hlk. destruct (decide (j = i)) as [->|]; [|auto]. apply Hg in Hj. congruence.
Qed.

Lemma ok_opens n e i :
  ok n e -> e_sessions e !! i = Some Connecting -> ok n (stream_opened e i).
Proof.
  intros [Hs Hf Ho Hg [Hn1 Hn2] Hst] Hi.
  assert (Hno : i ∉ e_opened e).
  { rewrite Ho, Hi. intros [Hc|[?|?]]; [|done..]. apply Hg in Hc. congruence. }
  split; cbn; try done; [by rewrite (size_insert_Some _ _ _ _ Hi)| | | |split; [by constructor|done]].
  - intros j. rewrite elem_of_cons. destruct (decide (j = i)) as [->|]; [intros _; apply Hf; eauto|].
    rewrite lookup_insert_ne by done. intros Hj. apply Hf. naive_solver.
  - intros j. rewrite elem_of_cons. destruct (decide (j = i)) as [->|].
    + rewrite lookup_insert_eq. unfold streaming. naive_solver.
    + rewrite lookup_insert_ne by done. rewrite <- Ho. naive_solver.
  - intros j Hj. rewrite lookup_insert_ne; [auto|]. intros <-. apply Hg in Hj. congruence.
Qed.

Lemma ok_closes n e i :
  ok n e -> streaming (e_sessions e !! i) -> ok n (stream_closed e i).
Proof.
  intros [Hs Hf Ho Hg [Hn1 Hn2] Hst] Hi.
  assert (Hno : i ∉ e_closed e) by (intros Hc; apply Hg in Hc; rewrite Hc in Hi; by destruct Hi).
  assert (Hso : is_Some (e_sessions e !! i)) by (destruct Hi as [-> | ->]; eauto).
  split; cbn; try done.
  - destruct Hso as [s Hso]. pose proof (size_delete_Some _ _ _ Hso). lia.
  - intros j. rewrite elem_of_cons. destruct (decide (j = i)) as [->|]; [intros _; apply Hf; auto|].
    rewrite lookup_delete_ne by done. intros Hj. apply Hf. naive_solver.
  - intros j. rewrite elem_of_cons, (Ho j). destruct (decide (j = i)) as [->|].
    + rewrite lookup_delete_eq. unfold streaming in *. naive_solver.
    + rewrite lookup_delete_ne by done. naive_solver.
  - intros j. rewrite elem_of_cons. destruct (decide (j = i)) as [->|]; [by rewrite lookup_delete_eq|].
    rewrite lookup_delete_ne by done. intros [->|?]; [done|auto].
  - split; [done|by constructor].
Qed.

Lemma ok_step n e l e' : ok n e -> step n e l = Some e' -> ok n e'.
Proof.
  intros Hok H. destruct l as [| | |i b|i|i b|i]; cbn [step] in H.
  - destruct Hok as [Hs Hf Ho Hg [Hn1 Hn2] Hst].
    destruct (e_stopping e) eqn:Es; [done|]. cbn [negb andb] in H. destruct (Nat.ltb_spec (size (e_sessions e)) n); [|done].
    injection H as <-.
    assert (Hnew : e_sessions e !! e_next e = None).
    { destruct (e_sessions e !! e_next e) eqn:E; [|done]. specialize (Hf (e_next e) ltac:(left; eauto)). lia. }
    split; cbn; try done.
    + rewrite map_size_insert_None by done. lia.
    + intros i. destruct (decide (i = e_next e)) as [->|]; [lia|].
      rewrite lookup_insert_ne by done. intros Hi. apply Hf in Hi. lia.
    + intros i. destruct (decide (i = e_next e)) as [->|]; [|by rewrite lookup_insert_ne by done].
      rewrite lookup_insert_eq. split.
      * intros Hi. specialize (Hf (e_next e) ltac:(auto)). lia.
      * intros [Hi|[?|?]]; [|done..]. specialize (Hf (e_next e) ltac:(auto)). lia.
    + intros i Hi. rewrite lookup_insert_ne; [auto|]. intros <-. specialize (Hf (e_next e) ltac:(auto)). lia.
  - destruct Hok. destruct (e_cancelled e); [done|]. injection H as <-. by split.
  - destruct Hok. destruct (e_cancelled e) eqn:Ec; [|done]. destruct (e_stopping e); [done|].
    injection H as <-. by split.
  - case_bool_decide as Hi; [|done]. injection H as <-. destruct b; [by apply ok_opens|].
    apply (ok_move n e i Connecting (Some Sleeping)); unfold streaming; naive_solver.
  - case_bool_decide as Hi; [|done]. injection H as <-.
    apply (ok_move n e i Sleeping None); unfold streaming; naive_solver.
  - case_bool_decide as Hi; [|done]. injection H as <-. destruct b; [|apply ok_closes; [done|by left]].
    apply (ok_move n e i Dialing (Some Piping)); unfold streaming; naive_solver.
  - case_bool_decide as Hi; [|done]. injection H as <-. apply ok_closes; [done|by right].
Qed.

Lemma ok_steps n e e' : rtc (steps n) e e' -> ok n e -> ok n e'.
Proof. induction 1 as [|e1 e2 e3 [l Hl] Hs IH]; intros; [done|]. eauto using ok_step. Qed.

Lemma ok_reachable n e : rtc (steps n) expose_init e -> ok n e.
Proof. intros H. exact (ok_steps _ _ _ H (ok_init n)). Qed.

(** While the loop waits for the group, every step brings it nearer. *)
Lemma stopping_step n e l e' :
  e_stopping e = true -> e_cancelled e = true -> step n e l = Some e' ->
  e_stopping e' = true /\ e_cancelled e' = true /\ (measure e' < measure e)%nat.
Proof.
  intros Hs Hc H. destruct l as [| | |i b|i|i b|i]; cbn [step] in H; rewrite ?Hs, ?Hc in H; try done;
    (case_bool_decide as Hi; [|done]); injection H as <-; try destruct b; cbn; (split_and!; [done..|]); unfold measure; cbn.
  - pose proof (measure_replace _ _ _ Dialing Hi). cbn in *. lia.
  - pose proof (measure_replace _ _ _ Sleeping Hi). cbn in *. lia.
  - pose proof (measure_delete _ _ _ Hi). cbn in *. lia.
  - pose proof (measure_replace _ _ _ Piping Hi). cbn in *. lia.
  - pose proof (measure_delete _ _ _ Hi). cbn in *. lia.
  - pose proof (measure_delete _ _ _ Hi). cbn in *. lia.
Qed.

Lemma stopping_steps n e e' k :
  nsteps (steps n) k e e' -> e_stopping e = true -> e_cancelled e = true ->
  e_stopping e' = true /\ (k + measure e' <= measure e)%nat.
Proof.
  induction 1 as [|k e1 e2 e3 [l Hl] Hn IH]; intros Hs Hc; [done|].
  destruct (stopping_step _ _ _ _ Hs Hc Hl) as (Hs2 & Hc2 & Hm). destruct (IH Hs2 Hc2) as (? & ?).
  split; [done|lia].
Qed.

(** With the context done no goroutine waits for the other side. *)
Lemma session_steps cfg n e i s : e_cancelled e = true -> e_sessions e !! i = Some s ->
  exists l e', forced cfg e l = true /\ step n e l = Some e'.
Proof.
  intros Hc Hi. destruct s; [exists (Connected i false)|exists (Woke i)|exists (Dialed i true)|exists (PipeEnded i)];
    cbn [step]; rewrite bool_decide_true by done; (eexists; split; [|reflexivity]); cbn; by rewrite ?Hc.
Qed.

(** ** Expose over the broker *)

(** The first [k] streams of an exposer, as the broker sees them. *)
Definition exposer_arrives (cfg : TunnelConfig) (user : string) (k : nat) (s : P2P.P2PBroker * nat)
  : P2P.P2PBroker * nat :=
  foldl P2P.step s (replicate k (P2P.Arrive (p2p_request cfg) user)).

Definition own_peer (cfg : TunnelConfig) (user : string) (i : nat) : P2P.p2pPeer :=
  {| P2P.pr_id := i; P2P.pr_username := user; P2P.pr_room := Room cfg |}.

(** The request is sent when the room can be: the credentials are in base64. *)
Lemma request_sendable cfg : sendable (p2p_request cfg) = valid_field (Room cfg).
Proof.
  unfold sendable, p2p_request. cbn [r_Header]. unfold Header_Set.
  assert (Hb : valid_field ("Basic " +:+ b64_EncodeToString (bytes_of (Username cfg +:+ ":" +:+ Password cfg))) = true)
    by (rewrite valid_field_app, b64_valid; done).
  destruct (valid_field (Room cfg)) eqn:E; [apply bool_decide_eq_true|apply bool_decide_eq_false].
  - apply map_Forall_insert_2; [done|]. apply map_Forall_insert_2; [done|apply map_Forall_empty].
  - intros Hf. apply map_Forall_insert_1_1 in Hf. congruence.
Qed.

Lemma request_room cfg : Header_Get (r_Header (p2p_request cfg)) "X-P2P-Room" = Room cfg.
Proof. apply Header_Get_Set_eq. Qed.

Lemma exposer_two cfg user b n :
  Room cfg <> "" -> P2P.waiting b !! (user +:+ ":" +:+ Room cfg) = None ->
  exposer_arrives cfg user 2 (b, n) =
  ({| P2P.waiting := P2P.waiting b;
      P2P.pairs := P2P.pairs b ++ [(own_peer cfg user n, own_peer cfg user (S n))] |}, S (S n)).
Proof.
  intros Hr Hw. unfold exposer_arrives. cbn [replicate foldl P2P.step].
  unfold P2P.Handle at 2. rewrite request_room, bool_decide_false by done.
  unfold P2P.pr_key. cbn [P2P.pr_username P2P.pr_room]. rewrite Hw. cbn [fst].
  unfold P2P.Handle. rewrite request_room, bool_decide_false by done.
  unfold P2P.pr_key. cbn [P2P.pr_username P2P.pr_room P2P.waiting]. rewrite lookup_insert_eq. cbn [fst P2P.pairs].
  rewrite delete_insert_id by done. done.
Qed.

Lemma exposer_even cfg user k b n :
  Room cfg <> "" -> P2P.waiting b !! (user +:+ ":" +:+ Room cfg) = None ->
  exposer_arrives cfg user (2 * k) (b, n) =
  ({| P2P.waiting := P2P.waiting b;
      P2P.pairs := P2P.pairs b ++ map (fun j => (own_peer cfg user (n + 2 * j), own_peer cfg user (n + 2 * j + 1)))
                                      (seq 0 k) |}, n + 2 * k)%nat.
Proof.
  intros Hr. revert b n. induction k as [|k IH]; intros b n Hw.
  { cbn. rewrite app_nil_r, Nat.add_0_r. by destruct b. }
  replace (2 * S k)%nat with (2 + 2 * k)%nat by lia. unfold exposer_arrives.
  rewrite replicate_add, foldl_app. change (foldl P2P.step (b, n) _) with (exposer_arrives cfg user 2 (b, n)).
  rewrite exposer_two by done. change (foldl P2P.step ?s _) with (exposer_arrives cfg user (2 * k) s).
  rewrite IH by done. cbn [P2P.pairs P2P.waiting]. f_equal; [|lia]. f_equal.
  rewrite <- app_assoc. f_equal. cbn [seq map app]. f_equal; [do 2 f_equal; lia|].
  rewrite <- seq_shift, map_map. apply map_ext. intros j. do 2 f_equal; lia.
Qed.

(** The same of reach, with the accepted connections. *)
Record reach_ok (k : reach) : Prop := {
  rk_number : forall i, (i < k_next k)%nat <-> is_Some (k_sessions k !! i) \/ i ∈ k_locals_closed k;
  rk_gone : forall i, i ∈ k_locals_closed k -> k_sessions k !! i = None;
  rk_opened : forall i, i ∈ k_opened k <-> i ∈ k_closed k \/ k_sessions k !! i = Some Piping;
  rk_closed : forall i, i ∈ k_closed k -> i ∈ k_locals_closed k;
  rk_once : NoDup (k_closed k) /\ NoDup (k_locals_closed k);
}.

Lemma reach_ok_step k l k' : reach_step k l = Some k' -> reach_ok k -> reach_ok k'.
Proof.
  intros Hs [Hn Hg Ho Hc [N1 N2]].
  assert (Hfresh : k_sessions k !! k_next k = None).
  { apply eq_None_not_Some. intros H. assert (k_next k < k_next k)%nat by (apply Hn; by left). lia. }
  destruct l as [|ce err|i okc|i]; cbn in Hs.
  - destruct (k_returned k); [done|]. injection Hs as <-. split; cbn; [| | |done..].
    + intros i. destruct (decide (i = k_next k)) as [->|Hne].
      * rewrite lookup_insert_eq. split; [by left; eauto|lia].
      * rewrite lookup_insert_ne by done. rewrite <- Hn. lia.
    + intros i Hi. rewrite lookup_insert_ne; [by apply Hg|]. intros <-.
      assert (k_next k < k_next k)%nat by (apply Hn; by right). lia.
    + intros i. rewrite Ho. destruct (decide (i = k_next k)) as [->|Hne];
        [rewrite lookup_insert_eq, Hfresh; naive_solver|by rewrite lookup_insert_ne].
  - destruct (k_returned k); [done|]. injection Hs as <-. by split.
  - case_bool_decide as Hi; [|done]. injection Hs as <-.
    assert (Hil : i ∉ k_locals_closed k) by (intros Hin; apply Hg in Hin; congruence).
    destruct okc; split; cbn; try done.
    + intros j. rewrite Hn. destruct (decide (j = i)) as [->|Hne];
        [rewrite lookup_insert_eq, Hi; naive_solver|by rewrite lookup_insert_ne].
    + intros j Hj. rewrite lookup_insert_ne; [by apply Hg|]. by intros <-.
    + intros j. rewrite elem_of_cons, Ho. destruct (decide (j = i)) as [->|Hne];
        [rewrite lookup_insert_eq; naive_solver|rewrite lookup_insert_ne by done; naive_solver].
    + intros j. rewrite elem_of_cons, Hn. destruct (decide (j = i)) as [->|Hne];
        [rewrite lookup_delete_eq, Hi; naive_solver|rewrite lookup_delete_ne by done; naive_solver].
    + intros j [->|Hj]%elem_of_cons; [apply lookup_delete_eq|]. destruct (decide (j = i)) as [->|Hne];
        [apply lookup_delete_eq|rewrite lookup_delete_ne by done; by apply Hg].
    + intros j. rewrite Ho. destruct (decide (j = i)) as [->|Hne];
        [rewrite lookup_delete_eq, Hi; naive_solver|by rewrite lookup_delete_ne].
    + intros j Hj. apply elem_of_cons. right. by apply Hc.
    + split; [done|by apply NoDup_cons].
  - case_bool_decide as Hi; [|done]. injection Hs as <-.
    assert (Hil : i ∉ k_locals_closed k) by (intros Hin; apply Hg in Hin; congruence).
    split; cbn.
    + intros j. rewrite elem_of_cons, Hn. destruct (decide (j = i)) as [->|Hne];
        [rewrite lookup_delete_eq, Hi; naive_solver|rewrite lookup_delete_ne by done; naive_solver].
    + intros j [->|Hj]%elem_of_cons; [apply lookup_delete_eq|]. destruct (decide (j = i)) as [->|Hne];
        [apply lookup_delete_eq|rewrite lookup_delete_ne by done; by apply Hg].
    + intros j. rewrite elem_of_cons, Ho. destruct (decide (j = i)) as [->|Hne];
        [rewrite lookup_delete_eq, Hi; naive_solver|rewrite lookup_delete_ne by done; naive_solver].
    + intros j [->|Hj]%elem_of_cons; apply elem_of_cons; [by left|right; by apply Hc].
    + split; apply NoDup_cons; [|done]. split; [|done]. intros Hin. by apply Hil, Hc.
Qed.

(** ** Properties *)

(** C24: expose never leaves more than its pool in flight and loses no stream.
    In every interleaving of the loop, its goroutines and the context, at most
    [n] goroutines run, every stream that was opened is in use by exactly one of
    them or was closed, and none is closed twice. *)
Theorem expose_pool_bounded (n : nat) (e : expose)
  (Hreach : rtc (steps n) expose_init e) :
  (size (e_sessions e) <= n)%nat /\
  (forall i, i ∈ e_opened e <-> i ∈ e_closed e \/ streaming (e_sessions e !! i)) /\
  (forall i, i ∈ e_closed e -> e_sessions e !! i = None) /\
  NoDup (e_opened e) /\ NoDup (e_closed e).
Proof. destruct (ok_reachable n e Hreach) as [? ? ? ? [? ?] ?]. by split_and!. Qed.

(** Reach leaks nothing: in every history each connection accepted is in one
    running session or was closed, once, and each stream opened is copying in its
    session or was closed, once. *)
Theorem reach_sessions (k : reach) (Hreach : rtc (fun k k' => exists l, reach_step k l = Some k') reach_init k) :
  (forall i, (i < k_next k)%nat <-> is_Some (k_sessions k !! i) \/ i ∈ k_locals_closed k) /\
  (forall i, i ∈ k_locals_closed k -> k_sessions k !! i = None) /\
  (forall i, i ∈ k_opened k <-> i ∈ k_closed k \/ k_sessions k !! i = Some Piping) /\
  NoDup (k_closed k) /\ NoDup (k_locals_closed k).
Proof.
  assert (H : reach_ok k).
  { revert Hreach. apply (rtc_ind_r (fun k => reach_ok k)).
    - split; cbn; [intros i; split; [lia|]|..]; try (intros i; set_solver); [|by split; constructor].
      intros [[? H]|H]; [by rewrite lookup_empty in H|set_solver].
    - intros k1 k2 _ [l Hl] H1. by eapply reach_ok_step. }
  destruct H as [? ? ? ? [? ?]]. by split_and!.
Qed.

(** C25: a cancelled expose returns.  Once the loop has seen the end of its
    context, no history of its goroutines is longer than three steps each; from
    every state of such a history a step comes by itself, without the other side,
    because the requests and their streams live under that context, and so
    [RunExpose] returns; and when it does, every stream it opened is closed. *)
Theorem expose_returns (cfg : TunnelConfig) (n : nat) (e : expose)
  (Hreach : rtc (steps n) expose_init e) (Hstop : e_stopping e = true) :
  (forall k e', nsteps (steps n) k e e' -> (k <= 3 * n)%nat) /\
  (forall e', rtc (steps n) e e' ->
     if returned e' then forall i, i ∈ e_opened e' -> i ∈ e_closed e'
     else exists l e'', forced cfg e' l = true /\ step n e' l = Some e'') /\
  (forall e', rtc (steps n) e e' ->
     exists e'', rtc (fun x y => exists l, forced cfg x l = true /\ step n x l = Some y) e' e'' /\ returned e'' = true).
Proof.
  pose proof (ok_reachable n e Hreach) as Hok. pose proof (ok_stop n e Hok Hstop) as Hc.
  assert (Hnext : forall e', rtc (steps n) e e' ->
     if returned e' then forall i, i ∈ e_opened e' -> i ∈ e_closed e'
     else exists l e'', forced cfg e' l = true /\ step n e' l = Some e'').
  { intros e' Hs. pose proof (ok_steps _ _ _ Hs Hok) as Hok'.
    apply rtc_nsteps in Hs as [k Hs]. destruct (stopping_steps _ _ _ _ Hs Hstop Hc) as [Hst _].
    unfold returned. rewrite Hst. cbn [andb]. case_bool_decide as Hempty.
    - intros i Hi. apply (ok_opened n e' Hok') in Hi as [?|Hi]; [done|].
      rewrite Hempty, lookup_empty in Hi. by destruct Hi.
    - apply map_choose in Hempty as (i & s & Hi). apply (session_steps cfg n e' i s); [|done].
      by apply (ok_stop n e' Hok'). }
  split; [|split; [exact Hnext|]].
  - intros k e' Hk. destruct (stopping_steps _ _ _ _ Hk Hstop Hc) as [_ Hm].
    pose proof (measure_bound (e_sessions e)) as Hb. pose proof (ok_size n e Hok). unfold measure in Hm. lia.
  - intros e' Hs. remember (measure e') as m eqn:Em. revert e' Hs Em.
    induction m as [m IH] using lt_wf_ind. intros e' Hs ->. specialize (Hnext e' Hs).
    destruct (returned e') eqn:Er; [by exists e'|]. destruct Hnext as (l & e1 & Hf & Hl).
    pose proof (ok_steps _ _ _ Hs Hok) as Hok'. pose proof Hs as Hs'.
    apply rtc_nsteps in Hs' as [k Hs']. destruct (stopping_steps _ _ _ _ Hs' Hstop Hc) as [Hst _].
    destruct (stopping_step _ _ _ _ Hst (ok_stop n e' Hok' Hst) Hl) as (_ & _ & Hm).
    destruct (IH (measure e1) Hm e1) as (e2 & H2 & Hr); [eapply rtc_r; [done|by exists l]|done|].
    exists e2. split; [|done]. eapply rtc_l; [|done]. by exists l.
Qed.

(** An exposer is joined with itself.  All streams of one exposer ask for
    the same room in the same name, and a stream does not say which side it is:
    when the streams of an even pool reach a broker where nobody waits in the
    room, they are joined with each other in pairs, nobody is left waiting, and
    a stream of the other side then waits. *)
Theorem expose_joins_itself (cfg : TunnelConfig) (user : string) (b : P2P.P2PBroker) (n k : nat)
  (Hroom : Room cfg <> "") (Hsent : sendable (p2p_request cfg) = true) (Hnobody : P2P.waiting b !! (user +:+ ":" +:+ Room cfg) = None)
  (Hpool : expose_pool cfg = Ok (2 * k)%nat) :
  let '(b', n') := exposer_arrives cfg user (2 * k) (b, n) in
  P2P.pairs b' = P2P.pairs b ++
    map (fun j => (own_peer cfg user (n + 2 * j), own_peer cfg user (n + 2 * j + 1))%nat) (seq 0 k) /\
  (forall cfg', Room cfg' = Room cfg ->
     (P2P.Handle b' new_response (p2p_request cfg') n' user).2 = P2P.Waits (own_peer cfg user n')).
Proof.
  rewrite exposer_even by done. split; [done|]. intros cfg' Hr. unfold P2P.Handle.
  rewrite request_room, Hr, bool_decide_false by done.
  unfold P2P.pr_key. cbn [P2P.pr_username P2P.pr_room P2P.waiting]. rewrite Hnobody. done.
Qed.

(** The server of the configuration is never contacted.  Two
    configurations that differ only in the server give the same request and the
    same TLS settings, so whatever the transport does, their connections end
    alike; a transport that dials the host of the URL dials the pseudo-host. *)
Theorem server_not_used {B : Type} (transport : tlsConfig -> outgoing -> res (answer B))
    (dial : string -> res (request -> res (answer B))) (url_error : string -> option string) (header_error : string)
    (cfg : TunnelConfig) (s : string) (errs : list (option string))
  (Hurl : url_error ("https://" +:+ Server cfg +:+ "/") = None) (Hurl' : url_error ("https://" +:+ s +:+ "/") = None)
  (Htransport : forall t out, transport t out = (srv ← dial (r_URLHost (o_req out)); srv (o_req out))) :
  let cfg' := {| Server := s; Hostname := Hostname cfg; Username := Username cfg; Password := Password cfg;
                 Room := Room cfg; Insecure := Insecure cfg; Target := Target cfg; Pool := Pool cfg;
                 Local := Local cfg |} in
  p2pConnect transport url_error header_error OfRun cfg errs =
    p2pConnect transport url_error header_error OfRun cfg' errs /\
  (forall e, dial "_p2p" = Err e ->
     p2pConnect transport url_error header_error OfRun cfg errs =
       Err (if sendable (p2p_request cfg) then e else header_error)).
Proof.
  cbn zeta. unfold p2pConnect. cbn [Server]. rewrite Hurl, Hurl'. split; [done|]. intros e He. cbn [o_req p2p_outgoing].
  destruct (sendable (p2p_request cfg)); [|done]. cbn [negb]. rewrite Htransport.
  change (r_URLHost (o_req (p2p_outgoing OfRun cfg))) with "_p2p". by rewrite He.
Qed.

(** Closing a combined stream twice closes its parts once. *)
Theorem rwc_close_once {B} (r : rwcCombined B) (Hopen : rwc_once r = false) :
  let '(r1, e1) := rwc_Close r in
  e1 = first_error (rwc_closers r) /\ rwc_Close r1 = (r1, None) /\ rwc_closers r1 = [].
Proof. unfold rwc_Close. rewrite Hopen. done. Qed.

(** ** Witnesses *)

Definition ex_cfg : TunnelConfig :=
  {| Server := "vpn.example:443"; Hostname := ""; Username := "ann"; Password := "pw"; Room := "ssh";
     Insecure := false; Target := "127.0.0.1:22"; Pool := 0; Local := "" |}.

(** Two goroutines: one copies, one sleeps; then the context ends. *)
Definition ex_labels : list label :=
  [Spawn; Spawn; Connected 0 true; Dialed 0 true; Connected 1 false; Cancel; Stop].
Definition ex_run (ls : list label) : option expose :=
  foldl (fun e l => e ← e; step 2 e l) (Some expose_init) ls.
Definition ex_state : expose := default expose_init (ex_run ex_labels).

Lemma run_reachable n e ls e' :
  foldl (fun e l => e ← e; step n e l) (Some e) ls = Some e' -> rtc (steps n) e e'.
Proof.
  revert e. induction ls as [|l ls IH]; intros e H; [by injection H as <-|]. cbn in H.
  destruct (step n e l) as [e1|] eqn:E; [|exfalso; clear -H; by induction ls].
  eapply rtc_l; [by exists l|]. by apply IH.
Qed.

Lemma expose_pool_bounded_witness : (size (e_sessions ex_state) <= 2)%nat.
Proof.
  apply (expose_pool_bounded 2 ex_state). apply (run_reachable 2 _ ex_labels). vm_compute. reflexivity.
Defined.

Lemma expose_returns_witness :
  exists e'', rtc (fun x y => exists l, forced ex_cfg x l = true /\ step 2 x l = Some y) ex_state e'' /\ returned e'' = true.
Proof.
  refine (proj2 (proj2 (expose_returns ex_cfg 2 ex_state _ _)) ex_state (rtc_refl _ _)); [|vm_compute; reflexivity].
  apply (run_reachable 2 _ ex_labels). vm_compute. reflexivity.
Defined.

Lemma expose_joins_itself_witness :
  let '(b', n') := exposer_arrives ex_cfg "ann" 4 (P2P.NewP2PBroker, 0%nat) in
  length (P2P.pairs b') = 2%nat /\ (P2P.Handle b' new_response (p2p_request ex_cfg) n' "ann").2 =
    P2P.Waits (own_peer ex_cfg "ann" 4).
Proof.
  pose proof (expose_joins_itself ex_cfg "ann" P2P.NewP2PBroker 0 2 ltac:(discriminate)
    ltac:(vm_compute; reflexivity) ltac:(vm_compute; reflexivity) ltac:(vm_compute; reflexivity)) as H.
  change (2 * 2)%nat with 4%nat in H.
  assert (En : (exposer_arrives ex_cfg "ann" 4 (P2P.NewP2PBroker, 0%nat)).2 = 4%nat) by (vm_compute; reflexivity).
  destruct (exposer_arrives ex_cfg "ann" 4 (P2P.NewP2PBroker, 0%nat)) as [b' n']. cbn in En. subst n'.
  destruct H as [Hp Hw]. split; [rewrite Hp; vm_compute; reflexivity|exact (Hw ex_cfg eq_refl)].
Defined.

Definition ex_dial (host : string) : res (request -> res (answer unit)) :=
  if bool_decide (host = "vpn.example:443") then Ok (fun _ => Ok (Opened tt))
  else Err "lookup _p2p: no such host".

Lemma server_not_used_witness :
  p2pConnect (fun _ out => srv ← ex_dial (r_URLHost (o_req out)); srv (o_req out)) (fun _ => None) "bad header"
    OfRun ex_cfg [] = Err (if sendable (p2p_request ex_cfg) then "lookup _p2p: no such host" else "bad header").
Proof.
  refine (proj2 (server_not_used (fun _ out => srv ← ex_dial (r_URLHost (o_req out)); srv (o_req out)) ex_dial (fun _ => None)
    "bad header" ex_cfg "other" [] _ _ _) _ _); reflexivity.
Defined.

Lemma rwc_close_once_witness :
  (rwc_Close {| rwc_body := tt; rwc_closers := [None; Some "broken pipe"]; rwc_once := false |}).2 = Some "broken pipe".
Proof.
  pose proof (rwc_close_once {| rwc_body := tt; rwc_closers := [None; Some "broken pipe"]; rwc_once := false |} eq_refl) as H.
  destruct (rwc_Close _) as [r1 e1]. exact (proj1 H).
Defined.
