(* ===== verification/Acme.v ===== *)
(** internal/admin/acme.go: obtaining, making and checking certificates.  The
    ACME client, crypto/x509 and PEM are parameters. *)
From S2P Require Import Prelude GoStrings GoEncoding GoNet GoOS.
#[local] Open Scope Z_scope.

(** What a certificate request or template names; times in seconds. *)
Record template := {
  t_CommonName : string;
  t_DNSNames : list string;
  t_IPAddresses : list IP;
  t_NotBefore : Z;
  t_NotAfter : Z;
}.

(** A parsed certificate, as far as it is used. *)
Record certificate := { x_DNSNames : list string; x_IPAddresses : list IP; x_NotAfter : Z }.

(** crypto/ecdsa, crypto/x509 and encoding/pem.  A key is named by a number. *)
Record crypto := {
  cr_GenerateKey : nat -> res nat;                     (* the n-th call *)
  cr_CreateRequest : template -> nat -> res (list byte);
  cr_CreateCertificate : template -> nat -> res (list byte);
  cr_MarshalKey : nat -> list byte;
  cr_ParseCertificate : list byte -> res certificate;
  cr_PEM : string -> list byte -> string;              (* type, bytes *)
  cr_DecodePEM : string -> option (list byte);         (* the first block *)
  cr_KeyPair : string -> string -> option string;      (* tls.X509KeyPair: its error *)
}.

Record challenge := { ch_Type : string; ch_URI : string; ch_Token : string }.
Record authorization := { az_Status : string; az_Challenges : list challenge }.
Record order := { o_URI : string; o_AuthzURLs : list string; o_FinalizeURL : string }.

(** golang.org/x/crypto/acme, and port 80. *)
Record acme := {
  ac_Register : string -> res unit;
  ac_AuthorizeOrder : string -> res order;
  ac_GetAuthorization : string -> res authorization;
  ac_HTTP01ChallengeResponse : string -> res string;
  ac_Listen80 : option string;
  ac_Accept : challenge -> res unit;
  ac_WaitOrder : string -> res order;
  ac_CreateOrderCert : string -> list byte -> res (list (list byte));
}.

(** What the outside sees: the account, the challenge served and taken down. *)
Inductive acme_effect :=
| Registered (contact : string)
| Serving (path body : string)
| AcceptedChallenge (c : challenge)
| StoppedServing.

Section acme.
Variable k : crypto.

Definition http01 (cs : list challenge) : option challenge :=
  head (filter (fun c => ch_Type c = "http-01") cs).

(** The challenge kept by the loop over the authorizations: the last one found;
    one that is already valid is skipped. *)
Fixpoint choose (a : acme) (urls : list string) (found : string * string) : res (string * string) :=
  match urls with
  | [] => Ok found
  | u :: urls =>
      match ac_GetAuthorization a u with
      | Err e => Err ("get auth: " +:+ e)
      | Ok auth =>
          if bool_decide (az_Status auth = "valid") then choose a urls found
          else match http01 (az_Challenges auth) with
               | Some c => choose a urls (ch_URI c, ch_Token c)
               | None => choose a urls found
               end
      end
  end.

(** Writing the blocks of a file that was opened with O_CREATE and O_TRUNC: only
    the error of the opening is looked at, those of pem.Encode and Close are not. *)
Definition save (f : fs) (path content : string) : fs * option string :=
  if bool_decide (path ∈ fs_locked f) then (f, Some (err_perm "open" path))
  else (set_files f (<[path := written f path content]> (fs_files f)), None).

Definition pem_chain (ders : list (list byte)) : string :=
  fold_right (fun d s => cr_PEM k "CERTIFICATE" d +:+ s) "" ders.

(** The files of a pair: the certificate first. *)
Definition save_pair (f : fs) (certPath keyPath : string) (ders : list (list byte)) (key : nat)
  : fs * option string :=
  match save f certPath (pem_chain ders) with
  | (f, Some e) => (f, Some e)
  | (f, None) => save f keyPath (cr_PEM k "EC PRIVATE KEY" (cr_MarshalKey k key))
  end.

(** From the challenge server on: the key and the chain issued. *)
Definition issue (a : acme) (o : order) (domain : string) (c : challenge) : res (nat * list (list byte)) :=
  _ ← wrap_err "accept challenge: " (ac_Accept a c);
  o ← wrap_err "wait order: " (ac_WaitOrder a (o_URI o));
  key ← wrap_err "generate cert key: " (cr_GenerateKey k 1);
  csr ← wrap_err "create csr: " (cr_CreateRequest k
    {| t_CommonName := ""; t_DNSNames := [domain]; t_IPAddresses := []; t_NotBefore := 0; t_NotAfter := 0 |} key);
  ders ← wrap_err "finalize order: " (ac_CreateOrderCert a (o_FinalizeURL o) csr);
  Ok (key, ders).

(** The challenge server is stopped whatever happens. *)
Definition complete (a : acme) (f : fs) (o : order) (domain certPath keyPath uri token keyAuth : string)
  : fs * option string * list acme_effect :=
  let c := {| ch_Type := "http-01"; ch_URI := uri; ch_Token := token |} in
  let effects := [Serving ("/.well-known/acme-challenge/" +:+ token) keyAuth] ++
                 (if is_ok (ac_Accept a c) then [AcceptedChallenge c] else []) ++ [StoppedServing] in
  match issue a o domain c with
  | Err e => (f, Some e, effects)
  | Ok (key, ders) =>
      match MkdirAll f (path_Dir certPath) with
      | Some e => (f, Some e, effects)
      | None => (save_pair f certPath keyPath ders key, effects)
      end
  end.

Definition ObtainCert (a : acme) (f : fs) (domain email certPath keyPath : string)
  : fs * option string * list acme_effect :=
  match cr_GenerateKey k 0 with
  | Err e => (f, Some ("generate account key: " +:+ e), [])
  | Ok _ =>
      match ac_Register a ("mailto:" +:+ email) with
      | Err e => (f, Some ("register: " +:+ e), [])
      | Ok _ =>
          let reg := [Registered ("mailto:" +:+ email)] in
          match ac_AuthorizeOrder a domain with
          | Err e => (f, Some ("authorize order: " +:+ e), reg)
          | Ok o =>
              match choose a (o_AuthzURLs o) ("", "") with
              | Err e => (f, Some e, reg)
              | Ok (uri, token) =>
                  if bool_decide (token = "") then (f, Some "no http-01 challenge available", reg)
                  else match ac_HTTP01ChallengeResponse a token with
                       | Err e => (f, Some ("key auth: " +:+ e), reg)
                       | Ok keyAuth =>
                           match ac_Listen80 a with
                           | Some e => (f, Some ("listen :80: " +:+ e +:+ " (make sure port 80 is free)"), reg)
                           | None =>
                               let '(r, effects) := complete a f o domain certPath keyPath uri token keyAuth in
                               (r, reg ++ effects)
                           end
                       end
              end
          end
      end
  end.

(** The names and the expiry of the first certificate of a file. *)
Definition CertInfo (f : fs) (certPath : string) : res (list string * Z) :=
  data ← ReadFile f certPath;
  match cr_DecodePEM k data with
  | None => Err ("no PEM block in " +:+ certPath)
  | Some der =>
      cert ← cr_ParseCertificate k der;
      Ok (x_DNSNames cert ++ map IP_String (x_IPAddresses cert), x_NotAfter cert)
  end.

Definition day : Z := 86400.

(** The certificate asked for: one year, for a name or an address. *)
Definition self_template (hostname : string) (now : Z) : template :=
  let ip := ParseIP hostname in
  {| t_CommonName := hostname;
     t_DNSNames := if bool_decide (ip <> []) then [] else [hostname];
     t_IPAddresses := if bool_decide (ip <> []) then [ip] else [];
     t_NotBefore := now - 3600; t_NotAfter := now + 365 * day |}.

Definition GenerateSelfSigned (f : fs) (now : Z) (hostname certPath keyPath : string) : fs * option string :=
  match MkdirAll f (path_Dir certPath) with
  | Some e => (f, Some e)
  | None =>
      match key ← cr_GenerateKey k 0; der ← cr_CreateCertificate k (self_template hostname now) key; Ok (key, der) with
      | Err e => (f, Some e)
      | Ok (key, der) => save_pair f certPath keyPath [der] key
      end
  end.

(** [tls.LoadX509KeyPair]: both files are read first. *)
Definition VerifyCert (f : fs) (certPath keyPath : string) : option string :=
  match c ← ReadFile f certPath; kk ← ReadFile f keyPath; Ok (c, kk) with
  | Err e => Some e
  | Ok (c, kk) => cr_KeyPair k c kk
  end.
End acme.

(** ** What the code relies on of the libraries: a block is read back, a
    certificate has the names and the time of its template, and goes with its
    key. *)
Class crypto_laws (k : crypto) : Prop := {
  pem_back : forall d rest, cr_DecodePEM k (cr_PEM k "CERTIFICATE" d +:+ rest) = Some d;
  cert_names : forall t key der, cr_CreateCertificate k t key = Ok der ->
    cr_ParseCertificate k der =
    Ok {| x_DNSNames := t_DNSNames t; x_IPAddresses := t_IPAddresses t; x_NotAfter := t_NotAfter t |};
  cert_key : forall t key der, cr_CreateCertificate k t key = Ok der ->
    cr_KeyPair k (cr_PEM k "CERTIFICATE" der +:+ "") (cr_PEM k "EC PRIVATE KEY" (cr_MarshalKey k key)) = None;
}.

(** ** Lemmas *)

(** What the disk takes of a pair. *)
Definition pair_files (k : crypto) (f : fs) (certPath keyPath : string) (ders : list (list byte)) (key : nat)
  : gmap string string :=
  <[keyPath := written f keyPath (cr_PEM k "EC PRIVATE KEY" (cr_MarshalKey k key))]>
    (<[certPath := written f certPath (pem_chain k ders)]> (fs_files f)).

Lemma save_pair_files k f certPath keyPath ders key f' :
  save_pair k f certPath keyPath ders key = (f', None) ->
  certPath ∉ fs_locked f /\ keyPath ∉ fs_locked f /\ f' = set_files f (pair_files k f certPath keyPath ders key).
Proof.
  unfold save_pair, save. case_bool_decide; [done|]. cbn [fs_locked set_files]. case_bool_decide; [done|].
  by intros [= <-].
Qed.

Lemma save_pair_fails k f certPath keyPath ders key f' e :
  save_pair k f certPath keyPath ders key = (f', Some e) ->
  f' = f \/ (certPath ∉ fs_locked f /\ keyPath ∈ fs_locked f /\
             f' = set_files f (<[certPath := written f certPath (pem_chain k ders)]> (fs_files f))).
Proof.
  unfold save_pair, save. case_bool_decide; [intros [= <- _]; by left|]. cbn [fs_locked set_files].
  case_bool_decide; [|done]. intros [= <- _]. right. by split_and!.
Qed.

Lemma set_files_lookup f m p : p ∉ fs_locked f ->
  ReadFile (set_files f m) p = match m !! p with Some s => Ok s | None => Err (err_noent "open" p) end.
Proof. intros H. unfold ReadFile. cbn. by rewrite bool_decide_false. Qed.

(** The challenge a list of authorizations leads to. *)
Definition pending (a : acme) (urls : list string) : list (string * string) :=
  omap (fun u => match ac_GetAuthorization a u with
                 | Ok auth => if bool_decide (az_Status auth = "valid") then None
                              else (fun c => (ch_URI c, ch_Token c)) <$> http01 (az_Challenges auth)
                 | Err _ => None
                 end) urls.

Lemma last_default {A} (x : A) l d d' : List.last (x :: l) d = List.last (x :: l) d'.
Proof. revert x. induction l as [|y l IH]; intros x; [done|apply (IH y)]. Qed.

Lemma choose_last a urls found r : choose a urls found = Ok r -> r = List.last (pending a urls) found.
Proof.
  revert found. induction urls as [|u urls IH]; intros found; cbn; [by intros [= <-]|].
  unfold pending. cbn. fold (pending a urls).
  destruct (ac_GetAuthorization a u) as [auth|]; [|done]. case_bool_decide; [apply IH|].
  destruct (http01 _) as [c|]; cbn; [|apply IH]. intros ->%IH.
  destruct (pending a urls) as [|x l]; [done|]. apply last_default.
Qed.

Lemma issue_Ok k a o domain c r : issue k a o domain c = Ok r -> ac_Accept a c = Ok tt.
Proof. unfold issue. destruct (ac_Accept a c) as [[]|]; done. Qed.

Lemma complete_spec k a f o domain certPath keyPath uri token keyAuth f' err eff :
  complete k a f o domain certPath keyPath uri token keyAuth = (f', err, eff) ->
  match err with
  | Some _ => f' = f \/ (keyPath ∈ fs_locked f /\ exists chain,
                f' = set_files f (<[certPath := written f certPath (pem_chain k chain)]> (fs_files f)))
  | None => exists key chain,
      issue k a o domain {| ch_Type := "http-01"; ch_URI := uri; ch_Token := token |} = Ok (key, chain) /\
      AcceptedChallenge {| ch_Type := "http-01"; ch_URI := uri; ch_Token := token |} ∈ eff /\
      fs_files f' = pair_files k f certPath keyPath chain key
  end /\ last eff = Some StoppedServing.
Proof.
  unfold complete. set (c := {| ch_Type := _; ch_URI := _; ch_Token := _ |}).
  assert (Hl : forall x, last ([Serving ("/.well-known/acme-challenge/" +:+ token) keyAuth] ++ x ++ [StoppedServing])
                 = Some StoppedServing) by (intros x; by rewrite app_assoc, last_snoc).
  destruct (issue k a o domain c) as [[key chain]|e] eqn:Ei; [|intros [= <- <- <-]; split; [by left|apply Hl]].
  destruct (MkdirAll f _) as [e|]; [intros [= <- <- <-]; split; [by left|apply Hl]|].
  destruct (save_pair k f certPath keyPath chain key) as [f1 [e|]] eqn:Es; intros [= <- <- <-]; (split; [|apply Hl]).
  - apply save_pair_fails in Es as [->|(_ & Hk & ->)]; [by left|]. right. eauto.
  - apply save_pair_files in Es as (_ & _ & ->). exists key, chain. split_and!; [done| |done].
    rewrite (issue_Ok _ _ _ _ _ _ Ei). cbn. set_solver.
Qed.

Lemma GenerateSelfSigned_verifies k f f' now hostname certPath keyPath `{!crypto_laws k} :
  GenerateSelfSigned k f now hostname certPath keyPath = (f', None) -> certPath <> keyPath ->
  fs_full f !! certPath = None -> fs_full f !! keyPath = None ->
  VerifyCert k f' certPath keyPath = None.
Proof.
  unfold GenerateSelfSigned. intros Hgen Hdiff Rc Rk. destruct (MkdirAll f _); [done|].
  destruct (cr_GenerateKey k 0) as [key|]; [|done]. cbn in Hgen.
  destruct (cr_CreateCertificate k _ key) as [der|] eqn:Ec; [|done]. cbn in Hgen.
  apply save_pair_files in Hgen as (Hc & Hk & ->). unfold VerifyCert. rewrite !set_files_lookup by done.
  unfold pair_files. rewrite (lookup_insert_ne _ keyPath certPath), !lookup_insert_eq by done.
  rewrite !written_writable by done. cbn. exact (cert_key _ _ _ Ec).
Qed.

(** ** Properties *)

(** A self-signed certificate is for the host, for a year, and goes with
    its key.  When the generation succeeds on a disk with room, the certificate file names exactly
    the host (its canonical text for an address) and expires 365 days later, the
    pair verifies, and no other file has changed. *)
Theorem self_signed_pair (k : crypto) (f f' : fs) (now : Z) (hostname certPath keyPath : string)
    `{!crypto_laws k}
  (Hgen : GenerateSelfSigned k f now hostname certPath keyPath = (f', None)) (Hdiff : certPath <> keyPath)
  (Hroomc : fs_full f !! certPath = None) (Hroomk : fs_full f !! keyPath = None) :
  CertInfo k f' certPath =
    Ok ([if bool_decide (ParseIP hostname <> []) then IP_String (ParseIP hostname) else hostname],
        now + 365 * day) /\
  VerifyCert k f' certPath keyPath = None /\
  (forall p, p <> certPath -> p <> keyPath -> fs_files f' !! p = fs_files f !! p).
Proof.
  pose proof (GenerateSelfSigned_verifies _ _ _ _ _ _ _ Hgen Hdiff Hroomc Hroomk) as Hv.
  unfold GenerateSelfSigned in Hgen. destruct (MkdirAll f _); [done|].
  destruct (cr_GenerateKey k 0) as [key|]; [|done]. cbn in Hgen.
  destruct (cr_CreateCertificate k _ key) as [der|] eqn:Ec; [|done]. cbn in Hgen.
  apply save_pair_files in Hgen as (Hc & Hk & ->). split_and!; [|exact Hv|].
  - unfold CertInfo, pair_files. rewrite set_files_lookup by done.
    rewrite lookup_insert_ne, lookup_insert_eq by done. rewrite written_writable by done. cbn. rewrite pem_back.
    rewrite (cert_names _ _ _ Ec). cbn. by case_bool_decide.
  - intros p H1 H2. cbn. unfold pair_files. by rewrite !lookup_insert_ne.
Qed.

(** C35: obtaining a certificate.  [ObtainCert] changes files only after the
    authority issued the chain: on an error nothing changed, except that a key
    file that cannot be opened leaves the new certificate behind; on success the
    certificate file holds what the disk took of the chain and the key file what
    it took of the key, exactly as issued where there is room, no other file
    having changed: success does not say that there was.  The challenge answered
    is that of the last authorization that is not yet valid and offers http-01;
    when there is none, for instance since every authorization is already valid,
    the renewal fails.  A challenge server that was started is stopped. *)
Theorem obtain_cert_spec (k : crypto) (a : acme) (f f' : fs) (domain email certPath keyPath : string)
    (err : option string) (effects : list acme_effect)
  (Hrun : ObtainCert k a f domain email certPath keyPath = (f', err, effects)) :
  match err with
  | Some _ => f' = f \/ (keyPath ∈ fs_locked f /\ exists chain,
                f' = set_files f (<[certPath := written f certPath (pem_chain k chain)]> (fs_files f)))
  | None => exists o uri token key chain,
      ac_AuthorizeOrder a domain = Ok o /\ List.last (pending a (o_AuthzURLs o)) ("", "") = (uri, token) /\
      AcceptedChallenge {| ch_Type := "http-01"; ch_URI := uri; ch_Token := token |} ∈ effects /\
      issue k a o domain {| ch_Type := "http-01"; ch_URI := uri; ch_Token := token |} = Ok (key, chain) /\
      fs_files f' = pair_files k f certPath keyPath chain key
  end /\
  ((exists p b, Serving p b ∈ effects) -> last effects = Some StoppedServing) /\
  (forall o, ac_AuthorizeOrder a domain = Ok o -> pending a (o_AuthzURLs o) = [] -> is_Some err).
Proof.
  assert (Hearly : forall ex (reg : list acme_effect),
    (f, Some ex, reg) = (f', err, effects) -> (reg = [] \/ reg = [Registered ("mailto:" +:+ email)]) ->
    f' = f /\ err = Some ex /\ forall p b, Serving p b ∉ effects).
  { intros ex reg [= <- <- <-] Hreg. split_and!; [done..|]. intros p b Hin.
    destruct Hreg as [-> | ->]; [by apply elem_of_nil in Hin|by apply list_elem_of_singleton in Hin]. }
  assert (Hdone : (exists ex, f' = f /\ err = Some ex /\ forall p b, Serving p b ∉ effects) ->
    match err with Some _ => f' = f \/ (keyPath ∈ fs_locked f /\ exists chain,
                f' = set_files f (<[certPath := written f certPath (pem_chain k chain)]> (fs_files f))) | None => False end /\
    ((exists p b, Serving p b ∈ effects) -> last effects = Some StoppedServing) /\ is_Some err).
  { intros (ex & -> & -> & Hs). split_and!; [by left| |eauto]. intros (p & b & Hin). by destruct (Hs p b). }
  enough (H : (exists ex, f' = f /\ err = Some ex /\ forall p b, Serving p b ∉ effects) \/
    exists o uri token keyAuth eff, ac_AuthorizeOrder a domain = Ok o /\ pending a (o_AuthzURLs o) <> [] /\
      List.last (pending a (o_AuthzURLs o)) ("", "") = (uri, token) /\
      complete k a f o domain certPath keyPath uri token keyAuth = (f', err, eff) /\
      effects = Registered ("mailto:" +:+ email) :: eff).
  { destruct H as [H|(o & uri & token & keyAuth & eff & Ho & Hp & Hl & Hc & ->)].
    - destruct (Hdone H) as (H1 & H2 & H3). split_and!; [by destruct err|done|done].
    - destruct (complete_spec _ _ _ _ _ _ _ _ _ _ _ _ _ Hc) as (H1 & H2). split_and!.
      + destruct err as [e|]; [done|]. destruct H1 as (key & chain & Hi & Ha & Hf).
        exists o, uri, token, key, chain. split_and!; try done. by right.
      + intros _. destruct eff; [done|]. exact H2.
      + intros o' Ho' Hp'. rewrite Ho in Ho'. injection Ho' as <-. done. }
  unfold ObtainCert in Hrun.
  destruct (cr_GenerateKey k 0); [|left; eauto]. destruct (ac_Register a _); [|left; eauto].
  destruct (ac_AuthorizeOrder a domain) as [o|] eqn:Eo; [|left; eauto].
  destruct (choose a _ _) as [[uri token]|] eqn:Ech; [|left; eauto].
  case_bool_decide as Ht; [left; eauto|]. destruct (ac_HTTP01ChallengeResponse a token) as [keyAuth|]; [|left; eauto].
  destruct (ac_Listen80 a); [left; eauto|]. right.
  apply choose_last in Ech. destruct (complete _ _ _ _ _ _ _ _ _ _) as [[f1 e1] eff] eqn:Ec.
  injection Hrun as <- <- <-. exists o, uri, token, keyAuth, eff. split_and!; try done.
  intros Hn. rewrite Hn in Ech. by injection Ech as -> ->.
Qed.

(** ** Witnesses *)

(** A library in which a key is its number, and that knows one template. *)
#[local] Instance template_eq_dec : EqDecision template.
Proof. solve_decision. Defined.

Definition ex_pem (t : string) (d : list byte) : string := t +:+ ":" +:+ b64_EncodeToString d +:+ nls.

Definition ex_crypto : crypto :=
  {| cr_GenerateKey := fun n => Ok n;
     cr_CreateRequest := fun t _ => Ok (bytes_of (Join "," (t_DNSNames t)));
     cr_CreateCertificate := fun t _ =>
       if bool_decide (t = self_template "vpn.example" 1000) then Ok [x01] else Err "unsupported";
     cr_MarshalKey := fun n => bytes_of (fmt_d (Z.of_nat n));
     cr_ParseCertificate := fun d =>
       if bool_decide (d = [x01])
       then Ok {| x_DNSNames := ["vpn.example"]; x_IPAddresses := []; x_NotAfter := 1000 + 365 * day |}
       else Err "x509: malformed certificate";
     cr_PEM := ex_pem;
     cr_DecodePEM := fun s => match Cut ":"%char s with
                              | Some (_, r) => match Cut nl r with Some (d, _) => b64_DecodeString d | None => None end
                              | None => None
                              end;
     cr_KeyPair := fun c kk => if bool_decide (c = ex_pem "CERTIFICATE" [x01]) then None else Some "mismatch" |}.

Lemma strip_no_newline s : has_char nl (b64_strip s) = false.
Proof.
  induction s as [|c s IH]; [done|]. cbn [b64_strip].
  destruct (bool_decide (c = _)) eqn:E1; [done|]. cbn [orb].
  destruct (bool_decide (c = "013"%char)); [done|]. cbn [has_char]. by rewrite IH; unfold nl; rewrite E1.
Qed.

#[local] Instance ex_crypto_laws : crypto_laws ex_crypto.
Proof.
  split.
  - intros d rest. cbn [cr_DecodePEM cr_PEM ex_crypto]. unfold ex_pem.
    replace (("CERTIFICATE" +:+ ":" +:+ b64_EncodeToString d +:+ nls) +:+ rest)
      with ("CERTIFICATE" +:+ String ":"%char (b64_EncodeToString d +:+ String nl rest))
      by (by rewrite !sapp_assoc).
    rewrite Cut_app by done. rewrite Cut_app; [apply b64_roundtrip|].
    rewrite <- b64_strip_encode. apply strip_no_newline.
  - intros t key der. cbn [cr_CreateCertificate ex_crypto]. case_bool_decide; [|done]. intros [= <-]. subst.
    vm_compute. done.
  - intros t key der. cbn [cr_CreateCertificate ex_crypto]. case_bool_decide; [|done]. intros [= <-].
    vm_compute. done.
Qed.

Lemma self_signed_pair_witness :
  let f' := (GenerateSelfSigned ex_crypto {| fs_files := ∅; fs_locked := ∅; fs_full := ∅ |} 1000 "vpn.example" "/c/x.crt" "/c/x.key").1 in
  CertInfo ex_crypto f' "/c/x.crt" = Ok (["vpn.example"], 1000 + 365 * day).
Proof.
  cbn zeta. refine (proj1 (self_signed_pair ex_crypto {| fs_files := ∅; fs_locked := ∅; fs_full := ∅ |} _ 1000 "vpn.example"
    "/c/x.crt" "/c/x.key" _ _ _ _)).
  - vm_compute. reflexivity.
  - discriminate.
  - reflexivity.
  - reflexivity.
Defined.

Definition ex_acme (status : string) : acme :=
  {| ac_Register := fun _ => Ok tt;
     ac_AuthorizeOrder := fun d => Ok {| o_URI := "o"; o_AuthzURLs := ["a1"]; o_FinalizeURL := "fin" |};
     ac_GetAuthorization := fun _ => Ok {| az_Status := status;
       az_Challenges := [{| ch_Type := "dns-01"; ch_URI := "c0"; ch_Token := "t0" |};
                         {| ch_Type := "http-01"; ch_URI := "c1"; ch_Token := "t1" |}] |};
     ac_HTTP01ChallengeResponse := fun t => Ok (t +:+ ".thumb");
     ac_Listen80 := None;
     ac_Accept := fun _ => Ok tt;
     ac_WaitOrder := fun u => Ok {| o_URI := u; o_AuthzURLs := []; o_FinalizeURL := "fin" |};
     ac_CreateOrderCert := fun _ csr => Ok [bytes_of "leaf"; bytes_of "ca"] |}.

(** A full disk: the certificate is cut short, the key is empty, and the answer
    is success; the pair does not load. *)
Example obtain_cert_full_disk :
  let '(f, err, _) := ObtainCert ex_crypto (ex_acme "pending")
    {| fs_files := ∅; fs_locked := ∅; fs_full := {[ "/c/x.crt" := 5%nat; "/c/x.key" := 0%nat ]} |}
    "vpn.example" "a@b" "/c/x.crt" "/c/x.key" in
  err = None /\ fs_files f !! "/c/x.crt" = Some "CERTI" /\ fs_files f !! "/c/x.key" = Some "" /\
  VerifyCert ex_crypto f "/c/x.crt" "/c/x.key" = Some "mismatch".
Proof. vm_compute. done. Qed.

Definition ex_fs : fs := {| fs_files := ∅; fs_locked := ∅; fs_full := ∅ |}.

Lemma obtain_cert_spec_witness :
  (exists o uri token key chain, ac_AuthorizeOrder (ex_acme "pending") "vpn.example" = Ok o /\
     List.last (pending (ex_acme "pending") (o_AuthzURLs o)) ("", "") = (uri, token) /\ token = "t1" /\
     issue ex_crypto (ex_acme "pending") o "vpn.example"
       {| ch_Type := "http-01"; ch_URI := uri; ch_Token := token |} = Ok (key, chain)) /\
  is_Some (ObtainCert ex_crypto (ex_acme "valid") ex_fs "vpn.example" "a@b" "/c/x.crt" "/c/x.key").1.2.
Proof.
  split.
  - pose proof (obtain_cert_spec ex_crypto (ex_acme "pending") ex_fs
      (ObtainCert ex_crypto (ex_acme "pending") ex_fs "vpn.example" "a@b" "/c/x.crt" "/c/x.key").1.1
      "vpn.example" "a@b" "/c/x.crt" "/c/x.key" None
      (ObtainCert ex_crypto (ex_acme "pending") ex_fs "vpn.example" "a@b" "/c/x.crt" "/c/x.key").2
      ltac:(vm_compute; reflexivity)) as [(o & uri & token & key & chain & Ho & Hl & _ & Hi & _) _].
    exists o, uri, token, key, chain. split_and!; try done.
    assert (Eo : o = {| o_URI := "o"; o_AuthzURLs := ["a1"]; o_FinalizeURL := "fin" |}) by (cbn in Ho; congruence).
    subst o. vm_compute in Hl. congruence.
  - destruct (obtain_cert_spec ex_crypto (ex_acme "valid") ex_fs ex_fs "vpn.example" "a@b" "/c/x.crt" "/c/x.key"
      (Some "no http-01 challenge available") [Registered "mailto:a@b"] ltac:(vm_compute; reflexivity)) as (_ & _ & H).
    assert (E : (ObtainCert ex_crypto (ex_acme "valid") ex_fs "vpn.example" "a@b" "/c/x.crt" "/c/x.key").1.2 =
      Some "no http-01 challenge available") by (vm_compute; reflexivity).
    rewrite E. apply (H {| o_URI := "o"; o_AuthzURLs := ["a1"]; o_FinalizeURL := "fin" |}); reflexivity.
Defined.
