(* ===== verification/Manage.v ===== *)
(** internal/admin/manage.go and paths.go: what the screens of the management
    tool do.  A screen's handler takes the text of its fields and gives the new
    state with what it shows; drawing and focus are left out. *)
From S2P Require Import Prelude GoStrings GoNet GoOS GoHttp ConnTracker.
From S2P Require Auth AdminStore AdminApi AdminClient Acme.
#[local] Open Scope Z_scope.

Inductive color := Gray | Green | Yellow | Red | White.

(** A modal leaves the form open; a status closes it. *)
Inductive outcome :=
| Modal (msg : string)
| Status (msg : string) (is_error : bool)
| Nothing.

(** ** Numbers *)

(** [fmt.Sscanf(s, "%d", &n)] on an int: a sign, digits, and whatever follows. *)
Fixpoint take_digits (s : string) : string :=
  match s with
  | String c s => match decval c with Some _ => String c (take_digits s) | None => "" end
  | EmptyString => ""
  end.

Definition in_int64 (z : Z) : bool := (- 2 ^ 63 <=? z) && (z <? 2 ^ 63).

Definition Sscanf_d (s : string) : option Z :=
  let '(sign, rest) := match s with
                       | String c r => if bool_decide (c = "-"%char) then (-1, r)
                                       else if bool_decide (c = "+"%char) then (1, r) else (1, s)
                       | EmptyString => (1, s)
                       end in
  v ← dec_number (take_digits rest);
  let n := sign * v in
  if in_int64 n then Some n else None.

(** [float64(n)] of an unsigned integer: rounded to 53 bits, ties to even. *)
Definition round_even (num den : Z) : Z :=
  let q := num / den in
  let r := num mod den in
  if 2 * r <? den then q else if den <? 2 * r then q + 1 else if Z.even q then q else q + 1.

Definition float64 (n : Z) : Z :=
  if n <? 2 ^ 53 then n else let u := 2 ^ (Z.log2 n - 52) in round_even n u * u.

(** [%.pf] of [num / den]. *)
Fixpoint pad_left (k : nat) (s : string) : string :=
  if (k <=? String.length s)%nat then s
  else match k with O => s | S k => String "0"%char (pad_left k s) end.

Definition fmt_fixed (p : nat) (num den : Z) : string :=
  let n := round_even (num * 10 ^ Z.of_nat p) den in
  fmt_d (n / 10 ^ Z.of_nat p) +:+ "." +:+ pad_left p (fmt_d (n mod 10 ^ Z.of_nat p)).

Definition KB : Z := 2 ^ 10.
Definition MB : Z := 2 ^ 20.
Definition GB : Z := 2 ^ 30.
Definition TB : Z := 2 ^ 40.

Definition humanBytes (n : Z) : string :=
  if TB <=? n then fmt_fixed 2 (float64 n) TB +:+ " TB"
  else if GB <=? n then fmt_fixed 2 (float64 n) GB +:+ " GB"
  else if MB <=? n then fmt_fixed 2 (float64 n) MB +:+ " MB"
  else if KB <=? n then fmt_fixed 1 (float64 n) KB +:+ " KB"
  else fmt_d n +:+ " B".

(** [d.Round(time.Second).String()]: whole seconds. *)
Definition round_second (d : Z) : Z := Z.sgn d * ((2 * Z.abs d + second) / (2 * second)).

Definition Duration_String (secs : Z) : string :=
  let a := Z.abs secs in
  (if secs <? 0 then "-" else "") +:+
  (if 3600 <=? a then fmt_d (a / 3600) +:+ "h" else "") +:+
  (if 60 <=? a then fmt_d (a / 60 mod 60) +:+ "m" else "") +:+ fmt_d (a mod 60) +:+ "s".

Example human_examples :
  map humanBytes [0; 1023; 1024; 1536; 1048576; 5000000; 1073741824; 2 ^ 63; 2 ^ 64 - 1] =
  ["0 B"; "1023 B"; "1.0 KB"; "1.5 KB"; "1.00 MB"; "4.77 MB"; "1.00 GB"; "8388608.00 TB"; "16777216.00 TB"] /\
  map (fun d => Duration_String (round_second d)) [0; 499999999; 500000000; 61 * second; 3600 * second; -(90 * second)] =
  ["0s"; "0s"; "1s"; "1m1s"; "1h0m0s"; "-1m30s"].
Proof. vm_compute. done. Qed.

(** ** paths.go *)

Definition atoi_error (s why : string) : string := "strconv.Atoi: parsing " +:+ s +:+ ": " +:+ why.

(** [strconv.Atoi]; the error quotes the text. *)
Definition Atoi {UT : UnicodeTables} (s : string) : res Z :=
  let '(sign, rest) := match s with
                       | String c r => if bool_decide (c = "-"%char) then (-1, r)
                                       else if bool_decide (c = "+"%char) then (1, r) else (1, s)
                       | EmptyString => (1, s)
                       end in
  match dec_number rest with
  | None => Err (atoi_error (Quote s) "invalid syntax")
  | Some v => if in_int64 (sign * v) then Ok (sign * v) else Err (atoi_error (Quote s) "value out of range")
  end.

Section server.
Context {UT : UnicodeTables}.

(** The output of pgrep, and the kernel's answer to SIGHUP. *)
Definition serverPID (pgrep : res string) : res Z :=
  match pgrep with
  | Err _ => Err "server not running"
  | Ok out => Atoi (TrimSpace out)
  end.

Definition reloadTLS (pgrep : res string) (hup : Z -> option string) : option string * option Z :=
  match serverPID pgrep with
  | Err e => (Some e, None)
  | Ok pid => (hup pid, Some pid)
  end.

Definition serverRunning (pgrep : res string) : bool := is_ok (serverPID pgrep).
End server.

(** ** The users page *)

Record user_row := {
  ur_username : string;
  ur_devices : string;
  ur_active : string * color;
  ur_tunnels : string;
  ur_in : string;
  ur_out : string;
}.

Inductive users_page :=
| UsersError (msg : string)
| NoUsers
| Users (rows : list user_row).

Definition dash : string := "–".

Section users.
Context {UT : UnicodeTables} {S : Type} `{AdminStore.UserStore S} {T : Type} `{AdminApi.AdminUserStore T}.

Variable net : string -> res (AdminApi.api (S := T)).
Variable adminAPI : option AdminClient.AdminClient.

(** The last line of the statistics of a name. *)
Definition stats_by_user (l : list AdminClient.UserStats) : gmap string AdminClient.UserStats :=
  foldl (fun m s => <[AdminClient.s_Username s := s]> m) ∅ l.

Definition row_of (stats : gmap string AdminClient.UserStats) (e : AdminStore.credEntry) : user_row :=
  let dev := if 0 <? AdminStore.MaxDevices e then fmt_d (AdminStore.MaxDevices e) else "∞" in
  match stats !! AdminStore.Username e with
  | None => {| ur_username := AdminStore.Username e; ur_devices := dev; ur_active := (dash, Gray);
               ur_tunnels := dash; ur_in := dash; ur_out := dash |}
  | Some s =>
      let full := (0 <? AdminStore.MaxDevices e) && (AdminStore.MaxDevices e <=? AdminClient.s_ActiveConns s) in
      {| ur_username := AdminStore.Username e; ur_devices := dev;
         ur_active := if full then (fmt_d (AdminClient.s_ActiveConns s) +:+ " / " +:+ fmt_d (AdminStore.MaxDevices e), Red)
                      else (fmt_d (AdminClient.s_ActiveConns s),
                            if 0 <? AdminClient.s_ActiveConns s then Green else Gray);
         ur_tunnels := fmt_d (AdminClient.s_OpenTunnels s) +:+ " / " +:+ fmt_d (AdminClient.s_TotalTunnels s);
         ur_in := humanBytes (AdminClient.s_BytesIn s); ur_out := humanBytes (AdminClient.s_BytesOut s) |}
  end.

(** The statistics shown: none without a client or when the API fails. *)
Definition fetch_stats (w : AdminApi.world T) : AdminApi.world T * gmap string AdminClient.UserStats :=
  match adminAPI with
  | None => (w, ∅)
  | Some _ => match AdminClient.UserStats_of net adminAPI w with
              | (w, Ok l) => (w, stats_by_user l)
              | (w, Err _) => (w, ∅)
              end
  end.

Definition refreshUsers (s : S) (w : AdminApi.world T) : AdminApi.world T * users_page :=
  match AdminStore.us_List s with
  | Err e => (w, UsersError ("Error: " +:+ e))
  | Ok entries =>
      let '(w, stats) := fetch_stats w in
      (w, match entries with [] => NoUsers | _ => Users (map (row_of stats) entries) end)
  end.

(** The limit field; [empty] is its meaning when nothing is entered. *)
Definition parse_limit (raw : string) : option Z :=
  match Sscanf_d raw with
  | Some n => if n <? 0 then None else Some n
  | None => None
  end.

Definition add_form (s : S) (username password limit : string) : S * outcome :=
  let u := TrimSpace username in
  let raw := TrimSpace limit in
  if bool_decide (u = "") || bool_decide (password = "")
  then (s, Modal "Username and password cannot be empty")
  else match (if bool_decide (raw = "") then Some 0 else parse_limit raw) with
       | None => (s, Modal "Invalid device limit")
       | Some n =>
           match AdminStore.us_Add s u password with
           | (s, Some e) => (s, Modal ("Error: " +:+ e))
           | (s, None) =>
               (if 0 <? n then (AdminStore.us_SetMaxDevices s u n).1 else s,
                Status ("User " +:+ Quote u +:+ " added") false)
           end
       end.

Definition password_form (s : S) (username p1 p2 : string) : S * outcome :=
  if bool_decide (p1 <> p2) then (s, Modal "Passwords do not match")
  else if bool_decide (p1 = "") then (s, Modal "Password cannot be empty")
  else match AdminStore.us_ChangePassword s username p1 with
       | (s, Some e) => (s, Modal ("Error: " +:+ e))
       | (s, None) => (s, Status ("Password changed for " +:+ Quote username) false)
       end.

Definition limit_form (s : S) (username limit : string) : S * outcome :=
  match parse_limit (TrimSpace limit) with
  | None => (s, Modal "Invalid number")
  | Some n =>
      match AdminStore.us_SetMaxDevices s username n with
      | (s, Some e) => (s, Modal ("Error: " +:+ e))
      | (s, None) =>
          (s, Status (if n =? 0 then "Limit for " +:+ Quote username +:+ " removed"
                      else "Limit for " +:+ Quote username +:+ " set to " +:+ fmt_d n) false)
      end
  end.

(** The limit shown when the form opens. *)
Definition current_limit (s : S) (username : string) : Z :=
  match AdminStore.us_List s with
  | Ok es => from_option AdminStore.MaxDevices 0 (head (filter (fun e => AdminStore.Username e = username) es))
  | Err _ => 0
  end.

(** The name of the selected row; nothing on the header and on the line of an
    empty table. *)
Definition selected (page : users_page) (row : nat) : option string :=
  match row, page with
  | Datatypes.S i, Users rows => u ← ur_username <$> rows !! i;
                       if bool_decide (u = "") || bool_decide (u = "(no users)") then None else Some u
  | _, _ => None
  end.

(** The keys of the page: what opens, with the limit shown first. *)
Inductive users_action := AddForm | AskDelete (u : string) | PasswordForm (u : string)
  | LimitForm (u : string) (current : Z) | UsersRefresh | UsersPass.

Definition users_key (s : S) (page : users_page) (row : nat) (key : ascii) : users_action :=
  let k := lower1 key in
  if bool_decide (k = "a"%char) then AddForm
  else if bool_decide (k = "r"%char) then UsersRefresh
  else match selected page row with
       | None => UsersPass
       | Some u => if bool_decide (k = "d"%char) then AskDelete u
                   else if bool_decide (k = "p"%char) then PasswordForm u
                   else if bool_decide (k = "l"%char) then LimitForm u (current_limit s u) else UsersPass
       end.

(** A confirmed deletion; the error of the kick is dropped. *)
Definition delete_user (s : S) (w : AdminApi.world T) (username : string) : S * AdminApi.world T * outcome :=
  match AdminStore.us_Delete s username with
  | (s, Some e) => (s, w, Modal ("Error: " +:+ e))
  | (s, None) =>
      let w := match adminAPI with
               | Some _ => (AdminClient.KickUser net adminAPI username w).1
               | None => w
               end in
      (s, w, Status ("User " +:+ Quote username +:+ " deleted and disconnected") false)
  end.

(** ** The sessions page *)

Record session_row := {
  sr_user : string; sr_remote : string; sr_uptime : string; sr_tunnels : string; sr_in : string; sr_out : string;
}.

Inductive sessions_page := SessionsMessage (text : string) | SessionRows (rows : list session_row).

Definition session_row_of (now : Z) (x : AdminClient.SessionInfo) : session_row :=
  {| sr_user := AdminClient.c_Username x; sr_remote := AdminClient.c_RemoteAddr x;
     sr_uptime := Duration_String (round_second (now - AdminClient.c_ConnectedAt x));
     sr_tunnels := fmt_d (AdminClient.c_OpenTunnels x) +:+ " / " +:+ fmt_d (AdminClient.c_TotalTunnels x);
     sr_in := humanBytes (AdminClient.c_BytesIn x); sr_out := humanBytes (AdminClient.c_BytesOut x) |}.

Definition refreshSessions (now : Z) (w : AdminApi.world T) : AdminApi.world T * sessions_page :=
  match adminAPI with
  | None => (w, SessionsMessage "[red]Admin API not configured. Add [admin] section to vpn.toml.[white]")
  | Some _ =>
      match AdminClient.Sessions net adminAPI w with
      | (w, Err e) => (w, SessionsMessage ("[red]Error: " +:+ e +:+ "[white]"))
      | (w, Ok []) => (w, SessionsMessage "(no active sessions)")
      | (w, Ok l) => (w, SessionRows (map (session_row_of now) l))
      end
  end.

(** The first two cells of a line below the header; a message has no second. *)
Definition session_cells (page : sessions_page) (row : nat) : string * string :=
  match row, page with
  | O, _ => ("", "")
  | Datatypes.S i, SessionRows rows => from_option (fun r => (sr_user r, sr_remote r)) ("", "") (rows !! i)
  | Datatypes.S O, SessionsMessage text => (text, "")
  | Datatypes.S _, SessionsMessage _ => ("", "")
  end.

Inductive sessions_action := AskKick (u remote : string) | AskKickAll (u : string) | SessionsRefresh | SessionsPass.

Definition sessions_key (page : sessions_page) (row : nat) (key : ascii) : sessions_action :=
  let '(u, remote) := session_cells page row in
  if bool_decide (key = "r"%char) || bool_decide (key = "R"%char) then SessionsRefresh
  else match adminAPI with
       | None => SessionsPass
       | Some _ =>
           if bool_decide (key = "k"%char)
           then (if bool_decide (u = "") || bool_decide (remote = "") then SessionsPass else AskKick u remote)
           else if bool_decide (key = "K"%char)
           then (if bool_decide (u = "") then SessionsPass else AskKickAll u) else SessionsPass
       end.

Definition kick_one (w : AdminApi.world T) (username remote : string) : AdminApi.world T * outcome :=
  match adminAPI with
  | None => (w, Nothing)
  | Some _ =>
      if bool_decide (username = "") || bool_decide (remote = "") then (w, Nothing)
      else match AdminClient.KickSession net adminAPI username remote w with
           | (w, Some e) => (w, Modal ("Kick error: " +:+ e))
           | (w, None) => (w, Status ("Kicked session " +:+ remote) false)
           end
  end.

Definition kick_all (w : AdminApi.world T) (username : string) : AdminApi.world T * outcome :=
  match adminAPI with
  | None => (w, Nothing)
  | Some _ =>
      if bool_decide (username = "") then (w, Nothing)
      else match AdminClient.KickUser net adminAPI username w with
           | (w, Some e) => (w, Modal ("Kick error: " +:+ e))
           | (w, None) => (w, Status ("Kicked all sessions of " +:+ Quote username) false)
           end
  end.
End users.

(** ** The pages *)

Inductive front := FUsers | FSessions | FCerts | FStatus | FDialog.

(** A key of the whole screen: the page it opens; a dialog keeps the front. *)
Definition page_key (at_front : front) (key : ascii) : front :=
  match at_front with
  | FDialog => FDialog
  | _ => if bool_decide (key = "1"%char) then FUsers
         else if bool_decide (key = "2"%char) then FSessions
         else if bool_decide (key = "3"%char) then FCerts
         else if bool_decide (key = "4"%char) then FStatus else at_front
  end.

(** The labels of the bar on top. *)
Definition api_badge (adminAPI : option AdminClient.AdminClient) : string :=
  match adminAPI with
  | None => "[red]admin api: not configured[white]"
  | Some c => "[green]admin api: " +:+ AdminClient.Address c +:+ "[white]"
  end.

(** ** The certificates page *)

Inductive tls_choice := LetsEncrypt | SelfSigned | CustomPaths.

(** A host with the names, the expiry, the days left and their colour. *)
Record cert_row := {
  cw_host : string; cw_cert : string; cw_key : string; cw_info : res (list string * Z * Z * color);
}.

Definition cert_days (now expiry : Z) : Z := Z.quot (expiry - now) Acme.day.
Definition days_color (days : Z) : color := if days <? 30 then Red else if days <? 60 then Yellow else Green.

Definition certs_dir : string := "/etc/trusttunnel/certs/".

Section certs.
Context {UT : UnicodeTables}.
Variable toml_hosts : string -> res AdminStore.hostsFile.
Variable k : Acme.crypto.
Variable a : Acme.acme.
Variables (pgrep : res string) (hup : Z -> option string).

Definition refreshCerts (f : fs) (paths : AdminStore.Paths) (now : Z) : res (list cert_row) :=
  hf ← map_err (fun e => "[red]Error loading hosts.toml: " +:+ e)
         (AdminStore.loadHosts toml_hosts f (AdminStore.p_Hosts paths));
  Ok (map (fun h => {| cw_host := AdminStore.h_Hostname h; cw_cert := AdminStore.h_CertChainPath h;
                       cw_key := AdminStore.h_PrivateKeyPath h;
                       cw_info := '(domains, expiry) ← Acme.CertInfo k f (AdminStore.h_CertChainPath h);
                                  Ok (domains, expiry, cert_days now expiry, days_color (cert_days now expiry)) |})
          (AdminStore.hf_MainHosts hf)).

(** The end of every branch that got a pair: the host list is updated and the
    server told, whatever both say; the third component is the process told. *)
Definition use_pair (f : fs) (paths : AdminStore.Paths) (hostname cert key msg : string)
  : fs * outcome * option Z :=
  let f := (AdminStore.addOrUpdateHost toml_hosts f paths hostname cert key).1 in
  (f, Status msg false, (reloadTLS pgrep hup).2).

Definition cert_form (f : fs) (paths : AdminStore.Paths) (now : Z) (choice : tls_choice)
    (hostname email certPath keyPath : string) : fs * outcome * option Z :=
  let hostname := TrimSpace hostname in
  let email := TrimSpace email in
  let c := certs_dir +:+ hostname +:+ ".crt" in
  let kk := certs_dir +:+ hostname +:+ ".key" in
  let added := "Cert for " +:+ hostname +:+ " added, TLS reloaded" in
  if bool_decide (hostname = "") then (f, Modal "Hostname is required", None)
  else match choice with
       | LetsEncrypt =>
           if bool_decide (email = "") then (f, Modal "Email is required for Let's Encrypt", None)
           else match Acme.ObtainCert k a f hostname email c kk with
                | (f, Some e, _) => (f, Modal ("Let's Encrypt error: " +:+ e), None)
                | (f, None, _) => use_pair f paths hostname c kk "Certificate obtained, TLS reloaded"
                end
       | SelfSigned =>
           match Acme.GenerateSelfSigned k f now hostname c kk with
           | (f, Some e) => (f, Modal ("Error: " +:+ e), None)
           | (f, None) => use_pair f paths hostname c kk added
           end
       | CustomPaths =>
           match Acme.VerifyCert k f (TrimSpace certPath) (TrimSpace keyPath) with
           | Some e => (f, Modal ("Cert verify failed: " +:+ e), None)
           | None => use_pair f paths hostname (TrimSpace certPath) (TrimSpace keyPath) added
           end
       end.

Definition reload_key : outcome :=
  match (reloadTLS pgrep hup).1 with
  | Some e => Status ("Reload failed: " +:+ e) true
  | None => Status "SIGHUP sent — TLS reloaded" false
  end.
End certs.

(** ** The status page *)

Record status_page := {
  sp_pid : option Z;
  sp_files : list (string * string * bool);   (* name, path, present *)
  sp_store : string * string;
  sp_users : option nat;
}.

Definition refreshStatus {UT : UnicodeTables} {S} `{AdminStore.UserStore S} (pgrep : res string) (f : fs)
    (paths : AdminStore.Paths) (s : S) : status_page :=
  {| sp_pid := res_opt (serverPID pgrep);
     sp_files := map (fun np : string * string => (np.1, np.2, file_exists f np.2))
       [("vpn.toml", AdminStore.p_VPN paths); ("hosts.toml", AdminStore.p_Hosts paths);
        ("credentials.toml (file store)", AdminStore.p_Creds paths)];
     sp_store := (AdminStore.us_StoreType s, AdminStore.us_Location s);
     sp_users := match AdminStore.us_List s with Ok l => Some (length l) | Err _ => None end |}.

(** ** Lemmas *)

Lemma round_even_close num den : 0 < den -> 0 <= num -> 2 * Z.abs (round_even num den * den - num) <= den.
Proof.
  intros Hd Hn. unfold round_even.
  pose proof (Z.div_mod num den ltac:(lia)) as Hq. pose proof (Z.mod_pos_bound num den Hd) as Hr.
  destruct (Z.ltb_spec (2 * (num mod den)) den); [|destruct (Z.ltb_spec den (2 * (num mod den)))];
    [| |destruct (Z.even _)]; nia.
Qed.

Lemma float64_small n : n < 2 ^ 53 -> float64 n = n.
Proof. intros H. unfold float64. by destruct (Z.ltb_spec n (2 ^ 53)); [|lia]. Qed.

(** The number of tenths or hundredths of the unit a text shows. *)
Definition shown_parts (n : Z) : Z * Z * string :=
  if TB <=? n then (100, TB, " TB") else if GB <=? n then (100, GB, " GB")
  else if MB <=? n then (100, MB, " MB") else if KB <=? n then (10, KB, " KB") else (1, 1, " B").

Definition decimals (p : Z) : nat := if p =? 100 then 2 else if p =? 10 then 1 else 0.

(** The routine in one formula. *)
Lemma humanBytes_parts n : 0 <= n < 2 ^ 53 ->
  humanBytes n =
  let '(p, unit, name) := shown_parts n in
  (if p =? 1 then fmt_d n else fmt_fixed (decimals p) n unit) +:+ name.
Proof.
  intros Hn. unfold humanBytes, shown_parts. rewrite float64_small by lia.
  destruct (TB <=? n), (GB <=? n), (MB <=? n), (KB <=? n); done.
Qed.

(** ** Properties *)

(** Sizes are shown right.  For every amount below 2^53 bytes the text is
    the number of tenths or hundredths of the unit nearest to the amount: the
    value shown is off by at most half a unit of its last digit, the unit is
    the largest one not above the amount, and below one terabyte it is less
    than 1024 units. *)
Theorem humanBytes_rounds (n : Z) (Hn : 0 <= n < 2 ^ 53) :
  let '(p, unit, name) := shown_parts n in
  exists shown, 2 * Z.abs (shown * unit - n * p) <= unit /\
    humanBytes n = (if p =? 1 then fmt_d shown
                    else fmt_d (shown / p) +:+ "." +:+ pad_left (decimals p) (fmt_d (shown mod p))) +:+ name /\
    (unit <= n \/ unit = 1) /\ (n < TB -> n < 1024 * unit).
Proof.
  rewrite humanBytes_parts by done. unfold shown_parts.
  pose proof (round_even_close (n * 100) TB ltac:(done) ltac:(lia)) as H4.
  pose proof (round_even_close (n * 100) GB ltac:(done) ltac:(lia)) as H3.
  pose proof (round_even_close (n * 100) MB ltac:(done) ltac:(lia)) as H2.
  pose proof (round_even_close (n * 10) KB ltac:(done) ltac:(lia)) as H1.
  destruct (Z.leb_spec TB n); [|destruct (Z.leb_spec GB n); [|destruct (Z.leb_spec MB n);
    [|destruct (Z.leb_spec KB n)]]].
  - exists (round_even (n * 100) TB). split_and!; [done|done|by left|lia].
  - exists (round_even (n * 100) GB). split_and!; [done|done|by left|unfold TB, GB in *; lia].
  - exists (round_even (n * 100) MB). split_and!; [done|done|by left|unfold MB, GB in *; lia].
  - exists (round_even (n * 10) KB). split_and!; [done|done|by left|unfold MB, KB in *; lia].
  - exists n. split_and!; [lia|done|by right|unfold KB in *; lia].
Qed.

Section handlers.
Context {UT : UnicodeTables} {S : Type} `{AdminStore.UserStore S} {T : Type} `{AdminApi.AdminUserStore T}.

(** A user deleted in the tool is cut off on the server.  With the admin
    API configured and reachable and a name that needs no escaping, a deletion
    the store accepts leaves no cached entry of the name in the server's
    authenticator and every connection listed for it revoked; a deletion the
    store refuses changes nothing on the server and is reported. *)
Theorem deletion_reaches_server (net : string -> res (AdminApi.api (S := T))) (cfg : AdminApi.settings) (uptime : Z)
    (static h : AdminApi.api (S := T)) (c : AdminClient.AdminClient) (w : AdminApi.world T)
    (s s' : S) (username : string) (err : option string)
  (Hserve : AdminApi.serve cfg uptime static = Some h)
  (Hnet : net (AdminClient.Address c) = Ok h) (Haddr : AdminClient.Address c <> "")
  (Htoken : AdminClient.Token c = AdminApi.st_Token cfg)
  (Hu : query_safe username = true /\ username <> "")
  (Hdel : AdminStore.us_Delete s username = (s', err)) :
  let '(s1, w1, out) := delete_user net (Some c) s w username in
  s1 = s' /\
  match err with
  | Some e => w1 = w /\ out = Modal ("Error: " +:+ e)
  | None => Auth.a_cache (AdminApi.w_auth w1) !! username = None /\
            (forall conn, conn ∈ conns_of (AdminApi.w_tracker w) username ->
               (IsRevoked (AdminApi.w_tracker w1) (Some conn)).1 = true)
  end.
Proof.
  unfold delete_user. rewrite Hdel. destruct err as [e|]; [done|].
  pose proof (AdminClient.client_kicks net cfg uptime static h c w username Hserve Hnet Haddr Htoken Hu) as Hk.
  rewrite Hk. cbn [fst]. split_and!; [done|apply AdminApi.invalidate_forgets|].
  intros conn Hc. by apply AdminApi.kick_user_revokes.
Qed.

(** The status line of a deletion claims a disconnection also when there is no
    admin API to ask for one, and nothing was disconnected. *)
Theorem deletion_claims_disconnect (net : string -> res (AdminApi.api (S := T))) (s s' : S) (w : AdminApi.world T) (u : string)
  (Hdel : AdminStore.us_Delete s u = (s', None)) :
  delete_user net None s w u = (s', w, Status ("User " +:+ Quote u +:+ " deleted and disconnected") false).
Proof. unfold delete_user. by rewrite Hdel. Qed.
End handlers.

(** A hosts.toml that does not parse is replaced.  Adding a certificate when
    the file exists but cannot be decoded writes a file with the new host only:
    every other host is lost. *)
Theorem broken_hosts_replaced {UT : UnicodeTables} (toml_hosts : string -> res AdminStore.hostsFile)
    (f : fs) (paths : AdminStore.Paths) (hostname cert key text e : string)
  (Hfree : writable f (AdminStore.p_Hosts paths))
  (Htext : fs_files f !! AdminStore.p_Hosts paths = Some text) (Hbad : toml_hosts text = Err e) :
  let h := {| AdminStore.h_Hostname := hostname; AdminStore.h_CertChainPath := cert;
              AdminStore.h_PrivateKeyPath := key |} in
  ReadFile (AdminStore.addOrUpdateHost toml_hosts f paths hostname cert key).1 (AdminStore.p_Hosts paths) =
  Ok (AdminStore.render_section "main_hosts" [h] +:+ AdminStore.render_section "ping_hosts" [h]).
Proof.
  cbn zeta. unfold AdminStore.addOrUpdateHost.
  assert (Hload : AdminStore.loadHosts toml_hosts f (AdminStore.p_Hosts paths) = Err e).
  { unfold AdminStore.loadHosts, file_exists. rewrite Htext, bool_decide_true by eauto. cbn [negb].
    unfold DecodeFile, ReadFile. rewrite bool_decide_false, Htext by apply Hfree. exact Hbad. }
  rewrite Hload. unfold AdminStore.saveHosts. rewrite WriteFile_ok by done. cbn [fst].
  rewrite ReadFile_written by apply Hfree. cbn. by rewrite ?sapp_nil_r.
Qed.

(** Pgrep names every process whose command line mentions the server; with two
    of them the server counts as stopped and no reload is ever sent. *)
Theorem two_processes_not_running {UT : UnicodeTables} (hup : Z -> option string) :
  serverRunning (Ok ("4711" +:+ nls +:+ "4712" +:+ nls)) = false /\
  (reloadTLS (Ok ("4711" +:+ nls +:+ "4712" +:+ nls)) hup).2 = None.
Proof. vm_compute. done. Qed.

(** ** Witnesses *)

Lemma humanBytes_rounds_witness :
  exists shown, 2 * Z.abs (shown * MB - 5000000 * 100) <= MB /\
    humanBytes 5000000 = (fmt_d (shown / 100) +:+ "." +:+ pad_left 2 (fmt_d (shown mod 100))) +:+ " MB".
Proof.
  pose proof (humanBytes_rounds 5000000 ltac:(lia)) as H. change (shown_parts 5000000) with (100, MB, " MB") in H.
  cbv beta iota in H. destruct H as (shown & Hb & Ht & _). exists shown. split; [exact Hb|exact Ht].
Defined.

(** An admin store in memory. *)
Definition mem_admin : Type := list string.
#[local] Instance ex_admin : AdminStore.UserStore mem_admin := {|
  AdminStore.us_List s := Ok (map (fun u => AdminStore.file_entry u "pw" 0) s);
  AdminStore.us_Add s u _ := (s ++ [u], None);
  AdminStore.us_Delete s u :=
    if bool_decide (u ∈ s) then (filter (fun v => v <> u) s, None) else (s, Some "user not found");
  AdminStore.us_ChangePassword s _ _ := (s, None);
  AdminStore.us_SetMaxDevices s _ _ := (s, None);
  AdminStore.us_StoreType _ := "file";
  AdminStore.us_Location _ := "credentials.toml";
  AdminStore.us_lifecycle := None;
|}.

#[local] Existing Instances AdminApi.ex_mem AdminApi.ex_tables.

Lemma deletion_reaches_server_witness :
  let '(s1, w1, _) := delete_user AdminClient.ex_net (Some AdminClient.ex_client) ["bob"; "ann"]
                        (AdminApi.ex_world {["ann" := "pw"]}) "ann" in
  s1 = ["bob"] /\ (IsRevoked (AdminApi.w_tracker w1) (Some AdminApi.ex_conn)).1 = true.
Proof.
  pose proof (deletion_reaches_server AdminClient.ex_net AdminApi.ex_settings 0 AdminApi.ex_static
    AdminClient.ex_handler AdminClient.ex_client (AdminApi.ex_world {["ann" := "pw"]}) ["bob"; "ann"] ["bob"] "ann" None
    ltac:(reflexivity) ltac:(reflexivity) ltac:(discriminate) ltac:(reflexivity)
    ltac:(split; [reflexivity|discriminate]) ltac:(vm_compute; reflexivity)) as H.
  destruct (delete_user _ _ _ _ _) as [[s1 w1] out]. destruct H as (Hs & _ & Hc).
  split; [exact Hs|]. apply Hc. vm_compute. constructor.
Defined.

(** The line that says there are no sessions is taken for a user. *)
Example no_sessions_kicked :
  sessions_key (Some {| AdminClient.Address := "http://127.0.0.1:9090"; AdminClient.Token := "t" |})
    (SessionsMessage "(no active sessions)") 1 "K"%char = AskKickAll "(no active sessions)".
Proof. reflexivity. Qed.
