(* ===== verification/Console.v ===== *)
(** internal/admin/manage.go: the management tool as one program.  The pages, the
    dialogs above them and the keys that lead from one to the other, over the
    handlers of Manage; the user moves a cursor, types keys and presses the
    buttons of the dialog on top. *)
From S2P Require Import Prelude GoStrings GoOS GoHttp ConnTracker.
From S2P Require AdminStore AdminApi AdminClient Acme Manage.
Import Manage.
#[local] Open Scope Z_scope.

(** ** The dialogs *)

Inductive dialog :=
| Message (msg : string)
| ConfirmDelete (u : string)
| ConfirmKick (u remote : string)
| ConfirmKickAll (u : string)
| AddUser
| ChangePassword (u : string)
| Limit (u : string) (current : Z)
| AddCert.

(** The name of its page: a page replaces the one of its name. *)
Definition page_name (d : dialog) : string :=
  match d with
  | Message _ => "modal"
  | ConfirmDelete _ | ConfirmKick _ _ | ConfirmKickAll _ => "confirm"
  | AddUser => "adduser"
  | ChangePassword _ => "chpass"
  | Limit _ _ => "limit"
  | AddCert => "addcert"
  end.

Definition RemovePage (name : string) (ds : list dialog) : list dialog :=
  filter (fun d => page_name d <> name) ds.
Definition AddPage (d : dialog) (ds : list dialog) : list dialog := d :: RemovePage (page_name d) ds.

(** The button pressed, with the texts of a form. *)
Inductive answer :=
| OK
| Yes
| No
| Cancel
| SubmitUser (username password limit : string)
| SubmitPassword (p1 p2 : string)
| SubmitLimit (limit : string)
| SubmitCert (choice : tls_choice) (hostname email cert key : string).

Inductive event :=
| Key (k : ascii)
| F5
| Select (row : nat)
| Press (a : answer)
| Tick                (* the refresh of every three seconds *)
| Obtained (i : nat).  (* a certificate asked for has come, or failed *)

(** What the system answers at the moment of an event. *)
Record moment := {
  m_now : Z; m_pgrep : res string; m_hup : Z -> option string; m_acme : Acme.acme;
}.

Section console.
Context {UT : UnicodeTables} {S : Type} `{AdminStore.UserStore S} {T : Type} `{AdminApi.AdminUserStore T}.
Variable net : string -> res (AdminApi.api (S := T)).
Variable adminAPI : option AdminClient.AdminClient.
Variable toml_hosts : string -> res AdminStore.hostsFile.
Variable crypto : Acme.crypto.
Variable paths : AdminStore.Paths.

Record tool := {
  t_front : front;                        (* one of the four pages *)
  t_dialogs : list dialog;                (* the top first *)
  t_users_row : nat;
  t_sessions_row : nat;
  t_users : users_page;
  t_sessions : sessions_page;
  t_certs : option (res (list cert_row));
  t_status : option status_page;
  t_bar : string * bool;
  t_jobs : list (string * string);        (* hostname, email *)
  t_store : S;
  t_world : AdminApi.world T;             (* the server *)
  t_fs : fs;
}.

Definition with_ui (t : tool) (front : front) (ds : list dialog) (bar : string * bool) : tool :=
  {| t_front := front; t_dialogs := ds; t_users_row := t_users_row t; t_sessions_row := t_sessions_row t;
     t_users := t_users t; t_sessions := t_sessions t; t_certs := t_certs t; t_status := t_status t;
     t_bar := bar; t_jobs := t_jobs t; t_store := t_store t; t_world := t_world t; t_fs := t_fs t |}.

Definition with_data (t : tool) (s : S) (w : AdminApi.world T) (f : fs) : tool :=
  {| t_front := t_front t; t_dialogs := t_dialogs t; t_users_row := t_users_row t;
     t_sessions_row := t_sessions_row t; t_users := t_users t; t_sessions := t_sessions t;
     t_certs := t_certs t; t_status := t_status t; t_bar := t_bar t; t_jobs := t_jobs t;
     t_store := s; t_world := w; t_fs := f |}.

Definition with_rows (t : tool) (users sessions : nat) : tool :=
  {| t_front := t_front t; t_dialogs := t_dialogs t; t_users_row := users; t_sessions_row := sessions;
     t_users := t_users t; t_sessions := t_sessions t; t_certs := t_certs t; t_status := t_status t;
     t_bar := t_bar t; t_jobs := t_jobs t; t_store := t_store t; t_world := t_world t; t_fs := t_fs t |}.

Definition with_pages (t : tool) (us : users_page) (ss : sessions_page) (cs : option (res (list cert_row)))
    (st : option status_page) : tool :=
  {| t_front := t_front t; t_dialogs := t_dialogs t; t_users_row := t_users_row t;
     t_sessions_row := t_sessions_row t; t_users := us; t_sessions := ss; t_certs := cs; t_status := st;
     t_bar := t_bar t; t_jobs := t_jobs t; t_store := t_store t; t_world := t_world t; t_fs := t_fs t |}.

Definition with_jobs (t : tool) (jobs : list (string * string)) : tool :=
  {| t_front := t_front t; t_dialogs := t_dialogs t; t_users_row := t_users_row t;
     t_sessions_row := t_sessions_row t; t_users := t_users t; t_sessions := t_sessions t;
     t_certs := t_certs t; t_status := t_status t; t_bar := t_bar t; t_jobs := jobs;
     t_store := t_store t; t_world := t_world t; t_fs := t_fs t |}.

Definition setStatus (msg : string) (is_error : bool) (t : tool) : tool :=
  with_ui t (t_front t) (t_dialogs t) (msg, is_error).
Definition open_dialog (d : dialog) (t : tool) : tool :=
  with_ui t (t_front t) (AddPage d (t_dialogs t)) (t_bar t).
Definition showModal (msg : string) : tool -> tool := open_dialog (Message msg).
Definition close (name : string) (t : tool) : tool :=
  with_ui t (t_front t) (RemovePage name (t_dialogs t)) (t_bar t).

(** ** Refreshing *)

Definition refresh_users (t : tool) : tool :=
  let '(w, page) := Manage.refreshUsers net adminAPI (t_store t) (t_world t) in
  let t := with_pages (with_data t (t_store t) w (t_fs t)) page (t_sessions t) (t_certs t) (t_status t) in
  match page with UsersError e => setStatus e true t | _ => t end.

Definition refresh_sessions (now : Z) (t : tool) : tool :=
  let '(w, page) := Manage.refreshSessions net adminAPI now (t_world t) in
  with_pages (with_data t (t_store t) w (t_fs t)) (t_users t) page (t_certs t) (t_status t).

Definition refresh_certs (now : Z) (t : tool) : tool :=
  with_pages t (t_users t) (t_sessions t)
    (Some (Manage.refreshCerts toml_hosts crypto (t_fs t) paths now)) (t_status t).

Definition refresh_status (m : moment) (t : tool) : tool :=
  with_pages t (t_users t) (t_sessions t) (t_certs t)
    (Some (Manage.refreshStatus (m_pgrep m) (t_fs t) paths (t_store t))).

(** ** Keys *)

(** The keys of the whole screen, then those of the page in front. *)
Definition switch_page (m : moment) (k : ascii) (t : tool) : tool :=
  let front := page_key (t_front t) k in
  if bool_decide (k ∈ ["1"%char; "2"%char; "3"%char; "4"%char]) then
    let t := with_ui t front (t_dialogs t) (t_bar t) in
    match front with
    | FUsers => refresh_users t
    | FSessions => refresh_sessions (m_now m) t
    | FCerts => refresh_certs (m_now m) t
    | FStatus => refresh_status m t
    | FDialog => t
    end
  else t.

(** A SIGHUP that reaches the server, whose pid [pgrep] told, has it reload its
    certificates. *)
Definition signalled (m : moment) (told : option Z) (w : AdminApi.world T) : AdminApi.world T :=
  match told with
  | Some pid => match m_hup m pid with None => AdminApi.emit w AdminApi.TLSReload | Some _ => w end
  | None => w
  end.
Definition with_signal (m : moment) (told : option Z) (t : tool) : tool :=
  with_data t (t_store t) (signalled m told (t_world t)) (t_fs t).

Definition reload (m : moment) (t : tool) : tool :=
  let t := with_signal m (reloadTLS (m_pgrep m) (m_hup m)).2 t in
  match reload_key (m_pgrep m) (m_hup m) with
  | Status msg e => setStatus msg e t
  | _ => t
  end.

Definition users_capture (k : ascii) (t : tool) : tool :=
  match users_key (t_store t) (t_users t) (t_users_row t) k with
  | AddForm => open_dialog AddUser t
  | AskDelete u => open_dialog (ConfirmDelete u) t
  | PasswordForm u => open_dialog (ChangePassword u) t
  | LimitForm u current => open_dialog (Limit u current) t
  | UsersRefresh => setStatus "Refreshed" false (refresh_users t)
  | UsersPass => t
  end.

Definition sessions_capture (m : moment) (k : ascii) (t : tool) : tool :=
  match sessions_key adminAPI (t_sessions t) (t_sessions_row t) k with
  | AskKick u remote => open_dialog (ConfirmKick u remote) t
  | AskKickAll u => open_dialog (ConfirmKickAll u) t
  | SessionsRefresh => setStatus "Refreshed" false (refresh_sessions (m_now m) t)
  | SessionsPass => t
  end.

Definition certs_capture (m : moment) (k : ascii) (t : tool) : tool :=
  if bool_decide (lower1 k = "a"%char) then open_dialog AddCert t
  else if bool_decide (lower1 k = "r"%char) then reload m t else t.

Definition status_capture (m : moment) (k : ascii) (t : tool) : tool :=
  if bool_decide (lower1 k = "r"%char) then reload m t else t.

Definition page_capture (m : moment) (k : ascii) (t : tool) : tool :=
  match t_front t with
  | FUsers => users_capture k t
  | FSessions => sessions_capture m k t
  | FCerts => certs_capture m k t
  | FStatus => status_capture m k t
  | FDialog => t
  end.

(** ** Buttons *)

(** A modal leaves the form [name] open, a status closes it. *)
Definition finish (name : string) (refresh : tool -> tool) (out : outcome) (t : tool) : tool :=
  match out with
  | Modal msg => showModal msg t
  | Status msg e => setStatus msg e (refresh (close name t))
  | Nothing => t
  end.

Definition submit_cert (m : moment) (choice : tls_choice) (hostname email cert key : string) (t : tool) : tool :=
  if bool_decide (TrimSpace hostname = "") then showModal "Hostname is required" t
  else
    let t := close "addcert" t in
    match choice with
    | LetsEncrypt =>
        if bool_decide (TrimSpace email = "") then showModal "Email is required for Let's Encrypt" t
        else with_jobs (setStatus "Obtaining Let's Encrypt certificate..." false t) (t_jobs t ++ [(hostname, email)])
    | _ =>
        let '(f, out, told) := cert_form toml_hosts crypto (m_acme m) (m_pgrep m) (m_hup m) (t_fs t) paths (m_now m)
                              choice hostname email cert key in
        finish "addcert" (refresh_certs (m_now m)) out
          (with_signal m told (with_data t (t_store t) (t_world t) f))
    end.

Definition press (m : moment) (d : dialog) (a : answer) (t : tool) : tool :=
  match d, a with
  | Message _, OK => close "modal" t
  | ConfirmDelete u, Yes =>
      let t := close "confirm" t in
      let '(s, w, out) := delete_user net adminAPI (t_store t) (t_world t) u in
      finish "confirm" refresh_users out (with_data t s w (t_fs t))
  | ConfirmKick u remote, Yes =>
      let t := close "confirm" t in
      let '(w, out) := kick_one net adminAPI (t_world t) u remote in
      finish "confirm" (refresh_sessions (m_now m)) out (with_data t (t_store t) w (t_fs t))
  | ConfirmKickAll u, Yes =>
      let t := close "confirm" t in
      let '(w, out) := kick_all net adminAPI (t_world t) u in
      finish "confirm" (refresh_sessions (m_now m)) out (with_data t (t_store t) w (t_fs t))
  | (ConfirmDelete _ | ConfirmKick _ _ | ConfirmKickAll _), No => close "confirm" t
  | (AddUser | ChangePassword _ | Limit _ _ | AddCert), Cancel => close (page_name d) t
  | AddUser, SubmitUser u pw lim =>
      let '(s, out) := add_form (t_store t) u pw lim in
      finish "adduser" refresh_users out (with_data t s (t_world t) (t_fs t))
  | ChangePassword u, SubmitPassword p1 p2 =>
      let '(s, out) := password_form (t_store t) u p1 p2 in
      finish "chpass" id out (with_data t s (t_world t) (t_fs t))
  | Limit u _, SubmitLimit lim =>
      let '(s, out) := limit_form (t_store t) u lim in
      finish "limit" refresh_users out (with_data t s (t_world t) (t_fs t))
  | AddCert, SubmitCert choice hostname email cert key => submit_cert m choice hostname email cert key t
  | _, _ => t
  end.

(** ** The program *)

Definition step (t : tool) (me : moment * event) : tool :=
  let '(m, e) := me in
  match e, t_dialogs t with
  | Key k, [] => page_capture m k (switch_page m k t)
  | F5, [] => match t_front t with
              | FStatus => setStatus "Refreshed" false (refresh_status m t)
              | _ => t
              end
  | Select row, [] => match t_front t with
                      | FUsers => with_rows t row (t_sessions_row t)
                      | FSessions => with_rows t (t_users_row t) row
                      | _ => t
                      end
  | Press a, d :: _ => press m d a t
  | Tick, [] => match t_front t with
                | FSessions => refresh_sessions (m_now m) t
                | FUsers => refresh_users t
                | _ => t
                end
  | Obtained i, _ =>
      match t_jobs t !! i with
      | None => t
      | Some (hostname, email) =>
          let '(f, out, told) := cert_form toml_hosts crypto (m_acme m) (m_pgrep m) (m_hup m) (t_fs t) paths (m_now m)
                                LetsEncrypt hostname email "" "" in
          finish "" (refresh_certs (m_now m)) out
            (with_signal m told (with_data (with_jobs t (delete i (t_jobs t))) (t_store t) (t_world t) f))
      end
  | _, _ => t
  end.

Definition run (t : tool) (es : list (moment * event)) : tool := foldl step t es.

Definition start (s : S) (w : AdminApi.world T) (f : fs) : tool :=
  refresh_users
    {| t_front := FUsers; t_dialogs := []; t_users_row := 0; t_sessions_row := 0; t_users := NoUsers;
       t_sessions := SessionRows []; t_certs := None; t_status := None; t_bar := ("Ready", false);
       t_jobs := []; t_store := s; t_world := w; t_fs := f |}.

(** [RunManage] before its loop; [opened] is what opening the store of vpn.toml
    gives. *)
Definition RunManage (opened : res S) (w : AdminApi.world T) (f : fs) : res tool :=
  match opened with
  | Err e => Err ("open user store: " +:+ e)
  | Ok s => Ok (start s w f)
  end.
End console.

(** ** What an event may do *)

Section asked.
Context {UT : UnicodeTables} {S : Type} `{AdminStore.UserStore S} {T : Type} `{AdminApi.AdminUserStore T}.
Variable net : string -> res (AdminApi.api (S := T)).
Variable adminAPI : option AdminClient.AdminClient.
Variable toml_hosts : string -> res AdminStore.hostsFile.
Variable crypto : Acme.crypto.
Variable paths : AdminStore.Paths.

Abbreviation stepped := (step net adminAPI toml_hosts crypto paths).
Abbreviation ran := (run net adminAPI toml_hosts crypto paths).
Abbreviation tool := (@tool S T).

(** The effect of a button on the accounts and on the server. *)
Definition asked_store (d : dialog) (a : answer) (s : S) : S :=
  match d, a with
  | ConfirmDelete u, Yes => (AdminStore.us_Delete s u).1
  | AddUser, SubmitUser u pw lim => (add_form s u pw lim).1
  | ChangePassword u, SubmitPassword p1 p2 => (password_form s u p1 p2).1
  | Limit u _, SubmitLimit lim => (limit_form s u lim).1
  | _, _ => s
  end.

Definition asked_server (d : dialog) (a : answer) (s : S) (w : AdminApi.world T) : AdminApi.world T :=
  match d, a with
  | ConfirmDelete u, Yes => (delete_user net adminAPI s w u).1.2
  | ConfirmKick u remote, Yes => (kick_one net adminAPI w u remote).1
  | ConfirmKickAll u, Yes => (kick_all net adminAPI w u).1
  | _, _ => w
  end.

(** The dialogs about a user, and the line and key that open them. *)
Definition names_user (d : dialog) : bool :=
  match d with
  | ConfirmDelete _ | ConfirmKick _ _ | ConfirmKickAll _ | ChangePassword _ | Limit _ _ => true
  | _ => false
  end.

Definition opened_by (d : dialog) (k : ascii) (t : tool) : Prop :=
  t_dialogs t = [] /\
  match d with
  | ConfirmDelete u => t_front t = FUsers /\ lower1 k = "d"%char /\ selected (t_users t) (t_users_row t) = Some u
  | ChangePassword u => t_front t = FUsers /\ lower1 k = "p"%char /\ selected (t_users t) (t_users_row t) = Some u
  | Limit u _ => t_front t = FUsers /\ lower1 k = "l"%char /\ selected (t_users t) (t_users_row t) = Some u
  | ConfirmKick u remote => t_front t = FSessions /\ k = "k"%char /\
      session_cells (t_sessions t) (t_sessions_row t) = (u, remote)
  | ConfirmKickAll u => t_front t = FSessions /\ k = "K"%char /\
      (session_cells (t_sessions t) (t_sessions_row t)).1 = u
  | _ => True
  end.

(** Nobody but a kick changes the server: the reads do not. *)
Variable reads : forall w,
  (AdminClient.UserStats_of net adminAPI w).1 = w /\ (AdminClient.Sessions net adminAPI w).1 = w.

Definition untouched (t t' : tool) : Prop := t_store t' = t_store t /\ t_world t' = t_world t.

(** The events that have the server reload its certificates. *)
Inductive reload_by (t : tool) : event -> Prop :=
| by_key k : t_dialogs t = [] -> t_front t = FCerts \/ t_front t = FStatus -> lower1 k = "r"%char -> reload_by t (Key k)
| by_cert ds choice hostname email cert key : t_dialogs t = AddCert :: ds -> choice <> LetsEncrypt ->
    reload_by t (Press (SubmitCert choice hostname email cert key))
| by_job i hostname email : t_jobs t !! i = Some (hostname, email) -> reload_by t (Obtained i).

Definition reloaded (m : moment) (t t' : tool) (e : event) : Prop :=
  t_store t' = t_store t /\ t_world t' = AdminApi.emit (t_world t) AdminApi.TLSReload /\ reload_by t e /\
  exists pid, serverPID (m_pgrep m) = Ok pid /\ m_hup m pid = None.

(** A signal is sent or not. *)
Lemma signalled_cases m told (t t' : tool) e :
  (forall pid, told = Some pid -> serverPID (m_pgrep m) = Ok pid) -> reload_by t e ->
  t_store t' = t_store t -> t_world t' = signalled m told (t_world t) -> untouched t t' \/ reloaded m t t' e.
Proof.
  intros Hpid Hby Hs Hw. unfold signalled in Hw. destruct told as [pid|]; [|by left].
  destruct (m_hup m pid) eqn:Eh; [by left|]. right. split_and!; [done..|]. exists pid. by split; [apply Hpid|].
Qed.

Lemma reloadTLS_pid pgrep hup pid : (reloadTLS pgrep hup).2 = Some pid -> serverPID pgrep = Ok pid.
Proof. unfold reloadTLS. destruct (serverPID pgrep); [|done]. by intros [= ->]. Qed.

Lemma cert_form_pid (m : moment) f f' now choice hostname email cert key out told pid :
  cert_form toml_hosts crypto (m_acme m) (m_pgrep m) (m_hup m) f paths now choice hostname email cert key = (f', out, told) ->
  told = Some pid -> serverPID (m_pgrep m) = Ok pid.
Proof.
  unfold cert_form, use_pair. cbv zeta. case_bool_decide; [by intros [= <- <- <-]|].
  destruct choice.
  - case_bool_decide; [by intros [= <- <- <-]|].
    destruct (Acme.ObtainCert _ _ _ _ _ _ _) as [[f1 [e|]] ?]; intros [= <- <- <-]; [done|]. apply reloadTLS_pid.
  - destruct (Acme.GenerateSelfSigned _ _ _ _ _ _) as [f1 [e|]]; intros [= <- <- <-]; [done|]. apply reloadTLS_pid.
  - destruct (Acme.VerifyCert _ _ _ _); intros [= <- <- <-]; [done|]. apply reloadTLS_pid.
Qed.

Lemma refresh_users_data (t : tool) :
  let t' := refresh_users net adminAPI t in untouched t t' /\ t_dialogs t' = t_dialogs t.
Proof using reads.
  unfold refresh_users, Manage.refreshUsers, fetch_stats. cbn zeta.
  destruct (AdminStore.us_List (t_store t)) as [es|e]; [|done]. destruct adminAPI as [c|] eqn:Ea.
  - pose proof (proj1 (reads (t_world t))) as Hr.
    destruct (AdminClient.UserStats_of net (Some c) (t_world t)) as [w [l|e]]; cbn in Hr; subst w; by destruct es.
  - by destruct es.
Qed.

Lemma refresh_sessions_data now (t : tool) :
  let t' := refresh_sessions net adminAPI now t in untouched t t' /\ t_dialogs t' = t_dialogs t.
Proof using reads.
  unfold refresh_sessions, Manage.refreshSessions. cbn zeta. destruct adminAPI as [c|] eqn:Ea; [|done].
  pose proof (proj2 (reads (t_world t))) as Hr.
  destruct (AdminClient.Sessions net (Some c) (t_world t)) as [w [[|x l]|e]]; cbn in Hr; by subst w.
Qed.

Lemma switch_page_data m k (t : tool) :
  let t' := switch_page net adminAPI toml_hosts crypto paths m k t in
  untouched t t' /\ t_dialogs t' = t_dialogs t /\
  (lower1 k ∈ ["d"%char; "p"%char; "l"%char; "k"%char; "r"%char] -> t' = t).
Proof using reads.
  unfold switch_page. cbn zeta. case_bool_decide as Hk.
  2: { done. }
  split_and!; [| |intros Hl].
  - destruct (page_key (t_front t) k); try done;
      [apply (refresh_users_data (with_ui t FUsers _ _))|apply (refresh_sessions_data _ (with_ui t FSessions _ _))].
  - destruct (page_key (t_front t) k); try done;
      [apply (refresh_users_data (with_ui t FUsers _ _))|apply (refresh_sessions_data _ (with_ui t FSessions _ _))].
  - exfalso. repeat (apply elem_of_cons in Hk as [->|Hk]; [by vm_compute in Hl; set_solver|]).
    by apply elem_of_nil in Hk.
Qed.

(** What a key of the two tables asks for. *)
Lemma users_key_asks (s : S) page row k :
  match users_key s page row k with
  | AskDelete u => lower1 k = "d"%char /\ selected page row = Some u
  | PasswordForm u => lower1 k = "p"%char /\ selected page row = Some u
  | LimitForm u _ => lower1 k = "l"%char /\ selected page row = Some u
  | _ => True
  end.
Proof.
  unfold users_key. repeat case_bool_decide; try done; destruct (selected page row); try done;
    repeat case_bool_decide; done.
Qed.

Lemma sessions_key_asks page row k :
  match sessions_key adminAPI page row k with
  | AskKick u remote => k = "k"%char /\ session_cells page row = (u, remote)
  | AskKickAll u => k = "K"%char /\ (session_cells page row).1 = u
  | _ => True
  end.
Proof.
  unfold sessions_key. destruct (session_cells page row) as [u remote].
  destruct (_ || _); [done|]. destruct adminAPI; [|done].
  case_bool_decide; [by destruct (_ || _)|]. case_bool_decide; [|done]. by case_bool_decide.
Qed.

(** A key opens at most the dialog that the line under the cursor asks for. *)
Definition opens (k : ascii) (t t' : tool) : Prop :=
  untouched t t' /\ forall d, d ∈ t_dialogs t' -> names_user d = true -> opened_by d k t.

Lemma opens_none k t t' : untouched t t' -> t_dialogs t' = [] -> opens k t t'.
Proof. intros Hu Hd. split; [done|]. intros d Hin. rewrite Hd in Hin. by apply elem_of_nil in Hin. Qed.

Lemma opens_one k t t' d : untouched t t' -> t_dialogs t' = [d] -> (names_user d = true -> opened_by d k t) -> opens k t t'.
Proof.
  intros Hu Hd Ho. split; [done|]. intros d' Hin. rewrite Hd in Hin. by apply list_elem_of_singleton in Hin as ->.
Qed.

(** The key for a reload opens nothing. *)
Lemma reload_opens m k (t : tool) : t_dialogs t = [] -> t_front t = FCerts \/ t_front t = FStatus ->
  lower1 k = "r"%char ->
  opens k t (reload m t) \/ (reloaded m t (reload m t) (Key k) /\ t_dialogs (reload m t) = []).
Proof.
  intros Hd Hf Hk.
  assert (Hr : t_store (reload m t) = t_store t /\
    t_world (reload m t) = signalled m (reloadTLS (m_pgrep m) (m_hup m)).2 (t_world t) /\ t_dialogs (reload m t) = []).
  { unfold reload. by destruct (reload_key _ _). }
  destruct Hr as (H1 & H2 & H3).
  destruct (signalled_cases m (reloadTLS (m_pgrep m) (m_hup m)).2 t (reload m t) (Key k)) as [Hu|Hr];
    [intros pid; apply reloadTLS_pid|by constructor|done|done| |by right].
  left. by apply opens_none.
Qed.

Lemma key_opens m k (t : tool) : t_dialogs t = [] ->
  let t' := page_capture net adminAPI m k (switch_page net adminAPI toml_hosts crypto paths m k t) in
  opens k t t' \/ (reloaded m t t' (Key k) /\ t_dialogs t' = []).
Proof using reads.
  intros Hd. cbn zeta. destruct (switch_page_data m k t) as (Hu & Hd' & Hsame).
  set (t1 := switch_page _ _ _ _ _ m k t) in *. rewrite Hd in Hd'. unfold page_capture.
  destruct (t_front t1) eqn:Ef.
  - unfold users_capture. pose proof (users_key_asks (t_store t1) (t_users t1) (t_users_row t1) k) as Hk.
    destruct (users_key _ _ _ _) as [|u|u|u n| |].
    + left; apply (opens_one _ _ _ AddUser); [done|by cbn; rewrite Hd'|done].
    + destruct Hk as [Hl Hs]. rewrite Hsame in * by (rewrite Hl; set_solver).
      left; apply (opens_one _ _ _ (ConfirmDelete u)); [done|by cbn; rewrite Hd'|by intros _].
    + destruct Hk as [Hl Hs]. rewrite Hsame in * by (rewrite Hl; set_solver).
      left; apply (opens_one _ _ _ (ChangePassword u)); [done|by cbn; rewrite Hd'|by intros _].
    + destruct Hk as [Hl Hs]. rewrite Hsame in * by (rewrite Hl; set_solver).
      left; apply (opens_one _ _ _ (Limit u n)); [done|by cbn; rewrite Hd'|by intros _].
    + destruct (refresh_users_data t1) as [[H1 H2] H3]. left; apply opens_none.
      * destruct Hu. split; cbn; congruence.
      * cbn. congruence.
    + left; by apply opens_none.
  - unfold sessions_capture. pose proof (sessions_key_asks (t_sessions t1) (t_sessions_row t1) k) as Hk.
    destruct (sessions_key _ _ _ _) as [u remote|u| |].
    + destruct Hk as [Hl Hs]. rewrite Hsame in * by (rewrite Hl; vm_compute; set_solver).
      left; apply (opens_one _ _ _ (ConfirmKick u remote)); [done|by cbn; rewrite Hd'|by intros _].
    + destruct Hk as [Hl Hs]. rewrite Hsame in * by (rewrite Hl; vm_compute; set_solver).
      left; apply (opens_one _ _ _ (ConfirmKickAll u)); [done|by cbn; rewrite Hd'|by intros _].
    + destruct (refresh_sessions_data (m_now m) t1) as [[H1 H2] H3]. left; apply opens_none.
      * destruct Hu. split; cbn; congruence.
      * cbn. congruence.
    + left; by apply opens_none.
  - unfold certs_capture. case_bool_decide; [left; apply (opens_one _ _ _ AddCert); [done|by cbn; rewrite Hd'|done]|].
    case_bool_decide as Hk; [|left; by apply opens_none]. rewrite Hsame in * by (rewrite Hk; set_solver).
    apply reload_opens; auto.
  - unfold status_capture. case_bool_decide as Hk; [|left; by apply opens_none].
    rewrite Hsame in * by (rewrite Hk; set_solver). apply reload_opens; auto.
  - left. by apply opens_none.
Qed.

(** A button does what its dialog says, and opens nothing but messages. *)
Definition presses (d : dialog) (a : answer) (t t' : tool) : Prop :=
  t_store t' = asked_store d a (t_store t) /\ t_world t' = asked_server d a (t_store t) (t_world t) /\
  forall d', d' ∈ t_dialogs t' -> d' ∈ t_dialogs t \/ names_user d' = false.

Lemma RemovePage_sub name ds d : d ∈ RemovePage name ds -> d ∈ ds.
Proof. unfold RemovePage. by intros [_ Hd]%list_elem_of_filter. Qed.

(** [finish] shows an outcome: it touches no data. *)
Lemma finish_data name refresh out (t : tool) :
  (forall x, untouched x (refresh x) /\ t_dialogs (refresh x) = t_dialogs x) ->
  let t' := finish name refresh out t in
  untouched t t' /\ forall d, d ∈ t_dialogs t' -> d ∈ t_dialogs t \/ names_user d = false.
Proof.
  intros Hr. cbn zeta. destruct out as [msg|msg e|]; cbn [finish].
  - split; [done|]. cbn. intros d [->|Hd]%elem_of_cons; [by right|]. left. by apply RemovePage_sub in Hd.
  - destruct (Hr (close name t)) as [Hu Hd]. split; [done|]. cbn. rewrite Hd. cbn.
    intros d Hin. left. by apply RemovePage_sub in Hin.
  - split; [done|auto].
Qed.

Lemma refresh_certs_data now (t : tool) :
  untouched t (refresh_certs toml_hosts crypto paths now t) /\
  t_dialogs (refresh_certs toml_hosts crypto paths now t) = t_dialogs t.
Proof. done. Qed.

(** The end of a button: its data are in place, the outcome is shown. *)
Lemma finish_presses d a name refresh out (t t1 : tool) :
  (forall x, untouched x (refresh x) /\ t_dialogs (refresh x) = t_dialogs x) ->
  t_store t1 = asked_store d a (t_store t) -> t_world t1 = asked_server d a (t_store t) (t_world t) ->
  (forall d', d' ∈ t_dialogs t1 -> d' ∈ t_dialogs t) ->
  presses d a t (finish name refresh out t1).
Proof.
  intros Hr Hs Hw Hd. destruct (finish_data name refresh out t1 Hr) as [[H1 H2] H3].
  split_and!; [congruence..|]. intros d' Hin. destruct (H3 d' Hin); auto.
Qed.

Lemma closes d a name (t : tool) :
  asked_store d a (t_store t) = t_store t -> asked_server d a (t_store t) (t_world t) = t_world t ->
  presses d a t (close name t).
Proof.
  intros Hs Hw. split_and!; [done..|]. intros d' Hin. left. cbn in Hin. by apply RemovePage_sub in Hin.
Qed.

(** A certificate button: its signal, and messages. *)
Definition may_reload (m : moment) (d : dialog) (a : answer) (t t' : tool) : Prop :=
  presses d a t t' \/
  reloaded m t t' (Press a) /\ forall d', d' ∈ t_dialogs t' -> d' ∈ t_dialogs t \/ names_user d' = false.

(** The end of a certificate: the outcome is shown, the signal sent. *)
Lemma finish_reload m name out told f (t t1 : tool) e :
  (forall pid, told = Some pid -> serverPID (m_pgrep m) = Ok pid) -> reload_by t e ->
  t_store t1 = t_store t -> t_world t1 = t_world t -> (forall d, d ∈ t_dialogs t1 -> d ∈ t_dialogs t) ->
  let t' := finish name (refresh_certs toml_hosts crypto paths (m_now m)) out
              (with_signal m told (with_data t1 (t_store t1) (t_world t1) f)) in
  (untouched t t' \/ reloaded m t t' e) /\ forall d, d ∈ t_dialogs t' -> d ∈ t_dialogs t \/ names_user d = false.
Proof.
  intros Hpid Hby Hs Hw Hd. cbn zeta.
  set (t2 := with_signal m told (with_data t1 (t_store t1) (t_world t1) f)).
  destruct (finish_data name (refresh_certs toml_hosts crypto paths (m_now m)) out t2) as [[H1 H2] H3];
    [apply refresh_certs_data|]. split.
  - apply (signalled_cases m told); [done|done|by rewrite H1|by rewrite H2; cbn; rewrite Hw].
  - intros d Hin. destruct (H3 d Hin) as [Hold|]; [left; by apply Hd|by right].
Qed.

Lemma press_presses m d ds a (t : tool) : t_dialogs t = d :: ds ->
  may_reload m d a t (press net adminAPI toml_hosts crypto paths m d a t).
Proof using reads.
  intros Hds.
  assert (Hstay : asked_store d a (t_store t) = t_store t ->
    asked_server d a (t_store t) (t_world t) = t_world t -> presses d a t t) by (intros; split_and!; auto).
  pose proof refresh_users_data as Hru. pose proof (refresh_sessions_data (m_now m)) as Hrs.
  destruct d as [msg|u|u remote|u| |u|u n|], a; try (left; by apply Hstay); try (left; by apply closes); cbn [press].
  - destruct (delete_user net adminAPI (t_store (close "confirm" t)) (t_world (close "confirm" t)) u) as [[s w] out] eqn:E.
    left; apply finish_presses; [done|..].
    + unfold delete_user in E. cbn in *. destruct (AdminStore.us_Delete (t_store t) u) as [s' [e|]]; by injection E as <- _ _.
    + cbn in *. by rewrite E.
    + cbn. intros d'. apply RemovePage_sub.
  - destruct (kick_one net adminAPI (t_world (close "confirm" t)) u remote) as [w out] eqn:E.
    left; apply finish_presses; [done|done|cbn in *; by rewrite E|cbn; intros d'; apply RemovePage_sub].
  - destruct (kick_all net adminAPI (t_world (close "confirm" t)) u) as [w out] eqn:E.
    left; apply finish_presses; [done|done|cbn in *; by rewrite E|cbn; intros d'; apply RemovePage_sub].
  - destruct (add_form (t_store t) username password limit) as [s out] eqn:E.
    left; apply finish_presses; [done|cbn; by rewrite E|done|done].
  - destruct (password_form (t_store t) u p1 p2) as [s out] eqn:E.
    left; apply finish_presses; [done|cbn; by rewrite E|done|done].
  - destruct (limit_form (t_store t) u limit) as [s out] eqn:E.
    left; apply finish_presses; [done|cbn; by rewrite E|done|done].
  - unfold submit_cert. case_bool_decide.
    { left. split_and!; [done..|]. cbn. intros d' [->|Hd]%elem_of_cons; [by right|left]. by apply RemovePage_sub in Hd. }
    assert (Hfin : forall choice', choice' <> LetsEncrypt ->
      may_reload m AddCert (SubmitCert choice' hostname email cert key) t
      (let '(f, out, told) := cert_form toml_hosts crypto (m_acme m) (m_pgrep m) (m_hup m) (t_fs (close "addcert" t)) paths
          (m_now m) choice' hostname email cert key in
       finish "addcert" (refresh_certs toml_hosts crypto paths (m_now m)) out
         (with_signal m told (with_data (close "addcert" t) (t_store (close "addcert" t)) (t_world (close "addcert" t)) f)))).
    { intros choice' Hc. destruct (cert_form _ _ _ _ _ _ _ _ _ _ _ _ _) as [[f out] told] eqn:E.
      destruct (finish_reload m "addcert" out told f t (close "addcert" t) (Press (SubmitCert choice' hostname email cert key)))
        as [[[Hs Hw]|Hr] Hd];
        [intros pid; exact (cert_form_pid m _ _ _ _ _ _ _ _ _ _ pid E)|by eapply by_cert|done|done
        |cbn; intros d'; apply RemovePage_sub|left; by split_and!|by right]. }
    destruct choice; [|by apply Hfin..]. left. case_bool_decide.
    + split_and!; [done..|]. cbn. intros d' [->|Hd]%elem_of_cons; [by right|left].
      by apply RemovePage_sub, RemovePage_sub in Hd.
    + split_and!; [done..|]. cbn. intros d' Hd. left. by apply RemovePage_sub in Hd.
Qed.

(** Every event is a button, a key on a page, a reload, or changes no data and
    opens nothing about a user. *)
Inductive did (m : moment) (t t' : tool) : event -> Prop :=
| did_press d ds a : t_dialogs t = d :: ds -> presses d a t t' -> did m t t' (Press a)
| did_key k : t_dialogs t = [] -> opens k t t' -> did m t t' (Key k)
| did_reload e : reloaded m t t' e -> (forall d, d ∈ t_dialogs t' -> d ∈ t_dialogs t \/ names_user d = false) -> did m t t' e
| did_other e : untouched t t' -> (forall d, d ∈ t_dialogs t' -> d ∈ t_dialogs t \/ names_user d = false) -> did m t t' e.

Lemma step_did t m e : did m t (stepped t (m, e)) e.
Proof using reads.
  assert (Hidle : forall e, did m t t e) by (intros; apply did_other; [done|auto]). unfold step.
  destruct e as [k| |row|a| |i].
  - destruct (t_dialogs t) eqn:Ed; [|done]. destruct (key_opens m k t Ed) as [Ho|[Hr Hd]]; [by apply did_key|].
    apply did_reload; [done|]. rewrite Hd. intros d Hin. by apply elem_of_nil in Hin.
  - destruct (t_dialogs t) eqn:Ed; [|done]. destruct (t_front t); try done. apply did_other; [done|]. cbn. auto.
  - destruct (t_dialogs t) eqn:Ed; [|done]. destruct (t_front t); try done; (apply did_other; [done|]; cbn; auto).
  - destruct (t_dialogs t) as [|d ds] eqn:Ed; [done|].
    destruct (press_presses m d ds a t Ed) as [Hp|[Hr Hd]]; [by apply (did_press m _ _ d ds)|by apply did_reload].
  - destruct (t_dialogs t) eqn:Ed; [|done].
    destruct (t_front t); try done.
    + destruct (refresh_users_data t) as [H1 H2]. apply did_other; [done|]. rewrite H2. auto.
    + destruct (refresh_sessions_data (m_now m) t) as [H1 H2]. apply did_other; [done|]. rewrite H2. auto.
  - destruct (t_jobs t !! i) as [[hostname email]|] eqn:Ej; [|done].
    destruct (cert_form _ _ _ _ _ _ _ _ _ _ _ _ _) as [[f out] told] eqn:E.
    destruct (finish_reload m "" out told f t (with_jobs t (delete i (t_jobs t))) (Obtained i)) as [[Hu|Hr] Hd];
      [intros pid; exact (cert_form_pid m _ _ _ _ _ _ _ _ _ _ pid E)|by eapply by_job|done|done|done
      |by apply did_other|by apply did_reload].
Qed.

(** Where a dialog about a user comes from. *)
Definition asked_before (t0 : tool) (es : list (moment * event)) (d : dialog) : Prop :=
  exists pre m k post, es = pre ++ (m, Key k) :: post /\ opened_by d k (ran t0 pre).

Lemma dialogs_asked t0 es d : t_dialogs t0 = [] ->
  d ∈ t_dialogs (ran t0 es) -> names_user d = true -> asked_before t0 es d.
Proof using reads.
  intros H0'. revert d. induction es as [|[m e] es IH] using rev_ind; intros d Hin Hn.
  { cbn in Hin. rewrite H0' in Hin. by apply elem_of_nil in Hin. }
  assert (Hold : d ∈ t_dialogs (ran t0 es) -> asked_before t0 (es ++ [(m, e)]) d).
  { intros Hd. destruct (IH d Hd Hn) as (pre & mk & k & post & -> & Ho).
    exists pre, mk, k, (post ++ [(m, e)]). by rewrite <- app_assoc. }
  unfold run in Hin. rewrite foldl_snoc in Hin. fold (ran t0 es) in Hin.
  revert Hold. destruct (step_did (ran t0 es) m e) as [d1 ds a Hd (_ & _ & Hp)|k Hd [_ Ho]|e' _ Hp|e' _ Hp]; intros Hold.
  - destruct (Hp d Hin); [auto|congruence].
  - exists es, m, k, []. split; [done|]. by apply Ho.
  - destruct (Hp d Hin); [auto|congruence].
  - destruct (Hp d Hin); [auto|congruence].
Qed.
End asked.

(** ** Properties *)

(** C18: the tool asks first.  On a server that answers the admin API, from the
    start of the tool and whatever the user and the clock do: an event changes an
    account, or the sessions of the server, only if it presses a button of the
    dialog on top, and then it does exactly what that dialog is about; and a
    dialog about a user was opened by its key on the line that showed this user
    (and this session) under the cursor.  Without being asked the server only
    reloads its certificates: when the process found takes the signal, on the key R
    of the two last pages, on a certificate given to the form, or when one asked
    for has come. *)
Theorem tool_asks_first {UT : UnicodeTables} {S : Type} `{AdminStore.UserStore S} {T : Type} `{AdminApi.AdminUserStore T}
    (net : string -> res (AdminApi.api (S := T))) (cfg : AdminApi.settings) (uptime : Z)
    (static h : AdminApi.api (S := T)) (api : option AdminClient.AdminClient)
    (toml_hosts : string -> res AdminStore.hostsFile) (crypto : Acme.crypto) (paths : AdminStore.Paths)
    (s : S) (w : AdminApi.world T) (f : fs) (es : list (moment * event)) (m : moment) (e : event)
  (Hserve : AdminApi.serve cfg uptime static = Some h)
  (Hapi : forall c, api = Some c -> net (AdminClient.Address c) = Ok h /\ AdminClient.Address c <> "" /\
                               AdminClient.Token c = AdminApi.st_Token cfg) :
  let t0 := start net api s w f in
  let t := run net api toml_hosts crypto paths t0 es in
  let t' := step net api toml_hosts crypto paths t (m, e) in
  (t_store t' = t_store t /\ t_world t' = t_world t) \/
  (t_store t' = t_store t /\ t_world t' = AdminApi.emit (t_world t) AdminApi.TLSReload /\ reload_by t e /\
   exists pid, serverPID (m_pgrep m) = Ok pid /\ m_hup m pid = None) \/
  exists d ds a, e = Press a /\ t_dialogs t = d :: ds /\
    t_store t' = asked_store d a (t_store t) /\
    t_world t' = asked_server net api d a (t_store t) (t_world t) /\
    (names_user d = true -> asked_before net api toml_hosts crypto paths t0 es d).
Proof.
  assert (Hreads : forall w, (AdminClient.UserStats_of net api w).1 = w /\ (AdminClient.Sessions net api w).1 = w).
  { intros w'. destruct api as [c|]; [|done]. destruct (Hapi c eq_refl) as (Hnet & Ha & Ht).
    destruct (AdminClient.reads_served net cfg uptime static h c Hserve Hnet Ht w' Ha) as (_ & -> & ->). done. }
  cbn zeta. set (t0 := start net api s w f). set (t := run _ _ _ _ _ t0 es).
  assert (Ht0 : t_dialogs t0 = []).
  { apply (refresh_users_data net api Hreads {| t_dialogs := [] |}). }
  pose proof (step_did net api toml_hosts crypto paths Hreads t m e) as Hdid.
  set (t' := step _ _ _ _ _ t (m, e)) in *. clearbody t'.
  destruct Hdid as [d ds a Hd (Hs & Hw & _)|k _ [Hu _]|e' Hr _|e' Hu _];
    [|left; exact Hu|right; left; exact Hr|left; exact Hu].
  right. right. exists d, ds, a. split_and!; [done..|]. intros Hn.
  apply (dialogs_asked net api toml_hosts crypto paths Hreads t0 es d Ht0); [|done]. fold t. rewrite Hd. left.
Qed.

(** ** Witness: Ann is deleted after a Yes *)

#[local] Existing Instances AdminApi.ex_mem AdminApi.ex_tables Manage.ex_admin.

Definition ex_moment : moment :=
  {| m_now := 0; m_pgrep := Err "exit status 1"; m_hup := fun _ => None; m_acme := Acme.ex_acme "valid" |}.
Definition ex_fs : fs := {| fs_files := ∅; fs_locked := ∅; fs_full := ∅ |}.
Definition ex_paths : AdminStore.Paths :=
  {| AdminStore.p_VPN := "vpn.toml"; AdminStore.p_Hosts := "hosts.toml"; AdminStore.p_Creds := "credentials.toml" |}.
Definition ex_start :=
  start AdminClient.ex_net (Some AdminClient.ex_client) ["bob"; "ann"] (AdminApi.ex_world {["ann" := "pw"]}) ex_fs.
Definition ex_keys : list (moment * event) := [(ex_moment, Select 2); (ex_moment, Key "d"%char)].
Definition ex_asked :=
  run AdminClient.ex_net (Some AdminClient.ex_client) (fun _ => Err "toml") Acme.ex_crypto ex_paths ex_start ex_keys.

Lemma ex_asked_dialog : t_dialogs ex_asked = [ConfirmDelete "ann"].
Proof. vm_compute. reflexivity. Qed.

Lemma tool_asks_first_witness :
  let t' := step AdminClient.ex_net (Some AdminClient.ex_client) (fun _ => Err "toml") Acme.ex_crypto ex_paths
              ex_asked (ex_moment, Press Yes) in
  t_store t' = ["bob"] /\
  asked_before AdminClient.ex_net (Some AdminClient.ex_client) (fun _ => Err "toml") Acme.ex_crypto ex_paths
    ex_start ex_keys (ConfirmDelete "ann").
Proof.
  cbn zeta. split; [vm_compute; reflexivity|].
  destruct (tool_asks_first AdminClient.ex_net AdminApi.ex_settings 0 AdminApi.ex_static AdminClient.ex_handler
    (Some AdminClient.ex_client) (fun _ => Err "toml") Acme.ex_crypto ex_paths ["bob"; "ann"]
    (AdminApi.ex_world {["ann" := "pw"]}) ex_fs ex_keys ex_moment (Press Yes))
    as [[Hs _]|[[Hs _]|(d & ds & a & _ & Hd & _ & _ & Ho)]].
  - reflexivity.
  - intros c [= <-]. split; [reflexivity|]. split; [discriminate|reflexivity].
  - exfalso. revert Hs. vm_compute. discriminate.
  - exfalso. revert Hs. vm_compute. discriminate.
  - change (t_dialogs ex_asked = d :: ds) in Hd. rewrite ex_asked_dialog in Hd. injection Hd as <- _.
    exact (Ho eq_refl).
Defined.

(** The key R on the certificates has the server found reload, unasked. *)
Definition ex_found : moment :=
  {| m_now := 0; m_pgrep := Ok ("4711" +:+ nls); m_hup := fun _ => None; m_acme := Acme.ex_acme "valid" |}.

Example ex_reload :
  let t := run AdminClient.ex_net (Some AdminClient.ex_client) (fun _ => Err "toml") Acme.ex_crypto ex_paths ex_start
             [(ex_found, Key "3"%char); (ex_found, Key "R"%char)] in
  AdminApi.w_effects (t_world t) = [AdminApi.TLSReload] /\ t_dialogs t = [].
Proof. vm_compute. done. Qed.
