(* ===== verification/Wizard.v ===== *)
(** internal/admin/wizard.go and the run of migrate.go: the setup wizard as a
    machine over its pages, what its last step writes, and the migration of
    the users to SQLite.  Fields deliver the text the user left in them; the
    summary shown at the end is left out. *)
From S2P Require Import Prelude GoStrings GoEncoding GoNet GoOS SqlDb.
From S2P Require AdminStore AdminConfig Acme.
#[local] Open Scope Z_scope.

Inductive page := Welcome | Page1 | Page2 | Page2b | Page3 | Page3a | Page4 | Done.

#[export] Instance page_eq_dec : EqDecision page.
Proof. solve_decision. Defined.

(** The variables the pages share. *)
Record vars := {
  hostname : string;
  listenAddr : string;
  tlsType : nat;        (* 0 Let's Encrypt, 1 self-signed, 2 custom *)
  email : string;
  certPath : string;
  keyPath : string;
  storeType : nat;      (* 0 sqlite, 1 file, 2 postgres *)
  storeDSN : string;
  enableAdmin : bool;
  adminAddr : string;
  adminToken : string;
  username : string;
  password : string;
}.

Definition no_vars : vars :=
  {| hostname := ""; listenAddr := ""; tlsType := 0; email := ""; certPath := ""; keyPath := "";
     storeType := 0; storeDSN := ""; enableAdmin := false; adminAddr := ""; adminToken := "";
     username := ""; password := "" |}.

Definition set_hostname (v : vars) (x : string) : vars :=
  {| hostname := x; listenAddr := listenAddr v; tlsType := tlsType v; email := email v; certPath := certPath v;
     keyPath := keyPath v; storeType := storeType v; storeDSN := storeDSN v; enableAdmin := enableAdmin v;
     adminAddr := adminAddr v; adminToken := adminToken v; username := username v; password := password v |}.
Definition set_server (v : vars) (listen dsn : string) : vars :=
  {| hostname := hostname v; listenAddr := listen; tlsType := tlsType v; email := email v; certPath := certPath v;
     keyPath := keyPath v; storeType := storeType v; storeDSN := dsn; enableAdmin := enableAdmin v;
     adminAddr := adminAddr v; adminToken := adminToken v; username := username v; password := password v |}.
Definition set_storeType (v : vars) (x : nat) : vars :=
  {| hostname := hostname v; listenAddr := listenAddr v; tlsType := tlsType v; email := email v; certPath := certPath v;
     keyPath := keyPath v; storeType := x; storeDSN := storeDSN v; enableAdmin := enableAdmin v;
     adminAddr := adminAddr v; adminToken := adminToken v; username := username v; password := password v |}.
Definition set_enableAdmin (v : vars) (x : bool) : vars :=
  {| hostname := hostname v; listenAddr := listenAddr v; tlsType := tlsType v; email := email v; certPath := certPath v;
     keyPath := keyPath v; storeType := storeType v; storeDSN := storeDSN v; enableAdmin := x;
     adminAddr := adminAddr v; adminToken := adminToken v; username := username v; password := password v |}.
Definition set_admin (v : vars) (addr token : string) : vars :=
  {| hostname := hostname v; listenAddr := listenAddr v; tlsType := tlsType v; email := email v; certPath := certPath v;
     keyPath := keyPath v; storeType := storeType v; storeDSN := storeDSN v; enableAdmin := enableAdmin v;
     adminAddr := addr; adminToken := token; username := username v; password := password v |}.
Definition set_tlsType (v : vars) (x : nat) : vars :=
  {| hostname := hostname v; listenAddr := listenAddr v; tlsType := x; email := email v; certPath := certPath v;
     keyPath := keyPath v; storeType := storeType v; storeDSN := storeDSN v; enableAdmin := enableAdmin v;
     adminAddr := adminAddr v; adminToken := adminToken v; username := username v; password := password v |}.
Definition set_email (v : vars) (x : string) : vars :=
  {| hostname := hostname v; listenAddr := listenAddr v; tlsType := tlsType v; email := x; certPath := certPath v;
     keyPath := keyPath v; storeType := storeType v; storeDSN := storeDSN v; enableAdmin := enableAdmin v;
     adminAddr := adminAddr v; adminToken := adminToken v; username := username v; password := password v |}.
Definition set_cert (v : vars) (c k : string) : vars :=
  {| hostname := hostname v; listenAddr := listenAddr v; tlsType := tlsType v; email := email v; certPath := c;
     keyPath := k; storeType := storeType v; storeDSN := storeDSN v; enableAdmin := enableAdmin v;
     adminAddr := adminAddr v; adminToken := adminToken v; username := username v; password := password v |}.
Definition set_user (v : vars) (u pw : string) : vars :=
  {| hostname := hostname v; listenAddr := listenAddr v; tlsType := tlsType v; email := email v; certPath := certPath v;
     keyPath := keyPath v; storeType := storeType v; storeDSN := storeDSN v; enableAdmin := enableAdmin v;
     adminAddr := adminAddr v; adminToken := adminToken v; username := u; password := pw |}.

(** [randomToken] of the bytes the source of randomness gave. *)
Definition randomToken (random : list byte) : string := hex_EncodeToString random.

Definition store_name (t : nat) : string := nth t ["sqlite"; "file"; "postgres"] "".

(** ** The last step *)

Section apply.
Context {UT : UnicodeTables} {DB : Type} `{SqlDriver DB}.
Variable k : Acme.crypto.
Variable a : Acme.acme.
Variable paths : AdminStore.Paths.
Variable now : Z.
Variable random : list byte.           (* 32 bytes *)

(** What the wizard touches: files, and the database it opened. *)
Record disk := { d_fs : fs; d_db : option (AdminStore.sqliteUserStore DB) }.
Definition with_fs (d : disk) (f : fs) : disk := {| d_fs := f; d_db := d_db d |}.

(** The certificate; the variables get the paths used. *)
Definition pair_paths (v : vars) : vars :=
  if (tlsType v =? 0)%nat || (tlsType v =? 1)%nat then
    let base := path_Dir (AdminStore.p_Hosts paths) in
    set_cert v (path_Join base (hostname v +:+ ".crt")) (path_Join base (hostname v +:+ ".key"))
  else v.

Definition make_pair (v : vars) (f : fs) : fs * option string :=
  match tlsType v with
  | 0%nat => match Acme.ObtainCert k a f (hostname v) (email v) (certPath v) (keyPath v) with
         | (f, Some e, _) => (f, Some ("Let's Encrypt failed: " +:+ e))
         | (f, None, _) => (f, None)
         end
  | 1%nat => match Acme.GenerateSelfSigned k f now (hostname v) (certPath v) (keyPath v) with
         | (f, Some e) => (f, Some ("Self-signed cert failed: " +:+ e))
         | (f, None) => (f, None)
         end
  | _ => match Acme.VerifyCert k f (certPath v) (keyPath v) with
         | Some e => (f, Some ("Certificate verify failed: " +:+ e))
         | None => (f, None)
         end
  end.

(** The default path of the database. *)
Definition default_dsn (v : vars) : vars :=
  if bool_decide (storeDSN v = "") && (storeType v =? 0)%nat
  then set_server v (listenAddr v) (path_Join (path_Dir (AdminStore.p_VPN paths)) "users.db") else v.

(** The first user. *)
Definition init_store (v : vars) (d : disk) : disk * option string :=
  match storeType v with
  | 0%nat =>
      match AdminStore.NewSQLiteStore (storeDSN v) with
      | Err e => (d, Some ("SQLite init: " +:+ e))
      | Ok s =>
          match AdminStore.sqlite_Add s (username v) (password v) with
          | (s, Some e) => ({| d_fs := d_fs d; d_db := Some s |}, Some ("Add user: " +:+ e))
          | (s, None) => ({| d_fs := d_fs d; d_db := Some s |}, None)
          end
      end
  | 1%nat =>
      match AdminStore.saveCreds (d_fs d) (AdminStore.p_Creds paths)
              [AdminStore.file_entry (username v) (password v) 0] with
      | (f, Some e) => (with_fs d f, Some ("Write credentials: " +:+ e))
      | (f, None) => (with_fs d f, None)
      end
  | _ => (d, None)
  end.

Definition wizard_host (v : vars) : AdminStore.hostEntry :=
  {| AdminStore.h_Hostname := hostname v; AdminStore.h_CertChainPath := certPath v;
     AdminStore.h_PrivateKeyPath := keyPath v |}.

Definition wizard_hosts (v : vars) : AdminStore.hostsFile :=
  {| AdminStore.hf_MainHosts := [wizard_host v]; AdminStore.hf_PingHosts := [wizard_host v];
     AdminStore.hf_SpeedtestHosts := [] |}.

(** Token and address of the admin API, when it is enabled. *)
Definition admin_vars (v : vars) : vars :=
  if enableAdmin v then
    set_admin v (if bool_decide (adminAddr v = "") then "127.0.0.1:9090" else adminAddr v)
                (if bool_decide (adminToken v = "") then randomToken random else adminToken v)
  else v.

Definition admin_section (v : vars) : string :=
  if enableAdmin v then
    nls +:+ "[admin]" +:+ nls +:+ "address = " +:+ Quote (adminAddr v) +:+ nls +:+
    "token   = " +:+ Quote (adminToken v) +:+ nls
  else "".

Definition vpn_content (v : vars) : string :=
  "listen_address = " +:+ Quote (listenAddr v) +:+ nls +:+
  "ipv6_available = false" +:+ nls +:+
  "allow_private_network_connections = false" +:+ nls +:+ nls +:+
  "tls_handshake_timeout_secs = 10" +:+ nls +:+
  "client_listener_timeout_secs = 600" +:+ nls +:+
  "connection_establishment_timeout_secs = 30" +:+ nls +:+
  "tcp_connections_timeout_secs = 604800" +:+ nls +:+
  "udp_connections_timeout_secs = 300" +:+ nls +:+ nls +:+
  (if (storeType v =? 1)%nat then "credentials_file = " +:+ Quote (AdminStore.p_Creds paths) +:+ nls else "") +:+
  "rules_file = " +:+ Quote "" +:+ nls +:+ nls +:+
  "auth_failure_status_code = 407" +:+ nls +:+
  "store_type = " +:+ Quote (store_name (storeType v)) +:+ nls +:+
  "store_dsn = " +:+ Quote (storeDSN v) +:+ nls +:+
  "cache_ttl_secs = 30" +:+ nls +:+ nls +:+
  "[listen_protocols.http2]" +:+ nls +:+
  "max_concurrent_streams = 1000" +:+ nls +:+
  "initial_stream_window_size = 131072" +:+ nls +:+
  "max_frame_size = 16384" +:+ nls +:+
  admin_section v.

(** [applyConfig]: each step stops the rest when it fails; what was done stays. *)
Definition applyConfig (v : vars) (d : disk) : vars * disk * option string :=
  let v := pair_paths v in
  match make_pair v (d_fs d) with
  | (f, Some e) => (v, with_fs d f, Some e)
  | (f, None) =>
      let v := default_dsn v in
      match init_store v (with_fs d f) with
      | (d, Some e) => (v, d, Some e)
      | (d, None) =>
          match AdminStore.saveHosts (d_fs d) (AdminStore.p_Hosts paths) (wizard_hosts v) with
          | (f, Some e) => (v, with_fs d f, Some ("Write hosts: " +:+ e))
          | (f, None) =>
              let v := admin_vars v in
              match WriteFile f (AdminStore.p_VPN paths) (vpn_content v) with
              | (f, Some e) => (v, with_fs d f, Some ("Write vpn.toml: " +:+ e))
              | (f, None) => (v, with_fs d f, None)
              end
          end
      end
  end.

(** ** The pages *)

Record wizard := { z_page : page; z_error : option string; z_quit : bool; z_vars : vars; z_disk : disk }.

Definition start (d : disk) : wizard :=
  {| z_page := Welcome; z_error := None; z_quit := false; z_vars := no_vars; z_disk := d |}.

Definition goto (z : wizard) (p : page) (v : vars) : wizard :=
  {| z_page := p; z_error := None; z_quit := z_quit z; z_vars := v; z_disk := z_disk z |}.
Definition showErr (z : wizard) (v : vars) (msg : string) : wizard :=
  {| z_page := z_page z; z_error := Some msg; z_quit := z_quit z; z_vars := v; z_disk := z_disk z |}.

Inductive event :=
| Begin
| Quit
| Esc
| Back
| Dismiss
| TypeHostname (x : string)                 (* the field's changed callback *)
| Next1 (host : string)
| ChooseStore (i : nat)
| Next2 (listen dsn : string)
| Toggle (on : bool)
| Next2b (addr token : string)
| ChooseTLS (i : nat)
| TypeEmail (x : string)
| Next3 (mail : string)
| TypeCert (c k : string)
| Next3a (c k : string)
| TypeUser (u pw : string)
| Apply (u pw : string).

Definition previous (p : page) : option page :=
  match p with
  | Page2 => Some Page1 | Page2b => Some Page2 | Page3 => Some Page2b
  | Page3a => Some Page3 | Page4 => Some Page3 | _ => None
  end.

Definition step (z : wizard) (ev : event) : wizard :=
  let v := z_vars z in
  match z_error z, ev, z_page z with
  | Some _, Dismiss, p => goto z p v
  | Some _, _, _ => z
  | None, Begin, Welcome => goto z Page1 v
  | None, Quit, Page1 | None, Quit, Done =>
      {| z_page := z_page z; z_error := None; z_quit := true; z_vars := v; z_disk := z_disk z |}
  | None, Esc, p | None, Back, p =>
      match previous p with Some q => goto z q v | None => z end
  | None, TypeHostname x, Page1 => goto z Page1 (set_hostname v x)
  | None, Next1 host, Page1 =>
      let v := set_hostname v (TrimSpace host) in
      if bool_decide (hostname v = "") then showErr z v "Hostname is required" else goto z Page2 v
  | None, ChooseStore i, Page2 => if (i <? 3)%nat then goto z Page2 (set_storeType v i) else z
  | None, Next2 listen dsn, Page2 =>
      let l := TrimSpace listen in
      goto z Page2b (set_server v (if bool_decide (l = "") then "0.0.0.0:443" else l) (TrimSpace dsn))
  | None, Toggle on, Page2b => goto z Page2b (set_enableAdmin v on)
  | None, Next2b addr token, Page2b =>
      let a := TrimSpace addr in
      goto z Page3 (set_admin v (if bool_decide (a = "") then "127.0.0.1:9090" else a) (TrimSpace token))
  | None, ChooseTLS i, Page3 => if (i <? 3)%nat then goto z Page3 (set_tlsType v i) else z
  | None, TypeEmail x, Page3 => goto z Page3 (set_email v x)
  | None, Next3 mail, Page3 =>
      let v := set_email v (TrimSpace mail) in
      if (tlsType v =? 0)%nat && bool_decide (email v = "")
      then showErr z v "Email is required for Let's Encrypt"
      else goto z (if (tlsType v =? 2)%nat then Page3a else Page4) v
  | None, TypeCert c kk, Page3a => goto z Page3a (set_cert v c kk)
  | None, Next3a c kk, Page3a =>
      let v := set_cert v (TrimSpace c) (TrimSpace kk) in
      if bool_decide (certPath v = "") || bool_decide (keyPath v = "")
      then showErr z v "Both paths are required" else goto z Page4 v
  | None, TypeUser u pw, Page4 => goto z Page4 (set_user v u pw)
  | None, Apply u pw, Page4 =>
      let v := set_user v (TrimSpace u) pw in
      if bool_decide (username v = "") || bool_decide (password v = "")
      then showErr z v "Username and password are required"
      else match applyConfig v (z_disk z) with
           | (v, d, Some e) =>
               {| z_page := Page4; z_error := Some e; z_quit := z_quit z; z_vars := v; z_disk := d |}
           | (v, d, None) =>
               {| z_page := Done; z_error := None; z_quit := z_quit z; z_vars := v; z_disk := d |}
           end
  | _, _, _ => z
  end.

Definition run (d : disk) (evs : list event) : wizard := foldl step (start d) evs.
End apply.
Arguments disk : clear implicits.
Arguments wizard : clear implicits.

(** ** migrate.go: credentials.toml into SQLite *)

Section migrate.
Context {UT : UnicodeTables} {DB : Type} `{SqlDriver DB}.
Variable toml_creds : string -> res (list AdminStore.credEntry).
Variable toml_vpn : string -> res AdminStore.vpnConfigAdmin.
Variable vpn : string.                  (* paths.VPN *)

(** One user of the file, with the line it is reported by. *)
Definition migrate_step (acc : AdminStore.sqliteUserStore DB * nat * nat * list string) (e : AdminStore.credEntry)
  : AdminStore.sqliteUserStore DB * nat * nat * list string :=
  let '(s, migrated, skipped, log) := acc in
  let u := AdminStore.Username e in
  match AdminStore.sqlite_Add s u (AdminStore.Password e) with
  | (s, Some err) => (s, migrated, S skipped, log ++ ["  SKIP " +:+ u +:+ ": " +:+ err])
  | (s, None) =>
      if 0 <? AdminStore.MaxDevices e
      then ((AdminStore.sqlite_SetMaxDevices s u (AdminStore.MaxDevices e)).1, S migrated, skipped,
            log ++ ["  OK   " +:+ u +:+ " (max_devices=" +:+ fmt_d (AdminStore.MaxDevices e) +:+ ")"])
      else (s, S migrated, skipped, log ++ ["  OK   " +:+ u])
  end.

(** [doMigrate]: the lines of the result and whether it is shown as an error.
    A failed patch leaves the users migrated. *)
Definition doMigrate (f : fs) (srcCredPath targetDSN : string) (patchVPN : bool)
  : fs * option (AdminStore.sqliteUserStore DB) * list string * bool :=
  let log := ["Reading users from " +:+ srcCredPath +:+ " ..."] in
  match AdminStore.loadCreds toml_creds f srcCredPath with
  | Err e => (f, None, log ++ ["ERROR: " +:+ e], true)
  | Ok entries =>
      let log := log ++ ["Found " +:+ fmt_d (Z.of_nat (length entries)) +:+ " user(s)";
                         "Opening SQLite: " +:+ targetDSN +:+ " ..."] in
      match AdminStore.NewSQLiteStore targetDSN with
      | Err e => (f, None, log ++ ["ERROR: " +:+ e], true)
      | Ok store =>
          let '(store, migrated, skipped, log) := foldl migrate_step (store, 0%nat, 0%nat, log) entries in
          let log := log ++ ["Migrated: " +:+ fmt_d (Z.of_nat migrated) +:+
                             ", Skipped (duplicates): " +:+ fmt_d (Z.of_nat skipped)] in
          if patchVPN then
            let log := log ++ ["Patching " +:+ vpn +:+ " ..."] in
            match AdminConfig.patchVPNStoreType f vpn "sqlite" targetDSN "" with
            | (f, Some e) => (f, Some store, log ++ ["ERROR patching vpn.toml: " +:+ e], true)
            | (f, None) =>
                (f, Some store,
                 log ++ ["  store_type = " +:+ Quote "sqlite"; "  store_dsn  = " +:+ Quote targetDSN;
                         ""; "Migration complete!"; "Restart or send SIGHUP to apply new store settings."], false)
            end
          else (f, Some store, log ++ [""; "Migration complete!"], false)
      end
  end.

(** The fields of the form, from the configuration in force. *)
Definition migrate_defaults (f : fs) (creds : string) : string * string :=
  match AdminStore.loadVPNConfig toml_vpn f vpn with
  | Err _ => (creds, "users.db")
  | Ok cfg =>
      (if bool_decide (AdminStore.vc_CredentialsFile cfg <> "") then AdminStore.vc_CredentialsFile cfg else creds,
       if bool_decide (AdminStore.vc_StoreDSN cfg <> "") then AdminStore.vc_StoreDSN cfg else "users.db")
  end.

(** The button: nothing without both fields. *)
Definition migrate_button (f : fs) (src dst : string) (patchVPN : bool)
  : option (fs * option (AdminStore.sqliteUserStore DB) * list string * bool) :=
  let src := TrimSpace src in
  let dst := TrimSpace dst in
  if bool_decide (src = "") || bool_decide (dst = "") then None
  else Some (doMigrate f src dst patchVPN).

(** *** The screen *)

(** The users of the file named in the form; [None] when there are none to show. *)
Definition updatePreview (f : fs) (src : string) : option (list string) :=
  match AdminStore.loadCreds toml_creds f src with
  | Err _ | Ok [] => None
  | Ok es => Some (map AdminStore.Username es)
  end.

Record migration := {
  g_src : string; g_dst : string; g_patch : bool;
  g_preview : option (list string);
  g_result : option (list string * bool);     (* the page above the form *)
  g_quit : bool;
  g_fs : fs;
  g_store : option (AdminStore.sqliteUserStore DB);
}.

Inductive migrate_event :=
| TypeSrc (x : string) | TypeDst (x : string) | CheckPatch (v : bool)
| Preview | PressMigrate | PressCancel | PressQuit.

Definition RunMigrate (f : fs) (creds : string) : migration :=
  let '(src, dst) := migrate_defaults f creds in
  {| g_src := src; g_dst := dst; g_patch := true; g_preview := updatePreview f src; g_result := None;
     g_quit := false; g_fs := f; g_store := None |}.

Definition with_form (g : migration) (src dst : string) (patch : bool) (preview : option (list string)) : migration :=
  {| g_src := src; g_dst := dst; g_patch := patch; g_preview := preview; g_result := g_result g;
     g_quit := g_quit g; g_fs := g_fs g; g_store := g_store g |}.
Definition quitting (g : migration) : migration :=
  {| g_src := g_src g; g_dst := g_dst g; g_patch := g_patch g; g_preview := g_preview g; g_result := g_result g;
     g_quit := true; g_fs := g_fs g; g_store := g_store g |}.

Definition step_migrate (g : migration) (e : migrate_event) : migration :=
  if g_quit g then g
  else match g_result g, e with
  | None, TypeSrc x => with_form g x (g_dst g) (g_patch g) (g_preview g)
  | None, TypeDst x => with_form g (g_src g) x (g_patch g) (g_preview g)
  | None, CheckPatch v => with_form g (g_src g) (g_dst g) v (g_preview g)
  | None, Preview => with_form g (g_src g) (g_dst g) (g_patch g) (updatePreview (g_fs g) (g_src g))
  | None, PressMigrate =>
      match migrate_button (g_fs g) (g_src g) (g_dst g) (g_patch g) with
      | None => g
      | Some (f, store, log, failed) =>
          {| g_src := g_src g; g_dst := g_dst g; g_patch := g_patch g; g_preview := g_preview g;
             g_result := Some (log, failed); g_quit := false; g_fs := f; g_store := store |}
      end
  | None, PressCancel => quitting g
  | Some _, PressQuit => quitting g
  | _, _ => g
  end.

Definition run_migrate (g : migration) (es : list migrate_event) : migration := foldl step_migrate g es.
End migrate.

(** ** Lemmas: the pages *)

(** What holds of the variables on a page: every page before it was completed. *)
Definition hostname_done (v : vars) : Prop := hostname v <> "".
Definition server_done (v : vars) : Prop := hostname_done v /\ listenAddr v <> "".
Definition admin_done (v : vars) : Prop := server_done v /\ adminAddr v <> "".
Definition tls_done (v : vars) : Prop :=
  admin_done v /\ (tlsType v = 0%nat -> email v <> "") /\ (tlsType v = 2%nat -> certPath v <> "" /\ keyPath v <> "").

Definition page_typed (p : page) (v : vars) : Prop :=
  match p with
  | Welcome | Page1 => True
  | Page2 => hostname_done v
  | Page2b => server_done v
  | Page3 => admin_done v
  | Page3a => admin_done v /\ tlsType v = 2%nat
  | Page4 => tls_done v
  | Done => tls_done v /\ username v <> "" /\ password v <> ""
  end.

Definition well_formed (p : page) (v : vars) : Prop :=
  page_typed p v /\ (tlsType v < 3)%nat /\ (storeType v < 3)%nat.

Lemma well_formed_previous p q v : previous p = Some q -> well_formed p v -> well_formed q v.
Proof.
  unfold well_formed. intros Hp (Ht & ? & ?). split; [|done].
  destruct p; inversion Hp; subst; cbn in *; unfold tls_done, admin_done, server_done in *; naive_solver.
Qed.

(** The variables [applyConfig] returns differ in what later pages do not need. *)
Definition same_answers (v v' : vars) : Prop :=
  hostname v' = hostname v /\ listenAddr v' = listenAddr v /\ tlsType v' = tlsType v /\ email v' = email v /\
  storeType v' = storeType v /\ username v' = username v /\ password v' = password v /\
  (adminAddr v <> "" -> adminAddr v' <> "") /\
  (tlsType v = 2%nat -> certPath v' = certPath v /\ keyPath v' = keyPath v).

#[local] Instance same_answers_trans : Transitive same_answers.
Proof.
  unfold same_answers. intros v1 v2 v3 (? & ? & Ht & ? & ? & ? & ? & Ha & Hc) (? & ? & ? & ? & ? & ? & ? & Ha' & Hc').
  split_and!; try congruence; [auto|]. intros Et. destruct (Hc Et). rewrite Ht in Hc'. destruct (Hc' Et). split; congruence.
Qed.
#[local] Instance same_answers_refl : Reflexive same_answers.
Proof. by intros v. Qed.

Lemma pair_paths_answers paths v : same_answers v (pair_paths paths v).
Proof.
  unfold pair_paths. destruct ((tlsType v =? 0)%nat || (tlsType v =? 1)%nat) eqn:E; [|done].
  unfold same_answers; cbn; split_and!; try done. intros Ht. by rewrite Ht in E.
Qed.

Lemma default_dsn_answers paths v : same_answers v (default_dsn paths v).
Proof. unfold default_dsn. by destruct (_ && _). Qed.

Lemma admin_vars_answers random v : same_answers v (admin_vars random v).
Proof.
  unfold admin_vars. destruct (enableAdmin v); [|done].
  unfold same_answers; cbn; split_and!; try done. by case_bool_decide.
Qed.

Lemma applyConfig_answers {UT : UnicodeTables} {DB : Type} `{SqlDriver DB} k a paths now random v d v' d' e :
  applyConfig k a paths now random v d = (v', d', e) -> same_answers v v'.
Proof.
  unfold applyConfig. cbv zeta.
  destruct (make_pair _ _ _ _ _) as [f [e1|]]; [intros [= <- _ _]; apply pair_paths_answers|].
  assert (Hd : same_answers v (default_dsn paths (pair_paths paths v))).
  { etransitivity; [apply pair_paths_answers|apply default_dsn_answers]. }
  destruct (init_store _ _ _) as [d1 [e1|]]; [by intros [= <- _ _]|].
  destruct (AdminStore.saveHosts _ _ _) as [f1 [e1|]]; [by intros [= <- _ _]|].
  destruct (WriteFile _ _ _) as [f2 [e1|]]; intros [= <- _ _];
    (etransitivity; [apply Hd|apply admin_vars_answers]).
Qed.

Lemma applyConfig_keeps_admin {UT : UnicodeTables} {DB : Type} `{SqlDriver DB} k a paths now random v d v' d' e :
  applyConfig k a paths now random v d = (v', d', e) -> enableAdmin v' = enableAdmin v.
Proof.
  assert (H1 : enableAdmin (pair_paths paths v) = enableAdmin v) by (unfold pair_paths; by destruct (_ || _)).
  assert (H2 : forall v, enableAdmin (default_dsn paths v) = enableAdmin v)
    by (intros w; unfold default_dsn; by destruct (_ && _)).
  assert (H3 : forall v, enableAdmin (admin_vars random v) = enableAdmin v)
    by (intros w; unfold admin_vars; by destruct (enableAdmin w) eqn:Ew).
  unfold applyConfig. cbv zeta.
  destruct (make_pair _ _ _ _ _) as [f [e1|]]; [intros [= <- _ _]; congruence|].
  destruct (init_store _ _ _) as [d1 [e1|]]; [intros [= <- _ _]; congruence|].
  destruct (AdminStore.saveHosts _ _ _) as [f1 [e1|]]; [intros [= <- _ _]; congruence|].
  destruct (WriteFile _ _ _) as [f2 [e1|]]; intros [= <- _ _]; rewrite H3, H2; congruence.
Qed.

Lemma tls_done_answers v v' : same_answers v v' -> tls_done v -> tls_done v'.
Proof.
  unfold same_answers, tls_done, admin_done, server_done, hostname_done.
  intros (-> & -> & -> & -> & _ & _ & _ & Ha & Hc) (((? & ?) & ?) & ? & Hk).
  split_and!; try done; [by apply Ha|..]; intros Ht; destruct (Hc Ht) as [-> ->]; by destruct (Hk Ht).
Qed.

#[local] Ltac done_pages := unfold tls_done, admin_done, server_done, hostname_done in *.
#[local] Ltac page_cases :=
  repeat match goal with
         | |- context [if bool_decide ?b then _ else _] =>
             destruct (decide b); [rewrite bool_decide_true by done|rewrite bool_decide_false by done]
         | |- context [if ?b then _ else _] => destruct b eqn:?
         end.

Section run.
Context {UT : UnicodeTables} {DB : Type} `{SqlDriver DB}.
Variables (k : Acme.crypto) (a : Acme.acme) (paths : AdminStore.Paths) (now : Z) (random : list byte).



Lemma Apply_well_formed (z : wizard DB) v :
  z_page z = Page4 -> well_formed Page4 v -> username v <> "" -> password v <> "" ->
  let z' := match applyConfig k a paths now random v (z_disk z) with
            | (v, d, Some e) => {| z_page := Page4; z_error := Some e; z_quit := z_quit z; z_vars := v; z_disk := d |}
            | (v, d, None) => {| z_page := Done; z_error := None; z_quit := z_quit z; z_vars := v; z_disk := d |}
            end in
  well_formed (z_page z') (z_vars z').
Proof.
  intros _ (Ht & Hb) Hu Hpw. cbv zeta. destruct (applyConfig _ _ _ _ _ v _) as [[v' d'] e] eqn:E.
  pose proof (applyConfig_answers _ _ _ _ _ _ _ _ _ _ E) as Hs.
  pose proof (tls_done_answers _ _ Hs Ht) as Ht'. destruct Hs as (_ & _ & E1 & _ & E2 & E3 & E4 & _).
  rewrite <- E1, <- E2 in Hb. destruct e; (split; [|exact Hb]); [exact Ht'|].
  cbn. by rewrite E3, E4.
Qed.

(** Every button keeps what its page and those before it promised. *)
Lemma step_well_formed (z : wizard DB) ev :
  well_formed (z_page z) (z_vars z) ->
  well_formed (z_page (step k a paths now random z ev)) (z_vars (step k a paths now random z ev)).
Proof.
  intros Hz. unfold step. destruct (z_error z); [by destruct ev|].
  assert (Hback : forall z', (match previous (z_page z) with Some q => goto z q (z_vars z) | None => z end) = z' ->
    well_formed (z_page z') (z_vars z')).
  { intros z' <-. destruct (previous (z_page z)) as [q|] eqn:Eq; [|done]. exact (well_formed_previous _ _ _ Eq Hz). }
  destruct ev, (z_page z) eqn:Ep; try (by apply Hback); try (cbn; rewrite ?Ep; exact Hz); clear Hback;
    destruct Hz as (Hp & Ht & Hs); cbn in Hp; cbv zeta.
  all: try match goal with |- context [applyConfig] => 
     destruct (bool_decide _ || bool_decide _) eqn:Eb;
     [|apply orb_false_iff in Eb as [?%bool_decide_eq_false ?%bool_decide_eq_false]; by apply Apply_well_formed] end.
  all: page_cases; unfold well_formed, showErr, goto; cbn [z_page z_vars]; rewrite ?Ep.
  all: cbn [page_typed]; done_pages; cbn; try tauto.
  all: rewrite ?andb_false_iff, ?orb_false_iff, ?Nat.ltb_lt, ?Nat.eqb_eq, ?Nat.eqb_neq, ?bool_decide_eq_false in *.
  all: intuition (congruence || discriminate).
Qed.

Lemma run_page (P : page -> vars -> Prop) (z0 : wizard DB) evs :
  (forall z ev, ev ∈ evs -> P (z_page z) (z_vars z) ->
     P (z_page (step k a paths now random z ev)) (z_vars (step k a paths now random z ev))) ->
  P (z_page z0) (z_vars z0) ->
  P (z_page (foldl (step k a paths now random) z0 evs)) (z_vars (foldl (step k a paths now random) z0 evs)).
Proof.
  revert z0. induction evs as [|ev evs IH]; intros z0 Hstep H0; [done|]. cbn. apply IH.
  - intros z e He. apply Hstep. by right.
  - apply Hstep; [by left|done].
Qed.
End run.

(** ** Lemmas: the files *)

Lemma WriteFile_lookup f p s f' q : WriteFile f p s = (f', None) ->
  fs_files f' !! p = Some s /\ fs_locked f' = fs_locked f /\ p ∉ fs_locked f /\
  (q <> p -> fs_files f' !! q = fs_files f !! q).
Proof.
  intros [H ->]%WriteFile_None. cbn. rewrite lookup_insert_eq. split_and!; try done.
  intros. by rewrite lookup_insert_ne.
Qed.

Lemma VerifyCert_same k f f' c kk :
  fs_locked f' = fs_locked f -> fs_files f' !! c = fs_files f !! c -> fs_files f' !! kk = fs_files f !! kk ->
  Acme.VerifyCert k f' c kk = Acme.VerifyCert k f c kk.
Proof. intros Hl Hc Hk. unfold Acme.VerifyCert, ReadFile. by rewrite Hl, Hc, Hk. Qed.

Section apply_facts.
Context {UT : UnicodeTables} {DB : Type} `{SqlTable DB}.
Variables (k : Acme.crypto) (a : Acme.acme) (paths : AdminStore.Paths) (now : Z) (random : list byte).

Lemma make_pair_verified v f f' `{!Acme.crypto_laws k} :
  make_pair k a now v f = (f', None) -> tlsType v <> 0%nat -> certPath v <> keyPath v ->
  (tlsType v = 1%nat -> fs_full f !! certPath v = None /\ fs_full f !! keyPath v = None) ->
  Acme.VerifyCert k f' (certPath v) (keyPath v) = None.
Proof.
  unfold make_pair. intros Hm Ht Hd Hroom. destruct (tlsType v) as [|[|n]]; [done| |].
  - destruct (Acme.GenerateSelfSigned _ _ _ _ _ _) as [f1 [e|]] eqn:Eg; [done|]. injection Hm as <-.
    destruct (Hroom eq_refl). by eapply Acme.GenerateSelfSigned_verifies.
  - destruct (Acme.VerifyCert k f _ _) eqn:Ev; [done|]. by injection Hm as <-.
Qed.

(** The account of the store that was set up. *)
Definition first_user (v : vars) (d : disk DB) : Prop :=
  match storeType v with
  | 0%nat => exists s, d_db d = Some s /\ (storeDSN v <> "" -> AdminStore.sus_dsn s = storeDSN v) /\
                       AdminStore.rows s !! username v = Some (default_row (password v))
  | 1%nat => fs_files (d_fs d) !! AdminStore.p_Creds paths =
               Some (AdminStore.render_creds [AdminStore.file_entry (username v) (password v) 0])
  | _ => True
  end.

Lemma init_store_user v d d' :
  (forall dsn db, sql_Open "sqlite" dsn = Ok db -> tbl_up db) ->
  init_store paths v d = (d', None) ->
  first_user v d' /\ fs_locked (d_fs d') = fs_locked (d_fs d) /\
  forall p, p <> AdminStore.p_Creds paths -> fs_files (d_fs d') !! p = fs_files (d_fs d) !! p.
Proof.
  intros Hup. unfold init_store, first_user. destruct (storeType v) as [|[|n]].
  - destruct (AdminStore.NewSQLiteStore (storeDSN v)) as [s|] eqn:En; [|done].
    destruct (sql_Open "sqlite" (if bool_decide (storeDSN v = "") then "users.db" else storeDSN v)) as [db|e] eqn:Eo;
      [|unfold AdminStore.NewSQLiteStore in En; by rewrite Eo in En].
    destruct (AdminStore.NewSQLiteStore_opens _ _ Eo (Hup _ _ Eo)) as (s' & En' & Hs & _).
    rewrite En in En'. injection En' as <-.
    assert (Hdsn : storeDSN v <> "" -> AdminStore.sus_dsn s = storeDSN v).
    { intros Hne. unfold AdminStore.NewSQLiteStore in En. rewrite Eo in En. cbn in En.
      destruct (sql_CreateUsers db _) as [db1 [e|]]; [done|]. injection En as <-. cbn. by rewrite bool_decide_false. }
    assert (Hsame : AdminStore.sus_dsn (AdminStore.sqlite_Add s (username v) (password v)).1 = AdminStore.sus_dsn s)
      by (unfold AdminStore.sqlite_Add; by destruct (sql_Insert _ _ _)).
    pose proof (AdminStore.sqlite_Add_spec _ s (username v) (password v) Hs) as [_ Ha].
    destruct (AdminStore.sqlite_Add s (username v) (password v)) as [s1 [e|]]; [done|].
    intros [= <-]. cbn in Ha, Hsame |- *. split_and!; [|done..]. exists s1. split; [done|].
    rewrite Hsame. split; [done|].
    destruct (AdminStore.rows s !! username v); destruct Ha as [Hx Hr]; [by destruct Hx|].
    by rewrite Hr, lookup_insert_eq.
  - destruct (AdminStore.saveCreds _ _ _) as [f [e|]] eqn:Es; [done|]. intros [= <-].
    unfold AdminStore.saveCreds in Es. cbn. split_and!.
    + by apply (WriteFile_lookup _ _ _ _ "") in Es as (? & _).
    + by apply (WriteFile_lookup _ _ _ _ "") in Es as (_ & ? & _).
    + intros p Hp. destruct (WriteFile_lookup _ _ _ _ p Es) as (_ & _ & _ & Hq). by apply Hq.
  - by intros [= <-].
Qed.

(** The answers of the pages, and what the last step makes of them: only what
    was left empty gets a default, and a pair that is made goes beside hosts.toml. *)
Record answered (v v' : vars) : Prop := {
  an_hostname : hostname v' = hostname v;
  an_listen : listenAddr v' = listenAddr v;
  an_store : storeType v' = storeType v;
  an_user : username v' = username v /\ password v' = password v;
  an_enable : enableAdmin v' = enableAdmin v;
  an_tls : tlsType v' = tlsType v;
  an_dsn : storeDSN v' = (if bool_decide (storeDSN v <> "") then storeDSN v
                          else if bool_decide (storeType v = 0%nat)
                               then path_Join (path_Dir (AdminStore.p_VPN paths)) "users.db" else "");
  an_admin : enableAdmin v = true ->
    adminAddr v' = (if bool_decide (adminAddr v <> "") then adminAddr v else "127.0.0.1:9090") /\
    adminToken v' = (if bool_decide (adminToken v <> "") then adminToken v else hex_EncodeToString random);
  an_pair : (certPath v', keyPath v') =
    if bool_decide (tlsType v = 0%nat \/ tlsType v = 1%nat)
    then (path_Join (path_Dir (AdminStore.p_Hosts paths)) (hostname v +:+ ".crt"),
          path_Join (path_Dir (AdminStore.p_Hosts paths)) (hostname v +:+ ".key"))
    else (certPath v, keyPath v);
}.

(** A line of a file, and the setting of a key. *)
Definition has_line (text line : string) : Prop := exists pre post, text = pre +:+ line +:+ nls +:+ post /\
  (pre = "" \/ exists p, pre = p +:+ nls).
Definition states (text key value : string) : Prop := has_line text (key +:+ " = " +:+ Quote value).

(** What vpn.toml says. *)
Record vpn_says (text : string) (listen store dsn creds : string) (admin : option (string * string)) : Prop := {
  vs_listen : states text "listen_address" listen;
  vs_store : states text "store_type" store;
  vs_dsn : states text "store_dsn" dsn;
  vs_creds : store = "file" -> states text "credentials_file" creds;
  vs_admin : exists pre, text = pre +:+ "max_frame_size = 16384" +:+ nls +:+
    match admin with
    | Some (addr, token) => nls +:+ "[admin]" +:+ nls +:+ "address = " +:+ Quote addr +:+ nls +:+
                            "token   = " +:+ Quote token +:+ nls
    | None => ""
    end;
}.

(** What a finished setup leaves on the disk, [v] being the answers and [v'] what
    was made of them. *)
Definition set_up (v v' : vars) (d d' : disk DB) : Prop :=
  (exists text, ReadFile (d_fs d') (AdminStore.p_VPN paths) = Ok text /\
     vpn_says text (listenAddr v) (store_name (storeType v)) (storeDSN v') (AdminStore.p_Creds paths)
       (if enableAdmin v then Some (adminAddr v', adminToken v') else None)) /\
  (let h := {| AdminStore.h_Hostname := hostname v; AdminStore.h_CertChainPath := certPath v';
               AdminStore.h_PrivateKeyPath := keyPath v' |} in
   fs_files (d_fs d') !! AdminStore.p_Hosts paths =
     Some (AdminStore.render_section "main_hosts" [h] +:+ AdminStore.render_section "ping_hosts" [h])) /\
  first_user v' d' /\
  (tlsType v <> 0%nat ->
   (tlsType v = 1%nat -> fs_full (d_fs d) !! certPath v' = None /\ fs_full (d_fs d) !! keyPath v' = None) ->
   Acme.VerifyCert k (d_fs d') (certPath v') (keyPath v') = None).

Lemma pair_paths_answered v : pair_paths paths v = set_cert v (certPath (pair_paths paths v)) (keyPath (pair_paths paths v)).
Proof. unfold pair_paths. destruct (_ || _); [done|]. by destruct v. Qed.

(** The three completions of the last step, field by field. *)
Lemma completed v : answered v (admin_vars random (default_dsn paths (pair_paths paths v))).
Proof.
  assert (Hp : (certPath (pair_paths paths v), keyPath (pair_paths paths v)) =
    if bool_decide (tlsType v = 0%nat \/ tlsType v = 1%nat)
    then (path_Join (path_Dir (AdminStore.p_Hosts paths)) (hostname v +:+ ".crt"),
          path_Join (path_Dir (AdminStore.p_Hosts paths)) (hostname v +:+ ".key"))
    else (certPath v, keyPath v)).
  { unfold pair_paths. destruct (tlsType v) as [|[|n]]; [by rewrite bool_decide_true by auto..|].
    rewrite bool_decide_false by lia. done. }
  rewrite pair_paths_answered. revert Hp. generalize (certPath (pair_paths paths v)) (keyPath (pair_paths paths v)).
  intros c kk Hp. unfold default_dsn, admin_vars. cbn.
  destruct (enableAdmin v) eqn:Ea, (storeType v) as [|n] eqn:Es; (destruct (decide (storeDSN v = "")) as [Ed|Ed];
    [rewrite (bool_decide_true (storeDSN v = "")) by done|rewrite (bool_decide_false (storeDSN v = "")) by done]);
    cbn; rewrite ?Ea; (split; cbn; try done; rewrite ?Ed, ?Es; try done).
  all: assert (Hd : forall x y : string, (if bool_decide (x = "") then y else x) = if bool_decide (x <> "") then x else y)
    by (intros x y; by repeat case_bool_decide).
  all: lazymatch goal with
       | |- _ -> _ => intros Hen; first [congruence|by rewrite !Hd]
       | |- _ => by rewrite bool_decide_true by done
       end.
Qed.

Lemma has_line_head line post : has_line (line +:+ nls +:+ post) line.
Proof. exists "", post. split; [done|by left]. Qed.

Lemma has_line_skip pre text line : has_line text line -> has_line (pre +:+ nls +:+ text) line.
Proof.
  intros (p & post & -> & Hp). exists (pre +:+ nls +:+ p), post. split; [by rewrite !sapp_assoc|]. right.
  destruct Hp as [->|[q ->]]; [exists pre; by rewrite sapp_nil_r|exists (pre +:+ nls +:+ q); by rewrite !sapp_assoc].
Qed.

Lemma has_line_skip1 text line : has_line text line -> has_line (nls +:+ text) line.
Proof. apply (has_line_skip ""). Qed.

Lemma has_line_skip2 x y text line : has_line text line -> has_line (x +:+ y +:+ nls +:+ text) line.
Proof. intros Hl. apply (has_line_skip (x +:+ y)) in Hl. by rewrite sapp_assoc in Hl. Qed.

Lemma states_head key value post : states (key +:+ " = " +:+ Quote value +:+ nls +:+ post) key value.
Proof. unfold states. exists "", post. split; [by rewrite snil_app, !sapp_assoc|by left]. Qed.

#[local] Ltac next_line :=
  first [apply has_line_skip1|apply has_line_skip2|apply has_line_skip].

Lemma vpn_content_says v :
  vpn_says (vpn_content paths v) (listenAddr v) (store_name (storeType v)) (storeDSN v) (AdminStore.p_Creds paths)
    (if enableAdmin v then Some (adminAddr v, adminToken v) else None).
Proof.
  unfold vpn_content, admin_section. split.
  - apply (states_head "listen_address").
  - unfold states. do 8 next_line.
    destruct (storeType v =? 1)%nat; rewrite ?sapp_assoc, ?snil_app;
      repeat first [apply (states_head "store_type")|next_line].
  - unfold states. do 8 next_line.
    destruct (storeType v =? 1)%nat; rewrite ?sapp_assoc, ?snil_app;
      repeat first [apply (states_head "store_dsn")|next_line].
  - intros Hs. unfold states. do 8 next_line.
    assert (E : storeType v = 1%nat) by (destruct (storeType v) as [|[|[|[|n]]]]; done).
    rewrite E. cbn [Nat.eqb]. rewrite !sapp_assoc. apply (states_head "credentials_file").
  - eexists. destruct (enableAdmin v); rewrite <- !sapp_assoc; reflexivity.
Qed.

Lemma admin_vars_set v : enableAdmin (admin_vars random v) = true ->
  adminAddr (admin_vars random v) <> "" /\ (random <> [] -> adminToken (admin_vars random v) <> "").
Proof.
  unfold admin_vars. destruct (enableAdmin v) eqn:E; [intros _|by rewrite E]. cbn. split; [by case_bool_decide|].
  intros Hr. case_bool_decide; [|done]. unfold randomToken, hex_EncodeToString. by destruct random.
Qed.

Lemma admin_vars_file v : let v' := admin_vars random v in
  certPath v' = certPath v /\ keyPath v' = keyPath v /\ storeType v' = storeType v /\ tlsType v' = tlsType v /\
  wizard_host v' = wizard_host v /\ username v' = username v /\ password v' = password v.
Proof. unfold admin_vars. by destruct (enableAdmin v). Qed.

Lemma first_user_mono v v' d d' :
  storeType v' = storeType v -> storeDSN v' = storeDSN v -> username v' = username v -> password v' = password v ->
  d_db d' = d_db d ->
  fs_files (d_fs d') !! AdminStore.p_Creds paths = fs_files (d_fs d) !! AdminStore.p_Creds paths ->
  first_user v d -> first_user v' d'.
Proof. unfold first_user. intros -> -> -> -> -> ->. done. Qed.
End apply_facts.

(** ** Lemmas: the migration *)

Section migrate_facts.
Context {UT : UnicodeTables} {DB : Type} `{SqlTable DB}.

Lemma migrate_step_users acc e :
  (migrate_step (DB := DB) acc e).1 = AdminStore.migrate_one acc.1 e.
Proof.
  destruct acc as [[[s m] n] log]. cbn. destruct (AdminStore.sqlite_Add _ _ _) as [s1 [err|]]; [done|].
  by destruct (0 <? AdminStore.MaxDevices e).
Qed.

Lemma migrate_steps_users es s m n log :
  (foldl (migrate_step (DB := DB)) (s, m, n, log) es).1 = foldl AdminStore.migrate_one (s, m, n) es.
Proof.
  revert s m n log. induction es as [|e es IH]; intros; [done|]. cbn [foldl].
  pose proof (migrate_step_users (s, m, n, log) e) as He. cbn [fst] in He.
  destruct (migrate_step _ _) as [[[s1 m1] n1] log1]. cbn [fst] in He. rewrite IH, <- He. done.
Qed.

(** The accounts after the users of a file were migrated into others. *)
Definition with_migrated (m : gmap string row) (es : list AdminStore.credEntry) (m' : gmap string row) : Prop :=
  forall u, m' !! u = match m !! u with
                      | Some x => Some x
                      | None => AdminStore.migrated_row <$> AdminStore.first_entry u es
                      end.

Lemma with_migrated_again m es m' m'' : with_migrated m es m' -> with_migrated m' es m'' -> m'' = m'.
Proof.
  intros H1 H2. apply map_eq. intros u. rewrite H2, H1. destruct (m !! u); [done|].
  by destruct (AdminStore.first_entry u es).
Qed.

(** The run once the file was read and the database opened. *)
Lemma doMigrate_opened toml vpn f src dst patch es db :
  AdminStore.loadCreds toml f src = Ok es ->
  sql_Open "sqlite" (if bool_decide (dst = "") then "users.db" else dst) = Ok db -> tbl_up db ->
  exists s log, with_migrated (tbl_rows db) es (AdminStore.rows s) /\ tbl_up (AdminStore.sus_db s) /\
    doMigrate toml vpn f src dst patch =
      (if patch then
         match AdminConfig.patchVPNStoreType f vpn "sqlite" dst "" with
         | (f, Some e) => (f, Some s, log ++ ["Patching " +:+ vpn +:+ " ..."; "ERROR patching vpn.toml: " +:+ e], true)
         | (f, None) => (f, Some s, log ++ ["Patching " +:+ vpn +:+ " ...";
             "  store_type = " +:+ Quote "sqlite"; "  store_dsn  = " +:+ Quote dst;
             ""; "Migration complete!"; "Restart or send SIGHUP to apply new store settings."], false)
         end
       else (f, Some s, log ++ [""; "Migration complete!"], false)).
Proof.
  intros Hl Ho Hu. destruct (AdminStore.NewSQLiteStore_opens _ _ Ho Hu) as (s & Hs & Hc & Hr).
  unfold doMigrate. rewrite Hl, Hs.
  match goal with |- context [foldl migrate_step (s, 0%nat, 0%nat, ?l)] => set (log := l) end.
  pose proof (AdminStore.migrate_fold ["max_devices"] es s 0 0 ltac:(set_solver) Hc) as Hm.
  rewrite <- (migrate_steps_users es s 0 0 log) in Hm.
  destruct (foldl migrate_step _ es) as [[[s1 m1] n1] log1]. cbn [fst] in Hm. destruct Hm as ((Hu1 & _) & _ & Hm).
  set (line := "Migrated: " +:+ _). exists s1, (log1 ++ [line]).
  split; [intros u; by rewrite Hm, Hr|]. split; [done|]. destruct patch; [|reflexivity].
  by destruct (AdminConfig.patchVPNStoreType _ _ _ _ _) as [f1 [e|]]; rewrite <- !app_assoc.
Qed.
End migrate_facts.

(** ** Properties *)

(** C33: the pages of the setup type the answers.  Whatever buttons and fields the
    user works, also going back and after errors, the page shown has what its
    place in the sequence promises: a hostname from page 2, a listen address
    from page 2b, an admin address from page 3, on the user's page an e-mail for
    Let's Encrypt or both paths of a custom certificate, and a user name and a
    password when it is done; the two selections stay in range. *)
Theorem wizard_well_formed {UT : UnicodeTables} {DB : Type} `{SqlDriver DB} (k : Acme.crypto) (a : Acme.acme)
    (paths : AdminStore.Paths) (now : Z) (random : list byte) (d : disk DB) (evs : list event) :
  let z := run k a paths now random d evs in well_formed (z_page z) (z_vars z).
Proof.
  cbv zeta. apply (run_page k a paths now random well_formed).
  - intros z ev _. apply step_well_formed.
  - unfold well_formed. cbn. split_and!; [done|lia..].
Qed.

(** C34: a setup that finishes leaves the configuration that was asked for.  When
    [applyConfig] succeeds, on five distinct paths and databases that can be
    reached once opened: what was answered stays, and only an empty DSN, admin
    address or token gets its default; vpn.toml has the lines of the listen
    address, the store, its DSN and, for the file store, the credentials file,
    and the admin section exactly when the API is enabled; hosts.toml names the
    host with the pair used, beside it or as given; the first user is in the
    SQLite database of that DSN or in the credentials file; and a self-signed
    pair, on a disk with room for it, or a custom one verifies. *)
Theorem setup_fits_together {UT : UnicodeTables} {DB : Type} `{SqlTable DB} (k : Acme.crypto) (a : Acme.acme)
    (paths : AdminStore.Paths) (now : Z) (random : list byte) (v v' : vars) (d d' : disk DB)
    `{!Acme.crypto_laws k}
  (Happly : applyConfig k a paths now random v d = (v', d', None))
  (Hpaths : NoDup [AdminStore.p_VPN paths; AdminStore.p_Hosts paths; AdminStore.p_Creds paths; certPath v'; keyPath v'])
  (Hup : forall dsn db, sql_Open "sqlite" dsn = Ok db -> tbl_up db) :
  answered paths random v v' /\ set_up k paths v v' d d'.
Proof.
  unfold applyConfig in Happly. set (v0 := pair_paths paths v) in Happly.
  destruct (make_pair k a now v0 (d_fs d)) as [f [e|]] eqn:Em; [done|]. cbv zeta in Happly.
  set (v1 := default_dsn paths v0) in Happly.
  destruct (init_store paths v1 (with_fs d f)) as [d1 [e|]] eqn:Ei; [done|].
  destruct (init_store_user _ _ _ _ Hup Ei) as (Huser & Hl1 & Hf1). cbn in Hl1, Hf1.
  destruct (AdminStore.saveHosts (d_fs d1) _ _) as [f2 [e|]] eqn:Eh; [done|].
  destruct (WriteFile f2 _ _) as [f3 [e|]] eqn:Ew; [done|]. injection Happly as <- <-.
  destruct (admin_vars_file random v1) as (Ec & Ek & Est & Et & Ehost & Eu & Epw).
  assert (certPath v1 = certPath v0 /\ keyPath v1 = keyPath v0 /\ tlsType v1 = tlsType v0) as (Ec' & Ek' & Et').
  { unfold v1, default_dsn. by destruct (_ && _). }
  rewrite Ec, Ek, Ec', Ek', !NoDup_cons in Hpaths. destruct Hpaths as (N1 & N2 & N3 & N4 & _).
  unfold AdminStore.saveHosts in Eh.
  assert (Hf2 : forall q, q <> AdminStore.p_Hosts paths -> fs_files f2 !! q = fs_files (d_fs d1) !! q)
    by (intros q; by destruct (WriteFile_lookup _ _ _ _ q Eh) as (_ & _ & _ & ?)).
  assert (Hf3 : forall q, q <> AdminStore.p_VPN paths -> fs_files f3 !! q = fs_files f2 !! q)
    by (intros q; by destruct (WriteFile_lookup _ _ _ _ q Ew) as (_ & _ & _ & ?)).
  destruct (WriteFile_lookup _ _ _ _ "" Eh) as (Hh & Hl2 & _). destruct (WriteFile_lookup _ _ _ _ "" Ew) as (Hw & Hl3 & Hn & _).
  pose proof (completed paths random v) as Hans. change (answered paths random v (admin_vars random v1)) in Hans.
  pose proof Hans as [Ah Al As Au Ae At _ _ _].
  unfold set_up. cbn [d_fs with_fs]. split_and!.
  - exact Hans.
  - exists (vpn_content paths (admin_vars random v1)).
    split; [unfold ReadFile; rewrite bool_decide_false, Hw by (by rewrite Hl3); done|].
    rewrite <- Al, <- As, <- Ae. apply vpn_content_says.
  - rewrite Hf3 by set_solver. rewrite Hh, Ec, Ek, <- Ah. unfold wizard_hosts. rewrite <- Ehost.
    unfold wizard_host. rewrite Ec, Ek.
    cbn [AdminStore.hf_MainHosts AdminStore.hf_PingHosts AdminStore.hf_SpeedtestHosts]. by rewrite !sapp_nil_r.
  - apply (first_user_mono paths v1 _ d1); try done; cbn;
      first [by rewrite Hf3, Hf2 by set_solver|unfold admin_vars; by destruct (enableAdmin v1)].
  - rewrite Ec, Ek, Ec', Ek', <- At, Et, Et'. intros Ht Hroom.
    rewrite (VerifyCert_same k f); [|by rewrite Hl3, Hl2, Hl1|by rewrite Hf3, Hf2, Hf1 by set_solver..].
    apply (make_pair_verified k a now v0 (d_fs d)); [done..|set_solver|exact Hroom].
Qed.

(** A migration that stops can be run again.  The users of the file are
    copied, each absent account from its first entry and the accounts there kept.
    When vpn.toml cannot be opened the run ends in an error with the users already
    migrated and no file changed; otherwise only vpn.toml is rewritten, and the run
    ends well, unless the disk is full: then it ends in an error with the text
    written as far as there was room.  Migrating the same users again changes no
    account. *)
Theorem migration_restarts {UT : UnicodeTables} {DB : Type} `{SqlTable DB}
    (toml : string -> res (list AdminStore.credEntry)) (vpn : string) (f : fs) (src dst text : string)
    (es : list AdminStore.credEntry) (db : DB)
  (Hsrc : AdminStore.loadCreds toml f src = Ok es)
  (Hopen : sql_Open "sqlite" (if bool_decide (dst = "") then "users.db" else dst) = Ok db) (Hup : tbl_up db)
  (Hvpn : fs_files f !! vpn = Some text) :
  exists s log, doMigrate toml vpn f src dst true =
    (if bool_decide (vpn ∈ fs_locked f) then (f, Some s, log, true)
     else let new := Join nls (AdminConfig.store_type_lines "sqlite" dst "" (Split nl text)) in
          (set_files f (<[vpn := written f vpn new]> (fs_files f)),
           Some s, log, negb (bool_decide (written f vpn new = new)))) /\
    with_migrated (tbl_rows db) es (AdminStore.rows s) /\
    (forall m, with_migrated (AdminStore.rows s) es m -> m = AdminStore.rows s).
Proof.
  destruct (doMigrate_opened toml vpn f src dst true es db Hsrc Hopen Hup) as (s & log & Hm & _ & ->).
  unfold AdminConfig.patchVPNStoreType, ReadFile, WriteFile. rewrite Hvpn.
  assert (Hagain : forall m, with_migrated (AdminStore.rows s) es m -> m = AdminStore.rows s)
    by (intros m; by eapply with_migrated_again).
  cbv zeta. destruct (bool_decide (vpn ∈ fs_locked f)); [eexists s, _; (split; [reflexivity|done])|].
  destruct (bool_decide (written f vpn _ = _)); eexists s, _; (split; [reflexivity|done]).
Qed.

(** The migration runs once, and only when it is asked for.  Whatever is typed
    and pressed, the files change only by one press of the button, with both
    fields filled, and then the result of that migration stays on the screen. *)
Theorem migrate_screen {UT : UnicodeTables} {DB : Type} `{SqlDriver DB}
    (toml : string -> res (list AdminStore.credEntry)) (toml_vpn : string -> res AdminStore.vpnConfigAdmin)
    (vpn creds : string) (f : fs) (es : list migrate_event) :
  let g := run_migrate toml vpn (RunMigrate (DB := DB) toml toml_vpn vpn f creds) es in
  match g_result g with
  | None => g_fs g = f /\ g_store g = None
  | Some (log, failed) => exists src dst patch, TrimSpace src <> "" /\ TrimSpace dst <> "" /\
      doMigrate toml vpn f (TrimSpace src) (TrimSpace dst) patch = (g_fs g, g_store g, log, failed)
  end.
Proof.
  cbn zeta. induction es as [|e es IH] using rev_ind.
  { cbn. unfold RunMigrate. by destruct (migrate_defaults _ _ _ _). }
  unfold run_migrate in *. rewrite foldl_snoc. set (g := foldl _ _ es) in *. clearbody g.
  unfold step_migrate. destruct (g_quit g); [done|].
  destruct (g_result g) as [[log failed]|] eqn:Er; [destruct e; cbn; rewrite ?Er; exact IH|].
  destruct e; cbn; rewrite ?Er; try exact IH. destruct IH as [Hf Hs].
  destruct (migrate_button _ _ _ _ _ _) as [[[[f1 store] log] failed]|] eqn:Eb; cbn; rewrite ?Er; [|done].
  unfold migrate_button in Eb. destruct (bool_decide (TrimSpace (g_src g) = "")) eqn:E1; [done|].
  destruct (bool_decide (TrimSpace (g_dst g) = "")) eqn:E2; [done|]. cbn in Eb.
  rewrite bool_decide_eq_false in E1. rewrite bool_decide_eq_false in E2.
  exists (g_src g), (g_dst g), (g_patch g). rewrite <- Hf. split_and!; [done..|]. congruence.
Qed.

(** Without a click on the checkbox, which is shown checked, the admin API is
    not set up: the variable starts false and only the callback sets it. *)
Theorem admin_needs_toggle {UT : UnicodeTables} {DB : Type} `{SqlDriver DB} (k : Acme.crypto) (a : Acme.acme)
    (paths : AdminStore.Paths) (now : Z) (random : list byte) (d : disk DB) (evs : list event)
  (Hevs : forall on, Toggle on ∉ evs) :
  let v := z_vars (run k a paths now random d evs) in enableAdmin v = false /\ admin_section v = "".
Proof.
  cbv zeta. enough (He : enableAdmin (z_vars (run k a paths now random d evs)) = false)
    by (split; [done|unfold admin_section; by rewrite He]).
  apply (run_page k a paths now random (fun _ v => enableAdmin v = false)); [|done].
  intros z ev Hin Hz. assert (Hno : forall on, ev <> Toggle on) by (intros on ->; by apply (Hevs on)).
  unfold step. destruct (z_error z); [by destruct ev|].
  destruct ev, (z_page z) eqn:Ep; try done; try (by destruct (Hno on)); cbn [previous goto z_vars]; cbv zeta;
    page_cases; try done.
  destruct (applyConfig _ _ _ _ _ _ _) as [[v' d'] e] eqn:E.
  apply applyConfig_keeps_admin in E. by destruct e; cbn; rewrite E.
Qed.

(** ** Instances *)

#[local] Instance ex_tables : UnicodeTables := {| uni_IsPrint := fun _ => false |}.
#[local] Instance ex_init : MemInit := {| mem_cols := None; mem_rows := ∅; mem_up := true |}.

Definition ex_paths : AdminStore.Paths :=
  {| AdminStore.p_VPN := "/etc/vpn.toml"; AdminStore.p_Hosts := "/etc/hosts.toml"; AdminStore.p_Creds := "/etc/creds.toml" |}.
Definition ex_disk : disk mem_db := {| d_fs := {| fs_files := ∅; fs_locked := ∅; fs_full := ∅ |}; d_db := None |}.
Definition ex_answers : list event :=
  [Begin; Next1 " vpn.example "; Next2 "" ""; Next2b "" ""; ChooseTLS 1; Next3 ""; Apply "ann" "pw"].
Definition ex_done : wizard mem_db :=
  run Acme.ex_crypto (Acme.ex_acme "pending") ex_paths 1000 [] ex_disk ex_answers.

Example setup_runs : z_page ex_done = Done /\ certPath (z_vars ex_done) = "/etc/vpn.example.crt" /\
  storeDSN (z_vars ex_done) = "/etc/users.db".
Proof. vm_compute. done. Qed.

Definition ex_vars : vars := set_user (z_vars (run Acme.ex_crypto (Acme.ex_acme "pending") ex_paths 1000 [] ex_disk
  (take 6 ex_answers))) "ann" "pw".

#[local] Existing Instance Acme.ex_crypto_laws.

Lemma setup_fits_together_witness :
  answered ex_paths [] ex_vars (z_vars ex_done) /\
  set_up Acme.ex_crypto ex_paths ex_vars (z_vars ex_done) ex_disk (z_disk ex_done).
Proof.
  refine (setup_fits_together Acme.ex_crypto (Acme.ex_acme "pending") ex_paths 1000 [] ex_vars _ ex_disk _ _ _ _).
  - vm_compute. reflexivity.
  - apply (bool_decide_unpack _). vm_compute. exact I.
  - intros dsn db. cbn. intros [= <-]. reflexivity.
Defined.

Lemma admin_needs_toggle_witness : admin_section (z_vars ex_done) = "".
Proof.
  refine (proj2 (admin_needs_toggle Acme.ex_crypto (Acme.ex_acme "pending") ex_paths 1000 [] ex_disk ex_answers _)).
  intros on Hin. unfold ex_answers in Hin. set_solver.
Defined.

Definition ex_users (s : string) : res (list AdminStore.credEntry) := Ok AdminStore.ex_entries.

Definition ex_before : fs :=
  {| fs_files := {[ "c" := "creds"; "v" := "listen_address = 1" ]}; fs_locked := {[ "v" ]}; fs_full := ∅ |}.

Lemma migration_restarts_witness :
  exists s log, doMigrate (DB := mem_db) ex_users "v" ex_before "c" "" true = (ex_before, Some s, log, true) /\
    AdminStore.rows s !! "bob" = Some (AdminStore.migrated_row (AdminStore.file_entry "bob" "b1" 2)).
Proof.
  destruct (migration_restarts ex_users "v" ex_before "c" "" "listen_address = 1" AdminStore.ex_entries mem_init
    ltac:(vm_compute; reflexivity) ltac:(reflexivity) ltac:(reflexivity) ltac:(vm_compute; reflexivity))
    as (s & log & Hrun & Hm & _).
  assert (E : bool_decide ("v" ∈ fs_locked ex_before) = true) by (vm_compute; reflexivity).
  rewrite E in Hrun. exists s, log. split; [exact Hrun|]. rewrite Hm. vm_compute. reflexivity.
Defined.
