(* ===== verification/TtAdmin.v ===== *)
(** cmd/ttadmin/main.go: the command line of the administration tool.  The
    arguments become a command for one of the screens or a tunnel; what the
    command returns becomes the exit status of the process. *)
From S2P Require Import Prelude GoStrings GoEncoding GoHttp GoFlag.
From S2P Require AdminStore Auth P2P.
From S2P Require Import Tunnel.
#[local] Open Scope Z_scope.

(** ** What the arguments ask for *)

Inductive command :=
| Setup (paths : AdminStore.Paths)
| Migrate (paths : AdminStore.Paths)
| Manage (paths : AdminStore.Paths)
| Expose (cfg : TunnelConfig)
| Reach (cfg : TunnelConfig).

(** What is printed when no command is run. *)
Inductive message :=
| TunnelUsage                 (* tunnelUsage *)
| FlagUsage                   (* the usage of the flag set *)
| FlagProblem (msg : string)  (* an error of the flags, with their usage *)
| UnknownCommand (text : string).

Inductive invocation := Runs (c : command) | Exits (code : Z) (m : message).

Section main.
Context {UT : UnicodeTables}.

(** A flag set that exits on errors. *)
Definition parse_or_exit (fl : flags) (args : list string) (k : flags -> list string -> invocation) : invocation :=
  match Parse fl args with
  | Help => Exits 0 FlagUsage
  | Bad m => Exits 2 (FlagProblem m)
  | Parsed fl rest => k fl rest
  end.

Definition common_flags : flags :=
  <["insecure" := VBool false]>
    (string_flags [("server", ""); ("hostname", ""); ("user", ""); ("pass", ""); ("room", "")]).

(** The flags of a subcommand, and the command it makes of its settings. *)
Definition subcommand (sub : string) : option (flags * (TunnelConfig -> command)) :=
  if bool_decide (sub = "expose")
  then Some (<["pool" := VInt 4]> (<["target" := VString ""]> common_flags), Expose)
  else if bool_decide (sub = "reach") then Some (<["local" := VString ""]> common_flags, Reach)
  else None.

(** The variables the flags are bound to; one without a flag keeps its zero
    value. *)
Definition tunnel_config (fl : flags) : TunnelConfig :=
  {| Server := flag_string fl "server"; Hostname := flag_string fl "hostname";
     Username := flag_string fl "user"; Password := flag_string fl "pass"; Room := flag_string fl "room";
     Insecure := flag_bool fl "insecure"; Target := flag_string fl "target";
     Pool := Z.to_nat (flag_int fl "pool"); Local := flag_string fl "local" |}.

Definition incomplete (cfg : TunnelConfig) : bool :=
  bool_decide (Server cfg = "") || bool_decide (Username cfg = "") || bool_decide (Password cfg = "")
  || bool_decide (Room cfg = "").

Definition runTunnel (args : list string) : invocation :=
  match args with
  | [] => Exits 1 TunnelUsage
  | sub :: rest =>
      match subcommand sub with
      | None => Exits 1 TunnelUsage
      | Some (fl, make) =>
          parse_or_exit fl rest (fun fl _ =>
            let cfg := tunnel_config fl in
            if incomplete cfg then Exits 1 FlagUsage else Runs (make cfg))
      end
  end.

Definition main_flags : flags :=
  string_flags [("vpn", "vpn.toml"); ("hosts", "hosts.toml"); ("creds", "credentials.toml")].

Definition main_paths (fl : flags) : AdminStore.Paths :=
  {| AdminStore.p_VPN := flag_string fl "vpn"; AdminStore.p_Hosts := flag_string fl "hosts";
     AdminStore.p_Creds := flag_string fl "creds" |}.

Definition screen (mode : string) (paths : AdminStore.Paths) : invocation :=
  if bool_decide (mode = "setup") then Runs (Setup paths)
  else if bool_decide (mode = "migrate") then Runs (Migrate paths)
  else if bool_decide (mode = "manage") || bool_decide (mode = "") then Runs (Manage paths)
  else Exits 1 (UnknownCommand ("unknown command " +:+ Quote mode +:+ nls +:+
                                "Usage: ttadmin [setup|manage|migrate|tunnel]" +:+ nls)).

(** [main] up to the call, from the arguments after the program's name. *)
Definition invoked (args : list string) : invocation :=
  let flagged := parse_or_exit main_flags args (fun fl rest => screen (hd "manage" rest) (main_paths fl)) in
  match args with
  | a :: rest => if bool_decide (a = "tunnel") then runTunnel rest else flagged
  | [] => flagged
  end.

(** ** What the process ends with *)

(** The error a command returns; a tunnel ends with the error of its context
    when a signal cancelled it. *)
Inductive failure := Canceled | Failed (e : string).

Definition exit_code (c : command) (err : option failure) : Z :=
  match c, err with
  | (Expose _ | Reach _), Some Canceled => 0
  | _, Some _ => 1
  | _, None => 0
  end.

Definition main (run : command -> option failure) (args : list string) : Z :=
  match invoked args with
  | Exits code _ => code
  | Runs c => exit_code c (run c)
  end.

(** What [RunExpose] returns, once it does: its own check, or the context's
    error. *)
Definition expose_end (cfg : TunnelConfig) : failure :=
  match expose_pool cfg with Err e => Failed e | Ok _ => Canceled end.

(** What [RunReach] returns: its check, the error of listening, or that of the
    loop when Accept fails with the context done or not. *)
Definition reach_end (listen : string -> option string) (accept : option string) (cfg : TunnelConfig) : failure :=
  match RunReach cfg listen with
  | Err e => Failed e
  | Ok _ => match accept with Some e => Failed e | None => Canceled end
  end.
End main.

(** ** The command lines of a tunnel *)

Definition common_args (cfg : TunnelConfig) : list string :=
  ["--server"; Server cfg; "--hostname"; Hostname cfg; "--user"; Username cfg; "--pass"; Password cfg;
   "--room"; Room cfg] ++ if Insecure cfg then ["--insecure"] else [].
Definition expose_args (cfg : TunnelConfig) : list string :=
  "tunnel" :: "expose" :: common_args cfg ++ ["--target"; Target cfg; "--pool"; fmt_d (Z.of_nat (Pool cfg))].
Definition reach_args (cfg : TunnelConfig) : list string :=
  "tunnel" :: "reach" :: common_args cfg ++ ["--local"; Local cfg].

(** The settings of one side. *)
Definition exposing (cfg : TunnelConfig) : TunnelConfig :=
  {| Server := Server cfg; Hostname := Hostname cfg; Username := Username cfg; Password := Password cfg;
     Room := Room cfg; Insecure := Insecure cfg; Target := Target cfg; Pool := Pool cfg; Local := "" |}.
Definition reaching (cfg : TunnelConfig) : TunnelConfig :=
  {| Server := Server cfg; Hostname := Hostname cfg; Username := Username cfg; Password := Password cfg;
     Room := Room cfg; Insecure := Insecure cfg; Target := ""; Pool := 0; Local := Local cfg |}.

(** A request of a tunnel carries its account and its room. *)
Lemma request_credentials cfg : has_char ":"%char (Username cfg) = false ->
  Auth.basic_credentials (p2p_request cfg) = Some (Username cfg, Password cfg).
Proof. intros Hu. unfold Auth.basic_credentials. by apply Auth.parse_basic_encoded. Qed.

Section lines.
Context {UT : UnicodeTables}.

(** The next flag is [name], its value the argument behind it. *)
Ltac flag_value name :=
  rewrite (Parse_string _ _ name ""); [|vm_compute; reflexivity|rewrite ?lookup_insert_ne by done; auto].

Lemma Parse_common fl cfg rest : (forall n v, common_flags !! n = Some v -> fl !! n = Some v) ->
  Parse fl (common_args cfg ++ rest) = Parse (<["insecure" := VBool (Insecure cfg)]>
    (<["room" := VString (Room cfg)]> (<["pass" := VString (Password cfg)]> (<["user" := VString (Username cfg)]>
    (<["hostname" := VString (Hostname cfg)]> (<["server" := VString (Server cfg)]> fl)))))) rest.
Proof.
  intros Hfl. unfold common_args. cbn [app].
  pose proof (Hfl "server" _ eq_refl). pose proof (Hfl "hostname" _ eq_refl). pose proof (Hfl "user" _ eq_refl).
  pose proof (Hfl "pass" _ eq_refl). pose proof (Hfl "room" _ eq_refl). pose proof (Hfl "insecure" _ eq_refl).
  flag_value "server". flag_value "hostname". flag_value "user". flag_value "pass". flag_value "room".
  destruct (Insecure cfg); cbn [app].
  - rewrite (Parse_bool _ _ "insecure" false); [done|vm_compute; reflexivity|by rewrite !lookup_insert_ne].
  - f_equal. symmetry. apply insert_id. by rewrite !lookup_insert_ne.
Qed.

Lemma invoked_tunnel sub fl make args fl' rest cfg : subcommand sub = Some (fl, make) ->
  Parse fl args = Parsed fl' rest -> tunnel_config fl' = cfg ->
  invoked ("tunnel" :: sub :: args) = if incomplete cfg then Exits 1 FlagUsage else Runs (make cfg).
Proof.
  intros Hs Hp <-. unfold invoked, runTunnel, parse_or_exit. by rewrite bool_decide_true, Hs, Hp by done.
Qed.

Lemma invoked_expose cfg : Z.of_nat (Pool cfg) < 2 ^ 63 ->
  invoked (expose_args cfg) = if incomplete cfg then Exits 1 FlagUsage else Runs (Expose (exposing cfg)).
Proof.
  intros Hp. unfold expose_args. rewrite <- (eq_refl : incomplete (exposing cfg) = incomplete cfg).
  eapply invoked_tunnel; [done| |].
  - rewrite Parse_common.
    2: { intros n v Hn. rewrite !lookup_insert_ne; [done| |]; intros <-; vm_compute in Hn; congruence. }
    rewrite (Parse_string _ _ "target" ""); [|vm_compute; reflexivity|reflexivity].
    by rewrite (Parse_int _ _ "pool" 4); [|vm_compute; reflexivity|reflexivity|lia].
  - unfold tunnel_config, exposing, flag_string, flag_bool, flag_int. f_equal.
    rewrite lookup_insert_eq. apply Nat2Z.id.
Qed.

Lemma invoked_reach cfg :
  invoked (reach_args cfg) = if incomplete cfg then Exits 1 FlagUsage else Runs (Reach (reaching cfg)).
Proof.
  unfold reach_args. rewrite <- (eq_refl : incomplete (reaching cfg) = incomplete cfg).
  eapply invoked_tunnel; [done| |].
  - rewrite Parse_common.
    2: { intros n v Hn. rewrite !lookup_insert_ne; [done|]; intros <-; vm_compute in Hn; congruence. }
    by rewrite (Parse_string _ _ "local" ""); [|vm_compute; reflexivity|reflexivity].
  - unfold tunnel_config, reaching, flag_string, flag_bool, flag_int. by f_equal.
Qed.

(** A tunnel that runs has what every tunnel needs. *)
Lemma runTunnel_complete args c : runTunnel args = Runs c ->
  exists cfg, (c = Expose cfg \/ c = Reach cfg) /\ incomplete cfg = false.
Proof.
  unfold runTunnel, parse_or_exit, subcommand. destruct args as [|sub rest]; [done|].
  repeat case_bool_decide; try done; destruct (Parse _ _) as [fl ?| |]; try done;
    cbn zeta; destruct (incomplete _) eqn:E; try done; intros [= <-]; eauto.
Qed.
End lines.

(** ** Properties *)

Section properties.
Context {UT : UnicodeTables}.


(** The status of a tunnel tells how it ended.  Whatever the arguments, a
    tunnel that starts has a server, a user, a password and a room; an exposer
    without a target exits with 1, one with a target, once a signal stops it,
    with 0; a reach exits with 0 exactly when it could listen and was stopped. *)
Theorem tunnel_exit_status (args : list string) (c : command) (listen : string -> option string)
    (accept : option string)
  (Hrun : invoked ("tunnel" :: args) = Runs c) :
  exists cfg, (c = Expose cfg \/ c = Reach cfg) /\
    Server cfg <> "" /\ Username cfg <> "" /\ Password cfg <> "" /\ Room cfg <> "" /\
    (exit_code (Expose cfg) (Some (expose_end cfg)) = if bool_decide (Target cfg = "") then 1 else 0) /\
    (exit_code (Reach cfg) (Some (reach_end listen accept cfg)) = 0 <->
     Local cfg <> "" /\ listen (Local cfg) = None /\ accept = None).
Proof.
  unfold invoked in Hrun. rewrite bool_decide_true in Hrun by done.
  destruct (runTunnel_complete _ _ Hrun) as (cfg & Hc & Hi). exists cfg. split; [done|].
  unfold incomplete in Hi. rewrite !orb_false_iff, !bool_decide_eq_false in Hi. destruct Hi as [[[? ?] ?] ?].
  split_and!; try done.
  - unfold expose_end, expose_pool. by case_bool_decide.
  - unfold reach_end, RunReach. case_bool_decide; [naive_solver|].
    destruct (listen (Local cfg)); [naive_solver|]. destruct accept; naive_solver.
Qed.

(** The flags of a screen count only before its name.  Flags in front of setup,
    migrate or manage give its paths; the ones behind it, which is how the
    documentation and the installer write them, are left over: the screen runs on
    the default paths of the working directory, whatever follows. *)
Theorem flags_after_mode_ignored (mode vpn hosts creds : string) (after : list string) (make : AdminStore.Paths -> command)
  (Hmode : (mode, make) ∈ [("setup", Setup); ("migrate", Migrate); ("manage", Manage)]) :
  invoked ("--vpn" :: vpn :: "--hosts" :: hosts :: "--creds" :: creds :: mode :: after) =
    Runs (make {| AdminStore.p_VPN := vpn; AdminStore.p_Hosts := hosts; AdminStore.p_Creds := creds |}) /\
  invoked (mode :: after) =
    Runs (make {| AdminStore.p_VPN := "vpn.toml"; AdminStore.p_Hosts := "hosts.toml";
                  AdminStore.p_Creds := "credentials.toml" |}).
Proof.
  assert (Hm : classify mode = NotFlag /\ mode <> "tunnel" /\ forall p, screen mode p = Runs (make p)).
  { repeat (apply elem_of_cons in Hmode as [[= -> ->]|Hmode]; [done|]). by apply elem_of_nil in Hmode. }
  destruct Hm as (Hc & Ht & Hs). unfold invoked, parse_or_exit. rewrite !bool_decide_false by done.
  rewrite (Parse_string main_flags _ "vpn" "vpn.toml") by (vm_compute; reflexivity).
  rewrite (Parse_string _ _ "hosts" "hosts.toml") by (vm_compute; reflexivity).
  rewrite (Parse_string _ _ "creds" "credentials.toml") by (vm_compute; reflexivity).
  rewrite !Parse_stops by done. cbn [hd]. rewrite !Hs. split; [|by vm_compute]. by vm_compute.
Qed.
End properties.

(** ** Witnesses *)

#[local] Instance ex_tables : UnicodeTables := {| uni_IsPrint := fun _ => false |}.

Definition ex_tunnel : TunnelConfig :=
  {| Server := "my.server:443"; Hostname := ""; Username := "pnsrc"; Password := "-secret"; Room := "ssh";
     Insecure := true; Target := "127.0.0.1:22"; Pool := 2; Local := "127.0.0.1:2222" |}.


Example invoked_examples :
  map invoked [[]; ["manage"]; ["tunnel"]; ["tunnel"; "serve"]; ["tunnel"; "reach"; "-h"];
               ["tunnel"; "reach"; "--server"; "a:1"]; ["tunnel"; "expose"; "--pool=x"]; ["stats"]] =
  [Runs (Manage (main_paths main_flags)); Runs (Manage (main_paths main_flags)); Exits 1 TunnelUsage;
   Exits 1 TunnelUsage; Exits 0 FlagUsage; Exits 1 FlagUsage;
   Exits 2 (FlagProblem (invalid "x" "pool" "parse error"));
   Exits 1 (UnknownCommand ("unknown command " +:+ Quote "stats" +:+ nls +:+
                            "Usage: ttadmin [setup|manage|migrate|tunnel]" +:+ nls))].
Proof. vm_compute. reflexivity. Qed.
