(* ===== verification/Endpoint.v ===== *)
(** cmd/endpoint/main.go: the adapters between the packages, the choice of the
    credential store, the configuration snapshot of the admin API, the wiring of
    the callbacks, and main up to the start of the server ([boot]). *)
From S2P Require Import Prelude GoStrings GoOS GoHttp SqlDb ConnTracker.
From S2P Require Config AuthStore Auth Rules AdminStore AdminConfig AdminApi Proxy Udp Server.
#[local] Open Scope Z_scope.

(** ** adminStoreAdapter: it has every lifecycle method, whatever the store *)

Section adapter.
Context {S : Type} `{AdminStore.UserStore S}.

Record adminStoreAdapter := { ad_store : S }.

Definition wrap (r : S * option string) : adminStoreAdapter * option string :=
  ({| ad_store := r.1 |}, r.2).

Definition admin_user (e : AdminStore.credEntry) : AdminApi.AdminUser :=
  {| AdminApi.au_Username := AdminStore.Username e; AdminApi.au_MaxDevices := AdminStore.MaxDevices e;
     AdminApi.au_Enabled := AdminStore.Enabled e; AdminApi.au_ExpiresAt := AdminStore.ExpiresAt e;
     AdminApi.au_TrafficLimit := AdminStore.TrafficLimit e;
     AdminApi.au_TrafficUsed := AdminStore.TrafficUsed e |}.

Definition adapter_List (a : adminStoreAdapter) : res (list AdminApi.AdminUser) :=
  entries ← AdminStore.us_List (ad_store a); Ok (map admin_user entries).

Definition not_supported (a : adminStoreAdapter) : option string :=
  Some ("not supported for " +:+ AdminStore.us_StoreType (ad_store a) +:+ " store").

Definition adapter_SetEnabled (a : adminStoreAdapter) (u : string) (en : bool) :=
  match AdminStore.us_lifecycle with
  | Some lc => wrap (AdminStore.lc_SetEnabled lc (ad_store a) u en)
  | None => (a, not_supported a)
  end.
Definition adapter_SetExpiresAt (a : adminStoreAdapter) (u : string) (n : Z) :=
  match AdminStore.us_lifecycle with
  | Some lc => wrap (AdminStore.lc_SetExpiresAt lc (ad_store a) u n)
  | None => (a, not_supported a)
  end.
Definition adapter_SetTrafficLimit (a : adminStoreAdapter) (u : string) (n : Z) :=
  match AdminStore.us_lifecycle with
  | Some lc => wrap (AdminStore.lc_SetTrafficLimit lc (ad_store a) u n)
  | None => (a, not_supported a)
  end.

(** The tracker is reset before the store is asked. *)
Definition adapter_ResetTraffic (a : adminStoreAdapter) (t : ConnTracker) (u : string)
  : adminStoreAdapter * ConnTracker * option string :=
  match AdminStore.us_lifecycle with
  | Some lc => let '(a, e) := wrap (AdminStore.lc_ResetTraffic lc (ad_store a) u) in
               (a, ResetUserTraffic t u, e)
  | None => (a, t, not_supported a)
  end.

#[export] Instance adapter_store : AdminApi.AdminUserStore adminStoreAdapter := {|
  AdminApi.ad_List := adapter_List;
  AdminApi.ad_Add a u pw := wrap (AdminStore.us_Add (ad_store a) u pw);
  AdminApi.ad_Delete a u := wrap (AdminStore.us_Delete (ad_store a) u);
  AdminApi.ad_ChangePassword a u pw := wrap (AdminStore.us_ChangePassword (ad_store a) u pw);
  AdminApi.ad_SetMaxDevices a u n := wrap (AdminStore.us_SetMaxDevices (ad_store a) u n);
  AdminApi.ad_lifecycle := Some {|
    AdminApi.al_SetEnabled := adapter_SetEnabled;
    AdminApi.al_SetExpiresAt := adapter_SetExpiresAt;
    AdminApi.al_SetTrafficLimit := adapter_SetTrafficLimit;
    AdminApi.al_ResetTraffic := adapter_ResetTraffic |};
|}.
End adapter.
Arguments adminStoreAdapter : clear implicits.

(** ** rulesEngAdapter: the views of the two packages have the same fields *)

Definition rules_Snapshot (e : Rules.Engine) : list Rules.RuleView :=
  map (fun r => {| Rules.v_CIDR := Rules.v_CIDR r;
                   Rules.v_ClientRandomPrefix := Rules.v_ClientRandomPrefix r;
                   Rules.v_Action := Rules.v_Action r |}) (Rules.Snapshot e).

Definition rules_Set {UT : UnicodeTables} (e : Rules.Engine) (f : fs) (views : list Rules.RuleView) :=
  Rules.Set_ e f (map (fun v => {| Rules.v_CIDR := Rules.v_CIDR v;
                                   Rules.v_ClientRandomPrefix := Rules.v_ClientRandomPrefix v;
                                   Rules.v_Action := Rules.v_Action v |}) views).

(** ** The store of the authenticator *)

Section main.
Context {UT : UnicodeTables} {DB : Type} `{SqlDriver DB}.
Variable toml_clients : string -> res (list AuthStore.fileClient).
Variable toml_hosts : string -> res Config.HostsConfig.
(** ReadCertInfo: the expiry and the issuer of a PEM file (crypto/x509). *)
Variable parse_cert : string -> res (Z * string).

Inductive anyUserStore :=
| FileStore (s : AuthStore.FileStore)
| SQLite (s : AuthStore.SQLiteStore DB)
| Postgres (s : AuthStore.PostgresStore DB).

Definition buildStore (f : fs) (cfg : Config.Config) : res anyUserStore :=
  if bool_decide (Config.StoreType cfg = "sqlite") then
    let dsn := if bool_decide (Config.StoreDSN cfg = "") then "users.db" else Config.StoreDSN cfg in
    db ← AuthStore.NewSQLiteStore dsn; Ok (SQLite {| AuthStore.sq_db := db |})
  else if bool_decide (Config.StoreType cfg = "postgres") then
    db ← AuthStore.NewPostgresStore (Config.StoreDSN cfg); Ok (Postgres {| AuthStore.pg_db := db |})
  else Ok (FileStore (AuthStore.NewFileStore toml_clients f (Config.CredentialsFile cfg))).

Definition ReadCertInfo (f : fs) (path : string) : res (Z * string) :=
  data ← ReadFile f path; parse_cert data.

Record HostInfo := { hi_Hostname : string; hi_NotAfter : Z; hi_Issuer : string }.

Record FullConfig := {
  fc_ListenAddress : string; fc_StoreType : string; fc_StoreDSN : string; fc_CacheTTLSecs : Z;
  fc_AllowPrivateNet : bool; fc_IPv6Available : bool; fc_TCPIdleTimeout : Z; fc_UDPIdleTimeout : Z;
  fc_ConnectTimeout : Z; fc_TLSHandshake : Z; fc_HTTP3Enabled : bool; fc_ICMPEnabled : bool;
  fc_Hostnames : list HostInfo;
}.

Definition host_info (f : fs) (h : Config.TLSHost) : HostInfo :=
  match ReadCertInfo f (Config.CertChainPath h) with
  | Ok (na, issuer) => {| hi_Hostname := Config.Hostname h; hi_NotAfter := na; hi_Issuer := issuer |}
  | Err _ => {| hi_Hostname := Config.Hostname h; hi_NotAfter := 0; hi_Issuer := "" |}
  end.

Definition buildFullConfig (f : fs) (cfg : Config.Config) (hostsPath : string) : FullConfig := {|
  fc_ListenAddress := Config.ListenAddress cfg;
  fc_StoreType := Config.StoreType cfg;
  fc_StoreDSN := Config.StoreDSN cfg;
  fc_CacheTTLSecs := Config.CacheTTLSecs cfg;
  fc_AllowPrivateNet := Config.AllowPrivateNet cfg;
  fc_IPv6Available := Config.IPv6Available cfg;
  fc_TCPIdleTimeout := Config.TCPConnectionsTimeoutSecs cfg;
  fc_UDPIdleTimeout := Config.UDPConnectionsTimeoutSecs cfg;
  fc_ConnectTimeout := Config.ConnectionEstablishTimeoutSecs cfg;
  fc_TLSHandshake := Config.TLSHandshakeTimeoutSecs cfg;
  fc_HTTP3Enabled := bool_decide (is_Some (Config.QUIC (Config.cfg_ListenProtocols cfg)));
  fc_ICMPEnabled := bool_decide (is_Some (Config.cfg_ICMP cfg));
  fc_Hostnames := match Config.LoadHosts toml_hosts f hostsPath with
                  | Ok hosts => map (host_info f) (Config.MainHosts hosts)
                  | Err _ => []
                  end;
|}.

(** ** The wiring of [main] *)

Definition authenticator (cfg : Config.Config) : Auth.Authenticator :=
  Auth.New (Config.CacheTTLSecs cfg * second).

(** auth.OnInvalidate *)
Definition on_invalidate (u : string) (t : ConnTracker) : ConnTracker :=
  (KickUser t u "Account suspended by administrator").1.

Definition proxy_options (cfg : Config.Config) : Proxy.Options :=
  {| Proxy.AllowPrivateNet := Config.AllowPrivateNet cfg;
     Proxy.ConnectTimeoutSecs := Config.ConnectionEstablishTimeoutSecs cfg;
     Proxy.TCPIdleTimeoutSecs := Config.TCPConnectionsTimeoutSecs cfg;
     Proxy.AuthFailureCode := Config.AuthFailureStatusCode cfg |}.

(** The ICMP mux exists when it is configured and its socket opens. *)
Definition proxy_handler (cfg : Config.Config) (icmp_socket : bool) : Proxy.Handler :=
  {| Proxy.h_opts := proxy_options cfg;
     Proxy.h_udpMux := Some (Udp.NewMux (Config.UDPConnectionsTimeoutSecs cfg));
     Proxy.h_icmpMux := bool_decide (is_Some (Config.cfg_ICMP cfg)) && icmp_socket |}.

(** The bridge of PATCH /api/config: [json] decodes the raw body. *)
Definition patch_config (json : string -> res AdminConfig.EditableConfig) (path raw : string) (f : fs)
  : fs * option string :=
  match json raw with
  | Err e => (f, Some e)
  | Ok ed => AdminConfig.PatchVPNConfig f path ed
  end.

(** The level of [setupLogger]. *)
Inductive level := LevelDebug | LevelInfo | LevelWarn | LevelError.
Definition log_level (l : string) : level :=
  if bool_decide (l = "debug") || bool_decide (l = "trace") then LevelDebug
  else if bool_decide (l = "warn") then LevelWarn
  else if bool_decide (l = "error") then LevelError else LevelInfo.

(** Only the SQLite store has the method of server.TrafficFlusher. *)
Definition has_AddTraffic (s : anyUserStore) : bool := match s with SQLite _ => true | _ => false end.

Variable toml_config : string -> res Config.Config.
Variable toml_rules : string -> res (list Rules.Rule).
Variable toml_vpn : string -> res AdminStore.vpnConfigAdmin.

(** The store of the admin API, opened when a token is configured; without one
    that opens the API runs without users. *)
Definition admin_store (f : fs) (cfg : Config.Config) (vpnPath hostsPath : string)
  : option (AdminStore.anyStore DB) :=
  match Config.cfg_Admin cfg with
  | None => None
  | Some a =>
      if bool_decide (Config.Token a <> "")
      then res_opt (AdminStore.OpenStoreFromVPN toml_vpn f
             {| AdminStore.p_VPN := vpnPath; AdminStore.p_Hosts := hostsPath;
                AdminStore.p_Creds := Config.CredentialsFile cfg |})
      else None
  end.

(** What [main] has put together when it comes to server.New. *)
Record booted := {
  b_cfg : Config.Config;
  b_store : anyUserStore;
  b_auth : Auth.Authenticator;
  b_flusher : bool;
  b_adminStore : option (AdminStore.anyStore DB);
  b_webRoot : string;
  b_full : FullConfig;
  b_rules : Rules.Engine;
  b_handler : Proxy.Handler;
}.

(** [main] up to server.New; an error ends the program. *)
Definition boot (f : fs) (args : list string) (icmp_socket : bool) : res booted :=
  match args with
  | vpnPath :: hostsPath :: _ =>
      cfg ← wrap_err "load config: " (Config.Load toml_config f vpnPath);
      store ← wrap_err "init store: " (buildStore f cfg);
      match Rules.LoadFile toml_rules Rules.New f (Config.RulesFile cfg) with
      | (_, Some e) => Err ("load rules: " +:+ e)
      | (rules, None) =>
          Ok {| b_cfg := cfg; b_store := store; b_auth := authenticator cfg;
                b_flusher := has_AddTraffic store;
                b_adminStore := admin_store f cfg vpnPath hostsPath;
                b_webRoot := from_option Config.WebRoot "" (Config.cfg_Admin cfg);
                b_full := buildFullConfig f cfg hostsPath; b_rules := rules;
                b_handler := proxy_handler cfg icmp_socket |}
      end
  | _ => Err "usage: trusttunnel_endpoint [flags] <vpn.toml> <hosts.toml>"
  end.
End main.
Arguments anyUserStore : clear implicits.

(** ** Lemmas *)

(** The two copies of a rule view are the same view. *)
Lemma rules_Snapshot_eq e : rules_Snapshot e = Rules.Snapshot e.
Proof. unfold rules_Snapshot. rewrite <- (map_id (Rules.Snapshot e)) at 2. apply map_ext. by intros []. Qed.

Lemma rules_Set_eq {UT : UnicodeTables} e f vs : rules_Set e f vs = Rules.Set_ e f vs.
Proof. unfold rules_Set. f_equal. rewrite <- (map_id vs) at 2. apply map_ext. by intros []. Qed.

Section stores.
Context {UT : UnicodeTables} {DB : Type} `{SqlDriver DB}.
Variable toml_clients : string -> res (list AuthStore.fileClient).

Lemma flusher_sqlite f cfg st : buildStore toml_clients f cfg = Ok st ->
  has_AddTraffic st = true <-> Config.StoreType cfg = "sqlite".
Proof.
  unfold buildStore. case_bool_decide as H1.
  - destruct (AuthStore.NewSQLiteStore _) as [db|]; [|done]. by intros [= <-].
  - case_bool_decide as H2.
    + destruct (AuthStore.NewPostgresStore _) as [db|]; [|done]. by intros [= <-].
    + by intros [= <-].
Qed.

Lemma NewFileStore_path f p : AuthStore.fst_path (AuthStore.NewFileStore toml_clients f p) = p.
Proof.
  unfold AuthStore.NewFileStore, AuthStore.file_reload. cbn [AuthStore.fst_path].
  by destruct (DecodeFile toml_clients f p).
Qed.

(** The choice of the admin store, against that of the authenticator. *)
Lemma same_store f c st : buildStore toml_clients f (Config.defaults c) = Ok st ->
  match res_opt
    (if bool_decide (Config.StoreType c = "sqlite") then
       s ← AdminStore.NewSQLiteStore (if bool_decide (Config.StoreDSN c = "") then "users.db" else Config.StoreDSN c);
       Ok (AdminStore.SqliteS s)
     else if bool_decide (Config.StoreType c = "postgres")
     then Err "postgres store is not yet supported in ttadmin (use psql directly)"
     else Ok (AdminStore.FileS {| AdminStore.fus_fs := f;
            AdminStore.fus_path := if bool_decide (Config.CredentialsFile c = "")
                                   then Config.CredentialsFile (Config.defaults c) else Config.CredentialsFile c |}))
  with
  | Some (AdminStore.FileS s) => exists s', st = FileStore s' /\ AuthStore.fst_path s' = AdminStore.fus_path s
  | Some (AdminStore.SqliteS s) => exists s', st = SQLite s' /\
      AuthStore.NewSQLiteStore (AdminStore.sus_dsn s) = Ok (AuthStore.sq_db s')
  | None => True
  end.
Proof.
  unfold buildStore. cbn [Config.defaults Config.StoreType Config.StoreDSN Config.CredentialsFile].
  unfold Config.or_str. destruct (decide (Config.StoreType c = "sqlite")) as [Es|Es].
  - rewrite Es. change (if bool_decide ("sqlite" = "") then "file" else "sqlite") with "sqlite".
    rewrite !(bool_decide_true ("sqlite" = "sqlite")) by done. set (dsn := if bool_decide (Config.StoreDSN c = "") then _ else _).
    destruct (AuthStore.NewSQLiteStore dsn) as [db|] eqn:Ed; [|done]. intros [= <-].
    destruct (AdminStore.NewSQLiteStore dsn) as [s|] eqn:Ea; [|done]. cbn. eexists. split; [done|].
    assert (AdminStore.sus_dsn s = dsn) as ->; [|exact Ed].
    unfold AdminStore.NewSQLiteStore in Ea. destruct (sql_Open _ _) as [db1|]; [|done]. cbn in Ea.
    destruct (sql_CreateUsers db1 _) as [db2 [e|]]; [done|]. injection Ea as <-. cbn.
    case_bool_decide as Hd; [|done]. subst dsn. case_bool_decide; [done|]. by rewrite Hd in *.
  - rewrite (bool_decide_false (Config.StoreType c = "sqlite")) by done.
    destruct (decide (Config.StoreType c = "postgres")) as [Ep|Ep].
    { rewrite Ep. intros _. by rewrite (bool_decide_true ("postgres" = "postgres")). }
    rewrite !(bool_decide_false (Config.StoreType c = "postgres")) by done.
    rewrite (bool_decide_false (_ = "sqlite")), (bool_decide_false (_ = "postgres"))
      by (by case_bool_decide).
    intros [= <-]. cbn. eexists. split; [done|]. rewrite NewFileStore_path. by case_bool_decide.
Qed.
End stores.

(** ** Properties *)

(** C23: the server and its admin API are about the same accounts.  When the two
    decoders agree on the store's fields of vpn.toml, a program that came up with
    an admin store has it on the place of the authenticator's store: the same
    credentials file, or SQLite with the DSN the authenticator opened; and the
    periodic flush of traffic runs exactly for SQLite, so that the limits of
    PostgreSQL accounts never fill up. *)
Theorem boot_same_accounts {UT : UnicodeTables} {DB : Type} `{SqlDriver DB}
    (toml_clients : string -> res (list AuthStore.fileClient)) (toml_hosts : string -> res Config.HostsConfig)
    (parse_cert : string -> res (Z * string)) (toml_config : string -> res Config.Config)
    (toml_rules : string -> res (list Rules.Rule)) (toml_vpn : string -> res AdminStore.vpnConfigAdmin)
    (f : fs) (args : list string) (icmp_socket : bool) (b : booted)
  (Hagree : forall text c, toml_config text = Ok c -> exists v, toml_vpn text = Ok v /\
     AdminStore.vc_StoreType v = Config.StoreType c /\ AdminStore.vc_StoreDSN v = Config.StoreDSN c /\
     AdminStore.vc_CredentialsFile v = Config.CredentialsFile c)
  (Hboot : boot toml_clients toml_hosts parse_cert toml_config toml_rules toml_vpn f args icmp_socket = Ok b) :
  match b_adminStore b with
  | Some (AdminStore.FileS s) => exists s', b_store b = FileStore s' /\ AuthStore.fst_path s' = AdminStore.fus_path s
  | Some (AdminStore.SqliteS s) => exists s', b_store b = SQLite s' /\
      AuthStore.NewSQLiteStore (AdminStore.sus_dsn s) = Ok (AuthStore.sq_db s')
  | None => True
  end /\
  (b_flusher b = true <-> Config.StoreType (b_cfg b) = "sqlite").
Proof.
  destruct args as [|vpnPath [|hostsPath rest]]; [done..|]. cbn [boot] in Hboot.
  unfold Config.Load, DecodeFile in Hboot. destruct (ReadFile f vpnPath) as [text|] eqn:Et; [|done].
  cbn [mbind res_bind] in Hboot.
  destruct (toml_config text) as [c|] eqn:Ec; [|done]. cbn [wrap_err map_err mbind res_bind] in Hboot.
  destruct (buildStore toml_clients f (Config.defaults c)) as [st|] eqn:Eb; [|done]. cbn [wrap_err map_err mbind res_bind] in Hboot.
  destruct (Rules.LoadFile _ _ _ _) as [rules [e|]]; [done|]. injection Hboot as <-. cbn [b_adminStore b_store b_flusher b_cfg].
  destruct (Hagree text c Ec) as (v & Ev & E1 & E2 & E3). split.
  - unfold admin_store. destruct (Config.cfg_Admin _) as [adm|]; [|done]. case_bool_decide; [|done].
    unfold AdminStore.OpenStoreFromVPN, AdminStore.loadVPNConfig, DecodeFile. cbn [AdminStore.p_VPN AdminStore.p_Creds].
    rewrite Et. cbn [mbind res_bind]. rewrite Ev. cbn [wrap_err map_err]. rewrite E1, E2, E3.
    exact (same_store toml_clients f c st Eb).
  - exact (flusher_sqlite toml_clients f (Config.defaults c) st Eb).
Qed.

(** ** Witnesses *)

#[local] Instance ex_tables : UnicodeTables := {| uni_IsPrint := fun _ => false |}.
#[local] Instance ex_init : MemInit := {| mem_cols := None; mem_rows := ∅; mem_up := true |}.

Definition ex_cfg : Config.Config :=
  {| Config.ListenAddress := ""; Config.IPv6Available := false; Config.AllowPrivateNet := false;
     Config.TLSHandshakeTimeoutSecs := 0; Config.ClientListenerTimeoutSecs := 0;
     Config.ConnectionEstablishTimeoutSecs := 0; Config.TCPConnectionsTimeoutSecs := 0;
     Config.UDPConnectionsTimeoutSecs := 0; Config.CredentialsFile := ""; Config.RulesFile := "";
     Config.AuthFailureStatusCode := 0; Config.StoreType := "sqlite"; Config.StoreDSN := "";
     Config.CacheTTLSecs := 0;
     Config.cfg_ListenProtocols := {| Config.HTTP1 := None; Config.HTTP2 := None; Config.QUIC := None |};
     Config.cfg_ForwardProtocol := {| Config.Direct := None; Config.SOCKS5 := None |}; Config.cfg_ICMP := None;
     Config.cfg_Metrics := None;
     Config.cfg_Admin := Some {| Config.Address := "127.0.0.1:9090"; Config.Token := "t"; Config.WebRoot := "" |} |}.
Definition ex_vpn : AdminStore.vpnConfigAdmin :=
  {| AdminStore.vc_StoreType := "sqlite"; AdminStore.vc_StoreDSN := ""; AdminStore.vc_CredentialsFile := "";
     AdminStore.vc_Admin := Some ("127.0.0.1:9090", "t") |}.
Definition ex_fs : fs := {| fs_files := {[ "vpn.toml" := "text" ]}; fs_locked := ∅; fs_full := ∅ |}.

Definition ex_boot : res (booted (DB := mem_db)) :=
  boot (fun _ => Err "") (fun _ => Err "") (fun _ => Err "") (fun _ => Ok ex_cfg) (fun _ => Ok []) (fun _ => Ok ex_vpn)
    ex_fs ["vpn.toml"; "hosts.toml"] false.

Lemma boot_same_accounts_witness :
  exists b s s', ex_boot = Ok b /\ b_adminStore b = Some (AdminStore.SqliteS s) /\ b_store b = SQLite s' /\
    AuthStore.NewSQLiteStore (AdminStore.sus_dsn s) = Ok (AuthStore.sq_db s').
Proof.
  destruct ex_boot as [b|e] eqn:Eb; [|vm_compute in Eb; discriminate].
  pose proof (boot_same_accounts (fun _ => Err "") (fun _ => Err "") (fun _ => Err "") (fun _ => Ok ex_cfg)
    (fun _ => Ok []) (fun _ => Ok ex_vpn) ex_fs ["vpn.toml"; "hosts.toml"] false b) as [H _].
  - intros text c [= <-]. exists ex_vpn. repeat split; reflexivity.
  - exact Eb.
  - destruct (b_adminStore b) as [[s|s]|] eqn:Ea.
    1, 3: exfalso; vm_compute in Eb; injection Eb as <-; vm_compute in Ea; discriminate.
    destruct H as (s' & Hs' & Hd). exists b, s, s'. repeat split; [exact Ea|exact Hs'|exact Hd].
Defined.
