(* ===== verification/Process.v ===== *)
(** cmd/endpoint/main.go and internal/server/server.go: the server as a process.
    From its command line to the running server (over Endpoint.boot, Server.New
    and Server.Run), the signals and ticks it handles, and its exit status. *)
From S2P Require Import Prelude GoStrings GoOS GoHttp GoFlag SqlDb.
From S2P Require Config AuthStore Rules AdminStore Proxy Listener Server ConnTracker Endpoint.
#[local] Open Scope Z_scope.

(** ** Files opened for appending: os.OpenFile with O_CREATE and O_APPEND *)

Definition OpenAppend (f : fs) (p : string) : fs * option string :=
  if bool_decide (p ∈ fs_locked f) then (f, Some (err_perm "open" p))
  else (set_files f (<[p := default "" (fs_files f !! p)]> (fs_files f)), None).

(** ** The process *)

(** [Stopping] is a running [Shutdown]: requests go on for up to ten seconds. *)
Inductive status := Running | Stopping | Exited (code : Z) | Killed.

#[export] Instance status_eq_dec : EqDecision status.
Proof. solve_decision. Defined.

Inductive event (F : Type) :=
| Traffic (o : ConnTracker.op)          (* what the handlers do to the tracker *)
| Tick                                  (* the flusher collects what is pending *)
| Write (err : option string)           (* its next write returns *)
| LoopReady                             (* sighupLoop has called signal.Notify *)
| Hup (f : F)                           (* SIGHUP, with the files as they are then *)
| Terminate                             (* SIGINT or SIGTERM *)
| ShutdownEnds (err : option string)    (* what Shutdown answers *)
| Restart                               (* the restart of the admin API *)
| ServeFailed.                          (* Serve of HTTP/2 returned an error *)
Arguments Traffic {F} _.
Arguments Tick {F}.
Arguments Write {F} _.
Arguments LoopReady {F}.
Arguments Hup {F} _.
Arguments Terminate {F}.
Arguments ShutdownEnds {F} _.
Arguments Restart {F}.
Arguments ServeFailed {F}.

Section process.
Context {UT : UnicodeTables} {DB : Type} `{SqlDriver DB} {W Cert : Type}.
Variable toml_clients : string -> res (list AuthStore.fileClient).
Variable toml_hosts : string -> res Config.HostsConfig.
Variable parse_cert : string -> res (Z * string).
Variable toml_config : string -> res Config.Config.
Variable toml_rules : string -> res (list Rules.Rule).
Variable toml_vpn : string -> res AdminStore.vpnConfigAdmin.
Variable pair : string -> string -> res Cert.                 (* tls.LoadX509KeyPair *)
Variable vpn : Proxy.Handler -> Listener.handler W.                    (* the handler, as it serves *)

Record process := {
  p_status : status;
  p_hup : bool;                               (* SIGHUP reaches the loop *)
  p_server : Server.Server W Cert;
  p_flusher : bool;
  p_tracker : ConnTracker.ConnTracker;
  p_inflight : list (string * Z);             (* collected, not yet written *)
  p_ledger : ConnTracker.ledger;              (* stored, and lost with a failed write *)
}.

Definition with_status (p : process) (st : status) : process :=
  {| p_status := st; p_hup := p_hup p; p_server := p_server p; p_flusher := p_flusher p;
     p_tracker := p_tracker p; p_inflight := p_inflight p; p_ledger := p_ledger p |}.
Definition with_server (p : process) (s : Server.Server W Cert) : process :=
  {| p_status := p_status p; p_hup := p_hup p; p_server := s; p_flusher := p_flusher p;
     p_tracker := p_tracker p; p_inflight := p_inflight p; p_ledger := p_ledger p |}.
Definition with_traffic (p : process) (t : ConnTracker.ConnTracker) (q : list (string * Z)) (l : ConnTracker.ledger)
  : process :=
  {| p_status := p_status p; p_hup := p_hup p; p_server := p_server p; p_flusher := p_flusher p;
     p_tracker := t; p_inflight := q; p_ledger := l |}.
Definition listening (p : process) : process :=
  {| p_status := p_status p; p_hup := true; p_server := p_server p; p_flusher := p_flusher p;
     p_tracker := p_tracker p; p_inflight := p_inflight p; p_ledger := p_ledger p |}.

(** ** Starting *)

Definition main_flags : flags := string_flags [("l", "info"); ("logfile", "")].

(** [setupLogger]: the level, and the log file made if there is none. *)
Definition setupLogger (f : fs) (level file : string) : fs * res Endpoint.level :=
  if bool_decide (file = "") then (f, Ok (Endpoint.log_level level))
  else match OpenAppend f file with
       | (f, Some e) => (f, Err e)
       | (f, None) => (f, Ok (Endpoint.log_level level))
       end.

(** [main] behind the logger: the server and whether traffic is flushed. *)
Definition bring_up (f : fs) (args : list string) (icmp_socket : bool) (configure listen : option string)
  : res (Server.Server W Cert * bool) :=
  b ← Endpoint.boot toml_clients toml_hosts parse_cert toml_config toml_rules toml_vpn f args icmp_socket;
  s ← wrap_err "init server: " (Server.New pair toml_hosts (Endpoint.b_cfg b) f (nth 1 args "")
                                  (vpn (Endpoint.b_handler b)));
  s ← wrap_err "server: " (Server.Run s configure listen);
  Ok (s, Endpoint.b_flusher b).

(** [main], from the arguments after the program's name: the running process,
    or the status it exits with. *)
Definition main (f : fs) (args : list string) (icmp_socket : bool) (configure listen : option string)
  : process + Z :=
  match Parse main_flags args with
  | Help => inr 0
  | Bad _ => inr 2
  | Parsed fl rest =>
      if (length rest <? 2)%nat then inr 1
      else match setupLogger f (flag_string fl "l") (flag_string fl "logfile") with
           | (_, Err _) => inr 1
           | (f, Ok _) =>
               match bring_up f rest icmp_socket configure listen with
               | Err _ => inr 1
               | Ok (s, fl) =>
                   inl {| p_status := Running; p_hup := false; p_server := s; p_flusher := fl;
                          p_tracker := ConnTracker.empty_tracker; p_inflight := [];
                          p_ledger := ConnTracker.no_ledger |}
               end
           end
  end.

(** ** Running *)

(** [shutdown], then the end of [main]. *)
Definition shutdown (err : option string) : Z := match err with Some _ => 1 | None => 0 end.

Definition alive (p : process) : bool :=
  match p_status p with Running | Stopping => true | _ => false end.

(** The flusher is one goroutine: it collects again when its writes are done. *)
Definition collects (p : process) : bool := p_flusher p && bool_decide (p_inflight p = []).

Definition step (p : process) (ev : event fs) : process :=
  if negb (alive p) then p else
  match ev with
  | Traffic ConnTracker.OFlush => p
  | Traffic o => with_traffic p (ConnTracker.op_step (p_tracker p, []) o).1 (p_inflight p) (p_ledger p)
  | Tick => if collects p then let '(t, q) := ConnTracker.flush_collect (p_tracker p) in with_traffic p t q (p_ledger p)
            else p
  | Write err =>
      match p_inflight p with
      | [] => p
      | (u, n) :: q => with_traffic p (p_tracker p) q (ConnTracker.book (fun _ _ => err) (p_ledger p) u n).1
      end
  | LoopReady => listening p
  | Hup f => if p_hup p then with_server p (Server.sighup pair toml_hosts (p_server p) f)
             else with_status p Killed
  | Terminate => with_status p Stopping
  | ShutdownEnds err => match p_status p with Stopping => with_status p (Exited (shutdown err)) | _ => p end
  | Restart => with_status p (Exited 0)
  | ServeFailed => with_status p (Exited 1)
  end.

Definition run (p : process) (evs : list (event fs)) : process := foldl step p evs.

(** ** What the events did to the tracker *)

Definition op_of (p : process) (ev : event fs) : list ConnTracker.op :=
  if negb (alive p) then [] else
  match ev with
  | Traffic ConnTracker.OFlush => []
  | Traffic o => [o]
  | Tick => if collects p then [ConnTracker.OFlush] else []
  | _ => []
  end.

Fixpoint ops_of (p : process) (evs : list (event fs)) : list ConnTracker.op :=
  match evs with
  | [] => []
  | ev :: evs => op_of p ev ++ ops_of (step p ev) evs
  end.

(** The bytes of [u] stored, lost with a failed write, and being written. *)
Definition stored (p : process) (u : string) : Z := ConnTracker.flushed_to u (ConnTracker.l_stored (p_ledger p)).
Definition lost (p : process) (u : string) : Z := ConnTracker.flushed_to u (ConnTracker.l_lost (p_ledger p)).
Definition in_flight (p : process) (u : string) : Z := ConnTracker.flushed_to u (p_inflight p).

Lemma process_snoc p evs ev : run p (evs ++ [ev]) = step (run p evs) ev.
Proof. unfold run. by rewrite foldl_snoc. Qed.

(** What was handed to the store was stored, lost or is being written. *)
Lemma step_tracker p ev log u :
  let r := foldl ConnTracker.op_step (p_tracker p, log) (op_of p ev) in
  let p' := step p ev in
  p_tracker p' = r.1 /\
  stored p' u + lost p' u + in_flight p' u - ConnTracker.flushed_to u r.2 =
  stored p u + lost p u + in_flight p u - ConnTracker.flushed_to u log.
Proof.
  cbn zeta. unfold step, op_of. destruct (negb (alive p)); [done|].
  destruct ev as [o| |err| |f| |err| |]; try done.
  - destruct o; exact (conj eq_refl eq_refl).
  - unfold collects. destruct (p_flusher p); [|done]. cbn [andb]. case_bool_decide as Hq; [|done]. cbn [foldl ConnTracker.op_step].
    destruct (ConnTracker.flush_collect (p_tracker p)) as [t q]. cbn. split; [done|].
    unfold stored, lost, in_flight. cbn. rewrite Hq, ConnTracker.flushed_to_app.
    change (ConnTracker.flushed_to u []) with 0. lia.
  - unfold stored, lost, in_flight. destruct (p_inflight p) as [|[v n] q] eqn:Eq; [by rewrite Eq|].
    assert (Hc : ConnTracker.flushed_to u ((v, n) :: q) = (if bool_decide (v = u) then n else 0) + ConnTracker.flushed_to u q)
      by (unfold ConnTracker.flushed_to; cbn; by case_bool_decide).
    rewrite Hc. split; [done|]. cbn. destruct err; cbn; rewrite ConnTracker.flushed_to_snoc; cbn; lia.
  - by destruct (p_hup p).
  - by destruct (p_status p).
Qed.

Lemma run_tracker p evs log u :
  let r := foldl ConnTracker.op_step (p_tracker p, log) (ops_of p evs) in
  let p' := run p evs in
  p_tracker p' = r.1 /\
  stored p' u + lost p' u + in_flight p' u - ConnTracker.flushed_to u r.2 =
  stored p u + lost p u + in_flight p u - ConnTracker.flushed_to u log.
Proof.
  cbn zeta. revert p log. induction evs as [|ev evs IH]; intros p log; [done|]. cbn [run ops_of foldl].
  rewrite foldl_app. pose proof (step_tracker p ev log u) as [Ht Hs].
  destruct (foldl ConnTracker.op_step (p_tracker p, log) (op_of p ev)) as [t log1]. cbn [fst snd] in *.
  subst t. destruct (IH (step p ev) log1) as [H1 H2]. unfold run in *. split; [exact H1|lia].
Qed.

(** The end of a process writes nothing. *)
Lemma step_ends p ev : alive p = true -> alive (step p ev) = false ->
  p_tracker (step p ev) = p_tracker p /\ p_inflight (step p ev) = p_inflight p /\ p_ledger (step p ev) = p_ledger p.
Proof.
  intros Ha. unfold step. rewrite Ha. cbn [negb]. destruct ev as [o| |err| |f| |err| |]; try done.
  - destruct o; cbn; unfold alive in *; cbn; congruence.
  - destruct (collects p); [|done]. destruct (ConnTracker.flush_collect _); unfold alive in *; cbn; congruence.
  - destruct (p_inflight p) as [|[v n] q]; unfold alive in *; cbn; congruence.
  - by destruct (p_hup p).
  - by destruct (p_status p).
Qed.

(** Whether an event ends the process does not depend on the traffic. *)
Lemma step_alive p q ev : p_status p = p_status q -> p_hup p = p_hup q -> alive (step p ev) = alive (step q ev).
Proof.
  intros Hs Hh. assert (Ha : alive p = alive q) by (unfold alive; by rewrite Hs).
  assert (Hkeep : forall (x : process) t i l, alive (with_traffic x t i l) = alive x) by done.
  unfold step. rewrite <- Ha. destruct (alive p) eqn:E; cbn [negb]; [|congruence].
  destruct ev as [o| |err| |f| |err| |]; try done.
  - destruct o; cbn; congruence.
  - destruct (collects p), (collects q); repeat destruct (ConnTracker.flush_collect _); rewrite ?Hkeep; congruence.
  - destruct (p_inflight p) as [|[? ?] ?], (p_inflight q) as [|[? ?] ?]; rewrite ?Hkeep; congruence.
  - unfold listening, alive in *. cbn. congruence.
  - rewrite <- Hh. destruct (p_hup p); [|done]. unfold alive in *. cbn. congruence.
  - rewrite <- Hs. destruct (p_status p); cbn; congruence.
Qed.

(** A flush with all its writes made. *)
Definition full_flush (p : process) : list (event fs) :=
  Tick :: replicate (length (ConnTracker.flush_collect (p_tracker p)).2) (Write None).

Lemma writes_made p q : alive p = true -> p_inflight p = q ->
  let ws := replicate (length q) (Write None) in
  let p' := run p ws in
  p_status p' = p_status p /\ p_hup p' = p_hup p /\ p_inflight p' = [] /\ p_ledger p' =
    {| ConnTracker.l_stored := ConnTracker.l_stored (p_ledger p) ++ q; ConnTracker.l_lost := ConnTracker.l_lost (p_ledger p) |} /\
  ops_of p ws = [].
Proof.
  cbn zeta. revert p. induction q as [|[v n] q IH]; intros p Ha Hq.
  { cbn. rewrite app_nil_r. by destruct (p_ledger p). }
  cbn [length replicate run foldl ops_of].
  assert (Hs : step p (Write None) = with_traffic p (p_tracker p) q (ConnTracker.book (fun _ _ => None) (p_ledger p) v n).1)
    by (unfold step; by rewrite Ha, Hq).
  assert (Ho : op_of p (Write None) = []) by (unfold op_of; by rewrite Ha).
  rewrite Hs, Ho. destruct (IH (with_traffic p (p_tracker p) q (ConnTracker.book (fun _ _ => None) (p_ledger p) v n).1))
    as (H1 & H2 & H3 & H4 & H5); [exact Ha|done|].
  split_and!; [done..| |done]. unfold run in H4. rewrite H4. cbn. by rewrite <- app_assoc.
Qed.

Lemma flush_made p : alive p = true -> p_flusher p = true -> p_inflight p = [] ->
  let p' := run p (full_flush p) in
  p_status p' = p_status p /\ p_hup p' = p_hup p /\ p_inflight p' = [] /\
  ConnTracker.l_lost (p_ledger p') = ConnTracker.l_lost (p_ledger p) /\ ops_of p (full_flush p) = [ConnTracker.OFlush].
Proof.
  intros Ha Hf Hq. cbn zeta. unfold full_flush. cbn [run foldl ops_of].
  assert (Hc : collects p = true) by (unfold collects; by rewrite Hf, bool_decide_true).
  assert (Hs : step p Tick = let '(t, q) := ConnTracker.flush_collect (p_tracker p) in with_traffic p t q (p_ledger p))
    by (unfold step; by rewrite Ha, Hc).
  assert (Ho : op_of p Tick = [ConnTracker.OFlush]) by (unfold op_of; by rewrite Ha, Hc).
  rewrite Hs, Ho. destruct (ConnTracker.flush_collect (p_tracker p)) as [t q]. cbn [snd].
  destruct (writes_made (with_traffic p t q (p_ledger p)) q Ha eq_refl) as (H1 & H2 & H3 & H4 & H5).
  unfold run in *. rewrite H1, H2, H3, H4, H5. done.
Qed.

Lemma run_flusher p evs : p_flusher (run p evs) = p_flusher p.
Proof.
  induction evs as [|ev evs IH] using rev_ind; [done|]. rewrite process_snoc, <- IH. unfold step.
  destruct (negb (alive _)); [done|]. destruct ev as [[]| |err| |f| |err| |]; try done.
  - destruct (collects _); [|done]. by destruct (ConnTracker.flush_collect _).
  - by destruct (p_inflight _) as [|[v n] q].
  - by destruct (p_hup _).
  - by destruct (p_status _).
Qed.

Lemma process_app p evs evs' : run p (evs ++ evs') = run (run p evs) evs'.
Proof. unfold run. by rewrite foldl_app. Qed.

(** ** What a reload may change *)

Lemma sighup_keeps (s : Server.Server W Cert) f : let s' := Server.sighup pair toml_hosts s f in
  Server.s_cfg s' = Server.s_cfg s /\ Server.s_hostsPath s' = Server.s_hostsPath s /\
  Server.s_vpnHandler s' = Server.s_vpnHandler s.
Proof.
  unfold Server.sighup. destruct (Config.LoadHosts _ _ _) as [hosts|]; [|done].
  by destruct (Server.TLSManager_Load _ _ _) as [mgr [e|]].
Qed.

Lemma step_server p ev :
  Server.s_cfg (p_server (step p ev)) = Server.s_cfg (p_server p) /\
  Server.s_vpnHandler (p_server (step p ev)) = Server.s_vpnHandler (p_server p).
Proof.
  unfold step. destruct (negb (alive p)); [done|]. destruct ev as [[]| |err| |f| |err| |]; try done.
  - destruct (collects p); [|done]. by destruct (ConnTracker.flush_collect _).
  - by destruct (p_inflight p) as [|[v n] q].
  - destruct (p_hup p); [|done]. by destruct (sighup_keeps (p_server p) f) as (? & _ & ?).
  - by destruct (p_status p).
Qed.

(** Where a process comes from. *)
Lemma main_process f args icmp configure listen p :
  main f args icmp configure listen = inl p ->
  exists fl rest f' lvl b s, Parse main_flags args = Parsed fl rest /\
    setupLogger f (flag_string fl "l") (flag_string fl "logfile") = (f', Ok lvl) /\
    Endpoint.boot toml_clients toml_hosts parse_cert toml_config toml_rules toml_vpn f' rest icmp = Ok b /\
    Server.New pair toml_hosts (Endpoint.b_cfg b) f' (nth 1 rest "") (vpn (Endpoint.b_handler b)) = Ok s /\
    Server.Run s configure listen = Ok (p_server p) /\
    p_status p = Running /\ p_hup p = false /\ p_flusher p = Endpoint.b_flusher b /\
    p_tracker p = ConnTracker.empty_tracker /\ p_inflight p = [] /\ p_ledger p = ConnTracker.no_ledger.
Proof.
  unfold main. destruct (Parse main_flags args) as [fl rest| |]; [|done..].
  destruct (length rest <? 2)%nat; [done|].
  destruct (setupLogger _ _ _) as [f' [lvl|]] eqn:El; [|done]. unfold bring_up.
  destruct (Endpoint.boot _ _ _ _ _ _ _ _ _) as [b|] eqn:Eb; [|done]. cbn [mbind res_bind].
  destruct (Server.New _ _ _ _ _ _) as [s|] eqn:En; [|done]. cbn [mbind res_bind wrap_err map_err].
  destruct (Server.Run s configure listen) as [s'|] eqn:Er; [|done]. cbn [mbind res_bind wrap_err map_err].
  intros [= <-]. by eexists fl, rest, f', lvl, b, s.
Qed.
End process.
Arguments process : clear implicits.

(** ** Properties *)

Section properties.
Context {UT : UnicodeTables} {DB : Type} `{SqlDriver DB} {W Cert : Type}.
Variable toml_clients : string -> res (list AuthStore.fileClient).
Variable toml_hosts : string -> res Config.HostsConfig.
Variable parse_cert : string -> res (Z * string).
Variable toml_config : string -> res Config.Config.
Variable toml_rules : string -> res (list Rules.Rule).
Variable toml_vpn : string -> res AdminStore.vpnConfigAdmin.
Variable pair : string -> string -> res Cert.
Variable vpn : Proxy.Handler -> Listener.handler W.

Abbreviation main := (main toml_clients toml_hosts parse_cert toml_config toml_rules toml_vpn pair vpn).
Abbreviation step := (step (W := W) toml_hosts pair).
Abbreviation run := (run (W := W) toml_hosts pair).


(** Reloading.  Whatever happens after the start, the process serves the handler
    and the configuration it came up with; a SIGHUP that arrives before the loop
    listens for it, while the admin API already offers it, kills the process. *)
Theorem reload_keeps_handler (f : fs) (args : list string) (icmp : bool) (configure listen : option string)
    (p : process W Cert) (evs : list (event fs)) (f' : fs)
  (Hmain : main f args icmp configure listen = inl p) :
  (exists b, Server.s_cfg (p_server (run p evs)) = Endpoint.b_cfg b /\
     Server.s_vpnHandler (p_server (run p evs)) = vpn (Endpoint.b_handler b) /\
     exists f0 rest, Endpoint.boot toml_clients toml_hosts parse_cert toml_config toml_rules toml_vpn f0 rest icmp = Ok b) /\
  p_status (run p [Hup f']) = Killed /\ p_status (run p [LoopReady; Hup f']) = Running.
Proof.
  apply main_process in Hmain as (fl & rest & f0 & lvl & b & s & _ & _ & Hb & Hn & Hr & Hst & Hh & _).
  split.
  - assert (Hs : Server.s_cfg (p_server p) = Endpoint.b_cfg b /\
      Server.s_vpnHandler (p_server p) = vpn (Endpoint.b_handler b)).
    { unfold Server.Run, Server.startHTTP2 in Hr. destruct configure, listen; try done.
      assert (Hp : Server.s_cfg (p_server p) = Server.s_cfg s /\
                   Server.s_vpnHandler (p_server p) = Server.s_vpnHandler s).
      { cbn [mbind res_bind] in Hr. by destruct (Config.QUIC _); injection Hr as <-. }
      destruct Hp as [-> ->]. unfold Server.New in Hn.
      destruct (Config.LoadHosts _ _ _) as [hosts|]; [|done]. cbn [mbind res_bind] in Hn.
      destruct (Server.TLSManager_Load _ _ _) as [mgr [e|]]; [done|]. by injection Hn as <-. }
    exists b. destruct Hs as [Hs1 Hs2]. rewrite <- Hs1, <- Hs2.
    assert (He : Server.s_cfg (p_server (run p evs)) = Server.s_cfg (p_server p) /\
      Server.s_vpnHandler (p_server (run p evs)) = Server.s_vpnHandler (p_server p)).
    { induction evs as [|ev evs IH] using rev_ind; [done|]. rewrite (process_snoc toml_hosts pair).
      destruct (step_server toml_hosts pair (run p evs) ev) as [-> ->]. done. }
    destruct He as [-> ->]. split_and!; eauto.
  - cbn. unfold Process.step, alive. rewrite Hst. cbn. by rewrite Hh, Hst.
Qed.

(** The status of a failed start: 0 exactly when help was asked for, 2 exactly
    when the flags do not parse, 1 for everything else. *)
Theorem start_exit_status (f : fs) (args : list string) (icmp : bool) (configure listen : option string) (code : Z)
  (Hmain : main f args icmp configure listen = inr code) :
  (code = 0 <-> Parse main_flags args = Help) /\
  (code = 2 <-> exists m, Parse main_flags args = Bad m) /\ 0 <= code <= 2.
Proof.
  unfold Process.main in Hmain. destruct (Parse main_flags args) as [fl rest| |m];
    [|injection Hmain as <-; naive_solver lia|injection Hmain as <-; naive_solver lia].
  assert (code = 1) as ->; [|naive_solver lia].
  destruct (length rest <? 2)%nat; [by injection Hmain|].
  destruct (setupLogger _ _ _) as [f' [lvl|]]; [|by injection Hmain].
  destruct (bring_up _ _ _ _ _ _ _ _ _ _ _ _ _) as [[s fl']|]; [done|by injection Hmain].
Qed.
End properties.

(** ** Witness: 150 bytes counted, then a signal *)

#[local] Instance ex_tables : UnicodeTables := {| uni_IsPrint := fun _ => false |}.
#[local] Instance ex_init : MemInit := {| mem_cols := None; mem_rows := ∅; mem_up := true |}.

Definition ex_hosts : Config.HostsConfig :=
  {| Config.MainHosts := []; Config.PingHosts := []; Config.SpeedtestHosts := []; Config.ReverseProxyHosts := [] |}.
Definition ex_fs : fs := {| fs_files := {[ "vpn.toml" := "text"; "hosts.toml" := "hosts" ]}; fs_locked := ∅; fs_full := ∅ |}.
Definition ex_main : process nat string + Z :=
  main (DB := mem_db) (fun _ => Err "") (fun _ => Ok ex_hosts) (fun _ => Err "") (fun _ => Ok Endpoint.ex_cfg)
    (fun _ => Ok []) (fun _ => Ok Endpoint.ex_vpn) (fun c _ => Ok c) (fun _ w _ resp => (w, resp))
    ex_fs ["-l"; "debug"; "vpn.toml"; "hosts.toml"] false None None.
Definition ex_conn : ConnTracker.Conn := {| ConnTracker.c_id := 1; ConnTracker.c_addr := "198.51.100.7:4000" |}.
Definition ex_events : list (event fs) :=
  [LoopReady; Traffic (ConnTracker.ORegister "ann" ex_conn 5); Traffic (ConnTracker.OAdd ex_conn 100 50); Tick;
   Write (Some "database is locked"); Terminate; Traffic (ConnTracker.OAdd ex_conn 3 4)].

Abbreviation ex_run := (run (fun _ => Ok ex_hosts) (fun c _ => Ok c)).
Abbreviation ex_ops := (ops_of (fun _ => Ok ex_hosts) (fun c _ => Ok c)).

(** The parts of the running example the theorem asks for. *)
Definition ex_ready (r : process nat string + Z) : bool :=
  match r with
  | inl p => p_flusher p && alive (ex_run p ex_events) && negb (alive (ex_run p (ex_events ++ [ShutdownEnds None])))
             && bool_decide (ConnTracker.counted "ann" (ex_ops p ex_events) = 157)
             && bool_decide (p_inflight (ex_run p ex_events) = []) && (lost (ex_run p ex_events) "ann" =? 150)
             && forallb (fun o => match o with ConnTracker.OAdd _ i out => (0 <=? i) && (0 <=? out)
                                             | ConnTracker.OReset _ => false | _ => true end) (ex_ops p ex_events)
  | inr _ => false
  end.

Lemma ex_main_ready : ex_ready ex_main = true.
Proof. vm_compute. reflexivity. Qed.

Lemma ex_ready_process : exists p, ex_main = inl p /\ p_flusher p = true /\
  alive (ex_run p ex_events) = true /\ alive (ex_run p (ex_events ++ [ShutdownEnds None])) = false /\
  ConnTracker.counted "ann" (ex_ops p ex_events) = 157 /\ p_inflight (ex_run p ex_events) = [] /\
  lost (ex_run p ex_events) "ann" = 150 /\ Forall (ConnTracker.op_ok "ann") (ex_ops p ex_events).
Proof.
  pose proof ex_main_ready as H. destruct ex_main as [p|z]; [|done]. exists p. cbn [ex_ready] in H.
  rewrite !andb_true_iff, !bool_decide_eq_true, negb_true_iff, Z.eqb_eq in H.
  destruct H as ((((((H1 & H2) & H3) & H4) & H5) & H6) & H7). split_and!; try done.
  rewrite forallb_forall in H7. apply Forall_forall. intros o Ho. apply list_elem_of_In, H7 in Ho.
  destruct o; cbn; try done. apply andb_true_iff in Ho as [Hi%Z.leb_le Ho%Z.leb_le]. done.
Qed.

