(* ===== verification/Accounts.v ===== *)
(** The accounts, whatever store keeps them: an abstract map that the admin
    package's stores refine operation by operation, as the admin API reaches
    them through the adapter of cmd/endpoint/main.go, and from which the running
    stores of internal/auth/store answer the authenticator: the database at once,
    the credentials file from the last poll. *)
From S2P Require Import Prelude GoStrings GoNet GoOS GoHttp SqlDb ConnTracker.
From S2P Require AuthStore Auth AdminStore AdminApi Endpoint.
#[local] Open Scope Z_scope.
#[local] Existing Instances Endpoint.adapter_store AdminStore.sqlite_store AuthStore.sqlite_user_store
  AuthStore.file_user_store.

(** ** The abstract machine *)

(** A store without lifecycle columns keeps [None]. *)
Record life := { l_enabled : bool; l_expires : Z; l_limit : Z; l_used : Z }.
Record account := { ac_password : string; ac_max_devices : Z; ac_life : option life }.
Abbreviation accounts := (gmap string account).

#[export] Instance life_eq_dec : EqDecision life.
Proof. solve_decision. Defined.
#[export] Instance account_eq_dec : EqDecision account.
Proof. solve_decision. Defined.

Inductive edit :=
| Add (u pw : string)
| Delete (u : string)
| SetPassword (u pw : string)
| SetMaxDevices (u : string) (n : Z)
| SetEnabled (u : string) (b : bool)
| SetExpires (u : string) (at_unix : Z)
| SetLimit (u : string) (bytes : Z)
| ResetTraffic (u : string).

Definition edited (e : edit) : string :=
  match e with
  | Add u _ | Delete u | SetPassword u _ | SetMaxDevices u _ | SetEnabled u _ | SetExpires u _
  | SetLimit u _ | ResetTraffic u => u
  end.

Definition with_life (g : life -> life) (a : account) : option account :=
  l ← ac_life a;
  Some {| ac_password := ac_password a; ac_max_devices := ac_max_devices a; ac_life := Some (g l) |}.

(** What an edit makes of an account; [None] when it cannot be made. *)
Definition change (e : edit) (a : account) : option account :=
  match e with
  | Add _ _ | Delete _ => None
  | SetPassword _ pw =>
      Some {| ac_password := pw; ac_max_devices := ac_max_devices a; ac_life := ac_life a |}
  | SetMaxDevices _ n =>
      Some {| ac_password := ac_password a; ac_max_devices := n; ac_life := ac_life a |}
  | SetEnabled _ b => with_life (fun l => {| l_enabled := b; l_expires := l_expires l;
      l_limit := l_limit l; l_used := l_used l |}) a
  | SetExpires _ x => with_life (fun l => {| l_enabled := l_enabled l; l_expires := x;
      l_limit := l_limit l; l_used := l_used l |}) a
  | SetLimit _ n => with_life (fun l => {| l_enabled := l_enabled l; l_expires := l_expires l;
      l_limit := n; l_used := l_used l |}) a
  | ResetTraffic _ => with_life (fun l => {| l_enabled := l_enabled l; l_expires := l_expires l;
      l_limit := l_limit l; l_used := 0 |}) a
  end.

(** One edit: the map after it, and whether it was made.  [nl] is the lifecycle
    of a new account. *)
Definition spec_edit (nl : option life) (m : accounts) (e : edit) : accounts * bool :=
  match m !! edited e, e with
  | None, Add u pw => (<[u := {| ac_password := pw; ac_max_devices := 0; ac_life := nl |}]> m, true)
  | None, _ | Some _, Add _ _ => (m, false)
  | Some _, Delete u => (delete u m, true)
  | Some a, _ => match change e a with
                 | Some a' => (<[edited e := a']> m, true)
                 | None => (m, false)
                 end
  end.

(** How a store differs from another: the lifecycle of a new account, the device
    limit it keeps for one that is asked for, the edits it takes at all, and
    whether the endpoint asks it or answers from a copy. *)
Record policy := { new_life : option life; keeps : Z -> Z; takes : edit -> bool; live : bool }.

Definition kept (p : policy) (e : edit) : edit :=
  match e with SetMaxDevices u n => SetMaxDevices u (keeps p n) | _ => e end.

Definition spec_step (p : policy) (m : accounts) (e : edit) : accounts * bool :=
  if takes p e then spec_edit (new_life p) m (kept p e) else (m, false).

(** What happens to the accounts: an edit, or the tick on which the endpoint's
    store reads its file again. *)
Inductive event := Edit (e : edit) | Poll.

(** The accounts kept and those the endpoint answers from. *)
Record view := { v_kept : accounts; v_seen : accounts }.

Definition spec_event (p : policy) (v : view) (ev : event) : view * list bool :=
  match ev with
  | Edit e => let '(m, ok) := spec_step p (v_kept v) e in
              ({| v_kept := m; v_seen := if live p then m else v_seen v |}, [ok])
  | Poll => ({| v_kept := v_kept v; v_seen := v_kept v |}, [])
  end.

Fixpoint spec_run (p : policy) (v : view) (evs : list event) : view * list bool :=
  match evs with
  | [] => (v, [])
  | ev :: evs => let '(v, ok) := spec_event p v ev in
                 let '(v, oks) := spec_run p v evs in (v, ok ++ oks)
  end.

(** An account as List gives it. *)
Definition entry_of (u : string) (a : account) : AdminStore.credEntry :=
  let l := default {| l_enabled := false; l_expires := 0; l_limit := 0; l_used := 0 |} (ac_life a) in
  {| AdminStore.Username := u; AdminStore.Password := ac_password a;
     AdminStore.MaxDevices := ac_max_devices a; AdminStore.Enabled := l_enabled l;
     AdminStore.ExpiresAt := l_expires l; AdminStore.TrafficLimit := l_limit l;
     AdminStore.TrafficUsed := l_used l |}.

(** ** The edits on a store *)

Section perform.
Context {S : Type} `{AdminStore.UserStore S}.

(** Through the adapter, as the handlers of the admin API call it. *)
Definition perform (s : S) (t : ConnTracker) (e : edit) : S * ConnTracker * option string :=
  let a := {| Endpoint.ad_store := s |} in
  let plain (r : Endpoint.adminStoreAdapter S * option string) := (Endpoint.ad_store r.1, t, r.2) in
  match e with
  | Add u pw => plain (AdminApi.ad_Add a u pw)
  | Delete u => plain (AdminApi.ad_Delete a u)
  | SetPassword u pw => plain (AdminApi.ad_ChangePassword a u pw)
  | SetMaxDevices u n => plain (AdminApi.ad_SetMaxDevices a u n)
  | SetEnabled u b => plain (Endpoint.adapter_SetEnabled a u b)
  | SetExpires u x => plain (Endpoint.adapter_SetExpiresAt a u x)
  | SetLimit u n => plain (Endpoint.adapter_SetTrafficLimit a u n)
  | ResetTraffic u => let '(a, t, err) := Endpoint.adapter_ResetTraffic a t u in
                      (Endpoint.ad_store a, t, err)
  end.

End perform.

Definition made (err : option string) : bool := match err with None => true | Some _ => false end.

(** ** The two interfaces *)

(** What the endpoint's store answers for the accounts. *)
Definition answers {A} `{AuthStore.UserStore A} (a : A) (m : accounts) : Prop :=
  forall u,
    AuthStore.GetPassword a u = Ok (from_option ac_password "" (m !! u)) /\
    (forall q, AuthStore.GetMaxDevices = Some q ->
       q a u = Ok (from_option ac_max_devices 0 (m !! u))) /\
    match AuthStore.GetLifecycle with
    | None => m !! u ≫= ac_life = None
    | Some q => match m !! u with
                | Some ac => exists l, ac_life ac = Some l /\
                               q a u = Ok (l_enabled l, l_expires l, l_limit l, l_used l)
                | None => q a u = Ok (false, 0, 0, 0)
                end
    end.

(** What List gives. *)
Definition listed {S} `{AdminStore.UserStore S} (s : S) (m : accounts) : Prop :=
  exists es, AdminStore.us_List s = Ok es /\
    forall e, e ∈ es <-> exists a, m !! AdminStore.Username e = Some a /\
                            e = entry_of (AdminStore.Username e) a.

(** The running server: the admin store, the store of its authenticator, and
    the tracker. *)
Record server (S A : Type) := { sv_admin : S; sv_auth : A; sv_tracker : ConnTracker }.
Arguments sv_admin {S A}.
Arguments sv_auth {S A}.
Arguments sv_tracker {S A}.

(** An admin store [S] and the endpoint's store [A] over the same data: [asked]
    is what the endpoint's store sees when it is queried, and [polled] what a
    tick makes of it. *)
Class AccountStore (S A : Type) `{AdminStore.UserStore S} `{AuthStore.UserStore A} := {
  the_policy : policy;
  holds : S -> accounts -> Prop;
  linked : S -> A -> Prop;
  storable : edit -> Prop;
  asked : S -> A -> A;
  polled : S -> A -> A;
  holds_step s m t e : holds s m -> storable e ->
    let r := perform s t e in
    let r' := spec_step the_policy m e in
    holds r.1.1 r'.1 /\ made r.2 = r'.2;
  holds_list s m : holds s m -> listed s m;
  linked_step s a t e : linked s a -> linked (perform s t e).1.1 a;
  linked_poll s a m : holds s m -> linked s a -> linked s (polled s a) /\ answers (asked s (polled s a)) m;
  asked_step s a t e m : holds s m -> storable e -> linked s a ->
    let s' := (perform s t e).1.1 in
    if live the_policy then answers (asked s' a) (spec_step the_policy m e).1
    else asked s' a = asked s a;
}.

Section running.
Context {S A : Type} `{AccountStore S A}.

Definition serve (v : server S A) (ev : event) : server S A * list (option string) :=
  match ev with
  | Edit e => let '(s, t, err) := perform (sv_admin v) (sv_tracker v) e in
              ({| sv_admin := s; sv_auth := sv_auth v; sv_tracker := t |}, [err])
  | Poll => ({| sv_admin := sv_admin v; sv_auth := polled (sv_admin v) (sv_auth v); sv_tracker := sv_tracker v |}, [])
  end.

Fixpoint run (v : server S A) (evs : list event) : server S A * list (option string) :=
  match evs with
  | [] => (v, [])
  | ev :: evs => let '(v, err) := serve v ev in
                 let '(v, errs) := run v evs in (v, err ++ errs)
  end.

(** The store the authenticator asks. *)
Definition auth_store (v : server S A) : A := asked (sv_admin v) (sv_auth v).

Definition event_storable (ev : event) : Prop := match ev with Edit e => storable e | Poll => True end.

(** The server agrees with the abstract accounts. *)
Definition agrees (v : server S A) (w : view) : Prop :=
  holds (sv_admin v) (v_kept w) /\ linked (sv_admin v) (sv_auth v) /\ answers (auth_store v) (v_seen w).

Lemma serve_simulates v w ev :
  agrees v w -> event_storable ev ->
  let r := serve v ev in
  let r' := spec_event the_policy w ev in
  agrees r.1 r'.1 /\ made <$> r.2 = r'.2.
Proof.
  intros (Hh & Hl & Ha) Hev. unfold agrees, auth_store in *. destruct ev as [e|]; cbn -[perform spec_step] in *.
  - pose proof (holds_step _ _ (sv_tracker v) e Hh Hev) as Hs.
    pose proof (linked_step _ _ (sv_tracker v) e Hl) as Hl'.
    pose proof (asked_step _ _ (sv_tracker v) e _ Hh Hev Hl) as Ha'.
    cbv zeta in Hs, Ha'. destruct (perform (sv_admin v) (sv_tracker v) e) as [[s t] err].
    destruct (spec_step the_policy (v_kept w) e) as [m ok]. cbn in *. destruct Hs as [Hs <-].
    split; [|done]. split_and!; [done..|]. destruct (live the_policy); [done|]. by rewrite Ha'.
  - destruct (linked_poll _ _ _ Hh Hl). done.
Qed.

(** The simulation, over histories. *)
Lemma run_simulates evs v w :
  agrees v w -> Forall event_storable evs ->
  let r := run v evs in
  let r' := spec_run the_policy w evs in
  agrees r.1 r'.1 /\ made <$> r.2 = r'.2.
Proof.
  intros Hv Hevs. cbn zeta. revert v w Hv. induction Hevs as [|ev evs Hev _ IH]; intros v w Hv; [done|]. cbn [run spec_run].
  pose proof (serve_simulates v w ev Hv Hev) as Hstep. cbv zeta in Hstep.
  destruct (serve v ev) as [v1 err], (spec_event the_policy w ev) as [w1 ok]. cbn in Hstep. destruct Hstep as [Hv1 <-].
  specialize (IH v1 w1 Hv1).
  destruct (run v1 evs) as [v2 errs], (spec_run the_policy w1 evs) as [w2 oks]. cbn in *.
  destruct IH as [Hv2 <-]. by rewrite fmap_app.
Qed.

(** What follows for the runs of a server. *)
Lemma run_refines evs v w :
  agrees v w -> Forall event_storable evs ->
  let r := run v evs in
  let r' := spec_run the_policy w evs in
  made <$> r.2 = r'.2 /\ listed (sv_admin r.1) (v_kept r'.1) /\ answers (auth_store r.1) (v_seen r'.1).
Proof.
  intros Hv Hevs. destruct (run_simulates evs v w Hv Hevs) as [(Hs & _ & Ha) Hmade].
  cbn zeta. split_and!; [done|by apply holds_list|done].
Qed.
End running.

(** ** The SQLite table *)

Section sqlite.
Context {UT : UnicodeTables} {DB : Type} `{SqlTable DB}.

Definition account_of_row (r : row) : account :=
  {| ac_password := row_password r; ac_max_devices := row_max_devices r;
     ac_life := Some {| l_enabled := negb (row_enabled r =? 0); l_expires := row_expires_at r;
                        l_limit := u64 (row_traffic_limit r); l_used := u64 (row_traffic_used r) |} |}.

Definition sqlite_holds (s : AdminStore.sqliteUserStore DB) (m : accounts) : Prop :=
  AdminStore.ready s /\ m = account_of_row <$> AdminStore.rows s.

(** A limit is a uint64. *)
Definition sqlite_storable (e : edit) : Prop :=
  match e with SetLimit _ n => in_u64 n | _ => True end.

Definition sqlite_life : option life := ac_life (account_of_row (default_row "")).

(** database/sql takes no integer from 2^63. *)
Definition sqlite_policy : policy := {|
  new_life := sqlite_life; keeps n := n; live := true;
  takes e := match e with SetLimit _ n => n <? 2 ^ 63 | _ => true end;
|}.

(** What an update of a row is on accounts. *)
Lemma row_updated_step s m u a r e :
  sqlite_holds s m -> edited e = u ->
  (forall x, change e (account_of_row x) = Some (account_of_row (assign a x))) ->
  AdminStore.row_updated AdminStore.list_columns s u (assign a) r ->
  let r' := spec_edit sqlite_life m e in sqlite_holds r.1 r'.1 /\ made r.2 = r'.2.
Proof.
  intros [Hs ->] <- Hch [Hs' Hu]. unfold spec_edit. cbn zeta. rewrite lookup_fmap.
  destruct (AdminStore.rows s !! edited e) as [x|] eqn:Ex; cbn [fmap option_fmap option_map] in *.
  - destruct Hu as [-> Hrows]. specialize (Hch x).
    assert (Hm : (match change e (account_of_row x) with
                  | Some a' => (<[edited e := a']> (account_of_row <$> AdminStore.rows s), true)
                  | None => (account_of_row <$> AdminStore.rows s, false) end)
                 = (account_of_row <$> AdminStore.rows r.1, true))
      by (rewrite Hch, Hrows, fmap_insert; done).
    destruct e; try discriminate Hch; rewrite Hm; (split; [by split|done]).
  - destruct Hu as [-> Hrows]. destruct e; try discriminate (Hch (default_row ""));
      cbn; (split; [split; [done|by rewrite Hrows]|done]).
Qed.

Lemma sqlite_update_step s m a e :
  sqlite_holds s m -> (forall x, change e (account_of_row x) = Some (account_of_row (assign a x))) ->
  (forall r, no_overflow a r) ->
  let r := AdminStore.sqlite_update s a (edited e) in
  let r' := spec_edit sqlite_life m e in
  sqlite_holds r.1 r'.1 /\ made r.2 = r'.2.
Proof.
  intros Hs Hch Hfit. eapply row_updated_step; [done|done|done|].
  apply AdminStore.sqlite_update_spec; [apply AdminStore.assigned_in_columns|apply Hfit|by destruct Hs].
Qed.

Lemma sqlite_step s m t e :
  sqlite_holds s m -> sqlite_storable e ->
  let r := perform s t e in
  let r' := spec_step sqlite_policy m e in
  sqlite_holds r.1.1 r'.1 /\ made r.2 = r'.2.
Proof.
  intros Hs He. unfold spec_step. cbn [sqlite_policy takes new_life].
  change (kept sqlite_policy e) with (match e with SetMaxDevices u n => SetMaxDevices u n | _ => e end).
  destruct e as [u pw|u|u pw|u n|u b|u x|u n|u].
  - destruct Hs as [Hr ->]. pose proof (AdminStore.sqlite_Add_spec _ s u pw Hr) as [Hr' Ha].
    unfold spec_edit. cbn in *. rewrite lookup_fmap.
    destruct (AdminStore.rows s !! u); destruct Ha as [Herr Hrows]; cbn.
    + destruct Herr as [msg ->]. split; [split; [done|by rewrite Hrows]|done].
    + rewrite Herr. split; [split; [done|]|done]. by rewrite Hrows, fmap_insert.
  - destruct Hs as [Hr ->]. pose proof (AdminStore.sqlite_Delete_spec _ s u Hr) as (Hr' & Hrows & Herr).
    unfold spec_edit. cbn in *. rewrite lookup_fmap, Herr.
    destruct (AdminStore.rows s !! u) eqn:Eu; cbn; (split; [split; [done|]|done]).
    + by rewrite Hrows, fmap_delete.
    + by rewrite Hrows, delete_id.
  - by apply (sqlite_update_step s m (set_password pw) (SetPassword u pw)).
  - by apply (sqlite_update_step s m (set_max_devices n) (SetMaxDevices u n)).
  - apply (sqlite_update_step s m (set_enabled (if b then 1 else 0)) (SetEnabled u b)); [done|by destruct b|done].
  - by apply (sqlite_update_step s m (set_expires_at x) (SetExpires u x)).
  - cbn in He. unfold in_u64 in He. destruct (Z.ltb_spec n (2 ^ 63)).
    2: { cbn. unfold AdminStore.sqlite_SetTrafficLimit, in_int64.
         destruct (Z.ltb_spec n (2 ^ 63)); [lia|]. rewrite andb_false_r. done. }
    assert (Hstep : AdminStore.sqlite_SetTrafficLimit s u n = AdminStore.sqlite_update s (set_traffic_limit n) u).
    { unfold AdminStore.sqlite_SetTrafficLimit, in_int64.
      by destruct (Z.leb_spec (- 2 ^ 63) n), (Z.ltb_spec n (2 ^ 63)); try lia. }
    cbn. rewrite Hstep. apply (sqlite_update_step s m (set_traffic_limit n) (SetLimit u n)); [done|..|done].
    intros x. cbn. unfold account_of_row. cbn. by rewrite (u64_id n) by (unfold in_u64; lia).
  - by apply (sqlite_update_step s m (set_traffic_used 0) (ResetTraffic u)).
Qed.

Lemma sqlite_list s m :
  sqlite_holds s m -> listed s m.
Proof.
  intros [(Hu & cs & Hc & Hsub) ->].
  destruct (select_all_ok (AdminStore.sus_db s) cs AdminStore.list_columns Hu Hc Hsub) as (l & Hl & _ & Hin).
  unfold listed. cbn. unfold AdminStore.sqlite_List. rewrite Hl. cbn. eexists. split; [done|]. intros e.
  rewrite list_elem_of_In, in_map_iff. setoid_rewrite <- list_elem_of_In. setoid_rewrite lookup_fmap_Some. split.
  - intros ([v x] & <- & Hx). cbn. eexists. split; [exists x; split; [done|by apply Hin]|done].
  - intros (a & (x & <- & Hx) & He). exists (AdminStore.Username e, x). split; [done|by apply Hin].
Qed.

Lemma sqlite_answers s m :
  sqlite_holds s m -> answers {| AuthStore.sq_db := AdminStore.sus_db s |} m.
Proof.
  intros [(Hu & cs & Hc & Hsub) ->] u.
  assert (Hsel : forall cols, cols ⊆ AdminStore.list_columns ->
    sql_SelectUser (AdminStore.sus_db s) cols u = Ok (AdminStore.rows s !! u)).
  { intros cols Hcols. apply (select_ok _ cs); [done..|]. by trans AdminStore.list_columns. }
  rewrite lookup_fmap. split_and!.
  - cbn. unfold AuthStore.sqlite_GetPassword. cbn. rewrite Hsel by (vm_compute; set_solver).
    by destruct (AdminStore.rows s !! u).
  - intros q Hq. injection Hq as <-. unfold AuthStore.sqlite_GetMaxDevices. cbn.
    rewrite Hsel by (vm_compute; set_solver). by destruct (AdminStore.rows s !! u).
  - cbn. unfold AuthStore.sqlite_GetLifecycle. cbn. rewrite Hsel by (vm_compute; set_solver).
    destruct (AdminStore.rows s !! u); [|done]. by eexists.
Qed.

(** Both stores are connections to one database. *)
#[export] Program Instance sqlite_accounts :
  AccountStore (AdminStore.sqliteUserStore DB) (AuthStore.SQLiteStore DB) := {
  the_policy := sqlite_policy;
  holds := sqlite_holds;
  linked _ _ := True;
  storable := sqlite_storable;
  asked s _ := {| AuthStore.sq_db := AdminStore.sus_db s |};
  polled _ a := a;
  holds_step := sqlite_step;
  holds_list := sqlite_list;
}.
Next Obligation. done. Qed.
Next Obligation. intros s a m Hs _. split; [done|by apply sqlite_answers]. Qed.
Next Obligation. intros s a t e m Hs He _. cbn -[perform]. apply sqlite_answers. by apply sqlite_step. Qed.
End sqlite.

(** ** The credentials file *)

(** Text that needs no escape but those of TOML itself. *)
Definition plain_char (c : ascii) : bool := (32 <=? aval c) && (aval c <=? 126).
Definition plain (s : string) : Prop :=
  Forall (fun c => plain_char c = true) (String.list_ascii_of_string s).

(** What the file can keep of an entry. *)
Definition filed (e : AdminStore.credEntry) : Prop :=
  plain (AdminStore.Username e) /\ plain (AdminStore.Password e) /\ 0 <= AdminStore.MaxDevices e < 2 ^ 63 /\
  e = AdminStore.file_entry (AdminStore.Username e) (AdminStore.Password e) (AdminStore.MaxDevices e).

Definition client_of (e : AdminStore.credEntry) : AuthStore.fileClient :=
  {| AuthStore.fc_Username := AdminStore.Username e; AuthStore.fc_Password := AdminStore.Password e;
     AuthStore.fc_MaxDevices := AdminStore.MaxDevices e |}.

(** The TOML decoder, into the structs of the two packages: it reads what
    [saveCreds] writes, and the structs have the same keys. *)
Class CredsCodec {UT : UnicodeTables} (toml_creds : string -> res (list AdminStore.credEntry))
    (toml_clients : string -> res (list AuthStore.fileClient)) : Prop := {
  creds_read es : Forall filed es -> toml_creds (AdminStore.render_creds es) = Ok es;
  clients_read s : toml_clients s = (fun es => map client_of es) <$> toml_creds s;
}.

Section file.
Context {UT : UnicodeTables} (toml_creds : string -> res (list AdminStore.credEntry))
  (toml_clients : string -> res (list AuthStore.fileClient)) `{!CredsCodec toml_creds toml_clients}.
#[local] Instance the_file_store : AdminStore.UserStore AdminStore.fileUserStore := AdminStore.file_store toml_creds.

Definition file_account (e : AdminStore.credEntry) : account :=
  {| ac_password := AdminStore.Password e; ac_max_devices := AdminStore.MaxDevices e; ac_life := None |}.

Definition file_map (es : list AdminStore.credEntry) : accounts :=
  list_to_map (map (fun e => (AdminStore.Username e, file_account e)) es).

Definition file_holds (s : AdminStore.fileUserStore) (m : accounts) : Prop :=
  writable (AdminStore.fus_fs s) (AdminStore.fus_path s) /\
  exists es, AdminStore.loadCreds toml_creds (AdminStore.fus_fs s) (AdminStore.fus_path s) = Ok es /\
    NoDup (map AdminStore.Username es) /\ Forall filed es /\ m = file_map es.

Definition file_storable (e : edit) : Prop :=
  match e with
  | Add u pw | SetPassword u pw => plain u /\ plain pw
  | SetMaxDevices _ n => in_int64 n = true
  | _ => True
  end.

(** A limit that is not positive is not written; lifecycle columns there are none. *)
Definition file_policy : policy :=
  {| new_life := None; keeps := Z.max 0; takes _ := true; live := false |}.

Lemma file_map_cons e es : file_map (e :: es) = <[AdminStore.Username e := file_account e]> (file_map es).
Proof. done. Qed.

Lemma file_map_lookup es u :
  file_map es !! u = file_account <$> head (filter (fun e => AdminStore.Username e = u) es).
Proof.
  induction es as [|e es IH]; [done|]. rewrite file_map_cons, filter_cons. case_decide as Hc.
  - subst. by rewrite lookup_insert_eq.
  - by rewrite lookup_insert_ne.
Qed.

Lemma file_map_None es u : file_map es !! u = None <-> u ∉ map AdminStore.Username es.
Proof.
  rewrite file_map_lookup. induction es as [|e es IH]; [cbn; split; [intros _; apply not_elem_of_nil|done]|].
  rewrite filter_cons. cbn [map]. rewrite not_elem_of_cons. case_decide as Hc; [|naive_solver].
  subst. cbn. naive_solver.
Qed.

(** Saving is loading. *)
Lemma saved (s : AdminStore.fileUserStore) es :
  writable (AdminStore.fus_fs s) (AdminStore.fus_path s) -> NoDup (map AdminStore.Username es) ->
  Forall filed es ->
  let r := AdminStore.on_file s (AdminStore.saveCreds (AdminStore.fus_fs s) (AdminStore.fus_path s) es) in
  r.2 = None /\ file_holds r.1 (file_map es).
Proof.
  intros Hl Hnd Hes. unfold AdminStore.saveCreds, AdminStore.on_file. rewrite WriteFile_ok by done. cbn.
  split; [done|]. split; [done|]. exists es. split; [|done]. cbn.
  unfold AdminStore.loadCreds, file_exists. cbn. rewrite lookup_insert_eq, bool_decide_true by eauto. cbn.
  unfold DecodeFile. rewrite ReadFile_written by apply Hl. by apply creds_read.
Qed.

Lemma filed_entry u pw n : plain u -> plain pw -> 0 <= n < 2 ^ 63 -> filed (AdminStore.file_entry u pw n).
Proof. done. Qed.

Lemma fresh_name es u :
  existsb (fun e => bool_decide (AdminStore.Username e = u)) es = false <-> u ∉ map AdminStore.Username es.
Proof.
  rewrite list_elem_of_In, in_map_iff, <- not_true_iff_false, existsb_exists.
  setoid_rewrite bool_decide_eq_true. naive_solver.
Qed.

Lemma file_map_snoc es e : AdminStore.Username e ∉ map AdminStore.Username es ->
  file_map (es ++ [e]) = <[AdminStore.Username e := file_account e]> (file_map es).
Proof.
  intros Hn. unfold file_map. rewrite map_app. cbn [map]. apply list_to_map_snoc.
  by rewrite <- list_fmap_compose.
Qed.

Lemma file_map_filter es u :
  file_map (filter (fun e => AdminStore.Username e <> u) es) = delete u (file_map es).
Proof.
  apply map_eq. intros v. rewrite file_map_lookup. destruct (decide (u = v)) as [<-|Hne].
  - rewrite lookup_delete_eq. induction es as [|e es IH]; [done|]. rewrite filter_cons.
    case_decide as Hc; [|done]. rewrite filter_cons. by case_decide.
  - rewrite lookup_delete_ne, file_map_lookup by done. f_equal. f_equal.
    induction es as [|e es IH]; [done|]. rewrite !filter_cons.
    repeat case_decide; rewrite ?filter_cons; repeat case_decide; congruence.
Qed.

Lemma filter_same es u : u ∉ map AdminStore.Username es ->
  filter (fun x => AdminStore.Username x <> u) es = es.
Proof.
  induction es as [|x es IH]; [done|]. cbn [map]. rewrite not_elem_of_cons. intros [Hne Hn].
  rewrite filter_cons_True by congruence. by rewrite IH.
Qed.

Lemma filter_shorter es u : u ∈ map AdminStore.Username es ->
  (length (filter (fun x => AdminStore.Username x <> u) es) =? length es)%nat = false.
Proof.
  intros Hin. apply Nat.eqb_neq. enough (length (filter (fun x => AdminStore.Username x <> u) es) < length es)%nat by lia.
  apply list_elem_of_In, in_map_iff in Hin as (x & Hx & Hin). apply list_elem_of_In in Hin.
  apply (length_filter_lt _ _ x); [done|tauto].
Qed.

Lemma NoDup_map_filter es u : NoDup (map AdminStore.Username es) ->
  NoDup (map AdminStore.Username (filter (fun x => AdminStore.Username x <> u) es)).
Proof.
  intros H. refine (sublist_NoDup _ _ H _). apply (fmap_sublist AdminStore.Username), sublist_filter.
Qed.

(** The loop that updates the first entry of a name. *)
Lemma update_first_map es u g :
  NoDup (map AdminStore.Username es) ->
  (forall e, AdminStore.Username (g e) = AdminStore.Username e) ->
  match AdminStore.update_first u g es with
  | None => file_map es !! u = None
  | Some es' => exists e, file_map es !! u = Some (file_account e) /\ e ∈ es /\ AdminStore.Username e = u /\
      map AdminStore.Username es' = map AdminStore.Username es /\
      file_map es' = <[u := file_account (g e)]> (file_map es) /\
      (Forall filed es -> filed (g e) -> Forall filed es')
  end.
Proof.
  intros Hnd Hg. induction es as [|e es IH]; [done|]. cbn in Hnd. apply NoDup_cons in Hnd as [Hn Hnd].
  cbn [AdminStore.update_first]. case_bool_decide as Hc.
  - exists e. subst u. rewrite !file_map_cons, lookup_insert_eq, Hg. cbn [map].
    split_and!; [done|left|done|by rewrite Hg|by rewrite insert_insert_eq|].
    intros [_ Hes]%Forall_cons He. by constructor.
  - specialize (IH Hnd). rewrite file_map_cons.
    destruct (AdminStore.update_first u g es) as [es'|]; cbn [fmap option_fmap option_map];
      rewrite lookup_insert_ne by done; [|done].
    destruct IH as (x & Hx & Hin & Hu & Hnames & Hm & Hf). exists x.
    split_and!; [done|by right|done|cbn; by f_equal| |].
    + by rewrite file_map_cons, Hm, insert_insert_ne.
    + intros [He Hes]%Forall_cons Hgx. constructor; auto.
Qed.

(** Entries written alike are saved alike. *)
Lemma update_first_saved f path u g0 g es :
  (forall x, AdminStore.render_cred (g0 x) = AdminStore.render_cred (g x)) ->
  match AdminStore.update_first u g0 es with
  | Some es => AdminStore.saveCreds f path es
  | None => (f, Some (AdminStore.not_found u))
  end = match AdminStore.update_first u g es with
        | Some es => AdminStore.saveCreds f path es
        | None => (f, Some (AdminStore.not_found u))
        end.
Proof.
  intros Hg. enough (Hr : AdminStore.render_creds <$> AdminStore.update_first u g0 es =
                          AdminStore.render_creds <$> AdminStore.update_first u g es).
  { unfold AdminStore.saveCreds.
    destruct (AdminStore.update_first u g0 es), (AdminStore.update_first u g es); try discriminate Hr; [|done].
    cbn in Hr. injection Hr as ->. done. }
  induction es as [|x es IH]; [done|]. cbn [AdminStore.update_first]. case_bool_decide.
  - cbn. by rewrite Hg.
  - destruct (AdminStore.update_first u g0 es), (AdminStore.update_first u g es); try discriminate IH; [|done].
    injection IH as IH. cbn [fmap option_fmap option_map]. f_equal. unfold AdminStore.render_creds in *. cbn [fold_right].
    by rewrite IH.
Qed.

(** An edit of the entry of a name, made by the loop. *)
Lemma edit_first_step s m e g0 g :
  (forall u pw, e <> Add u pw) -> file_holds s m -> (forall x, AdminStore.Username (g x) = AdminStore.Username x) ->
  (forall x, AdminStore.render_cred (g0 x) = AdminStore.render_cred (g x)) ->
  (forall x, filed x -> filed (g x) /\ change e (file_account x) = Some (file_account (g x))) ->
  let r := AdminStore.on_file s (AdminStore.edit_first toml_creds (AdminStore.fus_fs s) (AdminStore.fus_path s) (edited e) g0) in
  let r' := spec_edit None m e in
  file_holds r.1 r'.1 /\ made r.2 = r'.2.
Proof.
  intros Hk (Hl & es & Hload & Hnd & Hes & ->) Hg Hsame Hch. cbn zeta.
  unfold AdminStore.edit_first. rewrite Hload, update_first_saved with (g := g) by done.
  pose proof (update_first_map es (edited e) g Hnd Hg) as Hu.
  destruct (AdminStore.update_first (edited e) g es) as [es'|].
  - destruct Hu as (x & Hx & Hin & _ & Hnames & Hm & Hf).
    rewrite Forall_forall in Hes. destruct (Hch x (Hes x Hin)) as [Hfx Hc].
    assert (Hr : spec_edit None (file_map es) e = (file_map es', true)).
    { unfold spec_edit. rewrite Hx, Hm. destruct e; try discriminate Hc; by rewrite Hc. }
    rewrite Hr. assert (Hes' : Forall filed es') by (apply Hf; [by apply Forall_forall|done]).
    rewrite <- Hnames in Hnd. destruct (saved s es' Hl Hnd Hes') as [-> Hh]. done.
  - assert (Hr : spec_edit None (file_map es) e = (file_map es, false)).
    { unfold spec_edit. rewrite Hu. destruct e; try done. by destruct (Hk u pw). }
    rewrite Hr. cbn. split; [|done]. split; [done|]. by exists es.
Qed.

(** The edits of the lifecycle are refused. *)
Lemma file_unsupported s m t e :
  file_holds s m ->
  match e with SetEnabled _ _ | SetExpires _ _ | SetLimit _ _ | ResetTraffic _ => True | _ => False end ->
  let r := perform s t e in
  let r' := spec_step file_policy m e in
  file_holds r.1.1 r'.1 /\ made r.2 = r'.2.
Proof.
  intros Hs He. assert (Hr : spec_step file_policy m e = (m, false)).
  { destruct Hs as (_ & es & _ & _ & _ & ->). unfold spec_step, spec_edit. cbn. destruct e; try done; cbn;
      rewrite file_map_lookup; by destruct (head _).
  }
  cbn zeta. rewrite Hr. by destruct e.
Qed.

Lemma file_step s m t e :
  file_holds s m -> file_storable e ->
  let r := perform s t e in
  let r' := spec_step file_policy m e in
  file_holds r.1.1 r'.1 /\ made r.2 = r'.2.
Proof.
  intros Hs He. pose proof Hs as (Hl & es & Hload & Hnd & Hes & Hm). destruct e as [u pw|u|u pw|u n|u b|u x|u n|u].
  - cbn in He. destruct He as [Hu Hpw]. subst m.
    change (let r := AdminStore.on_file s (AdminStore.addUser toml_creds (AdminStore.fus_fs s) (AdminStore.fus_path s) u pw) in
      let r' := spec_edit None (file_map es) (Add u pw) in file_holds r.1 r'.1 /\ made r.2 = r'.2).
    cbn zeta. unfold AdminStore.addUser, spec_edit. rewrite Hload. cbn [edited].
    destruct (existsb _ es) eqn:Eex.
    + destruct (file_map es !! u) eqn:Eu; [done|]. apply file_map_None, fresh_name in Eu. congruence.
    + apply fresh_name in Eex. pose proof (proj2 (file_map_None es u) Eex) as Hn. rewrite Hn.
      assert (Hnew : file_map (es ++ [AdminStore.file_entry u pw 0]) =
        <[u := {| ac_password := pw; ac_max_devices := 0; ac_life := None |}]> (file_map es))
        by by rewrite file_map_snoc.
      rewrite <- Hnew. cbn [fst snd]. destruct (saved s (es ++ [AdminStore.file_entry u pw 0]) Hl) as [-> Hh]; [..|done].
      * rewrite map_app. apply NoDup_app. split_and!; [done| |apply NoDup_singleton].
        intros v Hv. by intros ->%list_elem_of_singleton.
      * apply Forall_app. split; [done|]. by repeat constructor.
  - subst m.
    change (let r := AdminStore.on_file s (AdminStore.deleteUser toml_creds (AdminStore.fus_fs s) (AdminStore.fus_path s) u) in
      let r' := spec_edit None (file_map es) (Delete u) in file_holds r.1 r'.1 /\ made r.2 = r'.2).
    cbn zeta. unfold AdminStore.deleteUser, spec_edit. rewrite Hload. cbn [edited]. rewrite <- (file_map_filter es u).
    destruct (decide (u ∈ map AdminStore.Username es)) as [Hin|Hout].
    + rewrite filter_shorter by done. destruct (file_map es !! u) eqn:Eu; [|by apply file_map_None in Eu].
      destruct (saved s (filter (fun x => AdminStore.Username x <> u) es) Hl) as [Hnone Hh].
      * by apply NoDup_map_filter.
      * rewrite Forall_forall in Hes |- *. intros x Hx. apply list_elem_of_filter in Hx as [_ Hx]. auto.
      * by rewrite Hnone.
    + rewrite filter_same, Nat.eqb_refl by done. apply file_map_None in Hout. by rewrite Hout.
  - apply (edit_first_step s m (SetPassword u pw) (AdminStore.with_password pw) (AdminStore.with_password pw)); [done..|].
    cbn in He. destruct He as [_ Hpw]. intros y (H1 & H2 & H3 & H4). split; [|done].
    do 3 (split; [done|]). by rewrite H4.
  - cbn in He. unfold in_int64 in He. apply andb_true_iff in He as [_ He%Z.ltb_lt].
    apply (edit_first_step s m (SetMaxDevices u (Z.max 0 n)) (AdminStore.with_max_devices n)
      (AdminStore.with_max_devices (Z.max 0 n))); [done..| |].
    + intros x. unfold AdminStore.render_cred. cbn.
      destruct (Z.ltb_spec 0 n), (Z.ltb_spec 0 (Z.max 0 n)); try lia; [|done]. by rewrite Z.max_r by lia.
    + intros y (H1 & H2 & H3 & H4). split; [|done]. do 2 (split; [done|]). split; [cbn; lia|by rewrite H4].
  - by apply file_unsupported.
  - by apply file_unsupported.
  - by apply file_unsupported.
  - by apply file_unsupported.
Qed.

Lemma file_list s m :
  file_holds s m -> listed s m.
Proof.
  intros (_ & es & Hload & Hnd & Hes & ->). exists es. split; [done|]. intros e. clear Hload.
  induction es as [|x es IH]; [cbn; split; [by intros ?%elem_of_nil|by intros (? & ? & ?)]|].
  apply Forall_cons in Hes as [(_ & _ & _ & Hx) Hes]. cbn in Hnd. apply NoDup_cons in Hnd as [Hn Hnd].
  rewrite elem_of_cons, (IH Hnd Hes), file_map_cons. split.
  - intros [->|(a & Ha & He)].
    + exists (file_account x). by rewrite lookup_insert_eq.
    + exists a. split; [|done]. rewrite lookup_insert_ne; [done|]. intros Heq.
      apply Hn. rewrite Heq. destruct (decide (AdminStore.Username e ∈ map AdminStore.Username es)) as [|Hno]; [done|].
      apply file_map_None in Hno. congruence.
  - intros (a & Ha & He). destruct (decide (AdminStore.Username x = AdminStore.Username e)) as [Heq|Hne].
    + left. rewrite Heq, lookup_insert_eq in Ha. injection Ha as <-. rewrite He, Hx, <- Heq. done.
    + right. rewrite lookup_insert_ne in Ha by done. eauto.
Qed.

(** Of distinct names the last entry is the first. *)
Lemma last_of_clients es u : NoDup (map AdminStore.Username es) ->
  (fun c => {| AuthStore.fe_password := AuthStore.fc_Password c; AuthStore.fe_maxDevices := AuthStore.fc_MaxDevices c |})
    <$> AuthStore.last_client u (map client_of es) =
  (fun e => {| AuthStore.fe_password := AdminStore.Password e; AuthStore.fe_maxDevices := AdminStore.MaxDevices e |})
    <$> head (filter (fun e => AdminStore.Username e = u) es).
Proof.
  unfold AuthStore.last_client. induction es as [|x es IH]; [done|]. cbn [map].
  intros [Hn Hnd]%NoDup_cons. rewrite !filter_cons. cbn [AuthStore.fc_Username client_of].
  case_decide as Hc; [|by apply IH]. subst u.
  assert (Hnil : filter (fun c => AuthStore.fc_Username c = AdminStore.Username x) (map client_of es) = []).
  { clear IH Hnd. induction es as [|y es IH]; [done|]. cbn [map] in *. apply not_elem_of_cons in Hn as [Hne Hn].
    rewrite filter_cons_False by (cbn; congruence). by apply IH. }
  by rewrite Hnil.
Qed.

(** The running store reads the admin store's file; while there is none it has
    no users. *)
Definition file_linked (s : AdminStore.fileUserStore) (a : AuthStore.FileStore) : Prop :=
  AuthStore.fst_path a = AdminStore.fus_path s /\
  (fs_files (AdminStore.fus_fs s) !! AdminStore.fus_path s = None -> AuthStore.fst_users a = ∅).

Lemma file_reads s m a : file_holds s m -> file_linked s a ->
  answers (AuthStore.watch_tick toml_clients (AdminStore.fus_fs s) a) m.
Proof.
  intros ([Hl _] & es & Hload & Hnd & Hes & ->) [Hp Habs].
  set (a' := AuthStore.watch_tick toml_clients (AdminStore.fus_fs s) a).
  assert (Hu : forall u, AuthStore.fst_users a' !! u =
    (fun e => {| AuthStore.fe_password := AdminStore.Password e; AuthStore.fe_maxDevices := AdminStore.MaxDevices e |})
      <$> head (filter (fun e => AdminStore.Username e = u) es)).
  { intros u. unfold a', AuthStore.watch_tick, AuthStore.file_reload. rewrite Hp.
    unfold AdminStore.loadCreds in Hload.
    unfold DecodeFile in *. destruct (file_exists _ _) eqn:Ef; cbn [negb] in Hload.
    - destruct (ReadFile _ _) as [text|]; cbn in Hload |- *; [|done]. rewrite clients_read, Hload. cbn.
      rewrite AuthStore.client_map_last. by apply last_of_clients.
    - injection Hload as <-. unfold file_exists in Ef. apply bool_decide_eq_false in Ef.
      unfold ReadFile. rewrite bool_decide_false by done.
      destruct (fs_files _ !! _); [by destruct Ef|]. cbn. by rewrite Habs. }
  intros u. rewrite file_map_lookup. cbn. unfold AuthStore.file_GetPassword, AuthStore.file_GetMaxDevices, AuthStore.file_entry.
  rewrite Hu.
  split_and!; [|intros q Hq; injection Hq as <-; unfold AuthStore.file_GetMaxDevices, AuthStore.file_entry; rewrite Hu|];
    by destruct (head _).
Qed.

(** No edit removes the file or moves the store to another. *)
Definition file_kept (s s' : AdminStore.fileUserStore) : Prop :=
  AdminStore.fus_path s' = AdminStore.fus_path s /\
  (fs_files (AdminStore.fus_fs s') !! AdminStore.fus_path s = None ->
   fs_files (AdminStore.fus_fs s) !! AdminStore.fus_path s = None).

Lemma saved_kept s es :
  file_kept s (AdminStore.on_file s (AdminStore.saveCreds (AdminStore.fus_fs s) (AdminStore.fus_path s) es)).1.
Proof.
  split; [done|]. cbn. unfold AdminStore.saveCreds, WriteFile. case_bool_decide; [done|]. cbn.
  by rewrite lookup_insert_eq.
Qed.

Lemma refused_kept s err : file_kept s (AdminStore.on_file s (AdminStore.fus_fs s, err)).1.
Proof. done. Qed.

Lemma edit_first_kept s u g :
  file_kept s (AdminStore.on_file s (AdminStore.edit_first toml_creds (AdminStore.fus_fs s) (AdminStore.fus_path s) u g)).1.
Proof.
  unfold AdminStore.edit_first. destruct (AdminStore.loadCreds _ _ _) as [es|]; [|done].
  destruct (AdminStore.update_first u g es); [apply saved_kept|done].
Qed.

Lemma perform_kept s t e : file_kept s (perform s t e).1.1.
Proof.
  destruct e as [u pw|u|u pw|u n|u b|u x|u n|u]; try done; cbn -[AdminStore.on_file].
  - unfold AdminStore.addUser. destruct (AdminStore.loadCreds _ _ _) as [es|]; [|done].
    destruct (existsb _ es); [done|apply saved_kept].
  - unfold AdminStore.deleteUser. destruct (AdminStore.loadCreds _ _ _) as [es|]; [|done].
    destruct (_ =? _)%nat; [done|apply saved_kept].
  - apply edit_first_kept.
  - apply edit_first_kept.
Qed.

Lemma file_linked_step s a t e : file_linked s a -> file_linked (perform s t e).1.1 a.
Proof. intros [Hp Ha]. destruct (perform_kept s t e) as [Hp' Hf]. split; [by rewrite Hp'|]. rewrite Hp'. auto. Qed.

(** The endpoint answers from its memory, which a tick replaces. *)
#[export] Program Instance file_accounts : AccountStore AdminStore.fileUserStore AuthStore.FileStore := {
  the_policy := file_policy;
  holds := file_holds;
  linked := file_linked;
  storable := file_storable;
  asked _ a := a;
  polled s a := AuthStore.watch_tick toml_clients (AdminStore.fus_fs s) a;
  holds_step := file_step;
  holds_list := file_list;
  linked_step := file_linked_step;
}.
Next Obligation.
  intros s a m Hs Hl. split; [|by apply file_reads]. destruct Hl as [Hp Ha].
  unfold file_linked, AuthStore.watch_tick, AuthStore.file_reload, DecodeFile.
  destruct (ReadFile _ _) as [text|] eqn:Er; cbn; [|by split]. destruct (toml_clients text); cbn; [|by split].
  split; [done|]. unfold ReadFile in Er. case_bool_decide; [done|]. rewrite Hp in Er. intros Hn. by rewrite Hn in Er.
Qed.
Next Obligation. done. Qed.
End file.

(** ** Properties *)

(** C31: the stores refine one map of accounts.  On a credentials file that can be
    read and written and a database that answers, whatever edits the admin API
    asks for, in any order, with errors in between and the endpoint's polls
    anywhere: each edit is made or refused as on the abstract map (an account is
    added once, only known accounts are changed, a store without lifecycle columns
    refuses lifecycle edits, the database a limit from 2^63), List then gives
    exactly the accounts of the map, and the running endpoint's store answers every
    query of the authenticator, over the database from that map and over the file
    from the map at the last poll.  Names and passwords in the file are printable
    ASCII, and it keeps a negative device limit as none. *)
Theorem stores_refine_accounts {UT : UnicodeTables} {DB : Type} `{SqlTable DB}
    (toml_creds : string -> res (list AdminStore.credEntry))
    (toml_clients : string -> res (list AuthStore.fileClient)) `{!CredsCodec toml_creds toml_clients}
    (f : server AdminStore.fileUserStore AuthStore.FileStore)
    (d : server (AdminStore.sqliteUserStore DB) (AuthStore.SQLiteStore DB)) (wf wd : view) (evs : list event)
  (Hf : agrees (H1 := file_accounts toml_creds toml_clients) f wf)
  (Hef : Forall (event_storable (H1 := file_accounts toml_creds toml_clients)) evs)
  (Hd : agrees d wd) (Hed : Forall event_storable evs) :
  (let r := run (H1 := file_accounts toml_creds toml_clients) f evs in
   let r' := spec_run file_policy wf evs in
   made <$> r.2 = r'.2 /\ @listed _ (AdminStore.file_store toml_creds) (sv_admin r.1) (v_kept r'.1) /\
   answers (sv_auth r.1) (v_seen r'.1)) /\
  (let r := run d evs in
   let r' := spec_run sqlite_policy wd evs in
   made <$> r.2 = r'.2 /\ listed (sv_admin r.1) (v_kept r'.1) /\
   answers {| AuthStore.sq_db := AdminStore.sus_db (sv_admin r.1) |} (v_seen r'.1)).
Proof.
  split.
  - exact (run_refines (H1 := file_accounts toml_creds toml_clients) evs f wf Hf Hef).
  - exact (run_refines evs d wd Hd Hed).
Qed.

(** The account may log in at time [now]. *)
Definition may_log_in (a : account) (now : Z) : Prop :=
  match ac_life a with
  | None => True
  | Some l => l_enabled l = true /\ (l_expires l <= 0 \/ now / second < l_expires l) /\
              (l_limit l <= 0 \/ l_used l < l_limit l)
  end.

(** C32: who may connect is who the administrator left an account.  After any
    edits and polls on a server that keeps accounts, a request for a user without
    a live cache entry is accepted by the authenticator exactly when the accounts
    the endpoint has seen, those of the database or of the file at its last poll,
    have one of that name whose password, not empty, is the one given, and whose
    lifecycle allows it. *)
Theorem edited_accounts_log_in {S A : Type} `{AccountStore S A} (v : server S A) (w : view)
    (evs : list event) (au : Auth.Authenticator) (now : Z) (r : request) (u given : string)
  (Hv : agrees v w) (Hevs : Forall event_storable evs)
  (Hcred : Auth.basic_credentials r = Some (u, given))
  (Hstale : forall e, Auth.a_cache au !! u = Some e -> Auth.ce_cacheExpiresAt e <= now) :
  Auth.Deny (Auth.CheckExt au (auth_store (run v evs).1) now r).2 = Auth.DenyNone <->
  exists ac, v_seen (spec_run the_policy w evs).1 !! u = Some ac /\
    given = ac_password ac /\ given <> "" /\ may_log_in ac now.
Proof.
  destruct (run_refines evs v w Hv Hevs) as (_ & _ & Ha). specialize (Ha u). destruct Ha as (Hpw & _ & Hl).
  rewrite (Auth.CheckExt_fresh _ _ _ _ _ _ _ Hcred Hstale Hpw). unfold Auth.lifecycle_permits.
  destruct (spec_run the_policy w evs) as [w' oks]. cbn [fst] in *.
  destruct (v_seen w' !! u) as [ac|]; cbn [from_option mbind option_bind] in *.
  2: { split; [by intros (-> & ? & _)|by intros (? & ? & _)]. }
  assert (Hsame : match AuthStore.GetLifecycle with
    | None => True
    | Some q => match q (auth_store (run v evs).1) u with
                | Err _ => True
                | Ok (enabled, expiresAt, limit, used) =>
                    enabled = true /\ (expiresAt <= 0 \/ now / second < expiresAt) /\ (limit <= 0 \/ used < limit)
                end
    end <-> may_log_in ac now).
  { unfold may_log_in. destruct AuthStore.GetLifecycle as [q|]; [|by rewrite Hl]. by destruct Hl as (l & -> & ->). }
  rewrite Hsame. split; [intros (-> & ? & ?); eauto|intros (? & [= <-] & ? & ? & ?); by subst].
Qed.

(** ** Witnesses: a decoder of what [saveCreds] writes *)

Fixpoint unquote_body (s : string) : option string :=
  match s with
  | EmptyString => None
  | String c s' =>
      if bool_decide (c = dq) then if bool_decide (s' = "") then Some "" else None
      else if bool_decide (c = bslash)
      then match s' with String d s'' => String d <$> unquote_body s'' | EmptyString => None end
      else String c <$> unquote_body s'
  end.

Definition unquote (s : string) : option string :=
  match s with
  | String c s => if bool_decide (c = dq) then unquote_body s else None
  | EmptyString => None
  end.

Definition value_of (key line : string) : option string :=
  if HasPrefix line key then Some (TrimPrefix line key) else None.

Fixpoint read_lines (ls : list string) : option (list AdminStore.credEntry) :=
  match ls with
  | [l] => if bool_decide (l = "") then Some [] else None
  | h :: lu :: lp :: rest =>
      if bool_decide (h = "[[client]]") then
        u ← value_of "username = " lu ≫= unquote;
        p ← value_of "password = " lp ≫= unquote;
        match rest with
        | EmptyString :: rest => cons (AdminStore.file_entry u p 0) <$> read_lines rest
        | lm :: EmptyString :: rest =>
            n ← value_of "max_devices = " lm ≫= dec_number;
            cons (AdminStore.file_entry u p n) <$> read_lines rest
        | _ => None
        end
      else None
  | _ => None
  end.

Definition read_creds (s : string) : res (list AdminStore.credEntry) :=
  match read_lines (Split nl s) with Some es => Ok es | None => Err "toml: invalid" end.
Definition read_clients (s : string) : res (list AuthStore.fileClient) :=
  (fun es => map client_of es) <$> read_creds s.

Section decoder.
Context {UT : UnicodeTables}.

Lemma aval_is c d : bool_decide (c = d) = (aval c =? aval d).
Proof.
  apply eq_true_iff_eq. rewrite bool_decide_eq_true, Z.eqb_eq. split; [by intros ->|].
  unfold aval. intros H. rewrite <- (Ascii.ascii_N_embedding c), <- (Ascii.ascii_N_embedding d). f_equal. lia.
Qed.

Lemma quote_plain_cons c s : plain_char c = true ->
  quote_body 0 (String c s) =
  (if bool_decide (c = dq) || bool_decide (c = bslash) then String bslash (String c "") else String c "")
    +:+ quote_body 0 s.
Proof.
  unfold plain_char. rewrite andb_true_iff, !Z.leb_le. intros Hc. cbn [quote_body]. unfold decode_rune.
  destruct (Z.ltb_spec (aval c) 0x80); [|lia]. cbn [stake pred]. unfold escaped_rune, IsPrint.
  destruct (Z.ltb_spec (aval c) 0x80); [|lia].
  destruct (Z.leb_spec 0x20 (aval c)); [|lia]. destruct (Z.ltb_spec (aval c) 0x7F); [|lia].
  rewrite !aval_is. by destruct (_ || _).
Qed.

Lemma unquote_plain s : plain s -> unquote (Quote s) = Some s /\ has_char nl (Quote s) = false.
Proof.
  unfold unquote, Quote. rewrite bool_decide_true by done. intros Hs.
  assert (H : unquote_body (quote_body 0 s +:+ String dq "") = Some s /\ has_char nl (quote_body 0 s) = false).
  { induction s as [|c s IH]; [done|]. unfold plain in Hs. cbn in Hs. apply Forall_cons in Hs as [Hc Hs].
    destruct (IH Hs) as [IH1 IH2]. rewrite (quote_plain_cons c s Hc).
    assert (Hnl : bool_decide (c = nl) = false).
    { apply bool_decide_eq_false. intros ->. done. }
    destruct (bool_decide (c = dq)) eqn:Ed; [|destruct (bool_decide (c = bslash)) eqn:Eb]; cbn [orb];
      rewrite ?scons_app, ?snil_app; cbn [unquote_body has_char]; rewrite ?Hnl, ?Ed, ?Eb, IH1, ?IH2; done. }
  destruct H as [H1 H2]. split; [done|]. cbn [has_char]. rewrite has_char_app, H2. done.
Qed.

Definition cred_lines (e : AdminStore.credEntry) : list string :=
  ["[[client]]"; "username = " +:+ Quote (AdminStore.Username e); "password = " +:+ Quote (AdminStore.Password e)] ++
  (if 0 <? AdminStore.MaxDevices e then ["max_devices = " +:+ fmt_d (AdminStore.MaxDevices e)] else []) ++ [""].

Lemma split_word x s : has_char nl x = false -> Split nl (x +:+ nls +:+ s) = x :: Split nl s.
Proof. exact (Split_app nl x s). Qed.

Lemma split_line key x s : has_char nl key = false -> has_char nl x = false ->
  Split nl (key +:+ x +:+ nls +:+ s) = (key +:+ x) :: Split nl s.
Proof. intros Hk Hx. rewrite <- sapp_assoc. apply split_word. by rewrite has_char_app, Hk, Hx. Qed.

Lemma split_cred e s : filed e -> Split nl (AdminStore.render_cred e +:+ s) = cred_lines e ++ Split nl s.
Proof.
  intros (Hu & Hp & Hn & _). destruct (unquote_plain _ Hu) as [_ Hqu], (unquote_plain _ Hp) as [_ Hqp].
  pose proof (fmt_d_no_char nl (AdminStore.MaxDevices e) ltac:(lia) eq_refl) as Hd.
  unfold AdminStore.render_cred, cred_lines. rewrite !sapp_assoc.
  rewrite (split_word "[[client]]"), (split_line "username = "), (split_line "password = ") by done.
  cbn [app]. do 3 f_equal. destruct (0 <? AdminStore.MaxDevices e); cbn [app].
  - rewrite !sapp_assoc, (split_line "max_devices = ") by done. done.
  - exact (split_word "" s eq_refl).
Qed.

Lemma value_of_app key x : value_of key (key +:+ x) = Some x.
Proof. unfold value_of. by rewrite HasPrefix_app, TrimPrefix_app. Qed.

Lemma read_cred_lines e ls : filed e -> ls <> [] -> read_lines (cred_lines e ++ ls) = cons e <$> read_lines ls.
Proof.
  intros (Hu & Hp & Hn & He) Hls. destruct (unquote_plain _ Hu) as [Hqu _], (unquote_plain _ Hp) as [Hqp _].
  unfold cred_lines. rewrite <- app_assoc. cbn [app read_lines]. rewrite bool_decide_true by done.
  rewrite !value_of_app. cbn [mbind option_bind]. rewrite Hqu, Hqp.
  destruct (Z.ltb_spec 0 (AdminStore.MaxDevices e)); cbn [app].
  - change ("max_devices = " +:+ ?x) with (String "m" ("ax_devices = " +:+ x)). cbv iota.
    change (String "m" ("ax_devices = " +:+ ?x)) with ("max_devices = " +:+ x).
    rewrite value_of_app. cbn [mbind option_bind]. rewrite dec_number_fmt by lia. cbn [mbind option_bind]. by rewrite <- He.
  - replace (AdminStore.MaxDevices e) with 0 in He by lia. cbn [mbind option_bind]. by rewrite <- He.
Qed.

#[export] Instance read_codec : CredsCodec read_creds read_clients.
Proof.
  split; [|done]. intros es Hes. unfold read_creds.
  assert (H : read_lines (Split nl (AdminStore.render_creds es)) = Some es); [|by rewrite H].
  induction Hes as [|e es He _ IH]; [done|]. unfold AdminStore.render_creds in *. cbn [fold_right].
  rewrite (split_cred _ _ He), read_cred_lines, IH; [done|done|apply Split_not_nil].
Qed.
End decoder.

#[local] Instance ex_tables : UnicodeTables := {| uni_IsPrint := fun _ => false |}.

Definition ex_file : AdminStore.fileUserStore :=
  {| AdminStore.fus_fs := {| fs_files := ∅; fs_locked := ∅; fs_full := ∅ |}; AdminStore.fus_path := "credentials.toml" |}.
#[local] Instance ex_init : MemInit := {| mem_cols := Some AuthStore.sqlite_columns; mem_rows := ∅; mem_up := true |}.
Definition ex_table : AdminStore.sqliteUserStore mem_db :=
  {| AdminStore.sus_dsn := "users.db"; AdminStore.sus_db := mem_init |}.

Definition ex_edits : list edit :=
  [Add "ann" "s3cret"; Add "ann" "other"; Add "bob" "b"; SetMaxDevices "ann" 2; Delete "bob"; SetPassword "ann" "secret";
   SetEnabled "ann" false; SetMaxDevices "ann" (-1)].
Definition ex_events : list event := map Edit (take 2 ex_edits) ++ [Poll] ++ map Edit (drop 2 ex_edits).
Definition ex_now : Z := 1700000000 * second.

Definition ex_file_server : server AdminStore.fileUserStore AuthStore.FileStore :=
  {| sv_admin := ex_file; sv_tracker := empty_tracker;
     sv_auth := AuthStore.NewFileStore read_clients (AdminStore.fus_fs ex_file) (AdminStore.fus_path ex_file) |}.
Definition ex_table_server : server (AdminStore.sqliteUserStore mem_db) (AuthStore.SQLiteStore mem_db) :=
  {| sv_admin := ex_table; sv_auth := {| AuthStore.sq_db := AdminStore.sus_db ex_table |}; sv_tracker := empty_tracker |}.
Definition no_accounts : view := {| v_kept := ∅; v_seen := ∅ |}.

#[local] Instance ex_file_store : AdminStore.UserStore AdminStore.fileUserStore := AdminStore.file_store read_creds.
#[local] Instance ex_accounts : AccountStore AdminStore.fileUserStore AuthStore.FileStore :=
  file_accounts read_creds read_clients.

Lemma ex_file_agrees : agrees ex_file_server no_accounts.
Proof.
  split_and!; [split; [split; [apply not_elem_of_empty|done]|]; exists []; repeat split; constructor|done|].
  intros u. split_and!; [done| |done]. intros q Hq. injection Hq as <-. done.
Qed.

Lemma ex_table_agrees : agrees ex_table_server no_accounts.
Proof.
  assert (Hh : sqlite_holds ex_table ∅) by (split; [split; [done|by exists AuthStore.sqlite_columns]|done]).
  split_and!; [done|done|exact (sqlite_answers _ _ Hh)].
Qed.

Lemma ex_events_file : Forall (event_storable (H1 := ex_accounts)) ex_events.
Proof. repeat constructor. Qed.
Lemma ex_events_table : Forall (event_storable (H1 := sqlite_accounts (DB := mem_db))) ex_events.
Proof. repeat constructor. Qed.

Lemma stores_refine_accounts_witness :
  made <$> (run ex_file_server ex_events).2 = [true; false; true; true; true; true; false; true] /\
  made <$> (run ex_table_server ex_events).2 = [true; false; true; true; true; true; true; true] /\
  AuthStore.file_GetPassword (sv_auth (run ex_file_server ex_events).1) "ann" = Ok "s3cret".
Proof.
  destruct (stores_refine_accounts read_creds read_clients ex_file_server ex_table_server no_accounts no_accounts ex_events
    ex_file_agrees ex_events_file ex_table_agrees ex_events_table) as [(H1 & _ & H3) (H2 & _)].
  split; [etrans; [exact H1|vm_compute; reflexivity]|].
  split; [etrans; [exact H2|vm_compute; reflexivity]|].
  destruct (H3 "ann") as (H4 & _). etrans; [exact H4|vm_compute; reflexivity].
Defined.

(** Ann's new password counts from the next poll. *)
Lemma ex_account : v_seen (spec_run file_policy no_accounts (ex_events ++ [Poll])).1 !! "ann" =
  Some {| ac_password := "secret"; ac_max_devices := 0; ac_life := None |}.
Proof. vm_compute. reflexivity. Qed.

Lemma ex_credentials : Auth.basic_credentials Auth.ex_request = Some ("ann", "secret").
Proof. vm_compute. reflexivity. Qed.

Lemma edited_accounts_log_in_witness :
  Auth.Deny (Auth.CheckExt (Auth.New 0) (auth_store (run ex_file_server (ex_events ++ [Poll])).1) ex_now
    Auth.ex_request).2 = Auth.DenyNone.
Proof.
  refine (proj2 (edited_accounts_log_in ex_file_server no_accounts (ex_events ++ [Poll])
    (Auth.New 0) ex_now Auth.ex_request "ann" "secret" ex_file_agrees _ ex_credentials _) _).
  - repeat constructor.
  - intros e He. discriminate He.
  - eexists. split; [exact ex_account|]. split; [reflexivity|]. split; [discriminate|exact I].
Defined.
