(* ===== verification/Admission.v ===== *)
(** The admission of a CONNECT request at the grain of its locks and reads
    (internal/proxy/handler.go over internal/auth/auth.go and
    internal/server/conntrack.go), interleaved with other requests and with the
    user edits of internal/server/adminapi.go.  Proxy.v and AdminApi.v take a
    request as one step; here every access to shared state is a step of its
    own, and any other request may run between two of them. *)
From stdpp Require Import gmultiset.
From S2P Require Import Prelude GoStrings GoHttp AuthStore ConnTracker Listener.
From S2P Require GoIO GoOS Auth Rules Udp Icmp P2P AdminApi Proxy.
#[local] Open Scope Z_scope.

(** The limits of an account, as [lookupEntry] keeps them: enabled, expiry,
    traffic limit, traffic used, and whether the store answered. *)
Definition limits : Type := bool * Z * Z * Z * bool.

Definition entry_limits (e : Auth.cacheEntry) : limits :=
  (Auth.ce_enabled e, Auth.ce_expiresAt e, Auth.ce_trafficLimit e, Auth.ce_trafficUsed e,
   Auth.ce_hasLifecycle e).

Definition make_entry (pw : string) (md : Z) (l : limits) (exp : Z) : Auth.cacheEntry :=
  let '(enabled, expAt, limit, used, has) := l in
  {| Auth.ce_password := pw; Auth.ce_maxDevices := md; Auth.ce_enabled := enabled;
     Auth.ce_expiresAt := expAt; Auth.ce_trafficLimit := limit; Auth.ce_trafficUsed := used;
     Auth.ce_hasLifecycle := has; Auth.ce_cacheExpiresAt := exp; Auth.ce_notFound := false |}.

(** Where the goroutine of a CONNECT request is. [u] is the name it gave,
    [given] the password. *)
Inductive pc :=
| Arrived
| Unrevoked                                              (* before the cache is read *)
| Missed (u given : string) (hit : option Auth.cacheEntry)  (* before GetPassword *)
| HasPassword (u given pw : string)                      (* before GetMaxDevices *)
| HasLimit (u given pw : string) (md : Z)                (* before GetLifecycle *)
| HasLimits (u given pw : string) (md : Z) (l : limits)  (* before the cache is written *)
| NoUser                  (u : string)                   (* before the negative entry is *)
| Known (u given : string) (e : Auth.cacheEntry)         (* the entry in hand *)
| Judged (ar : Auth.CheckResult)                         (* CheckExt returned *)
| NewDevice (u : string) (max : Z)                       (* before CountUser *)
| Passed (u : string)                                    (* before Register *)
| Registered (u : string)                                (* before Allow *)
| Inside (u : string)                                    (* in the switch on the target *)
| Leaving (u : string) (resp : option response)          (* before the deferred Unregister *)
| Done (resp : option response).                         (* with the response of a refusal *)

Record attempt := { at_ctx : context; at_req : request; at_pc : pc }.

Definition at_raw (a : attempt) : option Conn := RawConnFromContext (at_ctx a).
Definition goto (a : attempt) (p : pc) : attempt :=
  {| at_ctx := at_ctx a; at_req := at_req a; at_pc := p |}.

(** A step of a tunnel on the tracker. *)
Inductive tunnel_op :=
| TOpened (c : option Conn)
| TBytes (c : option Conn) (i o : Z)
| TClosed (c : option Conn).

Definition tunnel_step (t : ConnTracker) (o : tunnel_op) : ConnTracker :=
  match o with
  | TOpened c => TunnelOpened t c
  | TBytes c i o => AddBytes t c i o
  | TClosed c => TunnelClosed t c
  end.

Section admission.
Context {UT : UnicodeTables} {S : Type} `{UserStore S} `{AdminApi.AdminUserStore S}.

(** ** What the requests share; the store is the database both sides open *)

Record shared := {
  g_now : Z;
  g_store : S;
  g_auth : Auth.Authenticator;
  g_tracker : ConnTracker;
  g_rules : Rules.Engine;
  g_effects : list AdminApi.effect;         (* the kicks handed to scheduleKick *)
}.

Definition set_auth (g : shared) (a : Auth.Authenticator) : shared :=
  {| g_now := g_now g; g_store := g_store g; g_auth := a; g_tracker := g_tracker g;
     g_rules := g_rules g; g_effects := g_effects g |}.
Definition set_tracker (g : shared) (t : ConnTracker) : shared :=
  {| g_now := g_now g; g_store := g_store g; g_auth := g_auth g; g_tracker := t;
     g_rules := g_rules g; g_effects := g_effects g |}.
Definition set_store (g : shared) (s : S) : shared :=
  {| g_now := g_now g; g_store := s; g_auth := g_auth g; g_tracker := g_tracker g;
     g_rules := g_rules g; g_effects := g_effects g |}.
Definition set_rules (g : shared) (e : Rules.Engine) : shared :=
  {| g_now := g_now g; g_store := g_store g; g_auth := g_auth g; g_tracker := g_tracker g;
     g_rules := e; g_effects := g_effects g |}.
Definition later (g : shared) (d : N) : shared :=
  {| g_now := g_now g + Z.of_N d; g_store := g_store g; g_auth := g_auth g; g_tracker := g_tracker g;
     g_rules := g_rules g; g_effects := g_effects g |}.
Definition kick (g : shared) (k : ConnTracker * list Conn) : shared :=
  {| g_now := g_now g; g_store := g_store g; g_auth := g_auth g; g_tracker := k.1;
     g_rules := g_rules g; g_effects := g_effects g ++ [AdminApi.Kick k.2] |}.

(** ** The steps of a request *)

Definition read_devices (s : S) (u : string) : Z :=
  match GetMaxDevices with
  | Some q => match q s u with Ok md => md | Err _ => 0 end
  | None => 0
  end.

Definition read_limits (s : S) (u : string) : limits :=
  match GetLifecycle with
  | Some q => match q s u with
              | Ok (enabled, expAt, limit, used) => (enabled, expAt, limit, used, true)
              | Err _ => (false, 0, 0, 0, false)
              end
  | None => (false, 0, 0, 0, false)
  end.

Definition refused : Auth.CheckResult := Auth.denied "" Auth.DenyBadCreds.

(** [ServeHTTP] after [CheckExt], up to the device limit: no shared state. *)
Definition judged (h : Proxy.Handler) (g : shared) (raw : option Conn) (ar : Auth.CheckResult) : pc :=
  let resp := new_response in
  let username := Auth.Username ar in
  if bool_decide (username <> "") && bool_decide (Auth.Deny ar <> Auth.DenyNone)
  then Done (Some (http_Error (Auth.Deny ar) StatusProxyAuthRequired (Proxy.revoke (Auth.Deny ar) resp)))
  else if bool_decide (username = "")
  then Done (Some (if Proxy.AuthFailureCode (Proxy.h_opts h) =? 405
                   then http_Error "Method Not Allowed" StatusMethodNotAllowed resp
                   else http_Error "Proxy Authentication Required" StatusProxyAuthRequired
                          (Proxy.proxy_auth resp)))
  else if (0 <? Auth.MaxDevices ar) && bool_decide (raw <> None) && negb (IsKnown (g_tracker g) raw)
  then NewDevice username (Auth.MaxDevices ar)
  else Passed username.

Definition advance (h : Proxy.Handler) (g : shared) (a : attempt) : shared * pc :=
  let resp := new_response in
  let r := at_req a in
  let raw := at_raw a in
  match at_pc a with
  | Arrived =>
      (g, if bool_decide (r_Method r <> MethodConnect)
          then Done (Some (http_Error "Method Not Allowed" StatusMethodNotAllowed resp))
          else match IsRevoked (g_tracker g) raw with
               | (true, reason) =>
                   Done (Some (http_Error ("Session revoked: " +:+ reason) StatusProxyAuthRequired
                                 (Proxy.revoke reason resp)))
               | (false, _) => Unrevoked
               end)
  | Unrevoked =>
      (g, match Auth.basic_credentials r with
          | None => Judged refused
          | Some (u, given) =>
              let hit := Auth.a_cache (g_auth g) !! u in
              match hit with
              | Some e => if g_now g <? Auth.ce_cacheExpiresAt e
                          then if Auth.ce_notFound e then Judged refused else Known u given e
                          else Missed u given hit
              | None => Missed u given hit
              end
          end)
  | Missed u given hit =>
      (g, match GetPassword (g_store g) u with
          | Err _ => match hit with
                     | Some e => if Auth.ce_notFound e then Judged refused else Known u given e
                     | None => Judged refused
                     end
          | Ok pw => if bool_decide (pw = "") then NoUser u else HasPassword u given pw
          end)
  | HasPassword u given pw => (g, HasLimit u given pw (read_devices (g_store g) u))
  | HasLimit u given pw md => (g, HasLimits u given pw md (read_limits (g_store g) u))
  | HasLimits u given pw md l =>
      let e := make_entry pw md l (g_now g + Auth.a_ttl (g_auth g)) in
      (set_auth g (Auth.set_entry (g_auth g) u e), Known u given e)
  | NoUser u =>
      (set_auth g (Auth.set_entry (g_auth g) u (Auth.negative_entry (g_now g + Auth.a_ttl (g_auth g)))),
       Judged refused)
  | Known u given e =>
      (g, Judged (if bool_decide (given = Auth.ce_password e) then
                    let why := Auth.lifecycle_deny e (g_now g) in
                    if bool_decide (why = Auth.DenyNone)
                    then {| Auth.Username := u; Auth.MaxDevices := Auth.ce_maxDevices e;
                            Auth.Deny := Auth.DenyNone |}
                    else Auth.denied u why
                  else refused))
  | Judged ar => (g, judged h g raw ar)
  | NewDevice u max =>
      let active := CountUser (g_tracker g) u in
      (g, if max <=? Z.of_nat active
          then Done (Some (http_Error (Proxy.device_message active max) StatusProxyAuthRequired
                             (Proxy.revoke "Device limit reached" resp)))
          else Passed u)
  | Passed u => (set_tracker g (Register (g_tracker g) u raw (g_now g)), Registered u)
  | Registered u =>
      (g, if Rules.Allow (g_rules g) (Proxy.remoteIP r) (TLSRandomFromContext (at_ctx a))
          then Inside u else Leaving u (Some (http_Error "Forbidden" StatusForbidden resp)))
  | Inside u => (g, Leaving u None)
  | Leaving u resp => (set_tracker g (Unregister (g_tracker g) u raw), Done resp)
  | Done resp => (g, Done resp)
  end.

(** ** The steps of an edit of a user: kick, DELETE and PATCH of [h_user]; a
    step of a PATCH keeps together what it does *)

Inductive edit_pc :=
| Deleting (u : string)
| Kicking (u reason : string)
| Patching (u : string) (steps : list (AdminApi.patch_step (S := S)))
| Invalidating (u : string)
| Edited (u : string)
| Failed (e : string) (code : Z).

(** Up to the first access to shared state: [None] when the request is
    answered before. *)
Definition edit_start (r : request) (b : AdminApi.bodies) : option edit_pc :=
  let u := AdminApi.path_user r in
  if bool_decide (u = "") then None
  else if (length (AdminApi.user_parts r) =? 2)%nat
          && bool_decide (AdminApi.user_parts r !! 1%nat = Some "kick") then
    if bool_decide (r_Method r <> MethodPost) then None
    else Some (Kicking u (AdminApi.or_default (Query_Get r "reason") "Account suspended by administrator"))
  else if bool_decide (r_Method r = MethodDelete) then Some (Deleting u)
  else if bool_decide (r_Method r = MethodPatch) then
    match AdminApi.b_patch b with
    | Err _ => None
    | Ok q => Some (Patching u (AdminApi.patch_steps u q))
    end
  else None.

Definition edit_step (g : shared) (p : edit_pc) : shared * edit_pc :=
  match p with
  | Deleting u => match AdminApi.ad_Delete (g_store g) u with
                  | (s, Some e) => (set_store g s, Failed e StatusNotFound)
                  | (s, None) => (set_store g s, Kicking u "Account deleted")
                  end
  | Kicking u reason => (kick g (KickUser (g_tracker g) u reason), Invalidating u)
  | Patching u [] => (g, Invalidating u)
  | Patching u (f :: steps) =>
      let '(s, t, l, err) := f (g_store g) (g_tracker g) (g_effects g) in
      ({| g_now := g_now g; g_store := s; g_auth := g_auth g; g_tracker := t; g_rules := g_rules g;
          g_effects := l |},
       match err with Some (e, code) => Failed e code | None => Patching u steps end)
  | Invalidating u => (set_auth g (Auth.Invalidate (g_auth g) u), Edited u)
  | p => (g, p)
  end.

(** ** Everything at once *)

Record system := { y_shared : shared; y_reqs : gmap nat attempt; y_edits : gmap nat edit_pc }.

Inductive event :=
| Tick (d : N)
| Arrive (i : nat) (ctx : context) (r : request)
| Advance (i : nat)
| Edit (i : nat) (r : request) (b : AdminApi.bodies)
| AdvanceEdit (i : nat)
| Outside (s : S)                 (* the store changes: new users, the tool, the flusher *)
| Tunnel (o : tunnel_op)
| SetRules (e : Rules.Engine)
| KickOne (u addr reason : string)   (* [h_sessions_kick] *)
| Evict.

Definition upd (y : system) (g : shared) : system :=
  {| y_shared := g; y_reqs := y_reqs y; y_edits := y_edits y |}.

(** An identity is used once; a step of what is not there does nothing. *)
Definition step (h : Proxy.Handler) (y : system) (ev : event) : system :=
  let g := y_shared y in
  match ev with
  | Tick d => upd y (later g d)
  | Arrive i ctx r =>
      match y_reqs y !! i with
      | Some _ => y
      | None => {| y_shared := g; y_edits := y_edits y;
                   y_reqs := <[i := {| at_ctx := ctx; at_req := r; at_pc := Arrived |}]> (y_reqs y) |}
      end
  | Advance i =>
      match y_reqs y !! i with
      | None => y
      | Some a => let '(g, p) := advance h g a in
                  {| y_shared := g; y_edits := y_edits y; y_reqs := <[i := goto a p]> (y_reqs y) |}
      end
  | Edit i r b =>
      match y_edits y !! i, edit_start r b with
      | None, Some p => {| y_shared := g; y_reqs := y_reqs y; y_edits := <[i := p]> (y_edits y) |}
      | _, _ => y
      end
  | AdvanceEdit i =>
      match y_edits y !! i with
      | None => y
      | Some p => let '(g, p) := edit_step g p in
                  {| y_shared := g; y_reqs := y_reqs y; y_edits := <[i := p]> (y_edits y) |}
      end
  | Outside s => upd y (set_store g s)
  | Tunnel o => upd y (set_tracker g (tunnel_step (g_tracker g) o))
  | SetRules e => upd y (set_rules g e)
  | KickOne u addr reason =>
      let '(t, l, ok) := KickSession (g_tracker g) u addr reason in
      upd y (if ok then kick g (t, l) else g)
  | Evict => upd y (set_auth g (Auth.evict (g_auth g) (g_now g)))
  end.

Definition run (h : Proxy.Handler) (y : system) (evs : list event) : system := foldl (step h) y evs.

Lemma run_later h y evs ev : run h y (evs ++ [ev]) = step h (run h y evs) ev.
Proof. unfold run. by rewrite foldl_snoc. Qed.

(** ** A request, or an edit, alone *)

Definition settled (p : pc) : bool :=
  match p with Passed _ | Done _ => true | _ => false end.

Fixpoint solo (n : nat) (h : Proxy.Handler) (g : shared) (a : attempt) : shared * pc :=
  match n with
  | O => (g, at_pc a)
  | Datatypes.S n => if settled (at_pc a) then (g, at_pc a)
           else let '(g, p) := advance h g a in solo n h g (goto a p)
  end.

Definition edit_alone (n : nat) (g : shared) (p : edit_pc) : shared * edit_pc :=
  Nat.iter n (fun gp => edit_step gp.1 gp.2) (g, p).

(** The same state, as the two coarse models see it. *)
Definition proxy_world (g : shared) (w : Proxy.world) : Prop :=
  Proxy.w_auth w = g_auth g /\ Proxy.w_tracker w = g_tracker g /\ Proxy.w_rules w = g_rules g.

Definition api_world (f : GoOS.fs) (g : shared) : AdminApi.world S :=
  {| AdminApi.w_store := Some (g_store g); AdminApi.w_tracker := g_tracker g; AdminApi.w_auth := g_auth g;
     AdminApi.w_rules := Some (g_rules g); AdminApi.w_fs := f; AdminApi.w_effects := g_effects g |}.
End admission.
Arguments shared : clear implicits.
Arguments event : clear implicits.
Arguments system : clear implicits.
Arguments edit_pc : clear implicits.

(** ** Lemmas: a request alone *)

Section alone.
Context {UT : UnicodeTables} {S : Type} `{UserStore S} `{AdminApi.AdminUserStore S}.
Implicit Types g : shared S.

Lemma fetch_entry_parts (s : S) u pw exp :
  Auth.fetch_entry s u pw exp = make_entry pw (read_devices s u) (read_limits s u) exp.
Proof.
  unfold Auth.fetch_entry, read_devices, read_limits. destruct GetLifecycle as [q|]; [|done].
  by destruct (q s u) as [[[[? ?] ?] ?]|?].
Qed.

Lemma set_auth_id g : set_auth g (g_auth g) = g.
Proof. by destruct g. Qed.

Lemma solo_settled n h g a : settled (at_pc a) = true -> solo n h g a = (g, at_pc a).
Proof. destruct n; cbn; [done|]. by intros ->. Qed.

(** Taking [k] steps alone leads from [p] to [p']. *)
Definition leads h ctx r k g p g' p' : Prop :=
  forall n, solo (k + n) h g {| at_ctx := ctx; at_req := r; at_pc := p |} =
            solo n h g' {| at_ctx := ctx; at_req := r; at_pc := p' |}.

Lemma leads_step h ctx r k g p g1 p1 g' p' :
  settled p = false -> advance h g {| at_ctx := ctx; at_req := r; at_pc := p |} = (g1, p1) ->
  leads h ctx r k g1 p1 g' p' -> leads h ctx r (Datatypes.S k) g p g' p'.
Proof. intros Hs Ha Hl n. cbn [Nat.add solo at_pc]. rewrite Hs, Ha. apply Hl. Qed.

Lemma leads_refl h ctx r g p : leads h ctx r 0 g p g p.
Proof. by intros n. Qed.

Lemma leads_trans h ctx r k1 k2 g p g1 p1 g2 p2 :
  leads h ctx r k1 g p g1 p1 -> leads h ctx r k2 g1 p1 g2 p2 -> leads h ctx r (k1 + k2) g p g2 p2.
Proof. intros H1 H2 n. rewrite <- Nat.add_assoc, H1. apply H2. Qed.

(** [lookupEntry] past the cache. *)
Definition read_store g u (hit : option Auth.cacheEntry) : Auth.Authenticator * option Auth.cacheEntry :=
  let exp := g_now g + Auth.a_ttl (g_auth g) in
  match GetPassword (g_store g) u with
  | Err _ => (g_auth g, e ← hit; if Auth.ce_notFound e then None else Some e)
  | Ok pw => if bool_decide (pw = "") then (Auth.set_entry (g_auth g) u (Auth.negative_entry exp), None)
             else let e := Auth.fetch_entry (g_store g) u pw exp in
                  (Auth.set_entry (g_auth g) u e, Some e)
  end.

Definition looked_up u given (oe : option Auth.cacheEntry) : pc :=
  match oe with Some e => Known u given e | None => Judged refused end.

Lemma missed_leads h ctx r g u given hit : exists k, (k <= 4)%nat /\
  leads h ctx r k g (Missed u given hit) (set_auth g (read_store g u hit).1)
    (looked_up u given (read_store g u hit).2).
Proof.
  unfold read_store. destruct (GetPassword (g_store g) u) as [pw|err] eqn:Ep.
  - case_bool_decide as Epw; cbn [fst snd looked_up].
    + exists 2%nat. split; [lia|].
      eapply leads_step; [done|cbn; by rewrite Ep, bool_decide_true by done|].
      eapply leads_step; [done|reflexivity|apply leads_refl].
    + exists 4%nat. split; [lia|]. rewrite fetch_entry_parts.
      eapply leads_step; [done|cbn; by rewrite Ep, bool_decide_false by done|].
      do 3 (eapply leads_step; [done|reflexivity|]). apply leads_refl.
  - exists 1%nat. split; [lia|]. cbn. rewrite set_auth_id.
    eapply leads_step; [done|cbn; rewrite Ep; reflexivity|].
    destruct hit as [e|]; cbn; [destruct (Auth.ce_notFound e)|]; apply leads_refl.
Qed.

(** The lookup, from the reading of the cache to the entry. *)
Lemma lookup_leads h ctx r g u given :
  Auth.basic_credentials r = Some (u, given) ->
  let '(a', oe) := Auth.lookupEntry (g_auth g) (g_store g) (g_now g) u in
  exists k, (k <= 5)%nat /\ leads h ctx r k g Unrevoked (set_auth g a') (looked_up u given oe).
Proof.
  intros Hc. destruct (missed_leads h ctx r g u given (Auth.a_cache (g_auth g) !! u)) as (k & Hk & Hl).
  unfold read_store in Hl. unfold Auth.lookupEntry. destruct (Auth.a_cache (g_auth g) !! u) as [e|] eqn:E.
  - destruct (g_now g <? Auth.ce_cacheExpiresAt e) eqn:Et.
    + exists 1%nat. split; [lia|]. rewrite set_auth_id.
      eapply leads_step; [done|cbn; rewrite Hc, E, Et; reflexivity|].
      destruct (Auth.ce_notFound e); apply leads_refl.
    + cbn [mbind option_bind] in Hl. destruct (GetPassword (g_store g) u) as [pw|]; [case_bool_decide|];
        (exists (Datatypes.S k); split; [lia|];
         eapply leads_step; [done|cbn; rewrite Hc, E, Et; reflexivity|exact Hl]).
  - destruct (GetPassword (g_store g) u) as [pw|]; [case_bool_decide|];
        (exists (Datatypes.S k); split; [lia|];
         eapply leads_step; [done|cbn; rewrite Hc, E; reflexivity|exact Hl]).
Qed.

(** [CheckExt], from there to its result. *)
Lemma check_leads h ctx r g :
  let '(a', ar) := Auth.CheckExt (g_auth g) (g_store g) (g_now g) r in
  exists k, (k <= 6)%nat /\ leads h ctx r k g Unrevoked (set_auth g a') (Judged ar).
Proof.
  unfold Auth.CheckExt. fold (Auth.basic_credentials r).
  destruct (Auth.basic_credentials r) as [[u given]|] eqn:Hc.
  - pose proof (lookup_leads h ctx r g u given Hc) as Hl.
    destruct (Auth.lookupEntry _ _ _ u) as [a' [e|]]; destruct Hl as (k & Hk & Hl); cbn [looked_up] in Hl.
    + case_bool_decide as Hp; [case_bool_decide as Hd|];
        (exists (k + 1)%nat; split; [lia|]; eapply leads_trans; [exact Hl|];
         eapply leads_step; [done|cbn; rewrite ?(bool_decide_true _ Hp), ?(bool_decide_false _ Hp),
           ?(bool_decide_true _ Hd), ?(bool_decide_false _ Hd); reflexivity|apply leads_refl]).
    + exists k. split; [lia|exact Hl].
  - exists 1%nat. split; [lia|]. rewrite set_auth_id.
    eapply leads_step; [done|cbn; rewrite Hc; reflexivity|apply leads_refl].
Qed.

(** What the handler makes of the result of [CheckExt]. *)
Definition judgement h g (raw : option Conn) (ar : Auth.CheckResult) : pc :=
  match judged h g raw ar with
  | NewDevice u max =>
      let active := CountUser (g_tracker g) u in
      if max <=? Z.of_nat active
      then Done (Some (http_Error (Proxy.device_message active max) StatusProxyAuthRequired
                         (Proxy.revoke "Device limit reached" new_response)))
      else Passed u
  | p => p
  end.

Lemma judged_leads h ctx r g ar :
  let p := judgement h g (RawConnFromContext ctx) ar in
  exists k, (k <= 2)%nat /\ leads h ctx r k g (Judged ar) g p /\ settled p = true.
Proof.
  unfold judgement. cbn zeta.
  assert (Hj : advance h g {| at_ctx := ctx; at_req := r; at_pc := Judged ar |} =
               (g, judged h g (RawConnFromContext ctx) ar)) by done.
  assert (Hs : match judged h g (RawConnFromContext ctx) ar with
               | NewDevice _ _ => True | p => settled p = true end)
    by (unfold judged; repeat case_match; done).
  destruct (judged h g (RawConnFromContext ctx) ar);
    try (exists 1%nat; split; [lia|]; split; [|done]; eapply leads_step; [done|exact Hj|apply leads_refl]);
    try done.
  exists 2%nat. split; [lia|]. split.
  - do 2 (eapply leads_step; [done|first [exact Hj|reflexivity]|]). apply leads_refl.
  - by destruct (_ <=? _).
Qed.

Lemma leads_solo h ctx r k g p g' p' n :
  leads h ctx r k g p g' p' -> (k <= n)%nat -> settled p' = true ->
  solo n h g {| at_ctx := ctx; at_req := r; at_pc := p |} = (g', p').
Proof.
  intros Hl Hk Hs. replace n with (k + (n - k))%nat by lia. rewrite Hl. by apply solo_settled.
Qed.
End alone.

(** ** Lemmas: an edit alone *)

Section edits.
Context {UT : UnicodeTables} {S : Type} `{UserStore S} `{AdminApi.AdminUserStore S}.
Implicit Types g : shared S.

Lemma edit_alone_S n g p :
  edit_alone (Datatypes.S n) g p = edit_alone n (edit_step g p).1 (edit_step g p).2.
Proof. unfold edit_alone. rewrite Nat.iter_succ_r. cbn. by destruct (edit_step g p). Qed.

(** The steps of a PATCH give what [run_steps] gives. *)
Lemma patching_alone u steps g :
  let '(s, t, l, err) := AdminApi.run_steps steps (g_store g) (g_tracker g) (g_effects g) in
  exists n, edit_alone n g (Patching u steps) =
    ({| g_now := g_now g; g_store := s; g_auth := g_auth g; g_tracker := t; g_rules := g_rules g;
        g_effects := l |},
     match err with Some (e, code) => Failed e code | None => Invalidating u end).
Proof.
  revert g. induction steps as [|f steps IH]; intros g; cbn [AdminApi.run_steps].
  { exists 1%nat. by destruct g. }
  destruct (f (g_store g) (g_tracker g) (g_effects g)) as [[[s t] l] [[e code]|]] eqn:Ef.
  - exists 1%nat. unfold edit_alone. cbn. by rewrite Ef.
  - set (g1 := {| g_now := g_now g; g_store := s; g_auth := g_auth g; g_tracker := t; g_rules := g_rules g;
                  g_effects := l |}).
    specialize (IH g1). cbn in IH. destruct (AdminApi.run_steps steps s t l) as [[[s' t'] l'] err'].
    destruct IH as [n IH]. exists (Datatypes.S n). rewrite edit_alone_S. cbn. rewrite Ef. exact IH.
Qed.

Lemma edit_alone_add n m g p :
  edit_alone (n + m) g p = edit_alone m (edit_alone n g p).1 (edit_alone n g p).2.
Proof.
  revert g p. induction n as [|n IH]; intros g p; [done|].
  change (Datatypes.S n + m)%nat with (Datatypes.S (n + m)). by rewrite !edit_alone_S, IH.
Qed.
End edits.

(** ** Properties *)

Section properties.
Context {UT : UnicodeTables} {S : Type} `{UserStore S} `{AdminApi.AdminUserStore S}.
Implicit Types g : shared S.

(** The steps make up the request.  When no other request comes between
    them, the steps of an admission end within nine where
    [Proxy.authenticate] ends, with the same cache, the same user or the same
    response, and nothing else changed. *)
Theorem admission_alone h g (w : Proxy.world) (ctx : context) (e : Proxy.env S) (r : request)
  (Hw : proxy_world g w) (Hs : Proxy.e_store e = g_store g) (Hn : Proxy.e_now e = g_now g) :
  let '(w', d) := Proxy.authenticate h w ctx e r new_response in
  solo 9 h g {| at_ctx := ctx; at_req := r; at_pc := Arrived |} =
  (set_auth g (Proxy.w_auth w'), match d with inl resp => Done (Some resp) | inr u => Passed u end).
Proof.
  destruct Hw as (Ha & Ht & _). unfold Proxy.authenticate. rewrite Ha, Ht, Hs, Hn.
  assert (Hgoal : forall k g' p, leads h ctx r k g Arrived g' p -> (k <= 9)%nat -> settled p = true ->
    solo 9 h g {| at_ctx := ctx; at_req := r; at_pc := Arrived |} = (g', p)) by (intros; by eapply leads_solo).
  case_bool_decide as Hm.
  { rewrite Ha, set_auth_id. apply (Hgoal 1%nat); [|lia|done].
    eapply leads_step; [done|cbn; by rewrite bool_decide_true|apply leads_refl]. }
  assert (Hb : bool_decide (r_Method r <> MethodConnect) = false)
    by (apply bool_decide_eq_false; by intros Hn').
  destruct (IsRevoked (g_tracker g) (RawConnFromContext ctx)) as [[] reason] eqn:Er.
  { rewrite Ha, set_auth_id. apply (Hgoal 1%nat); [|lia|done].
    eapply leads_step; [done|cbn; unfold at_raw; cbn; by rewrite Hb, Er|apply leads_refl]. }
  pose proof (check_leads h ctx r g) as Hc.
  destruct (Auth.CheckExt (g_auth g) (g_store g) (g_now g) r) as [a' ar]. destruct Hc as (k & Hk & Hl).
  destruct (judged_leads h ctx r (set_auth g a') ar) as (k' & Hk' & Hj & Hset).
  erewrite (Hgoal (1 + (k + k'))%nat); [|eapply leads_step; [done| |eapply leads_trans; [exact Hl|exact Hj]]|lia|exact Hset];
    [|cbn; unfold at_raw; cbn; by rewrite Hb, Er].
  unfold judgement, judged. cbn [g_tracker set_auth Proxy.w_tracker Proxy.upd_auth]. rewrite Ht.
  destruct (bool_decide _ && bool_decide _); [done|].
  destruct (bool_decide (Auth.Username ar = "")); [done|].
  destruct (_ && negb _); cbn [andb]; [by destruct (_ <=? _)|done].
Qed.

(** An edit is made up of its steps too.  A request to a user's path that is
    answered before it touches shared state changes nothing; the steps of any
    other end, when no other request comes between them, in the state
    [AdminApi.h_user] leaves, and with its outcome. *)
Theorem edits_alone g (f : GoOS.fs) (r : request) (b : AdminApi.bodies) (resp : response) :
  let '(w', (resp', rep)) := AdminApi.h_user (api_world f g) r b resp in
  match edit_start (S := S) r b with
  | None => w' = api_world f g /\ rep = None
  | Some p => exists n g' p', edit_alone n g p = (g', p') /\ w' = api_world f g' /\
      match p' with
      | Edited u => u = AdminApi.path_user r /\ is_Some rep
      | Failed e code => resp' = http_Error e code resp /\ rep = None
      | _ => False
      end
  end.
Proof.
  unfold AdminApi.h_user, edit_start. cbn [AdminApi.w_store api_world].
  set (u := AdminApi.path_user r).
  case_bool_decide; [done|]. destruct (_ && bool_decide _).
  { case_bool_decide; [done|]. exists 2%nat. eexists _, _. split; [reflexivity|]. split; [reflexivity|].
    split; [done|by eexists]. }
  case_bool_decide.
  { destruct (AdminApi.ad_Delete (g_store g) u) as [s [e|]] eqn:E.
    - exists 1%nat. unfold edit_alone. cbn. rewrite E. eexists _, _. split; [reflexivity|]. done.
    - exists 3%nat. unfold edit_alone. cbn. rewrite E. eexists _, _. split; [reflexivity|]. cbn.
      split; [done|]. split; [done|by eexists]. }
  case_bool_decide; [|done]. destruct (AdminApi.b_patch b) as [q|]; [|done].
  unfold AdminApi.patch_user. cbn [AdminApi.w_tracker AdminApi.w_effects].
  pose proof (patching_alone u (AdminApi.patch_steps u q) g) as Hp.
  destruct (AdminApi.run_steps _ _ _ _) as [[[s t] l] [[e code]|]]; destruct Hp as [n Hp].
  - exists n. eexists _, _. split; [exact Hp|]. done.
  - exists (n + 1)%nat. rewrite edit_alone_add, Hp. eexists _, _. split; [reflexivity|].
    split; [done|]. split; [done|by eexists].
Qed.
End properties.

(** ** Concrete histories: a store of passwords, with one device each *)

Definition passwords : Type := gmap string string.
#[local] Instance ex_tables : UnicodeTables := {| uni_IsPrint := fun _ => false |}.
#[local] Instance ex_users : UserStore passwords :=
  {| GetPassword m u := Ok (default "" (m !! u)); GetMaxDevices := Some (fun _ _ => Ok 1);
     GetLifecycle := None |}.
#[local] Instance ex_admin : AdminApi.AdminUserStore passwords := {|
  AdminApi.ad_List m := Ok [];
  AdminApi.ad_Add m u pw := match m !! u with Some _ => (m, Some "exists") | None => (<[u := pw]> m, None) end;
  AdminApi.ad_Delete m u := match m !! u with Some _ => (delete u m, None) | None => (m, Some "not found") end;
  AdminApi.ad_ChangePassword m u pw := (<[u := pw]> m, None);
  AdminApi.ad_SetMaxDevices m u n := (m, Some "read only");
  AdminApi.ad_lifecycle := None;
|}.

Definition ex_handler : Proxy.Handler :=
  {| Proxy.h_opts := {| Proxy.AllowPrivateNet := false; Proxy.ConnectTimeoutSecs := 0;
                        Proxy.TCPIdleTimeoutSecs := 0; Proxy.AuthFailureCode := 407 |};
     Proxy.h_udpMux := None; Proxy.h_icmpMux := false |}.
Definition ex_start : system passwords :=
  {| y_shared := {| g_now := 0; g_store := {[ "ann" := "secret" ]}; g_auth := Auth.New 0;
                    g_tracker := empty_tracker; g_rules := Rules.New; g_effects := [] |};
     y_reqs := ∅; y_edits := ∅ |}.
Definition ex_conn (n : nat) : Conn := {| c_id := n; c_addr := "198.51.100.7:4000" |}.
Definition ex_ctx (n : nat) : context :=
  {| ctx_random := None; ctx_rawConn := Some (ex_conn n); ctx_session := None |}.
Definition ex_delete : request :=
  {| r_Method := MethodDelete; r_Host := "127.0.0.1:9090"; r_URLHost := ""; r_Path := "/api/users/ann";
     r_Query := ∅; r_Header := ∅; r_RemoteAddr := "127.0.0.1:5"; r_ProtoMajor := 1 |}.
Definition ex_bodies : AdminApi.bodies :=
  {| AdminApi.b_raw := Err "EOF"; AdminApi.b_rules := Err "EOF"; AdminApi.b_create := Err "EOF";
     AdminApi.b_patch := Err "EOF" |}.

Definition arrives (n : nat) : event passwords := Arrive n (ex_ctx n) Auth.ex_request.
Definition advances (k n : nat) : list (event passwords) := repeat (Advance n) k.
Definition deletes : list (event passwords) := Edit 0 ex_delete ex_bodies :: repeat (AdvanceEdit 0) 3.

Definition stage (y : system passwords) (n : nat) : option pc := at_pc <$> y_reqs y !! n.

(** *** Witnesses *)

Definition ex_proxy_world : Proxy.world :=
  {| Proxy.w_auth := Auth.New 0; Proxy.w_rules := Rules.New; Proxy.w_tracker := empty_tracker;
     Proxy.w_p2p := P2P.NewP2PBroker; Proxy.w_next := 0; Proxy.w_session := None; Proxy.w_icmp := Icmp.init;
     Proxy.w_effects := [] |}.
Definition ex_env : Proxy.env passwords :=
  {| Proxy.e_store := {[ "ann" := "secret" ]}; Proxy.e_now := 0; Proxy.e_lookup := fun _ => Err "no such host";
     Proxy.e_dial := fun _ => None; Proxy.e_up := None; Proxy.e_down := None; Proxy.e_hijacker := true;
     Proxy.e_hijack := Err "no"; Proxy.e_udp_body := GoIO.body_of [];
     Proxy.e_udp_env := fun _ => {| Udp.e_now := 0; Udp.e_dial := None; Udp.e_write := None |} |}.

Lemma admission_alone_witness :
  exists g', solo 9 ex_handler (y_shared ex_start)
    {| at_ctx := ex_ctx 1; at_req := Auth.ex_request; at_pc := Arrived |} = (g', Passed "ann").
Proof.
  pose proof (admission_alone ex_handler (y_shared ex_start) ex_proxy_world (ex_ctx 1) ex_env Auth.ex_request)
    as H.
  destruct (Proxy.authenticate ex_handler ex_proxy_world (ex_ctx 1) ex_env Auth.ex_request new_response)
    as [w' d] eqn:E.
  assert (Hd : d = inr "ann").
  { change d with (w', d).2. rewrite <- E. vm_compute. reflexivity. }
  subst d. eexists. apply H; [split_and!; reflexivity|reflexivity|reflexivity].
Defined.
