(* ===== verification/Interleaving.v ===== *)
(** Admission.v over whole histories: what an edit of a user decides when
    requests, edits and other changes interleave, who is registered, and the
    races the code leaves open. *)
From stdpp Require Import gmultiset.
From S2P Require Import Prelude GoStrings GoHttp AuthStore ConnTracker Listener Admission.
From S2P Require Auth Rules AdminApi Proxy.
#[local] Open Scope Z_scope.

(** ** Lemmas: what the store said *)

(** A goroutine that read the store's password of [u] and has yet to write the
    cache. *)
Definition storing (u : string) (p : pc) : bool :=
  match p with
  | HasPassword v _ _ | HasLimit v _ _ _ | HasLimits v _ _ _ _ => bool_decide (v = u)
  | _ => false
  end.

(** The user a request was let in as. *)
Definition let_in (p : pc) : option string :=
  match p with
  | Passed u | Registered u | Inside u | Leaving u _ => Some u
  | _ => None
  end.

Section decided.
Context {UT : UnicodeTables} {S : Type} `{UserStore S} `{AdminApi.AdminUserStore S}.
Variable u : string.

(** [said X]: the shared state was once such that [X]. *)
Section said.
Variable said : (shared S -> Prop) -> Prop.

Definition said_entry (e : Auth.cacheEntry) : Prop :=
  said (fun g => GetPassword (g_store g) u = Ok (Auth.ce_password e) /\ Auth.ce_password e <> "") /\
  said (fun g => read_limits (g_store g) u = entry_limits e).

(** The credentials are the ones of an entry in good standing at some time. *)
Definition vouched (r : request) : Prop :=
  exists e now, Auth.basic_credentials r = Some (u, Auth.ce_password e) /\ said_entry e /\
    said (fun g => g_now g = now) /\ Auth.lifecycle_deny e now = Auth.DenyNone.

Definition cache_said (a : Auth.Authenticator) : Prop :=
  forall e, Auth.a_cache a !! u = Some e -> Auth.ce_notFound e = false -> said_entry e.

(** What a request may write into the cache. *)
Definition writes_said (p : pc) : Prop :=
  match p with
  | HasPassword v _ pw | HasLimit v _ pw _ =>
      v = u -> said (fun g => GetPassword (g_store g) u = Ok pw /\ pw <> "")
  | HasLimits v _ pw _ l =>
      v = u -> said (fun g => GetPassword (g_store g) u = Ok pw /\ pw <> "") /\
               said (fun g => read_limits (g_store g) u = l)
  | _ => True
  end.

(** What a request holds that saw only such states. *)
Definition young_said (r : request) (p : pc) : Prop :=
  match p with
  | Missed v given hit => v = u -> Auth.basic_credentials r = Some (u, given) /\
      forall e, hit = Some e -> Auth.ce_notFound e = false -> said_entry e
  | HasPassword v given _ | HasLimit v given _ _ | HasLimits v given _ _ _ =>
      v = u -> Auth.basic_credentials r = Some (u, given)
  | Known v given e => v = u -> Auth.basic_credentials r = Some (u, given) /\ said_entry e
  | Judged ar => Auth.Username ar = u -> Auth.Deny ar = Auth.DenyNone -> vouched r
  | NewDevice v _ | Passed v | Registered v | Inside v | Leaving v _ => v = u -> vouched r
  | Arrived | Unrevoked | NoUser _ | Done _ => True
  end.

Lemma made_entry pw md l exp :
  Auth.ce_password (make_entry pw md l exp) = pw /\ entry_limits (make_entry pw md l exp) = l /\
  Auth.ce_notFound (make_entry pw md l exp) = false.
Proof. by destruct l as [[[[? ?] ?] ?] ?]. Qed.

Lemma refused_said r : young_said r (Judged refused).
Proof. by intros _ ?. Qed.

Lemma judged_said h (g : shared S) raw r ar :
  young_said r (Judged ar) -> young_said r (judged h g raw ar).
Proof.
  cbn. intros Hv. unfold judged. destruct (decide (Auth.Username ar = "")) as [E|E].
  { rewrite (bool_decide_false (Auth.Username ar <> "")), (bool_decide_true (Auth.Username ar = ""))
      by tauto. done. }
  rewrite (bool_decide_true (Auth.Username ar <> "")) by done. cbn [andb].
  destruct (decide (Auth.Deny ar = Auth.DenyNone)) as [Ed|Ed]; [|by rewrite bool_decide_true].
  rewrite (bool_decide_false (Auth.Deny ar <> Auth.DenyNone)), (bool_decide_false (Auth.Username ar = ""))
    by tauto.
  destruct (_ && negb _); cbn; auto.
Qed.

(** A step of a request. *)
Lemma advance_said h (g : shared S) a :
  (forall X : shared S -> Prop, X g -> said X) ->
  cache_said (g_auth g) -> writes_said (at_pc a) ->
  let '(g', p) := advance h g a in
  cache_said (g_auth g') /\ writes_said p /\
  (young_said (at_req a) (at_pc a) -> young_said (at_req a) p).
Proof.
  intros Hnow Hc Hw. destruct a as [ctx r p]. cbn [at_pc at_req] in *.
  destruct p as [| |v given hit|v given pw|v given pw md|v given pw md l|v|v given e|ar|v max|v|v|v|v resp|resp];
    cbn [advance at_pc at_req].
  - split; [done|]. case_bool_decide; [done|]. by destruct (IsRevoked _ _) as [[] ?].
  - split; [done|]. destruct (Auth.basic_credentials r) as [[v given]|] eqn:Eb; [|by split; [|intros _; apply refused_said]].
    destruct (Auth.a_cache (g_auth g) !! v) as [e|] eqn:Ec.
    + destruct (_ <? _); [destruct (Auth.ce_notFound e) eqn:En|];
        (split; [done|]; intros _; first [apply refused_said|intros ->; split; [done|]]).
      * by apply Hc.
      * intros e' [= <-]. by apply Hc.
    + split; [done|]. intros _ ->. by split.
  - split; [done|]. destruct (GetPassword (g_store g) v) as [pw|err] eqn:Ep.
    + case_bool_decide; [done|]. split; [|by intros Hy Hv; apply Hy]. intros ->. by apply Hnow.
    + destruct hit as [e|]; [destruct (Auth.ce_notFound e) eqn:En|]; (split; [done|]); intros Hy;
        first [apply refused_said|intros Hv]. destruct (Hy Hv) as [? He]. split; auto.
  - split_and!; [done|done|]. by intros Hy Hv; apply Hy.
  - split_and!; [done| |by intros Hy Hv; apply Hy]. intros Hv. split; [by apply Hw|]. subst. by apply Hnow.
  - pose proof (made_entry pw md l (g_now g + Auth.a_ttl (g_auth g))) as (E1 & E2 & E3).
    assert (He : v = u -> said_entry (make_entry pw md l (g_now g + Auth.a_ttl (g_auth g))))
      by (intros Hv; unfold said_entry; rewrite E1, E2; by apply Hw).
    split_and!; [|done|by intros Hy Hv; split; auto].
    intros e' Hl Hn. cbn in Hl. apply lookup_insert_Some in Hl as [[-> <-]|[? Hl]]; [by apply He|by apply Hc].
  - split_and!; [|done|by intros _; apply refused_said].
    intros e' Hl Hn. cbn in Hl. apply lookup_insert_Some in Hl as [[-> <-]|[? Hl]]; [done|by apply Hc].
  - split_and!; [done|done|]. intros Hy. case_bool_decide as Hp; [|apply refused_said].
    case_bool_decide as Hd; [|by intros _ ?]. cbn. intros Hv _. destruct (Hy Hv) as [Hcr He].
    exists e, (g_now g). rewrite <- Hp. split_and!; [done|done|by apply Hnow|done].
  - split_and!; [done|by unfold judged; repeat case_match|apply judged_said].
  - split; [done|]. by destruct (_ <=? _).
  - done.
  - split; [done|]. by destruct (Rules.Allow _ _ _).
  - done.
  - done.
  - done.
Qed.
End said.

Lemma said_entry_mono (P Q : (shared S -> Prop) -> Prop) e :
  (forall X, P X -> Q X) -> said_entry P e -> said_entry Q e.
Proof. intros HPQ [H1 H2]. split; auto. Qed.

Lemma vouched_mono (P Q : (shared S -> Prop) -> Prop) r :
  (forall X, P X -> Q X) -> vouched P r -> vouched Q r.
Proof.
  intros HPQ (e & now & H1 & H2 & H3 & H4). exists e, now. split_and!; eauto using said_entry_mono.
Qed.

Lemma writes_said_mono (P Q : (shared S -> Prop) -> Prop) p :
  (forall X, P X -> Q X) -> writes_said P p -> writes_said Q p.
Proof. intros HPQ. destruct p; cbn; naive_solver. Qed.

Lemma young_said_mono (P Q : (shared S -> Prop) -> Prop) r p :
  (forall X, P X -> Q X) -> young_said P r p -> young_said Q r p.
Proof.
  intros HPQ. pose proof (said_entry_mono P Q). pose proof (vouched_mono P Q r).
  destruct p; cbn; naive_solver.
Qed.

(** ** Histories after a moment [y] without a write of [u] under way *)

Definition after h (y : system S) (evs : list (event S)) (X : shared S -> Prop) : Prop :=
  exists pre post, evs = pre ++ post /\ X (y_shared (run h y pre)).

Lemma after_later h y evs ev X : after h y evs X -> after h y (evs ++ [ev]) X.
Proof. intros (pre & post & -> & HX). exists pre, (post ++ [ev]). by rewrite app_assoc. Qed.

Lemma after_now h y evs ev (X : shared S -> Prop) : X (y_shared (run h y evs)) -> after h y (evs ++ [ev]) X.
Proof. intros HX. by exists evs, [ev]. Qed.

(** Only a request's own step adds to the cache. *)
Lemma edit_step_cache g p e :
  Auth.a_cache (g_auth (edit_step (S := S) g p).1) !! u = Some e -> Auth.a_cache (g_auth g) !! u = Some e.
Proof.
  destruct p as [v|v reason|v [|f steps]|v|v|msg code]; cbn; try done.
  - by destruct (AdminApi.ad_Delete _ _) as [s [?|]].
  - by destruct (f _ _ _) as [[[s t] l] [[? ?]|]].
  - intros [_ Hl]%lookup_delete_Some. done.
Qed.

Lemma step_cache h y ev e :
  (forall i, ev <> Advance i) ->
  Auth.a_cache (g_auth (y_shared (step h y ev))) !! u = Some e ->
  Auth.a_cache (g_auth (y_shared y)) !! u = Some e.
Proof.
  intros Hev. destruct ev as [d|i ctx r|i|i r b|i|st|o|rs|v addr reason|]; cbn; try done.
  - by destruct (y_reqs y !! i).
  - by destruct (Hev i).
  - by destruct (y_edits y !! i), (edit_start r b).
  - destruct (y_edits y !! i) as [p|]; [|done].
    pose proof (edit_step_cache (y_shared y) p e). by destruct (edit_step (y_shared y) p).
  - unfold KickSession. by destruct (find_session _ _ _).
  - intros Hl%map_lookup_filter_Some. apply Hl.
Qed.

Lemma step_reqs h y ev j a :
  (forall i, ev <> Advance i) -> y_reqs (step h y ev) !! j = Some a ->
  y_reqs y !! j = Some a \/ at_pc a = Arrived.
Proof.
  intros Hev. destruct ev as [d|i ctx r|i|i r b|i|st|o|rs|v addr reason|]; cbn; try (by left).
  - destruct (y_reqs y !! i); [by left|]. cbn. intros [[-> <-]|[_ Hl]]%lookup_insert_Some; auto.
  - by destruct (Hev i).
  - destruct (y_edits y !! i), (edit_start r b); by left.
  - destruct (y_edits y !! i) as [p|]; [destruct (edit_step _ p)|]; by left.
  - unfold KickSession. destruct (find_session _ _ _); by left.
Qed.

Definition no_lookup (y : system S) : Prop :=
  map_Forall (fun _ a => storing u (at_pc a) = false) (y_reqs y).

Lemma is_advance (ev : event S) : (exists i, ev = Advance i) \/ forall i, ev <> Advance i.
Proof. destruct ev; try (by right); left; eauto. Qed.

(** The invariant: whatever the cache and the requests hold of [u] was said by
    the store since. *)
Definition all_said (old : gmap nat attempt) (said : (shared S -> Prop) -> Prop) (y : system S) : Prop :=
  cache_said said (g_auth (y_shared y)) /\
  forall j a, y_reqs y !! j = Some a ->
    writes_said said (at_pc a) /\ (old !! j = None -> young_said said (at_req a) (at_pc a)).

Lemma all_said_mono old (P Q : (shared S -> Prop) -> Prop) y :
  (forall X, P X -> Q X) -> all_said old P y -> all_said old Q y.
Proof.
  intros HPQ [Hc Hr]. split.
  - intros e He Hn. eapply said_entry_mono; [exact HPQ|by apply Hc].
  - intros j a Ha. destruct (Hr j a Ha) as [Hw Hy].
    split; [eapply writes_said_mono|intros Hj; eapply young_said_mono; [|by apply Hy]]; eauto.
Qed.

Lemma step_said h old said y ev :
  (forall X : shared S -> Prop, X (y_shared y) -> said X) ->
  all_said old said y -> all_said old said (step h y ev).
Proof.
  intros Hnow [Hc Hr]. destruct (is_advance ev) as [[i ->]|Hev].
  - cbn. destruct (y_reqs y !! i) as [a|] eqn:Ea; [|by split]. destruct (Hr i a Ea) as [Hw Hy].
    pose proof (advance_said said h (y_shared y) a Hnow Hc Hw) as Hadv.
    destruct (advance h (y_shared y) a) as [g' p]. destruct Hadv as (Hc' & Hw' & Hy').
    split; [done|]. intros j b. cbn. intros [[<- <-]|[Hne Hl]]%lookup_insert_Some; [|by apply Hr].
    cbn. auto.
  - split; [intros e He; apply Hc; by eapply step_cache|].
    intros j a Ha. destruct (step_reqs h y ev j a Hev Ha) as [Ha'|Hp]; [by apply Hr|by rewrite Hp].
Qed.

Lemma history_said h y evs :
  Auth.a_cache (g_auth (y_shared y)) !! u = None -> no_lookup y ->
  all_said (y_reqs y) (after h y evs) (run h y evs).
Proof.
  intros Hc Hno. induction evs as [|ev evs IH] using rev_ind.
  - split; [intros e He; cbn in He; congruence|]. intros j a Ha. cbn in Ha.
    split; [|congruence]. pose proof (Hno j a Ha) as Hs. cbn in Hs.
    destruct (at_pc a); cbn in Hs |- *; try done; by apply bool_decide_eq_false in Hs.
  - rewrite run_later. apply step_said; [intros X HX; by apply after_now|].
    by apply (all_said_mono _ _ _ _ (fun X => after_later h y evs ev X)).
Qed.
End decided.

(** ** Lemmas: who is registered *)

(** The connection under which a request is registered as [u]. *)
Definition registered_as (u : string) (a : attempt) : option Conn :=
  match at_pc a with
  | Registered v | Inside v | Leaving v _ => if bool_decide (v = u) then at_raw a else None
  | _ => None
  end.

Definition one (o : option Conn) : gmultiset Conn := from_option (fun c => {[+ c +]}) ∅ o.

Definition inside (u : string) (m : gmap nat attempt) : gmultiset Conn :=
  list_to_set_disj (omap (fun kv => registered_as u kv.2) (map_to_list m)).

Lemma inside_new u m i a : m !! i = None -> inside u (<[i := a]> m) = one (registered_as u a) ⊎ inside u m.
Proof.
  intros Hi. unfold inside. rewrite (map_to_list_insert m i a Hi).
  cbn [omap list_omap snd]. unfold one. destruct (registered_as u a); cbn [from_option].
  - by rewrite list_to_set_disj_cons.
  - multiset_solver.
Qed.

Lemma inside_update u m i a b : m !! i = Some a ->
  one (registered_as u a) ⊎ inside u (<[i := b]> m) = one (registered_as u b) ⊎ inside u m.
Proof.
  intros Hi. rewrite <- (insert_delete_id m i a Hi) at 2. rewrite <- insert_delete_eq.
  rewrite !inside_new by apply lookup_delete_eq. multiset_solver.
Qed.

Lemma inside_elem u m i a c : m !! i = Some a -> registered_as u a = Some c -> c ∈ inside u m.
Proof.
  intros Hi Hc. rewrite <- (insert_delete_id m i a Hi), inside_new by apply lookup_delete_eq.
  rewrite Hc. unfold one. cbn [from_option]. multiset_solver.
Qed.

Section registrations.
Context {UT : UnicodeTables} {S : Type} `{UserStore S} `{AdminApi.AdminUserStore S}.

(** A reset of the traffic keeps who is connected. *)
Definition reset_keeps : Prop :=
  forall lc s t u, AdminApi.ad_lifecycle = Some lc ->
    byUser (AdminApi.al_ResetTraffic (S := S) lc s t u).1.2 = byUser t.

Definition keeps_users (f : AdminApi.patch_step (S := S)) : Prop :=
  forall s t l, byUser (f s t l).1.1.2 = byUser t.

Lemma patch_steps_keep u q : reset_keeps -> Forall keeps_users (AdminApi.patch_steps u q).
Proof.
  intros Hreset. unfold AdminApi.patch_steps. repeat apply Forall_app_2; repeat case_match; repeat constructor;
    intros s t l; try done.
  1, 2: by destruct (AdminApi.al_SetEnabled _ _ _ _) as [? [?|]].
  match goal with E : AdminApi.ad_lifecycle = Some ?lc |- _ => pose proof (Hreset lc s t u E) as Hr end.
  by destruct (AdminApi.al_ResetTraffic _ _ _ _) as [[? ?] ?].
Qed.

Definition edits_keep (y : system S) : Prop :=
  forall i u steps, y_edits y !! i = Some (Patching u steps) -> Forall keeps_users steps.

Definition registrations (y : system S) : Prop :=
  forall u, list_to_set_disj (conns_of (g_tracker (y_shared y)) u) = inside u (y_reqs y).

Definition exact (y : system S) : Prop := registrations y /\ edits_keep y.

Lemma tunnel_step_byUser t o : byUser (tunnel_step t o) = byUser t.
Proof. destruct o as [[c|]|[c|] i o|[c|]]; cbn; try done; by destruct (entries t !! c). Qed.

Lemma KickSession_byUser t u addr reason : byUser (KickSession t u addr reason).1.1 = byUser t.
Proof. exact (op_step_byUser t [] (OKickSession u addr reason) I). Qed.

(** A step that keeps the lists keeps the correspondence. *)
Lemma registrations_same (y y' : system S) :
  registrations y -> byUser (g_tracker (y_shared y')) = byUser (g_tracker (y_shared y)) ->
  y_reqs y' = y_reqs y -> registrations y'.
Proof. intros Hr Hb Hq u. rewrite Hq, <- Hr. by rewrite (conns_of_byUser _ _ _ Hb). Qed.

(** What a request's step does to the lists. *)
Lemma advance_registers h (g : shared S) a :
  let '(g', p) := advance h g a in
  byUser (g_tracker g') = byUser (g_tracker g) /\ (forall u, registered_as u (goto a p) = registered_as u a) \/
  (exists v, at_pc a = Passed v /\ p = Registered v /\
     g_tracker g' = Register (g_tracker g) v (at_raw a) (g_now g)) \/
  (exists v resp, at_pc a = Leaving v resp /\ p = Done resp /\
     g_tracker g' = Unregister (g_tracker g) v (at_raw a)).
Proof.
  destruct a as [ctx r p]. unfold registered_as, at_raw, goto. cbn [at_pc at_ctx].
  destruct p; cbn [advance at_pc at_req at_ctx]; eauto 10.
  (* the requests without a registration *)
  all: left; split; [done|]; intros w; unfold judged; repeat case_match; simplify_eq; first [done|congruence].
Qed.

Lemma conns_of_Register (t : ConnTracker) v raw now u :
  list_to_set_disj (conns_of (Register t v raw now) u) =@{gmultiset Conn}
  one (if bool_decide (v = u) then raw else None) ⊎ list_to_set_disj (conns_of t u).
Proof.
  unfold one. destruct raw as [c|].
  - unfold Register. rewrite conns_of_insert. case_bool_decide; subst; cbn [from_option]; [|multiset_solver].
    rewrite list_to_set_disj_app, list_to_set_disj_cons. multiset_solver.
  - case_bool_decide; cbn [from_option Register]; multiset_solver.
Qed.

Lemma conns_of_Unregister_all (t : ConnTracker) v raw u :
  list_to_set_disj (conns_of (Unregister t v raw) u) =@{gmultiset Conn}
  list_to_set_disj (conns_of t u) ∖ one (if bool_decide (v = u) then raw else None).
Proof.
  unfold one. destruct raw as [c|].
  - rewrite conns_of_Unregister. case_bool_decide; subst; cbn [from_option]; [|multiset_solver].
    apply remove_first_multiset.
  - case_bool_decide; cbn [from_option Unregister]; multiset_solver.
Qed.

Lemma one_inside u m i a : m !! i = Some a -> one (registered_as u a) ⊆ inside u m.
Proof.
  intros Hi. unfold one. destruct (registered_as u a) as [c|] eqn:E; cbn [from_option].
  - apply gmultiset_singleton_subseteq_l. by eapply inside_elem.
  - apply gmultiset_empty_subseteq.
Qed.

Lemma advance_registrations h (y : system S) i : registrations y -> registrations (step h y (Advance i)).
Proof.
  intros Hr u. cbn. destruct (y_reqs y !! i) as [a|] eqn:Ea; [|apply Hr]. pose proof (Hr u) as Hu.
  pose proof (one_inside u _ _ _ Ea) as Hsub. pose proof (advance_registers h (y_shared y) a) as Hadv.
  destruct (advance h (y_shared y) a) as [g' p]. cbn [y_shared y_reqs].
  pose proof (inside_update u _ _ _ (goto a p) Ea) as Hin.
  destruct Hadv as [[Hb Hs]|[(v & Hp & -> & ->)|(v & resp & Hp & -> & ->)]].
  - rewrite (conns_of_byUser _ _ _ Hb), Hu. rewrite Hs in Hin. multiset_solver.
  - rewrite conns_of_Register, Hu. unfold registered_as in Hin. rewrite Hp in Hin. unfold one at 1 in Hin.
    cbn [from_option goto at_pc] in Hin. change (at_raw (goto a _)) with (at_raw a) in Hin.
    multiset_solver.
  - rewrite conns_of_Unregister_all, Hu. unfold registered_as in Hin, Hsub. rewrite Hp in Hin, Hsub.
    cbn [goto at_pc] in Hin. unfold one at 2 in Hin. cbn [from_option] in Hin. multiset_solver.
Qed.

Lemma patching_keeps (y : system S) i u f steps : edits_keep y ->
  y_edits y !! i = Some (Patching u (f :: steps)) -> keeps_users f /\ Forall keeps_users steps.
Proof. intros He Hi. specialize (He _ _ _ Hi). by inversion He. Qed.

Lemma edit_exact h (y : system S) i : exact y -> exact (step h y (AdvanceEdit i)).
Proof.
  intros [Hr He]. cbn. destruct (y_edits y !! i) as [p|] eqn:Ep; [|by split].
  assert (Hput : forall g' p', byUser (g_tracker g') = byUser (g_tracker (y_shared y)) ->
    (forall u steps, p' = Patching u steps -> Forall keeps_users steps) ->
    exact {| y_shared := g'; y_reqs := y_reqs y; y_edits := <[i := p']> (y_edits y) |}).
  { intros g' p' Hb Hp. split; [by apply (registrations_same y)|].
    intros j u steps. cbn. intros [[_ Hl]|[_ Hl]]%lookup_insert_Some; [by eapply Hp|by eapply He]. }
  destruct p as [v|v reason|v [|f steps]|v|v|msg code]; cbn [edit_step]; try (by apply Hput).
  - destruct (AdminApi.ad_Delete _ _) as [s [?|]]; by apply Hput.
  - destruct (patching_keeps y i v f steps He Ep) as [Hf Hst].
    specialize (Hf (g_store (y_shared y)) (g_tracker (y_shared y)) (g_effects (y_shared y))).
    destruct (f _ _ _) as [[[s t] l] [[msg code]|]]; apply Hput; try done. by intros u' st [= _ <-].
Qed.

Lemma step_exact h (y : system S) ev : reset_keeps -> exact y -> exact (step h y ev).
Proof.
  intros Hreset [Hr He]. destruct ev as [d|i ctx r|i|i r b|i|st|o|rs|v addr reason|].
  1, 6, 8, 10: by split.
  - cbn. destruct (y_reqs y !! i) eqn:Ei; [by split|]. split; [|done]. intros u. cbn.
    rewrite inside_new by done. unfold one. cbn [registered_as at_pc from_option].
    rewrite Hr. multiset_solver.
  - split; [by apply advance_registrations|]. cbn. destruct (y_reqs y !! i); [|done].
    by destruct (advance _ _ _).
  - cbn. destruct (y_edits y !! i) eqn:Ei; [by split|]. destruct (edit_start r b) as [p|] eqn:Es; [|by split].
    split; [done|]. intros j u steps. cbn. intros [[_ ->]|[_ Hl]]%lookup_insert_Some; [|by eapply He].
    unfold edit_start in Es. repeat case_match; simplify_eq. by apply patch_steps_keep.
  - by apply edit_exact.
  - split; [|done]. apply (registrations_same y); [done|apply tunnel_step_byUser|done].
  - pose proof (KickSession_byUser (g_tracker (y_shared y)) v addr reason) as Hk. cbn.
    destruct (KickSession _ _ _ _) as [[t l] []]; [|by split].
    split; [|done]. by apply (registrations_same y).
Qed.

Lemma run_exact h (y : system S) evs : reset_keeps -> exact y -> exact (run h y evs).
Proof.
  intros Hreset Hy. induction evs as [|ev evs IH] using rev_ind; [done|]. rewrite run_later. by apply step_exact.
Qed.
End registrations.

(** ** Properties *)

Section properties.
Context {UT : UnicodeTables} {S : Type} `{UserStore S} `{AdminApi.AdminUserStore S}.
Implicit Types g : shared S.

(** C4: an edit decides what comes after it.  Let an edit of a user reach its
    last step, the invalidation, while no goroutine is between reading the
    user's password and caching it.  Then, however requests, edits and other
    changes interleave from there, a request that arrives later and is let in
    as the user gave the password the store had for the user at some moment
    after the edit, and the account, with the limits the store had at some
    moment after the edit, was in good standing when that was checked. *)
Theorem edit_decides_later_requests h (y : system S) (i j : nat) (u : string) (evs : list (event S)) (a : attempt)
  (Hedit : y_edits y !! i = Some (Invalidating u))
  (Hquiet : no_lookup u y) (Hnew : y_reqs y !! j = None)
  (Ha : y_reqs (run h y (AdvanceEdit i :: evs)) !! j = Some a) (Hin : let_in (at_pc a) = Some u) :
  let since := after h (step h y (AdvanceEdit i)) evs in
  exists e now, Auth.basic_credentials (at_req a) = Some (u, Auth.ce_password e) /\
    since (fun g => GetPassword (g_store g) u = Ok (Auth.ce_password e) /\ Auth.ce_password e <> "") /\
    since (fun g => read_limits (g_store g) u = entry_limits e) /\
    since (fun g => g_now g = now) /\ Auth.lifecycle_deny e now = Auth.DenyNone.
Proof.
  cbn zeta. set (y1 := step h y (AdvanceEdit i)).
  assert (Hy1 : y_reqs y1 = y_reqs y /\ Auth.a_cache (g_auth (y_shared y1)) !! u = None).
  { unfold y1. cbn. rewrite Hedit. cbn. split; [done|apply lookup_delete_eq]. }
  destruct Hy1 as [Hreqs Hcache].
  assert (Hquiet1 : no_lookup u y1) by (unfold no_lookup; by rewrite Hreqs).
  destruct (history_said u h y1 evs Hcache Hquiet1) as [_ Hr].
  destruct (Hr j a Ha) as [_ Hy]. rewrite Hreqs in Hy. specialize (Hy Hnew).
  assert (Hv : vouched u (after h y1 evs) (at_req a))
    by (destruct (at_pc a); try discriminate Hin; injection Hin as Hin; by apply Hy).
  destruct Hv as (e & now & Hcr & [Hpw Hlim] & Hnow & Hlife). exists e, now. auto.
Qed.

(** C13: the connections counted are the requests inside.  From a start with
    nothing registered, however requests, edits, kicks and tunnels interleave, and
    provided that the reset of a user's traffic leaves the tracker's registrations
    alone, as the endpoint's adapter does: the connections listed for a user are, as a multiset, those of the requests
    that registered as the user and have not left; so a kick at any moment
    revokes the connection of every one of them with its reason, and hands it
    to be closed. *)
Theorem registrations_exact h (y : system S) (evs : list (event S)) (u reason : string)
  (Hreset : reset_keeps (S := S))
  (Hreqs : y_reqs y = ∅) (Hedits : y_edits y = ∅) (Hnone : byUser (g_tracker (y_shared y)) = ∅) :
  let y' := run h y evs in
  let t := g_tracker (y_shared y') in
  list_to_set_disj (conns_of t u) = inside u (y_reqs y') /\
  forall j a c, y_reqs y' !! j = Some a -> registered_as u a = Some c ->
    let '(t', l) := KickUser t u reason in
    c ∈ l /\ IsRevoked t' (Some c) = (true, reason).
Proof.
  cbn zeta.
  assert (Hy : exact y).
  { split; [|by intros i v steps; rewrite Hedits, lookup_empty]. intros v. unfold conns_of.
    by rewrite Hnone, Hreqs, lookup_empty. }
  destruct (run_exact h y evs Hreset Hy) as [Hr _]. split; [apply Hr|].
  intros j a c Ha Hc. pose proof (inside_elem u _ _ _ _ Ha Hc) as Hin. rewrite <- Hr in Hin.
  apply elem_of_list_to_set_disj in Hin. cbn. split; [done|].
  by rewrite revoke_all, bool_decide_true.
Qed.
End properties.

(** ** Concrete histories *)

#[local] Existing Instances ex_tables ex_users ex_admin.

(** An answer that was read before the deletion outlives it.  A lookup that
    has read the password when the user is deleted caches it after the
    invalidation: the request is let in, and, with no account left in the
    store, so is one that arrives 29 seconds later.  So the condition on
    lookups in [edit_decides_later_requests] cannot be dropped. *)
Theorem lookup_survives_deletion :
  let y := run ex_handler ex_start
    (arrives 1 :: advances 3 1 ++ deletes ++ advances 8 1 ++ [Advance 1; Advance 1; Tick 29000000000; arrives 2]
     ++ advances 7 2) in
  y_edits y !! 0%nat ≫= (fun p => match p with Edited u => Some u | _ => None end) = Some "ann" /\
  g_store (y_shared y) !! "ann" = None /\
  stage y 1 = Some (Done None) /\ stage y 2 = Some (Inside "ann").
Proof. vm_compute. split_and!; reflexivity. Qed.

(** A deletion does not reach a request that passed and has yet to register:
    it tunnels on a connection that is neither revoked nor handed to be
    closed. *)
Theorem deletion_misses_passed :
  let y := run ex_handler ex_start (arrives 1 :: advances 9 1 ++ deletes ++ advances 2 1) in
  g_store (y_shared y) !! "ann" = None /\ stage y 1 = Some (Inside "ann") /\
  IsRevoked (g_tracker (y_shared y)) (Some (ex_conn 1)) = (false, "") /\
  g_effects (y_shared y) = [AdminApi.Kick []].
Proof. vm_compute. split_and!; reflexivity. Qed.

(** The device limit is checked and taken in two steps: two connections that
    are checked at the same time are both let in by a limit of one. *)
Theorem device_limit_race :
  let y := run ex_handler ex_start
    (arrives 1 :: arrives 2 :: advances 9 1 ++ advances 5 2 ++ advances 2 1 ++ advances 2 2) in
  let y' := run ex_handler ex_start
    (arrives 1 :: advances 11 1 ++ arrives 2 :: advances 11 2) in
  read_devices (g_store (y_shared y)) "ann" = 1 /\
  stage y 1 = Some (Inside "ann") /\ stage y 2 = Some (Inside "ann") /\
  CountUser (g_tracker (y_shared y)) "ann" = 2%nat /\
  CountUser (g_tracker (y_shared y')) "ann" = 1%nat.
Proof. vm_compute. split_and!; reflexivity. Qed.

(** The moment before the invalidation, with nothing else going on, and what
    comes after: the user is created anew and connects. *)
Definition ex_before : system passwords :=
  run ex_handler ex_start (arrives 1 :: advances 11 1 ++ [Edit 0 ex_delete ex_bodies; AdvanceEdit 0; AdvanceEdit 0]).
Definition ex_after : list (event passwords) :=
  [Outside {[ "ann" := "secret" ]}; Advance 1; Advance 1; arrives 2] ++ advances 11 2.

Lemma edit_decides_later_requests_witness :
  exists pre post, ex_after = pre ++ post /\
    GetPassword (g_store (y_shared (run ex_handler (step ex_handler ex_before (AdvanceEdit 0)) pre))) "ann"
    = Ok "secret".
Proof.
  destruct (edit_decides_later_requests ex_handler ex_before 0 2 "ann" ex_after
    {| at_ctx := ex_ctx 2; at_req := Auth.ex_request; at_pc := Inside "ann" |})
    as (e & now & Hc & (pre & post & Hev & Hpw & _) & _).
  - vm_compute. reflexivity.
  - apply map_Forall_lookup. intros k a Ha.
    assert (Hk : y_reqs ex_before = {[ 1%nat := {| at_ctx := ex_ctx 1; at_req := Auth.ex_request;
      at_pc := Inside "ann" |} ]}) by (vm_compute; reflexivity).
    rewrite Hk in Ha. apply lookup_singleton_Some in Ha as [_ <-]. reflexivity.
  - vm_compute. reflexivity.
  - vm_compute. reflexivity.
  - reflexivity.
  - exists pre, post. assert (Hs : Auth.basic_credentials Auth.ex_request = Some ("ann", "secret")) by (vm_compute; reflexivity).
    cbn [at_req] in Hc. rewrite Hs in Hc. injection Hc as Es. rewrite <- Es in Hpw. split; [exact Hev|exact Hpw].
Defined.

Lemma registrations_exact_witness :
  let y := run ex_handler ex_start (arrives 1 :: advances 11 1) in
  IsRevoked (KickUser (g_tracker (y_shared y)) "ann" "bye").1 (Some (ex_conn 1)) = (true, "bye").
Proof.
  refine (proj2 (proj2 (registrations_exact ex_handler ex_start (arrives 1 :: advances 11 1) "ann" "bye" _ _ _ _)
    1%nat {| at_ctx := ex_ctx 1; at_req := Auth.ex_request; at_pc := Inside "ann" |} (ex_conn 1) _ _)).
  - intros lc s t u E. discriminate E.
  - reflexivity.
  - reflexivity.
  - reflexivity.
  - vm_compute. reflexivity.
  - reflexivity.
Defined.
