(* ===== verification/Dialer.v ===== *)
(** internal/client/dialer.go: the client of the tunnel.  A dialer opens CONNECT
    requests to the endpoint and hands out connections made of the response
    body and of the pipe that feeds the request body, counting what they move. *)
From S2P Require Import Prelude GoStrings GoEncoding GoNet GoHttp GoIO.
From S2P Require Auth AuthStore ConnTracker Listener Rules Proxy.
#[local] Open Scope Z_scope.

Record Config := {
  Endpoint : string;
  Hostname : string;
  Username : string;
  Password : string;
  Insecure : bool;
  PinnedCertPEM : string;
  Exclusions : list string;
  EnableAdBlock : bool;
  UpstreamDNS : string;
  RoutingMode : string;
}.

(** The counters; [BytesIn] and [BytesOut] are uint64, [Tunnels] int64,
    [ActiveConn] int32. *)
Record Stats := { BytesIn : Z; BytesOut : Z; Tunnels : Z; OpenedAt : Z; ActiveConn : Z }.

Definition zero_stats : Stats :=
  {| BytesIn := 0; BytesOut := 0; Tunnels := 0; OpenedAt := 0; ActiveConn := 0 |}.

Definition add_in (n : Z) (s : Stats) : Stats :=
  {| BytesIn := u64 (BytesIn s + n); BytesOut := BytesOut s; Tunnels := Tunnels s;
     OpenedAt := OpenedAt s; ActiveConn := ActiveConn s |}.
Definition add_out (n : Z) (s : Stats) : Stats :=
  {| BytesIn := BytesIn s; BytesOut := u64 (BytesOut s + n); Tunnels := Tunnels s;
     OpenedAt := OpenedAt s; ActiveConn := ActiveConn s |}.
Definition add_tunnel (s : Stats) : Stats :=
  {| BytesIn := BytesIn s; BytesOut := BytesOut s; Tunnels := i64 (Tunnels s + 1);
     OpenedAt := OpenedAt s; ActiveConn := i32 (ActiveConn s + 1) |}.
Definition drop_active (s : Stats) : Stats :=
  {| BytesIn := BytesIn s; BytesOut := BytesOut s; Tunnels := Tunnels s;
     OpenedAt := OpenedAt s; ActiveConn := i32 (ActiveConn s - 1) |}.

(** ** The pipe and the connection *)

(** The write half of an [io.Pipe]: what was written, whether it is closed, and
    the bytes the other side takes before it closes with an error. *)
Record pipe := { pw_data : list byte; pw_closed : bool; pr_left : option (nat * string) }.

Definition new_pipe (left : option (nat * string)) : pipe :=
  {| pw_data := []; pw_closed := false; pr_left := left |}.

Definition ErrClosedPipe : string := "io: read/write on closed pipe".

Definition pipe_Write (p : pipe) (b : list byte) : pipe * (nat * option string) :=
  if pw_closed p then (p, (0%nat, Some ErrClosedPipe))
  else match pr_left p with
       | None => ({| pw_data := pw_data p ++ b; pw_closed := false; pr_left := None |}, (length b, None))
       | Some (k, e) =>
           if (length b <=? k)%nat
           then ({| pw_data := pw_data p ++ b; pw_closed := false; pr_left := Some ((k - length b)%nat, e) |},
                 (length b, None))
           else ({| pw_data := pw_data p ++ take k b; pw_closed := false; pr_left := Some (0%nat, e) |},
                 (k, Some e))
       end.

Definition pipe_Close (p : pipe) : pipe :=
  {| pw_data := pw_data p; pw_closed := true; pr_left := pr_left p |}.

(** A response body. *)
Record body := { bd_reader : reader; bd_closed : bool }.

Definition errClosedBody : string := "http2: response body closed".

(** [Read] into [size] bytes when the transport has [chunk] bytes at hand; it
    waits for one at least. *)
Definition body_Read (b : body) (size chunk : nat) : body * (list byte * option string) :=
  if bd_closed b then (b, ([], Some errClosedBody))
  else match rd_data (bd_reader b) with
       | [] => (b, ([], Some (rd_end (bd_reader b))))
       | data => let n := Nat.min size (Nat.max 1 chunk) in
                 ({| bd_reader := drop_rd n (bd_reader b); bd_closed := false |}, (take n data, None))
       end.

Definition body_Close (b : body) : body := {| bd_reader := bd_reader b; bd_closed := true |}.

(** [closed] is the state of [closeOnce]; the addresses are fixed texts. *)
Record tunnelConn := {
  tc_target : string;
  tc_reader : body;
  tc_writer : pipe;
  tc_closed : bool;
  tc_local : string * string;
  tc_remote : string * string;
}.

Definition newTunnelConn (target : string) (r : body) (w : pipe) : tunnelConn :=
  {| tc_target := target; tc_reader := r; tc_writer := w; tc_closed := false;
     tc_local := ("ttgo", "client"); tc_remote := ("ttgo", target) |}.

Definition with_ends (c : tunnelConn) (r : body) (w : pipe) (closed : bool) : tunnelConn :=
  {| tc_target := tc_target c; tc_reader := r; tc_writer := w; tc_closed := closed;
     tc_local := tc_local c; tc_remote := tc_remote c |}.

Definition Read (c : tunnelConn) (s : Stats) (size chunk : nat)
  : tunnelConn * Stats * (list byte * option string) :=
  let '(b, (data, err)) := body_Read (tc_reader c) size chunk in
  let n := Z.of_nat (length data) in
  (with_ends c b (tc_writer c) (tc_closed c), if 0 <? n then add_in n s else s, (data, err)).

Definition Write (c : tunnelConn) (s : Stats) (p : list byte)
  : tunnelConn * Stats * (nat * option string) :=
  let '(w, (n, err)) := pipe_Write (tc_writer c) p in
  (with_ends c (tc_reader c) w (tc_closed c), if 0 <? Z.of_nat n then add_out (Z.of_nat n) s else s, (n, err)).

Definition Close (c : tunnelConn) (s : Stats) : tunnelConn * Stats :=
  if tc_closed c then (c, s)
  else (with_ends c (body_Close (tc_reader c)) (pipe_Close (tc_writer c)) true, drop_active s).

Definition CloseWrite (c : tunnelConn) : tunnelConn :=
  with_ends c (tc_reader c) (pipe_Close (tc_writer c)) (tc_closed c).

Definition LocalAddr (c : tunnelConn) : string * string := tc_local c.
Definition RemoteAddr (c : tunnelConn) : string * string := tc_remote c.

(** ** The dialer *)

Section dialer.
(** Certificate pools, and crypto/x509 reading one from PEM text. *)
Context {Pool : Type}.
Variable AppendCertsFromPEM : string -> option Pool.

(** internal/client/tls.go *)
Definition tlsPoolFromPEM (pem : string) : option Pool := AppendCertsFromPEM pem.

Record tlsConfig := { ServerName : string; InsecureSkipVerify : bool; RootCAs : option Pool }.

Record Dialer := {
  d_cfg : Config;
  d_tls : tlsConfig;
  d_endpoint : string;            (* the host of the https URL *)
  d_authBasic : string;
  d_sni : string;
}.

Definition authBasic_of (cfg : Config) : string :=
  "Basic " +:+ b64_EncodeToString (bytes_of (Username cfg +:+ ":" +:+ Password cfg)).

Definition NewDialer (cfg : Config) : res Dialer :=
  match SplitHostPort (Endpoint cfg) with
  | Err e => Err ("endpoint: " +:+ e)
  | Ok (host, port) =>
      let sni := if bool_decide (Hostname cfg = "") then host else Hostname cfg in
      let roots := if (0 <? String.length (PinnedCertPEM cfg))%nat
                   then tlsPoolFromPEM (PinnedCertPEM cfg) else None in
      Ok {| d_cfg := cfg;
            d_tls := {| ServerName := sni; InsecureSkipVerify := Insecure cfg; RootCAs := roots |};
            d_endpoint := JoinHostPort host port;
            d_authBasic := authBasic_of cfg;
            d_sni := sni |}
  end.

(** A request to the transport, and its response. *)
Record http_request := { q_URL : string; q_Host : string; q_Header : header }.
Record http_response := { p_StatusCode : Z; p_Status : string; p_Body : reader }.

(** The network: whether net/url takes the endpoint's URL, the answer of the
    HTTP/2 transport, and how much of the request body it takes. *)
Record network := {
  n_url_error : string -> option string;
  n_Do : Dialer -> http_request -> res http_response;
  n_left : option (nat * string);
}.

Definition connect_request (d : Dialer) (target : string) : http_request :=
  {| q_URL := "https://" +:+ d_endpoint d; q_Host := target;
     q_Header := Header_Set (Header_Set ∅ "Proxy-Authorization" (d_authBasic d))
                   "User-Agent" "ttgo-client/0.1" |}.

(** The connection, or the error; the pipe of a failed dial is returned too, to
    say that it is closed. *)
Definition DialContext (d : Dialer) (net : network) (s : Stats) (target : string)
  : Stats * pipe * res tunnelConn :=
  let pw := new_pipe (n_left net) in
  match n_url_error net ("https://" +:+ d_endpoint d) with
  | Some e => (s, pipe_Close pw, Err e)
  | None =>
      match n_Do net d (connect_request d target) with
      | Err e => (s, pipe_Close pw, Err ("connect " +:+ target +:+ ": " +:+ e))
      | Ok resp =>
          if bool_decide (p_StatusCode resp <> StatusOK) then
            let text := TrimSpace (str_of (take 256 (rd_data (p_Body resp)))) in
            (s, pipe_Close pw,
             Err ("connect " +:+ target +:+ ": " +:+ p_Status resp +:+ ": " +:+ text))
          else (add_tunnel s, pw,
                Ok (newTunnelConn target {| bd_reader := p_Body resp; bd_closed := false |} pw))
      end
  end.

Definition CheckAuth (d : Dialer) (net : network) (s : Stats) : Stats * res unit :=
  let '(s, _, r) := DialContext d net s "_check" in
  match r with
  | Err e => (s, Err e)
  | Ok c => let '(_, s) := Close c s in (s, Ok tt)
  end.
End dialer.
Arguments tlsConfig : clear implicits.
Arguments Dialer : clear implicits.
Arguments network : clear implicits.

(** ** The endpoint at the other end *)

(** The request as the endpoint's HTTP/2 server presents it to the handler. *)
Definition arrived (from : string) (q : http_request) : request :=
  {| r_Method := MethodConnect; r_Host := q_Host q; r_URLHost := q_Host q; r_Path := "";
     r_Query := ∅; r_Header := q_Header q; r_RemoteAddr := from; r_ProtoMajor := 2 |}.

(** A network whose endpoint runs the handler of [Proxy]. *)
Definition through {Pool ST : Type} `{AuthStore.UserStore ST} (h : Proxy.Handler) (ctx : Listener.context)
    (e : Proxy.env ST) (w : Proxy.world) (from : string) : network Pool :=
  {| n_url_error := fun _ => None;
     n_Do := fun _ q =>
       let resp := (Proxy.ServeHTTP h ctx e w (arrived from q) new_response).2 in
       Ok {| p_StatusCode := final_status resp; p_Status := fmt_d (final_status resp);
             p_Body := body_of (bytes_of (w_body resp)) |};
     n_left := None |}.

(** ** Histories: what the rest of the client does with a dialer's connections *)

Record tunnels := { t_stats : Stats; t_conns : list tunnelConn }.

Section history.
Context {Pool : Type}.
Variable d : Dialer Pool.

Inductive event :=
| EvDial (net : network Pool) (target : string)
| EvRead (i size chunk : nat)
| EvWrite (i : nat) (p : list byte)
| EvClose (i : nat)
| EvCloseWrite (i : nat).

(** One call; its result is the number of bytes handed to the caller. *)
Definition step (w : tunnels) (ev : event) : tunnels * nat :=
  let upd i c s := {| t_stats := s; t_conns := <[i := c]> (t_conns w) |} in
  match ev with
  | EvDial net target =>
      match DialContext d net (t_stats w) target with
      | (s, _, Ok c) => ({| t_stats := s; t_conns := t_conns w ++ [c] |}, 0%nat)
      | (s, _, Err _) => ({| t_stats := s; t_conns := t_conns w |}, 0%nat)
      end
  | EvRead i size chunk =>
      match t_conns w !! i with
      | None => (w, 0%nat)
      | Some c => let '(c, s, (data, _)) := Read c (t_stats w) size chunk in (upd i c s, length data)
      end
  | EvWrite i p =>
      match t_conns w !! i with
      | None => (w, 0%nat)
      | Some c => let '(c, s, _) := Write c (t_stats w) p in (upd i c s, 0%nat)
      end
  | EvClose i =>
      match t_conns w !! i with
      | None => (w, 0%nat)
      | Some c => let '(c, s) := Close c (t_stats w) in (upd i c s, 0%nat)
      end
  | EvCloseWrite i =>
      match t_conns w !! i with
      | None => (w, 0%nat)
      | Some c => (upd i (CloseWrite c) (t_stats w), 0%nat)
      end
  end.

Fixpoint run (evs : list event) (w : tunnels) : tunnels * Z :=
  match evs with
  | [] => (w, 0)
  | ev :: evs => let '(w, n) := step w ev in
                 let '(w, m) := run evs w in (w, Z.of_nat n + m)
  end.
End history.

Fixpoint zsum {A} (f : A -> Z) (l : list A) : Z :=
  match l with [] => 0 | x :: l => f x + zsum f l end.
Definition is_open (c : tunnelConn) : Z := if tc_closed c then 0 else 1.
Definition sent (c : tunnelConn) : Z := Z.of_nat (length (pw_data (tc_writer c))).

Definition counters_right (w : tunnels) (delivered : Z) : Prop :=
  ActiveConn (t_stats w) = i32 (zsum is_open (t_conns w)) /\
  Tunnels (t_stats w) = i64 (Z.of_nat (length (t_conns w))) /\
  BytesOut (t_stats w) = u64 (zsum sent (t_conns w)) /\
  BytesIn (t_stats w) = u64 delivered.

(** A closed connection moves nothing. *)
Definition shut (c : tunnelConn) : Prop :=
  tc_closed c = true -> pw_closed (tc_writer c) = true /\ bd_closed (tc_reader c) = true.

(** ** Lemmas *)

Lemma i32_add a b : i32 (i32 a + b) = i32 (a + b).
Proof. unfold i32. dlia. Qed.

Lemma i64_add a b : i64 (i64 a + b) = i64 (a + b).
Proof. unfold i64. dlia. Qed.

Lemma zsum_app {A} (f : A -> Z) l k : zsum f (l ++ k) = zsum f l + zsum f k.
Proof. induction l as [|x l IH]; cbn; [done|]. rewrite IH. lia. Qed.

Lemma zsum_insert {A} (f : A -> Z) l i x y :
  l !! i = Some x -> zsum f (<[i := y]> l) = zsum f l + (f y - f x).
Proof.
  revert i. induction l as [|z l IH]; intros i; [done|]. destruct i as [|i]; cbn.
  - intros [= ->]. lia.
  - intros E. change (f z + zsum f (<[i := y]> l) = f z + zsum f l + (f y - f x)).
    rewrite (IH i) by done. lia.
Qed.

Lemma zsum_same {A} (f : A -> Z) l i x y :
  l !! i = Some x -> f y = f x -> zsum f (<[i := y]> l) = zsum f l.
Proof. intros E H. rewrite (zsum_insert f l i x y E), H. lia. Qed.

Lemma pipe_Write_sent p b p' n err :
  pipe_Write p b = (p', (n, err)) ->
  length (pw_data p') = (length (pw_data p) + n)%nat /\ pw_closed p' = pw_closed p /\
  (n <= length b)%nat.
Proof.
  unfold pipe_Write. destruct (pw_closed p) eqn:Ec; [intros [= <- <- _]; split_and!; [lia|done|lia]|].
  destruct (pr_left p) as [[k e]|]; [destruct (Nat.leb_spec (length b) k)|];
    intros [= <- <- _]; cbn; rewrite length_app, ?length_take; split_and!; [lia|done|lia..|done|lia].
Qed.

(** A dial: a fresh open connection exactly on a response of status 200, and
    otherwise an error, the request's pipe closed and the counters untouched. *)
Lemma DialContext_cases {Pool} (d : Dialer Pool) net s target :
  let '(s', p, r) := DialContext d net s target in
  match r with
  | Ok c => exists resp, n_url_error net ("https://" +:+ d_endpoint d) = None /\
      n_Do net d (connect_request d target) = Ok resp /\ p_StatusCode resp = StatusOK /\
      c = newTunnelConn target {| bd_reader := p_Body resp; bd_closed := false |} (new_pipe (n_left net)) /\
      s' = add_tunnel s
  | Err _ => s' = s /\ pw_closed p = true /\
      ((exists e, n_url_error net ("https://" +:+ d_endpoint d) = Some e) \/
       (exists e, n_Do net d (connect_request d target) = Err e) \/
       (exists resp, n_Do net d (connect_request d target) = Ok resp /\ p_StatusCode resp <> StatusOK))
  end.
Proof.
  unfold DialContext. destruct (n_url_error _ _) eqn:Eu; [eauto 6|].
  destruct (n_Do _ _ _) as [resp|e] eqn:Ed; [|eauto 8].
  case_bool_decide as Es; [eauto 8|].
  exists resp. destruct (decide (p_StatusCode resp = StatusOK)); [done|tauto].
Qed.

Lemma step_counters {Pool} (d : Dialer Pool) w ev w' n delivered :
  step d w ev = (w', n) -> counters_right w delivered -> counters_right w' (delivered + Z.of_nat n).
Proof.
  intros E (Ha & Ht & Ho & Hi). unfold step in E.
  destruct ev as [net target|i size chunk|i p|i|i].
  - pose proof (DialContext_cases d net (t_stats w) target) as H.
    destruct (DialContext _ _ _ _) as [[s p] [c|e]].
    + destruct H as (resp & _ & _ & _ & -> & ->). simplify_eq. unfold counters_right. cbn.
      rewrite !zsum_app, length_app, Ha, Ht, i32_add, i64_add. cbn.
      split_and!; [done|f_equal; lia|by rewrite Ho, !Z.add_0_r|by rewrite Hi, Z.add_0_r].
    + destruct H as (-> & _). simplify_eq. rewrite Z.add_0_r. by split_and!.
  - destruct (t_conns w !! i) as [c|] eqn:Ec; [|simplify_eq; rewrite Z.add_0_r; by split_and!].
    unfold Read in E. destruct (body_Read _ _ _) as [b [data err]]. simplify_eq. unfold counters_right. cbn.
    rewrite !(zsum_same _ _ _ c _ Ec), length_insert by done.
    destruct (Z.ltb_spec 0 (Z.of_nat (length data))); cbn; split_and!; try done.
    + by rewrite Hi, u64_add_u64.
    + rewrite Hi. f_equal. lia.
  - destruct (t_conns w !! i) as [c|] eqn:Ec; [|simplify_eq; rewrite Z.add_0_r; by split_and!].
    unfold Write in E. destruct (pipe_Write _ _) as [q [k err]] eqn:Ep. simplify_eq.
    apply pipe_Write_sent in Ep as (El & _ & _). unfold counters_right. cbn.
    rewrite (zsum_same is_open _ _ c _ Ec), length_insert, (zsum_insert sent _ _ c _ Ec) by done.
    unfold sent at 2 3. cbn. rewrite El, Z.add_0_r.
    destruct (Z.ltb_spec 0 (Z.of_nat k)); cbn; split_and!; try done; rewrite Ho.
    + rewrite u64_add_u64. f_equal. lia.
    + f_equal. lia.
  - destruct (t_conns w !! i) as [c|] eqn:Ec; [|simplify_eq; rewrite Z.add_0_r; by split_and!].
    unfold Close in E. destruct (tc_closed c) eqn:Ecl; simplify_eq.
    + rewrite list_insert_id, Z.add_0_r by done. by split_and!.
    + unfold counters_right. cbn. rewrite (zsum_same sent _ _ c _ Ec), length_insert,
        (zsum_insert is_open _ _ c _ Ec), Ha, Z.add_0_r by done.
      assert (is_open c = 1) as -> by (unfold is_open; by rewrite Ecl).
      split_and!; try done. apply (i32_add _ (-1)).
  - destruct (t_conns w !! i) as [c|] eqn:Ec; [|simplify_eq; rewrite Z.add_0_r; by split_and!].
    simplify_eq. unfold counters_right. cbn. rewrite !(zsum_same _ _ _ c _ Ec), length_insert, Z.add_0_r by done.
    by split_and!.
Qed.

(** The header a dialer sends is read back by the endpoint. *)
Lemma authBasic_parsed cfg :
  has_char ":"%char (Username cfg) = false ->
  Auth.parse_basic (authBasic_of cfg) = Some (Username cfg, Password cfg).
Proof.
  apply Auth.parse_basic_encoded.
Qed.

Lemma connect_credentials {Pool} (d : Dialer Pool) target from :
  Header_Get (r_Header (arrived from (connect_request d target))) "Proxy-Authorization" = d_authBasic d.
Proof. unfold Header_Get, connect_request, arrived, Header_Set. cbn [r_Header q_Header].
  rewrite lookup_insert_ne by done. by rewrite lookup_insert_eq.
Qed.

(** The credentials of a dialer's requests, and the only user they admit. *)
Lemma dialer_credentials {Pool} (pem : string -> option Pool) cfg (d : Dialer Pool) target from :
  NewDialer pem cfg = Ok d -> has_char ":"%char (Username cfg) = false ->
  Auth.basic_credentials (arrived from (connect_request d target)) = Some (Username cfg, Password cfg).
Proof.
  intros Hd Hcolon. unfold Auth.basic_credentials. rewrite connect_credentials.
  assert (d_authBasic d = authBasic_of cfg) as ->; [|by apply authBasic_parsed].
  unfold NewDialer in Hd. destruct (SplitHostPort _) as [[? ?]|]; [by simplify_eq|done].
Qed.

Lemma admitted_user {ST : Type} `{AuthStore.UserStore ST} h w ctx (e : Proxy.env ST) r u pw :
  Auth.basic_credentials r = Some (u, pw) -> forall v, Proxy.admitted h w ctx e r v -> v = u.
Proof.
  intros Hc v (_ & _ & Hv & Hne & Hdeny & _).
  destruct (Auth.CheckExt _ _ _ _) as [a' res] eqn:E. cbn in Hv, Hdeny.
  apply Auth.CheckExt_accept in E as (pw' & en & Hp & _); [|done].
  unfold Auth.basic_credentials in Hc. rewrite Hc in Hp. by simplify_eq.
Qed.

(** What the endpoint answers to the sentinel request. *)
Lemma served_check {ST : Type} `{AuthStore.UserStore ST} h ctx (e : Proxy.env ST) w r u :
  r_Host r = Proxy.pseudoHostCheck ->
  (forall v, Proxy.admitted h w ctx e r v -> v = u) ->
  (final_status (Proxy.ServeHTTP h ctx e w r new_response).2 = StatusOK <->
   Proxy.admitted h w ctx e r u /\
   Rules.Allow (Proxy.w_rules w) (Proxy.remoteIP r) (Listener.TLSRandomFromContext ctx) = true).
Proof.
  intros Hh Hu. unfold Proxy.ServeHTTP. pose proof (Proxy.authenticate_spec h w ctx e r new_response) as Ha.
  pose proof (Proxy.authenticate_admitted h w ctx e r new_response u) as Hb.
  destruct (Proxy.authenticate h w ctx e r new_response) as [w1 [resp|v]]; destruct Ha as (_ & Hr & _ & Ha).
  { unfold final_status. split.
    - destruct (Ha eq_refl) as [E|E]; cbn; rewrite E; discriminate.
    - intros [Hadm _]. by destruct (Hb Hadm). }
  pose proof (Hu v Ha) as ->. cbn [Proxy.w_rules Proxy.upd_tracker]. rewrite Hr.
  destruct (Rules.Allow _ _ _); cbn [negb].
  - unfold Proxy.route, Proxy.request_target. rewrite Hh, (bool_decide_false (Proxy.pseudoHostCheck = "")) by done.
    rewrite bool_decide_true by done. by split.
  - unfold final_status. cbn. split; [discriminate|by intros []].
Qed.

(** ** Properties *)

(** C37: the client's counters are right.  After any sequence of dials, reads,
    writes, half-closes and closes, repeated ones included, the number of active
    connections is that of the connections not closed, [Tunnels] counts the
    successful dials, and the byte counters are the bytes written to the
    request bodies and the bytes handed to the readers, each modulo its width. *)
Theorem tunnel_counters {Pool} (d : Dialer Pool) (evs : list event) :
  let '(w, delivered) := run d evs {| t_stats := zero_stats; t_conns := [] |} in
  counters_right w delivered.
Proof.
  assert (H : forall w n, counters_right w n ->
    let '(w', m) := run d evs w in counters_right w' (n + m)).
  { induction evs as [|ev evs IH]; intros w n Hw; cbn; [by rewrite Z.add_0_r|].
    destruct (step d w ev) as [w1 k] eqn:E. pose proof (step_counters d w ev w1 k n E Hw) as H1.
    specialize (IH w1 _ H1). destruct (run d evs w1) as [w2 m]. by rewrite Z.add_assoc. }
  apply (H _ 0). by split_and!.
Qed.

(** C8: client and endpoint agree on who may connect.  The credentials of a
    dialer, for a user name without a colon, are the ones the endpoint decodes
    from its requests; and its authentication check succeeds exactly when the
    endpoint's handler admits that user and its rules allow the address. *)
Theorem check_auth_end_to_end {Pool ST : Type} `{AuthStore.UserStore ST} (pem : string -> option Pool)
    (cfg : Config) (d : Dialer Pool) (h : Proxy.Handler) (ctx : Listener.context) (e : Proxy.env ST)
    (w : Proxy.world) (from : string) (s : Stats)
  (Hd : NewDialer pem cfg = Ok d) (Hcolon : has_char ":"%char (Username cfg) = false) :
  let r := arrived from (connect_request d "_check") in
  Auth.basic_credentials r = Some (Username cfg, Password cfg) /\
  (is_ok (CheckAuth d (through h ctx e w from) s).2 = true <->
   Proxy.admitted h w ctx e r (Username cfg) /\
   Rules.Allow (Proxy.w_rules w) (Proxy.remoteIP r) (Listener.TLSRandomFromContext ctx) = true).
Proof.
  cbn zeta.
  pose proof (dialer_credentials pem cfg d "_check" from Hd Hcolon) as Hc.
  split; [done|].
  rewrite <- (served_check h ctx e w (arrived from (connect_request d "_check")) (Username cfg)); [|done|].
  - unfold CheckAuth. pose proof (DialContext_cases d (through h ctx e w from) s "_check") as Hk.
    destruct (DialContext _ _ _ _) as [[s' p] [c|msg]].
    + destruct Hk as (resp & _ & [= <-] & Hs & _). cbn [p_StatusCode] in Hs.
      by destruct (Close c s').
    + split; [done|]. intros E. destruct Hk as (_ & _ & [[? ?]|[[? ?]|(resp & [= <-] & Hs)]]); done.
  - by eapply admitted_user.
Qed.

(** ** Witnesses *)

Definition ex_cfg : Config :=
  {| Endpoint := "vpn.example:443"; Hostname := ""; Username := "ann"; Password := "secret"; Insecure := true;
     PinnedCertPEM := ""; Exclusions := []; EnableAdBlock := false; UpstreamDNS := ""; RoutingMode := "" |}.
Definition ex_dialer : Dialer unit :=
  {| d_cfg := ex_cfg;
     d_tls := {| ServerName := "vpn.example"; InsecureSkipVerify := true; RootCAs := None |};
     d_endpoint := "vpn.example:443"; d_authBasic := authBasic_of ex_cfg; d_sni := "vpn.example" |}.

Lemma check_auth_end_to_end_witness :
  Auth.basic_credentials (arrived "198.51.100.7:4000" (connect_request ex_dialer "_check")) =
  Some ("ann", "secret").
Proof.
  eapply (@check_auth_end_to_end unit unit Proxy.ex_store (fun _ => Some tt) ex_cfg ex_dialer Proxy.ex_handler Listener.background
    Proxy.ex_env Proxy.ex_world "198.51.100.7:4000" zero_stats).
  - vm_compute. reflexivity.
  - reflexivity.
Defined.
