(* ===== verification/Tun.v ===== *)
(** internal/client/tun.go and adblock.go: what the client's TUN device keeps and
    decides.  The record of connections and its history, the names learnt from
    DNS answers, the DNS relay with its advertisement filter and its bypass of
    excluded domains, and the relay of a TCP flow over a tunnel.  The netstack
    (gVisor), the device itself and the DNS message format (x/net/dnsmessage)
    are outside the repository. *)
From S2P Require Import Prelude GoStrings GoNet GoIO.
From S2P Require Dialer Proxy Listener.
#[local] Open Scope Z_scope.

(** ** adblock.go *)

Record AdBlocker := { ab_domains : gset string; ab_ready : bool }.

Definition NewAdBlocker : AdBlocker := {| ab_domains := ∅; ab_ready := false |}.

(** [bufio.Scanner] over lines: a line end is a newline, with a carriage return
    before it dropped; a line of 64 KiB ends the scan. *)
Definition scan_lines (text : string) : list string :=
  let drop_cr l := TrimSuffix l (String "013"%char "") in
  let raw := Split nl text in
  let raw := if bool_decide (last raw = Some "") then removelast raw else raw in
  let fix upto (ls : list string) : list string :=
    match ls with
    | [] => []
    | l :: ls => if (String.length l <? 65536)%nat then drop_cr l :: upto ls else []
    end in
  upto raw.

(** The domain a line of the list blocks. *)
Definition blocked_by_line (line : string) : option string :=
  let line := TrimSpace line in
  if bool_decide (line = "") || HasPrefix line "#" then None
  else match Fields line with
       | host :: domain :: _ => if bool_decide (host = "0.0.0.0") then Some domain else None
       | _ => None
       end.

(** Loading a list's text; [None] when neither the cache nor the download
    gives one, which leaves the blocker as it is. *)
Definition load (a : AdBlocker) (text : option string) : AdBlocker :=
  match text with
  | None => a
  | Some text => {| ab_domains := list_to_set (omap blocked_by_line (scan_lines text)); ab_ready := true |}
  end.

Definition IsBlocked (a : AdBlocker) (domain : string) : bool :=
  ab_ready a && bool_decide (TrimSuffix domain "." ∈ ab_domains a).

(** ** The record of connections *)

Definition maxConnHistory : nat := 500.

Record ConnEntry := {
  ID : Z;
  Target : string;
  Domain : string;
  StartedAt : Z;
  EndedAt : Z;
  BytesUp : Z;
  BytesDown : Z;
  Active : bool;
}.

Record TunDevice := {
  name : string;
  dnsExclusions : list string;
  onDNSBypass : bool;               (* whether the callback is set *)
  adBlocker : option AdBlocker;
  upstreamDNS : string;
  connTrack : gmap Z ConnEntry;
  connHistory : list ConnEntry;
  connSeq : Z;
  rdnsCache : gmap string string;
}.

Definition new_device (n : string) : TunDevice :=
  {| name := n; dnsExclusions := []; onDNSBypass := false; adBlocker := None; upstreamDNS := "";
     connTrack := ∅; connHistory := []; connSeq := 0; rdnsCache := ∅ |}.

Definition with_conns (t : TunDevice) (m : gmap Z ConnEntry) (h : list ConnEntry) (n : Z) : TunDevice :=
  {| name := name t; dnsExclusions := dnsExclusions t; onDNSBypass := onDNSBypass t;
     adBlocker := adBlocker t; upstreamDNS := upstreamDNS t; connTrack := m; connHistory := h;
     connSeq := n; rdnsCache := rdnsCache t |}.

Definition with_dns (t : TunDevice) (excl : list string) (cb : bool) (ab : option AdBlocker) (up : string)
    (cache : gmap string string) : TunDevice :=
  {| name := name t; dnsExclusions := excl; onDNSBypass := cb; adBlocker := ab; upstreamDNS := up;
     connTrack := connTrack t; connHistory := connHistory t; connSeq := connSeq t; rdnsCache := cache |}.

Definition SetDNSBypass (t : TunDevice) (exclusions : list string) : TunDevice :=
  with_dns t exclusions true (adBlocker t) (upstreamDNS t) (rdnsCache t).
Definition SetUpstreamDNS (t : TunDevice) (dns : string) : TunDevice :=
  with_dns t (dnsExclusions t) (onDNSBypass t) (adBlocker t) dns (rdnsCache t).
Definition SetAdBlocker (t : TunDevice) (a : AdBlocker) : TunDevice :=
  with_dns t (dnsExclusions t) (onDNSBypass t) (Some a) (upstreamDNS t) (rdnsCache t).

Definition recordDNS (t : TunDevice) (domain : string) (ips : list IP) : TunDevice :=
  with_dns t (dnsExclusions t) (onDNSBypass t) (adBlocker t) (upstreamDNS t)
    (foldl (fun m ip => <[IP_String ip := domain]> m) (rdnsCache t) ips).

Definition lookupDomain (t : TunDevice) (ip : string) : string := default "" (rdnsCache t !! ip).

Definition trackConn (t : TunDevice) (now : Z) (target : string) : TunDevice * Z :=
  let id := u64 (connSeq t + 1) in
  let host := match SplitHostPort target with Ok (h, _) => h | Err _ => "" end in
  let e := {| ID := id; Target := target; Domain := lookupDomain t host; StartedAt := now; EndedAt := 0;
              BytesUp := 0; BytesDown := 0; Active := true |} in
  (with_conns t (<[id := e]> (connTrack t)) (connHistory t) id, id).

Definition finished (e : ConnEntry) (now up down : Z) : ConnEntry :=
  {| ID := ID e; Target := Target e; Domain := Domain e; StartedAt := StartedAt e; EndedAt := now;
     BytesUp := up; BytesDown := down; Active := false |}.

Definition untrackConn (t : TunDevice) (now id up down : Z) : TunDevice :=
  match connTrack t !! id with
  | None => t
  | Some e =>
      let h := connHistory t ++ [finished e now up down] in
      let h := if (maxConnHistory <? length h)%nat then drop (length h - maxConnHistory) h else h in
      with_conns t (delete id (connTrack t)) h (connSeq t)
  end.

Definition AllConns (t : TunDevice) : list ConnEntry :=
  connHistory t ++ (map_to_list (connTrack t)).*2.

(** ** Relaying a TCP flow *)

Record copyResult := { dir : string; cr_bytes : Z; cr_err : option string }.

Definition pickBytes (d : string) (a b : copyResult) : Z :=
  if bool_decide (dir a = d) then cr_bytes a else if bool_decide (dir b = d) then cr_bytes b else 0.

Definition pickErr (d : string) (a b : copyResult) : string :=
  let err := if bool_decide (dir a = d) then cr_err a
             else if bool_decide (dir b = d) then cr_err b else None in
  match err with
  | None => ""
  | Some e => if bool_decide (e = GoIO.EOF) then "EOF" else e
  end.

Definition uplink (n : Z) (err : option string) : copyResult :=
  {| dir := "uplink"; cr_bytes := n; cr_err := err |}.
Definition downlink (n : Z) (err : option string) : copyResult :=
  {| dir := "downlink"; cr_bytes := n; cr_err := err |}.

Section relay.
Context {Pool : Type}.

(** [relayTCP]: [used] gives the two results, in the order in which they come,
    and the state of the tunnel and the counters then; the tunnel is closed at
    the end. *)
Definition relayTCP (t : TunDevice) (d : Dialer.Dialer Pool) (net : Dialer.network Pool)
    (s : Dialer.Stats) (now later : Z) (target : string)
    (used : Dialer.tunnelConn -> Dialer.Stats ->
            Dialer.tunnelConn * Dialer.Stats * (copyResult * copyResult))
  : TunDevice * Dialer.Stats * option Dialer.tunnelConn :=
  let '(t, id) := trackConn t now target in
  match Dialer.DialContext d net s target with
  | (s, _, Err _) => (untrackConn t later id 0 0, s, None)
  | (s, _, Ok c) =>
      let '(c, s, (r1, r2)) := used c s in
      let t := untrackConn t later id (pickBytes "uplink" r1 r2) (pickBytes "downlink" r1 r2) in
      let '(c, s) := Dialer.Close c s in
      (t, s, Some c)
  end.
End relay.

(** ** DNS *)

(** The answers of x/net/dnsmessage: a resource body. *)
Inductive rbody := BodyA (a : list byte) | BodyAAAA (a : list byte) | BodyOther.

Definition TypeA : Z := 1.
Definition TypeAAAA : Z := 28.

(** The parser and the builder of x/net/dnsmessage.  A method that fails may
    still move its parser. *)
Class DNS := {
  Parser : Type;
  Header : Type;
  Question : Type;
  Start : list byte -> res (Header * Parser);
  Response : Header -> bool;
  as_reply : Header -> Header;           (* Response and Authoritative set *)
  parse_Question : Parser -> res (Question * Parser);
  q_Name : Question -> string;
  q_Type : Question -> Z;
  SkipAllQuestions : Parser -> Parser * option string;
  Answer : Parser -> Parser * res rbody;
  AnswerHeader : Parser -> Parser * res Z;
  AResource : Parser -> Parser * res (list byte);
  AAAAResource : Parser -> Parser * res (list byte);
  SkipAnswer : Parser -> Parser * option string;
  build : Header -> Question -> list (Z * list byte) -> res (list byte);
}.

(** What a parser has left; a resource that is read is gone. *)
Class DNSLaws `{DNS} := {
  left_ : Parser -> nat;
  Answer_moves p p' b : Answer p = (p', Ok b) -> (left_ p' < left_ p)%nat;
  AnswerHeader_stays p p' r : AnswerHeader p = (p', r) -> (left_ p' <= left_ p)%nat;
  AResource_moves p p' a : AResource p = (p', Ok a) -> (left_ p' < left_ p)%nat;
  AAAAResource_moves p p' a : AAAAResource p = (p', Ok a) -> (left_ p' < left_ p)%nat;
  SkipAnswer_moves p p' : SkipAnswer p = (p', None) -> (left_ p' < left_ p)%nat;
}.

Section dns.
Context `{DNS}.

(** The filter's answer to a query: 0.0.0.0 or ::, and the name asked for. *)
Definition createFakeDNSResponse (buf : list byte) : res (list byte * string) :=
  '(h, p) ← Start buf;
  '(q, _) ← parse_Question p;
  let domain := TrimSuffix (q_Name q) "." in
  let answers := if q_Type q =? TypeA then [(TypeA, replicate 4 x00)]
                 else if q_Type q =? TypeAAAA then [(TypeAAAA, replicate 16 x00)] else [] in
  r ← build (as_reply h) q answers;
  Ok (r, domain).

Fixpoint matchDomain_in (domain : string) (exclusions : list string) : bool :=
  match exclusions with
  | [] => false
  | exc :: rest =>
      let exc := TrimSpace exc in
      if bool_decide (exc = "") then matchDomain_in domain rest
      else if HasPrefix exc "*." then
        if HasSuffix domain (TrimPrefix exc "*") || bool_decide (domain = sdrop 2 exc) then true
        else matchDomain_in domain rest
      else if bool_decide (domain = exc) then true
      else matchDomain_in domain rest
  end.

Definition matchDomain (domain : string) (exclusions : list string) : bool :=
  matchDomain_in (TrimSuffix domain ".") exclusions.

(** The loop over [Answer]; [None] when the fuel is used up. *)
Fixpoint answers (fuel : nat) (p : Parser) : option (list IP) :=
  match fuel with
  | O => None
  | S fuel =>
      match Answer p with
      | (_, Err _) => Some []
      | (p, Ok (BodyA a)) => cons a <$> answers fuel p
      | (p, Ok (BodyAAAA a)) => cons a <$> answers fuel p
      | (p, Ok BodyOther) => answers fuel p
      end
  end.

Definition extractDNSMapping (fuel : nat) (buf : list byte) : option (string * list IP) :=
  match Start buf with
  | Err _ => Some ("", [])
  | Ok (h, p) =>
      if negb (Response h) then Some ("", [])
      else match parse_Question p with
           | Err _ => Some ("", [])
           | Ok (q, p) =>
               match SkipAllQuestions p with
               | (_, Some _) => Some ("", [])
               | (p, None) => pair (TrimSuffix (q_Name q) ".") <$> answers fuel p
               end
           end
  end.

(** The loop over [AnswerHeader]: the error of a resource is dropped, and the
    loop goes on from wherever the parser is. *)
Fixpoint collect (fuel : nat) (p : Parser) : option (list IP) :=
  match fuel with
  | O => None
  | S fuel =>
      match AnswerHeader p with
      | (_, Err _) => Some []
      | (p, Ok ty) =>
          if ty =? TypeA then
            match AResource p with
            | (p, Ok a) => cons a <$> collect fuel p
            | (p, Err _) => collect fuel p
            end
          else if ty =? TypeAAAA then
            match AAAAResource p with
            | (p, Ok a) => cons a <$> collect fuel p
            | (p, Err _) => collect fuel p
            end
          else collect fuel (SkipAnswer p).1
      end
  end.

Definition parseDNSResponse (fuel : nat) (buf : list byte) (exclusions : list string)
  : option (list IP) :=
  if bool_decide (exclusions = []) then Some []
  else match Start buf with
       | Err _ => Some []
       | Ok (h, p) =>
           if negb (Response h) then Some []
           else match parse_Question p with
                | Err _ => Some []
                | Ok (q, p) => if negb (matchDomain (q_Name q) exclusions) then Some []
                               else collect fuel (SkipAllQuestions p).1
                end
       end.

Definition upstream_of (t : TunDevice) : string :=
  if bool_decide (upstreamDNS t = "") then "1.1.1.1" else upstreamDNS t.

(** What one query does: what is written back, and the addresses handed to the
    bypass callback. *)
Record relayed := { rl_written : option (list byte); rl_bypass : list IP }.

(** One query of [relayDNSUDP]; [forward] is [forwardDNSQuery] to the upstream.
    [None]: the relay is still in a loop over the answers. *)
Definition relay_query (fuel : nat) (forward : string -> list byte -> res (list byte))
    (t : TunDevice) (s : Dialer.Stats) (query : list byte)
  : option (TunDevice * Dialer.Stats * relayed) :=
  let s := Dialer.add_out (Z.of_nat (length query)) s in
  let blocked := match adBlocker t with
                 | Some ab => match createFakeDNSResponse query with
                              | Ok (r, domain) => if IsBlocked ab domain then Some r else None
                              | Err _ => None
                              end
                 | None => None
                 end in
  match blocked with
  | Some r => Some (t, s, {| rl_written := Some r; rl_bypass := [] |})
  | None =>
      match forward (upstream_of t) query with
      | Err _ => Some (t, s, {| rl_written := None; rl_bypass := [] |})
      | Ok resp =>
          let s := Dialer.add_in (Z.of_nat (length resp)) s in
          '(domain, ips) ← extractDNSMapping fuel resp;
          let t := if bool_decide (domain <> "") && (0 <? length ips)%nat
                   then recordDNS t domain ips else t in
          bypass ← (if onDNSBypass t then parseDNSResponse fuel resp (dnsExclusions t) else Some []);
          Some (t, s, {| rl_written := Some resp; rl_bypass := bypass |})
      end
  end.

(** [relayDNSUDP]: the queries read until the first error of a read (its
    deadline included), and everything written back. *)
Fixpoint relayDNSUDP (fuel : nat) (forward : string -> list byte -> res (list byte))
    (t : TunDevice) (s : Dialer.Stats) (reads : list (res (list byte)))
  : option (TunDevice * Dialer.Stats * list (list byte) * list IP) :=
  match reads with
  | [] | Err _ :: _ => Some (t, s, [], [])
  | Ok [] :: reads => relayDNSUDP fuel forward t s reads
  | Ok query :: reads =>
      '(t, s, out) ← relay_query fuel forward t s query;
      '(t, s, written, ips) ← relayDNSUDP fuel forward t s reads;
      Some (t, s, option_list (rl_written out) ++ written, rl_bypass out ++ ips)
  end.

(** [handleUDP]: whether the packet is taken, and whether a relay starts. *)
Definition handleUDP (port : Z) (endpoint : bool) : bool * bool :=
  if negb (port =? 53) then (false, false) else (true, endpoint).
End dns.

(** ** The upstream of the DNS relay *)

(** What package net does for [forwardDNSQuery]: a datagram socket, dialled,
    written and read; [dial_checks] is the parse of the address that net.Dial
    begins with. *)
Class Datagrams := {
  udp_socket : Type;
  dial : string -> res udp_socket;
  write : udp_socket -> list byte -> option string;
  read : udp_socket -> res (list byte);                (* one datagram, or the deadline *)
  dial_checks a e : SplitHostPort a = Err e -> exists e', dial a = Err e';
}.

Definition forwardDNSQuery `{Datagrams} (upstream : string) (query : list byte) : res (list byte) :=
  conn ← dial (upstream +:+ ":53");
  match write conn query with
  | Some e => Err e
  | None => resp ← read conn; Ok (take 4096 resp)
  end.

(** ** A flow of the TUN device *)

(** [handleTCP]: whether the flow is reset, and the target of the relay that is
    started for it. *)
Definition handleTCP (local : IP) (port : Z) (endpoint : bool) : bool * option string :=
  let target := JoinHostPort (IP_String local) (fmt_d port) in
  if endpoint then (false, Some target) else (true, None).

(** ** Histories of the record of connections *)

Inductive conn_op := OpTrack (now : Z) (target : string) | OpUntrack (now id up down : Z).

Definition conn_step (t : TunDevice) (o : conn_op) : TunDevice :=
  match o with
  | OpTrack now target => (trackConn t now target).1
  | OpUntrack now id up down => untrackConn t now id up down
  end.

Definition conn_run (ops : list conn_op) (t : TunDevice) : TunDevice := foldl conn_step t ops.

(** Every connection is listed once, under its own id, below the sequence
    number; the history is bounded and holds the ended ones. *)
Definition record_ok (t : TunDevice) : Prop :=
  (length (connHistory t) <= maxConnHistory)%nat /\
  Forall (fun e => Active e = false /\ 0 < ID e <= connSeq t /\ connTrack t !! ID e = None) (connHistory t) /\
  NoDup (ID <$> connHistory t) /\
  map_Forall (fun id e => ID e = id /\ 0 < id <= connSeq t /\ Active e = true) (connTrack t).

(** ** Lemmas *)

Lemma trackConn_ok t now target :
  0 <= connSeq t < 2 ^ 64 - 1 -> record_ok t ->
  let '(t', id) := trackConn t now target in
  record_ok t' /\ id = connSeq t + 1 /\ connSeq t' = connSeq t + 1 /\
  connTrack t !! id = None /\ Forall (fun e => ID e <> id) (connHistory t) /\
  exists e, connTrack t' = <[id := e]> (connTrack t) /\ Target e = target /\ Active e = true.
Proof.
  intros Hs (Hl & Hh & Hn & Ht). unfold trackConn. cbn zeta.
  rewrite u64_id by (unfold in_u64; lia).
  assert (Hfresh : connTrack t !! (connSeq t + 1) = None).
  { destruct (connTrack t !! (connSeq t + 1)) as [e|] eqn:E; [|done]. apply Ht in E as (_ & ? & _). lia. }
  assert (Hold : Forall (fun e => ID e <> connSeq t + 1) (connHistory t)).
  { eapply Forall_impl; [exact Hh|]. cbn. intros e (_ & ? & _). lia. }
  split_and!; try done; [|by eexists].
  unfold record_ok. cbn. split_and!; try done.
  - rewrite Forall_forall in Hh, Hold |- *. intros e He. destruct (Hh e He) as (Ha & Hi & Hx).
    split_and!; [done|lia|lia|]. rewrite lookup_insert_ne by (intros E; by apply (Hold e He)). done.
  - apply map_Forall_insert_2; [cbn; lia|]. eapply map_Forall_impl; [exact Ht|]. cbn.
    intros i e (? & ? & ?). split_and!; [done|lia|lia|done].
Qed.

Lemma NoDup_drop {A} n (l : list A) : NoDup l -> NoDup (drop n l).
Proof. intros H. rewrite <- (take_drop n l) in H. by apply NoDup_app in H as (_ & _ & ?). Qed.

Lemma untrackConn_ok t now id up down :
  record_ok t -> record_ok (untrackConn t now id up down) /\
                 connSeq (untrackConn t now id up down) = connSeq t.
Proof.
  intros (Hl & Hh & Hn & Ht). unfold untrackConn. destruct (connTrack t !! id) as [e|] eqn:E; [|done].
  cbn zeta. split; [|done]. destruct (Ht _ _ E) as (Hid & Hpos & _).
  set (h := connHistory t ++ [finished e now up down]).
  assert (Hf : Forall (fun x => Active x = false /\ 0 < ID x <= connSeq t /\
                                delete id (connTrack t) !! ID x = None) h).
  { apply Forall_app. split.
    - eapply Forall_impl; [exact Hh|]. cbn. intros x (? & ? & Hx). split_and!; [done|lia|lia|].
      by apply lookup_delete_None; right.
    - apply Forall_singleton. cbn. rewrite Hid. split_and!; [done|lia|lia|]. by rewrite lookup_delete_eq. }
  assert (Hd : NoDup (ID <$> h)).
  { unfold h. rewrite fmap_app. apply NoDup_app. split_and!; [done| |apply NoDup_singleton].
    intros i (x & -> & Hx)%list_elem_of_fmap. cbn. rewrite list_elem_of_singleton, Hid. intros Hc.
    rewrite Forall_forall in Hh. destruct (Hh x Hx) as (_ & _ & Hx'). rewrite Hc, E in Hx'. done. }
  unfold record_ok. cbn [connHistory connTrack connSeq with_conns].
  split_and!.
  - destruct (Nat.ltb_spec maxConnHistory (length h)); [rewrite length_drop|]; lia.
  - destruct (_ <? _)%nat; [by apply Forall_drop|done].
  - destruct (_ <? _)%nat; [rewrite fmap_drop; by apply NoDup_drop|done].
  - by apply map_Forall_delete.
Qed.

Lemma conn_run_ok ops t :
  0 <= connSeq t -> connSeq t + Z.of_nat (length ops) < 2 ^ 64 -> record_ok t ->
  record_ok (conn_run ops t) /\ 0 <= connSeq (conn_run ops t) <= connSeq t + Z.of_nat (length ops).
Proof.
  revert t. induction ops as [|o ops IH]; intros t Hs Hlen Ht; cbn in *; [split; [done|lia]|].
  assert (record_ok (conn_step t o) /\ connSeq t <= connSeq (conn_step t o) <= connSeq t + 1) as [H1 H2].
  { destruct o as [now target|now id up down]; cbn [conn_step].
    - pose proof (trackConn_ok t now target ltac:(lia) Ht) as H.
      destruct (trackConn t now target) as [t' id]. cbn. destruct H as (? & _ & -> & _). split; [done|lia].
    - destruct (untrackConn_ok t now id up down Ht) as [? ->]. split; [done|lia]. }
  destruct (IH (conn_step t o) ltac:(lia) ltac:(lia) H1). split; [done|].
  change (foldl conn_step (conn_step t o) ops) with (conn_run ops (conn_step t o)). lia.
Qed.

Lemma new_device_ok n : record_ok (new_device n).
Proof. unfold record_ok. cbn. split_and!; [lia|constructor|constructor|apply map_Forall_empty]. Qed.

Lemma matchDomain_in_iff domain exclusions :
  matchDomain_in domain exclusions = true <->
  exists exc, exc ∈ exclusions /\
    let t := TrimSpace exc in t <> "" /\
    (if HasPrefix t "*." then
       (exists p, domain = p +:+ TrimPrefix t "*") \/ domain = sdrop 2 t
     else domain = t).
Proof.
  induction exclusions as [|exc rest IH]; cbn [matchDomain_in].
  { split; [done|]. intros (x & Hx & _). by apply not_elem_of_nil in Hx. }
  assert (Hskip : (~ let t := TrimSpace exc in t <> "" /\
      (if HasPrefix t "*." then (exists p, domain = p +:+ TrimPrefix t "*") \/ domain = sdrop 2 t
       else domain = t)) ->
    matchDomain_in domain rest = true <-> exists x, x ∈ exc :: rest /\
    let t := TrimSpace x in t <> "" /\
    (if HasPrefix t "*." then (exists p, domain = p +:+ TrimPrefix t "*") \/ domain = sdrop 2 t
     else domain = t)).
  { intros Hno. rewrite IH. split; intros (x & Hx & Hp); exists x; [split; [by right|done]|].
    apply elem_of_cons in Hx as [->|Hx]; done. }
  cbn zeta in *. case_bool_decide as Hem; [apply Hskip; tauto|].
  destruct (HasPrefix (TrimSpace exc) "*.") eqn:Hp.
  - destruct (HasSuffix domain (TrimPrefix (TrimSpace exc) "*") || _) eqn:Eb.
    + split; [intros _|done]. exists exc. split; [by left|]. split; [done|]. rewrite Hp.
      apply orb_true_iff in Eb as [Hs%HasSuffix_spec|Hs%bool_decide_eq_true]; [left|right]; done.
    + apply Hskip. intros [_ [Hs|Hs]]; apply orb_false_iff in Eb as [E1 E2].
      * apply HasSuffix_spec in Hs. by rewrite Hs in E1.
      * by apply bool_decide_eq_false in E2.
  - case_bool_decide as Hd.
    + split; [intros _|done]. exists exc. split; [by left|]. split; [done|]. by rewrite Hp.
    + apply Hskip. tauto.
Qed.

(** The filter's answer to a query for a blocked name. *)
Definition filtered `{DNS} (t : TunDevice) (query : list byte) : option (list byte) :=
  match adBlocker t with
  | Some ab => match createFakeDNSResponse query with
               | Ok (r, domain) => if IsBlocked ab domain then Some r else None
               | Err _ => None
               end
  | None => None
  end.

(** Where the loops over an answer begin. *)
Definition answer_parser `{DNS} (resp : list byte) : option Parser :=
  match Start resp with
  | Ok (_, p) => match parse_Question p with Ok (_, p) => Some (SkipAllQuestions p).1 | Err _ => None end
  | Err _ => None
  end.

Lemma relay_query_filtered `{DNS} fuel forward (t : TunDevice) (s : Dialer.Stats) query :
  relay_query fuel forward t s query =
  let s := Dialer.add_out (Z.of_nat (length query)) s in
  match filtered t query with
  | Some r => Some (t, s, {| rl_written := Some r; rl_bypass := [] |})
  | None =>
      match forward (upstream_of t) query with
      | Err _ => Some (t, s, {| rl_written := None; rl_bypass := [] |})
      | Ok resp =>
          let s := Dialer.add_in (Z.of_nat (length resp)) s in
          '(domain, ips) ← extractDNSMapping fuel resp;
          let t := if bool_decide (domain <> "") && (0 <? length ips)%nat
                   then recordDNS t domain ips else t in
          bypass ← (if onDNSBypass t then parseDNSResponse fuel resp (dnsExclusions t) else Some []);
          Some (t, s, {| rl_written := Some resp; rl_bypass := bypass |})
      end
  end.
Proof. reflexivity. Qed.

Section dns_facts.
Context `{DNSLaws}.

(** One round of [collect]: [None] when it ends the loop. *)
Definition round (p : Parser) : option (Parser * bool) :=
  match AnswerHeader p with
  | (_, Err _) => None
  | (p, Ok ty) =>
      if ty =? TypeA then let '(p, r) := AResource p in Some (p, is_ok r)
      else if ty =? TypeAAAA then let '(p, r) := AAAAResource p in Some (p, is_ok r)
      else let '(p, e) := SkipAnswer p in Some (p, bool_decide (e = None))
  end.

(** A resource on which a round fails, reached from [p] by rounds that succeed. *)
Inductive spoilt : Parser -> Prop :=
| spoilt_here p q : round p = Some (q, false) -> spoilt p
| spoilt_later p q : round p = Some (q, true) -> spoilt q -> spoilt p.

Lemma collect_round fuel p :
  collect (S fuel) p = None <->
  exists q ok, round p = Some (q, ok) /\ collect fuel q = None.
Proof.
  cbn. unfold round. destruct (AnswerHeader p) as [p1 [ty|e]]; [|split; [done|by intros (? & ? & ? & _)]].
  destruct (ty =? TypeA); [|destruct (ty =? TypeAAAA)].
  - destruct (AResource p1) as [p2 [a|e]]; cbn; rewrite ?fmap_None.
    all: split; [intros E; eauto 6|by intros (q & ok & [= <- _] & E)].
  - destruct (AAAAResource p1) as [p2 [a|e]]; cbn; rewrite ?fmap_None.
    all: split; [intros E; eauto 6|by intros (q & ok & [= <- _] & E)].
  - destruct (SkipAnswer p1) as [p2 e]; cbn.
    split; [intros E; eauto 6|by intros (q & ok & [= <- _] & E)].
Qed.

Lemma round_moves p q : round p = Some (q, true) -> (left_ q < left_ p)%nat.
Proof.
  unfold round. destruct (AnswerHeader p) as [p1 [ty|e]] eqn:E; [|done].
  apply AnswerHeader_stays in E. destruct (ty =? TypeA); [|destruct (ty =? TypeAAAA)].
  - destruct (AResource p1) as [p2 [a|e]] eqn:E2; [|by intros [= _ ?]].
    intros [= <-]. apply AResource_moves in E2. lia.
  - destruct (AAAAResource p1) as [p2 [a|e]] eqn:E2; [|by intros [= _ ?]].
    intros [= <-]. apply AAAAResource_moves in E2. lia.
  - destruct (SkipAnswer p1) as [p2 [e|]] eqn:E2; [by intros [= _ ?]|].
    intros [= <-]. apply SkipAnswer_moves in E2. lia.
Qed.

Lemma collect_ends fuel p : (left_ p < fuel)%nat -> collect fuel p = None -> spoilt p.
Proof.
  revert p. induction fuel as [|fuel IH]; intros p Hf; [lia|].
  intros (q & [] & Hr & Hq)%collect_round; [|by eapply spoilt_here].
  apply round_moves in Hr as Hl. eapply spoilt_later; [done|]. apply IH; [lia|done].
Qed.

Lemma answers_end fuel p : (left_ p < fuel)%nat -> is_Some (answers fuel p).
Proof.
  revert p. induction fuel as [|fuel IH]; intros p Hf; [lia|]. cbn.
  destruct (Answer p) as [q [b|e]] eqn:E; [|by eexists]. apply Answer_moves in E.
  destruct b; rewrite ?fmap_is_Some; apply IH; lia.
Qed.

Lemma extract_ends fuel resp : (forall p, answer_parser resp = Some p -> (left_ p < fuel)%nat) ->
  is_Some (extractDNSMapping fuel resp).
Proof.
  unfold answer_parser, extractDNSMapping. intros Hf. destruct (Start resp) as [[h p]|]; [|by eexists].
  destruct (negb (Response h)); [by eexists|]. destruct (parse_Question p) as [[q p']|]; [|by eexists].
  specialize (Hf _ eq_refl). destruct (SkipAllQuestions p') as [p2 [e|]]; [by eexists|]. cbn in Hf.
  apply fmap_is_Some. by apply answers_end.
Qed.

(** A resource that fails and leaves the parser where it was is read forever. *)
Lemma collect_stuck fuel p : round p = Some (p, false) -> collect fuel p = None.
Proof.
  intros Hr. induction fuel as [|fuel IH]; [done|]. apply collect_round. eauto.
Qed.
End dns_facts.

(** ** Properties *)

(** The record of connections is sound.  After any sequence of starts and
    ends of connections, ends of unknown or already ended ones included, every
    connection listed has an id of its own, the history holds at most 500, all
    of them ended, and the tracked ones are active; ending a connection twice
    changes nothing. *)
Theorem tun_connections (n : string) (ops : list conn_op) (now id up down now' up' down' : Z)
  (Hshort : Z.of_nat (length ops) < 2 ^ 64) :
  let t := conn_run ops (new_device n) in
  record_ok t /\
  NoDup (ID <$> AllConns t) /\
  untrackConn (untrackConn t now id up down) now' id up' down' = untrackConn t now id up down.
Proof.
  cbn zeta. pose proof (conn_run_ok ops (new_device n) ltac:(cbn; lia) ltac:(cbn; lia) (new_device_ok n)) as [Hok _].
  set (t := conn_run ops (new_device n)) in *. split_and!; [done| |].
  - destruct Hok as (_ & Hh & Hn & Ht). unfold AllConns. rewrite fmap_app. apply NoDup_app. split_and!; [done| |].
    + intros i (x & -> & Hx)%list_elem_of_fmap. rewrite Forall_forall in Hh.
      destruct (Hh x Hx) as (_ & _ & Hno). intros (y & Hy & Hin)%list_elem_of_fmap.
      apply list_elem_of_fmap in Hin as ([j z] & -> & Hz). apply elem_of_map_to_list in Hz.
      destruct (Ht _ _ Hz) as (Hj & _). cbn in Hy. rewrite Hy, Hj, Hz in Hno. done.
    + rewrite <- list_fmap_compose. erewrite (list_fmap_ext _ fst); [apply NoDup_fst_map_to_list|].
      intros k [j z] Hk. cbn. apply list_elem_of_lookup_2, elem_of_map_to_list in Hk.
      by destruct (Ht _ _ Hk) as (-> & _).
  - unfold untrackConn at 2 3. destruct (connTrack t !! id) as [e|] eqn:E.
    + unfold untrackConn. cbn. by rewrite lookup_delete_eq.
    + unfold untrackConn. by rewrite E.
Qed.

(** A finished flow is recorded with its own counts.  Whichever direction
    ends first, the entry that [relayTCP] leaves in the history carries the
    uplink's bytes and the downlink's bytes, zero for a flow whose tunnel could
    not be opened; the flow is tracked no more and its tunnel is closed. *)
Theorem relayTCP_record {Pool} (t : TunDevice) (d : Dialer.Dialer Pool) (net : Dialer.network Pool)
    (s : Dialer.Stats) (now later : Z) (target : string) (u v : Z) (eu ev : option string) (swap : bool)
  (Hok : record_ok t) (Hseq : 0 <= connSeq t < 2 ^ 64 - 1) :
  let used c s := (c, s, if swap : bool then (downlink v ev, uplink u eu) else (uplink u eu, downlink v ev)) in
  let '(t', _, c) := relayTCP t d net s now later target used in
  let opened := is_ok (Dialer.DialContext d net s target).2 in
  connTrack t' = connTrack t /\
  (exists e, last (connHistory t') = Some e /\ Target e = target /\ Active e = false /\
     BytesUp e = (if opened then u else 0) /\ BytesDown e = (if opened then v else 0)) /\
  (forall c', c = Some c' -> Dialer.tc_closed c' = true).
Proof.
  cbn zeta. unfold relayTCP. pose proof (trackConn_ok t now target Hseq Hok) as Htr.
  destruct (trackConn t now target) as [t1 id] eqn:Et. destruct Htr as (Hok1 & Hid & Hs1 & Hfresh & _ & e & Hm & Htg & _).
  assert (Hun : forall up down, connTrack (untrackConn t1 later id up down) = connTrack t /\
    last (connHistory (untrackConn t1 later id up down)) = Some (finished e later up down)).
  { intros up down. unfold untrackConn. rewrite Hm, lookup_insert_eq. cbn zeta.
    cbn [connTrack connHistory with_conns]. rewrite delete_insert_eq, delete_id by done. split; [done|].
    destruct (Nat.ltb_spec maxConnHistory (length (connHistory t1 ++ [finished e later up down]))) as [Hlt|_].
    - rewrite length_app in *. cbn [length] in *. rewrite drop_app_le by (unfold maxConnHistory in *; lia).
      apply last_snoc.
    - apply last_snoc. }
  destruct (Dialer.DialContext d net s target) as [[s1 p] [c|msg]]; cbn [is_ok snd].
  - assert (pickBytes "uplink" (if swap then (downlink v ev, uplink u eu) else (uplink u eu, downlink v ev)).1
        (if swap then (downlink v ev, uplink u eu) else (uplink u eu, downlink v ev)).2 = u /\
      pickBytes "downlink" (if swap then (downlink v ev, uplink u eu) else (uplink u eu, downlink v ev)).1
        (if swap then (downlink v ev, uplink u eu) else (uplink u eu, downlink v ev)).2 = v) as [Hu Hv]
      by (by destruct swap).
    destruct (if swap then _ else _) as [r1 r2]. cbn [fst snd] in Hu, Hv. rewrite Hu, Hv.
    unfold Dialer.Close. destruct (Dialer.tc_closed c) eqn:Ec; destruct (Hun u v) as [-> Hl];
      (split_and!; [done|eexists; split_and!; [exact Hl|done..]|intros c' [= <-]; done]).
  - destruct (Hun 0 0) as [-> Hl]. split_and!; [done|eexists; split_and!; [exact Hl|done..]|done].
Qed.

(** Which domains are excluded from the tunnel: the ones listed, and for
    an entry [*.x] the domain [x] and the names that end in [.x]; blank entries
    are ignored and one trailing dot of the domain does not count. *)
Theorem matchDomain_iff (domain : string) (exclusions : list string) :
  matchDomain domain exclusions = true <->
  exists exc t, exc ∈ exclusions /\ TrimSpace exc = t /\ t <> "" /\
    let d := TrimSuffix domain "." in
    ((exists x, t = "*." +:+ x /\ (d = x \/ exists p, d = p +:+ "." +:+ x)) \/
     (HasPrefix t "*." = false /\ d = t)).
Proof.
  unfold matchDomain. rewrite matchDomain_in_iff. cbn zeta.
  split.
  - intros (exc & Hin & Hne & Hm). exists exc, (TrimSpace exc). split_and!; [done..|].
    destruct (HasPrefix (TrimSpace exc) "*.") eqn:Hp; [left|by right].
    apply HasPrefix_spec in Hp as [x Hx]. exists x. split; [done|].
    rewrite Hx in Hm. destruct Hm as [[p Hp]|Hd]; [right; by exists p|by left].
  - intros (exc & t & Hin & Ht & Hne & Hm). exists exc. rewrite Ht. split_and!; [done..|].
    destruct Hm as [(x & -> & Hx)|[Hp Hd]]; [|by rewrite Hp].
    rewrite HasPrefix_app. destruct Hx as [Hx|[p Hx]]; [by right|left; by exists p].
Qed.

(** C38: the DNS relay.  Given rounds for the resources of the answer, and for a
    parser that consumes what it reads, a query for a name on the block list is
    answered by the filter's own message, without asking the upstream; for any
    other the upstream's answer is written back unchanged, or nothing when there
    is none, both counted, and addresses are handed to the bypass only when a
    callback is set, from an answer for an excluded domain.  The one way to no
    answer at all is the loop of the bypass, on such an answer with a resource
    that does not parse. *)
Theorem relay_query_spec `{DNSLaws} (fuel : nat) (forward : string -> list byte -> res (list byte))
    (t : TunDevice) (s : Dialer.Stats) (query : list byte)
  (Hfuel : forall resp p, forward (upstream_of t) query = Ok resp -> answer_parser resp = Some p -> (left_ p < fuel)%nat) :
  let asked := Dialer.add_out (Z.of_nat (length query)) s in
  let excluded resp := onDNSBypass t = true /\ exists h p q p', forward (upstream_of t) query = Ok resp /\
    Start resp = Ok (h, p) /\ Response h = true /\ parse_Question p = Ok (q, p') /\
    matchDomain (q_Name q) (dnsExclusions t) = true in
  match filtered t query, relay_query fuel forward t s query with
  | Some r, out => out = Some (t, asked, {| rl_written := Some r; rl_bypass := [] |})
  | None, Some (t', s', out) =>
      rl_written out = res_opt (forward (upstream_of t) query) /\
      s' = match forward (upstream_of t) query with
           | Ok resp => Dialer.add_in (Z.of_nat (length resp)) asked
           | Err _ => asked
           end /\
      (rl_bypass out <> [] -> exists resp, excluded resp)
  | None, None => exists resp p, excluded resp /\ answer_parser resp = Some p /\ spoilt p
  end.
Proof.
  cbn zeta. rewrite relay_query_filtered. destruct (filtered t query) as [r|]; [done|].
  destruct (forward (upstream_of t) query) as [resp|e] eqn:Ef; [|done]. specialize (Hfuel resp).
  destruct (extract_ends fuel resp (fun p => Hfuel p eq_refl)) as [[dm ips] ->]. cbn [mbind option_bind].
  set (t1 := if _ && _ then _ else t).
  assert (onDNSBypass t1 = onDNSBypass t /\ dnsExclusions t1 = dnsExclusions t) as [-> ->]
    by (subst t1; by destruct (_ && _)).
  destruct (onDNSBypass t) eqn:Ecb; [|done].
  unfold parseDNSResponse, answer_parser in *. case_bool_decide; [done|].
  destruct (Start resp) as [[h p]|] eqn:Es; [|done]. destruct (Response h) eqn:Er; [|done]. cbn [negb].
  destruct (parse_Question p) as [[q p']|] eqn:Eq; [|done].
  destruct (matchDomain _ _) eqn:Em; [|done]. cbn [negb].
  destruct (collect _ _) as [l|] eqn:Ec; cbn.
  - split_and!; [done..|]. intros _. exists resp. split; [done|]. by exists h, p, q, p'.
  - exists resp, (SkipAllQuestions p').1. split_and!; [done|by exists h, p, q, p'|by rewrite Es, Eq|].
    by apply (collect_ends fuel); [apply Hfuel|].
Qed.

(** The queries among the reads of a flow. *)
Definition query_of (r : res (list byte)) : option (list byte) :=
  match r with Ok (b :: q) => Some (b :: q) | _ => None end.

(** The relay of a DNS flow writes back at most one message for every query. *)
Theorem dns_flow_answers `{DNS} (fuel : nat) (forward : string -> list byte -> res (list byte))
    (reads : list (res (list byte))) (t t' : TunDevice) (s s' : Dialer.Stats) (written : list (list byte)) (ips : list IP)
  (Hrun : relayDNSUDP fuel forward t s reads = Some (t', s', written, ips)) :
  (length written <= length (omap query_of reads))%nat.
Proof.
  revert t s t' s' written ips Hrun. induction reads as [|[[|b q]|e] reads IH]; intros t s t' s' written ips Hrun; cbn in Hrun.
  - by simplify_eq.
  - by eapply IH.
  - cbn [omap list_omap query_of length].
    destruct (relay_query _ _ _ _ _) as [[[t1 s1] out]|]; [|done]. cbn [mbind option_bind] in Hrun.
    destruct (relayDNSUDP _ _ _ _ _) as [[[[t2 s2] w] i]|] eqn:E; [|done]. cbn [mbind option_bind] in Hrun.
    simplify_eq. apply IH in E. rewrite length_app. destruct (rl_written out); cbn; lia.
  - simplify_eq. cbn. lia.
Qed.

(** An upstream given as an IPv6 address never answers.  The port is appended
    without brackets, so that the address does not parse, nothing is dialled, and
    every query that the filter does not answer stays unanswered. *)
Theorem dns_upstream_v6 `{DNS} `{Datagrams} (fuel : nat) (t t' : TunDevice) (s s' : Dialer.Stats)
    (query : list byte) (out : relayed) (c : ascii) (rest : string)
  (Hup : upstreamDNS t = String c rest) (Hc : c <> "["%char) (Hcolon : has_char ":"%char (upstreamDNS t) = true)
  (Hab : adBlocker t = None)
  (Hrun : relay_query fuel forwardDNSQuery t s query = Some (t', s', out)) :
  rl_written out = None /\ t' = t.
Proof.
  assert (He : exists e, forwardDNSQuery (upstream_of t) query = Err e).
  { unfold upstream_of, forwardDNSQuery. rewrite bool_decide_false by (by rewrite Hup).
    destruct (SplitHostPort_colons (upstreamDNS t) "53") as [e He]; [done|by exists c, rest|done|].
    destruct (dial_checks _ _ He) as [e' He']. exists e'.
    change (":" +:+ "53") with ":53" in He'. by rewrite He'. }
  destruct He as [e He]. unfold relay_query in Hrun. rewrite Hab, He in Hrun. by simplify_eq.
Qed.

(** C39: the loops over a DNS answer end, for a parser that consumes what it
    reads, within one round more than it has left; the loop of the bypass,
    which drops the errors of resources, may fail to end only when it meets a
    resource that does not parse. *)
Theorem dns_loops_end `{DNSLaws} (p : Parser) (fuel : nat) (Hfuel : (left_ p < fuel)%nat) :
  is_Some (answers fuel p) /\ (collect fuel p = None -> spoilt p).
Proof. split; [by apply answers_end|by apply collect_ends]. Qed.

(** A malformed answer hangs the relay.  When the answer for an excluded
    domain holds an address record that does not parse, and the parser stays on
    it, the relay of that query never ends. *)
Theorem dns_relay_hangs `{DNS} (forward : string -> list byte -> res (list byte)) (t : TunDevice)
    (s : Dialer.Stats) (query resp : list byte) (h : Header) (q : Question) (p p1 p2 : Parser) (e : string)
  (Hab : adBlocker t = None) (Hcb : onDNSBypass t = true)
  (Hf : forward (upstream_of t) query = Ok resp)
  (Hs : Start resp = Ok (h, p)) (Hr : Response h = true) (Hq : parse_Question p = Ok (q, p1))
  (Hm : matchDomain (q_Name q) (dnsExclusions t) = true)
  (Hk : (SkipAllQuestions p1).1 = p2)
  (Hhead : AnswerHeader p2 = (p2, Ok TypeA)) (Hbad : AResource p2 = (p2, Err e)) (fuel : nat) :
  relay_query fuel forward t s query = None.
Proof.
  unfold relay_query. rewrite Hab, Hf.
  destruct (extractDNSMapping fuel resp) as [[dm ips]|]; [|done]. cbn [mbind option_bind].
  set (t1 := if _ && _ then _ else t).
  assert (onDNSBypass t1 = onDNSBypass t /\ dnsExclusions t1 = dnsExclusions t) as [-> ->]
    by (subst t1; by destruct (_ && _)).
  rewrite Hcb. unfold parseDNSResponse. rewrite Hs, Hr, Hq. cbn [negb]. rewrite Hm. cbn [negb].
  case_bool_decide as Hex.
  { rewrite Hex in Hm. by apply matchDomain_in_iff in Hm as (x & Hx%not_elem_of_nil & _). }
  rewrite Hk, collect_stuck; [done|]. unfold round. by rewrite Hhead, Hbad.
Qed.

(** ** Witnesses: a parser over a list of records, one of them unreadable *)

#[local] Instance ex_dns : DNS := {|
  Parser := list (Z * res (list byte));
  Header := bool;
  Question := string;
  Start b := match b with
             | [] => Err "short"
             | [_] => Ok (true, [(TypeA, Ok [x01; x02; x03; x04])])
             | _ => Ok (true, [(TypeA, Err "short record")])
             end;
  Response h := h;
  as_reply _ := true;
  parse_Question p := Ok ("ads.example.", p);
  q_Name q := q;
  q_Type _ := TypeA;
  SkipAllQuestions p := (p, None);
  Answer p := match p with
              | (_, Ok a) :: p => (p, Ok (BodyA a))
              | (_, Err e) :: _ => (p, Err e)
              | [] => (p, Err "section done")
              end;
  AnswerHeader p := match p with (ty, _) :: _ => (p, Ok ty) | [] => (p, Err "section done") end;
  AResource p := match p with
                 | (_, Ok a) :: p => (p, Ok a)
                 | (_, Err e) :: _ => (p, Err e)
                 | [] => (p, Err "none")
                 end;
  AAAAResource p := match p with
                    | (_, Ok a) :: p => (p, Ok a)
                    | (_, Err e) :: _ => (p, Err e)
                    | [] => (p, Err "none")
                    end;
  SkipAnswer p := match p with _ :: p => (p, None) | [] => (p, Some "none") end;
  build _ _ _ := Ok [x00];
|}.

#[local] Instance ex_dns_laws : @DNSLaws ex_dns.
Proof.
  refine {| left_ := fun p : @Parser ex_dns => length p |}.
  all: intros p p'; cbn; destruct p as [|[ty [b|e]] p]; cbn; intros; simplify_eq; cbn; lia.
Defined.

Definition ex_ab : AdBlocker :=
  load NewAdBlocker (Some ("# list" +:+ nls +:+ "0.0.0.0 ads.example" +:+ nls)).
Definition ex_forward (up : string) (q : list byte) : res (list byte) := Ok q.
Definition ex_tun : TunDevice := SetDNSBypass (new_device "utun5") ["*.example"].

Lemma tun_connections_witness :
  record_ok (conn_run [OpTrack 1 "192.0.2.1:80"; OpUntrack 2 1 10 20] (new_device "utun5")).
Proof.
  apply (tun_connections "utun5" [OpTrack 1 "192.0.2.1:80"; OpUntrack 2 1 10 20] 0 0 0 0 0 0 0).
  vm_compute. reflexivity.
Defined.

Definition ex_used (c : Dialer.tunnelConn) (s : Dialer.Stats)
  : Dialer.tunnelConn * Dialer.Stats * (copyResult * copyResult) :=
  (c, s, (downlink 20 None, uplink 10 None)).

Lemma relayTCP_record_witness :
  let '(t', _, _) := relayTCP (new_device "utun5") Dialer.ex_dialer
    (@Dialer.through unit unit Proxy.ex_store Proxy.ex_handler Listener.background Proxy.ex_env
       Proxy.ex_world "") Dialer.zero_stats 1 2 "192.0.2.1:80" ex_used in
  connTrack t' = ∅.
Proof.
  pose proof (relayTCP_record (new_device "utun5") Dialer.ex_dialer
    (@Dialer.through unit unit Proxy.ex_store Proxy.ex_handler Listener.background Proxy.ex_env
       Proxy.ex_world "") Dialer.zero_stats 1 2 "192.0.2.1:80" 10 20 None None true
    (new_device_ok _) ltac:(cbn; lia)) as H.
  cbn zeta in H. change (fun c s => (c, s, if true then (downlink 20 None, uplink 10 None)
    else (uplink 10 None, downlink 20 None))) with ex_used in H.
  destruct (relayTCP _ _ _ _ _ _ _ _) as [[t' s'] c]. exact (proj1 H).
Defined.

(** A blocked name, and one whose answer is passed on. *)
Lemma relay_query_spec_witness :
  relay_query 2 ex_forward (SetAdBlocker ex_tun ex_ab) Dialer.zero_stats [x00] =
    Some (SetAdBlocker ex_tun ex_ab, Dialer.add_out 1 Dialer.zero_stats, {| rl_written := Some [x00]; rl_bypass := [] |}) /\
  exists p, answer_parser [x00; x00] = Some p /\ spoilt p.
Proof.
  split.
  - pose proof (relay_query_spec 2 ex_forward (SetAdBlocker ex_tun ex_ab) Dialer.zero_stats [x00]) as H.
    apply H. intros resp p [= <-]. vm_compute. intros [= <-]. cbn. lia.
  - pose proof (relay_query_spec 2 ex_forward ex_tun Dialer.zero_stats [x00; x00]) as H.
    change (filtered ex_tun [x00; x00]) with (@None (list byte)) in H.
    assert (E : relay_query 2 ex_forward ex_tun Dialer.zero_stats [x00; x00] = None) by (vm_compute; reflexivity).
    rewrite E in H. destruct H as (resp & p & (_ & h & p0 & q & p1 & Hf & _) & Hp & Hs).
    + intros resp p [= <-]. vm_compute. intros [= <-]. cbn. lia.
    + injection Hf as <-. exists p. split; [exact Hp|exact Hs].
Defined.

Lemma dns_loops_end_witness : is_Some (answers 2 [(TypeA, Ok [x01; x02; x03; x04])]).
Proof. apply (@dns_loops_end ex_dns ex_dns_laws [(TypeA, Ok [x01; x02; x03; x04])] 2). cbn. lia. Defined.

Lemma dns_relay_hangs_witness :
  relay_query 1000 ex_forward ex_tun Dialer.zero_stats [x00; x00] = None.
Proof.
  apply (@dns_relay_hangs ex_dns ex_forward ex_tun Dialer.zero_stats [x00; x00] [x00; x00] true "ads.example."
    [(TypeA, Err "short record")] [(TypeA, Err "short record")] [(TypeA, Err "short record")] "short record");
    vm_compute; reflexivity.
Defined.
