(* ===== verification/TunFrame.v ===== *)
(** The packets of the TUN device: the framing of tun_darwin.go, tun_windows.go
    and tun_other.go in internal/client, and the two pumps of tun.go between the
    device and the network stack. *)
From S2P Require Import Prelude GoStrings GoEncoding.
#[local] Open Scope Z_scope.

Inductive os := Darwin | Windows | Other.

Definition tunDeviceName (o : os) : string :=
  match o with Darwin => "utun" | Windows => "FireTunnel" | Other => "tun0" end.
Definition tunHeaderLen (o : os) : nat := match o with Darwin => 4 | _ => 0 end%nat.

Definition defaultMTU : nat := 1500%nat.

(** The protocol numbers of gvisor's ipv4 and ipv6 packages. *)
Definition ipv4_number : Z := 0x0800.
Definition ipv6_number : Z := 0x86dd.

Definition tunWritePacket (o : os) (pkt : list byte) (proto : Z) : list byte :=
  match o with
  | Darwin =>
      let family := if proto =? ipv4_number then mkbyte 2
                    else if proto =? ipv6_number then mkbyte 30 else x00 in
      [x00; x00; x00; family] ++ pkt
  | _ => pkt
  end.

(** ** pumpTUNToStack *)

(** What becomes of one packet: indexing an empty one panics. *)
Inductive inbound := Panic | Skipped | Inject (proto : Z).

Definition classify (pkt : list byte) : inbound :=
  match pkt with
  | [] => Panic
  | b :: _ =>
      let version := Z.shiftr (bval b) 4 in
      if version =? 4 then Inject ipv4_number
      else if version =? 6 then Inject ipv6_number else Skipped
  end.

Inductive pump_end := Reading | Stopped | Panicked.

(** One turn of the loop: the context is done, or the device answers the read
    with an error or with how many packets it gave, at most one, and the bytes
    of the first behind the header. *)
Inductive turn := Cancelled | Read (r : res (nat * list byte)).

Fixpoint pumpTUNToStack (turns : list turn) : list (Z * list byte) * pump_end :=
  match turns with
  | [] => ([], Reading)
  | Cancelled :: _ => ([], Stopped)
  | Read (Err _) :: _ => ([], Stopped)
  | Read (Ok (O, _)) :: turns => pumpTUNToStack turns
  | Read (Ok (S _, pkt)) :: turns =>
      match classify pkt with
      | Panic => ([], Panicked)
      | Skipped => pumpTUNToStack turns
      | Inject proto => let '(l, e) := pumpTUNToStack turns in ((proto, pkt) :: l, e)
      end
  end.

(** ** pumpStackToTUN *)

(** One turn of the loop: the channel gives no packet once the context is done,
    or a packet with its slices; the write of its frame succeeds, fails, or
    fails with the context done. *)
Inductive write_end := Written | WriteFails | WriteFailsDone.
Inductive outgoing := NoPacket | Packet (proto : Z) (slices : list (list byte)) (w : write_end).

(** The frames given to the device's Write, with whether it took them; a write
    that fails is only logged while the context lives. *)
Fixpoint pumpStackToTUN (o : os) (turns : list outgoing) : list (list byte * bool) * pump_end :=
  match turns with
  | [] => ([], Reading)
  | NoPacket :: _ => ([], Stopped)
  | Packet proto slices w :: turns =>
      let buf := tunWritePacket o (concat slices) proto in
      match w with
      | Written => let '(l, e) := pumpStackToTUN o turns in ((buf, true) :: l, e)
      | WriteFails => let '(l, e) := pumpStackToTUN o turns in ((buf, false) :: l, e)
      | WriteFailsDone => ([(buf, false)], Stopped)
      end
  end.

(** ** What the pumps promise *)

(** The protocol of a packet by the range its first byte is in. *)
Definition ip_protocol (pkt : list byte) : option Z :=
  match pkt with
  | [] => None
  | b :: _ =>
      if (0x40 <=? bval b) && (bval b <=? 0x4f) then Some 0x0800
      else if (0x60 <=? bval b) && (bval b <=? 0x6f) then Some 0x86dd else None
  end.

(** The packet of a read, with its protocol, when it is an IP packet. *)
Definition ip_packet (t : turn) : option (Z * list byte) :=
  match t with
  | Read (Ok (S _, pkt)) => option_map (fun proto => (proto, pkt)) (ip_protocol pkt)
  | _ => None
  end.

(** The turns after which the pump from the device goes on, and what it ends
    on. *)
Definition harmless (t : turn) : Prop :=
  match t with Read (Ok (S _, pkt)) => pkt <> [] | Read (Ok (O, _)) => True | _ => False end.
Definition ends_on (e : pump_end) (rest : list turn) : Prop :=
  match e with
  | Reading => rest = []
  | Stopped => head rest = Some Cancelled \/ exists err, head rest = Some (Read (Err err))
  | Panicked => exists n, head rest = Some (Read (Ok (S n, [])))
  end.

(** The header of a frame: on macOS four bytes, the last of which is the address
    family, AF_INET or AF_INET6. *)
Definition header (o : os) (proto : Z) (h : list byte) : Prop :=
  match o with
  | Darwin => exists family, h = [x00; x00; x00; family] /\
      (proto = 0x0800 -> bval family = 2) /\ (proto = 0x86dd -> bval family = 30) /\
      (proto <> 0x0800 -> proto <> 0x86dd -> bval family = 0)
  | _ => h = []
  end.

(** A packet of the stack, and the frame the device got for it. *)
Definition framed (o : os) (t : outgoing) (f : list byte * bool) : Prop :=
  match t with
  | NoPacket => False
  | Packet proto slices w =>
      (exists h, header o proto h /\ f.1 = h ++ concat slices) /\ (f.2 = true <-> w = Written)
  end.

(** The turns the pump to the device takes before it stops. *)
Definition goes_on (t : outgoing) : bool :=
  match t with Packet _ _ (Written | WriteFails) => true | _ => false end.
Definition out_ends_on (e : pump_end) (last : list outgoing) (rest : list outgoing) : Prop :=
  match e with
  | Reading => last = [] /\ rest = []
  | Stopped => last = [] /\ head rest = Some NoPacket \/
      exists proto slices, last = [Packet proto slices WriteFailsDone]
  | Panicked => False
  end.

(** ** Lemmas *)

(** The nibble the code looks at, as a range of the byte. *)
Lemma shiftr_nibble b v : (Z.shiftr (bval b) 4 =? v) = ((16 * v <=? bval b) && (bval b <=? 16 * v + 15)).
Proof.
  rewrite Z.shiftr_div_pow2 by lia. change (2 ^ 4) with 16.
  pose proof (Z.div_mod (bval b) 16 ltac:(lia)). pose proof (Z.mod_pos_bound (bval b) 16 ltac:(lia)).
  apply eq_true_iff_eq. rewrite andb_true_iff, Z.eqb_eq, !Z.leb_le. split; lia.
Qed.

Lemma classify_spec pkt :
  match classify pkt with
  | Panic => pkt = []
  | Skipped => pkt <> [] /\ ip_protocol pkt = None
  | Inject proto => pkt <> [] /\ ip_protocol pkt = Some proto
  end.
Proof.
  destruct pkt as [|b l]; [done|]. unfold classify, ip_protocol. cbv zeta.
  rewrite !shiftr_nibble. change (16 * 4) with 0x40. change (16 * 6) with 0x60. cbn [Z.add].
  change (0x40 + 15) with 0x4f. change (0x60 + 15) with 0x6f.
  destruct (_ && _); [done|]. by destruct (_ && _).
Qed.

Lemma tunWritePacket_header o pkt proto : exists h, header o proto h /\ tunWritePacket o pkt proto = h ++ pkt.
Proof.
  destruct o; [|by exists []..]. eexists [_; _; _; _]. split; [|reflexivity].
  eexists. split; [reflexivity|]. unfold ipv4_number, ipv6_number.
  destruct (Z.eqb_spec proto 0x0800) as [->|]; [by split; [vm_compute|]|].
  by destruct (Z.eqb_spec proto 0x86dd) as [->|]; (split; [done|split; [|done]]).
Qed.

Lemma from_device turns :
  exists taken rest, turns = taken ++ rest /\ Forall harmless taken /\
    ends_on (pumpTUNToStack turns).2 rest /\ (pumpTUNToStack turns).1 = omap ip_packet taken.
Proof.
  induction turns as [|t turns (taken & rest & -> & Ht & He & Hl)].
  - by exists [], [].
  - assert (Hstop : forall l e, pumpTUNToStack (t :: taken ++ rest) = (l, e) -> l = [] -> ends_on e (t :: taken ++ rest) ->
      exists taken' rest', t :: taken ++ rest = taken' ++ rest' /\ Forall harmless taken' /\ ends_on e rest' /\ [] = omap ip_packet taken').
    { intros l e _ _ Hr. by exists [], (t :: taken ++ rest). }
    assert (Hgo : harmless t -> exists taken' rest', t :: taken ++ rest = taken' ++ rest' /\ Forall harmless taken' /\
      ends_on (pumpTUNToStack (taken ++ rest)).2 rest' /\
      match ip_packet t with Some p => p :: (pumpTUNToStack (taken ++ rest)).1 | None => (pumpTUNToStack (taken ++ rest)).1 end = omap ip_packet taken').
    { intros Hh. exists (t :: taken), rest. repeat split; [by constructor|done|]. rewrite Hl. cbn. by destruct (ip_packet t). }
    destruct t as [|[[[|n] pkt]|err]]; cbn [pumpTUNToStack].
    + by eapply Hstop; [reflexivity..|left].
    + by apply Hgo.
    + pose proof (classify_spec pkt) as Hc. cbn [harmless ip_packet] in Hgo. destruct (classify pkt) as [| |proto].
      * subst pkt. eapply Hstop; [reflexivity..|]. by exists n.
      * destruct Hc as [Hn Hp]. rewrite Hp in Hgo. by apply Hgo.
      * destruct Hc as [Hn Hp]. rewrite Hp in Hgo. destruct (pumpTUNToStack _) as [l e]. by apply Hgo.
    + by eapply Hstop; [reflexivity..|right; exists err].
Qed.

Lemma to_device o turns :
  exists taken last rest, turns = taken ++ last ++ rest /\ Forall goes_on taken /\
    out_ends_on (pumpStackToTUN o turns).2 last rest /\
    Forall2 (framed o) (taken ++ last) (pumpStackToTUN o turns).1.
Proof.
  induction turns as [|t turns (taken & last & rest & -> & Ht & He & Hf)]; [by exists [], [], []|].
  destruct t as [|proto slices w]; [by exists [], [], (NoPacket :: taken ++ last ++ rest); repeat split; [|left|]|].
  cbn [pumpStackToTUN]. pose proof (tunWritePacket_header o (concat slices) proto) as Hh.
  destruct w.
  3: { exists [], [Packet proto slices WriteFailsDone], (taken ++ last ++ rest).
       split_and!; [done|constructor|by right; eexists _, _|]. constructor; [|constructor]. by split. }
  all: destruct (pumpStackToTUN o _) as [l e]; eexists (Packet proto slices _ :: taken), last, rest;
    (split_and!; [reflexivity|by constructor|exact He|]); (constructor; [by split|exact Hf]).
Qed.

(** ** Properties *)

(** C40: the pumps move every packet, in order, and know when to stop.  What is
    injected into the stack is what the device gave, up to the first turn on
    which the context was done, the read failed or the packet was empty: every
    packet whose first byte is 0x40 to 0x4f as IPv4 and every one whose first
    byte is 0x60 to 0x6f as IPv6, with the bytes behind the device's header, and
    no other; on an empty packet the pump panics, on the other two it returns,
    and otherwise it goes on reading.  To the device goes one frame for every
    packet of the stack, in order, the packet's slices joined behind no header
    or, on macOS, behind three zero bytes and the address family; a write that
    fails loses that frame alone, and the pump returns only when the context is
    done. *)
Theorem pumps_exact (o : os) (ins : list turn) (outs : list outgoing) :
  (let '(injected, e) := pumpTUNToStack ins in
   exists taken rest, ins = taken ++ rest /\ Forall harmless taken /\ ends_on e rest /\
     injected = omap ip_packet taken) /\
  (let '(frames, e) := pumpStackToTUN o outs in
   exists taken last rest, outs = taken ++ last ++ rest /\ Forall goes_on taken /\
     out_ends_on e last rest /\ Forall2 (framed o) (taken ++ last) frames).
Proof.
  pose proof (from_device ins) as Hi. pose proof (to_device o outs) as Ho.
  destruct (pumpTUNToStack ins), (pumpStackToTUN o outs). by split.
Qed.

(** An empty packet stops the program. *)
Example empty_packet_panics : pumpTUNToStack [Read (Ok (1%nat, []))] = ([], Panicked).
Proof. reflexivity. Qed.

(** The frame of an IPv4 packet on macOS, whose first write fails, and the
    packet of the same bytes read back behind the header. *)
Example ex_pumps :
  pumpStackToTUN Darwin [Packet ipv4_number [[mkbyte 0x45; x00]; [x01]] WriteFails;
    Packet ipv6_number [[mkbyte 0x60]] Written; NoPacket] =
  ([([x00; x00; x00; mkbyte 2; mkbyte 0x45; x00; x01], false); ([x00; x00; x00; mkbyte 30; mkbyte 0x60], true)], Stopped) /\
  pumpTUNToStack [Read (Ok (1%nat, [mkbyte 0x45; x00; x01])); Read (Ok (1%nat, [mkbyte 0x10])); Cancelled] =
  ([(ipv4_number, [mkbyte 0x45; x00; x01])], Stopped).
Proof. by split. Qed.
