(* ===== verification/Flow.v ===== *)
(** A TCP flow of the machine, end to end: the flow the TUN device hands over
    (internal/client/tun.go), the tunnel the dialer asks for (dialer.go), the
    handler of the endpoint (internal/proxy/handler.go) and the connection that
    net.Dialer makes to the target for it. *)
From S2P Require Import Prelude GoStrings GoNet GoHttp.
From S2P Require GoIO Udp AuthStore Auth Rules ConnTracker Listener Server Proxy Dialer Tun.
#[local] Open Scope Z_scope.

(** ** net.Dialer *)

Section dialer.
Variable lookup : string -> res (list IP).            (* the resolver *)
Variable connect : IP -> string -> option string.     (* an attempt to connect to an address and port *)

(** The addresses of a host: the one it spells, or those the resolver gives. *)
Definition host_addresses (host : string) : res (list IP) :=
  match ParseIP host with
  | [] => match lookup host with
          | Ok [] => Err "no such host"
          | r => r
          end
  | ip => Ok [ip]
  end.

(** The addresses in order, until one answers; the first error when none does.
    (Addresses of both families are raced in Go; those of one are not.) *)
Fixpoint dialSerial (port : string) (ips : list IP) (first : option string) : res IP :=
  match ips with
  | [] => Err (default "missing address" first)
  | ip :: ips => match connect ip port with
                 | None => Ok ip
                 | Some e => dialSerial port ips (Some (default e first))
                 end
  end.

(** The address the connection is made to. *)
Definition DialTCP (target : string) : res IP :=
  '(host, port) ← SplitHostPort target;
  ips ← host_addresses host;
  dialSerial port ips None.

(** The network of an endpoint whose resolver and dialer are these. *)
Definition on_network {ST} (e : Proxy.env ST) : Proxy.env ST :=
  {| Proxy.e_store := Proxy.e_store e; Proxy.e_now := Proxy.e_now e; Proxy.e_lookup := lookup;
     Proxy.e_dial := fun t => match DialTCP t with Ok _ => None | Err m => Some m end;
     Proxy.e_up := Proxy.e_up e; Proxy.e_down := Proxy.e_down e; Proxy.e_hijacker := Proxy.e_hijacker e;
     Proxy.e_hijack := Proxy.e_hijack e; Proxy.e_udp_body := Proxy.e_udp_body e;
     Proxy.e_udp_env := Proxy.e_udp_env e |}.
End dialer.

(** ** Lemmas: addresses *)

Lemma SplitHostPort_Join host port :
  has_char ":"%char host = false -> has_char "["%char host = false -> has_char "]"%char host = false ->
  has_char ":"%char port = false -> has_char "["%char port = false -> has_char "]"%char port = false ->
  SplitHostPort (JoinHostPort host port) = Ok (host, port).
Proof.
  intros H1 H2 H3 P1 P2 P3. unfold JoinHostPort. rewrite H1.
  change (host +:+ ":" +:+ port) with (host +:+ String ":"%char port).
  unfold SplitHostPort. rewrite CutLast_app by done.
  assert (Hb : has_char "["%char (host +:+ String ":"%char port) = false /\
               has_char "]"%char (host +:+ String ":"%char port) = false)
    by (rewrite !has_char_app, H2, H3; cbn; by rewrite P2, P3).
  destruct Hb as [Hb1 Hb2]. rewrite H1, Hb1, Hb2.
  destruct (host +:+ String ":"%char port) as [|c s]; [done|].
  cbn in Hb1. apply orb_false_iff in Hb1 as [Hc _]. apply bool_decide_eq_false in Hc.
  destruct c as [[] [] [] [] [] [] [] []]; done.
Qed.

(** The text of an IPv4 address. *)
Lemma v4_text ip : length ip = 4%nat ->
  IP_String ip = v4_string ip /\ ParseIP (v4_string ip) = To16 ip /\ To16 ip <> [] /\
  forall c, decval c = None -> c <> "."%char -> has_char c (v4_string ip) = false.
Proof.
  intros Hip. destruct (v4_string_text ip Hip) as [_ Hp].
  split; [|split; [|split]].
  - unfold IP_String. rewrite (To4_of_4 ip Hip). by destruct ip.
  - unfold ParseIP. by rewrite Hp.
  - unfold To16. rewrite Hip. cbn [Nat.eqb]. by destruct ip.
  - intros c Hc Hdot. destruct ip as [|b0 [|b1 [|b2 [|b3 [|]]]]]; try done.
    unfold v4_string. cbn [map Join]. rewrite !has_char_app.
    rewrite !(fmt_d_no_char c (bval _)) by (first [done|apply bval_range]).
    cbn. by rewrite bool_decide_false by done.
Qed.

Lemma Contains_To16 n ip : length ip = 4%nat -> IPNet_Contains n (To16 ip) = IPNet_Contains n ip.
Proof.
  intros Hip. unfold IPNet_Contains. rewrite (To4_of_4 ip Hip).
  destruct ip as [|b0 [|b1 [|b2 [|b3 [|]]]]]; try done.
Qed.

Lemma IsPrivateIP_To16 ip : length ip = 4%nat -> Server.IsPrivateIP (To16 ip) = Server.IsPrivateIP ip.
Proof.
  intros Hip. unfold Server.IsPrivateIP. induction Server.privateBlocks as [|b bs IH]; [done|].
  cbn [existsb]. by rewrite IH, Contains_To16.
Qed.

(** The target of a flow. *)
Definition flow_target (ip : IP) (port : Z) : string := JoinHostPort (IP_String ip) (fmt_d port).

Lemma flow_target_split ip port : length ip = 4%nat -> 0 <= port ->
  SplitHostPort (flow_target ip port) = Ok (v4_string ip, fmt_d port).
Proof.
  intros Hip Hport. destruct (v4_text ip Hip) as (Hs & _ & _ & Hc). unfold flow_target. rewrite Hs.
  apply SplitHostPort_Join; first [by apply Hc|by apply fmt_d_no_char].
Qed.

Lemma v4_string_not_empty ip : length ip = 4%nat -> v4_string ip <> "".
Proof.
  intros Hip E. destruct (v4_text ip Hip) as (_ & Hp & Hne & _). rewrite E in Hp. by rewrite <- Hp in Hne.
Qed.

Lemma flow_target_host ip port : length ip = 4%nat -> 0 <= port ->
  Proxy.target_host (flow_target ip port) = v4_string ip.
Proof.
  intros Hip Hport. unfold Proxy.target_host. rewrite flow_target_split by done.
  by rewrite bool_decide_false by (by apply v4_string_not_empty).
Qed.

Lemma flow_target_plain ip port : length ip = 4%nat -> 0 <= port ->
  flow_target ip port <> "" /\
  flow_target ip port ∉ [Proxy.pseudoHostCheck; Proxy.pseudoHostUDP; Proxy.pseudoHostICMP; Proxy.pseudoHostP2P].
Proof.
  intros Hip Hport. pose proof (flow_target_split ip port Hip Hport) as Hs.
  split; [by intros E; rewrite E in Hs|].
  rewrite !not_elem_of_cons. split_and!; try (by intros E; rewrite E in Hs). apply not_elem_of_nil.
Qed.

(** ** Lemmas: what the endpoint does for a target *)

Section endpoint.
Context {ST : Type} `{AuthStore.UserStore ST}.

(** The target may be dialled. *)
Definition reachable (h : Proxy.Handler) (e : Proxy.env ST) (target : string) : bool :=
  Proxy.AllowPrivateNet (Proxy.h_opts h) ||
  negb (Server.IsPrivateIP (Proxy.resolveIP e (Proxy.target_host target))).

Lemma private_check h (e : Proxy.env ST) target :
  negb (Proxy.AllowPrivateNet (Proxy.h_opts h)) &&
  bool_decide (Proxy.resolveIP e (Proxy.target_host target) <> []) &&
  Server.IsPrivateIP (Proxy.resolveIP e (Proxy.target_host target)) = negb (reachable h e target).
Proof.
  unfold reachable. destruct (Proxy.AllowPrivateNet _); [done|]. cbn [negb andb orb]. rewrite negb_involutive.
  destruct (decide (Proxy.resolveIP e (Proxy.target_host target) = [])) as [->|Hne].
  - by rewrite Proxy.IsPrivateIP_nil, andb_false_r.
  - by rewrite bool_decide_true by done.
Qed.

(** A TCP tunnel over HTTP/2: the dial, and the status. *)
Lemma tunnel_dial h w ctx (e : Proxy.env ST) r target :
  Proxy.isHTTP1 r = false ->
  let '(w', resp) := Proxy.handleTCPTunnel h w ctx e r new_response target in
  Proxy.w_effects w' = Proxy.w_effects w ++ (if reachable h e target then [Proxy.Dial target] else []) /\
  (final_status resp = StatusOK <-> reachable h e target = true /\ Proxy.e_dial e target = None).
Proof.
  intros H1. unfold Proxy.handleTCPTunnel. cbn zeta. rewrite private_check, H1.
  destruct (reachable h e target); cbn [negb].
  - destruct (Proxy.e_dial e target); (split; [done|]); unfold final_status; cbn; [|done].
    split; [discriminate|by intros []].
  - rewrite app_nil_r. split; [done|]. unfold final_status. cbn. split; [discriminate|by intros []].
Qed.

(** What [ServeHTTP] does for a request of a known user to a TCP target. *)
Lemma served_tunnel h ctx (e : Proxy.env ST) w r u target :
  Proxy.request_target r = target -> Proxy.isHTTP1 r = false ->
  target ∉ [Proxy.pseudoHostCheck; Proxy.pseudoHostUDP; Proxy.pseudoHostICMP; Proxy.pseudoHostP2P] ->
  (forall v, Proxy.admitted h w ctx e r v -> v = u) ->
  let let_in := Proxy.admitted h w ctx e r u /\
    Rules.Allow (Proxy.w_rules w) (Proxy.remoteIP r) (Listener.TLSRandomFromContext ctx) = true /\
    reachable h e target = true in
  let '(w', resp) := Proxy.ServeHTTP h ctx e w r new_response in
  ((let_in /\ Proxy.w_effects w' = Proxy.w_effects w ++ [Proxy.Dial target]) \/
   (~ let_in /\ Proxy.w_effects w' = Proxy.w_effects w)) /\
  (final_status resp = StatusOK <-> let_in /\ Proxy.e_dial e target = None).
Proof.
  intros Ht H1 Hn Hu. cbn zeta. unfold Proxy.ServeHTTP.
  pose proof (Proxy.authenticate_spec h w ctx e r new_response) as Ha.
  pose proof (Proxy.authenticate_admitted h w ctx e r new_response u) as Hb.
  destruct (Proxy.authenticate h w ctx e r new_response) as [w1 [resp|v]]; destruct Ha as (_ & Hr & He & Ha).
  { assert (Hno : ~ Proxy.admitted h w ctx e r u) by (intros Hadm; by destruct (Hb Hadm)).
    split; [right; tauto|]. unfold final_status. split; [|tauto].
    destruct (Ha eq_refl) as [E|E]; rewrite E; discriminate. }
  pose proof (Hu v Ha) as ->. cbn zeta. cbn [Proxy.w_rules Proxy.upd_tracker]. rewrite Hr.
  destruct (Rules.Allow _ _ _) eqn:Eal; cbn [negb].
  - set (w2 := Proxy.upd_tracker w1 _).
    assert (Hroute : Proxy.route h w2 ctx e r new_response u =
                     Proxy.handleTCPTunnel h w2 ctx e r new_response target).
    { unfold Proxy.route. cbn zeta. rewrite Ht. rewrite !not_elem_of_cons in Hn.
      destruct Hn as (N1 & N2 & N3 & N4 & _). by rewrite !bool_decide_false by done. }
    rewrite Hroute. pose proof (tunnel_dial h w2 ctx e r target H1) as Hd.
    destruct (Proxy.handleTCPTunnel h w2 ctx e r new_response target) as [w3 resp3]. destruct Hd as [Hef Hst].
    cbn [Proxy.w_effects Proxy.upd_tracker]. cbn in Hef. rewrite Hef, He.
    destruct (reachable h e target); (split; [|rewrite Hst; tauto]); [by left|right].
    rewrite app_nil_r. by split; [intros (_ & _ & ?)|].
  - split; [right; split; [by intros (_ & ? & _)|done]|]. unfold final_status. cbn.
    split; [discriminate|by intros [(_ & ? & _) _]].
Qed.
End endpoint.

(** ** Properties *)

(** C9: a TCP flow reaches its destination, end to end.  For a flow of the
    machine to an IPv4 address and a dialer whose user name has no colon: the
    endpoint dials exactly the address and port of the flow, once, and it does
    so exactly when it admits the user, its rules allow the client, and the
    address is not private or private networks are allowed; no name is
    resolved on the way.  The client relays the flow exactly when, besides, the
    dial succeeded. *)
Theorem flow_end_to_end {Pool ST : Type} `{AuthStore.UserStore ST} (pem : string -> option Pool)
    (cfg : Dialer.Config) (d : Dialer.Dialer Pool) (h : Proxy.Handler) (ctx : Listener.context)
    (e : Proxy.env ST) (w : Proxy.world) (from : string) (s : Dialer.Stats) (t : Tun.TunDevice)
    (ip : IP) (port now later : Z) (target : string)
    (used : Dialer.tunnelConn -> Dialer.Stats ->
            Dialer.tunnelConn * Dialer.Stats * (Tun.copyResult * Tun.copyResult))
  (Hd : Dialer.NewDialer pem cfg = Ok d) (Hcolon : has_char ":"%char (Dialer.Username cfg) = false)
  (Hip : length ip = 4%nat) (Hport : 0 <= port)
  (Hflow : Tun.handleTCP ip port true = (false, Some target)) :
  let r := Dialer.arrived from (Dialer.connect_request d target) in
  let let_in := Proxy.admitted h w ctx e r (Dialer.Username cfg) /\
    Rules.Allow (Proxy.w_rules w) (Proxy.remoteIP r) (Listener.TLSRandomFromContext ctx) = true /\
    (Proxy.AllowPrivateNet (Proxy.h_opts h) = true \/ Server.IsPrivateIP ip = false) in
  let w' := (Proxy.ServeHTTP h ctx e w r new_response).1 in
  let relayed := (Tun.relayTCP t d (Dialer.through h ctx e w from) s now later target used).2 in
  (target = flow_target ip port /\ SplitHostPort target = Ok (IP_String ip, fmt_d port)) /\
  ((let_in /\ Proxy.w_effects w' = Proxy.w_effects w ++ [Proxy.Dial target]) \/
   (~ let_in /\ Proxy.w_effects w' = Proxy.w_effects w)) /\
  (is_Some relayed <-> let_in /\ Proxy.e_dial e target = None).
Proof.
  cbn zeta. assert (Et : target = flow_target ip port) by (by injection Hflow).
  destruct (v4_text ip Hip) as (Hs & Hp & Hne & _).
  destruct (flow_target_plain ip port Hip Hport) as [Hempty Hn]. rewrite <- Et in Hempty, Hn.
  split; [split; [done|by rewrite Et, flow_target_split, Hs]|].
  set (r := Dialer.arrived from (Dialer.connect_request d target)).
  assert (Hreach : reachable h e target = true <->
    Proxy.AllowPrivateNet (Proxy.h_opts h) = true \/ Server.IsPrivateIP ip = false).
  { unfold reachable. rewrite Et, flow_target_host by done. unfold Proxy.resolveIP. rewrite Hp.
    rewrite <- (IsPrivateIP_To16 ip Hip). destruct (To16 ip); [done|].
    by rewrite orb_true_iff, negb_true_iff. }
  assert (Hc : Auth.basic_credentials r = Some (Dialer.Username cfg, Dialer.Password cfg))
    by (by apply (Dialer.dialer_credentials pem)).
  assert (Htarget : Proxy.request_target r = target)
    by (unfold Proxy.request_target; cbn; by rewrite bool_decide_false).
  pose proof (served_tunnel h ctx e w r (Dialer.Username cfg) target Htarget eq_refl Hn
    (Dialer.admitted_user h w ctx e r _ _ Hc)) as Hserved. cbn zeta in Hserved.
  destruct (Proxy.ServeHTTP h ctx e w r new_response) as [w' resp] eqn:Es. destruct Hserved as [Heff Hst].
  rewrite Hreach in Heff, Hst.
  split; [exact Heff|]. rewrite <- Hst. unfold Tun.relayTCP.
  destruct (Tun.trackConn t now target) as [t1 id].
  pose proof (Dialer.DialContext_cases d (Dialer.through h ctx e w from) s target) as Hk.
  unfold Dialer.through in Hk. cbn [Dialer.n_Do Dialer.n_url_error] in Hk. fold r in Hk. rewrite Es in Hk.
  destruct (Dialer.DialContext _ _ _ _) as [[s' p] [c|msg]].
  - destruct Hk as (resp' & _ & [= <-] & Hok & _). cbn in Hok.
    destruct (used c s') as [[c' s''] [r1 r2]]. destruct (Dialer.Close c' s'') as [c'' s3]. cbn. split; [done|].
    by eexists.
  - cbn. split; [by intros [? ?]|]. intros Hok.
    destruct Hk as (_ & _ & [[? ?]|[[? ?]|(resp' & [= <-] & Hbad)]]); done.
Qed.

(** Addresses that are spelled out are checked.  Without private networks, a
    request whose target is an address, and not a name, never gets a connection
    to a private one. *)
Theorem literal_never_private {ST : Type} `{AuthStore.UserStore ST} (lookup : string -> res (list IP))
    (connect : IP -> string -> option string) (h : Proxy.Handler) (ctx : Listener.context)
    (e : Proxy.env ST) (w : Proxy.world) (r : request) (resp : response) (host port : string) (ip : IP)
  (Hprivate : Proxy.AllowPrivateNet (Proxy.h_opts h) = false)
  (Htarget : SplitHostPort (Proxy.request_target r) = Ok (host, port))
  (Hhost : ParseIP host <> []) (Hnamed : host <> "")
  (Hnew : exists new, Proxy.w_effects (Proxy.ServeHTTP h ctx (on_network lookup connect e) w r resp).1 =
                      Proxy.w_effects w ++ new /\ Proxy.Dial (Proxy.request_target r) ∈ new)
  (Hdial : DialTCP lookup connect (Proxy.request_target r) = Ok ip) :
  Server.IsPrivateIP ip = false.
Proof.
  destruct Hnew as (new & Heff & Hin).
  destruct (Proxy.dial_permitted h ctx (on_network lookup connect e) w r resp _ new Heff Hin) as [Ha|Hp];
    [congruence|].
  unfold DialTCP in Hdial. rewrite Htarget in Hdial. cbn [mbind res_bind] in Hdial.
  unfold Proxy.target_host, Proxy.resolveIP in Hp. rewrite Htarget, bool_decide_false in Hp by done.
  unfold host_addresses in Hdial. destruct (ParseIP host) as [|b l] eqn:Ep; [done|].
  cbn in Hdial. destruct (connect (b :: l) port); [done|]. by injection Hdial as <-.
Qed.

(** A name can lead to a private address.  Only the first address of a name
    is checked, and the dialer resolves the name again and tries them all: an
    admitted request for a name with a public address that does not answer and
    a private one gets a tunnel to the private one, whatever the options. *)
Theorem name_reaches_private {ST : Type} `{AuthStore.UserStore ST} (lookup : string -> res (list IP))
    (connect : IP -> string -> option string) (h : Proxy.Handler) (ctx : Listener.context)
    (e : Proxy.env ST) (w : Proxy.world) (r : request) (u host port msg : string) (pub priv : IP)
    (rest : list IP)
  (Hadm : Proxy.admitted h w ctx (on_network lookup connect e) r u)
  (Hallow : Rules.Allow (Proxy.w_rules w) (Proxy.remoteIP r) (Listener.TLSRandomFromContext ctx) = true)
  (Hver : Proxy.isHTTP1 r = false)
  (Htarget : SplitHostPort (Proxy.request_target r) = Ok (host, port)) (Hnamed : host <> "")
  (Hhost : ParseIP host = []) (Hlookup : lookup host = Ok (pub :: priv :: rest))
  (Hpub : Server.IsPrivateIP pub = false) (Hdown : connect pub port = Some msg)
  (Hup : connect priv port = None) :
  let '(w', resp) := Proxy.ServeHTTP h ctx (on_network lookup connect e) w r new_response in
  final_status resp = StatusOK /\
  Proxy.w_effects w' = Proxy.w_effects w ++ [Proxy.Dial (Proxy.request_target r)] /\
  DialTCP lookup connect (Proxy.request_target r) = Ok priv.
Proof.
  set (e' := on_network lookup connect e). set (target := Proxy.request_target r).
  assert (Hdial : DialTCP lookup connect target = Ok priv).
  { unfold DialTCP, target. rewrite Htarget. cbn [mbind res_bind]. unfold host_addresses.
    rewrite Hhost, Hlookup. cbn [mbind res_bind]. cbn [dialSerial]. by rewrite Hdown, Hup. }
  assert (Hreach : reachable h e' target = true).
  { unfold reachable, target, Proxy.target_host, Proxy.resolveIP. rewrite Htarget.
    rewrite bool_decide_false by done. rewrite Hhost. cbn [Proxy.e_lookup e' on_network].
    rewrite Hlookup, Hpub. by rewrite orb_true_r. }
  assert (Hn : target ∉ [Proxy.pseudoHostCheck; Proxy.pseudoHostUDP; Proxy.pseudoHostICMP; Proxy.pseudoHostP2P]).
  { rewrite !not_elem_of_cons. unfold target.
    split_and!; try (intros E; rewrite E in Htarget; discriminate Htarget). apply not_elem_of_nil. }
  assert (Huniq : forall v, Proxy.admitted h w ctx e' r v -> v = u).
  { destruct Hadm as (_ & _ & Hu & _). intros v (_ & _ & Hv & _). exact (eq_trans (eq_sym Hv) Hu). }
  pose proof (served_tunnel h ctx e' w r u target eq_refl Hver Hn Huniq) as Hs. cbn zeta in Hs.
  destruct (Proxy.ServeHTTP h ctx e' w r new_response) as [w' resp]. destruct Hs as [[[_ Heff]|[Hno _]] Hst].
  - split_and!; [|done|done]. apply Hst. split; [done|]. cbn. by rewrite Hdial.
  - exfalso. by apply Hno.
Qed.

(** ** Witnesses: an endpoint with one user *)

Definition ex_users : Type := unit.
#[local] Instance ex_store : AuthStore.UserStore ex_users :=
  {| AuthStore.GetPassword _ u := Ok (if bool_decide (u = "ann") then "secret" else "");
     AuthStore.GetMaxDevices := None; AuthStore.GetLifecycle := None |}.
Definition ex_env : Proxy.env ex_users :=
  {| Proxy.e_store := tt; Proxy.e_now := 0; Proxy.e_lookup := fun _ => Err "no such host";
     Proxy.e_dial := fun _ => None; Proxy.e_up := None; Proxy.e_down := None; Proxy.e_hijacker := false;
     Proxy.e_hijack := Err "no"; Proxy.e_udp_body := GoIO.body_of [];
     Proxy.e_udp_env := fun _ => {| Udp.e_now := 0; Udp.e_dial := None; Udp.e_write := None |} |}.
Definition ex_public : IP := To16 [xcb; x00; x71; x07].        (* 203.0.113.7 *)
Definition ex_private : IP := To16 [x0a; x00; x00; x05].       (* 10.0.0.5 *)
Definition ex_lookup (host : string) : res (list IP) := Ok [ex_public; ex_private].
Definition ex_connect (ip : IP) (port : string) : option string :=
  if bool_decide (ip = ex_public) then Some "connection refused" else None.
Definition ex_request (target : string) : request :=
  Dialer.arrived "198.51.100.7:4000" (Dialer.connect_request Dialer.ex_dialer target).

Lemma flow_end_to_end_witness :
  Proxy.w_effects (Proxy.ServeHTTP Proxy.ex_handler Listener.background ex_env Proxy.ex_world
    (ex_request "203.0.113.7:443") new_response).1 = [Proxy.Dial "203.0.113.7:443"].
Proof.
  destruct (flow_end_to_end (fun _ => Some tt) Dialer.ex_cfg Dialer.ex_dialer Proxy.ex_handler Listener.background
    ex_env Proxy.ex_world "198.51.100.7:4000" Dialer.zero_stats (Tun.new_device "utun5") [xcb; x00; x71; x07]
    443 0 1 "203.0.113.7:443" (fun c s => (c, s, (Tun.uplink 1 None, Tun.downlink 2 None))))
    as (_ & [[_ Heff]|[Hno _]] & _).
  - vm_compute. reflexivity.
  - reflexivity.
  - reflexivity.
  - discriminate.
  - vm_compute. reflexivity.
  - exact Heff.
  - exfalso. apply Hno. split; [|split; [vm_compute; reflexivity|right; vm_compute; reflexivity]].
    split; [reflexivity|]. split; [reflexivity|]. vm_compute. split_and!; try done. left. done.
Defined.

Lemma ex_admitted target :
  Proxy.admitted Proxy.ex_handler Proxy.ex_world Listener.background (on_network ex_lookup ex_connect ex_env)
    (ex_request target) "ann".
Proof. split; [done|]. split; [done|]. vm_compute. split_and!; try done. by left. Qed.

Lemma literal_never_private_witness : Server.IsPrivateIP ex_public = false.
Proof.
  eapply (literal_never_private ex_lookup (fun _ _ => None) Proxy.ex_handler Listener.background ex_env
    Proxy.ex_world (ex_request "203.0.113.7:443") new_response "203.0.113.7" "443").
  - reflexivity.
  - vm_compute. reflexivity.
  - vm_compute. discriminate.
  - discriminate.
  - exists [Proxy.Dial "203.0.113.7:443"]. split; [vm_compute; reflexivity|]. vm_compute. constructor.
  - vm_compute. reflexivity.
Defined.

Lemma name_reaches_private_witness :
  DialTCP ex_lookup ex_connect "intranet.example:80" = Ok ex_private /\ Server.IsPrivateIP ex_private = true.
Proof.
  split; [|vm_compute; reflexivity].
  pose proof (name_reaches_private ex_lookup ex_connect Proxy.ex_handler Listener.background ex_env Proxy.ex_world
    (ex_request "intranet.example:80") "ann" "intranet.example" "80" "connection refused" ex_public ex_private []
    (ex_admitted _) eq_refl eq_refl eq_refl ltac:(discriminate) eq_refl eq_refl eq_refl eq_refl eq_refl) as H.
  destruct (Proxy.ServeHTTP _ _ _ _ _ _) as [w' resp]. exact (proj2 (proj2 H)).
Defined.
