(* ===== verification/Stream.v ===== *)
(** The bytes of a TCP tunnel over HTTP/2, end to end: the two copying
    goroutines of relayTCP (internal/client/tun.go) and the two of
    handleTCPTunnel (internal/proxy/handler.go), with the half-closes, the
    reports and the returns of the functions that wait for them. *)
From S2P Require Import Prelude.

(** ** A copying goroutine *)

(** Where it is: in io.Copy or copyFlush, between the loop and what follows it. *)
Inductive phase := Reading | Writing (chunk : list byte) | Copied | Closed | Reported.
Record copier := { c_at : phase; c_bytes : nat }.

Definition start : copier := {| c_at := Reading; c_bytes := 0 |}.
Definition goes (c : copier) (p : phase) : copier := {| c_at := p; c_bytes := c_bytes c |}.

(** It holds a chunk of at most 32 KiB. *)
Definition chunk_size (n : nat) : nat := S (Nat.min n (Z.to_nat 32767)).
#[global] Arguments chunk_size : simpl never.

(** One call of Read or Write in the loop. [ended]: the source is at its end;
    [fr], [fw]: reads or writes fail now, a read when [n] is 0 or nothing is
    left, a write after [n] bytes. The result is with the source and what was
    written. *)
Definition copy_step (n : nat) (src : list byte) (ended fr fw : bool) (c : copier)
  : copier * list byte * list byte :=
  match c_at c with
  | Reading =>
      if fr && (n =? 0)%nat then (goes c Copied, src, [])
      else match src with
           | [] => (if ended || fr then goes c Copied else c, [], [])
           | _ => (goes c (Writing (take (chunk_size n) src)), drop (chunk_size n) src, [])
           end
  | Writing chunk =>
      let out := if fw then take n chunk else chunk in
      ({| c_at := if fw then Copied else Reading; c_bytes := c_bytes c + length out |}, src, out)
  | _ => (c, src, [])
  end.

(** ** One direction: the source, the stream between client and endpoint, and
    the receiver *)

Record direction := {
  d_sent : list byte;          (* all the source has sent *)
  d_src : list byte;           (* of it, what has not been read *)
  d_src_end : bool;            (* the source has closed *)
  d_mid : list byte;
  d_mid_end : bool;
  d_dst : list byte;           (* what the receiver got *)
  d_dst_end : bool;
  d_first : copier;
  d_second : copier;
}.

Definition idle : direction :=
  {| d_sent := []; d_src := []; d_src_end := false; d_mid := []; d_mid_end := false; d_dst := [];
     d_dst_end := false; d_first := start; d_second := start |}.

Definition send (bs : list byte) (d : direction) : direction :=
  if d_src_end d then d
  else {| d_sent := d_sent d ++ bs; d_src := d_src d ++ bs; d_src_end := false; d_mid := d_mid d;
          d_mid_end := d_mid_end d; d_dst := d_dst d; d_dst_end := d_dst_end d; d_first := d_first d;
          d_second := d_second d |}.
(** The ends of the source, of the stream and of the receiver's input. *)
Definition end_src (d : direction) : direction :=
  {| d_sent := d_sent d; d_src := d_src d; d_src_end := true; d_mid := d_mid d; d_mid_end := d_mid_end d;
     d_dst := d_dst d; d_dst_end := d_dst_end d; d_first := d_first d; d_second := d_second d |}.
Definition end_mid (d : direction) : direction :=
  {| d_sent := d_sent d; d_src := d_src d; d_src_end := d_src_end d; d_mid := d_mid d; d_mid_end := true;
     d_dst := d_dst d; d_dst_end := d_dst_end d; d_first := d_first d; d_second := d_second d |}.
Definition end_dst (d : direction) : direction :=
  {| d_sent := d_sent d; d_src := d_src d; d_src_end := d_src_end d; d_mid := d_mid d; d_mid_end := d_mid_end d;
     d_dst := d_dst d; d_dst_end := true; d_first := d_first d; d_second := d_second d |}.
Definition set_first (p : phase) (d : direction) : direction :=
  {| d_sent := d_sent d; d_src := d_src d; d_src_end := d_src_end d; d_mid := d_mid d; d_mid_end := d_mid_end d;
     d_dst := d_dst d; d_dst_end := d_dst_end d; d_first := goes (d_first d) p; d_second := d_second d |}.
Definition set_second (p : phase) (d : direction) : direction :=
  {| d_sent := d_sent d; d_src := d_src d; d_src_end := d_src_end d; d_mid := d_mid d; d_mid_end := d_mid_end d;
     d_dst := d_dst d; d_dst_end := d_dst_end d; d_first := d_first d; d_second := goes (d_second d) p |}.
Definition copy_first (n : nat) (fr fw : bool) (d : direction) : direction :=
  let '(c, src, out) := copy_step n (d_src d) (d_src_end d) fr fw (d_first d) in
  {| d_sent := d_sent d; d_src := src; d_src_end := d_src_end d; d_mid := d_mid d ++ out; d_mid_end := d_mid_end d;
     d_dst := d_dst d; d_dst_end := d_dst_end d; d_first := c; d_second := d_second d |}.
Definition copy_second (n : nat) (fr fw : bool) (d : direction) : direction :=
  let '(c, mid, out) := copy_step n (d_mid d) (d_mid_end d) fr fw (d_second d) in
  {| d_sent := d_sent d; d_src := d_src d; d_src_end := d_src_end d; d_mid := mid; d_mid_end := d_mid_end d;
     d_dst := d_dst d ++ out; d_dst_end := d_dst_end d; d_first := d_first d; d_second := c |}.

(** ** The tunnel *)

Record tunnel := {
  t_up : direction;                 (* program, relayTCP, handleTCPTunnel, target *)
  t_down : direction;               (* target, handleTCPTunnel, relayTCP, program *)
  t_gone : bool;                    (* the program has reset its connection *)
  t_reset : bool;                   (* the target has *)
  t_cancelled : bool;               (* the context of the request is done *)
  t_served : bool;                  (* handleTCPTunnel has returned *)
  t_relayed : option (nat * nat);   (* relayTCP has returned, with the bytes of untrackConn *)
  t_counted : nat * nat;            (* the bytes of AddBytes *)
  t_misused : bool;                 (* the ResponseWriter was used after the return *)
}.

Definition opened : tunnel :=
  {| t_up := idle; t_down := idle; t_gone := false; t_reset := false; t_cancelled := false; t_served := false;
     t_relayed := None; t_counted := (0, 0)%nat; t_misused := false |}.

Definition with_up (t : tunnel) (d : direction) : tunnel :=
  {| t_up := d; t_down := t_down t; t_gone := t_gone t; t_reset := t_reset t; t_cancelled := t_cancelled t;
     t_served := t_served t; t_relayed := t_relayed t; t_counted := t_counted t; t_misused := t_misused t |}.
Definition with_down (t : tunnel) (d : direction) : tunnel :=
  {| t_up := t_up t; t_down := d; t_gone := t_gone t; t_reset := t_reset t; t_cancelled := t_cancelled t;
     t_served := t_served t; t_relayed := t_relayed t; t_counted := t_counted t; t_misused := t_misused t |}.
Definition with_faults (t : tunnel) (gone reset cancelled : bool) : tunnel :=
  {| t_up := t_up t; t_down := t_down t; t_gone := gone; t_reset := reset; t_cancelled := cancelled;
     t_served := t_served t; t_relayed := t_relayed t; t_counted := t_counted t; t_misused := t_misused t |}.
Definition with_counted (t : tunnel) (up down : nat) : tunnel :=
  {| t_up := t_up t; t_down := t_down t; t_gone := t_gone t; t_reset := t_reset t; t_cancelled := t_cancelled t;
     t_served := t_served t; t_relayed := t_relayed t; t_counted := (up, down); t_misused := t_misused t |}.
Definition with_misused (t : tunnel) (b : bool) : tunnel :=
  {| t_up := t_up t; t_down := t_down t; t_gone := t_gone t; t_reset := t_reset t; t_cancelled := t_cancelled t;
     t_served := t_served t; t_relayed := t_relayed t; t_counted := t_counted t; t_misused := b |}.
Definition with_returns (t : tunnel) (served : bool) (relayed : option (nat * nat)) : tunnel :=
  {| t_up := t_up t; t_down := t_down t; t_gone := t_gone t; t_reset := t_reset t; t_cancelled := t_cancelled t;
     t_served := served; t_relayed := relayed; t_counted := t_counted t; t_misused := t_misused t |}.

(** *** relayTCP *)

(** From the program into the pipe, then closeWrite(remote), then the report. *)
Definition client_up (n : nat) (t : tunnel) : tunnel :=
  let d := t_up t in
  match c_at (d_first d) with
  | Copied => with_up t (set_first Closed (end_mid d))
  | Closed => with_up t (set_first Reported d)
  | Reported => t
  | _ => with_up t (copy_first n (t_gone t) (t_cancelled t || t_served t) d)
  end.

(** From the response to the program, closeWrite(localConn), the report. *)
Definition client_down (n : nat) (t : tunnel) : tunnel :=
  let d := t_down t in
  match c_at (d_second d) with
  | Copied => with_down t (set_second Closed (end_dst d))
  | Closed => with_down t (set_second Reported d)
  | Reported => t
  | _ => with_down t (copy_second n (t_cancelled t) (t_gone t) d)
  end.

(** After both reports: untrackConn and the deferred Close, which cancels a
    response that is not at its end. *)
Definition client_main (t : tunnel) : tunnel :=
  match t_relayed t, c_at (d_first (t_up t)), c_at (d_second (t_down t)) with
  | None, Reported, Reported =>
      with_faults (with_returns t (t_served t) (Some (c_bytes (d_first (t_up t)), c_bytes (d_second (t_down t)))))
        (t_gone t) (t_reset t) (t_cancelled t || negb (t_served t))
  | _, _, _ => t
  end.

(** *** handleTCPTunnel *)

(** From the body to the target, AddBytes and the report, then CloseWrite. *)
Definition endpoint_up (n : nat) (t : tunnel) : tunnel :=
  let d := t_up t in
  match c_at (d_second d) with
  | Copied => with_up (with_counted t ((t_counted t).1 + c_bytes (d_second d)) (t_counted t).2)
                (set_second Reported d)
  | Reported => with_up t (set_second Closed (end_dst d))
  | Closed => t
  | _ => with_up t (copy_second n (t_cancelled t || t_served t) (t_reset t || t_served t) d)
  end.

(** From the target to the ResponseWriter, AddBytes and the report. *)
Definition endpoint_down (n : nat) (t : tunnel) : tunnel :=
  let d := t_down t in
  match c_at (d_first d) with
  | Copied => with_down (with_counted t (t_counted t).1 ((t_counted t).2 + c_bytes (d_first d)))
                (set_first Reported d)
  | Reported | Closed => t
  | Reading => with_down t (copy_first n (t_reset t || t_served t) false d)
  | Writing _ => with_down (with_misused t (t_misused t || t_served t))
                   (copy_first n false (t_cancelled t || t_served t) d)
  end.

Definition reported (c : copier) : bool := match c_at c with Reported | Closed => true | _ => false end.

(** The loop over errCh and the context: the return closes the connection to
    the target and ends the response. *)
Definition endpoint_main (t : tunnel) : tunnel :=
  if t_cancelled t || (reported (d_second (t_up t)) && reported (d_first (t_down t)))
  then with_returns (with_down (with_up t (end_dst (t_up t))) (end_mid (t_down t))) true (t_relayed t)
  else t.

(** ** Histories *)

Inductive event :=
| ProgramSends (bs : list byte) | ProgramCloses | ProgramResets
| TargetSends (bs : list byte) | TargetCloses | TargetResets
| Cancel                                   (* the connection to the endpoint breaks *)
| ClientUp (n : nat) | ClientDown (n : nat) | ClientMain
| EndpointUp (n : nat) | EndpointDown (n : nat) | EndpointMain.

Definition step (t : tunnel) (ev : event) : tunnel :=
  match ev with
  | ProgramSends bs => with_up t (send bs (t_up t))
  | ProgramCloses => with_up t (end_src (t_up t))
  | ProgramResets => with_faults t true (t_reset t) (t_cancelled t)
  | TargetSends bs => with_down t (send bs (t_down t))
  | TargetCloses => with_down t (end_src (t_down t))
  | TargetResets => with_faults t (t_gone t) true (t_cancelled t)
  | Cancel => with_faults t (t_gone t) (t_reset t) true
  | ClientUp n => client_up n t
  | ClientDown n => client_down n t
  | ClientMain => client_main t
  | EndpointUp n => endpoint_up n t
  | EndpointDown n => endpoint_down n t
  | EndpointMain => endpoint_main t
  end.

Definition run (evs : list event) : tunnel := foldl step opened evs.

(** ** Specification *)

Definition alive (c : copier) : bool := match c_at c with Reading | Writing _ => true | _ => false end.
Definition held (c : copier) : list byte := match c_at c with Writing chunk => chunk | _ => [] end.

(** The bytes of a direction that are still on their way to the receiver, the
    receiver's first. *)
Definition under_way (d : direction) : list byte :=
  if alive (d_second d)
  then held (d_second d) ++ d_mid d ++ (if alive (d_first d) then held (d_first d) ++ d_src d else [])
  else [].
Definition flowing (d : direction) : bool := alive (d_first d) && alive (d_second d).
Definition in_order (d : direction) : Prop :=
  d_dst d ++ under_way d `prefix_of` d_sent d /\
  (flowing d = true -> d_dst d ++ under_way d = d_sent d) /\
  c_bytes (d_second d) = length (d_dst d).

(** Nothing fails. *)
Definition quiet (ev : event) : Prop :=
  match ev with ProgramResets | TargetResets | Cancel => False | _ => True end.

(** What holds then of a direction: every byte is somewhere, and a goroutine is
    past its loop only at the end of its source. *)
Record whole (d : direction) : Prop := {
  w_bytes : d_dst d ++ held (d_second d) ++ d_mid d ++ held (d_first d) ++ d_src d = d_sent d;
  w_first : alive (d_first d) = false -> d_src_end d = true /\ d_src d = [];
  w_second : alive (d_second d) = false -> d_mid_end d = true /\ d_mid d = [];
  w_mid : d_mid_end d = true -> alive (d_first d) = false;
  w_dst : d_dst_end d = true -> alive (d_second d) = false;
  w_count : c_bytes (d_first d) = length (d_dst d ++ held (d_second d) ++ d_mid d);
}.

(** ** Lemmas: one direction, whatever fails *)

Lemma goes_bytes c p : c_bytes (goes c p) = c_bytes c.
Proof. done. Qed.

(** What a step of a goroutine does to its source, its chunk and its output. *)
Lemma copy_step_cases n src ended fr fw c :
  let '(c', src', out) := copy_step n src ended fr fw c in
  c_bytes c' = (c_bytes c + length out)%nat /\
  (c' = c /\ src' = src /\ out = [] \/
   alive c = true /\ alive c' = false /\ src' = src /\ out `prefix_of` held c \/
   alive c = true /\ alive c' = true /\ out ++ held c' ++ src' = held c ++ src).
Proof.
  unfold copy_step. generalize (chunk_size n) as k. intros k.
  unfold alive, held, goes. destruct (c_at c) as [|chunk| | |] eqn:Ec; cbn.
  2: { destruct fw; cbn; [|by split; [|right; right]].
       split; [done|]. right. left. split_and!; try done. apply prefix_take. }
  2-4: by split; [lia|left].
  destruct (fr && (n =? 0)%nat); cbn; [split; [lia|]; right; left; split_and!; [done..|apply prefix_nil]|].
  destruct src as [|b src]; cbn.
  - destruct (ended || fr); cbn; (split; [lia|]); [|by left]. right. left. by split_and!.
  - split; [lia|]. right. right. split_and!; [done..|]. f_equal. apply take_drop.
Qed.

Lemma prefix_shorter (a b k l : list byte) : b `prefix_of` k -> a ++ k `prefix_of` l -> a ++ b `prefix_of` l.
Proof. intros Hb Hk. by transitivity (a ++ k); [apply prefix_app|]. Qed.

Lemma copy_first_order n fr fw d : in_order d -> in_order (copy_first n fr fw d).
Proof.
  intros (Hp & He & Hc). unfold copy_first.
  pose proof (copy_step_cases n (d_src d) (d_src_end d) fr fw (d_first d)) as H.
  destruct (copy_step _ _ _ _ _ _) as [[c src] out]. destruct H as [_ H].
  revert Hp He. unfold in_order, flowing, under_way. cbn. intros Hp He.
  destruct H as [(-> & -> & ->)|[(E1 & E2 & -> & Ho)|(E1 & E2 & E)]].
  - by rewrite app_nil_r.
  - rewrite E2, E1 in *. cbn. split_and!; [|done..]. refine (prefix_shorter _ _ _ _ _ Hp).
    destruct (alive (d_second d)); [|done]. rewrite app_nil_r. do 2 apply prefix_app. by apply prefix_app_r.
  - rewrite E2, E1 in *. rewrite <- (app_assoc (d_mid d)), E. done.
Qed.

Lemma copy_second_order n fr fw d : in_order d -> in_order (copy_second n fr fw d).
Proof.
  intros (Hp & He & Hc). unfold copy_second.
  pose proof (copy_step_cases n (d_mid d) (d_mid_end d) fr fw (d_second d)) as H.
  destruct (copy_step _ _ _ _ _ _) as [[c mid] out]. destruct H as [Hn H].
  revert Hp He. unfold in_order, flowing, under_way. cbn. rewrite Hn, Hc, length_app, <- app_assoc. intros Hp He.
  destruct H as [(-> & -> & ->)|[(E1 & E2 & -> & Ho)|(E1 & E2 & E)]].
  - done.
  - rewrite E2, E1, !andb_false_r in *. split_and!; [|done..]. refine (prefix_shorter _ _ _ _ _ Hp).
    rewrite app_nil_r. by apply prefix_app_r.
  - rewrite E2, E1 in *. rewrite !andb_true_r in *.
    assert (Er : forall rest, out ++ held c ++ mid ++ rest = held (d_second d) ++ d_mid d ++ rest)
      by (intros rest; rewrite !app_assoc; rewrite !app_assoc in E; by rewrite E).
    by rewrite Er.
Qed.

Lemma send_order bs d : in_order d -> in_order (send bs d).
Proof.
  intros (Hp & He & Hc). unfold send. destruct (d_src_end d); [done|].
  revert Hp He. unfold in_order, flowing, under_way. cbn. intros Hp He.
  destruct (alive (d_first d)), (alive (d_second d)); cbn in *.
  - rewrite !app_assoc in *. rewrite (He eq_refl). done.
  - split_and!; [by apply prefix_app_r|done..].
  - split_and!; [by apply prefix_app_r|done..].
  - split_and!; [by apply prefix_app_r|done..].
Qed.

(** Past the loop a goroutine stays there. *)
Lemma set_first_order p d : alive (d_first d) = false ->
  match p with Reading | Writing _ => False | _ => True end -> in_order d -> in_order (set_first p d).
Proof.
  intros Ha Hpast. unfold in_order, flowing, under_way. cbn. rewrite Ha. by destruct p.
Qed.

Lemma set_second_order p d : alive (d_second d) = false ->
  match p with Reading | Writing _ => False | _ => True end -> in_order d -> in_order (set_second p d).
Proof.
  intros Ha Hpast. unfold in_order, flowing, under_way. cbn. rewrite Ha. by destruct p.
Qed.

Definition ordered (t : tunnel) : Prop := in_order (t_up t) /\ in_order (t_down t).

Ltac phase_at E := unfold alive; cbn; rewrite E; done.

Lemma step_ordered t ev : ordered t -> ordered (step t ev).
Proof.
  intros [Hu Hd]. destruct ev as [bs| | |bs| | | |n|n| |n|n|]; cbn [step].
  - split; [by apply send_order|done].
  - done.
  - done.
  - split; [done|by apply send_order].
  - done.
  - done.
  - done.
  - unfold client_up. destruct (c_at (d_first (t_up t))) eqn:E; (split; [|done]); cbn [t_up with_up].
    + by apply copy_first_order.
    + by apply copy_first_order.
    + apply set_first_order; [phase_at E|done|done].
    + apply set_first_order; [phase_at E|done|done].
    + done.
  - unfold client_down. destruct (c_at (d_second (t_down t))) eqn:E; (split; [done|]); cbn [t_down with_down].
    + by apply copy_second_order.
    + by apply copy_second_order.
    + apply set_second_order; [phase_at E|done|done].
    + apply set_second_order; [phase_at E|done|done].
    + done.
  - unfold client_main. by destruct (t_relayed t), (c_at (d_first (t_up t))), (c_at (d_second (t_down t))).
  - unfold endpoint_up. destruct (c_at (d_second (t_up t))) eqn:E; (split; [|done]); cbn [t_up with_up].
    + by apply copy_second_order.
    + by apply copy_second_order.
    + apply set_second_order; [phase_at E|done|done].
    + done.
    + apply set_second_order; [phase_at E|done|done].
  - unfold endpoint_down. destruct (c_at (d_first (t_down t))) eqn:E; (split; [done|]); cbn [t_down with_down].
    + by apply copy_first_order.
    + by apply copy_first_order.
    + apply set_first_order; [phase_at E|done|done].
    + done.
    + done.
  - unfold endpoint_main. by destruct (_ || _).
Qed.

(** The ResponseWriter is used after the return only when the request was
    cancelled. *)
Definition used_well (t : tunnel) : Prop :=
  (t_served t = true -> t_cancelled t = true \/ reported (d_first (t_down t)) = true) /\
  (t_misused t = true -> t_cancelled t = true).

Lemma copy_first_reported n fr fw d : reported (d_first d) = true -> reported (d_first (copy_first n fr fw d)) = true.
Proof.
  unfold copy_first, copy_step, reported. intros H. by destruct (c_at (d_first d)) eqn:E; cbn; rewrite ?E.
Qed.

Lemma step_used_well t ev : used_well t -> used_well (step t ev).
Proof.
  intros [Hs Hm]. destruct ev as [bs| | |bs| | | |n|n| |n|n|]; cbn [step]; try done.
  - split; [|done]. cbn. unfold send. by destruct (d_src_end (t_down t)).
  - split; intros _; [by left|done].
  - unfold client_up. by destruct (c_at (d_first (t_up t))).
  - unfold client_down. by destruct (c_at (d_second (t_down t))); (split; [|done]); cbn;
      unfold copy_second; try destruct (copy_step _ _ _ _ _ _) as [[? ?] ?].
  - unfold client_main. destruct (t_relayed t), (c_at (d_first (t_up t))), (c_at (d_second (t_down t))); try done.
    unfold used_well. cbn. split; intros H; [destruct (Hs H) as [->|]; auto|by rewrite (Hm H)].
  - unfold endpoint_up. by destruct (c_at (d_second (t_up t))).
  - unfold endpoint_down. destruct (c_at (d_first (t_down t))) eqn:E; [..|done|done].
    + split; [|done]. cbn. intros H. destruct (Hs H) as [?|H']; [by left|]. right. by apply copy_first_reported.
    + unfold used_well. cbn. assert (Hw : t_served t = true -> t_cancelled t = true).
      { intros H. destruct (Hs H) as [?|H']; [done|]. unfold reported in H'. by rewrite E in H'. }
      split; [intros H; left; by apply Hw|]. intros H. apply orb_true_iff in H as [H|H]; auto.
    + split; [|done]. intros _. by right.
  - unfold endpoint_main. destruct (_ || _) eqn:E; [|done]. split; [|done]. intros _. cbn.
    apply orb_true_iff in E as [E|E]; [by left|]. apply andb_true_iff in E as [_ E]. by right.
Qed.

(** ** Lemmas: when nothing fails *)

Lemma copy_step_clean n src ended c :
  let '(c', src', out) := copy_step n src ended false false c in
  c_bytes c' = (c_bytes c + length out)%nat /\
  (c' = c /\ src' = src /\ out = [] \/
   alive c = true /\ alive c' = false /\ ended = true /\ held c = [] /\ src = [] /\ src' = [] /\ out = [] \/
   alive c = true /\ alive c' = true /\ out ++ held c' ++ src' = held c ++ src).
Proof.
  unfold copy_step. generalize (chunk_size n) as k. intros k.
  unfold alive, held, goes. destruct (c_at c) as [|chunk| | |] eqn:Ec; cbn.
  2: by split; [|right; right].
  2-4: by split; [lia|left].
  destruct src as [|b src]; cbn.
  - destruct ended; cbn; (split; [lia|]); [|by left]. right. by left.
  - split; [lia|]. right. right. split_and!; [done..|]. f_equal. apply take_drop.
Qed.

Lemma copy_first_whole n d : whole d -> whole (copy_first n false false d).
Proof.
  intros [Hb H1 H2 Hm Hd Hc]. unfold copy_first.
  pose proof (copy_step_clean n (d_src d) (d_src_end d) (d_first d)) as H.
  destruct (copy_step _ _ _ _ _ _) as [[c src] out]. destruct H as [Hn H].
  assert (Hc' : c_bytes c = length (d_dst d ++ held (d_second d) ++ d_mid d ++ out))
    by (rewrite Hn, Hc, !length_app; lia).
  destruct H as [(-> & -> & ->)|[(E1 & E2 & Hend & Eh & Es & -> & ->)|(E1 & E2 & E)]].
  - rewrite app_nil_r in *. by split.
  - rewrite app_nil_r in Hc'. rewrite Eh, Es in Hb.
    assert (Hh : held c = []) by (unfold alive in E2; unfold held; by destruct (c_at c)).
    split; cbn; rewrite ?app_nil_r, ?Hh; done.
  - assert (Hend : alive (d_second d) = false -> False) by (intros H; by rewrite Hm in E1; [|apply H2]).
    split; cbn; [|by rewrite E2|intros H; by destruct Hend| |done|done].
    + by rewrite <- (app_assoc (d_mid d)), E.
    + intros H. by rewrite Hm in E1.
Qed.

Lemma copy_second_whole n d : whole d -> whole (copy_second n false false d).
Proof.
  intros [Hb H1 H2 Hm Hd Hc]. unfold copy_second.
  pose proof (copy_step_clean n (d_mid d) (d_mid_end d) (d_second d)) as H.
  destruct (copy_step _ _ _ _ _ _) as [[c mid] out]. destruct H as [Hn H].
  destruct H as [(-> & -> & ->)|[(E1 & E2 & Hend & Eh & Es & -> & ->)|(E1 & E2 & E)]].
  - split; cbn; rewrite ?app_nil_r; done.
  - assert (Hh : held c = []) by (unfold alive in E2; unfold held; by destruct (c_at c)).
    rewrite Eh, Es in Hb, Hc. split; cbn; rewrite ?app_nil_r, ?Hh; done.
  - assert (Er : forall rest, out ++ held c ++ mid ++ rest = held (d_second d) ++ d_mid d ++ rest)
      by (intros rest; rewrite !app_assoc; rewrite !app_assoc in E; by rewrite E).
    split; cbn; rewrite <- ?app_assoc; [by rewrite Er|done|by rewrite E2|done| |].
    + intros H. by rewrite Hd in E1.
    + by rewrite E.
Qed.

Lemma send_whole bs d : whole d -> whole (send bs d).
Proof.
  intros [Hb H1 H2 Hm Hd Hc]. unfold send. destruct (d_src_end d) eqn:Ee; [by split; rewrite ?Ee|].
  split; cbn; try done.
  - by rewrite <- Hb, <- !app_assoc.
  - intros H. by destruct (H1 H).
Qed.

Lemma end_src_whole d : whole d -> whole (end_src d).
Proof. intros [Hb H1 H2 Hm Hd Hc]. split; try done. cbn. intros H. split; [done|by apply H1]. Qed.

Lemma end_mid_whole d : alive (d_first d) = false -> whole d -> whole (end_mid d).
Proof. intros Ha [Hb H1 H2 Hm Hd Hc]. split; try done. cbn. intros H. split; [done|by apply H2]. Qed.

Lemma end_dst_whole d : alive (d_second d) = false -> whole d -> whole (end_dst d).
Proof. intros Ha [Hb H1 H2 Hm Hd Hc]. by split. Qed.

Lemma set_first_whole p d : alive (d_first d) = false ->
  match p with Reading | Writing _ => False | _ => True end -> whole d -> whole (set_first p d).
Proof.
  intros Ha Hp [Hb H1 H2 Hm Hd Hc].
  assert (Hh : held (d_first d) = []) by (unfold alive in Ha; unfold held; by destruct (c_at (d_first d))).
  rewrite Hh in Hb. split; try done; cbn; [by destruct p|auto|by destruct p].
Qed.

Lemma set_second_whole p d : alive (d_second d) = false ->
  match p with Reading | Writing _ => False | _ => True end -> whole d -> whole (set_second p d).
Proof.
  intros Ha Hp [Hb H1 H2 Hm Hd Hc].
  assert (Hh : held (d_second d) = []) by (unfold alive in Ha; unfold held; by destruct (c_at (d_second d))).
  rewrite Hh in Hb, Hc. split; try done; cbn; [by destruct p|auto|by destruct p|by destruct p].
Qed.

Record calm (t : tunnel) : Prop := {
  m_up : whole (t_up t);
  m_down : whole (t_down t);
  m_faults : t_gone t = false /\ t_reset t = false /\ t_cancelled t = false;
  m_end : d_mid_end (t_down t) = t_served t;
  m_served : t_served t = true -> reported (d_second (t_up t)) = true /\ reported (d_first (t_down t)) = true;
  m_counted : t_counted t = (if reported (d_second (t_up t)) then c_bytes (d_second (t_up t)) else 0,
                             if reported (d_first (t_down t)) then c_bytes (d_first (t_down t)) else 0)%nat;
  m_relayed : match t_relayed t with
              | None => True
              | Some k => k = (c_bytes (d_first (t_up t)), c_bytes (d_second (t_down t))) /\
                          c_at (d_first (t_up t)) = Reported /\ c_at (d_second (t_down t)) = Reported
              end;
  m_shut_up : alive (d_first (t_up t)) = false -> c_at (d_first (t_up t)) <> Copied -> d_mid_end (t_up t) = true;
  m_shut_down : alive (d_second (t_down t)) = false -> c_at (d_second (t_down t)) <> Copied ->
                d_dst_end (t_down t) = true;
}.

(** What a step within the loop leaves. *)
Lemma copy_first_keeps n fr fw d :
  let d' := copy_first n fr fw d in
  d_mid_end d' = d_mid_end d /\ d_dst_end d' = d_dst_end d /\ d_src_end d' = d_src_end d /\
  d_sent d' = d_sent d /\ d_second d' = d_second d.
Proof. unfold copy_first. by destruct (copy_step _ _ _ _ _ _) as [[? ?] ?]. Qed.

Lemma copy_second_keeps n fr fw d :
  let d' := copy_second n fr fw d in
  d_mid_end d' = d_mid_end d /\ d_dst_end d' = d_dst_end d /\ d_src_end d' = d_src_end d /\
  d_sent d' = d_sent d /\ d_first d' = d_first d.
Proof. unfold copy_second. by destruct (copy_step _ _ _ _ _ _) as [[? ?] ?]. Qed.

(** A goroutine in its loop ends at most at [Copied]. *)
Lemma copy_step_within n src ended fr fw c : alive c = true ->
  let '(c', _, _) := copy_step n src ended fr fw c in alive c' = true \/ c_at c' = Copied.
Proof.
  unfold copy_step. generalize (chunk_size n) as k. intros k. unfold alive, goes.
  destruct (c_at c) eqn:Ec; try done; intros _; cbn.
  - destruct (_ && _); [by right|]. destruct src; cbn; [|by left].
    destruct (_ || _); cbn; [by right|]. left. by rewrite Ec.
  - destruct fw; cbn; [by right|by left].
Qed.

Lemma not_reported_alive c : alive c = true -> reported c = false.
Proof. unfold alive, reported. by destruct (c_at c). Qed.

Lemma calm_opened : calm opened.
Proof. by split. Qed.

Lemma calm_client_up n t : calm t -> calm (client_up n t).
Proof.
  intros Hcalm. pose proof Hcalm as [Hu Hd (Hg & Hr & Hk) He Hs Hc Hrel Hsu Hsd]. unfold client_up.
  assert (Hl : alive (d_first (t_up t)) = true -> calm (with_up t (copy_first n false false (t_up t)))).
  { intros Ha. pose proof (copy_first_keeps n false false (t_up t)) as (K1 & K2 & K3 & K4 & K5).
    assert (Hw : alive (d_first (copy_first n false false (t_up t))) = true \/
                 c_at (d_first (copy_first n false false (t_up t))) = Copied).
    { unfold copy_first. pose proof (copy_step_within n (d_src (t_up t)) (d_src_end (t_up t)) false false _ Ha) as H.
      by destruct (copy_step _ _ _ _ _ _) as [[? ?] ?]. }
    split; cbn [with_up t_up t_down t_gone t_reset t_cancelled t_served t_counted t_relayed]; rewrite ?K1, ?K5; try done.
    - by apply copy_first_whole.
    - destruct (t_relayed t); [|done]. destruct Hrel as (_ & H & _). unfold alive in Ha. by rewrite H in Ha.
    - intros H1 H2. destruct Hw as [Hw|Hw]; [by rewrite Hw in H1|done]. }
  rewrite Hg, Hk. cbn [orb].
  assert (Hserved : alive (d_first (t_up t)) = true -> t_served t = false).
  { intros Ha. destruct (t_served t); [|done]. destruct (Hs eq_refl) as [H _].
    assert (Hd2 : alive (d_second (t_up t)) = false)
      by (revert H; unfold alive, reported; by destruct (c_at (d_second (t_up t)))).
    destruct (w_second _ Hu Hd2) as [Hm _]. by rewrite (w_mid _ Hu Hm) in Ha. }
  destruct (c_at (d_first (t_up t))) eqn:E.
  - rewrite Hserved by phase_at E. apply Hl. phase_at E.
  - rewrite Hserved by phase_at E. apply Hl. phase_at E.
  - assert (Ha : alive (d_first (t_up t)) = false) by phase_at E.
    split; cbn; try done; [by apply set_first_whole; [..|apply end_mid_whole]|].
    destruct (t_relayed t); [|done]. by destruct Hrel as (_ & H & _).
  - assert (Ha : alive (d_first (t_up t)) = false) by phase_at E.
    split; cbn; try done; [by apply set_first_whole| |].
    + destruct (t_relayed t); [|done]. by destruct Hrel as (_ & H & _).
    + intros _ _. by apply Hsu.
  - exact Hcalm.
Qed.

Lemma calm_client_down n t : calm t -> calm (client_down n t).
Proof.
  intros Hcalm. pose proof Hcalm as [Hu Hd (Hg & Hr & Hk) He Hs Hc Hrel Hsu Hsd]. unfold client_down.
  assert (Hl : alive (d_second (t_down t)) = true -> calm (with_down t (copy_second n false false (t_down t)))).
  { intros Ha. pose proof (copy_second_keeps n false false (t_down t)) as (K1 & K2 & K3 & K4 & K5).
    assert (Hw : alive (d_second (copy_second n false false (t_down t))) = true \/
                 c_at (d_second (copy_second n false false (t_down t))) = Copied).
    { unfold copy_second. pose proof (copy_step_within n (d_mid (t_down t)) (d_mid_end (t_down t)) false false _ Ha) as H.
      by destruct (copy_step _ _ _ _ _ _) as [[? ?] ?]. }
    split; cbn [with_down t_up t_down t_gone t_reset t_cancelled t_served t_counted t_relayed]; rewrite ?K1, ?K5; try done.
    - by apply copy_second_whole.
    - destruct (t_relayed t); [|done]. destruct Hrel as (_ & _ & H). unfold alive in Ha. by rewrite H in Ha.
    - intros H1 H2. destruct Hw as [Hw|Hw]; [by rewrite Hw in H1|done]. }
  rewrite Hg, Hk. destruct (c_at (d_second (t_down t))) eqn:E.
  - apply Hl. phase_at E.
  - apply Hl. phase_at E.
  - assert (Ha : alive (d_second (t_down t)) = false) by phase_at E.
    split; cbn; try done; [by apply set_second_whole; [..|apply end_dst_whole]|].
    destruct (t_relayed t); [|done]. by destruct Hrel as (_ & _ & H).
  - assert (Ha : alive (d_second (t_down t)) = false) by phase_at E.
    split; cbn; try done; [by apply set_second_whole| |].
    + destruct (t_relayed t); [|done]. by destruct Hrel as (_ & _ & H).
    + intros _ _. by apply Hsd.
  - exact Hcalm.
Qed.

Lemma calm_endpoint_up n t : calm t -> calm (endpoint_up n t).
Proof.
  intros Hcalm. pose proof Hcalm as [Hu Hd (Hg & Hr & Hk) He Hs Hc Hrel Hsu Hsd]. unfold endpoint_up.
  assert (Hl : alive (d_second (t_up t)) = true -> t_served t = false ->
               calm (with_up t (copy_second n false false (t_up t)))).
  { intros Ha Hn. pose proof (copy_second_keeps n false false (t_up t)) as (K1 & K2 & K3 & K4 & K5).
    assert (Hw : reported (d_second (copy_second n false false (t_up t))) = false).
    { unfold copy_second. pose proof (copy_step_within n (d_mid (t_up t)) (d_mid_end (t_up t)) false false _ Ha) as H.
      destruct (copy_step _ _ _ _ _ _) as [[c ?] ?]. destruct H as [H|H]; [by apply not_reported_alive|].
      cbn. unfold reported. by rewrite H. }
    split; cbn [with_up t_up t_down t_gone t_reset t_cancelled t_served t_counted t_relayed];
      rewrite ?K1, ?K5, ?Hn; try done; [by apply copy_second_whole|by rewrite He|].
    rewrite Hw. by rewrite (not_reported_alive _ Ha) in Hc. }
  assert (Hn : reported (d_second (t_up t)) = false -> t_served t = false)
    by (intros H; destruct (t_served t); [|done]; destruct (Hs eq_refl) as [H' _]; by rewrite H in H').
  rewrite Hr, Hk. cbn [orb]. destruct (c_at (d_second (t_up t))) eqn:E.
  - assert (Ha : alive (d_second (t_up t)) = true) by phase_at E. rewrite Hn by by apply not_reported_alive.
    apply Hl; [done|]. apply Hn. by apply not_reported_alive.
  - assert (Ha : alive (d_second (t_up t)) = true) by phase_at E. rewrite Hn by by apply not_reported_alive.
    apply Hl; [done|]. apply Hn. by apply not_reported_alive.
  - assert (Ha : alive (d_second (t_up t)) = false) by phase_at E.
    split; cbn; try done; [by apply set_second_whole|intros H; by destruct (Hs H)|].
    rewrite Hc. unfold reported at 1 3. by rewrite E.
  - exact Hcalm.
  - assert (Ha : alive (d_second (t_up t)) = false) by phase_at E.
    split; cbn; try done; [by apply set_second_whole; [..|apply end_dst_whole]|intros H; by destruct (Hs H)|].
    rewrite Hc. unfold reported at 1 3. by rewrite E.
Qed.

Lemma calm_endpoint_down n t : calm t -> calm (endpoint_down n t).
Proof.
  intros Hcalm. pose proof Hcalm as [Hu Hd (Hg & Hr & Hk) He Hs Hc Hrel Hsu Hsd]. unfold endpoint_down.
  assert (Hl : alive (d_first (t_down t)) = true -> t_served t = false ->
               forall b, calm (with_down (with_misused t b) (copy_first n false false (t_down t)))).
  { intros Ha Hn b. pose proof (copy_first_keeps n false false (t_down t)) as (K1 & K2 & K3 & K4 & K5).
    assert (Hw : reported (d_first (copy_first n false false (t_down t))) = false).
    { unfold copy_first. pose proof (copy_step_within n (d_src (t_down t)) (d_src_end (t_down t)) false false _ Ha) as H.
      destruct (copy_step _ _ _ _ _ _) as [[c ?] ?]. destruct H as [H|H]; [by apply not_reported_alive|].
      cbn. unfold reported. by rewrite H. }
    split; cbn [with_down with_misused t_up t_down t_gone t_reset t_cancelled t_served t_counted t_relayed];
      rewrite ?K1, ?K2, ?K5, ?Hn; try done; [by apply copy_first_whole|by rewrite He|].
    rewrite Hw. by rewrite (not_reported_alive _ Ha) in Hc. }
  assert (Hn : reported (d_first (t_down t)) = false -> t_served t = false)
    by (intros H; destruct (t_served t); [|done]; destruct (Hs eq_refl) as [_ H']; by rewrite H in H').
  rewrite Hr, Hk. cbn [orb]. destruct (c_at (d_first (t_down t))) eqn:E.
  - assert (Ha : alive (d_first (t_down t)) = true) by phase_at E. rewrite Hn by by apply not_reported_alive.
    apply (Hl Ha (Hn (not_reported_alive _ Ha)) (t_misused t)).
  - assert (Ha : alive (d_first (t_down t)) = true) by phase_at E. rewrite Hn by by apply not_reported_alive.
    apply (Hl Ha (Hn (not_reported_alive _ Ha))).
  - assert (Ha : alive (d_first (t_down t)) = false) by phase_at E.
    split; cbn; try done; [by apply set_first_whole|intros H; by destruct (Hs H)|].
    rewrite Hc. unfold reported at 2 4. by rewrite E.
  - exact Hcalm.
  - exact Hcalm.
Qed.

Lemma calm_client_main t : calm t -> calm (client_main t).
Proof.
  intros Hcalm. pose proof Hcalm as [Hu Hd (Hg & Hr & Hk) He Hs Hc Hrel Hsu Hsd]. unfold client_main.
  destruct (t_relayed t); [exact Hcalm|].
  destruct (c_at (d_first (t_up t))) eqn:E1; try exact Hcalm.
  destruct (c_at (d_second (t_down t))) eqn:E2; try exact Hcalm.
  assert (Hserved : t_served t = true).
  { rewrite <- He. apply (w_second _ Hd). phase_at E2. }
  split; try done; cbn; [by rewrite Hk, Hserved|by rewrite E1|by rewrite E2].
Qed.

Lemma reported_past c : reported c = true -> alive c = false.
Proof. unfold alive, reported. by destruct (c_at c). Qed.

Lemma calm_endpoint_main t : calm t -> calm (endpoint_main t).
Proof.
  intros Hcalm. pose proof Hcalm as [Hu Hd (Hg & Hr & Hk) He Hs Hc Hrel Hsu Hsd]. unfold endpoint_main.
  rewrite Hk. cbn [orb]. destruct (_ && _) eqn:E; [|exact Hcalm]. apply andb_true_iff in E as [E1 E2].
  split; try done; cbn; [apply end_dst_whole; [by apply reported_past|done]|apply end_mid_whole; [by apply reported_past|done]].
Qed.

Lemma calm_step t ev : quiet ev -> calm t -> calm (step t ev).
Proof.
  intros Hq Hcalm. destruct ev as [bs| | |bs| | | |n|n| |n|n|]; try done; cbn [step].
  - destruct Hcalm as [Hu Hd Hf He Hs Hc Hrel Hsu Hsd]. pose proof (send_whole bs _ Hu) as Hw. revert Hw.
    unfold send. destruct (d_src_end (t_up t)); by split.
  - destruct Hcalm as [Hu Hd Hf He Hs Hc Hrel Hsu Hsd]. split; try done. by apply end_src_whole.
  - destruct Hcalm as [Hu Hd Hf He Hs Hc Hrel Hsu Hsd]. pose proof (send_whole bs _ Hd) as Hw. revert Hw.
    unfold send. destruct (d_src_end (t_down t)); by split.
  - destruct Hcalm as [Hu Hd Hf He Hs Hc Hrel Hsu Hsd]. split; try done. by apply end_src_whole.
  - by apply calm_client_up.
  - by apply calm_client_down.
  - by apply calm_client_main.
  - by apply calm_endpoint_up.
  - by apply calm_endpoint_down.
  - by apply calm_endpoint_main.
Qed.

Lemma run_calm t evs : Forall quiet evs -> calm t -> calm (foldl step t evs).
Proof.
  intros Hq. revert t. induction Hq as [|ev evs Hev Hq IH]; intros t Ht; [done|]. apply IH. by apply calm_step.
Qed.

Lemma run_holds t evs : ordered t -> used_well t -> ordered (foldl step t evs) /\ used_well (foldl step t evs).
Proof.
  revert t. induction evs as [|ev evs IH]; intros t Ho Hw; [done|].
  apply IH; [by apply step_ordered|by apply step_used_well].
Qed.

(** All bytes of a direction whose goroutines are past their loops. *)
Lemma whole_arrived d : whole d -> alive (d_second d) = false ->
  d_src_end d = true /\ d_dst d = d_sent d /\ alive (d_first d) = false /\ d_mid_end d = true /\
  c_bytes (d_first d) = length (d_sent d).
Proof.
  intros [Hb H1 H2 Hm Hd Hc] Ha. destruct (H2 Ha) as [Hme Hmid]. pose proof (Hm Hme) as Hf.
  destruct (H1 Hf) as [Hse Hsrc].
  assert (Hh : forall c, alive c = false -> held c = [])
    by (intros c; unfold alive, held; by destruct (c_at c)).
  rewrite Hmid, Hsrc, !Hh, !app_nil_r in Hb by done. rewrite Hmid, Hh, !app_nil_r in Hc by done.
  by rewrite Hc, Hb.
Qed.

(** ** Lemmas: the goroutines finish *)

Definition goroutine (ev : event) : Prop :=
  match ev with
  | ClientUp _ | ClientDown _ | ClientMain | EndpointUp _ | EndpointDown _ | EndpointMain => True
  | _ => False
  end.

Lemma goroutine_quiet evs : Forall goroutine evs -> Forall quiet evs.
Proof. intros H. eapply Forall_impl; [exact H|]. by intros []. Qed.

(** What is left to do: a byte is read and written twice, and a goroutine has
    the steps after its loop, whose order on the client is the other. *)
Definition phase_work (client : bool) (c : copier) : nat :=
  match c_at c with
  | Writing _ => 5 | Reading => 4 | Copied => 3
  | Closed => if client then 2 else 1
  | Reported => if client then 1 else 2
  end.
Definition dir_work (client_first : bool) (d : direction) : nat :=
  8 * length (d_src d) + 6 * length (held (d_first d)) + 4 * length (d_mid d) + 2 * length (held (d_second d)) +
  phase_work client_first (d_first d) + phase_work (negb client_first) (d_second d).
Definition work (t : tunnel) : nat :=
  dir_work true (t_up t) + dir_work false (t_down t) +
  (if t_served t then 0 else 1) + (if t_relayed t then 0 else 1).

Definition can_copy (c : copier) (src : list byte) (ended : bool) : Prop :=
  alive c = true /\ (ended = true \/ src <> [] \/ c_at c <> Reading).

Lemma copy_step_work b src ended c : can_copy c src ended ->
  let '(c', src', out) := copy_step 0 src ended false false c in
  (8 * length src' + 6 * length (held c') + 4 * length out + phase_work b c' <
   8 * length src + 6 * length (held c) + phase_work b c)%nat /\
  (4 * length src' + 2 * length (held c') + phase_work b c' < 4 * length src + 2 * length (held c) + phase_work b c)%nat.
Proof.
  intros [Ha Hc]. unfold copy_step. assert (Hk : chunk_size 0 = 1%nat) by reflexivity.
  revert Hk. generalize (chunk_size 0) as k. intros k Hk.
  revert Ha Hc. unfold can_copy, alive, held, phase_work, goes. destruct (c_at c) eqn:E; try done; intros _ Hc; cbn.
  - destruct src as [|x src]; cbn.
    + destruct Hc as [->|[?|?]]; [|done..]. cbn. lia.
    + rewrite Hk. cbn [take drop]. rewrite drop_0, take_0. cbn. lia.
  - lia.
Qed.

Lemma copy_first_work b d : can_copy (d_first d) (d_src d) (d_src_end d) ->
  (dir_work b (copy_first 0 false false d) < dir_work b d)%nat.
Proof.
  intros Hc. pose proof (copy_step_work b _ _ _ Hc) as H. unfold copy_first.
  destruct (copy_step _ _ _ _ _ _) as [[c src] out]. unfold dir_work. cbn [d_src d_first d_mid d_second].
  rewrite length_app. lia.
Qed.

Lemma copy_second_work b d : can_copy (d_second d) (d_mid d) (d_mid_end d) ->
  (dir_work b (copy_second 0 false false d) < dir_work b d)%nat.
Proof.
  intros Hc. pose proof (copy_step_work (negb b) _ _ _ Hc) as H. unfold copy_second.
  destruct (copy_step _ _ _ _ _ _) as [[c mid] out]. unfold dir_work. cbn [d_src d_first d_mid d_second].
  lia.
Qed.

(** In a calm tunnel each goroutine moves until it is done, its source being
    at its end. *)
Lemma can_copy_ended c src : alive c = true -> can_copy c src true.
Proof. intros Ha. split; [done|by left]. Qed.

Lemma calm_open t : calm t -> alive (d_second (t_up t)) = true \/ alive (d_first (t_down t)) = true -> t_served t = false.
Proof.
  intros [Hu Hd _ He Hs _ _ _ _] Ha. destruct (t_served t); [|done]. destruct (Hs eq_refl) as [H1 H2].
  apply reported_past in H1, H2. by destruct Ha as [H|H]; rewrite H in *.
Qed.

Lemma calm_open_up t : calm t -> alive (d_first (t_up t)) = true -> t_served t = false.
Proof.
  intros Hcalm Ha. apply calm_open; [done|]. left. destruct (alive (d_second (t_up t))) eqn:E; [done|].
  destruct (w_second _ (m_up _ Hcalm) E) as [Hm _]. by rewrite (w_mid _ (m_up _ Hcalm) Hm) in Ha.
Qed.

Ltac work_of H := unfold work; cbn [with_up with_down with_counted with_misused t_up t_down t_served t_relayed];
  pose proof H; lia.

(** A step past the loop. *)
Ltac past_loop E := right; unfold work, dir_work, phase_work, held; cbn; rewrite E; lia.

Lemma client_up_moves t : calm t -> d_src_end (t_up t) = true ->
  c_at (d_first (t_up t)) = Reported \/ (work (client_up 0 t) < work t)%nat.
Proof.
  intros Hcalm He. pose proof (m_faults _ Hcalm) as (Hg & Hr & Hk).
  assert (Hw : alive (d_first (t_up t)) = true -> (dir_work true (copy_first 0 false false (t_up t)) < dir_work true (t_up t))%nat)
    by (intros Ha; apply copy_first_work; rewrite He; by apply can_copy_ended).
  pose proof (calm_open_up t Hcalm) as Hs. unfold client_up. rewrite Hg, Hk. cbn [orb].
  destruct (c_at (d_first (t_up t))) eqn:E; [right|right|past_loop E|past_loop E|by left].
  - assert (Ha : alive (d_first (t_up t)) = true) by phase_at E. rewrite (Hs Ha). work_of (Hw Ha).
  - assert (Ha : alive (d_first (t_up t)) = true) by phase_at E. rewrite (Hs Ha). work_of (Hw Ha).
Qed.

Lemma endpoint_up_moves t : calm t -> d_mid_end (t_up t) = true ->
  reported (d_second (t_up t)) = true \/ (work (endpoint_up 0 t) < work t)%nat.
Proof.
  intros Hcalm He. pose proof (m_faults _ Hcalm) as (Hg & Hr & Hk).
  assert (Hw : alive (d_second (t_up t)) = true -> (dir_work true (copy_second 0 false false (t_up t)) < dir_work true (t_up t))%nat)
    by (intros Ha; apply copy_second_work; rewrite He; by apply can_copy_ended).
  assert (Hs : alive (d_second (t_up t)) = true -> t_served t = false) by (intros Ha; apply calm_open; auto).
  unfold endpoint_up, reported. rewrite Hr, Hk. cbn [orb].
  destruct (c_at (d_second (t_up t))) eqn:E; [right|right|past_loop E|by left|by left].
  - assert (Ha : alive (d_second (t_up t)) = true) by phase_at E. rewrite (Hs Ha). work_of (Hw Ha).
  - assert (Ha : alive (d_second (t_up t)) = true) by phase_at E. rewrite (Hs Ha). work_of (Hw Ha).
Qed.

Lemma endpoint_down_moves t : calm t -> d_src_end (t_down t) = true ->
  reported (d_first (t_down t)) = true \/ (work (endpoint_down 0 t) < work t)%nat.
Proof.
  intros Hcalm He. pose proof (m_faults _ Hcalm) as (Hg & Hr & Hk).
  assert (Hw : alive (d_first (t_down t)) = true -> (dir_work false (copy_first 0 false false (t_down t)) < dir_work false (t_down t))%nat)
    by (intros Ha; apply copy_first_work; rewrite He; by apply can_copy_ended).
  assert (Hs : alive (d_first (t_down t)) = true -> t_served t = false) by (intros Ha; apply calm_open; auto).
  unfold endpoint_down, reported. rewrite Hr, Hk. cbn [orb].
  destruct (c_at (d_first (t_down t))) eqn:E; [right|right|past_loop E|by left|by left].
  - assert (Ha : alive (d_first (t_down t)) = true) by phase_at E. rewrite (Hs Ha). work_of (Hw Ha).
  - assert (Ha : alive (d_first (t_down t)) = true) by phase_at E. rewrite (Hs Ha). work_of (Hw Ha).
Qed.

Lemma client_down_moves t : calm t -> d_mid_end (t_down t) = true ->
  c_at (d_second (t_down t)) = Reported \/ (work (client_down 0 t) < work t)%nat.
Proof.
  intros Hcalm He. pose proof (m_faults _ Hcalm) as (Hg & Hr & Hk).
  assert (Hw : alive (d_second (t_down t)) = true -> (dir_work false (copy_second 0 false false (t_down t)) < dir_work false (t_down t))%nat)
    by (intros Ha; apply copy_second_work; rewrite He; by apply can_copy_ended).
  unfold client_down. rewrite Hg, Hk.
  destruct (c_at (d_second (t_down t))) eqn:E; [right|right|past_loop E|past_loop E|by left].
  - assert (Ha : alive (d_second (t_down t)) = true) by phase_at E. work_of (Hw Ha).
  - assert (Ha : alive (d_second (t_down t)) = true) by phase_at E. work_of (Hw Ha).
Qed.

(** [handleTCPTunnel] has returned, and [relayTCP]. *)
Definition finished (t : tunnel) : Prop := t_served t = true /\ is_Some (t_relayed t).

Lemma progress t : calm t -> d_src_end (t_up t) = true -> d_src_end (t_down t) = true ->
  finished t \/ exists ev, goroutine ev /\ (work (step t ev) < work t)%nat.
Proof.
  intros Hcalm Su Sd.
  destruct (client_up_moves t Hcalm Su) as [E1|H]; [|right; by exists (ClientUp 0)].
  assert (Mu : d_mid_end (t_up t) = true) by (apply (m_shut_up _ Hcalm); [phase_at E1|by rewrite E1]).
  destruct (endpoint_up_moves t Hcalm Mu) as [E2|H]; [|right; by exists (EndpointUp 0)].
  destruct (endpoint_down_moves t Hcalm Sd) as [E3|H]; [|right; by exists (EndpointDown 0)].
  destruct (t_served t) eqn:Hs.
  2: { right. exists EndpointMain. split; [done|]. cbn [step]. unfold endpoint_main.
       rewrite E2, E3, orb_true_r. unfold work, dir_work. cbn. rewrite Hs. lia. }
  destruct (client_down_moves t Hcalm) as [E4|H]; [by rewrite (m_end _ Hcalm)| |right; by exists (ClientDown 0)].
  destruct (t_relayed t) eqn:Hr; [left; split; [done|by rewrite Hr; eexists]|].
  right. exists ClientMain. split; [done|]. cbn [step]. unfold client_main. rewrite Hr, E1, E4.
  unfold work, dir_work. cbn. rewrite Hr. lia.
Qed.

Lemma goroutine_keeps t ev : goroutine ev ->
  d_sent (t_up (step t ev)) = d_sent (t_up t) /\ d_src_end (t_up (step t ev)) = d_src_end (t_up t) /\
  d_sent (t_down (step t ev)) = d_sent (t_down t) /\ d_src_end (t_down (step t ev)) = d_src_end (t_down t).
Proof.
  assert (K1 : forall n fr fw d, d_sent (copy_first n fr fw d) = d_sent d /\ d_src_end (copy_first n fr fw d) = d_src_end d)
    by (intros n fr fw d; by destruct (copy_first_keeps n fr fw d) as (_ & _ & ? & ? & _)).
  assert (K2 : forall n fr fw d, d_sent (copy_second n fr fw d) = d_sent d /\ d_src_end (copy_second n fr fw d) = d_src_end d)
    by (intros n fr fw d; by destruct (copy_second_keeps n fr fw d) as (_ & _ & ? & ? & _)).
  destruct ev; try done; intros _; cbn [step].
  - unfold client_up. destruct (c_at (d_first (t_up t))); cbn [with_up t_up t_down]; try done;
      (split; [|split; [|done]]); apply K1.
  - unfold client_down. destruct (c_at (d_second (t_down t))); cbn [with_down t_up t_down]; try done;
      (split; [done|split; [done|apply K2]]).
  - unfold client_main. by destruct (t_relayed t), (c_at (d_first (t_up t))), (c_at (d_second (t_down t))).
  - unfold endpoint_up. destruct (c_at (d_second (t_up t))); cbn [with_up t_up t_down]; try done;
      (split; [|split; [|done]]); apply K2.
  - unfold endpoint_down. destruct (c_at (d_first (t_down t))); cbn [with_down t_up t_down]; try done;
      (split; [done|split; [done|apply K1]]).
  - unfold endpoint_main. by destruct (_ || _).
Qed.

Lemma finishes t : calm t -> d_src_end (t_up t) = true -> d_src_end (t_down t) = true ->
  exists evs, Forall goroutine evs /\ (length evs <= work t)%nat /\ finished (foldl step t evs) /\
    d_sent (t_up (foldl step t evs)) = d_sent (t_up t) /\ d_sent (t_down (foldl step t evs)) = d_sent (t_down t).
Proof.
  remember (work t) as w eqn:Hw. revert t Hw. induction w as [w IH] using lt_wf_ind. intros t -> Hcalm Su Sd.
  destruct (progress t Hcalm Su Sd) as [Hf|(ev & Hg & Hlt)]; [by exists []; split_and!; [|cbn; lia|..]|].
  destruct (goroutine_keeps t ev Hg) as (K1 & K2 & K3 & K4).
  destruct (IH _ Hlt (step t ev) eq_refl) as (evs & Hevs & Hlen & Hfin & S1 & S2);
    [apply calm_step; [by destruct ev|done]|by rewrite K2|by rewrite K4|].
  exists (ev :: evs). split_and!; [by constructor|cbn [length]; lia|done|exact (eq_trans S1 K1)|exact (eq_trans S2 K3)].
Qed.

(** ** Properties *)

(** C10: what a tunnel delivers. In every interleaving of the four copying
    goroutines, the two functions that wait for them, the program and the
    target, with connections that break: each side has received, in order, a
    prefix of what the other sent, and the response is written after the
    handler's return only if the request was cancelled. When nothing fails, the
    target sees the end only after the program has closed and it has
    everything; the program sees the end of the answer only after both sides
    have closed, so a target that closes first, as HTTP/1.0 servers do, is
    waited for in vain; and relayTCP and AddBytes count what was carried. *)
Theorem tunnel_delivers (evs : list event) :
  let t := run evs in
  d_dst (t_up t) `prefix_of` d_sent (t_up t) /\ d_dst (t_down t) `prefix_of` d_sent (t_down t) /\
  (t_misused t = true -> t_cancelled t = true) /\
  (Forall quiet evs ->
     t_misused t = false /\
     (d_dst_end (t_up t) = true -> d_src_end (t_up t) = true /\ d_dst (t_up t) = d_sent (t_up t)) /\
     (d_dst_end (t_down t) = true ->
        d_src_end (t_down t) = true /\ d_dst (t_down t) = d_sent (t_down t) /\
        d_src_end (t_up t) = true /\ d_dst (t_up t) = d_sent (t_up t)) /\
     (forall k, t_relayed t = Some k ->
        k = (length (d_sent (t_up t)), length (d_sent (t_down t))) /\ t_counted t = k)).
Proof.
  cbn zeta. destruct (run_holds opened evs) as [[[Hu [_ Hbu]] [Hd [_ Hbd]]] [_ Hw]]; [done|done|].
  fold (run evs) in *. split; [by eapply prefix_app_l|]. split; [by eapply prefix_app_l|]. split; [exact Hw|].
  intros Hq. pose proof (run_calm opened evs Hq calm_opened) as Hcalm. fold (run evs) in Hcalm.
  pose proof Hcalm as [Wu Wd (Hg & Hr & Hk) He Hs Hc Hrel Hsu Hsd].
  assert (Hanswer : alive (d_second (t_down (run evs))) = false ->
            t_served (run evs) = true /\ alive (d_second (t_up (run evs))) = false).
  { intros Ha. destruct (w_second _ Wd Ha) as [Hm _]. rewrite He in Hm. destruct (Hs Hm) as [H _].
    split; [done|]. by apply reported_past. }
  split_and!.
  - destruct (t_misused (run evs)); [|done]. rewrite (Hw eq_refl) in Hk. done.
  - intros H. destruct (whole_arrived _ Wu (w_dst _ Wu H)) as (? & ? & _). done.
  - intros H. pose proof (w_dst _ Wd H) as Ha. destruct (Hanswer Ha) as [_ Ha2].
    destruct (whole_arrived _ Wd Ha) as (? & ? & _). destruct (whole_arrived _ Wu Ha2) as (? & ? & _). done.
  - intros k Hrk. rewrite Hrk in Hrel. destruct Hrel as (-> & Hf & Hse).
    assert (Ha : alive (d_second (t_down (run evs))) = false) by phase_at Hse.
    destruct (Hanswer Ha) as [Hsv Ha2]. destruct (Hs Hsv) as [R1 R2].
    destruct (whole_arrived _ Wd Ha) as (_ & E1 & _ & _ & C1). destruct (whole_arrived _ Wu Ha2) as (_ & E2 & _ & _ & C2).
    rewrite Hbd, E1, C2. split; [done|]. rewrite Hc, R1, R2, Hbu, E2, C1. done.
Qed.

(** C11: a tunnel ends. When nothing fails and both sides have closed, the
    goroutines have, from wherever they are, a schedule of at most [work] steps
    after which handleTCPTunnel and relayTCP have returned and each side has
    all the other sent, the program its end as well. *)
Theorem tunnel_finishes (evs : list event)
  (Hq : Forall quiet evs) (Hp : d_src_end (t_up (run evs)) = true) (Ht : d_src_end (t_down (run evs)) = true) :
  exists more, Forall goroutine more /\ (length more <= work (run evs))%nat /\
    let t := run (evs ++ more) in
    finished t /\ d_dst (t_up t) = d_sent (t_up (run evs)) /\
    d_dst (t_down t) = d_sent (t_down (run evs)) /\ d_dst_end (t_down t) = true.
Proof.
  pose proof (run_calm opened evs Hq calm_opened) as Hcalm. fold (run evs) in Hcalm.
  destruct (finishes _ Hcalm Hp Ht) as (more & Hg & Hlen & Hfin & S1 & S2).
  exists more. split; [done|]. split; [done|]. unfold run. rewrite foldl_app. fold (run evs).
  pose proof (run_calm _ more (goroutine_quiet _ Hg) Hcalm) as [Wu Wd _ _ Hs _ Hrel _ Hsd].
  pose proof Hfin as [Hsv [k Hk]]. rewrite Hk in Hrel. destruct Hrel as (_ & _ & E).
  destruct (Hs Hsv) as [R1%reported_past _].
  assert (Ha : alive (d_second (t_down (foldl step (run evs) more))) = false) by phase_at E.
  destruct (whole_arrived _ Wu R1) as (_ & -> & _). destruct (whole_arrived _ Wd Ha) as (_ & -> & _).
  cbn zeta. split_and!; [done..|]. apply Hsd; [done|]. by rewrite E.
Qed.

(** ** Witnesses *)

Definition ex_chunk : list byte := [x68; x69].
Definition ex_talk : list event := [ProgramSends ex_chunk; TargetSends ex_chunk; TargetCloses].

Lemma tunnel_finishes_witness :
  exists more, d_dst (t_up (run ((ex_talk ++ [ProgramCloses]) ++ more))) = ex_chunk.
Proof.
  destruct (tunnel_finishes (ex_talk ++ [ProgramCloses])) as (more & _ & _ & _ & H & _).
  - by repeat constructor.
  - vm_compute. reflexivity.
  - vm_compute. reflexivity.
  - exists more. rewrite H. vm_compute. reflexivity.
Defined.

Lemma tunnel_delivers_witness :
  let t := run (ex_talk ++ repeat (EndpointDown 1) 5 ++ repeat (ClientUp 1) 3 ++ repeat (EndpointUp 1) 3) in
  t_misused t = false /\ d_dst (t_up t) `prefix_of` ex_chunk.
Proof.
  destruct (tunnel_delivers (ex_talk ++ repeat (EndpointDown 1) 5 ++ repeat (ClientUp 1) 3 ++
    repeat (EndpointUp 1) 3)) as (H & _ & _ & Hq).
  split; [|exact H]. apply Hq. by repeat constructor.
Defined.

(** The program resets its connection while the endpoint holds a chunk of the
    answer: relayTCP cancels the request, the handler returns, and the chunk is
    written to a ResponseWriter that is no longer valid, for which net/http
    panics, in a goroutine nothing recovers. *)
Example response_written_after_return :
  t_misused (run [TargetSends ex_chunk; EndpointDown 0; EndpointDown 0; TargetSends ex_chunk; EndpointDown 0;
                  ProgramResets; ClientDown 0; ClientDown 0; ClientDown 0; ClientDown 0; ClientUp 0; ClientUp 0;
                  ClientUp 0; ClientMain; EndpointMain; EndpointDown 0]) = true.
Proof. vm_compute. reflexivity. Qed.

(** The target has answered and closed, all goroutines have done what they can,
    and the program still waits for the end of the answer. *)
Example answer_end_withheld :
  let t := run (ex_talk ++ repeat (EndpointDown 1) 5 ++ repeat (ClientUp 1) 3 ++ repeat (EndpointUp 1) 3 ++
                repeat (ClientDown 1) 5 ++ [EndpointMain; ClientDown 1; ClientMain]) in
  d_dst (t_down t) = ex_chunk /\ d_dst_end (t_down t) = false /\ t_served t = false.
Proof. vm_compute. done. Qed.
