(* ===== verification/Routes.v ===== *)
(** internal/client/route_darwin.go: the routing table and the system DNS while
    the tunnel is up.  The commands the manager runs are recorded with their
    outcome, which the system decides. *)
From S2P Require Import Prelude GoStrings GoNet.
#[local] Open Scope Z_scope.

Definition tunIPv4 : string := "10.99.0.2".
Definition peer : string := "10.99.0.1".

(** The commands run so far, each with whether it succeeded. *)
Abbreviation log := (list (list string * bool)) (only parsing).

(** The system: the error of a command after a history, the outputs of the
    commands that are only read, and the resolver. *)
Record system := {
  sys_run : log -> list string -> option string;
  sys_route_get : log -> res string;               (* route -n get default *)
  sys_service_order : log -> res string;           (* networksetup -listnetworkserviceorder *)
  sys_get_dns : log -> string -> res string;       (* networksetup -getdnsservers *)
  sys_scutil : log -> res string;                  (* scutil --dns *)
  sys_LookupIP : string -> res (list IP);
}.

Record RouteManager := {
  tunName : string;
  endpointIP : string;
  origGateway : string;
  origIface : string;
  origDNSService : string;
  origDNSServers : list string;
  tunIP : string;
  dnsBypass : list string;
  exclusions : list string;
  hostBypass : list string;
  netBypass : list string;
  installed : bool;
}.

Definition with_orig (r : RouteManager) (gw iface svc : string) (servers : list string) : RouteManager :=
  {| tunName := tunName r; endpointIP := endpointIP r; origGateway := gw; origIface := iface;
     origDNSService := svc; origDNSServers := servers; tunIP := tunIP r; dnsBypass := dnsBypass r;
     exclusions := exclusions r; hostBypass := hostBypass r; netBypass := netBypass r;
     installed := installed r |}.

Definition with_bypass (r : RouteManager) (dns host net : list string) : RouteManager :=
  {| tunName := tunName r; endpointIP := endpointIP r; origGateway := origGateway r;
     origIface := origIface r; origDNSService := origDNSService r; origDNSServers := origDNSServers r;
     tunIP := tunIP r; dnsBypass := dns; exclusions := exclusions r; hostBypass := host;
     netBypass := net; installed := installed r |}.

Definition set_installed (r : RouteManager) (b : bool) : RouteManager :=
  {| tunName := tunName r; endpointIP := endpointIP r; origGateway := origGateway r;
     origIface := origIface r; origDNSService := origDNSService r; origDNSServers := origDNSServers r;
     tunIP := tunIP r; dnsBypass := dnsBypass r; exclusions := exclusions r; hostBypass := hostBypass r;
     netBypass := netBypass r; installed := b |}.

Definition halves : list string := ["0.0.0.0/1"; "128.0.0.0/1"].
Definition public_dns : list string := ["1.1.1.1"; "8.8.8.8"].

(** ** Reading the system *)

Definition lines (s : string) : list string := TrimSpace <$> Split nl s.

Definition defaultRoute (out : res string) : res (string * string) :=
  out ← out;
  let scan gi line :=
    if HasPrefix line "gateway:" then (TrimSpace (TrimPrefix line "gateway:"), gi.2)
    else if HasPrefix line "interface:" then (gi.1, TrimSpace (TrimPrefix line "interface:"))
    else gi in
  let '(gateway, iface) := foldl scan ("", "") (lines out) in
  if bool_decide (gateway = "") || bool_decide (iface = "")
  then Err "could not parse default route" else Ok (gateway, iface).

Fixpoint service_for (iface current : string) (ls : list string) : string :=
  match ls with
  | [] => ""
  | line :: ls =>
      if HasPrefix line "(Hardware Port:" then
        if Contains line ("Device: " +:+ iface +:+ ")") then current else service_for iface current ls
      else if HasPrefix line "(" then
        match Index line ") " with
        | Some idx => service_for iface (sdrop (idx + 2) line) ls
        | None => service_for iface current ls
        end
      else service_for iface current ls
  end.

Definition getNetworkServiceForIface (out : res string) (iface : string) : string :=
  match out with Err _ => "" | Ok out => service_for iface "" (lines out) end.

Definition getDNSForService (out : res string) : list string :=
  match out with
  | Err _ => []
  | Ok out =>
      let text := TrimSpace out in
      if Contains text "aren't any" then []
      else filter (fun s => ParseIP s <> []) (lines text)
  end.

(** The first occurrence of every IPv4 nameserver of [scutil --dns]. *)
Definition systemDNSServers (out : res string) : list string :=
  match out with
  | Err _ => []
  | Ok out =>
      let server line :=
        if HasPrefix line "nameserver[" then
          match SplitN2 ":"%char line with
          | [_; ip] => let ip := TrimSpace ip in
                       if bool_decide (To4 (ParseIP ip) = None) then None else Some ip
          | _ => None
          end
        else None in
      foldl (fun seen ip => if bool_decide (ip ∈ seen) then seen else seen ++ [ip]) []
        (omap server (lines out))
  end.

Section manager.
Variable sys : system.

(** [run]: the log with the command, and its error. *)
Definition run (l : log) (cmd : list string) : log * option string :=
  let err := sys_run sys l cmd in (l ++ [(cmd, bool_decide (err = None))], err).

Definition add_host (ip gw : string) : list string := ["route"; "-n"; "add"; "-host"; ip; gw].
Definition add_net (n gw : string) : list string := ["route"; "-n"; "add"; "-net"; n; gw].
Definition add_half (half tun : string) : list string :=
  ["route"; "-n"; "add"; "-net"; half; "-interface"; tun].
Definition delete_host (ip : string) : list string := ["route"; "-n"; "delete"; "-host"; ip].
Definition delete_net (n : string) : list string := ["route"; "-n"; "delete"; "-net"; n].
Definition delete_half (half tun : string) : list string :=
  ["route"; "-n"; "delete"; "-net"; half; "-interface"; tun].
Definition set_dns (svc : string) (servers : list string) : list string :=
  ["networksetup"; "-setdnsservers"; svc] ++ servers.

Definition NewRouteManager (tun endpointHostPort : string) (excl : list string) : res RouteManager :=
  '(host, _) ← SplitHostPort endpointHostPort;
  ips ← wrap_err ("resolve " +:+ host +:+ ": ") (sys_LookupIP sys host);
  match omap To4 ips with
  | [] => Err ("no IPv4 for " +:+ host)
  | v4 :: _ =>
      Ok {| tunName := tun; endpointIP := IP_String v4; origGateway := ""; origIface := "";
            origDNSService := ""; origDNSServers := []; tunIP := tunIPv4; dnsBypass := [];
            exclusions := excl; hostBypass := []; netBypass := []; installed := false |}
  end.

(** ** Install *)

(** A bypass of one host; kept when the route was added. *)
Definition bypass_host (gw : string) (rl : RouteManager * log) (ip : string) : RouteManager * log :=
  let '(r, l) := rl in
  let '(l, err) := run l (add_host ip gw) in
  match err with
  | None => (with_bypass r (dnsBypass r) (hostBypass r ++ [ip]) (netBypass r), l)
  | Some _ => (r, l)
  end.

Definition bypass_dns (gw : string) (rl : RouteManager * log) (ip : string) : RouteManager * log :=
  let '(r, l) := rl in
  let '(l, err) := run l (add_host ip gw) in
  match err with
  | None => (with_bypass r (dnsBypass r ++ [ip]) (hostBypass r) (netBypass r), l)
  | Some _ => (r, l)
  end.

Definition bypass_net (gw : string) (rl : RouteManager * log) (n : string) : RouteManager * log :=
  let '(r, l) := rl in
  let '(l, err) := run l (add_net n gw) in
  match err with
  | None => (with_bypass r (dnsBypass r) (hostBypass r) (netBypass r ++ [n]), l)
  | Some _ => (r, l)
  end.

(** The IPv4 addresses of a list, as text. *)
Definition v4_strings (ips : list IP) : list string :=
  omap (fun ip => if bool_decide (To4 ip = None) then None else Some (IP_String ip)) ips.

Definition bypass_exclusion (gw : string) (rl : RouteManager * log) (exc : string)
  : RouteManager * log :=
  let exc := TrimSpace exc in
  if bool_decide (exc = "") then rl
  else match ParseCIDR exc with
       | Ok (_, ipnet) => bypass_net gw rl (IPNet_String ipnet)
       | Err _ =>
           match ParseIP exc with
           | [] => match sys_LookupIP sys exc with
                   | Err _ => rl
                   | Ok ips => foldl (bypass_host gw) rl (v4_strings ips)
                   end
           | ip => foldl (bypass_host gw) rl (v4_strings [ip])
           end
       end.

Fixpoint add_halves (tun : string) (hs : list string) (l : log) : log * option string :=
  match hs with
  | [] => (l, None)
  | half :: hs =>
      match run l (add_half half tun) with
      | (l, Some e) => (l, Some ("route add " +:+ half +:+ ": " +:+ e))
      | (l, None) => add_halves tun hs l
      end
  end.

Definition override_dns (r : RouteManager) (l : log) : RouteManager * log :=
  let svc := getNetworkServiceForIface (sys_service_order sys l) (origIface r) in
  if bool_decide (svc <> "") then
    let servers := getDNSForService (sys_get_dns sys l svc) in
    (with_orig r (origGateway r) (origIface r) svc servers, (run l (set_dns svc [peer])).1)
  else (with_orig r (origGateway r) (origIface r) svc (origDNSServers r), l).

Definition Install (r : RouteManager) (l : log) : RouteManager * log * option string :=
  match defaultRoute (sys_route_get sys l) with
  | Err e => (r, l, Some ("get default route: " +:+ e))
  | Ok (gw, iface) =>
      let r := with_orig r gw iface (origDNSService r) (origDNSServers r) in
      match run l ["ifconfig"; tunName r; tunIP r; peer; "up"] with
      | (l, Some e) => (r, l, Some ("ifconfig: " +:+ e))
      | (l, None) =>
          match run l (add_host (endpointIP r) gw) with
          | (l, Some e) => (r, l, Some ("route add endpoint: " +:+ e))
          | (l, None) =>
              let '(r, l) := override_dns r l in
              let '(r, l) := foldl (bypass_dns gw) (r, l) public_dns in
              let '(r, l) := foldl (bypass_exclusion gw) (r, l) (exclusions r) in
              match add_halves (tunName r) halves l with
              | (l, Some e) => (r, l, Some e)
              | (l, None) => (set_installed r true, l, None)
              end
          end
      end
  end.

(** ** While installed *)

Definition AddDynamicHostBypassBatch (r : RouteManager) (l : log) (ips : list IP)
  : RouteManager * log :=
  if bool_decide (ips = []) || bool_decide (origGateway r = "") then (r, l)
  else foldl (fun rl ip => if bool_decide (ip ∈ hostBypass rl.1) then rl
                           else bypass_host (origGateway r) rl ip) (r, l) (v4_strings ips).

(** ** Restore *)

(** The commands of [Restore], all of them run whatever the others say. *)
Definition restore_commands (r : RouteManager) : list (string * list string) :=
  map (fun half => ("delete " +:+ half +:+ ": ", delete_half half (tunName r))) halves ++
  [("delete endpoint route: ", delete_host (endpointIP r))] ++
  (if bool_decide (origDNSService r <> "")
   then [("restore dns " +:+ origDNSService r +:+ ": ",
          set_dns (origDNSService r)
            (if bool_decide (origDNSServers r <> []) then origDNSServers r else ["empty"]))]
   else []) ++
  map (fun ip => ("delete dns route " +:+ ip +:+ ": ", delete_host ip)) (dnsBypass r) ++
  map (fun ip => ("delete host bypass " +:+ ip +:+ ": ", delete_host ip)) (hostBypass r) ++
  map (fun n => ("delete net bypass " +:+ n +:+ ": ", delete_net n)) (netBypass r).

Fixpoint run_all (cmds : list (string * list string)) (l : log) : log * list string :=
  match cmds with
  | [] => (l, [])
  | (what, cmd) :: cmds =>
      let '(l, err) := run l cmd in
      let '(l, errs) := run_all cmds l in
      (l, match err with Some e => (what +:+ e) :: errs | None => errs end)
  end.

Definition Restore (r : RouteManager) (l : log) : RouteManager * log * option string :=
  if negb (installed r) then (r, l, None)
  else
    let '(l, errs) := run_all (restore_commands r) l in
    (with_bypass (set_installed r false) [] [] [], l,
     match errs with [] => None | _ => Some ("restore routes: " +:+ Join "; " errs) end).

(** ** After a crash *)

Definition cleanupStaleRoutes (l : log) : log :=
  foldl (fun l cmd => (run l cmd).1) l
    (map delete_net halves ++ map delete_host public_dns).

Definition findActiveDNSService (l : log) : string :=
  match defaultRoute (sys_route_get sys l) with
  | Err _ => ""
  | Ok (_, iface) => getNetworkServiceForIface (sys_service_order sys l) iface
  end.

Definition RecoverDNS (l : log) : log :=
  if existsb (fun s => HasPrefix s "10.99.0.") (systemDNSServers (sys_scutil sys l)) then
    let svc := findActiveDNSService l in
    let l := if bool_decide (svc <> "") then (run l (set_dns svc ["empty"])).1 else l in
    cleanupStaleRoutes l
  else l.
End manager.

(** ** What a log did to the routing table *)

Definition route_change (verb : string) (cmd : list string) : option (string * string) :=
  match cmd with
  | prog :: _ :: v :: flag :: dest :: _ =>
      if bool_decide (prog = "route") && bool_decide (v = verb) then Some (flag, dest) else None
  | _ => None
  end.

(** The routes whose addition succeeded, and those whose deletion was asked. *)
Definition added (l : log) : list (string * string) :=
  omap (fun c => if c.2 : bool then route_change "add" c.1 else None) l.
Definition deleted (l : log) : list (string * string) := omap (fun c => route_change "delete" c.1) l.

Definition kept (r : RouteManager) : list (string * string) :=
  map (pair "-host") (dnsBypass r) ++ map (pair "-host") (hostBypass r) ++ map (pair "-net") (netBypass r).

(** The routes added are those of [base] and those the manager remembers, and
    its other fields are those of [r0]. *)
Definition tracks (base : list (string * string)) (r0 : RouteManager) (rl : RouteManager * log) : Prop :=
  added rl.2 ≡ₚ base ++ kept rl.1 /\
  rl.1 = with_bypass r0 (dnsBypass rl.1) (hostBypass rl.1) (netBypass rl.1).

(** ** Lemmas *)

Lemma added_app l k : added (l ++ k) = added l ++ added k.
Proof. apply omap_app. Qed.

Lemma deleted_app l k : deleted (l ++ k) = deleted l ++ deleted k.
Proof. apply omap_app. Qed.

Lemma added_run sys l cmd :
  let '(l', err) := run sys l cmd in
  added l' = added l ++ match err, route_change "add" cmd with None, Some x => [x] | _, _ => [] end.
Proof.
  unfold run. cbn zeta. rewrite added_app. f_equal. unfold added. cbn.
  destruct (sys_run sys l cmd); cbn; [done|]. by destruct (route_change "add" cmd).
Qed.

(** One remembered bypass, whatever its kind. *)
Lemma tracks_bypass sys base r0 r l cmd x (keep : RouteManager -> RouteManager) :
  route_change "add" cmd = Some x ->
  kept (keep r) ≡ₚ kept r ++ [x] ->
  (r = with_bypass r0 (dnsBypass r) (hostBypass r) (netBypass r) ->
   keep r = with_bypass r0 (dnsBypass (keep r)) (hostBypass (keep r)) (netBypass (keep r))) ->
  tracks base r0 (r, l) ->
  tracks base r0 (let '(l, err) := run sys l cmd in match err with None => (keep r, l) | Some _ => (r, l) end).
Proof.
  intros Hx Hk Hw [Ha Hr]. pose proof (added_run sys l cmd) as Hl. destruct (run sys l cmd) as [l' [e|]].
  - split; [|done]. cbn [fst snd] in *. by rewrite Hl, app_nil_r.
  - split; cbn [fst snd] in *; [|by apply Hw]. rewrite Hl, Hx, Ha, Hk. by rewrite app_assoc.
Qed.

Lemma bypass_host_tracks sys base r0 gw rl ip :
  tracks base r0 rl -> tracks base r0 (bypass_host sys gw rl ip).
Proof.
  destruct rl as [r l]. intros H.
  apply (tracks_bypass sys base r0 r l (add_host ip gw) ("-host", ip)
    (fun r => with_bypass r (dnsBypass r) (hostBypass r ++ [ip]) (netBypass r))); [done| | |done].
  - unfold kept. cbn. rewrite map_app. cbn. solve_Permutation.
  - intros ->. done.
Qed.

Lemma bypass_dns_tracks sys base r0 gw rl ip :
  tracks base r0 rl -> tracks base r0 (bypass_dns sys gw rl ip).
Proof.
  destruct rl as [r l]. intros H.
  apply (tracks_bypass sys base r0 r l (add_host ip gw) ("-host", ip)
    (fun r => with_bypass r (dnsBypass r ++ [ip]) (hostBypass r) (netBypass r))); [done| | |done].
  - unfold kept. cbn. rewrite map_app. cbn. solve_Permutation.
  - intros ->. done.
Qed.

Lemma bypass_net_tracks sys base r0 gw rl n :
  tracks base r0 rl -> tracks base r0 (bypass_net sys gw rl n).
Proof.
  destruct rl as [r l]. intros H.
  apply (tracks_bypass sys base r0 r l (add_net n gw) ("-net", n)
    (fun r => with_bypass r (dnsBypass r) (hostBypass r) (netBypass r ++ [n]))); [done| | |done].
  - unfold kept. cbn. rewrite map_app. cbn. solve_Permutation.
  - intros ->. done.
Qed.

Lemma foldl_tracks {A} base r0 (f : RouteManager * log -> A -> RouteManager * log) (xs : list A) rl :
  (forall rl x, tracks base r0 rl -> tracks base r0 (f rl x)) ->
  tracks base r0 rl -> tracks base r0 (foldl f rl xs).
Proof. intros Hf. revert rl. induction xs as [|x xs IH]; intros rl H; cbn; auto. Qed.

Lemma bypass_exclusion_tracks sys base r0 gw rl exc :
  tracks base r0 rl -> tracks base r0 (bypass_exclusion sys gw rl exc).
Proof.
  intros H. unfold bypass_exclusion. case_bool_decide; [done|].
  destruct (ParseCIDR _) as [[? ?]|]; [by apply bypass_net_tracks|].
  destruct (ParseIP _); [destruct (sys_LookupIP _ _); [|done]|];
    (apply foldl_tracks; [|done]); intros; by apply bypass_host_tracks.
Qed.

Lemma dynamic_tracks sys base r0 rl ips :
  tracks base r0 rl -> tracks base r0 (AddDynamicHostBypassBatch sys rl.1 rl.2 ips).
Proof.
  intros H. unfold AddDynamicHostBypassBatch. destruct (_ || _); [by destruct rl|].
  apply foldl_tracks; [|by destruct rl]. intros rl' ip H'.
  case_bool_decide; [done|by apply bypass_host_tracks].
Qed.

Lemma add_halves_added sys tun hs l :
  match add_halves sys tun hs l with
  | (l', None) => added l' = added l ++ map (pair "-net") hs
  | (l', Some _) => exists some, added l' = added l ++ some
  end.
Proof.
  revert l. induction hs as [|half hs IH]; intros l; cbn [add_halves]; [by rewrite app_nil_r|].
  pose proof (added_run sys l (add_half half tun)) as Hr.
  destruct (run sys l (add_half half tun)) as [l1 [e|]]; [eauto|].
  specialize (IH l1). cbn in Hr. destruct (add_halves sys tun hs l1) as [l2 [e|]].
  - destruct IH as [some ->]. rewrite Hr, <- app_assoc. eauto.
  - by rewrite IH, Hr, <- app_assoc.
Qed.

Lemma run_all_deleted sys cmds l :
  exists fin, (run_all sys cmds l).1 = l ++ fin /\ fin.*1 = cmds.*2.
Proof.
  revert l. induction cmds as [|[what cmd] cmds IH]; intros l; cbn; [exists []; by rewrite app_nil_r|].
  unfold run. cbn zeta. set (l1 := l ++ _).
  destruct (IH l1) as (fin & Hl & Hf). destruct (run_all sys cmds l1) as [l2 errs]. cbn in *.
  eexists (_ :: fin). rewrite Hl. unfold l1. rewrite <- app_assoc. split; [done|]. cbn. by rewrite Hf.
Qed.

Lemma deleted_cmds l : deleted l = omap (route_change "delete") l.*1.
Proof. induction l as [|[c ok] l IH]; [done|]. cbn. unfold deleted in IH. cbn in IH. by rewrite IH. Qed.

Lemma omap_delete_host what (ips : list string) :
  omap (route_change "delete") (map (fun ip => (what ip : string, delete_host ip)) ips).*2 = map (pair "-host") ips.
Proof. induction ips as [|ip ips IH]; cbn; [done|]. by rewrite IH. Qed.

Lemma omap_delete_net what (ns : list string) :
  omap (route_change "delete") (map (fun n => (what n : string, delete_net n)) ns).*2 = map (pair "-net") ns.
Proof. induction ns as [|n ns IH]; cbn; [done|]. by rewrite IH. Qed.

Lemma set_dns_route verb svc servers : route_change verb (set_dns svc servers) = None.
Proof. by destruct servers as [|? [|? ?]]. Qed.

Lemma restore_commands_delete r :
  omap (route_change "delete") (restore_commands r).*2 =
  map (pair "-net") halves ++ [("-host", endpointIP r)] ++ kept r.
Proof.
  unfold restore_commands, kept. rewrite !fmap_app, !omap_app, omap_delete_net, !omap_delete_host.
  case_bool_decide; [|done]. cbn [fmap list_fmap snd omap list_omap].
  by rewrite set_dns_route.
Qed.

Lemma override_dns_frame sys r l :
  let '(r', l') := override_dns sys r l in
  added l' = added l /\ kept r' = kept r /\ installed r' = installed r /\ endpointIP r' = endpointIP r /\
  tunName r' = tunName r /\ exclusions r' = exclusions r /\
  (origDNSService r' <> "" -> exists ok, (set_dns (origDNSService r') [peer], ok) ∈ l').
Proof.
  unfold override_dns. set (svc := getNetworkServiceForIface _ _). case_bool_decide.
  - pose proof (added_run sys l (set_dns svc [peer])) as Hr. unfold run in *. cbn zeta in *.
    rewrite set_dns_route in Hr.
    destruct (sys_run sys l (set_dns svc [peer])); rewrite app_nil_r in Hr; cbn [fst];
      (split_and!; try done; intros _; eexists; apply elem_of_app; right; by apply list_elem_of_singleton).
  - by split_and!.
Qed.

Lemma Install_spec sys r l :
  installed r = false -> kept r = [] ->
  match Install sys r l with
  | (r', l', None) =>
      added l' ≡ₚ added l ++ map (pair "-net") halves ++ [("-host", endpointIP r)] ++ kept r' /\
      installed r' = true /\ endpointIP r' = endpointIP r /\ tunName r' = tunName r
  | (r', l', Some _) =>
      installed r' = false /\
      (added l' = added l \/ exists some, added l' ≡ₚ added l ++ ("-host", endpointIP r) :: some)
  end.
Proof.
  intros Hi Hk. unfold Install. destruct (defaultRoute _) as [[gw iface]|e]; [|auto].
  cbn zeta. set (r1 := with_orig r gw iface _ _).
  pose proof (added_run sys l ["ifconfig"; tunName r1; tunIP r1; peer; "up"]) as H1.
  destruct (run sys l _) as [l1 [e|]]; cbn in H1; rewrite app_nil_r in H1; [auto|].
  pose proof (added_run sys l1 (add_host (endpointIP r1) gw)) as H2.
  destruct (run sys l1 _) as [l2 [e|]]; cbn in H2; [rewrite app_nil_r in H2; rewrite H2, H1; auto|].
  pose proof (override_dns_frame sys r1 l2) as H3. destruct (override_dns sys r1 l2) as [r3 l3].
  destruct H3 as (Ha3 & Hk3 & Hi3 & He3 & Ht3 & _ & _).
  assert (T3 : tracks (added l ++ [("-host", endpointIP r)]) r3 (r3, l3)).
  { split; [|by destruct r3]. cbn [fst snd]. change (kept r1) with (kept r) in Hk3.
    by rewrite Ha3, H2, H1, Hk3, Hk, app_nil_r. }
  assert (T4 := foldl_tracks _ r3 (bypass_dns sys gw) public_dns (r3, l3)
    ltac:(intros; by apply bypass_dns_tracks) T3).
  destruct (foldl (bypass_dns sys gw) (r3, l3) public_dns) as [r4 l4].
  assert (T5 := foldl_tracks _ r3 (bypass_exclusion sys gw) (exclusions r4) (r4, l4)
    ltac:(intros; by apply bypass_exclusion_tracks) T4).
  destruct (foldl (bypass_exclusion sys gw) (r4, l4) (exclusions r4)) as [r5 l5].
  destruct T5 as [Ha5 Hr5]. cbn [fst snd] in Ha5, Hr5.
  assert (installed r5 = false /\ endpointIP r5 = endpointIP r /\ tunName r5 = tunName r) as (Hi5 & He5 & Ht5).
  { rewrite Hr5. cbn. rewrite Hi3, He3, Ht3. done. }
  pose proof (add_halves_added sys (tunName r5) halves l5) as H6.
  destruct (add_halves sys (tunName r5) halves l5) as [l6 [e|]].
  - split; [done|right]. destruct H6 as [some ->]. exists (kept r5 ++ some). rewrite Ha5. solve_Permutation.
  - split_and!; try done. rewrite H6, Ha5. change (kept (set_installed r5 true)) with (kept r5).
    solve_Permutation.
Qed.

(** ** Properties *)

(** Disconnecting removes the routes the tunnel added.  From a manager
    with nothing installed, after a successful [Install] and any number of
    dynamic bypasses, [Restore] asks for the deletion of exactly the routes
    whose addition succeeded, however its commands end; it sets the system DNS
    servers of before, forgets the routes, and runs nothing a second time. *)
Theorem restore_undoes_install (sys : system) (r r1 r2 r3 : RouteManager) (l l1 l2 l3 : log)
    (batches : list (list IP)) (e : option string)
  (Hfresh : installed r = false) (Hnone : kept r = [])
  (Hin : Install sys r l = (r1, l1, None))
  (Hdyn : foldl (fun rl ips => AddDynamicHostBypassBatch sys rl.1 rl.2 ips) (r1, l1) batches = (r2, l2))
  (Hout : Restore sys r2 l2 = (r3, l3, e)) :
  exists fin, l3 = l2 ++ fin /\ added l2 ≡ₚ added l ++ deleted fin /\
    (origDNSService r1 <> "" ->
       exists ok, (set_dns (origDNSService r1)
         (if bool_decide (origDNSServers r1 <> []) then origDNSServers r1 else ["empty"]), ok) ∈ fin) /\
    kept r3 = [] /\ Restore sys r3 l3 = (r3, l3, None).
Proof.
  pose proof (Install_spec sys r l Hfresh Hnone) as H. rewrite Hin in H. destruct H as (Ha & Hi & He & Ht).
  assert (T1 : tracks (added l ++ map (pair "-net") halves ++ [("-host", endpointIP r)]) r1 (r1, l1)).
  { split; [|by destruct r1]. cbn [fst snd]. rewrite Ha. by rewrite <- !app_assoc. }
  assert (T2 := foldl_tracks _ r1 (fun rl ips => AddDynamicHostBypassBatch sys rl.1 rl.2 ips) batches (r1, l1)
    ltac:(intros; by apply dynamic_tracks) T1).
  rewrite Hdyn in T2. destruct T2 as [Ha2 Hr2]. cbn [fst snd] in Ha2, Hr2.
  unfold Restore in Hout. replace (installed r2) with true in Hout by (by rewrite Hr2).
  cbn [negb] in Hout. destruct (run_all_deleted sys (restore_commands r2) l2) as (fin & Hl & Hf).
  destruct (run_all sys (restore_commands r2) l2) as [l3' errs]. cbn [fst] in Hl.
  injection Hout as <- <- _. exists fin. split; [done|].
  assert (Hd : deleted fin = map (pair "-net") halves ++ [("-host", endpointIP r)] ++ kept r2).
  { rewrite deleted_cmds, Hf, restore_commands_delete. do 3 f_equal. rewrite Hr2. cbn. by rewrite He. }
  split_and!; [|..|done|done].
  - rewrite Ha2, Hd. by rewrite <- !app_assoc.
  - intros Hsvc. assert (Hs : origDNSService r2 = origDNSService r1 /\ origDNSServers r2 = origDNSServers r1)
      by (by rewrite Hr2). destruct Hs as [Hs1 Hs2].
    assert (Hin' : set_dns (origDNSService r1)
        (if bool_decide (origDNSServers r1 <> []) then origDNSServers r1 else ["empty"]) ∈ fin.*1).
    { rewrite Hf. unfold restore_commands. rewrite Hs1, Hs2, (bool_decide_true (origDNSService r1 <> "")) by done.
      rewrite !fmap_app, !elem_of_app. right; right; left. by apply list_elem_of_singleton. }
    apply list_elem_of_fmap in Hin' as ([cmd ok] & Hc & Hx). cbn in Hc. subst cmd. by exists ok.
Qed.

(** A failed installation leaves its routes.  When [Install] fails after
    the route to the endpoint was added, that route stays, for [Restore] then
    does nothing. *)
Theorem failed_install_not_undone (sys : system) (r r1 : RouteManager) (l l1 : log) (e : string)
  (Hfresh : installed r = false) (Hnone : kept r = [])
  (Hin : Install sys r l = (r1, l1, Some e)) (Hsome : added l1 <> added l) :
  (exists some, added l1 ≡ₚ added l ++ ("-host", endpointIP r) :: some) /\
  Restore sys r1 l1 = (r1, l1, None).
Proof.
  pose proof (Install_spec sys r l Hfresh Hnone) as H. rewrite Hin in H. destruct H as (Hi & Ha).
  split; [by destruct Ha|]. unfold Restore. by rewrite Hi.
Qed.

(** ** Witnesses *)

Definition ex_route_get : string :=
  "   route to: default" +:+ nls +:+ "    gateway: 192.0.2.1" +:+ nls +:+ "  interface: en0" +:+ nls.
Definition ex_order : string :=
  "(1) Wi-Fi" +:+ nls +:+ "(Hardware Port: Wi-Fi, Device: en0)" +:+ nls.

(** A system on which adding the routes of [bad] fails. *)
Definition ex_sys (bad : list string) : system :=
  {| sys_run := fun _ cmd => match route_change "add" cmd with
                             | Some (_, dest) => if bool_decide (dest ∈ bad) then Some "failed" else None
                             | None => None
                             end;
     sys_route_get := fun _ => Ok ex_route_get;
     sys_service_order := fun _ => Ok ex_order;
     sys_get_dns := fun _ _ => Ok "192.0.2.53";
     sys_scutil := fun _ => Err "no";
     sys_LookupIP := fun _ => Ok [[mkbyte 198; mkbyte 51; mkbyte 100; mkbyte 9]] |}.

Definition ex_manager : RouteManager :=
  {| tunName := "utun5"; endpointIP := "198.51.100.7"; origGateway := ""; origIface := "";
     origDNSService := ""; origDNSServers := []; tunIP := tunIPv4; dnsBypass := [];
     exclusions := ["203.0.113.0/24"; " intranet.example "]; hostBypass := []; netBypass := [];
     installed := false |}.

Definition ex_installed : RouteManager * log := (Install (ex_sys []) ex_manager []).1.
Definition ex_dynamic : RouteManager * log :=
  foldl (fun rl ips => AddDynamicHostBypassBatch (ex_sys []) rl.1 rl.2 ips) ex_installed
    [[[mkbyte 203; mkbyte 0; mkbyte 113; mkbyte 5]]].

Lemma restore_undoes_install_witness :
  exists fin, added ex_dynamic.2 ≡ₚ deleted fin /\ length fin = 9%nat.
Proof.
  destruct (restore_undoes_install (ex_sys []) ex_manager ex_installed.1 ex_dynamic.1
    (Restore (ex_sys []) ex_dynamic.1 ex_dynamic.2).1.1 [] ex_installed.2 ex_dynamic.2
    (Restore (ex_sys []) ex_dynamic.1 ex_dynamic.2).1.2
    [[[mkbyte 203; mkbyte 0; mkbyte 113; mkbyte 5]]] None) as (fin & Hl & Ha & _);
    [vm_compute; reflexivity..|].
  exists fin. split; [exact Ha|].
  assert (length (Restore (ex_sys []) ex_dynamic.1 ex_dynamic.2).1.2 = (9 + length ex_dynamic.2)%nat) as Hn
    by (vm_compute; reflexivity).
  rewrite Hl, length_app in Hn. lia.
Defined.

Lemma failed_install_not_undone_witness :
  exists some, added (Install (ex_sys ["128.0.0.0/1"]) ex_manager []).1.2 ≡ₚ ("-host", "198.51.100.7") :: some.
Proof.
  refine (proj1 (failed_install_not_undone (ex_sys ["128.0.0.0/1"]) ex_manager _ [] _
    "route add 128.0.0.0/1: failed" _ _ _ _)).
  - reflexivity.
  - reflexivity.
  - vm_compute. reflexivity.
  - vm_compute. discriminate.
Defined.
