(* ===== verification/RouteSpec.v ===== *)
(** What a route manager promises to the client, whatever the platform: an
    abstract machine over the routes it owns, the simulation an implementation
    has to show, and what every client history gets from it.  The macOS manager
    is the first instance; RoutesWin holds the second. *)
From S2P Require Import Prelude GoStrings GoNet.
From S2P Require Routes.

(** ** The abstract machine *)

Inductive op :=
| OpInstall
| OpDynamic (ips : list IP)
| OpRestore.

(** Nothing installed; the routes owned while the tunnel is up; or an
    installation that failed half-way, after which the client drops the
    manager. *)
Inductive phase (R : Type) :=
| Down
| Up (owned : list R)
| Failed.
Arguments Down {R}.
Arguments Up {R} _.
Arguments Failed {R}.

Definition owned_of {R} (p : phase R) : list R :=
  match p with Up owned => owned | _ => [] end.

(** One step: whether the operation reported an error, the routes added
    (successfully), the routes whose deletion is asked.  A restore deletes what
    is owned, each route as often as it was added, and nothing else. *)
Inductive spec_step {R : Type} : phase R -> op -> bool -> list R -> list R -> phase R -> Prop :=
| spec_installed owned add :
    add ≡ₚ owned -> spec_step Down OpInstall false add [] (Up owned)
| spec_install_failed leaked :
    spec_step Down OpInstall true leaked [] Failed
| spec_dynamic owned more owned' ips :
    owned' ≡ₚ owned ++ more -> spec_step (Up owned) (OpDynamic ips) false more [] (Up owned')
| spec_restored owned err del :
    del ≡ₚ owned -> spec_step (Up owned) OpRestore err [] del Down
| spec_restore_idle (p : phase R) :
    owned_of p = [] -> (forall owned, p <> Up owned) -> spec_step p OpRestore false [] [] p.

(** The client installs a manager that is down, adds bypasses to one that is
    up, and may restore at any time. *)
Definition enabled {R} (p : phase R) (o : op) : bool :=
  match p, o with
  | Down, OpInstall => true
  | Up _, OpDynamic _ => true
  | _, OpRestore => true
  | _, _ => false
  end.

(** A history; one whose installation failed ends there. *)
Inductive spec_runs {R : Type} : phase R -> list op -> list R -> list R -> phase R -> Prop :=
| runs_nil p : spec_runs p [] [] [] p
| runs_failed os : spec_runs Failed os [] [] Failed
| runs_cons p o err add del p1 os adds dels p' :
    spec_step p o err add del p1 ->
    spec_runs p1 os adds dels p' ->
    spec_runs p (o :: os) (add ++ adds) (del ++ dels) p'.

(** Installs and restores alternate, bypasses only in between. *)
Fixpoint wf_ops (up : bool) (os : list op) : bool :=
  match os with
  | [] => true
  | OpInstall :: os => negb up && wf_ops true os
  | OpDynamic _ :: os => up && wf_ops up os
  | OpRestore :: os => wf_ops false os
  end.

Definition is_up {R} (p : phase R) : bool := match p with Up _ => true | _ => false end.

(** ** Implementations *)

Class RouteImpl (M C R : Type) := {
  exec : op -> M -> list (C * bool) -> M * list (C * bool) * option string;
  adds : list (C * bool) -> list R;
  dels : list (C * bool) -> list R;
  sim : M -> phase R -> Prop;
  adds_app : forall l k, adds (l ++ k) = adds l ++ adds k;
  dels_app : forall l k, dels (l ++ k) = dels l ++ dels k;
  sim_step : forall o m p l, sim m p -> enabled p o = true ->
    exists p' fin, (exec o m l).1.2 = l ++ fin /\ sim (exec o m l).1.1 p' /\
      spec_step p o (negb (bool_decide ((exec o m l).2 = None))) (adds fin) (dels fin) p';
}.

Section client.
Context {M C R : Type} `{!RouteImpl M C R}.

(** The client's use of a manager: the operations in order, until an
    installation fails. *)
Fixpoint drive (os : list op) (m : M) (l : list (C * bool)) : M * list (C * bool) :=
  match os with
  | [] => (m, l)
  | o :: os =>
      let '(m, l, err) := exec o m l in
      match o, err with
      | OpInstall, Some _ => (m, l)
      | _, _ => drive os m l
      end
  end.

Lemma adds_nil : adds [] = @nil R.
Proof.
  pose proof (f_equal length (adds_app [] [])) as H. rewrite length_app in H. cbn [app] in H.
  apply length_zero_iff_nil. lia.
Qed.

Lemma dels_nil : dels [] = @nil R.
Proof.
  pose proof (f_equal length (dels_app [] [])) as H. rewrite length_app in H. cbn [app] in H.
  apply length_zero_iff_nil. lia.
Qed.

Lemma spec_runs_failed os (p p' : phase R) add del :
  spec_runs p os add del p' -> p = Failed -> p' = Failed.
Proof.
  induction 1 as [p|os|p o err add del p1 os adds' dels' p' Hst Hr IH]; [done..|].
  intros ->. apply IH. by inversion Hst.
Qed.

(** The abstract books balance. *)
Lemma spec_runs_balance (p p' : phase R) os add del :
  spec_runs p os add del p' -> p' <> Failed -> owned_of p ++ add ≡ₚ del ++ owned_of p'.
Proof.
  induction 1 as [p|os|p o err add del p1 os adds' dels' p' Hst Hr IH]; intros Hf;
    [by rewrite app_nil_r|done|].
  specialize (IH Hf). destruct Hst as [owned add Hp|leaked|owned more owned' ips Hp|owned err del Hp|p Ho Hn];
    cbn [owned_of] in *; rewrite ?app_nil_l in *.
  - by rewrite Hp.
  - by apply spec_runs_failed in Hr.
  - rewrite Hp in IH. by rewrite <- IH, app_assoc.
  - by rewrite Hp, IH, app_assoc.
  - done.
Qed.

Lemma step_wf (p p1 : phase R) o os err add del :
  spec_step p o err add del p1 -> wf_ops (is_up p) (o :: os) = true ->
  p1 <> Failed -> wf_ops (is_up p1) os = true.
Proof.
  intros [owned add' Hp|leaked|owned more owned' ips Hp|owned err' del' Hp|p0 Ho Hn] Hwf H1; cbn in *; try done.
  destruct p0; [done|by destruct (Hn owned)|done].
Qed.

Lemma step_failed (p p1 : phase R) o err add del :
  spec_step p o err add del p1 -> p1 = Failed -> p <> Failed -> o = OpInstall /\ err = true.
Proof. by intros [] Hp Hq; cbn in *. Qed.

(** Whatever the implementation, the client's use of it is a run of the
    abstract machine. *)
Lemma drive_refines os (m : M) (p : phase R) l :
  sim m p -> wf_ops (is_up p) os = true -> p <> Failed ->
  exists p' fin, (drive os m l).2 = l ++ fin /\ sim (drive os m l).1 p' /\
    spec_runs p os (adds fin) (dels fin) p'.
Proof.
  revert m p l. induction os as [|o os IH]; intros m p l Hs Hwf Hf.
  { exists p, []. rewrite app_nil_r, adds_nil, dels_nil. repeat split; [done|constructor]. }
  assert (Hen : enabled p o = true) by (destruct p, o; done).
  destruct (sim_step o m p l Hs Hen) as (p1 & fin & Hl & Hs1 & Hst). cbn [drive].
  destruct (exec o m l) as [[m1 l1] err] eqn:Ex. cbn [fst snd] in *. subst l1.
  assert (Hcase : p1 = Failed \/ p1 <> Failed) by (destruct p1; auto).
  destruct Hcase as [->|Hne].
  - pose proof (step_failed _ _ _ _ _ _ Hst eq_refl Hf) as [-> Herr].
    destruct err as [e|]; [|done]. exists Failed, fin. repeat split; [done|].
    rewrite <- (app_nil_r (adds fin)), <- (app_nil_r (dels fin)). econstructor; [done|constructor].
  - destruct (IH m1 p1 (l ++ fin) Hs1 (step_wf _ _ _ _ _ _ _ Hst Hwf Hne) Hne) as (p' & fin' & Hl' & Hs' & Hr').
    replace (match o, err with OpInstall, Some _ => (m1, l ++ fin) | _, _ => drive os m1 (l ++ fin) end)
      with (drive os m1 (l ++ fin)) by (destruct o, err; try done; by inversion Hst; subst).
    exists p', (fin ++ fin'). rewrite Hl', adds_app, dels_app, app_assoc. repeat split; [done|].
    by econstructor.
Qed.
(** A new manager: its history is one of the abstract machine, whose books
    balance. *)
Lemma fresh_refines os (m : M) l :
  sim m (@Down R) -> wf_ops false os = true ->
  exists p' fin, (drive os m l).2 = l ++ fin /\ spec_runs (@Down R) os (adds fin) (dels fin) p' /\
    (p' <> Failed -> adds fin ≡ₚ dels fin ++ owned_of p').
Proof.
  intros Hs Hwf. destruct (drive_refines os m Down l Hs Hwf ltac:(done)) as (p' & fin & Hl & _ & Hr).
  exists p', fin. split_and!; [done..|]. intros Hf. exact (spec_runs_balance _ _ _ _ _ Hr Hf).
Qed.
End client.

(** ** The macOS manager *)

Module Darwin.
Import Routes.

(** What [Restore] would delete. *)
Definition owns (r : RouteManager) : list (string * string) :=
  map (pair "-net") halves ++ [("-host", endpointIP r)] ++ kept r.

Definition exec (sys : system) (o : op) (r : RouteManager) (l : list (list string * bool))
  : RouteManager * list (list string * bool) * option string :=
  match o with
  | OpInstall => Install sys r l
  | OpDynamic ips => (AddDynamicHostBypassBatch sys r l ips, None)
  | OpRestore => Restore sys r l
  end.

Definition sim (r : RouteManager) (p : phase (string * string)) : Prop :=
  match p with
  | Down => installed r = false /\ kept r = []
  | Up owned => installed r = true /\ owned ≡ₚ owns r
  | Failed => installed r = false
  end.

(** A log that only grew, by commands that delete no route. *)
Definition grew (l l' : list (list string * bool)) : Prop :=
  exists fin, l' = l ++ fin /\ deleted fin = [].

Lemma grew_refl l : grew l l.
Proof. exists []. by rewrite app_nil_r. Qed.

Lemma grew_trans l1 l2 l3 : grew l1 l2 -> grew l2 l3 -> grew l1 l3.
Proof.
  intros (f & -> & Hf) (g & -> & Hg). exists (f ++ g). rewrite app_assoc. split; [done|].
  unfold deleted in *. by rewrite omap_app, Hf, Hg.
Qed.

Lemma run_grew sys l cmd : route_change "delete" cmd = None -> grew l (run sys l cmd).1.
Proof. intros Hc. eexists. split; [reflexivity|]. cbn. by rewrite Hc. Qed.

Lemma foldl_grew {A} (f : RouteManager * list (list string * bool) -> A -> RouteManager * list (list string * bool)) xs rl :
  (forall rl x, grew rl.2 (f rl x).2) -> grew rl.2 (foldl f rl xs).2.
Proof.
  intros Hf. revert rl. induction xs as [|x xs IH]; intros rl; [apply grew_refl|].
  eapply grew_trans; [apply Hf|apply IH].
Qed.

Ltac run_case := match goal with |- context [run ?s ?l ?c] =>
  pose proof (run_grew s l c eq_refl); destruct (run s l c) as [? []] end; cbn [fst snd] in *.

Lemma bypass_host_grew sys gw rl ip : grew rl.2 (bypass_host sys gw rl ip).2.
Proof. destruct rl. unfold bypass_host. by run_case. Qed.
Lemma bypass_dns_grew sys gw rl ip : grew rl.2 (bypass_dns sys gw rl ip).2.
Proof. destruct rl. unfold bypass_dns. by run_case. Qed.
Lemma bypass_net_grew sys gw rl ip : grew rl.2 (bypass_net sys gw rl ip).2.
Proof. destruct rl. unfold bypass_net. by run_case. Qed.

Lemma bypass_exclusion_grew sys gw rl exc : grew rl.2 (bypass_exclusion sys gw rl exc).2.
Proof.
  unfold bypass_exclusion. case_bool_decide; [apply grew_refl|].
  destruct (ParseCIDR _) as [[? ?]|]; [apply bypass_net_grew|].
  destruct (ParseIP _); [destruct (sys_LookupIP _ _); [|apply grew_refl]|];
    apply foldl_grew; intros; apply bypass_host_grew.
Qed.

Lemma dynamic_grew sys r l ips : grew l (AddDynamicHostBypassBatch sys r l ips).2.
Proof.
  unfold AddDynamicHostBypassBatch. destruct (_ || _); [apply grew_refl|].
  apply (foldl_grew _ _ (r, l)). intros. case_bool_decide; [apply grew_refl|apply bypass_host_grew].
Qed.

Lemma add_halves_grew sys tun hs l : grew l (add_halves sys tun hs l).1.
Proof.
  revert l. induction hs as [|h hs IH]; intros l; [apply grew_refl|]. cbn [add_halves]. run_case; [done|].
  eapply grew_trans; [done|apply IH].
Qed.

Lemma override_dns_grew sys r l : grew l (override_dns sys r l).2.
Proof.
  unfold override_dns. case_bool_decide; [|apply grew_refl]. cbn [snd].
  apply run_grew, set_dns_route.
Qed.

Lemma Install_grew sys r l : grew l (Install sys r l).1.2.
Proof.
  unfold Install. destruct (defaultRoute _) as [[gw iface]|e]; [|apply grew_refl]. cbn zeta.
  run_case; [done|]. run_case; [by eapply grew_trans|].
  match goal with |- context [override_dns sys ?r ?l] =>
    pose proof (override_dns_grew sys r l) as H3; destruct (override_dns sys r l) as [r3 l3] end.
  pose proof (foldl_grew (bypass_dns sys gw) public_dns (r3, l3) ltac:(intros; apply bypass_dns_grew)) as H4.
  destruct (foldl (bypass_dns sys gw) _ _) as [r4 l4].
  pose proof (foldl_grew (bypass_exclusion sys gw) (exclusions r4) (r4, l4) ltac:(intros; apply bypass_exclusion_grew)) as H5.
  destruct (foldl (bypass_exclusion sys gw) _ _) as [r5 l5].
  pose proof (add_halves_grew sys (tunName r5) halves l5) as H6.
  destruct (add_halves _ _ _ _) as [l6 [e|]]; cbn [fst snd] in *; eauto 8 using grew_trans.
Qed.

Lemma deleted_fmap_delete cmds fin : fin.*1 = cmds -> deleted fin = omap (route_change "delete") cmds.
Proof. intros <-. apply deleted_cmds. Qed.

(** Commands that add no route. *)
Lemma added_none fin : (forall c, c ∈ fin.*1 -> route_change "add" c = None) -> added fin = [].
Proof.
  induction fin as [|[c ok] fin IH]; intros H; [done|].
  unfold added. cbn. rewrite (H c) by (cbn; set_solver). fold (added fin).
  destruct ok; apply IH; intros; apply H; cbn; set_solver.
Qed.

Lemma restore_adds_none r c : c ∈ (restore_commands r).*2 -> route_change "add" c = None.
Proof.
  intros ([w c'] & -> & H)%list_elem_of_fmap. unfold restore_commands in H.
  rewrite !elem_of_app in H.
  destruct H as [H|[H|[H|[H|[H|H]]]]];
    [apply list_elem_of_fmap in H as (? & [= -> ->] & _); done
    |apply list_elem_of_singleton in H as [= -> ->]; done| |
     apply list_elem_of_fmap in H as (? & [= -> ->] & _); done..].
  case_bool_decide; [|by apply elem_of_nil in H].
  apply list_elem_of_singleton in H as [= -> ->]. apply set_dns_route.
Qed.

(** A bypass that succeeds is remembered, one that fails is not. *)
Definition gain (rl rl' : RouteManager * list (list string * bool)) : Prop :=
  exists new, added rl'.2 = added rl.2 ++ new /\ kept rl'.1 ≡ₚ kept rl.1 ++ new /\
    installed rl'.1 = installed rl.1 /\ endpointIP rl'.1 = endpointIP rl.1.

Lemma gain_refl rl : gain rl rl.
Proof. exists []. by rewrite !app_nil_r. Qed.

Lemma bypass_host_gain sys gw rl ip : gain rl (bypass_host sys gw rl ip).
Proof.
  destruct rl as [r l]. unfold bypass_host. pose proof (added_run sys l (add_host ip gw)) as H.
  destruct (run sys l _) as [l' [e|]].
  - exists []. by rewrite !app_nil_r in *.
  - exists [("-host", ip)]. split_and!; [done| |done|done]. unfold kept. cbn. rewrite map_app. cbn.
    solve_Permutation.
Qed.

Lemma foldl_gain {A} f (xs : list A) rl :
  (forall rl x, gain rl (f rl x)) -> gain rl (foldl f rl xs).
Proof.
  intros Hf. revert rl. induction xs as [|x xs IH]; intros rl; [apply gain_refl|].
  destruct (Hf rl x) as (n1 & ? & Hk1 & ? & ?). destruct (IH (f rl x)) as (n2 & ? & Hk2 & ? & ?).
  cbn [foldl]. exists (n1 ++ n2). split_and!; [|by rewrite Hk2, Hk1, app_assoc|congruence..].
  rewrite app_assoc. congruence.
Qed.

Lemma dynamic_gain sys r l ips : gain (r, l) (AddDynamicHostBypassBatch sys r l ips).
Proof.
  unfold AddDynamicHostBypassBatch. destruct (_ || _); [apply gain_refl|].
  apply foldl_gain. intros. case_bool_decide; [apply gain_refl|apply bypass_host_gain].
Qed.

Lemma sim_step sys o r p l :
  sim r p -> enabled p o = true ->
  exists p' fin, (exec sys o r l).1.2 = l ++ fin /\ sim (exec sys o r l).1.1 p' /\
    spec_step p o (negb (bool_decide ((exec sys o r l).2 = None))) (added fin) (deleted fin) p'.
Proof.
  intros Hs Hen. destruct o as [|ips|]; cbn [exec].
  - destruct p; try done. destruct Hs as [Hi Hk].
    pose proof (Install_spec sys r l Hi Hk) as H. pose proof (Install_grew sys r l) as (fin & Hl & Hd).
    destruct (Install sys r l) as [[r' l'] [e|]]; cbn [fst snd] in *; subst l'.
    + exists Failed, fin. rewrite Hd. split_and!; [done|apply H|constructor].
    + destruct H as (Ha & Hi' & He & Ht). rewrite added_app in Ha. apply Permutation_app_inv_l in Ha.
      exists (Up (owns r')), fin. rewrite Hd. split_and!; [done|split; done|]. constructor.
      unfold owns. by rewrite Ha, He.
  - destruct p as [|owned|]; try done. destruct Hs as [Hi Ho].
    pose proof (dynamic_grew sys r l ips) as (fin & Hl & Hd).
    destruct (dynamic_gain sys r l ips) as (new & Ha & Hk & Hi' & He).
    destruct (AddDynamicHostBypassBatch sys r l ips) as [r' l']. cbn [fst snd] in *. subst l'.
    rewrite added_app in Ha. apply app_inv_head in Ha. subst new.
    exists (Up (owns r')), fin. rewrite Hd. split_and!; [done|split; [congruence|done]|]. constructor.
    rewrite Ho. unfold owns. rewrite He, Hk. solve_Permutation.
  - destruct (installed r) eqn:Hi.
    2:{ assert (Hr : Restore sys r l = (r, l, None)) by (unfold Restore; by rewrite Hi). rewrite Hr.
        destruct p as [|owned|]; [|by destruct Hs as [Hx _]; rewrite Hi in Hx|];
          eexists _, []; rewrite app_nil_r; (split_and!; [done|exact Hs|by constructor]). }
    destruct p as [|owned|]; [by destruct Hs as [Hx _]; rewrite Hi in Hx| |by cbn in Hs; rewrite Hi in Hs].
    destruct Hs as [_ Ho]. unfold Restore. rewrite Hi. cbn [negb].
    destruct (run_all_deleted sys (restore_commands r) l) as (fin & Hl & Hf).
    destruct (run_all sys (restore_commands r) l) as [l' errs]. cbn [fst snd] in *. subst l'.
    exists Down, fin. rewrite (deleted_fmap_delete _ _ Hf), restore_commands_delete.
    rewrite added_none by (rewrite Hf; apply restore_adds_none).
    split_and!; [done|done|]. constructor. by rewrite Ho.
Qed.

#[export] Instance impl (sys : system) : RouteImpl RouteManager (list string) (string * string) := {
  RouteSpec.exec := exec sys;
  RouteSpec.adds := added;
  RouteSpec.dels := deleted;
  RouteSpec.sim := sim;
  RouteSpec.adds_app := added_app;
  RouteSpec.dels_app := deleted_app;
  RouteSpec.sim_step := sim_step sys;
}.
End Darwin.
