(* ===== verification/RoutesWin.v ===== *)
(** internal/client/route_windows.go: the routing table and the DNS servers of
    the default adapter while the tunnel is up, through route.exe, netsh and
    PowerShell.  As in Routes, the commands run are recorded with their outcome. *)
From S2P Require Import Prelude GoStrings GoNet.
From S2P Require Routes RouteSpec.
#[local] Open Scope Z_scope.

Abbreviation log := (list (list string * bool)) (only parsing).

(** The system: the error of a command after a history, the outputs of the
    commands that are only read, and the resolver. *)
Record system := {
  sys_run : log -> list string -> option string;
  sys_route_print : log -> res string;        (* route print 0.0.0.0 *)
  sys_interfaces : log -> res string;         (* netsh interface ipv4 show interfaces *)
  sys_default_alias : log -> res string;      (* powershell: InterfaceAlias of the default route *)
  sys_dnsservers : log -> string -> res string;  (* netsh interface ipv4 show dnsservers name=... *)
  sys_LookupIP : string -> res (list IP);
}.

Record RouteManager := {
  tunName : string;
  endpointIP : string;
  origGateway : string;
  origIface : string;
  origDNSAdapter : string;
  origDNSServers : list string;
  tunIP : string;
  tunIndex : string;
  dnsBypass : list string;
  exclusions : list string;
  hostBypass : list string;
  netBypass : list string;
  installed : bool;
}.

Definition with_orig (r : RouteManager) (gw iface : string) : RouteManager :=
  {| tunName := tunName r; endpointIP := endpointIP r; origGateway := gw; origIface := iface;
     origDNSAdapter := origDNSAdapter r; origDNSServers := origDNSServers r; tunIP := tunIP r;
     tunIndex := tunIndex r; dnsBypass := dnsBypass r; exclusions := exclusions r;
     hostBypass := hostBypass r; netBypass := netBypass r; installed := installed r |}.

Definition with_dns (r : RouteManager) (adapter : string) (servers : list string) : RouteManager :=
  {| tunName := tunName r; endpointIP := endpointIP r; origGateway := origGateway r;
     origIface := origIface r; origDNSAdapter := adapter; origDNSServers := servers; tunIP := tunIP r;
     tunIndex := tunIndex r; dnsBypass := dnsBypass r; exclusions := exclusions r;
     hostBypass := hostBypass r; netBypass := netBypass r; installed := installed r |}.

Definition with_index (r : RouteManager) (idx : string) : RouteManager :=
  {| tunName := tunName r; endpointIP := endpointIP r; origGateway := origGateway r;
     origIface := origIface r; origDNSAdapter := origDNSAdapter r; origDNSServers := origDNSServers r;
     tunIP := tunIP r; tunIndex := idx; dnsBypass := dnsBypass r; exclusions := exclusions r;
     hostBypass := hostBypass r; netBypass := netBypass r; installed := installed r |}.

Definition with_bypass (r : RouteManager) (dns host net : list string) : RouteManager :=
  {| tunName := tunName r; endpointIP := endpointIP r; origGateway := origGateway r;
     origIface := origIface r; origDNSAdapter := origDNSAdapter r; origDNSServers := origDNSServers r;
     tunIP := tunIP r; tunIndex := tunIndex r; dnsBypass := dns; exclusions := exclusions r;
     hostBypass := host; netBypass := net; installed := installed r |}.

Definition set_installed (r : RouteManager) (b : bool) : RouteManager :=
  {| tunName := tunName r; endpointIP := endpointIP r; origGateway := origGateway r;
     origIface := origIface r; origDNSAdapter := origDNSAdapter r; origDNSServers := origDNSServers r;
     tunIP := tunIP r; tunIndex := tunIndex r; dnsBypass := dnsBypass r; exclusions := exclusions r;
     hostBypass := hostBypass r; netBypass := netBypass r; installed := b |}.

Definition halves : list string := ["0.0.0.0"; "128.0.0.0"].
Definition public_dns : list string := ["1.1.1.1"; "8.8.8.8"].
Definition host_mask : string := "255.255.255.255".
Definition half_mask : string := "128.0.0.0".

(** ** Reading the system *)

(** The first line that starts with 0.0.0.0 and whose second field is 0.0.0.0. *)
Fixpoint scan_default (ls : list string) : option (string * string) :=
  match ls with
  | [] => None
  | line :: ls =>
      let line := TrimSpace line in
      if negb (HasPrefix line "0.0.0.0") then scan_default ls
      else match Fields line with
           | _ :: f1 :: f2 :: f3 :: _ :: _ =>
               if bool_decide (f1 = "0.0.0.0") then Some (f2, f3) else scan_default ls
           | _ => scan_default ls
           end
  end.

Definition defaultRoute (out : res string) : res (string * string) :=
  out ← out;
  match scan_default (Split nl out) with
  | Some gi => Ok gi
  | None => Err "could not parse default route"
  end.

(** The first field of the first line that mentions the name. *)
Fixpoint scan_index (name : string) (ls : list string) : option string :=
  match ls with
  | [] => None
  | line :: ls =>
      if Contains line name then
        match Fields (TrimSpace line) with
        | idx :: _ => Some idx
        | [] => scan_index name ls
        end
      else scan_index name ls
  end.

Definition getTUNIndex (out : res string) (name : string) : res string :=
  out ← out;
  match scan_index name (Split nl out) with
  | Some idx => Ok idx
  | None => Err ("interface " +:+ name +:+ " not found")
  end.

Definition getDefaultNetAdapter (out : res string) : string :=
  match out with Ok out => TrimSpace out | Err _ => "" end.

(** A line that is an IPv4 address, and nothing else. *)
Definition server_of (line : string) : option string :=
  let ip := ParseIP (TrimSpace line) in
  if bool_decide (ip <> []) && bool_decide (is_Some (To4 ip)) then Some (IP_String ip) else None.

Definition getDNSForAdapter (out : res string) : list string :=
  match out with Ok out => omap server_of (Split nl out) | Err _ => [] end.

Section manager.
Variable sys : system.

Definition run (l : log) (cmd : list string) : log * option string :=
  let err := sys_run sys l cmd in (l ++ [(cmd, bool_decide (err = None))], err).

Definition add_route (dest mask gw : string) : list string :=
  ["route"; "add"; dest; "mask"; mask; gw; "metric"; "1"].
Definition add_half (half idx : string) : list string :=
  ["route"; "add"; half; "mask"; half_mask; "0.0.0.0"; "if"; idx; "metric"; "1"].
Definition delete_route (dest mask : string) : list string := ["route"; "delete"; dest; "mask"; mask].
Definition set_dns (adapter server : string) : list string :=
  ["netsh"; "interface"; "ipv4"; "set"; "dnsservers"; "name=" +:+ adapter; "static"; server; "primary"; "validate=no"].
Definition add_dns (adapter server : string) : list string :=
  ["netsh"; "interface"; "ipv4"; "add"; "dnsservers"; "name=" +:+ adapter; server; "validate=no"].
Definition dhcp_dns (adapter : string) : list string :=
  ["netsh"; "interface"; "ipv4"; "set"; "dnsservers"; "name=" +:+ adapter; "dhcp"].
Definition set_address (tun ip gw : string) : list string :=
  ["netsh"; "interface"; "ipv4"; "set"; "address"; "name=" +:+ tun; "static"; ip; "255.255.255.0"; gw].

Definition NewRouteManager (tun endpointHostPort : string) (excl : list string) : res RouteManager :=
  '(host, _) ← SplitHostPort endpointHostPort;
  ips ← wrap_err ("resolve " +:+ host +:+ ": ") (sys_LookupIP sys host);
  match omap To4 ips with
  | [] => Err ("no IPv4 for " +:+ host)
  | v4 :: _ =>
      Ok {| tunName := tun; endpointIP := IP_String v4; origGateway := ""; origIface := "";
            origDNSAdapter := ""; origDNSServers := []; tunIP := Routes.tunIPv4; tunIndex := "";
            dnsBypass := []; exclusions := excl; hostBypass := []; netBypass := []; installed := false |}
  end.

(** ** Install *)

(** A bypass, kept by [keep] when the route was added. *)
Definition bypass (keep : RouteManager -> RouteManager) (dest mask gw : string)
    (rl : RouteManager * log) : RouteManager * log :=
  let '(r, l) := rl in
  let '(l, err) := run l (add_route dest mask gw) in
  match err with
  | None => (keep r, l)
  | Some _ => (r, l)
  end.

Definition keep_dns (ip : string) (r : RouteManager) := with_bypass r (dnsBypass r ++ [ip]) (hostBypass r) (netBypass r).
Definition keep_host (ip : string) (r : RouteManager) := with_bypass r (dnsBypass r) (hostBypass r ++ [ip]) (netBypass r).
Definition keep_net (n : string) (r : RouteManager) := with_bypass r (dnsBypass r) (hostBypass r) (netBypass r ++ [n]).

Definition bypass_dns (gw : string) (rl : RouteManager * log) (ip : string) :=
  bypass (keep_dns ip) ip host_mask gw rl.
Definition bypass_host (gw : string) (rl : RouteManager * log) (ip : string) :=
  bypass (keep_host ip) ip host_mask gw rl.
Definition bypass_net (gw : string) (rl : RouteManager * log) (n : IPNet) :=
  bypass (keep_net (IPNet_String n)) (IP_String (net_IP n)) (IP_String (net_Mask n)) gw rl.

Definition bypass_exclusion (gw : string) (rl : RouteManager * log) (exc : string)
  : RouteManager * log :=
  let exc := TrimSpace exc in
  if bool_decide (exc = "") then rl
  else match ParseCIDR exc with
       | Ok (_, ipnet) => bypass_net gw rl ipnet
       | Err _ =>
           let ip := ParseIP exc in
           if bool_decide (ip <> []) && bool_decide (is_Some (To4 ip)) then bypass_host gw rl (IP_String ip)
           else match sys_LookupIP sys exc with
                | Err _ => rl
                | Ok ips => foldl (bypass_host gw) rl (Routes.v4_strings ips)
                end
       end.

Fixpoint add_halves (idx : string) (hs : list string) (l : log) : log * option string :=
  match hs with
  | [] => (l, None)
  | half :: hs =>
      match run l (add_half half idx) with
      | (l, Some e) => (l, Some ("route add " +:+ half +:+ "/1: " +:+ e))
      | (l, None) => add_halves idx hs l
      end
  end.

Definition override_dns (r : RouteManager) (l : log) : RouteManager * log :=
  let adapter := getDefaultNetAdapter (sys_default_alias sys l) in
  if bool_decide (adapter <> "") then
    (with_dns r adapter (getDNSForAdapter (sys_dnsservers sys l adapter)), (run l (set_dns adapter Routes.peer)).1)
  else (with_dns r adapter (origDNSServers r), l).

Definition Install (r : RouteManager) (l : log) : RouteManager * log * option string :=
  match defaultRoute (sys_route_print sys l) with
  | Err e => (r, l, Some ("get default route: " +:+ e))
  | Ok (gw, iface) =>
      let r := with_orig r gw iface in
      match getTUNIndex (sys_interfaces sys l) (tunName r) with
      | Err e => (r, l, Some ("get tun index: " +:+ e))
      | Ok idx =>
          let r := with_index r idx in
          match run l (set_address (tunName r) (tunIP r) Routes.peer) with
          | (l, Some e) => (r, l, Some ("set tun address: " +:+ e))
          | (l, None) =>
              match run l (add_route (endpointIP r) host_mask gw) with
              | (l, Some e) => (r, l, Some ("route add endpoint: " +:+ e))
              | (l, None) =>
                  let '(r, l) := override_dns r l in
                  let '(r, l) := foldl (bypass_dns gw) (r, l) public_dns in
                  let '(r, l) := foldl (bypass_exclusion gw) (r, l) (exclusions r) in
                  match add_halves (tunIndex r) halves l with
                  | (l, Some e) => (r, l, Some e)
                  | (l, None) => (set_installed r true, l, None)
                  end
              end
          end
      end
  end.

(** ** While installed *)

Definition AddDynamicHostBypassBatch (r : RouteManager) (l : log) (ips : list IP)
  : RouteManager * log :=
  if bool_decide (ips = []) || bool_decide (origGateway r = "") then (r, l)
  else foldl (fun rl ip => if bool_decide (ip ∈ hostBypass rl.1) then rl
                           else bypass_host (origGateway r) rl ip) (r, l) (Routes.v4_strings ips).

(** ** Restore *)

(** The deletions whose errors are reported, and the commands whose outcome is
    ignored. *)
Definition restore_checked (r : RouteManager) : list (string * list string) :=
  map (fun half => ("delete " +:+ half +:+ "/1: ", delete_route half half_mask)) halves ++
  [("delete endpoint route: ", delete_route (endpointIP r) host_mask)].

Definition restore_dns (r : RouteManager) : list (list string) :=
  if bool_decide (origDNSAdapter r <> "") then
    match origDNSServers r with
    | first :: more => set_dns (origDNSAdapter r) first :: map (add_dns (origDNSAdapter r)) more
    | [] => [dhcp_dns (origDNSAdapter r)]
    end
  else [].

(** Destination and mask of a block, read back from its text. *)
Definition net_key (n : string) : option (string * string) :=
  match ParseCIDR n with
  | Ok (_, ipnet) => Some (IP_String (net_IP ipnet), IP_String (net_Mask ipnet))
  | Err _ => None
  end.

Definition restore_unchecked (r : RouteManager) : list (list string) :=
  restore_dns r ++
  map (fun ip => delete_route ip host_mask) (dnsBypass r) ++
  map (fun ip => delete_route ip host_mask) (hostBypass r) ++
  omap (fun n => (fun k => delete_route k.1 k.2) <$> net_key n) (netBypass r).

Fixpoint run_all (cmds : list (string * list string)) (l : log) : log * list string :=
  match cmds with
  | [] => (l, [])
  | (what, cmd) :: cmds =>
      let '(l, err) := run l cmd in
      let '(l, errs) := run_all cmds l in
      (l, match err with Some e => (what +:+ e) :: errs | None => errs end)
  end.

Definition Restore (r : RouteManager) (l : log) : RouteManager * log * option string :=
  if negb (installed r) then (r, l, None)
  else
    let '(l, errs) := run_all (restore_checked r) l in
    let l := foldl (fun l cmd => (run l cmd).1) l (restore_unchecked r) in
    (with_bypass (set_installed r false) [] [] [], l,
     match errs with [] => None | _ => Some ("restore routes: " +:+ Join "; " errs) end).

(** ** After a crash *)

Definition recovery (adapter : string) : list (list string) :=
  [dhcp_dns adapter] ++ map (fun half => delete_route half half_mask) halves ++
  map (fun ip => delete_route ip host_mask) public_dns.

Definition RecoverDNS (l : log) : log :=
  let adapter := getDefaultNetAdapter (sys_default_alias sys l) in
  if bool_decide (adapter = "") then l
  else if existsb (fun s => HasPrefix s "10.99.0.") (getDNSForAdapter (sys_dnsservers sys l adapter))
       then foldl (fun l cmd => (run l cmd).1) l (recovery adapter)
       else l.
End manager.

(** ** What a log did to the routing table: destination and mask *)

Definition route_change (verb : string) (cmd : list string) : option (string * string) :=
  match cmd with
  | prog :: v :: dest :: _ :: mask :: _ =>
      if bool_decide (prog = "route") && bool_decide (v = verb) then Some (dest, mask) else None
  | _ => None
  end.

Definition added (l : log) : list (string * string) :=
  omap (fun c => if c.2 : bool then route_change "add" c.1 else None) l.
Definition deleted (l : log) : list (string * string) := omap (fun c => route_change "delete" c.1) l.

Definition host_key (ip : string) : string * string := (ip, host_mask).

Definition kept (r : RouteManager) : list (string * string) :=
  map host_key (dnsBypass r) ++ map host_key (hostBypass r) ++ omap net_key (netBypass r).

(** What [Restore] would delete. *)
Definition owns (r : RouteManager) : list (string * string) :=
  map (fun half => (half, half_mask)) halves ++ [host_key (endpointIP r)] ++ kept r.

Definition exec (sys : system) (o : RouteSpec.op) (r : RouteManager) (l : log)
  : RouteManager * log * option string :=
  match o with
  | RouteSpec.OpInstall => Install sys r l
  | RouteSpec.OpDynamic ips => (AddDynamicHostBypassBatch sys r l ips, None)
  | RouteSpec.OpRestore => Restore sys r l
  end.

(** Every CIDR exclusion is an IPv4 block. *)
Definition v4_exclusions (r : RouteManager) : Prop :=
  Forall (fun exc => match ParseCIDR (TrimSpace exc) with
                     | Ok (_, n) => length (net_Mask n) = 4%nat
                     | Err _ => True
                     end) (exclusions r).

Definition sim (r : RouteManager) (p : RouteSpec.phase (string * string)) : Prop :=
  match p with
  | RouteSpec.Down => installed r = false /\ kept r = [] /\ v4_exclusions r
  | RouteSpec.Up owned => installed r = true /\ owned ≡ₚ owns r /\ v4_exclusions r
  | RouteSpec.Failed => installed r = false
  end.

(** ** Lemmas *)

Lemma win_added_app l k : added (l ++ k) = added l ++ added k.
Proof. apply omap_app. Qed.

Lemma win_deleted_app l k : deleted (l ++ k) = deleted l ++ deleted k.
Proof. apply omap_app. Qed.

(** A log that grew by commands that delete nothing, adding [new]. *)
Definition grew (l l' : log) (new : list (string * string)) : Prop :=
  exists fin, l' = l ++ fin /\ deleted fin = [] /\ added fin = new.

Lemma win_grew_refl l : grew l l [].
Proof. exists []. by rewrite app_nil_r. Qed.

Lemma win_grew_trans l1 l2 l3 n1 n2 : grew l1 l2 n1 -> grew l2 l3 n2 -> grew l1 l3 (n1 ++ n2).
Proof.
  intros (f & -> & Hf & <-) (g & -> & Hg & <-). exists (f ++ g).
  by rewrite app_assoc, win_deleted_app, Hf, Hg, win_added_app.
Qed.

Lemma win_run_grew sys l cmd : route_change "delete" cmd = None ->
  let '(l', err) := run sys l cmd in
  grew l l' (match err, route_change "add" cmd with None, Some x => [x] | _, _ => [] end).
Proof.
  intros Hd. unfold run. cbn zeta. eexists. split; [reflexivity|]. unfold deleted, added. cbn.
  rewrite Hd. split; [done|]. destruct (sys_run sys l cmd); cbn; [done|]. by destruct (route_change "add" cmd).
Qed.

(** A step of the manager that remembers what it adds. *)
Definition gain (rl rl' : RouteManager * log) : Prop :=
  exists new, grew rl.2 rl'.2 new /\ kept rl'.1 ≡ₚ kept rl.1 ++ new /\
    installed rl'.1 = installed rl.1 /\ endpointIP rl'.1 = endpointIP rl.1 /\
    exclusions rl'.1 = exclusions rl.1.

Lemma win_gain_refl rl : gain rl rl.
Proof. exists []. rewrite app_nil_r. split_and!; try done. apply win_grew_refl. Qed.

Lemma gain_trans a b c : gain a b -> gain b c -> gain a c.
Proof.
  intros (n1 & G1 & K1 & ? & ? & ?) (n2 & G2 & K2 & ? & ? & ?). exists (n1 ++ n2).
  split_and!; [by eapply win_grew_trans|by rewrite K2, K1, app_assoc|congruence..].
Qed.

Lemma win_foldl_gain {A} f (xs : list A) rl :
  (forall rl x, x ∈ xs -> gain rl (f rl x)) -> gain rl (foldl f rl xs).
Proof.
  revert rl. induction xs as [|x xs IH]; intros rl Hf; [apply win_gain_refl|]. cbn [foldl].
  eapply gain_trans; [apply Hf; left|apply IH]. intros. apply Hf. by right.
Qed.

Lemma bypass_gain sys keep dest mask gw rl :
  (forall r, kept (keep r) ≡ₚ kept r ++ [(dest, mask)]) ->
  (forall r, installed (keep r) = installed r /\ endpointIP (keep r) = endpointIP r /\ exclusions (keep r) = exclusions r) ->
  gain rl (bypass sys keep dest mask gw rl).
Proof.
  intros Hk Hf. destruct rl as [r l]. unfold bypass.
  pose proof (win_run_grew sys l (add_route dest mask gw) eq_refl) as H.
  destruct (run sys l _) as [l' [e|]].
  - exists []. rewrite app_nil_r. by split_and!.
  - exists [(dest, mask)]. destruct (Hf r) as (? & ? & ?). split_and!; [exact H|apply Hk|done..].
Qed.

Lemma bypass_dns_gain sys gw rl ip : gain rl (bypass_dns sys gw rl ip).
Proof.
  apply bypass_gain; [|done]. intros r. unfold kept, keep_dns. cbn. rewrite map_app. cbn. solve_Permutation.
Qed.

Lemma win_bypass_host_gain sys gw rl ip : gain rl (bypass_host sys gw rl ip).
Proof.
  apply bypass_gain; [|done]. intros r. unfold kept, keep_host. cbn. rewrite map_app. cbn. solve_Permutation.
Qed.

(** The text the manager keeps of a block gives back the route it added. *)
Lemma net_key_String s ip n : ParseCIDR s = Ok (ip, n) -> length (net_Mask n) = 4%nat ->
  net_key (IPNet_String n) = Some (IP_String (net_IP n), IP_String (net_Mask n)).
Proof.
  intros (a & k & _ & Hk & ->)%ParseCIDR_block Hm.
  assert (Ha : length a = 4%nat) by (unfold block_of in Hm; cbn in Hm; by rewrite length_CIDRMask in Hm).
  destruct (ParseCIDR_String a k Ha ltac:(lia)) as [ip' H]. unfold net_key. by rewrite H.
Qed.

Lemma bypass_net_gain sys gw rl s ip n :
  ParseCIDR s = Ok (ip, n) -> length (net_Mask n) = 4%nat -> gain rl (bypass_net sys gw rl n).
Proof.
  intros Hp Hm. apply bypass_gain; [|done]. intros r. unfold kept, keep_net. cbn [dnsBypass hostBypass netBypass with_bypass].
  rewrite omap_app. cbn [omap list_omap]. rewrite (net_key_String _ _ _ Hp Hm). solve_Permutation.
Qed.

Lemma bypass_exclusion_gain sys gw rl exc :
  match ParseCIDR (TrimSpace exc) with Ok (_, n) => length (net_Mask n) = 4%nat | Err _ => True end ->
  gain rl (bypass_exclusion sys gw rl exc).
Proof.
  intros Hv. unfold bypass_exclusion. case_bool_decide; [apply win_gain_refl|].
  destruct (ParseCIDR _) as [[ip n]|] eqn:Hp; [by eapply bypass_net_gain|].
  cbn zeta. destruct (_ && _); [apply win_bypass_host_gain|].
  destruct (sys_LookupIP _ _); [|apply win_gain_refl]. apply win_foldl_gain. intros. apply win_bypass_host_gain.
Qed.

Lemma win_dynamic_gain sys r l ips : gain (r, l) (AddDynamicHostBypassBatch sys r l ips).
Proof.
  unfold AddDynamicHostBypassBatch. destruct (_ || _); [apply win_gain_refl|].
  apply win_foldl_gain. intros. case_bool_decide; [apply win_gain_refl|apply win_bypass_host_gain].
Qed.

Lemma win_add_halves_grew sys idx hs l :
  match add_halves sys idx hs l with
  | (l', None) => grew l l' (map (fun half => (half, half_mask)) hs)
  | (l', Some _) => exists some, grew l l' some
  end.
Proof.
  revert l. induction hs as [|half hs IH]; intros l; cbn [add_halves]; [apply win_grew_refl|].
  pose proof (win_run_grew sys l (add_half half idx) eq_refl) as Hr.
  destruct (run sys l (add_half half idx)) as [l1 [e|]]; [eauto|].
  specialize (IH l1). destruct (add_halves sys idx hs l1) as [l2 [e|]].
  - destruct IH as [some ?]. eauto using win_grew_trans.
  - exact (win_grew_trans _ _ _ _ _ Hr IH).
Qed.

Lemma override_dns_gain sys r l : gain (r, l) (override_dns sys r l).
Proof.
  unfold override_dns. case_bool_decide; [|exists []; rewrite app_nil_r; split_and!; try done; apply win_grew_refl].
  set (adapter := getDefaultNetAdapter _).
  pose proof (win_run_grew sys l (set_dns adapter Routes.peer) eq_refl) as Hr.
  destruct (run sys l _) as [l1 e]. exists []. rewrite app_nil_r. split_and!; try done.
  cbn [snd fst]. by destruct e.
Qed.

Lemma win_run_all_deleted sys cmds l :
  exists fin, (run_all sys cmds l).1 = l ++ fin /\ fin.*1 = cmds.*2.
Proof.
  revert l. induction cmds as [|[what cmd] cmds IH]; intros l; cbn; [exists []; by rewrite app_nil_r|].
  unfold run. cbn zeta. set (l1 := l ++ _).
  destruct (IH l1) as (fin & Hl & Hf). destruct (run_all sys cmds l1) as [l2 errs]. cbn in *.
  eexists (_ :: fin). rewrite Hl. unfold l1. rewrite <- app_assoc. split; [done|]. cbn. by rewrite Hf.
Qed.

Lemma foldl_run sys cmds l :
  exists fin, foldl (fun l cmd => (run sys l cmd).1) l cmds = l ++ fin /\ fin.*1 = cmds.
Proof.
  revert l. induction cmds as [|cmd cmds IH]; intros l; [exists []; by rewrite app_nil_r|].
  cbn [foldl]. destruct (IH (run sys l cmd).1) as (fin & -> & Hf).
  eexists (_ :: fin). unfold run. cbn. rewrite <- app_assoc, Hf. done.
Qed.

Lemma win_deleted_cmds l : deleted l = omap (route_change "delete") l.*1.
Proof. induction l as [|[c ok] l IH]; [done|]. cbn. unfold deleted in IH. cbn in IH. by rewrite IH. Qed.

Lemma win_added_none fin : Forall (fun c => route_change "add" c = None) fin.*1 -> added fin = [].
Proof.
  induction fin as [|[c ok] fin IH]; intros H; [done|]. inversion H; subst.
  unfold added. cbn. fold (added fin). rewrite IH by done. by destruct ok; [rewrite H2|].
Qed.

Lemma dns_commands_routes verb r : omap (route_change verb) (restore_dns r) = [].
Proof.
  unfold restore_dns. case_bool_decide; [|done]. destruct (origDNSServers r) as [|s ss]; [done|].
  cbn. induction ss; done.
Qed.

Lemma omap_delete_hosts (ips : list string) :
  omap (route_change "delete") (map (fun ip => delete_route ip host_mask) ips) = map host_key ips.
Proof. induction ips as [|ip ips IH]; cbn; [done|]. by rewrite IH. Qed.

Lemma omap_delete_nets (ns : list string) :
  omap (route_change "delete") (omap (fun n => (fun k => delete_route k.1 k.2) <$> net_key n) ns) = omap net_key ns.
Proof.
  induction ns as [|n ns IH]; cbn; [done|]. destruct (net_key n) as [[d m]|]; cbn; [|done]. by rewrite IH.
Qed.

Lemma restore_deletes r :
  omap (route_change "delete") ((restore_checked r).*2 ++ restore_unchecked r) = owns r.
Proof.
  unfold restore_checked, restore_unchecked, owns, kept.
  by rewrite !omap_app, dns_commands_routes, !omap_delete_hosts, omap_delete_nets.
Qed.

Lemma dns_commands_none r : Forall (fun c => route_change "add" c = None) (restore_dns r).
Proof.
  unfold restore_dns. case_bool_decide; [|done]. destruct (origDNSServers r) as [|s ss]; [by repeat constructor|].
  constructor; [done|]. apply Forall_fmap, Forall_forall. done.
Qed.

Lemma win_restore_adds_none r :
  Forall (fun c => route_change "add" c = None) ((restore_checked r).*2 ++ restore_unchecked r).
Proof.
  unfold restore_checked, restore_unchecked. rewrite !Forall_app. split_and!.
  - repeat constructor.
  - apply dns_commands_none.
  - by apply Forall_fmap, Forall_forall.
  - by apply Forall_fmap, Forall_forall.
  - apply Forall_forall. intros c (n & _ & Hc)%list_elem_of_omap.
    destruct (net_key n); [|done]. by injection Hc as <-.
Qed.

(** What [Restore] runs on an installed manager. *)
Lemma Restore_runs sys r l : installed r = true ->
  exists fin, (Restore sys r l).1 = (with_bypass (set_installed r false) [] [] [], l ++ fin) /\
    fin.*1 = (restore_checked r).*2 ++ restore_unchecked r /\ deleted fin = owns r /\ added fin = [].
Proof.
  intros Hi. unfold Restore. rewrite Hi. cbn [negb].
  destruct (win_run_all_deleted sys (restore_checked r) l) as (f1 & Hl1 & Hf1).
  destruct (run_all sys (restore_checked r) l) as [l1 errs]. cbn [fst] in Hl1. subst l1.
  destruct (foldl_run sys (restore_unchecked r) (l ++ f1)) as (f2 & -> & Hf2).
  assert (Hc : (f1 ++ f2).*1 = (restore_checked r).*2 ++ restore_unchecked r) by (by rewrite fmap_app, Hf1, Hf2).
  exists (f1 ++ f2). rewrite app_assoc. split_and!; [done|done| |].
  - by rewrite win_deleted_cmds, Hc, restore_deletes.
  - apply win_added_none. rewrite Hc. apply win_restore_adds_none.
Qed.

Lemma win_Install_spec sys r l : sim r RouteSpec.Down ->
  match Install sys r l with
  | (r', l', None) => exists new, grew l l' new /\ installed r' = true /\ new ≡ₚ owns r' /\ v4_exclusions r'
  | (r', l', Some _) => exists new, grew l l' new /\ installed r' = false
  end.
Proof.
  intros (Hi & Hk & Hv). unfold Install.
  destruct (defaultRoute _) as [[gw iface]|e]; [|eauto using win_grew_refl]. cbn zeta.
  destruct (getTUNIndex _ _) as [idx|e]; [|eauto using win_grew_refl].
  set (r1 := with_index _ idx).
  pose proof (win_run_grew sys l (set_address (tunName r1) (tunIP r1) Routes.peer) eq_refl) as G1.
  destruct (run sys l _) as [l1 [e|]]; [by eauto|].
  pose proof (win_run_grew sys l1 (add_route (endpointIP r1) host_mask gw) eq_refl) as G2.
  destruct (run sys l1 _) as [l2 [e|]]; [by eauto using win_grew_trans|].
  cbn in G1, G2. pose proof (override_dns_gain sys r1 l2) as G3.
  destruct (override_dns sys r1 l2) as [r3 l3].
  pose proof (win_foldl_gain (bypass_dns sys gw) public_dns (r3, l3) ltac:(intros; apply bypass_dns_gain)) as G4.
  destruct (foldl (bypass_dns sys gw) _ _) as [r4 l4].
  pose proof (gain_trans _ _ _ G3 G4) as (n4 & G4' & K4 & I4 & E4 & X4). cbn [fst snd] in *.
  assert (Hv4 : v4_exclusions r4) by (unfold v4_exclusions in *; by rewrite X4).
  assert (G5 : gain (r4, l4) (foldl (bypass_exclusion sys gw) (r4, l4) (exclusions r4))).
  { apply win_foldl_gain. intros. apply bypass_exclusion_gain. unfold v4_exclusions in Hv4.
    rewrite Forall_forall in Hv4. by apply Hv4. }
  destruct (foldl (bypass_exclusion sys gw) _ _) as [r5 l5].
  destruct G5 as (n5 & G5 & K5 & I5 & E5 & X5). cbn [fst snd] in *.
  pose proof (win_grew_trans _ _ _ _ _ (win_grew_trans _ _ _ _ _ (win_grew_trans _ _ _ _ _ G1 G2) G4') G5) as G.
  assert (installed r5 = false) by (rewrite I5, I4; done).
  pose proof (win_add_halves_grew sys (tunIndex r5) halves l5) as G6.
  destruct (add_halves _ _ _ _) as [l6 [e|]].
  - destruct G6 as [some G6]. eauto using win_grew_trans.
  - eexists. split_and!; [exact (win_grew_trans _ _ _ _ _ G G6)|done| |].
    + change (owns (set_installed r5 true)) with (owns r5). unfold owns.
      rewrite K5, K4, E5, E4. change (kept r1) with (kept r). rewrite Hk. cbn [app].
      change (endpointIP r1) with (endpointIP r). unfold host_key. solve_Permutation.
    + unfold v4_exclusions in *. cbn. by rewrite X5.
Qed.

Lemma win_sim_step sys o r p l :
  sim r p -> RouteSpec.enabled p o = true ->
  exists p' fin, (exec sys o r l).1.2 = l ++ fin /\ sim (exec sys o r l).1.1 p' /\
    RouteSpec.spec_step p o (negb (bool_decide ((exec sys o r l).2 = None))) (added fin) (deleted fin) p'.
Proof.
  intros Hs Hen. destruct o as [|ips|]; cbn [exec].
  - destruct p; try done. pose proof (win_Install_spec sys r l Hs) as H.
    destruct (Install sys r l) as [[r' l'] [e|]]; destruct H as (new & (fin & -> & Hd & <-) & H); cbn [fst snd].
    + exists RouteSpec.Failed, fin. rewrite Hd. split_and!; [done..|constructor].
    + destruct H as (Hi & Hp & Hv). exists (RouteSpec.Up (owns r')), fin. rewrite Hd.
      split_and!; [done|by split_and!|by constructor].
  - destruct p as [|owned|]; try done. destruct Hs as (Hi & Ho & Hv).
    destruct (win_dynamic_gain sys r l ips) as (new & (fin & Hl & Hd & Ha) & Hk & Hi' & He & Hx).
    destruct (AddDynamicHostBypassBatch sys r l ips) as [r' l']. cbn [fst snd] in *. subst.
    exists (RouteSpec.Up (owns r')), fin. rewrite Hd. split_and!; [done|split_and!; try done|].
    + congruence.
    + unfold v4_exclusions in *. by rewrite Hx.
    + constructor. rewrite Ho. unfold owns. rewrite He, Hk. solve_Permutation.
  - destruct (installed r) eqn:Hi.
    2:{ assert (Hr : Restore sys r l = (r, l, None)) by (unfold Restore; by rewrite Hi). rewrite Hr.
        destruct p as [|owned|]; [|by destruct Hs as [Hx _]; rewrite Hi in Hx|];
          eexists _, []; rewrite app_nil_r; (split_and!; [done|exact Hs|by constructor]). }
    destruct p as [|owned|]; [by destruct Hs as [Hx _]; rewrite Hi in Hx| |by cbn in Hs; rewrite Hi in Hs].
    destruct Hs as (_ & Ho & Hv). destruct (Restore_runs sys r l Hi) as (fin & Hr & _ & Hd & Ha).
    destruct (Restore sys r l) as [rl e]. cbn [fst snd] in *. subst rl.
    exists RouteSpec.Down, fin. rewrite Hd, Ha. split_and!; [done..|by constructor].
Qed.

#[export] Instance impl (sys : system) : RouteSpec.RouteImpl RouteManager (list string) (string * string) := {
  RouteSpec.exec := exec sys;
  RouteSpec.adds := added;
  RouteSpec.dels := deleted;
  RouteSpec.sim := sim;
  RouteSpec.adds_app := win_added_app;
  RouteSpec.dels_app := win_deleted_app;
  RouteSpec.sim_step := win_sim_step sys;
}.

(** ** Properties *)

Lemma New_down sys tun ep excl r : NewRouteManager sys tun ep excl = Ok r ->
  Forall (fun exc => match ParseCIDR (TrimSpace exc) with
                     | Ok (_, n) => length (net_Mask n) = 4%nat | Err _ => True end) excl ->
  sim r RouteSpec.Down.
Proof.
  unfold NewRouteManager. destruct (SplitHostPort ep) as [[host port]|]; [|done]. cbn.
  destruct (sys_LookupIP sys host) as [ips|]; [|done]. cbn.
  destruct (omap To4 ips); [done|]. intros [= <-] Hv. done.
Qed.

Lemma New_darwin_down sys tun ep excl r : Routes.NewRouteManager sys tun ep excl = Ok r ->
  RouteSpec.Darwin.sim r RouteSpec.Down.
Proof.
  unfold Routes.NewRouteManager. destruct (SplitHostPort ep) as [[host port]|]; [|done]. cbn.
  destruct (Routes.sys_LookupIP sys host) as [ips|]; [|done]. cbn.
  destruct (omap To4 ips); [done|]. by intros [= <-].
Qed.

(** C21: both route managers refine one abstract machine.  From a new manager,
    macOS or Windows, every history of installs, dynamic bypasses and restores
    in the order the client makes them is a history of the machine of
    RouteSpec: the routes added and the deletions asked are the machine's, and
    unless an installation failed every route added was asked to be deleted, as
    often as it was added, or is owned by the tunnel that is up.  On Windows a
    CIDR exclusion has to be an IPv4 block: the manager keeps its text and reads
    it back to delete the route. *)
Theorem route_managers_refine (dsys : Routes.system) (wsys : system) (tun ep : string) (excl : list string)
    (d : Routes.RouteManager) (w : RouteManager) (os : list RouteSpec.op) (l : log)
  (Hd : Routes.NewRouteManager dsys tun ep excl = Ok d)
  (Hw : NewRouteManager wsys tun ep excl = Ok w)
  (Hv4 : Forall (fun exc => match ParseCIDR (TrimSpace exc) with
                            | Ok (_, n) => length (net_Mask n) = 4%nat | Err _ => True end) excl)
  (Hos : RouteSpec.wf_ops false os = true) :
  (exists p fin, (RouteSpec.drive (RouteImpl0 := RouteSpec.Darwin.impl dsys) os d l).2 = l ++ fin /\
     RouteSpec.spec_runs RouteSpec.Down os (Routes.added fin) (Routes.deleted fin) p /\
     (p <> RouteSpec.Failed -> Routes.added fin ≡ₚ Routes.deleted fin ++ RouteSpec.owned_of p)) /\
  (exists p fin, (RouteSpec.drive (RouteImpl0 := impl wsys) os w l).2 = l ++ fin /\
     RouteSpec.spec_runs RouteSpec.Down os (added fin) (deleted fin) p /\
     (p <> RouteSpec.Failed -> added fin ≡ₚ deleted fin ++ RouteSpec.owned_of p)).
Proof.
  split.
  - apply (RouteSpec.fresh_refines (RouteImpl0 := RouteSpec.Darwin.impl dsys)); [|done].
    by eapply New_darwin_down.
  - apply (RouteSpec.fresh_refines (RouteImpl0 := impl wsys)); [|done]. by eapply New_down.
Qed.

(** The report of netsh puts the first server behind its label, on one line. *)
Definition static_label : string := "    Statically Configured DNS Servers:    ".

Lemma ParseIP_S t : ParseIP (String "S" t) = [].
Proof.
  unfold ParseIP. replace (ParseAddr (String "S" t)) with (@None (list byte)); [done|].
  unfold ParseAddr. destruct (addr_kind _) as [[]|]; [| |done].
  - unfold parseIPv4. cbn [Split]. rewrite bool_decide_false by done.
    destruct (Split "."%char t) as [|x [|y [|z [|w [|]]]]]; done.
  - unfold parseIPv6. by destruct (has_char "%"%char _).
Qed.

Lemma labelled_not_server s : server_of (static_label +:+ s) = None.
Proof.
  unfold server_of. replace (ParseIP (TrimSpace (static_label +:+ s))) with (@nil byte); [done|].
  destruct (TrimSpace_prefix (static_label +:+ s)) as [u Hu].
  change (TrimLeftSpace (static_label +:+ s)) with ("Statically Configured DNS Servers:    " +:+ s) in Hu.
  destruct (TrimSpace (static_label +:+ s)) as [|c t]; [done|].
  rewrite scons_app in Hu. injection Hu as <- _. by rewrite ParseIP_S.
Qed.

(** The first static server of an adapter is never seen.  On the report of
    netsh for statically configured servers, whose first address stands on the
    line of the label, the servers read are those of the other lines. *)
Theorem first_dns_server_unseen (head first rest : string) (Hfirst : has_char nl first = false) :
  getDNSForAdapter (Ok (head +:+ nls +:+ static_label +:+ first +:+ nls +:+ rest)) =
  getDNSForAdapter (Ok head) ++ getDNSForAdapter (Ok rest).
Proof.
  cbn [getDNSForAdapter]. unfold nls. rewrite !scons_app, !snil_app, Split_app_any.
  rewrite omap_app. f_equal.
  rewrite <- sapp_assoc, Split_app by (by rewrite has_char_app, Hfirst).
  cbn [omap list_omap]. by rewrite labelled_not_server.
Qed.

(** A static DNS server is lost.  The report of netsh names the first
    static server on the line of its label.  On an adapter with one static server
    [Restore] therefore switches the adapter to DHCP instead of that server; and
    when a crash left the tunnel's own server on the adapter, [RecoverDNS] finds
    nothing to recover. *)
Theorem static_dns_lost (sys : system) (l : log) (head server rest adapter : string) (r : RouteManager)
  (Hline : has_char nl server = false)
  (Hhead : getDNSForAdapter (Ok head) = []) (Hrest : getDNSForAdapter (Ok rest) = [])
  (Halias : getDefaultNetAdapter (sys_default_alias sys l) = adapter) (Hne : adapter <> "")
  (Hreport : sys_dnsservers sys l adapter = Ok (head +:+ nls +:+ static_label +:+ server +:+ nls +:+ rest)) :
  restore_dns (override_dns sys r l).1 = [dhcp_dns adapter] /\ RecoverDNS sys l = l.
Proof.
  pose proof (first_dns_server_unseen head server rest Hline) as H. rewrite Hhead, Hrest in H. cbn [app] in H.
  unfold override_dns, RecoverDNS. rewrite Halias, Hreport, H.
  rewrite (bool_decide_true (adapter <> "")) by done. rewrite (bool_decide_false (adapter = "")) by done.
  split; [|done]. unfold restore_dns. cbn [fst with_dns origDNSAdapter origDNSServers].
  by rewrite bool_decide_true.
Qed.

(** ** Witnesses *)

Definition ex_print : string :=
  "IPv4 Route Table" +:+ nls +:+ "Network Destination  Netmask  Gateway  Interface  Metric" +:+ nls +:+
  "    0.0.0.0    0.0.0.0    192.0.2.1    192.0.2.50    25" +:+ nls.
Definition ex_interfaces : string :=
  "Idx  Met  MTU  State  Name" +:+ nls +:+ " 12  25  1500  connected  Ethernet" +:+ nls +:+
  " 31  5  1500  connected  FireTunnel" +:+ nls.
Definition ex_report (server : string) : string :=
  "Configuration for interface Ethernet" +:+ nls +:+ static_label +:+ server +:+ nls +:+
  "    Register with which suffix:           Primary only" +:+ nls.

Definition ex_sys : system :=
  {| sys_run := fun _ _ => None;
     sys_route_print := fun _ => Ok ex_print;
     sys_interfaces := fun _ => Ok ex_interfaces;
     sys_default_alias := fun _ => Ok ("Ethernet" +:+ nls);
     sys_dnsservers := fun _ _ => Ok (ex_report "192.0.2.53");
     sys_LookupIP := fun _ => Ok [[mkbyte 198; mkbyte 51; mkbyte 100; mkbyte 9]] |}.

Definition ex_excl : list string := ["203.0.113.0/24"; " intranet.example "].
Definition ex_windows : RouteManager :=
  {| tunName := "FireTunnel"; endpointIP := "198.51.100.9"; origGateway := ""; origIface := "";
     origDNSAdapter := ""; origDNSServers := []; tunIP := Routes.tunIPv4; tunIndex := "";
     dnsBypass := []; exclusions := ex_excl; hostBypass := []; netBypass := []; installed := false |}.
Definition ex_darwin : Routes.RouteManager :=
  {| Routes.tunName := "FireTunnel"; Routes.endpointIP := "198.51.100.9"; Routes.origGateway := "";
     Routes.origIface := ""; Routes.origDNSService := ""; Routes.origDNSServers := [];
     Routes.tunIP := Routes.tunIPv4; Routes.dnsBypass := []; Routes.exclusions := ex_excl;
     Routes.hostBypass := []; Routes.netBypass := []; Routes.installed := false |}.

Definition ex_ops : list RouteSpec.op :=
  [RouteSpec.OpInstall; RouteSpec.OpDynamic [[mkbyte 203; mkbyte 0; mkbyte 113; mkbyte 77]];
   RouteSpec.OpRestore; RouteSpec.OpInstall; RouteSpec.OpRestore].

(** Two installations of seven routes each, one dynamic bypass. *)
Lemma route_managers_refine_witness :
  exists p fin, (RouteSpec.drive (RouteImpl0 := impl ex_sys) ex_ops ex_windows []).2 = [] ++ fin /\
    RouteSpec.spec_runs RouteSpec.Down ex_ops (added fin) (deleted fin) p /\
    length (added fin) = 15%nat /\
    (p <> RouteSpec.Failed -> added fin ≡ₚ deleted fin ++ RouteSpec.owned_of p).
Proof.
  destruct (proj2 (route_managers_refine (Routes.ex_sys []) ex_sys "FireTunnel" "vpn.example:443" ex_excl
    ex_darwin ex_windows ex_ops []
    ltac:(vm_compute; reflexivity) ltac:(vm_compute; reflexivity)
    ltac:(repeat constructor) ltac:(reflexivity))) as (p & fin & Hl & Hr & Hb).
  exists p, fin. split; [exact Hl|]. split; [exact Hr|]. split; [|exact Hb].
  cbn [app] in Hl. rewrite <- Hl. vm_compute. reflexivity.
Defined.

Lemma static_dns_lost_witness :
  restore_dns (override_dns ex_sys ex_windows []).1 = [dhcp_dns "Ethernet"] /\ RecoverDNS ex_sys [] = [].
Proof.
  exact (static_dns_lost ex_sys [] "Configuration for interface Ethernet" "192.0.2.53"
    ("    Register with which suffix:           Primary only" +:+ nls) "Ethernet" ex_windows
    ltac:(reflexivity) ltac:(vm_compute; reflexivity) ltac:(vm_compute; reflexivity)
    ltac:(vm_compute; reflexivity) ltac:(discriminate) ltac:(vm_compute; reflexivity)).
Defined.
