(* ===== verification/Teardown.v ===== *)
(** The end of a session, at the grain of what its goroutines can see:
    Disconnect (internal/client/client.go) with Restore (route_darwin.go) and
    the Close of the TUN device (tun.go), while the DNS relays, the pumps and
    the window's polls go on.  ClientCore.v takes Disconnect as one step. *)
From S2P Require Import Prelude GoStrings GoNet.
From S2P Require Import Routes.
#[local] Open Scope Z_scope.

(** A goroutine of [relayDNSUDP]: waiting for a query, in [forwardDNSQuery], in
    the loop of [AddDynamicHostBypassBatch] before a command, or between a
    command that succeeded and the append. *)
Inductive relay :=
| Listening
| Querying
| Adding (todo : list string)
| Appending (ip : string) (todo : list string).

(** A pump of the device. *)
Inductive pump := Pumping | Ended.

#[export] Instance pump_eq_dec : EqDecision pump.
Proof. solve_decision. Defined.

(** Where Disconnect is; commands come with the words before their error. *)
Inductive teardown :=
| Up                                            (* not called yet *)
| Fixed (todo : list (string * list string))    (* halves, endpoint, DNS, DNS servers *)
| Hosts (todo : list string)                    (* ranging over a hostBypass it read *)
| Nets (todo : list string)
| Clearing                                      (* before the fields are set to nil *)
| Forgetting                                    (* before c.routes = nil *)
| Closing                                       (* before the device's Close *)
| Waiting                                       (* in wg.Wait *)
| Releasing                                     (* before c.tun = nil *)
| Down.

Record session := {
  s_log : list (list string * bool);
  s_mgr : RouteManager;
  s_errs : list string;
  s_relays : gmap nat relay;
  s_pumps : pump * pump;
  s_phase : teardown;
  s_routes : bool;                 (* c.routes is not nil *)
  s_tun : bool;                    (* c.tun is not nil *)
  s_open : bool;                   (* the device and its stack are open *)
  s_polls : gmap nat bool;         (* polls that found c.tun, and have yet to use it *)
  s_crashed : bool;
  s_late : list string;            (* hosts appended after Restore read the list *)
}.

Definition with_disconnect (s : session) (l : list (list string * bool)) (r : RouteManager) (errs : list string)
    (p : teardown) : session :=
  {| s_log := l; s_mgr := r; s_errs := errs; s_relays := s_relays s; s_pumps := s_pumps s; s_phase := p;
     s_routes := s_routes s; s_tun := s_tun s; s_open := s_open s; s_polls := s_polls s;
     s_crashed := s_crashed s; s_late := s_late s |}.
Definition with_client (s : session) (routes tun opened : bool) (p : teardown) : session :=
  {| s_log := s_log s; s_mgr := s_mgr s; s_errs := s_errs s; s_relays := s_relays s; s_pumps := s_pumps s;
     s_phase := p; s_routes := routes; s_tun := tun; s_open := opened; s_polls := s_polls s;
     s_crashed := s_crashed s; s_late := s_late s |}.
Definition with_relay (s : session) (l : list (list string * bool)) (r : RouteManager) (late : list string)
    (i : nat) (x : relay) : session :=
  {| s_log := l; s_mgr := r; s_errs := s_errs s; s_relays := <[i := x]> (s_relays s); s_pumps := s_pumps s;
     s_phase := s_phase s; s_routes := s_routes s; s_tun := s_tun s; s_open := s_open s; s_polls := s_polls s;
     s_crashed := s_crashed s; s_late := late |}.
Definition with_pumps (s : session) (p : pump * pump) : session :=
  {| s_log := s_log s; s_mgr := s_mgr s; s_errs := s_errs s; s_relays := s_relays s; s_pumps := p;
     s_phase := s_phase s; s_routes := s_routes s; s_tun := s_tun s; s_open := s_open s; s_polls := s_polls s;
     s_crashed := s_crashed s; s_late := s_late s |}.
Definition with_polls (s : session) (m : gmap nat bool) (crashed : bool) : session :=
  {| s_log := s_log s; s_mgr := s_mgr s; s_errs := s_errs s; s_relays := s_relays s; s_pumps := s_pumps s;
     s_phase := s_phase s; s_routes := s_routes s; s_tun := s_tun s; s_open := s_open s; s_polls := m;
     s_crashed := crashed; s_late := s_late s |}.

(** Restore has read the list of hosts. *)
Definition has_read (p : teardown) : bool :=
  match p with Up | Fixed _ => false | _ => true end.

(** The commands of Restore before the hosts. *)
Definition fixed_commands (r : RouteManager) : list (string * list string) :=
  map (fun half => ("delete " +:+ half +:+ ": ", delete_half half (tunName r))) halves ++
  [("delete endpoint route: ", delete_host (endpointIP r))] ++
  (if bool_decide (origDNSService r <> "")
   then [("restore dns " +:+ origDNSService r +:+ ": ",
          set_dns (origDNSService r)
            (if bool_decide (origDNSServers r <> []) then origDNSServers r else ["empty"]))]
   else []) ++
  map (fun ip => ("delete dns route " +:+ ip +:+ ": ", delete_host ip)) (dnsBypass r).
Definition host_command (ip : string) : string * list string :=
  ("delete host bypass " +:+ ip +:+ ": ", delete_host ip).
Definition net_command (n : string) : string * list string :=
  ("delete net bypass " +:+ n +:+ ": ", delete_net n).

(** A relay holds the manager's lock. *)
Definition busy (m : gmap nat relay) : bool :=
  existsb (fun kv => match kv.2 with Adding _ | Appending _ _ => true | _ => false end) (map_to_list m).

Section session.
Variable sys : system.

(** A command of Restore: its error is noted, and the loop goes on. *)
Definition command (s : session) (c : string * list string) (p : teardown) : session :=
  let '(l, err) := Routes.run sys (s_log s) c.2 in
  with_disconnect s l (s_mgr s)
    (s_errs s ++ match err with Some e => [c.1 +:+ e] | None => [] end) p.

(** Close of the device: the device and the stack, then the wait for the pumps. *)
Definition Close (s : session) : session :=
  match s_phase s with
  | Closing => with_client s (s_routes s) (s_tun s) false Waiting
  | Waiting => if bool_decide (s_pumps s = (Ended, Ended))
               then with_disconnect s (s_log s) (s_mgr s) (s_errs s) Releasing else s
  | _ => s
  end.

(** The next step of Disconnect, on a connected client; none while it waits for
    the pumps. *)
Definition disconnect (s : session) : session :=
  let r := s_mgr s in
  let go p := with_disconnect s (s_log s) r (s_errs s) p in
  match s_phase s with
  | Up => if installed r then with_disconnect s (s_log s) (set_installed r false) [] (Fixed (fixed_commands r))
          else go Forgetting
  | Fixed (c :: todo) => command s c (Fixed todo)
  | Fixed [] => go (Hosts (hostBypass r))
  | Hosts (ip :: todo) => command s (host_command ip) (Hosts todo)
  | Hosts [] => go (Nets (netBypass r))
  | Nets (n :: todo) => command s (net_command n) (Nets todo)
  | Nets [] => go Clearing
  | Clearing => with_disconnect s (s_log s) (with_bypass r [] [] []) (s_errs s) Forgetting
  | Forgetting => with_client s false (s_tun s) (s_open s) Closing
  | Closing | Waiting => Close s
  | Releasing => with_client s (s_routes s) false (s_open s) Down
  | Down => s
  end.

(** What [relayDNSUDP] and [AddDynamicHostBypassBatch] do next; [answer] is
    what [forwardDNSQuery] returned for the excluded names, given with the step
    that finds the lock free. *)
Definition relay_step (s : session) (i : nat) (answer : list IP) : session :=
  let r := s_mgr s in
  let put x := with_relay s (s_log s) r (s_late s) i x in
  match s_relays s !! i with
  | None => s
  | Some Listening => if s_open s then put Querying else s
  | Some Querying =>
      if bool_decide (answer = []) || bool_decide (origGateway r = "") then put Listening
      else if busy (s_relays s) then s
      else put (Adding (v4_strings answer))
  | Some (Adding []) => put Listening
  | Some (Adding (ip :: todo)) =>
      if bool_decide (ip ∈ hostBypass r) then put (Adding todo)
      else let '(l, err) := Routes.run sys (s_log s) (add_host ip (origGateway r)) in
           with_relay s l r (s_late s) i
             (match err with None => Appending ip todo | Some _ => Adding todo end)
  | Some (Appending ip todo) =>
      with_relay s (s_log s) (with_bypass r (dnsBypass r) (hostBypass r ++ [ip]) (netBypass r))
        (if has_read (s_phase s) then s_late s ++ [ip] else s_late s) i (Adding todo)
  end.

(** A pump ends when it wakes up after the cancellation. *)
Definition pump_step (s : session) (first : bool) : session :=
  if s_open s then s
  else with_pumps s (if first then (Ended, (s_pumps s).2) else ((s_pumps s).1, Ended)).

(** [AllConnections], and the end of [Status]: the field is read twice. *)
Definition poll (s : session) (i : nat) : session :=
  match s_polls s !! i with
  | None => if s_tun s then with_polls s (<[i := true]> (s_polls s)) (s_crashed s) else s
  | Some _ => with_polls s (delete i (s_polls s)) (s_crashed s || negb (s_tun s))
  end.

Inductive event :=
| Disconnect
| Relay (i : nat) (answer : list IP)
| NewFlow (i : nat)                     (* a DNS flow of the stack *)
| Pump (first : bool)
| Poll (i : nat).

Definition step (s : session) (ev : event) : session :=
  match ev with
  | Disconnect => disconnect s
  | Relay i answer => relay_step s i answer
  | NewFlow i => match s_relays s !! i with
                 | None => if s_open s then with_relay s (s_log s) (s_mgr s) (s_late s) i Listening else s
                 | Some _ => s
                 end
  | Pump first => pump_step s first
  | Poll i => poll s i
  end.

Definition run (s : session) (evs : list event) : session := foldl step s evs.

(** Disconnect returns, by its own steps and the pumps'. *)
Definition ending (ev : event) : Prop := match ev with Disconnect | Pump _ => True | _ => False end.
Definition ends (s : session) : Prop := exists evs, Forall ending evs /\ s_phase (run s evs) = Down.
End session.

(** A session whose routes have just been installed. *)
Definition connected (r : RouteManager) (l : list (list string * bool)) : session :=
  {| s_log := l; s_mgr := r; s_errs := []; s_relays := ∅; s_pumps := (Pumping, Pumping); s_phase := Up;
     s_routes := true; s_tun := true; s_open := true; s_polls := ∅; s_crashed := false; s_late := [] |}.

(** ** Specification *)

(** The host whose route was added and which is not yet in a list. *)
Definition in_hand (x : relay) : list string :=
  match x with Appending ip _ => [ip] | _ => [] end.

Definition pending (m : gmap nat relay) : list string := map_to_list m ≫= fun kv => in_hand kv.2.

(** The routes whose deletion is still to come. *)
Definition remaining (s : session) : list (string * string) :=
  let r := s_mgr s in
  match s_phase s with
  | Up => map (pair "-net") halves ++ [("-host", endpointIP r)] ++ kept r
  | Fixed todo => omap (route_change "delete") todo.*2 ++ map (pair "-host") (hostBypass r) ++
                  map (pair "-net") (netBypass r)
  | Hosts todo => map (pair "-host") todo ++ map (pair "-net") (netBypass r)
  | Nets todo => map (pair "-net") todo
  | _ => []
  end.

Definition closed_at_end (s : session) : Prop :=
  match s_phase s with Waiting | Releasing | Down => s_open s = false | _ => True end.

(** The routes added since [l0] are those deleted, those still to be deleted,
    and those no list of Restore has. *)
Definition accounted (l0 l1 : list (list string * bool)) (s : session) : Prop :=
  match s_phase s with
  | Up => installed (s_mgr s) = true
  | Fixed todo => Forall (fun c => route_change "add" c.2 = None) todo
  | _ => True
  end /\
  exists fin, s_log s = l1 ++ fin /\
    added (s_log s) ≡ₚ added l0 ++ deleted fin ++ remaining s ++
                       map (pair "-host") (s_late s ++ pending (s_relays s)).

(** ** Lemmas *)

Lemma pending_update m i x y : m !! i = Some x ->
  in_hand x ++ pending (<[i := y]> m) ≡ₚ in_hand y ++ pending m.
Proof.
  intros Hi. unfold pending. rewrite <- (insert_delete_id m i x Hi) at 2. rewrite <- insert_delete_eq.
  rewrite !map_to_list_insert by apply lookup_delete_eq. cbn [mbind list_bind snd].
  rewrite !app_assoc. f_equiv. apply Permutation_app_comm.
Qed.

Lemma pending_new m i y : m !! i = None -> in_hand y = [] -> pending (<[i := y]> m) ≡ₚ pending m.
Proof. intros Hi Hy. unfold pending. rewrite map_to_list_insert by done. cbn [mbind list_bind snd]. by rewrite Hy. Qed.

Lemma fixed_commands_delete r :
  omap (route_change "delete") (fixed_commands r).*2 =
  map (pair "-net") halves ++ [("-host", endpointIP r)] ++ map (pair "-host") (dnsBypass r).
Proof.
  unfold fixed_commands. rewrite !fmap_app, !omap_app, omap_delete_host.
  case_bool_decide; [|done]. cbn [fmap list_fmap snd omap list_omap]. by rewrite set_dns_route.
Qed.

(** The commands of Restore, in the two orders. *)
Lemma restore_commands_parts r :
  restore_commands r = fixed_commands r ++ map host_command (hostBypass r) ++ map net_command (netBypass r).
Proof. unfold restore_commands, fixed_commands. by rewrite <- !app_assoc. Qed.

Section proofs.
Variable sys : system.

Lemma fixed_commands_add r : Forall (fun c => route_change "add" c.2 = None) (fixed_commands r).
Proof.
  unfold fixed_commands. rewrite !Forall_app. split_and!; [by repeat constructor|by repeat constructor| |].
  - case_bool_decide; [|done]. repeat constructor. apply set_dns_route.
  - apply Forall_map. by apply Forall_true.
Qed.

(** Moving on, when nothing is left out. *)
Lemma accounted_go l0 l1 s s' :
  s_log s' = s_log s -> s_relays s' = s_relays s -> s_late s' = s_late s ->
  remaining s' ≡ₚ remaining s ->
  match s_phase s' with
  | Up => installed (s_mgr s') = true
  | Fixed todo => Forall (fun c => route_change "add" c.2 = None) todo
  | _ => True
  end ->
  accounted l0 l1 s -> accounted l0 l1 s'.
Proof.
  intros El Er Elate Hrem Hok [_ (fin & Hl & Ha)]. split; [done|]. exists fin.
  by rewrite El, Er, Elate, Hrem.
Qed.

(** A command of Restore moves its route from the remaining to the deleted. *)
Lemma command_accounted l0 l1 s c p rest :
  remaining s ≡ₚ option_list (route_change "delete" c.2) ++ rest ->
  route_change "add" c.2 = None ->
  (forall t, s_phase t = p -> s_mgr t = s_mgr s -> remaining t = rest) ->
  match p with
  | Up => False
  | Fixed todo => Forall (fun c => route_change "add" c.2 = None) todo
  | _ => True
  end ->
  accounted l0 l1 s -> accounted l0 l1 (command sys s c p).
Proof.
  intros Hrem Hadd Hp Hup [_ (fin & Hl & Ha)]. unfold command, Routes.run.
  set (b := bool_decide (sys_run sys (s_log s) c.2 = None)). clearbody b.
  split; [by destruct p|]. exists (fin ++ [(c.2, b)]). rewrite (Hp (with_disconnect s _ _ _ p) eq_refl eq_refl).
  cbn [with_disconnect s_log s_relays s_late]. split; [by rewrite Hl, <- app_assoc|].
  rewrite added_app, deleted_app, Ha, Hrem.
  assert (E1 : added [(c.2, b)] = []) by (unfold added; cbn; rewrite Hadd; by destruct b).
  assert (E2 : deleted [(c.2, b)] = option_list (route_change "delete" c.2))
    by (unfold deleted; cbn; by destruct (route_change "delete" c.2)).
  rewrite E1, E2, app_nil_r, <- !app_assoc. done.
Qed.

Lemma disconnect_accounted l0 l1 s : accounted l0 l1 s -> accounted l0 l1 (disconnect sys s).
Proof.
  intros Hs. pose proof Hs as [Hok _]. unfold disconnect, Close. destruct (s_phase s) as [|todo|todo|todo| | | | | |] eqn:Ep.
  - rewrite Hok. apply (accounted_go l0 l1 s); [done..| | |exact Hs]; [|apply fixed_commands_add].
    unfold remaining. rewrite Ep. cbn [with_disconnect s_phase s_mgr]. rewrite fixed_commands_delete.
    unfold kept. by rewrite <- !app_assoc.
  - destruct todo as [|c todo].
    + apply (accounted_go l0 l1 s); [done..| |done|exact Hs]. unfold remaining. rewrite Ep. done.
    + apply Forall_cons in Hok as [Hc Htodo]. eapply command_accounted; [|done| |done|exact Hs].
      * instantiate (1 := omap (route_change "delete") todo.*2 ++ map (pair "-host") (hostBypass (s_mgr s)) ++
          map (pair "-net") (netBypass (s_mgr s))).
        unfold remaining. rewrite Ep. cbn [fmap list_fmap omap list_omap snd].
        by destruct (route_change "delete" c.2).
      * intros t Et Em. unfold remaining. by rewrite Et, Em.
  - destruct todo as [|ip todo].
    + apply (accounted_go l0 l1 s); [done..| |done|exact Hs]. unfold remaining. rewrite Ep. done.
    + apply (command_accounted l0 l1 s _ _ (map (pair "-host") todo ++ map (pair "-net") (netBypass (s_mgr s))));
        [|done| |done|exact Hs].
      * unfold remaining. by rewrite Ep.
      * intros t Et Em. unfold remaining. by rewrite Et, Em.
  - destruct todo as [|n todo].
    + apply (accounted_go l0 l1 s); [done..| |done|exact Hs]. unfold remaining. rewrite Ep. done.
    + apply (command_accounted l0 l1 s _ _ (map (pair "-net") todo)); [|done| |done|exact Hs].
      * unfold remaining. by rewrite Ep.
      * intros t Et Em. unfold remaining. by rewrite Et.
  - apply (accounted_go l0 l1 s); [done..| |done|exact Hs]. unfold remaining. by rewrite Ep.
  - apply (accounted_go l0 l1 s); [done..| |done|exact Hs]. unfold remaining. by rewrite Ep.
  - apply (accounted_go l0 l1 s); [done..| |done|exact Hs]. unfold remaining. by rewrite Ep.
  - destruct (bool_decide _); [|done]. apply (accounted_go l0 l1 s); [done..| |done|exact Hs]. unfold remaining. by rewrite Ep.
  - apply (accounted_go l0 l1 s); [done..| |done|exact Hs]. unfold remaining. by rewrite Ep.
  - done.
Qed.

(** A relay's step that touches neither the log nor the manager. *)
Lemma relay_put l0 l1 s i x y :
  s_relays s !! i = Some x -> in_hand x = in_hand y ->
  accounted l0 l1 s -> accounted l0 l1 (with_relay s (s_log s) (s_mgr s) (s_late s) i y).
Proof.
  intros Hi Hh [Hok (fin & Hl & Ha)]. split; [exact Hok|]. exists fin. split; [exact Hl|].
  pose proof (pending_update _ _ _ y Hi) as Hp. rewrite Hh in Hp. apply Permutation_app_inv_l in Hp.
  cbn [with_relay s_log s_late s_relays]. rewrite Ha, !map_app, Hp. done.
Qed.

(** A route added by a relay is in its hand. *)
Lemma relay_add_accounted l0 l1 s i ip todo :
  s_relays s !! i = Some (Adding (ip :: todo)) -> accounted l0 l1 s ->
  accounted l0 l1 (let '(l, err) := Routes.run sys (s_log s) (add_host ip (origGateway (s_mgr s))) in
    with_relay s l (s_mgr s) (s_late s) i (match err with None => Appending ip todo | Some _ => Adding todo end)).
Proof.
  intros Hi [Hok (fin & Hl & Ha)]. unfold Routes.run.
  destruct (sys_run sys (s_log s) (add_host ip (origGateway (s_mgr s)))) as [e|];
    (split; [exact Hok|]); eexists (fin ++ [(add_host ip (origGateway (s_mgr s)), _)]);
    cbn [with_relay s_log s_late s_relays]; (split; [by rewrite Hl, <- app_assoc|]);
    rewrite added_app, deleted_app.
  - pose proof (pending_update _ _ _ (Adding todo) Hi) as Hp. cbn in Hp.
    cbn [added deleted omap list_omap fst snd]. rewrite !app_nil_r, Ha, !map_app, Hp. done.
  - pose proof (pending_update _ _ _ (Appending ip todo) Hi) as Hp. cbn in Hp.
    change (added [(add_host ip _, _)]) with [("-host", ip)].
    change (deleted [(add_host ip _, _)]) with (@nil (string * string)).
    rewrite app_nil_r, Ha, !map_app, Hp. cbn [map].
    rewrite <- !app_assoc. do 3 f_equiv. change (remaining (with_relay _ _ _ _ _ _)) with (remaining s).
    f_equiv. f_equiv. apply Permutation_app_comm.
Qed.

(** The append puts it into the list that Restore will read, or leaves it. *)
Lemma relay_append_accounted l0 l1 s i ip todo :
  s_relays s !! i = Some (Appending ip todo) -> accounted l0 l1 s ->
  let r := s_mgr s in
  accounted l0 l1 (with_relay s (s_log s) (with_bypass r (dnsBypass r) (hostBypass r ++ [ip]) (netBypass r))
    (if has_read (s_phase s) then s_late s ++ [ip] else s_late s) i (Adding todo)).
Proof.
  intros Hi [Hok (fin & Hl & Ha)]. cbn zeta.
  pose proof (pending_update _ _ _ (Adding todo) Hi) as Hp. cbn in Hp.
  split; [cbn [with_relay s_phase s_mgr]; by destruct (s_phase s)|]. exists fin. split; [exact Hl|].
  cbn [with_relay s_log s_late s_relays]. rewrite Ha. f_equiv. f_equiv.
  unfold remaining. cbn [with_relay s_phase s_mgr].
  destruct (s_phase s); cbn [has_read]; cbn [with_bypass endpointIP hostBypass netBypass];
    unfold kept; cbn [with_bypass dnsBypass hostBypass netBypass];
    rewrite ?map_app, <- Hp; cbn [map]; solve_Permutation.
Qed.

Lemma relay_accounted l0 l1 s i answer : accounted l0 l1 s -> accounted l0 l1 (relay_step sys s i answer).
Proof.
  intros Hs. unfold relay_step. destruct (s_relays s !! i) as [[| |[|ip todo]|ip todo]|] eqn:Ei; [..|done].
  - destruct (s_open s); [|done]. by eapply relay_put.
  - destruct (_ || _); [by eapply relay_put|]. destruct (busy _); [done|]. by eapply relay_put.
  - by eapply relay_put.
  - case_bool_decide; [by eapply relay_put|]. by apply relay_add_accounted.
  - by apply relay_append_accounted.
Qed.

Lemma step_accounted l0 l1 s ev : accounted l0 l1 s -> accounted l0 l1 (step sys s ev).
Proof.
  intros Hs. destruct ev as [|i answer|i|first|i]; cbn [step].
  - by apply disconnect_accounted.
  - by apply relay_accounted.
  - destruct (s_relays s !! i) eqn:Ei; [done|]. destruct (s_open s); [|done].
    destruct Hs as [Hok (fin & Hl & Ha)]. split; [exact Hok|]. exists fin. split; [exact Hl|].
    cbn [with_relay s_log s_late s_relays]. rewrite Ha, !map_app, pending_new by done. done.
  - unfold pump_step. by destruct (s_open s).
  - unfold poll. destruct (s_polls s !! i); [done|]. by destruct (s_tun s).
Qed.

Lemma run_accounted l0 l1 s evs : accounted l0 l1 s -> accounted l0 l1 (run sys s evs).
Proof.
  intros Hs. unfold run. revert s Hs. induction evs as [|ev evs IH]; intros s Hs; [done|].
  cbn. apply IH. by apply step_accounted.
Qed.

(** ** Disconnect alone *)

Definition alone (n : nat) (s : session) : session := Nat.iter n (disconnect sys) s.

Lemma alone_S n s : alone (S n) s = alone n (disconnect sys s).
Proof. apply Nat.iter_succ_r. Qed.

Lemma alone_add n m s : alone (n + m) s = alone m (alone n s).
Proof. unfold alone. rewrite Nat.add_comm. apply Nat.iter_add. Qed.

(** A list of commands, run one step at a time. *)
Lemma alone_commands {A} (c : A -> string * list string) (p : list A -> teardown) todo s :
  (forall x todo s, s_phase s = p (x :: todo) -> disconnect sys s = command sys s (c x) (p todo)) ->
  s_phase s = p todo ->
  alone (length todo) s =
  with_disconnect s (run_all sys (map c todo) (s_log s)).1 (s_mgr s)
    (s_errs s ++ (run_all sys (map c todo) (s_log s)).2) (p []).
Proof.
  intros Hstep. revert s. induction todo as [|x todo IH]; intros s Hp.
  - cbn. rewrite app_nil_r. destruct s. cbn in *. by subst.
  - cbn [length]. rewrite alone_S, (Hstep x todo s Hp).
    unfold command. cbn [map run_all]. destruct (c x) as [what cmd] eqn:Ec. cbn [fst snd].
    destruct (Routes.run sys (s_log s) cmd) as [l err] eqn:Er. rewrite IH by done.
    cbn [with_disconnect s_log s_mgr s_errs].
    destruct (run_all sys (map c todo) l) as [l' errs]. cbn [fst snd].
    unfold with_disconnect. cbn. f_equal. rewrite <- app_assoc. by destruct err.
Qed.

Lemma run_all_app cmds cmds' l :
  run_all sys (cmds ++ cmds') l =
  let '(l, errs) := run_all sys cmds l in
  let '(l, errs') := run_all sys cmds' l in (l, errs ++ errs').
Proof.
  revert l. induction cmds as [|[what cmd] cmds IH]; intros l; cbn [app run_all].
  { by destruct (run_all sys cmds' l). }
  destruct (Routes.run sys l cmd) as [l1 err]. rewrite IH.
  destruct (run_all sys cmds l1) as [l2 errs]. destruct (run_all sys cmds' l2) as [l3 errs'].
  by destruct err.
Qed.

(** The same, with the step to what [next] reads. *)
Lemma alone_range {A} (c : A -> string * list string) (p : list A -> teardown) (next : RouteManager -> teardown)
    todo s l r errs :
  (forall x todo s, s_phase s = p (x :: todo) -> disconnect sys s = command sys s (c x) (p todo)) ->
  (forall s l r errs, disconnect sys (with_disconnect s l r errs (p [])) = with_disconnect s l r errs (next r)) ->
  alone (length todo + 1) (with_disconnect s l r errs (p todo)) =
  with_disconnect s (run_all sys (map c todo) l).1 r (errs ++ (run_all sys (map c todo) l).2) (next r).
Proof.
  intros Hc Hn. rewrite alone_add, (alone_commands c p todo) by done.
  change (alone 1 ?x) with (disconnect sys x). by rewrite Hn.
Qed.

(** Restore, as Disconnect runs it when nothing else does. *)
Lemma restore_alone s :
  s_phase s = Up -> installed (s_mgr s) = true ->
  exists n, let s' := alone n s in
    s_phase s' = Forgetting /\
    Restore sys (s_mgr s) (s_log s) =
    (s_mgr s', s_log s', match s_errs s' with [] => None | errs => Some ("restore routes: " +:+ Join "; " errs) end).
Proof.
  intros Hp Hi. set (r := s_mgr s). fold r in Hi.
  exists (1 + ((length (fixed_commands r) + 1) + ((length (hostBypass r) + 1) + ((length (netBypass r) + 1) + 1))))%nat.
  cbn zeta. rewrite (alone_add 1).
  assert (E1 : alone 1 s = with_disconnect s (s_log s) (set_installed r false) [] (Fixed (fixed_commands r)))
    by (cbn; unfold disconnect, Close; rewrite Hp; fold r; by rewrite Hi).
  rewrite E1, (alone_add (length (fixed_commands r) + 1)).
  rewrite (alone_range (fun c => c) Fixed (fun r => Hosts (hostBypass r)));
    [|intros x todo t Ht; unfold disconnect, Close; by rewrite Ht|done].
  rewrite (alone_add (length (hostBypass r) + 1)).
  rewrite (alone_range host_command Hosts (fun r => Nets (netBypass r)) (hostBypass r));
    [|intros x todo t Ht; unfold disconnect, Close; by rewrite Ht|done].
  rewrite (alone_add (length (netBypass r) + 1)).
  rewrite (alone_range net_command Nets (fun _ => Clearing) (netBypass r));
    [|intros x todo t Ht; unfold disconnect, Close; by rewrite Ht|done].
  unfold Restore. rewrite Hi. cbn [negb]. rewrite restore_commands_parts, run_all_app, map_id.
  destruct (run_all sys (fixed_commands r) (s_log s)) as [l1 e1]. cbn [fst snd]. rewrite run_all_app.
  destruct (run_all sys (map host_command (hostBypass r)) l1) as [l2 e2]. cbn [fst snd].
  destruct (run_all sys (map net_command (netBypass r)) l2) as [l3 e3]. cbn [fst snd app].
  rewrite app_assoc. split; [done|]. by destruct ((e1 ++ e2) ++ e3).
Qed.

(** ** It ends *)

Lemma ends_later s evs : Forall ending evs -> ends sys (run sys s evs) -> ends sys s.
Proof.
  intros He (evs' & He' & Hd). exists (evs ++ evs'). split; [by apply Forall_app|].
  unfold run in *. by rewrite foldl_app.
Qed.

Lemma alone_run n s : alone n s = run sys s (repeat Disconnect n).
Proof. revert s. induction n as [|n IH]; intros s; [done|]. by rewrite alone_S, IH. Qed.

(** The device is closed once Close has started to wait. *)
Lemma disconnect_closed s : closed_at_end s -> closed_at_end (disconnect sys s).
Proof.
  unfold closed_at_end, disconnect, Close. intros Hc.
  destruct (s_phase s) as [|[|c todo]|[|ip todo]|[|n todo]| | | | | |] eqn:Ep; cbn; try done.
  - by destruct (installed (s_mgr s)).
  - destruct (bool_decide _); cbn; [done|]. by rewrite Ep.
  - by rewrite Ep.
Qed.

Lemma relay_step_closed s i answer : closed_at_end s -> closed_at_end (relay_step sys s i answer).
Proof.
  unfold relay_step. intros Hc.
  destruct (s_relays s !! i) as [[| |[|ip todo]|ip todo]|]; try done.
  - by destruct (s_open s).
  - destruct (_ || _); [done|]. by destruct (busy _).
  - case_bool_decide; [done|]. by destruct (Routes.run sys (s_log s) _).
Qed.

Lemma step_closed s ev : closed_at_end s -> closed_at_end (step sys s ev).
Proof.
  intros Hc. destruct ev as [|i answer|i|first|i]; cbn [step].
  - by apply disconnect_closed.
  - by apply relay_step_closed.
  - destruct (s_relays s !! i); [done|]. by destruct (s_open s).
  - unfold pump_step. by destruct (s_open s).
  - unfold poll. destruct (s_polls s !! i); [done|]. by destruct (s_tun s).
Qed.

Lemma run_closed s evs : closed_at_end s -> closed_at_end (run sys s evs).
Proof.
  unfold run. revert s. induction evs as [|ev evs IH]; intros s Hc; [done|]. cbn. apply IH. by apply step_closed.
Qed.


Lemma ends_step s ev : ending ev -> ends sys (step sys s ev) -> ends sys s.
Proof. intros He. apply (ends_later s [ev]). by constructor. Qed.

(** The step of Disconnect from a phase to the next. *)
Lemma ends_phase (p : teardown) s :
  closed_at_end s -> s_phase (disconnect sys s) = p ->
  (forall s, closed_at_end s -> s_phase s = p -> ends sys s) -> ends sys s.
Proof. intros Hc Hp Hn. apply (ends_step s Disconnect I), Hn; [by apply disconnect_closed|done]. Qed.

Lemma ends_list {A} (p : list A -> teardown) :
  (forall x todo s, s_phase s = p (x :: todo) -> s_phase (disconnect sys s) = p todo) ->
  (forall s, closed_at_end s -> s_phase s = p [] -> ends sys s) ->
  forall todo s, closed_at_end s -> s_phase s = p todo -> ends sys s.
Proof.
  intros Hc Hn. induction todo as [|x todo IH]; intros s Hs Hp; [by apply Hn|].
  by apply (ends_phase (p todo)); [|by eapply Hc|].
Qed.

Lemma ends_releasing s : closed_at_end s -> s_phase s = Releasing -> ends sys s.
Proof.
  intros Hc Hp. exists [Disconnect]. split; [by repeat constructor|]. cbn. unfold disconnect, Close. by rewrite Hp.
Qed.

Lemma ends_waiting s : closed_at_end s -> s_phase s = Waiting -> ends sys s.
Proof.
  intros Hc Hp. pose proof Hc as Ho. unfold closed_at_end in Ho. rewrite Hp in Ho.
  apply (ends_step s (Pump true) I), (ends_step _ (Pump false) I). cbn [step]. unfold pump_step at 2. rewrite Ho.
  unfold pump_step. cbn [with_pumps s_open s_pumps fst snd]. rewrite Ho.
  apply (ends_phase Releasing); [|unfold disconnect, Close; cbn; by rewrite Hp|exact ends_releasing].
  unfold closed_at_end. cbn. by rewrite Hp.
Qed.

Lemma ends_forgetting s : closed_at_end s -> s_phase s = Forgetting -> ends sys s.
Proof.
  intros Hc Hp. apply (ends_phase Closing); [done|unfold disconnect, Close; by rewrite Hp|]. clear s Hc Hp. intros s Hc Hp.
  apply (ends_phase Waiting); [done|unfold disconnect, Close; by rewrite Hp|exact ends_waiting].
Qed.

Lemma command_phase s c p : s_phase (command sys s c p) = p.
Proof. unfold command. by destruct (Routes.run sys (s_log s) c.2). Qed.

Lemma ends_clearing s : closed_at_end s -> s_phase s = Clearing -> ends sys s.
Proof. intros Hc Hp. apply (ends_phase Forgetting); [done|unfold disconnect, Close; by rewrite Hp|exact ends_forgetting]. Qed.

Lemma ends_nets todo s : closed_at_end s -> s_phase s = Nets todo -> ends sys s.
Proof.
  revert todo s. refine (ends_list Nets _ _).
  - intros c todo s Hp. unfold disconnect, Close. rewrite Hp. apply command_phase.
  - intros s Hc Hp. apply (ends_phase Clearing); [done|unfold disconnect, Close; by rewrite Hp|exact ends_clearing].
Qed.

Lemma ends_hosts todo s : closed_at_end s -> s_phase s = Hosts todo -> ends sys s.
Proof.
  revert todo s. refine (ends_list Hosts _ _).
  - intros c todo s Hp. unfold disconnect, Close. rewrite Hp. apply command_phase.
  - intros s Hc Hp. eapply ends_phase; [done|unfold disconnect, Close; by rewrite Hp|exact (ends_nets _)].
Qed.

Lemma ends_fixed todo s : closed_at_end s -> s_phase s = Fixed todo -> ends sys s.
Proof.
  revert todo s. refine (ends_list Fixed _ _).
  - intros c todo s Hp. unfold disconnect, Close. rewrite Hp. apply command_phase.
  - intros s Hc Hp. eapply ends_phase; [done|unfold disconnect, Close; by rewrite Hp|exact (ends_hosts _)].
Qed.

Lemma ends_always s : closed_at_end s -> ends sys s.
Proof.
  intros Hc. destruct (s_phase s) as [|todo|todo|todo| | | | | |] eqn:Ep.
  - destruct (installed (s_mgr s)) eqn:Ei.
    + eapply ends_phase; [done|unfold disconnect, Close; by rewrite Ep, Ei|exact (ends_fixed _)].
    + apply (ends_phase Forgetting); [done|unfold disconnect, Close; by rewrite Ep, Ei|exact ends_forgetting].
  - by eapply ends_fixed.
  - by eapply ends_hosts.
  - by eapply ends_nets.
  - by apply ends_clearing.
  - by apply ends_forgetting.
  - apply (ends_phase Waiting); [done|unfold disconnect, Close; by rewrite Ep|exact ends_waiting].
  - by apply ends_waiting.
  - by apply ends_releasing.
  - by exists [].
Qed.
End proofs.

(** ** Properties *)

(** C22: what a Disconnect leaves behind. After an installation by a fresh
    manager, and however Disconnect, the DNS relays, the pumps and the polls
    interleave: the routes added are those that were there, those Disconnect has
    asked to delete, those it still has to, and those of DNS answers that came
    while Restore ran or after it, which nothing will delete; when it has
    returned, only these are left. And it can always return, by its own
    steps and the pumps', whatever the relays do. *)
Theorem teardown_leaves_late (sys : system) (r r1 : RouteManager) (l l1 : list (list string * bool))
  (evs : list event)
  (Hfresh : installed r = false) (Hnone : kept r = []) (Hin : Install sys r l = (r1, l1, None)) :
  let s := run sys (connected r1 l1) evs in
  (exists fin, s_log s = l1 ++ fin /\
     added (s_log s) ≡ₚ added l ++ deleted fin ++ remaining s ++
                        map (pair "-host") (s_late s ++ pending (s_relays s))) /\
  (s_phase s = Down -> remaining s = []) /\
  ends sys s.
Proof.
  pose proof (Install_spec sys r l Hfresh Hnone) as H. rewrite Hin in H. destruct H as (Ha & Hi & He & Ht).
  cbn zeta. split_and!.
  - refine (proj2 (run_accounted sys l l1 _ evs _)). split; [exact Hi|]. exists []. rewrite app_nil_r.
    split; [done|]. cbn [connected s_log]. rewrite Ha. unfold remaining. cbn [connected s_phase s_mgr s_relays].
    by rewrite He, app_nil_r.
  - intros Hp. unfold remaining. by rewrite Hp.
  - apply ends_always, run_closed. done.
Qed.

(** Disconnect step by step is Disconnect. When nothing else runs, the
    steps of Restore lead to the log, the manager and the error of the whole. *)
Theorem teardown_alone (sys : system) (s : session) (Hp : s_phase s = Up) (Hi : installed (s_mgr s) = true) :
  exists n, let s' := run sys s (repeat Disconnect n) in
    s_phase s' = Forgetting /\
    Restore sys (s_mgr s) (s_log s) =
    (s_mgr s', s_log s', match s_errs s' with [] => None | errs => Some ("restore routes: " +:+ Join "; " errs) end).
Proof.
  destruct (restore_alone sys s Hp Hi) as [n Hn]. exists n. by rewrite alone_run in Hn.
Qed.

(** The order a lock in [AllConnections] and [Status] would give. *)
Fixpoint locked (sys : system) (s : session) (evs : list event) : Prop :=
  match evs with
  | [] => True
  | ev :: evs => (ev = Disconnect -> s_phase s = Releasing -> s_polls s = ∅) /\ locked sys (step sys s ev) evs
  end.

(** The polls and the device. When no poll is between its two reads of the
    device as Disconnect clears it, no interleaving crashes the program. *)
Theorem polls_locked (sys : system) (r : RouteManager) (l : list (list string * bool)) (evs : list event)
  (Hlock : locked sys (connected r l) evs) : s_crashed (run sys (connected r l) evs) = false.
Proof.
  assert (H : forall evs s, s_crashed s = false /\ (s_tun s = false -> s_polls s = ∅) -> locked sys s evs ->
    s_crashed (run sys s evs) = false); [|by apply H].
  clear. induction evs as [|ev evs IH]; intros s [Hc Ht] Hl; [exact Hc|]. destruct Hl as [Hev Hl].
  cbn. apply IH; [|done]. clear Hl IH. destruct ev as [|i answer|i|first|i]; cbn [step].
  - specialize (Hev eq_refl). unfold disconnect, Close.
    destruct (s_phase s) as [|[|c todo]|[|ip todo]|[|n todo]| | | | | |]; auto;
      try (unfold command; by destruct (Routes.run sys (s_log s) _)).
    + by destruct (installed (s_mgr s)).
    + by destruct (bool_decide _).
  - unfold relay_step. destruct (s_relays s !! i) as [[| |[|ip todo]|ip todo]|]; try done.
    + by destruct (s_open s).
    + destruct (_ || _); [done|]. by destruct (busy _).
    + case_bool_decide; [done|]. by destruct (Routes.run sys (s_log s) _).
  - destruct (s_relays s !! i); [done|]. by destruct (s_open s).
  - unfold pump_step. by destruct (s_open s).
  - unfold poll. destruct (s_polls s !! i) eqn:Ei.
    + destruct (s_tun s) eqn:Et; [cbn; by rewrite Hc, Et|]. rewrite (Ht eq_refl) in Ei. done.
    + destruct (s_tun s) eqn:Et; [cbn; by rewrite Et|by split; auto].
Qed.

(** ** Witnesses *)

Definition ex_late : list IP := [[mkbyte 203; mkbyte 0; mkbyte 113; mkbyte 5]].

(** A DNS answer comes while Restore runs. *)
Definition ex_teardown : list event :=
  [NewFlow 0; Relay 0 []; Disconnect; Disconnect; Relay 0 ex_late] ++ repeat Disconnect 13 ++
  [Pump true; Pump false; Disconnect; Disconnect; Relay 0 []; Relay 0 []; Relay 0 []].

Lemma teardown_leaves_late_witness :
  let s := run (ex_sys []) (connected ex_installed.1 ex_installed.2) ex_teardown in
  s_phase s = Down /\
  exists fin, added (s_log s) ≡ₚ deleted fin ++ [("-host", "203.0.113.5")].
Proof.
  cbn zeta. split; [vm_compute; reflexivity|].
  destruct (teardown_leaves_late (ex_sys []) ex_manager ex_installed.1 [] ex_installed.2 ex_teardown)
    as ((fin & Hl & Ha) & Hd & _); [vm_compute; reflexivity..|].
  exists fin. rewrite Hd in Ha by (vm_compute; reflexivity). exact Ha.
Defined.

Lemma teardown_alone_witness :
  exists n, s_phase (run (ex_sys []) (connected ex_installed.1 ex_installed.2) (repeat Disconnect n)) = Forgetting.
Proof.
  destruct (teardown_alone (ex_sys []) (connected ex_installed.1 ex_installed.2)) as (n & Hn & _);
    [vm_compute; reflexivity..|]. by exists n.
Defined.

(** A poll that found the device uses it after the last step of Disconnect. *)
Definition ex_poll : list event := repeat Disconnect 15 ++ [Pump true; Pump false; Disconnect].

Lemma polls_locked_witness :
  s_crashed (run (ex_sys []) (connected ex_installed.1 ex_installed.2) (Poll 0 :: Poll 0 :: ex_poll ++ [Disconnect; Poll 0])) = false.
Proof. apply polls_locked. vm_compute. repeat split; discriminate. Defined.

Example poll_unlocked :
  s_crashed (run (ex_sys []) (connected ex_installed.1 ex_installed.2) (ex_poll ++ [Poll 0; Disconnect; Poll 0])) = true.
Proof. vm_compute. reflexivity. Qed.
