(* ===== verification/ClientCore.v ===== *)
(** internal/client/client.go, with the opening of the TUN device of tun.go: the
    life cycle of the client's connection, over its dialer, TUN device and route
    manager. *)
From S2P Require Import Prelude GoStrings GoNet.
From S2P Require Dialer Tun Routes.
#[local] Open Scope Z_scope.

Inductive State := StateDisconnected | StateConnecting | StateConnected | StateError.
#[export] Instance State_eq_dec : EqDecision State.
Proof. solve_decision. Defined.

Definition state_text (s : State) : string :=
  match s with
  | StateDisconnected => "disconnected"
  | StateConnecting => "connecting"
  | StateConnected => "connected"
  | StateError => "error"
  end.

(** The world outside: the commands run, and the TUN devices opened and not
    closed. *)
Record world := { w_log : list (list string * bool); w_tuns : nat }.

(** What the outside answers while the client works: the network, the system,
    the outcomes of creating and closing a TUN device, the clock in seconds. *)
Record outside (Pool : Type) := {
  o_pem : string -> option Pool;
  o_net : Dialer.network Pool;
  o_sys : Routes.system;
  o_create : option string;
  o_name : res string;
  o_nic : option string;
  o_addr4 : option string;
  o_addr6 : option string;
  o_tun_close : option string;
  o_now : Z;
}.
Arguments o_pem {Pool} _ _.
Arguments o_net {Pool} _.
Arguments o_sys {Pool} _.
Arguments o_create {Pool} _.
Arguments o_name {Pool} _.
Arguments o_nic {Pool} _.
Arguments o_addr4 {Pool} _.
Arguments o_addr6 {Pool} _.
Arguments o_tun_close {Pool} _.
Arguments o_now {Pool} _.

Definition opened (w : world) : world := {| w_log := w_log w; w_tuns := S (w_tuns w) |}.
Definition closed (w : world) : world := {| w_log := w_log w; w_tuns := pred (w_tuns w) |}.

Section client.
Context {Pool : Type}.

Record Client := {
  c_state : State;
  c_errStr : string;
  c_openedAt : Z;
  c_dialer : option (Dialer.Dialer Pool);
  c_tun : option Tun.TunDevice;
  c_routes : option Routes.RouteManager;
  c_stats : Dialer.Stats;
  c_cfg : Dialer.Config;
}.

Definition no_config : Dialer.Config :=
  {| Dialer.Endpoint := ""; Dialer.Hostname := ""; Dialer.Username := ""; Dialer.Password := "";
     Dialer.Insecure := false; Dialer.PinnedCertPEM := ""; Dialer.Exclusions := [];
     Dialer.EnableAdBlock := false; Dialer.UpstreamDNS := ""; Dialer.RoutingMode := "" |}.

Definition New : Client :=
  {| c_state := StateDisconnected; c_errStr := ""; c_openedAt := 0; c_dialer := None; c_tun := None;
     c_routes := None; c_stats := Dialer.zero_stats; c_cfg := no_config |}.

Definition setState (c : Client) (s : State) (msg : string) : Client :=
  {| c_state := s; c_errStr := msg; c_openedAt := c_openedAt c; c_dialer := c_dialer c; c_tun := c_tun c;
     c_routes := c_routes c; c_stats := c_stats c; c_cfg := c_cfg c |}.

Definition set_stats (c : Client) (s : Dialer.Stats) : Client :=
  {| c_state := c_state c; c_errStr := c_errStr c; c_openedAt := c_openedAt c; c_dialer := c_dialer c;
     c_tun := c_tun c; c_routes := c_routes c; c_stats := s; c_cfg := c_cfg c |}.

Definition set_cfg (c : Client) (cfg : Dialer.Config) : Client :=
  {| c_state := c_state c; c_errStr := c_errStr c; c_openedAt := c_openedAt c; c_dialer := c_dialer c;
     c_tun := c_tun c; c_routes := c_routes c; c_stats := c_stats c; c_cfg := cfg |}.

(** [add] is AddProtocolAddress of the stack, for an address and a prefix. *)
Definition assignAddress (parse : string -> res (list byte)) (v4 : bool) (ip : string)
    (add : list byte -> Z -> option string) : option string :=
  match parse ip with
  | Err e => Some ("parse " +:+ ip +:+ ": " +:+ e)
  | Ok addr => match add addr (if v4 then 32 else 128) with
               | Some e => Some ("add address " +:+ ip +:+ ": " +:+ e)
               | None => None
               end
  end.

Definition tunIPv4 : string := "10.99.0.2".
Definition tunIPv6 : string := "fdfd:1234::2".
Definition parse_addr (s : string) : res (list byte) :=
  match ParseAddr s with Some a => Ok a | None => Err "unable to parse IP" end.

(** [OpenTUN]: a step that fails closes the device it had created. *)
Definition OpenTUN (w : world) (o : outside Pool) : world * res Tun.TunDevice :=
  match o_create o with
  | Some e => (w, Err ("create tun: " +:+ e))
  | None =>
      let w := opened w in
      match o_name o with
      | Err e => (closed w, Err ("get tun name: " +:+ e))
      | Ok name =>
          match o_nic o with
          | Some e => (closed w, Err ("create nic: " +:+ e))
          | None =>
              match assignAddress parse_addr true tunIPv4 (fun _ _ => o_addr4 o) with
              | Some e => (closed w, Err e)
              | None =>
                  match assignAddress parse_addr false tunIPv6 (fun _ _ => o_addr6 o) with
                  | Some e => (closed w, Err e)
                  | None => (w, Ok (Tun.new_device name))
                  end
              end
          end
      end
  end.

(** The settings [Connect] makes on a fresh device. *)
Definition configure (cfg : Dialer.Config) (t : Tun.TunDevice) : Tun.TunDevice :=
  let t := if Dialer.EnableAdBlock cfg then Tun.SetAdBlocker t Tun.NewAdBlocker else t in
  let t := if bool_decide (Dialer.UpstreamDNS cfg <> "") then Tun.SetUpstreamDNS t (Dialer.UpstreamDNS cfg)
           else t in
  Tun.SetDNSBypass t (Dialer.Exclusions cfg).

Definition Connect (c : Client) (w : world) (o : outside Pool) (cfg : Dialer.Config)
  : Client * world * option string :=
  if bool_decide (c_state c = StateConnected) || bool_decide (c_state c = StateConnecting)
  then (c, w, Some ("already " +:+ state_text (c_state c)))
  else
    let c := set_cfg (setState c StateConnecting "") cfg in
    match Dialer.NewDialer (o_pem o) cfg with
    | Err e => (setState c StateError e, w, Some e)
    | Ok dialer =>
        let '(s, auth) := Dialer.CheckAuth dialer (o_net o) (c_stats c) in
        let c := set_stats c s in
        match auth with
        | Err e => (setState c StateError ("auth: " +:+ e), w, Some e)
        | Ok _ =>
            let '(w, dev) := OpenTUN w o in
            match dev with
            | Err e => (setState c StateError ("tun: " +:+ e), w, Some e)
            | Ok dev =>
                match Routes.NewRouteManager (o_sys o) (Tun.name dev) (Dialer.Endpoint cfg)
                        (Dialer.Exclusions cfg) with
                | Err e => (setState c StateError ("routes: " +:+ e), closed w, Some e)
                | Ok routes =>
                    let dev := configure cfg dev in
                    let '(routes, l, err) := Routes.Install (o_sys o) routes (w_log w) in
                    let w := {| w_log := l; w_tuns := w_tuns w |} in
                    match err with
                    | Some e => (setState c StateError ("routes install: " +:+ e), closed w, Some e)
                    | None =>
                        (setState {| c_state := c_state c; c_errStr := c_errStr c; c_openedAt := o_now o;
                                     c_dialer := Some dialer; c_tun := Some dev; c_routes := Some routes;
                                     c_stats := c_stats c; c_cfg := c_cfg c |} StateConnected "", w, None)
                    end
                end
            end
        end
    end.

Definition reset_stats (s : Dialer.Stats) : Dialer.Stats :=
  {| Dialer.BytesIn := 0; Dialer.BytesOut := 0; Dialer.Tunnels := 0;
     Dialer.OpenedAt := Dialer.OpenedAt s; Dialer.ActiveConn := 0 |}.

(** [fmt]'s print of a list of strings. *)
Definition fmt_list (l : list string) : string := "[" +:+ Join " " l +:+ "]".

Definition Disconnect (c : Client) (w : world) (o : outside Pool) : Client * world * option string :=
  if bool_decide (c_state c = StateDisconnected) then (c, w, None)
  else
    let '(w, errs) :=
      match c_routes c with
      | Some r =>
          let '(_, l, err) := Routes.Restore (o_sys o) r (w_log w) in
          ({| w_log := l; w_tuns := w_tuns w |},
           match err with Some e => ["routes: " +:+ e] | None => [] end)
      | None => (w, [])
      end in
    let '(w, errs) :=
      match c_tun c with
      | Some _ => (closed w, errs ++ match o_tun_close o with Some e => ["tun: " +:+ e] | None => [] end)
      | None => (w, errs)
      end in
    ({| c_state := StateDisconnected; c_errStr := ""; c_openedAt := 0; c_dialer := None; c_tun := None;
        c_routes := None; c_stats := reset_stats (c_stats c); c_cfg := c_cfg c |}, w,
     match errs with [] => None | _ => Some ("disconnect errors: " +:+ fmt_list errs) end).

(** ** What the UI sees *)

Record Snapshot := {
  s_State : State;
  s_Error : string;
  s_TunName : string;
  s_Endpoint : string;
  s_BytesIn : Z;
  s_BytesOut : Z;
  s_Tunnels : Z;
  s_ActiveConn : Z;
  s_UptimeSec : Z;
}.

Definition Status (c : Client) (now : Z) : Snapshot :=
  {| s_State := c_state c; s_Error := c_errStr c;
     s_TunName := match c_tun c with Some t => Tun.name t | None => "" end;
     s_Endpoint := Dialer.Endpoint (c_cfg c);
     s_BytesIn := Dialer.BytesIn (c_stats c); s_BytesOut := Dialer.BytesOut (c_stats c);
     s_Tunnels := Dialer.Tunnels (c_stats c); s_ActiveConn := Dialer.ActiveConn (c_stats c);
     s_UptimeSec := if 0 <? c_openedAt c then now - c_openedAt c else 0 |}.

Definition AllConnections (c : Client) : list Tun.ConnEntry :=
  match c_tun c with Some t => Tun.AllConns t | None => [] end.

(** ** Histories *)

(** [EvBypass] is the DNS relay handing addresses to the route manager;
    [EvTunnels] is the tunnels at work on the counters they share, whenever. *)
Inductive event :=
| EvConnect (o : outside Pool) (cfg : Dialer.Config)
| EvDisconnect (o : outside Pool)
| EvBypass (sys : Routes.system) (ips : list IP)
| EvTunnels (s : Dialer.Stats).

Definition bypass (c : Client) (w : world) (sys : Routes.system) (ips : list IP) : Client * world :=
  match c_routes c with
  | None => (c, w)
  | Some r =>
      let '(r, l) := Routes.AddDynamicHostBypassBatch sys r (w_log w) ips in
      ({| c_state := c_state c; c_errStr := c_errStr c; c_openedAt := c_openedAt c; c_dialer := c_dialer c;
          c_tun := c_tun c; c_routes := Some r; c_stats := c_stats c; c_cfg := c_cfg c |},
       {| w_log := l; w_tuns := w_tuns w |})
  end.

Definition step (cw : Client * world) (ev : event) : Client * world :=
  match ev with
  | EvConnect o cfg => let '(c, w, _) := Connect cw.1 cw.2 o cfg in (c, w)
  | EvDisconnect o => let '(c, w, _) := Disconnect cw.1 cw.2 o in (c, w)
  | EvBypass sys ips => bypass cw.1 cw.2 sys ips
  | EvTunnels s => (set_stats cw.1 s, cw.2)
  end.

Definition run (evs : list event) (cw : Client * world) : Client * world := foldl step cw evs.

Definition fresh_world : world := {| w_log := []; w_tuns := 0 |}.

(** Between calls the client is connected with all its parts, or holds none. *)
Definition consistent (cw : Client * world) : Prop :=
  let '(c, w) := cw in
  (c_state c = StateConnected /\ w_tuns w = 1%nat /\ is_Some (c_dialer c) /\ is_Some (c_tun c) /\
     exists r, c_routes c = Some r /\ Routes.installed r = true) \/
  ((c_state c = StateDisconnected \/ c_state c = StateError) /\ w_tuns w = 0%nat /\
     c_dialer c = None /\ c_tun c = None /\ c_routes c = None).
End client.
Arguments Client : clear implicits.
Arguments event : clear implicits.

(** ** Lemmas *)

Lemma dynamic_installed sys r l ips :
  Routes.installed (Routes.AddDynamicHostBypassBatch sys r l ips).1 = Routes.installed r.
Proof.
  unfold Routes.AddDynamicHostBypassBatch. destruct (_ || _); [done|].
  change (Routes.installed r) with (Routes.installed (r, l).1).
  generalize (r, l) as rl. induction (Routes.v4_strings ips) as [|ip ipl IH]; intros rl; cbn [foldl]; [done|].
  rewrite IH. case_bool_decide; [done|]. destruct rl as [r' l']. unfold Routes.bypass_host.
  by destruct (Routes.run sys l' _) as [l'' [e|]].
Qed.

Lemma OpenTUN_spec {Pool} w (o : outside Pool) :
  let '(w', dev) := OpenTUN w o in
  w_log w' = w_log w /\
  match dev with
  | Ok t => w' = opened w /\ exists n, o_name o = Ok n /\ t = Tun.new_device n
  | Err _ => w_tuns w' = w_tuns w
  end.
Proof.
  unfold OpenTUN. destruct (o_create o); [done|]. destruct (o_name o) as [n|]; [|done].
  destruct (o_nic o); [done|]. do 2 (destruct (assignAddress _ _ _ _); [done|]). eauto.
Qed.

Lemma NewRouteManager_spec sys tun ep excl r :
  Routes.NewRouteManager sys tun ep excl = Ok r ->
  Routes.installed r = false /\ Routes.kept r = [] /\ Routes.tunName r = tun.
Proof.
  unfold Routes.NewRouteManager. destruct (SplitHostPort ep) as [[host port]|]; [|done]. cbn.
  destruct (Routes.sys_LookupIP sys host) as [ips|]; [|done]. cbn.
  destruct (omap To4 ips); [done|]. by intros [= <-].
Qed.

(** Everything [Connect] can do. *)
Lemma Connect_cases {Pool} (c : Client Pool) w o cfg :
  let '(c', w', err) := Connect c w o cfg in
  (c' = c /\ w' = w /\ is_Some err /\ (c_state c = StateConnected \/ c_state c = StateConnecting)) \/
  (c_state c <> StateConnected /\ c_state c <> StateConnecting /\
   match err with
   | Some e => c_state c' = StateError /\ w_tuns w' = w_tuns w /\
       c_dialer c' = c_dialer c /\ c_tun c' = c_tun c /\ c_routes c' = c_routes c
   | None => c_state c' = StateConnected /\ w_tuns w' = S (w_tuns w) /\ is_Some (c_dialer c') /\
       is_Some (c_tun c') /\ exists r, c_routes c' = Some r /\ Routes.installed r = true
   end).
Proof.
  unfold Connect. destruct (decide (c_state c = StateConnected)) as [Hc|Hc];
    [rewrite bool_decide_true by done; left; cbn; eauto 6|].
  rewrite bool_decide_false by done. cbn [orb].
  destruct (decide (c_state c = StateConnecting)) as [Hc'|Hc'];
    [rewrite bool_decide_true by done; left; eauto 6|].
  rewrite bool_decide_false by done. cbn zeta.
  destruct (Dialer.NewDialer _ _) as [d|]; [|by right].
  destruct (Dialer.CheckAuth _ _ _) as [s [u|]]; [|by right].
  pose proof (OpenTUN_spec w o) as Ht. destruct (OpenTUN w o) as [w1 [dev|]];
    [|destruct Ht as [_ Ht]; right; by split_and!].
  destruct Ht as (_ & -> & _).
  destruct (Routes.NewRouteManager _ _ _ _) as [r|] eqn:Er; [|by right].
  apply NewRouteManager_spec in Er as (Hi & Hk & _).
  pose proof (Routes.Install_spec (o_sys o) r (w_log (opened w)) Hi Hk) as Hin.
  destruct (Routes.Install _ _ _) as [[r' l'] [e|]]; right; [by split_and!|].
  split_and!; try done. eexists. split; [done|]. by destruct Hin as (_ & ? & _).
Qed.

Lemma Connect_refused {Pool} (c : Client Pool) w o cfg :
  c_state c = StateConnected -> Connect c w o cfg = (c, w, Some "already connected").
Proof. intros H. unfold Connect. rewrite bool_decide_true by done. cbn [orb]. by rewrite H. Qed.

Lemma Connect_config {Pool} (c c' : Client Pool) w w' o cfg :
  Connect c w o cfg = (c', w', None) -> c_state c' = StateConnected /\ c_cfg c' = cfg.
Proof.
  unfold Connect. destruct (_ || _); [done|]. destruct (Dialer.NewDialer _ _) as [d|]; [|done].
  destruct (Dialer.CheckAuth _ _ _) as [s [u|]]; [|done]. destruct (OpenTUN w o) as [w1 [dev|]]; [|done].
  destruct (Routes.NewRouteManager _ _ _ _) as [r|]; [|done].
  destruct (Routes.Install _ _ _) as [[r' l'] [e|]]; [done|]. by intros [= <- _].
Qed.

Lemma consistent_step {Pool} (cw : Client Pool * world) ev : consistent cw -> consistent (step cw ev).
Proof.
  destruct cw as [c w]. intros H. destruct ev as [o cfg|o|sys ips|st]; cbn [step fst snd]; [| | |exact H].
  - pose proof (Connect_cases c w o cfg) as Hc. destruct (Connect c w o cfg) as [[c' w'] err].
    destruct Hc as [(-> & -> & _)|(H1 & H2 & Hc)]; [done|].
    destruct H as [(Hs & _)|(Hs & Hw & Hd & Ht & Hr)]; [done|]. destruct err as [e|].
    + destruct Hc as (Hs' & Hw' & Ed & Et & Er). right. rewrite Hw', Ed, Et, Er. by split_and!; [right|..].
    + destruct Hc as (Hs' & Hw' & Hc). left. rewrite Hw', Hw. tauto.
  - unfold Disconnect. case_bool_decide as Hd; [done|].
    destruct H as [(Hs & Hw & Hdl & [t Ht] & r & Hr & Hi)|(Hs & Hw & Hdl & Ht & Hr)].
    + rewrite Hr, Ht. destruct (Routes.Restore _ _ _) as [[? ?] ?]. right. cbn. rewrite Hw.
      by split_and!; [left|..].
    + rewrite Hr, Ht. right. by split_and!; [left|..].
  - unfold bypass. destruct (c_routes c) as [r|] eqn:Er; [|done].
    pose proof (dynamic_installed sys r (w_log w) ips) as Hi.
    destruct (Routes.AddDynamicHostBypassBatch _ _ _ _) as [r' l']. cbn in Hi.
    destruct H as [(Hs & Hw & Hdl & Ht & r0 & Hr & Hi0)|(_ & _ & _ & _ & Hr)]; [|by rewrite Er in Hr].
    left. cbn. split_and!; try done. exists r'. split; [done|]. rewrite Er in Hr. simplify_eq. by rewrite Hi.
Qed.

(** ** Properties *)

(** C19: the client's life cycle.  After any sequence of connects, disconnects,
    bypasses and work of the tunnels on the counters, whatever fails outside, the
    client is either connected, with its dialer, its one open TUN device and its
    installed routes, or it holds none of them and no device is open; it is never
    left connecting.  A connect while connected is refused.  A disconnect of a
    client that is connected or in error leaves it disconnected, and what it shows
    is a fresh client but for the endpoint: all four counters, the bytes, the
    tunnels and those open, at zero; one of a disconnected client changes nothing,
    the counters included. *)
Theorem client_life_cycle {Pool} (evs : list (event Pool)) (o : outside Pool) (cfg : Dialer.Config) (now : Z) :
  let cw := run evs (New, fresh_world) in
  consistent cw /\
  (c_state cw.1 = StateConnected -> Connect cw.1 cw.2 o cfg = (cw.1, cw.2, Some "already connected")) /\
  (c_state cw.1 = StateDisconnected -> Disconnect cw.1 cw.2 o = (cw.1, cw.2, None)) /\
  (c_state cw.1 <> StateDisconnected ->
     w_tuns (Disconnect cw.1 cw.2 o).1.2 = 0%nat /\
     Status (Disconnect cw.1 cw.2 o).1.1 now =
       {| s_State := StateDisconnected; s_Error := ""; s_TunName := ""; s_Endpoint := Dialer.Endpoint (c_cfg cw.1);
          s_BytesIn := 0; s_BytesOut := 0; s_Tunnels := 0; s_ActiveConn := 0; s_UptimeSec := 0 |}).
Proof.
  cbn zeta. assert (H0 : forall cw, consistent cw -> consistent (run evs cw)).
  { unfold run. induction evs as [|ev evs IH]; intros cw H; cbn; [done|]. by apply IH, consistent_step. }
  specialize (H0 (New, fresh_world) ltac:(right; by split_and!; [left|..])).
  set (cw := run evs (New, fresh_world)) in *. split; [done|]. split.
  { intros Hs. unfold Connect. by rewrite bool_decide_true, Hs by done. }
  split; [intros Hs; unfold Disconnect; by rewrite bool_decide_true|]. intros Hn.
  pose proof (consistent_step cw (EvDisconnect o) H0) as H1. cbn [step] in H1.
  assert (H2 : Status (Disconnect cw.1 cw.2 o).1.1 now =
       {| s_State := StateDisconnected; s_Error := ""; s_TunName := ""; s_Endpoint := Dialer.Endpoint (c_cfg cw.1);
          s_BytesIn := 0; s_BytesOut := 0; s_Tunnels := 0; s_ActiveConn := 0; s_UptimeSec := 0 |}).
  { unfold Disconnect. rewrite bool_decide_false by done.
    destruct (c_routes cw.1); [destruct (Routes.Restore _ _ _) as [[? ?] ?]|]; by destruct (c_tun cw.1). }
  split; [|exact H2]. destruct (Disconnect cw.1 cw.2 o) as [[c' w'] err]. cbn [fst snd] in *.
  destruct H1 as [(Hs & _)|(_ & Hw & _)]; [|done]. apply (f_equal s_State) in H2. cbn in H2. by rewrite Hs in H2.
Qed.

(** A failed connect leaves its routes behind.  When a connect fails after
    routes were added, they stay: the client has no route manager any more, and
    disconnecting runs no command. *)
Theorem failed_connect_leaks_routes {Pool} (c c' : Client Pool) (w w' : world) (o o' : outside Pool)
    (cfg : Dialer.Config) (e : string)
  (Hcon : consistent (c, w)) (Hfail : Connect c w o cfg = (c', w', Some e))
  (Hadded : Routes.added (w_log w') <> Routes.added (w_log w)) :
  c_state c' = StateError /\ c_routes c' = None /\
  w_log (Disconnect c' w' o').1.2 = w_log w'.
Proof.
  pose proof (Connect_cases c w o cfg) as H. rewrite Hfail in H.
  destruct H as [(-> & -> & _)|(H1 & H2 & Hs & _ & _ & Ht & Hr)]; [done|].
  destruct Hcon as [(? & _)|(_ & _ & _ & Hct & Hcr)]; [done|].
  rewrite Hcr in Hr. rewrite Hct in Ht. split_and!; [done..|].
  unfold Disconnect. rewrite bool_decide_false by (by rewrite Hs). by rewrite Hr, Ht.
Qed.

(** The active-connection counter after a disconnect goes below zero: a
    tunnel still open then, closed by its relay later, leaves it at minus one. *)
Theorem late_close_negative {Pool} (c : Client Pool) (w : world) (o : outside Pool)
    (conn : Dialer.tunnelConn) (now : Z)
  (Hup : c_state c <> StateDisconnected) (Hopen : Dialer.tc_closed conn = false) :
  let c' := (Disconnect c w o).1.1 in
  s_ActiveConn (Status (set_stats c' (Dialer.Close conn (c_stats c')).2) now) = -1.
Proof.
  cbn zeta. assert (c_stats (Disconnect c w o).1.1 = reset_stats (c_stats c)) as ->.
  { unfold Disconnect. rewrite bool_decide_false by done.
    destruct (c_routes c); [destruct (Routes.Restore _ _ _) as [[? ?] ?]|]; by destruct (c_tun c). }
  unfold Dialer.Close. by rewrite Hopen.
Qed.

(** ** Witnesses *)

(** An endpoint that accepts every request, and a system of [Routes]. *)
Definition ex_outside (bad : list string) : outside unit :=
  {| o_pem := fun _ => None;
     o_net := {| Dialer.n_url_error := fun _ => None;
                 Dialer.n_Do := fun _ _ => Ok {| Dialer.p_StatusCode := 200; Dialer.p_Status := "200 OK";
                                                  Dialer.p_Body := GoIO.body_of [] |};
                 Dialer.n_left := None |};
     o_sys := Routes.ex_sys bad; o_create := None; o_name := Ok "utun5"; o_nic := None; o_addr4 := None;
     o_addr6 := None; o_tun_close := None; o_now := 1000 |}.

Definition ex_connect (bad : list string) : Client unit * world * option string :=
  Connect New fresh_world (ex_outside bad) Dialer.ex_cfg.

Lemma failed_connect_leaks_routes_witness :
  exists l, w_log (ex_connect ["128.0.0.0/1"]).1.2 = l /\ Routes.added l <> [] /\
    c_routes (ex_connect ["128.0.0.0/1"]).1.1 = None.
Proof.
  eexists. split; [reflexivity|]. split; [vm_compute; discriminate|].
  refine (proj1 (proj2 (failed_connect_leaks_routes (@New unit) _ fresh_world (ex_connect ["128.0.0.0/1"]).1.2
    (ex_outside ["128.0.0.0/1"]) (ex_outside []) Dialer.ex_cfg "route add 128.0.0.0/1: failed" _ _ _))).
  - right. vm_compute. auto.
  - vm_compute. reflexivity.
  - vm_compute. discriminate.
Defined.

Definition ex_tunnel : Dialer.tunnelConn :=
  Dialer.newTunnelConn "192.0.2.1:80" {| Dialer.bd_reader := GoIO.body_of []; Dialer.bd_closed := false |}
    (Dialer.new_pipe None).

Lemma late_close_negative_witness :
  c_state (ex_connect []).1.1 = StateConnected /\
  let c' := (Disconnect (ex_connect []).1.1 (ex_connect []).1.2 (ex_outside [])).1.1 in
  s_ActiveConn (Status (set_stats c' (Dialer.Close ex_tunnel (c_stats c')).2) 5) = -1.
Proof.
  split; [vm_compute; reflexivity|].
  apply (late_close_negative (ex_connect []).1.1 (ex_connect []).1.2 (ex_outside []) ex_tunnel 5).
  - vm_compute. discriminate.
  - reflexivity.
Defined.
