(* ===== verification/Profile.v ===== *)
(** internal/client/profile.go and settings.go: the client's profiles, TOML files
    in one directory, and its settings file.  The TOML and JSON codecs and SHA-1
    are parameters; a path is a name below the directory, which is clean and not
    the root, so that [filepath.Join] puts a slash between them. *)
From stdpp Require Import sorting.
From S2P Require Import Prelude GoStrings GoEncoding GoOS.
From S2P Require Dialer.
#[local] Open Scope Z_scope.

Record EndpointTOML := {
  et_Hostname : string;
  et_Addresses : list string;
  et_Username : string;
  et_Password : string;
  et_ClientRandom : string;
  et_CustomSNI : string;
  et_HasIPv6 : bool;
  et_SkipVerification : bool;
  et_UpstreamProtocol : string;
  et_UpstreamFallbackProtocol : string;
  et_AntiDPI : bool;
  et_Certificate : string;
}.

Record TunTOML := {
  tt_BoundIf : string;
  tt_MTU : Z;
  tt_ChangeSystemDNS : bool;
  tt_IncludedRoutes : list string;
  tt_ExcludedRoutes : list string;
}.

Record SocksTOML := { st_Address : string; st_Username : string; st_Password : string }.

Record ListenerTOML := { lt_TUN : option TunTOML; lt_SOCKS : option SocksTOML }.

Record ProfileTOML := {
  LogLevel : string;
  VPNMode : string;
  KillswitchEnabled : bool;
  PostQuantumEnabled : bool;
  Exclusions : list string;
  DNSUpstreams : list string;
  Endpoint : EndpointTOML;
  Listener : ListenerTOML;
}.

Record Profile := {
  p_ID : string;
  p_Path : string;
  p_Name : string;
  p_Endpoint : string;
  p_Username : string;
  p_Toml : ProfileTOML;
}.

Definition first_address (d : ProfileTOML) : string :=
  match et_Addresses (Endpoint d) with a :: _ => a | [] => "" end.

Definition ToConfig (p : Profile) : Dialer.Config :=
  let e := Endpoint (p_Toml p) in
  let sni := if bool_decide (et_CustomSNI e = "") then et_Hostname e else et_CustomSNI e in
  {| Dialer.Endpoint := first_address (p_Toml p); Dialer.Hostname := sni;
     Dialer.Username := et_Username e; Dialer.Password := et_Password e;
     Dialer.Insecure := et_SkipVerification e; Dialer.PinnedCertPEM := et_Certificate e;
     Dialer.Exclusions := Exclusions (p_Toml p); Dialer.EnableAdBlock := false;
     Dialer.UpstreamDNS := ""; Dialer.RoutingMode := "" |}.

(** ** Names of files *)

Definition slash : Ascii.ascii := "/"%char.

(** [filepath.Base] *)
Definition Base (p : string) : string :=
  if bool_decide (p = "") then "."
  else let p := TrimRight p "/" in
       if bool_decide (p = "") then "/"
       else match CutLast slash p with Some (_, b) => b | None => p end.

(** [filepath.Ext]: from the last dot of the last element. *)
Definition Ext (p : string) : string :=
  let last := match CutLast slash p with Some (_, b) => b | None => p end in
  match CutLast "."%char last with Some (_, e) => "." +:+ e | None => "" end.

Definition safe_char (c : Ascii.ascii) : bool :=
  let v := aval c in
  ((97 <=? v) && (v <=? 122)) || ((65 <=? v) && (v <=? 90)) || ((48 <=? v) && (v <=? 57)) ||
  (v =? 45) || (v =? 95) || (v =? 46).

(** The runes kept are bytes; every other rune, a space apart, is dropped. *)
Fixpoint sanitizeFilename (s : string) : string :=
  match s with
  | EmptyString => ""
  | String c s =>
      if safe_char c then String c (sanitizeFilename s)
      else if aval c =? 32 then String "-"%char (sanitizeFilename s)
      else sanitizeFilename s
  end.

Fixpoint lex_leb (a b : list string) : bool :=
  match a, b with
  | [], _ => true
  | _ :: _, [] => false
  | x :: a, y :: b => if bool_decide (x = y) then lex_leb a b else String.leb x y
  end.

(** The orders of [filepath.WalkDir] and of [List]. *)
Definition walk_le (p q : string) : Prop := lex_leb (Split slash p) (Split slash q) = true.
#[export] Instance walk_le_dec : RelDecision walk_le := fun p q => decide (_ = true).
Definition name_le (p q : Profile) : Prop := String.leb (p_Name p) (p_Name q) = true.
#[export] Instance name_le_dec : RelDecision name_le := fun p q => decide (_ = true).

(** ** The store *)

Section store.
Variable toml_profile : string -> res ProfileTOML.
Variable sha1 : list byte -> list byte.

Record ProfileStore := { dir : string }.

Definition join (d name : string) : string := d +:+ "/" +:+ name.

(** The profiles below the user's configuration directory. *)
Definition NewProfileStore (f : fs) (config_dir : res string) : res ProfileStore :=
  base ← config_dir;
  let d := path_Join (path_Join base "ttclient") "profiles" in
  match MkdirAll f d with Some e => Err e | None => Ok {| dir := d |} end.

(** A profile has its user and an address. *)
Definition usable (d : ProfileTOML) : bool :=
  negb (bool_decide (et_Username (Endpoint d) = "")) && negb (bool_decide (et_Addresses (Endpoint d) = [])).

Definition profile_id (path : string) : string := stake 8 (hex_EncodeToString (sha1 (bytes_of path))).

Definition loadProfile (f : fs) (path : string) : res Profile :=
  data ← ReadFile f path;
  doc ← wrap_err (Base path +:+ ": ") (toml_profile data);
  Ok {| p_ID := profile_id path; p_Path := path; p_Name := TrimSuffix (Base path) (Ext path);
        p_Endpoint := first_address doc; p_Username := et_Username (Endpoint doc); p_Toml := doc |}.

(** The files below the directory, in the order of [filepath.WalkDir]. *)
Definition walk (s : ProfileStore) (f : fs) : list string :=
  merge_sort walk_le
    (filter (fun p => HasPrefix p (dir s +:+ "/") = true) (map_to_list (fs_files f)).*1).

(** [List] skips what it cannot read, so it does not fail.  Which of two
    profiles of one name comes first [sort.Slice] leaves open. *)
Definition List_ (s : ProfileStore) (f : fs) : list Profile :=
  merge_sort name_le
    (omap (fun path => if HasSuffix (ToLower (Base path)) ".toml" then res_opt (loadProfile f path) else None)
       (walk s f)).

Definition Get (s : ProfileStore) (f : fs) (id : string) : res Profile :=
  match filter (fun p => p_ID p = id) (List_ s f) with
  | p :: _ => Ok p
  | [] => Err ("profile " +:+ id +:+ " not found")
  end.

Definition must_have : string := "profile must have endpoint.username and endpoint.addresses".

Definition ImportContent (s : ProfileStore) (f : fs) (now : Z) (data filename : string)
  : fs * res Profile :=
  match toml_profile data with
  | Err e => (f, Err ("invalid TOML: " +:+ e))
  | Ok doc =>
      if negb (usable doc) then (f, Err must_have)
      else
        let name := sanitizeFilename (TrimSuffix filename (Ext filename)) in
        let name := if bool_decide (name = "") then "profile" else name in
        let target := join (dir s) (name +:+ ".toml") in
        let target := if file_exists f target
                      then join (dir s) (name +:+ "-" +:+ fmt_d now +:+ ".toml") else target in
        match WriteFile f target data with
        | (f, Some e) => (f, Err e)
        | (f, None) => (f, loadProfile f target)
        end
  end.

Definition Import (s : ProfileStore) (f : fs) (now : Z) (srcPath : string) : fs * res Profile :=
  match ReadFile f srcPath with
  | Err e => (f, Err e)
  | Ok data => ImportContent s f now data (Base srcPath)
  end.

Definition Delete (s : ProfileStore) (f : fs) (id : string) : fs * option string :=
  match Get s f id with
  | Ok p => Remove f (p_Path p)
  | Err e => (f, Some e)
  end.

Definition ReadContent (s : ProfileStore) (f : fs) (id : string) : res string :=
  p ← Get s f id; ReadFile f (p_Path p).

Definition WriteContent (s : ProfileStore) (f : fs) (id content : string) : fs * option string :=
  match Get s f id with
  | Err e => (f, Some e)
  | Ok p =>
      match toml_profile content with
      | Err e => (f, Some ("invalid TOML: " +:+ e))
      | Ok doc => if negb (usable doc) then (f, Some must_have) else WriteFile f (p_Path p) content
      end
  end.
End store.

(** ** settings.go *)

Record GlobalSettings := {
  LastProfileID : string;
  BypassDomains : bool;
  GlobalExclusions : list string;
  Language : string;
  AutoConnect : bool;
  gs_EnableAdBlock : bool;
  Theme : string;
  gs_UpstreamDNS : string;
  gs_RoutingMode : string;
}.

Definition zero_settings : GlobalSettings :=
  {| LastProfileID := ""; BypassDomains := false; GlobalExclusions := []; Language := "";
     AutoConnect := false; gs_EnableAdBlock := false; Theme := ""; gs_UpstreamDNS := ""; gs_RoutingMode := "" |}.

Definition set_language (l : string) (g : GlobalSettings) : GlobalSettings :=
  {| LastProfileID := LastProfileID g; BypassDomains := BypassDomains g;
     GlobalExclusions := GlobalExclusions g; Language := l; AutoConnect := AutoConnect g;
     gs_EnableAdBlock := gs_EnableAdBlock g; Theme := Theme g; gs_UpstreamDNS := gs_UpstreamDNS g;
     gs_RoutingMode := gs_RoutingMode g |}.

(** The settings file below the user's configuration directory. *)
Definition NewSettingsStore (f : fs) (config_dir : res string) : res string :=
  base ← config_dir;
  let d := path_Join base "ttclient" in
  match MkdirAll f d with Some e => Err e | None => Ok (path_Join d "settings.json") end.

(** The defaults of a first start. *)
Definition first_settings : GlobalSettings :=
  {| LastProfileID := ""; BypassDomains := false; GlobalExclusions := []; Language := "en";
     AutoConnect := true; gs_EnableAdBlock := false; Theme := ""; gs_UpstreamDNS := ""; gs_RoutingMode := "" |}.

Section settings.
(** encoding/json on the settings: what it fills in with its error, and its
    output. *)
Variable json_read : string -> GlobalSettings * option string.
Variable json_write : GlobalSettings -> res string.

(** The settings and the error, as both are returned. *)
Definition Load (f : fs) (path : string) : GlobalSettings * option string :=
  match ReadFile f path with
  | Err e => if bool_decide (path ∈ fs_locked f) then (zero_settings, Some e) else (first_settings, None)
  | Ok data =>
      let '(g, err) := json_read data in
      (if bool_decide (Language g = "") then set_language "en" g else g, err)
  end.

Definition Save (f : fs) (path : string) (g : GlobalSettings) : fs * option string :=
  match json_write g with
  | Err e => (f, Some e)
  | Ok data => WriteFile f path data
  end.
End settings.

(** ** Lemmas *)

Lemma sanitize_safe s : Forall (fun c => safe_char c = true) (String.list_ascii_of_string (sanitizeFilename s)).
Proof.
  induction s as [|c s IH]; cbn [sanitizeFilename]; [constructor|].
  destruct (safe_char c) eqn:E; [by constructor|]. destruct (_ =? 32); [|done]. by constructor.
Qed.

Lemma safe_no_slash s :
  Forall (fun c => safe_char c = true) (String.list_ascii_of_string s) -> has_char slash s = false.
Proof.
  induction s as [|c s IH]; cbn [String.list_ascii_of_string has_char]; [done|].
  intros H. apply Forall_cons in H as [Hc Hs].
  rewrite IH by done. rewrite bool_decide_false; [done|]. intros ->. by vm_compute in Hc.
Qed.

Lemma pretty_N_safe x s :
  Forall (fun c => safe_char c = true) (String.list_ascii_of_string s) ->
  Forall (fun c => safe_char c = true) (String.list_ascii_of_string (pretty_N_go x s)).
Proof.
  revert s. induction (N.lt_wf_0 x) as [x _ IH]. intros s Hs.
  destruct (decide (0 < x)%N) as [Hx|Hx]; [|by replace x with 0%N by lia].
  rewrite pretty_N_go_step by done. apply IH; [by apply N.div_lt|].
  cbn. constructor; [|done]. pose proof (N.mod_lt x 10 ltac:(done)) as Hd.
  unfold pretty_N_char. repeat case_match; done.
Qed.

Lemma fmt_d_safe z : Forall (fun c => safe_char c = true) (String.list_ascii_of_string (fmt_d z)).
Proof.
  assert (HN : forall n : N, Forall (fun c => safe_char c = true) (String.list_ascii_of_string (pretty n))).
  { intros n. unfold pretty, pretty_N. case_decide; [by repeat constructor|]. apply pretty_N_safe. constructor. }
  unfold fmt_d. destruct z as [|q|q].
  - by repeat constructor.
  - apply (HN (N.pos q)).
  - change (pretty (Z.neg q)) with (String "-"%char (pretty (N.pos q))). cbn. constructor; [done|]. apply HN.
Qed.

Lemma list_ascii_app a b :
  String.list_ascii_of_string (a +:+ b) = String.list_ascii_of_string a ++ String.list_ascii_of_string b.
Proof. induction a as [|c a IH]; [done|]. rewrite scons_app. cbn. by rewrite IH. Qed.

(** The base of a path made by [join]; [c] is the last character. *)
Lemma Base_join d name c :
  has_char slash name = false -> (exists pre, name = pre +:+ String c "") -> Base (join d name) = name.
Proof.
  intros Hn [pre Hpre]. unfold Base, join.
  assert (Hc : has_char slash (String c "") = false).
  { rewrite Hpre, has_char_app in Hn. by apply orb_false_iff in Hn as [_ ?]. }
  assert (Hr : TrimRight (d +:+ "/" +:+ name) "/" = d +:+ "/" +:+ name).
  { unfold TrimRight. rewrite Hpre, <- !sapp_assoc, srev_cat.
    change (srev (String c "")) with (String c ""). rewrite scons_app, snil_app.
    cbn in Hc. rewrite orb_false_r in Hc. apply bool_decide_eq_false in Hc.
    cbn [TrimLeft has_char]. rewrite bool_decide_false by (intros E; by apply Hc). cbn [orb].
    by rewrite srev_cons, srev_srev. }
  rewrite bool_decide_false by (destruct d; discriminate).
  rewrite Hr, bool_decide_false by (destruct d; discriminate).
  change (d +:+ "/" +:+ name) with (d +:+ String slash name). by rewrite (CutLast_app slash d name Hn).
Qed.

Section facts.
Variable toml_profile : string -> res ProfileTOML.
Variable sha1 : list byte -> list byte.

Lemma loadProfile_Ok f path p :
  loadProfile toml_profile sha1 f path = Ok p ->
  p_Path p = path /\ p_ID p = profile_id sha1 path /\ exists data, ReadFile f path = Ok data /\
    toml_profile data = Ok (p_Toml p).
Proof.
  unfold loadProfile. destruct (ReadFile f path) as [data|]; [|done]. cbn.
  destruct (toml_profile data) as [doc|] eqn:E; [|done]. cbn. intros [= <-]. cbn. eauto.
Qed.

(** What is listed: the files below the directory, named as profiles, that load. *)
Lemma elem_of_List s f p :
  p ∈ List_ toml_profile sha1 s f <->
  exists path, is_Some (fs_files f !! path) /\ HasPrefix path (dir s +:+ "/") = true /\
    HasSuffix (ToLower (Base path)) ".toml" = true /\ loadProfile toml_profile sha1 f path = Ok p.
Proof.
  unfold List_. rewrite merge_sort_Permutation, list_elem_of_omap. unfold walk.
  setoid_rewrite merge_sort_Permutation. setoid_rewrite list_elem_of_filter.
  setoid_rewrite list_elem_of_fmap. split.
  - intros (path & (Hp & [k v] & -> & Hk) & Hl). cbn [fst] in *. apply elem_of_map_to_list in Hk.
    destruct (HasSuffix _ _) eqn:Es; [|done].
    destruct (loadProfile toml_profile sha1 f k) eqn:El; [|done]. cbn in Hl. simplify_eq. eauto 8.
  - intros (path & [data Hd] & Hp & Hs & Hl). exists path. split.
    + split; [done|]. exists (path, data). by rewrite elem_of_map_to_list.
    + by rewrite Hs, Hl.
Qed.

Lemma Get_Ok s f id p :
  Get toml_profile sha1 s f id = Ok p -> p ∈ List_ toml_profile sha1 s f /\ p_ID p = id.
Proof.
  unfold Get. destruct (filter _ _) as [|q l] eqn:E; [done|]. intros [= <-].
  assert (H : q ∈ filter (fun p => p_ID p = id) (List_ toml_profile sha1 s f)) by (rewrite E; by left).
  by apply list_elem_of_filter in H as [? ?].
Qed.

(** A profile is found under its identifier when no other file listed has it. *)
Lemma Get_unique s f p :
  p ∈ List_ toml_profile sha1 s f ->
  (forall q, q ∈ List_ toml_profile sha1 s f -> p_ID q = p_ID p -> q = p) ->
  Get toml_profile sha1 s f (p_ID p) = Ok p.
Proof.
  intros Hin Hu. unfold Get. destruct (filter _ _) as [|q l] eqn:E.
  - assert (H : p ∈ filter (fun x => p_ID x = p_ID p) (List_ toml_profile sha1 s f))
      by (by apply list_elem_of_filter). rewrite E in H. by apply not_elem_of_nil in H.
  - assert (H : q ∈ filter (fun x => p_ID x = p_ID p) (List_ toml_profile sha1 s f)) by (rewrite E; by left).
    apply list_elem_of_filter in H as [Hi Hq]. by rewrite (Hu q).
Qed.

(** A new file of the store: its name keeps to safe characters. *)
Definition fresh_name (name : string) : Prop :=
  Forall (fun c => safe_char c = true) (String.list_ascii_of_string name).

Lemma join_listed s f name p :
  fresh_name name -> is_Some (fs_files f !! join (dir s) (name +:+ ".toml")) ->
  loadProfile toml_profile sha1 f (join (dir s) (name +:+ ".toml")) = Ok p ->
  p ∈ List_ toml_profile sha1 s f.
Proof.
  intros Hn Hin Hl. apply elem_of_List. exists (join (dir s) (name +:+ ".toml")). split_and!; [done| | |done].
  - unfold join. rewrite <- sapp_assoc. apply HasPrefix_app.
  - rewrite (Base_join _ _ "l"%char).
    + apply HasSuffix_spec. exists (ToLower name). unfold ToLower. clear. induction name as [|c n IH]; [done|].
      rewrite scons_app. cbn. rewrite IH. done.
    + rewrite has_char_app, (safe_no_slash _ Hn). done.
    + exists (name +:+ ".tom"). by rewrite sapp_assoc.
Qed.

Lemma ImportContent_cases s f now data filename :
  let '(f', r) := ImportContent toml_profile sha1 s f now data filename in
  match r with
  | Err _ => f' = f \/ exists name, fresh_name name /\ torn f (join (dir s) (name +:+ ".toml")) data f' /\
      (fs_files f !! join (dir s) (name +:+ ".toml") = None \/ exists stem, name = stem +:+ "-" +:+ fmt_d now)
  | Ok p => exists name, fresh_name name /\ p_Path p = join (dir s) (name +:+ ".toml") /\
      toml_profile data = Ok (p_Toml p) /\ usable (p_Toml p) = true /\
      f' = set_files f (<[p_Path p := data]> (fs_files f)) /\
      loadProfile toml_profile sha1 f' (p_Path p) = Ok p /\
      (fs_files f !! p_Path p = None \/ exists stem, name = stem +:+ "-" +:+ fmt_d now)
  end.
Proof.
  unfold ImportContent. destruct (toml_profile data) as [doc|] eqn:Ed; [|by left].
  destruct (usable doc) eqn:Eu; cbn [negb]; [|by left]. cbn zeta.
  set (stem := if bool_decide (sanitizeFilename _ = "") then "profile" else _).
  assert (Hstem : fresh_name stem).
  { unfold stem. case_bool_decide; [by repeat constructor|apply sanitize_safe]. }
  set (name := if file_exists f (join (dir s) (stem +:+ ".toml")) then stem +:+ "-" +:+ fmt_d now else stem).
  assert (Htarget : (if file_exists f (join (dir s) (stem +:+ ".toml"))
      then join (dir s) (stem +:+ "-" +:+ fmt_d now +:+ ".toml")
      else join (dir s) (stem +:+ ".toml")) = join (dir s) (name +:+ ".toml")).
  { unfold name. destruct (file_exists _ _); [|done]. by rewrite !sapp_assoc. }
  rewrite Htarget. set (target := join (dir s) (name +:+ ".toml")) in *.
  assert (Hname : fresh_name name).
  { unfold name, fresh_name. destruct (file_exists _ _); [|done]. rewrite !list_ascii_app.
    apply Forall_app. split; [done|]. apply Forall_app. split; [by repeat constructor|apply fmt_d_safe]. }
  assert (Hold : fs_files f !! target = None \/ exists stem, name = stem +:+ "-" +:+ fmt_d now).
  { unfold name, target. destruct (file_exists _ _) eqn:Ee; [right; by eexists|left].
    unfold file_exists in Ee. apply bool_decide_eq_false, eq_None_not_Some in Ee. exact Ee. }
  destruct (WriteFile f target data) as [f' [e|]] eqn:Ew.
  { apply WriteFile_Some in Ew as [[_ ->]|Ht]; [by left|right]. by exists name. }
  apply WriteFile_None in Ew as [Hlock ->].
  unfold loadProfile at 1. rewrite ReadFile_written by done. cbn [mbind res_bind]. rewrite Ed. cbn.
  exists name. split_and!; try done.
  unfold loadProfile. rewrite ReadFile_written by done. cbn. by rewrite Ed.
Qed.

(** ** Properties *)

(** Importing a profile.  A failed import changes no file, unless the disk was
    full: then one file has what there was room for of the content.  A successful
    one writes the content, which parses to a profile with a user and an
    address, into one file of the store's directory, whose name has only safe
    characters, and changes no other; either way a file already there is only replaced
    under a name that carries the current time.  The profile is then listed,
    and found by its identifier if no other listed profile has it. *)
Theorem profile_import (s : ProfileStore) (f f' : fs) (now : Z) (data filename : string) (r : res Profile)
  (Hrun : ImportContent toml_profile sha1 s f now data filename = (f', r)) :
  match r with
  | Err _ => f' = f \/ exists name, fresh_name name /\ torn f (join (dir s) (name +:+ ".toml")) data f' /\
      (fs_files f !! join (dir s) (name +:+ ".toml") = None \/ exists stem, name = stem +:+ "-" +:+ fmt_d now)
  | Ok p => exists name, fresh_name name /\ p_Path p = join (dir s) (name +:+ ".toml") /\
      toml_profile data = Ok (p_Toml p) /\ usable (p_Toml p) = true /\
      fs_files f' = <[p_Path p := data]> (fs_files f) /\
      (fs_files f !! p_Path p = None \/ exists stem, name = stem +:+ "-" +:+ fmt_d now) /\
      p ∈ List_ toml_profile sha1 s f' /\
      ((forall q, q ∈ List_ toml_profile sha1 s f' -> p_ID q = p_ID p -> q = p) ->
       Get toml_profile sha1 s f' (p_ID p) = Ok p)
  end.
Proof.
  pose proof (ImportContent_cases s f now data filename) as H. rewrite Hrun in H.
  destruct r as [p|]; [|done]. destruct H as (name & Hn & Hp & Hd & Hu & -> & Hl & Hnew).
  assert (Hin : p ∈ List_ toml_profile sha1 s (set_files f (<[p_Path p := data]> (fs_files f)))).
  { apply (join_listed s _ name p Hn); rewrite <- Hp; [|done]. cbn. rewrite lookup_insert_eq. by eexists. }
  exists name. split_and!; try done. by apply Get_unique.
Qed.

(** Deleting and editing touch one file.  [Delete] and [WriteContent] of an
    identifier either fail and change nothing, or remove, or replace by a
    document that parses with a user and an address, the file of a listed
    profile with that identifier, and no other; on a full disk the edit fails
    with the file holding a part of the document. *)
Theorem profile_changes (s : ProfileStore) (f : fs) (id content : string) :
  (match Delete toml_profile sha1 s f id with
   | (f', Some _) => f' = f
   | (f', None) => exists p, p ∈ List_ toml_profile sha1 s f /\ p_ID p = id /\
       fs_files f' = delete (p_Path p) (fs_files f)
   end) /\
  (match WriteContent toml_profile sha1 s f id content with
   | (f', Some _) => f' = f \/ exists p, p ∈ List_ toml_profile sha1 s f /\ p_ID p = id /\ torn f (p_Path p) content f'
   | (f', None) => exists p doc, p ∈ List_ toml_profile sha1 s f /\ p_ID p = id /\
       toml_profile content = Ok doc /\ usable doc = true /\
       fs_files f' = <[p_Path p := content]> (fs_files f)
   end).
Proof.
  unfold Delete, WriteContent. destruct (Get _ _ s f id) as [p|] eqn:Eg; [|by split; [|left]].
  apply Get_Ok in Eg as [Hin Hid]. split.
  - unfold Remove. case_bool_decide; [done|]. destruct (fs_files f !! p_Path p); [|done]. eauto.
  - destruct (toml_profile content) as [doc|] eqn:Ed; [|by left]. destruct (usable doc) eqn:Eu; cbn [negb]; [|by left].
    destruct (WriteFile f (p_Path p) content) as [f' [e|]] eqn:Ew.
    { apply WriteFile_Some in Ew as [[_ ->]|Ht]; [by left|right]. by exists p. }
    apply WriteFile_None in Ew as [_ ->]. by exists p, doc.
Qed.
End facts.

(** ** Witnesses *)

Definition ex_endpoint : EndpointTOML :=
  {| et_Hostname := "vpn.example"; et_Addresses := ["vpn.example:443"]; et_Username := "ann";
     et_Password := "secret"; et_ClientRandom := ""; et_CustomSNI := ""; et_HasIPv6 := false;
     et_SkipVerification := false; et_UpstreamProtocol := ""; et_UpstreamFallbackProtocol := "";
     et_AntiDPI := false; et_Certificate := "" |}.
Definition ex_doc : ProfileTOML :=
  {| LogLevel := ""; VPNMode := ""; KillswitchEnabled := false; PostQuantumEnabled := false;
     Exclusions := []; DNSUpstreams := []; Endpoint := ex_endpoint;
     Listener := {| lt_TUN := None; lt_SOCKS := None |} |}.
Definition ex_toml (s : string) : res ProfileTOML := if bool_decide (s = "") then Err "empty" else Ok ex_doc.
Definition ex_store : ProfileStore := {| dir := "/home/ann/ttclient/profiles" |}.
Definition ex_fs : fs := {| fs_files := {["/home/ann/ttclient/profiles/My-VPN.toml" := "x"]}; fs_locked := ∅; fs_full := ∅ |}.

Lemma profile_import_witness :
  exists p, p_Path p = "/home/ann/ttclient/profiles/..My-VPN.toml" /\
    p ∈ List_ ex_toml id ex_store (ImportContent ex_toml id ex_store ex_fs 17 "text" "../My VPN.toml").1.
Proof.
  pose proof (profile_import ex_toml id ex_store ex_fs
    (ImportContent ex_toml id ex_store ex_fs 17 "text" "../My VPN.toml").1 17 "text" "../My VPN.toml"
    (ImportContent ex_toml id ex_store ex_fs 17 "text" "../My VPN.toml").2 eq_refl) as H.
  destruct (ImportContent ex_toml id ex_store ex_fs 17 "text" "../My VPN.toml").2 as [p|e] eqn:E.
  - destruct H as (name & _ & _ & _ & _ & _ & _ & Hin & _). exists p. split; [|exact Hin].
    vm_compute in E. injection E as <-. reflexivity.
  - vm_compute in E. discriminate E.
Defined.
