(* ===== verification/Enroll.v ===== *)
(** internal/client/enroll.go: the enrolment of a device.  The server at an
    enrolment URL answers with a profile, which is stored and remembered under
    the URL, or revokes the device.  The JSON codec and SHA-256 are parameters;
    the enrolment directory exists, as [enrollDir] makes it. *)
From S2P Require Import Prelude GoStrings GoEncoding GoHttp GoOS Profile.
#[local] Open Scope Z_scope.

Record EnrollState := { es_URL : string; es_Fingerprint : string; es_ProfileID : string }.

Record enrollRequest := { eq_Fingerprint : string; eq_Name : string; eq_User : string }.
Record enrollError := { ee_Error : string; ee_Message : string }.

Record EnrollResult := {
  OK : bool;
  ProfileID : string;
  Error : string;
  Message : string;
  Revoked : bool;
}.

Definition no_state : EnrollState := {| es_URL := ""; es_Fingerprint := ""; es_ProfileID := "" |}.

Definition enrolled (id : string) : EnrollResult :=
  {| OK := true; ProfileID := id; Error := ""; Message := ""; Revoked := false |}.
Definition refused (e m : string) : EnrollResult :=
  {| OK := false; ProfileID := ""; Error := e; Message := m; Revoked := false |}.
Definition revoked (e : enrollError) : EnrollResult :=
  {| OK := false; ProfileID := ""; Error := ee_Error e; Message := ee_Message e; Revoked := true |}.

(** fingerprint_other.go *)
Definition machineID (f : fs) : res string := TrimSpace <$> ReadFile f "/etc/machine-id".

(** fingerprint_darwin.go: the line of the platform's UUID in the output of
    ioreg. *)
Fixpoint uuid_line (lines : list string) : res string :=
  match lines with
  | [] => Err "IOPlatformUUID not found"
  | line :: lines =>
      if Contains line "IOPlatformUUID" then
        match SplitN2 "="%char line with
        | [_; v] => Ok (Trim (TrimSpace v) (String dq ""))
        | _ => uuid_line lines
        end
      else uuid_line lines
  end.
Definition machineID_darwin (out : res string) : res string := out ← out; uuid_line (Split nl out).

(** fingerprint_windows.go: the key and its value, as the registry answers. *)
Definition machineID_windows (key : option string) (value : res string) : res string :=
  match key with
  | Some e => Err ("open registry: " +:+ e)
  | None => wrap_err "read MachineGuid: " value
  end.

(** [enrollDir]; without a configuration directory the files lie in "". *)
Definition enroll_dir (base : res string) : string :=
  match base with Err _ => "" | Ok b => path_Join (path_Join b "ttclient") "enroll" end.

Example ex_ioreg :
  machineID_darwin (Ok ("+-o Root" +:+ nls +:+ "    " +:+ String dq "IOPlatformUUID" +:+ String dq " = " +:+
    String dq "00000000-0000-1000-8000-001B63ABCDEF" +:+ String dq nls +:+ "}")) =
  Ok "00000000-0000-1000-8000-001B63ABCDEF".
Proof. vm_compute. reflexivity. Qed.

Definition profileNameFromURL (url : string) : string :=
  let parts := Split slash (TrimRight url "/") in
  match last parts with
  | Some token => if (8 <? String.length token)%nat then "enroll-" +:+ stake 8 token else "enroll-" +:+ token
  | None => "enrolled"
  end.

(** The last part of a URL is a secret; four of its characters are shown. *)
Definition maskURL (u : string) : string :=
  let parts := Split slash u in
  let masked := match last parts with
                | Some l => if (4 <? String.length l)%nat then removelast parts ++ [stake 4 l +:+ "***"] else parts
                | None => parts
                end in
  Join "/" masked.

Section enroll.
Variable toml_profile : string -> res ProfileTOML.
Variable sha1 sha256 : list byte -> list byte.

(** encoding/json: the output for a state and a request, and what is read, with
    whether it was well formed. *)
Variable state_json : EnrollState -> string.
Variable read_state : string -> EnrollState * bool.
Variable request_json : enrollRequest -> string.
Variable read_error : string -> enrollError.

Variable enrollDir : string.
Variable store : ProfileStore.

Definition DeviceFingerprint (machine : res string) : res string :=
  mid ← wrap_err "machine id: " machine;
  Ok (hex_EncodeToString (sha256 (bytes_of (mid +:+ ":firetunnel")))).

Definition enrollStateFile (url : string) : string :=
  join enrollDir (hex_EncodeToString (take 8 (sha256 (bytes_of url))) +:+ ".json").

(** The error of the write is dropped. *)
Definition saveEnrollState (f : fs) (url fp id : string) : fs :=
  (WriteFile f (enrollStateFile url)
     (state_json {| es_URL := url; es_Fingerprint := fp; es_ProfileID := id |})).1.

Definition removeEnrollState (f : fs) (url : string) : fs := (Remove f (enrollStateFile url)).1.

Definition findEnrolledProfileID (f : fs) (url : string) : string :=
  match ReadFile f (enrollStateFile url) with
  | Err _ => ""
  | Ok data => es_ProfileID (read_state data).1
  end.

Definition deleteEnrolledProfile (f : fs) (url : string) : fs :=
  let id := findEnrolledProfileID f url in
  if bool_decide (id <> "") then (Delete toml_profile sha1 store f id).1 else f.

(** The end of [handleEnrollSuccess]: the configuration as a new profile. *)
Definition importEnrolled (f : fs) (now : Z) (url fp config name : string) : fs * res EnrollResult :=
  match ImportContent toml_profile sha1 store f now config (name +:+ ".toml") with
  | (f, Err e) => (f, Err ("save profile: " +:+ e))
  | (f, Ok p) => (saveEnrollState f url fp (p_ID p), Ok (enrolled (p_ID p)))
  end.

Definition handleEnrollSuccess (f : fs) (now : Z) (url fp config : string) : fs * res EnrollResult :=
  match toml_profile config with
  | Err e => (f, Err ("parse config: " +:+ e))
  | Ok doc =>
      let host := et_Hostname (Endpoint doc) in
      let name := if bool_decide (host <> "") then host else profileNameFromURL url in
      let existing := findEnrolledProfileID f url in
      if bool_decide (existing <> "") then
        match Get toml_profile sha1 store f existing with
        | Ok p => let f := (WriteFile f (p_Path p) config).1 in
                  (saveEnrollState f url fp existing, Ok (enrolled existing))
        | Err _ => importEnrolled f now url fp config name
        end
      else importEnrolled f now url fp config name
  end.

Definition server_message (status : Z) : string :=
  "Сервер вернул " +:+ fmt_d status +:+ ", используем существующий конфиг".

(** The answer of the enrolment server: the status and what was read of the
    body; [Err] when the request or the reading failed.  The profiles are used in
    two places, the handling of a success and the deletion on a revocation. *)
Definition Enroll_answer {R} (ret : fs -> res EnrollResult -> R) (success : string -> string -> R)
    (deleted : fs) (f : fs) (url : string) (machine : res string)
    (post : string -> res (Z * res string)) (hostname user : string) : R :=
  match DeviceFingerprint machine with
  | Err e => ret f (Err e)
  | Ok fp =>
      match post (request_json {| eq_Fingerprint := fp; eq_Name := hostname; eq_User := user |}) with
      | Err e => ret f (Err ("enroll request: " +:+ e))
      | Ok (_, Err e) => ret f (Err ("read response: " +:+ e))
      | Ok (status, Ok body) =>
          if status =? StatusOK then success fp body
          else if status =? StatusTooManyRequests then ret f (Ok (refused "rate_limit" "Слишком частые запросы, повторите позже"))
          else if (status =? StatusForbidden) || (status =? StatusNotFound) then
            ret (removeEnrollState deleted url) (Ok (revoked (read_error body)))
          else if 500 <=? status then ret f (Ok (refused "server_error" (server_message status)))
          else ret f (Ok (refused (ee_Error (read_error body)) (ee_Message (read_error body))))
      end
  end.

Definition Enroll (f : fs) (now : Z) (url : string) (machine : res string)
    (post : string -> res (Z * res string)) (hostname user : string) : fs * res EnrollResult :=
  Enroll_answer pair (handleEnrollSuccess f now url) (deleteEnrolledProfile f url) f url machine post hostname user.

(** [handleEnrollSuccess] on a nil store: both [Get] and the import, once it has
    checked the content, read its directory. *)
Definition handleEnrollSuccess_nil (f : fs) (url config : string) : option (fs * res EnrollResult) :=
  match toml_profile config with
  | Err e => Some (f, Err ("parse config: " +:+ e))
  | Ok doc => if bool_decide (findEnrolledProfileID f url = "") && negb (usable doc)
              then Some (f, Err ("save profile: " +:+ must_have)) else None
  end.

Definition Enroll_nil (f : fs) (url : string) (machine : res string)
    (post : string -> res (Z * res string)) (hostname user : string) : option (fs * res EnrollResult) :=
  Enroll_answer (fun f r => Some (f, r)) (fun _ => handleEnrollSuccess_nil f url) f f url machine post hostname user.

(** The states of the directory, in the order of [os.ReadDir]. *)
Definition LoadAllEnrollStates (f : fs) : list EnrollState :=
  if bool_decide (enrollDir = "") then [] else
  omap (fun path =>
    if HasPrefix path (enrollDir +:+ "/") && negb (has_char slash (TrimPrefix path (enrollDir +:+ "/")))
       && HasSuffix path ".json"
    then match ReadFile f path with
         | Ok data => let '(s, ok) := read_state data in
                      if ok && negb (bool_decide (es_URL s = "")) then Some s else None
         | Err _ => None
         end
    else None) (walk {| dir := enrollDir |} f).

End enroll.

Section pass.
Variable toml_profile : string -> res ProfileTOML.
Variable sha1 sha256 : list byte -> list byte.
Variable state_json : EnrollState -> string.
Variable read_state : string -> EnrollState * bool.
Variable request_json : enrollRequest -> string.
Variable read_error : string -> enrollError.
Variable enrollDir : string.

(** [Enroll] on a pointer to the store; [None] is the nil pointer panic. *)
Definition Enroll_ptr (store : option ProfileStore) (f : fs) (now : Z) (url : string) (machine : res string)
    (post : string -> res (Z * res string)) (hostname user : string) : option (fs * res EnrollResult) :=
  match store with
  | Some st => Some (Enroll toml_profile sha1 sha256 state_json read_state request_json read_error enrollDir st
                       f now url machine post hostname user)
  | None => Enroll_nil toml_profile sha256 read_state request_json read_error enrollDir f url machine post hostname user
  end.

Fixpoint check_states (store : option ProfileStore) (now : Z) (machine : res string)
    (server : string -> string -> res (Z * res string)) (hostname user : string) (f : fs)
    (states : list EnrollState) : option (fs * list EnrollResult) :=
  match states with
  | [] => Some (f, [])
  | s :: states =>
      '(f, r) ← Enroll_ptr store f now (es_URL s) machine (server (es_URL s)) hostname user;
      '(f, rs) ← check_states store now machine server hostname user f states;
      Some (f, match r with Ok r => r :: rs | Err _ => rs end)
  end.

(** One pass over all enrolments; [server] answers for each URL. *)
Definition CheckAllEnrollments (store : option ProfileStore) (f : fs) (now : Z) (machine : res string)
    (server : string -> string -> res (Z * res string)) (hostname user : string)
  : option (fs * list EnrollResult) :=
  check_states store now machine server hostname user f (LoadAllEnrollStates read_state enrollDir f).

Lemma check_states_store st now machine server hostname user states : forall f,
  is_Some (check_states (Some st) now machine server hostname user f states).
Proof.
  induction states as [|s states IH]; intros f; [by eexists|]. cbn. destruct (Enroll _ _ _ _ _ _ _ _ _ _ _ _ _ _ _ _) as [f' r].
  destruct (IH f') as [[f2 rs] ->]. by eexists.
Qed.

(** The pass stops the program only without a store, with a device enrolled, and
    when a server answers with a success. *)
Lemma CheckAllEnrollments_nil store f now machine server hostname user :
  CheckAllEnrollments store f now machine server hostname user = None ->
  store = None /\ LoadAllEnrollStates read_state enrollDir f <> [] /\
  exists url q body, server url q = Ok (StatusOK, Ok body).
Proof.
  unfold CheckAllEnrollments. destruct store as [st|].
  { intros Hn. destruct (check_states_store st now machine server hostname user (LoadAllEnrollStates read_state enrollDir f) f)
      as [x Hx]. by rewrite Hn in Hx. }
  intros Hn. split; [done|]. split; [by intros E; rewrite E in Hn|]. revert f Hn.
  generalize (LoadAllEnrollStates read_state enrollDir).
  intros g f. generalize (g f). clear g. intros states. revert f.
  induction states as [|s states IH]; intros f; [done|]. cbn.
  destruct (Enroll_nil _ _ _ _ _ _ _ _ _ _ _ _) as [[f' r]|] eqn:E; cbn.
  - destruct (check_states _ _ _ _ _ _ _ _) as [[f2 rs]|] eqn:E2; [done|]. intros _. by apply (IH f').
  - intros _. unfold Enroll_nil, Enroll_answer in E. destruct (DeviceFingerprint _ _); [|done].
    destruct (server (es_URL s) _) as [[status [body|]]|] eqn:Es; [|done..].
    destruct (Z.eqb_spec status StatusOK) as [->|]; [by eauto|].
    destruct (_ =? _); [done|]. destruct (_ || _); [done|]. by destruct (_ <=? _).
Qed.
End pass.

(** ** Lemmas *)

Section facts.
Variable toml_profile : string -> res ProfileTOML.
Variable sha1 sha256 : list byte -> list byte.
Variable state_json : EnrollState -> string.
Variable read_state : string -> EnrollState * bool.
Variable request_json : enrollRequest -> string.
Variable read_error : string -> enrollError.
Variable enrollDir : string.
Variable store : ProfileStore.

(** A saved state is read back. *)
Hypothesis state_read : forall s, read_state (state_json s) = (s, true).

Abbreviation find_id := (findEnrolledProfileID sha256 read_state enrollDir).
Abbreviation state_file := (enrollStateFile sha256 enrollDir).
Abbreviation enroll := (Enroll toml_profile sha1 sha256 state_json read_state request_json read_error enrollDir store).

Lemma save_find f url fp id :
  writable f (state_file url) ->
  find_id (saveEnrollState sha256 state_json enrollDir f url fp id) url = id.
Proof.
  intros H. unfold findEnrolledProfileID, saveEnrollState. rewrite WriteFile_ok by done. cbn [fst].
  rewrite ReadFile_written by apply H. by rewrite state_read.
Qed.

Lemma ImportContent_writable f now data filename path :
  writable f path -> writable (ImportContent toml_profile sha1 store f now data filename).1 path.
Proof.
  pose proof (ImportContent_cases toml_profile sha1 store f now data filename) as H.
  destruct (ImportContent _ _ _ _ _ _ _) as [f' [p|e]].
  - by destruct H as (? & _ & _ & _ & _ & -> & _).
  - by destruct H as [->|(? & _ & (_ & _ & ->) & _)].
Qed.

Lemma WriteFile_writable f p s path : writable f path -> writable (WriteFile f p s).1 path.
Proof. unfold writable. destruct (WriteFile_paths f p s) as [-> ->]. done. Qed.

Lemma find_id_file f url : find_id f url <> "" -> is_Some (fs_files f !! state_file url).
Proof.
  unfold findEnrolledProfileID, ReadFile. case_bool_decide; [done|].
  by destruct (fs_files f !! state_file url).
Qed.

(** ** Properties *)

(** A successful enrolment remembers its profile.  When the server sends a
    profile that parses and the result is a success, the identifier it reports
    is the one stored for the URL; a device already enrolled keeps its profile
    file, which gets the new content, as far as there is room, and no other
    profile is made.  When it fails, no file changes, but for the part of a new
    profile that a full disk took. *)
Theorem enroll_success (f f' : fs) (now : Z) (url hostname user config : string) (machine : res string)
    (post : string -> res (Z * res string)) (r : res EnrollResult)
  (Hfp : is_ok machine = true) (Hpost : forall q, post q = Ok (StatusOK, Ok config))
  (Hfree : writable f (state_file url))
  (Hrun : enroll f now url machine post hostname user = (f', r)) :
  match r with
  | Err _ => f' = f \/ exists path, torn f path config f'
  | Ok res => OK res = true /\ find_id f' url = ProfileID res /\
      forall p, find_id f url <> "" -> Get toml_profile sha1 store f (find_id f url) = Ok p ->
        ProfileID res = find_id f url /\
        exists st, fs_files f' = <[state_file url := st]>
          (fs_files (WriteFile f (p_Path p) config).1)
  end.
Proof using state_read.
  unfold Enroll, Enroll_answer, DeviceFingerprint in Hrun. destruct machine as [mid|]; [|done].
  cbn [wrap_err map_err mbind res_bind] in Hrun. rewrite Hpost in Hrun. cbn zeta in Hrun.
  rewrite Z.eqb_refl in Hrun. unfold handleEnrollSuccess in Hrun.
  set (fp := hex_EncodeToString _) in Hrun.
  destruct (toml_profile config) as [doc|] eqn:Ed; [|injection Hrun as <- <-; by left]. cbn zeta in Hrun.
  set (name := if bool_decide (et_Hostname _ <> _) then _ else _) in Hrun.
  assert (Himp : match importEnrolled toml_profile sha1 sha256 state_json enrollDir store f now url fp config name with
    | (g, Err _) => g = f \/ exists path, torn f path config g
    | (g, Ok res) => OK res = true /\ find_id g url = ProfileID res end).
  { unfold importEnrolled.
    pose proof (ImportContent_cases toml_profile sha1 store f now config (name +:+ ".toml")) as H.
    pose proof (ImportContent_writable f now config (name +:+ ".toml") _ Hfree) as Hl.
    destruct (ImportContent _ _ _ _ _ _ _) as [g [p|e]]; [by split; [|apply save_find]|].
    destruct H as [->|(n & _ & Ht & _)]; [by left|right; by eexists]. }
  case_bool_decide as Hid.
  - destruct (Get _ _ _ f _) as [p|] eqn:Eg.
    + injection Hrun as <- <-. cbn. split; [done|].
      pose proof (WriteFile_writable f (p_Path p) config _ Hfree) as Hw.
      split; [by apply save_find|]. intros q _ [= <-]. split; [done|].
      eexists. unfold saveEnrollState. by rewrite WriteFile_ok.
    + rewrite Hrun in Himp. destruct r as [res|e']; [|done]. destruct Himp. split_and!; [done..|].
      intros p _ Hp. done.
  - rewrite Hrun in Himp. destruct r as [res|e']; [|done]. destruct Himp. by split_and!.
Qed.

(** A revocation removes the profile, and nothing else does.  When the
    server forbids the device or does not know it, the profile stored for the
    URL and the state are deleted, and the URL is forgotten; any other answer
    than a success, and any failure, leaves every file as it was. *)
Theorem enroll_revocation (f : fs) (now : Z) (url hostname user : string) (machine : res string)
    (post : string -> res (Z * res string)) (status : Z) (body : res string) (p : Profile)
  (Hpost : forall q, post q = Ok (status, body))
  (Hfree : state_file url ∉ fs_locked f)
  (Hknown : find_id f url <> "") (Hget : Get toml_profile sha1 store f (find_id f url) = Ok p)
  (Hdel : p_Path p ∉ fs_locked f) :
  let f' := (Enroll toml_profile sha1 sha256 state_json read_state request_json read_error enrollDir store
               f now url machine post hostname user).1 in
  (is_ok machine = true -> is_ok body = true -> status = StatusForbidden \/ status = StatusNotFound ->
     fs_files f' = delete (state_file url) (delete (p_Path p) (fs_files f)) /\ find_id f' url = "") /\
  (status <> StatusOK -> (is_ok machine = false \/ is_ok body = false \/
       (status <> StatusForbidden /\ status <> StatusNotFound)) -> f' = f).
Proof.
  cbn zeta. unfold Enroll, Enroll_answer, DeviceFingerprint.
  destruct machine as [mid|e]; cbn [wrap_err map_err mbind res_bind]; [|split; [done|done]].
  rewrite Hpost. destruct body as [body|e]; [|split; [done|done]]. cbn [is_ok].
  assert (Hpath : is_Some (fs_files f !! p_Path p)).
  { apply Get_Ok in Hget as [Hin _]. apply elem_of_List in Hin as (path & Hp & _ & _ & Hl).
    by apply loadProfile_Ok in Hl as (-> & _). }
  split.
  - intros _ _ Hst. replace (status =? StatusOK) with false by (by destruct Hst as [-> | ->]).
    replace (status =? StatusTooManyRequests) with false by (by destruct Hst as [-> | ->]).
    replace ((status =? StatusForbidden) || (status =? StatusNotFound)) with true
      by (by destruct Hst as [-> | ->]). cbn [fst].
    unfold deleteEnrolledProfile. rewrite bool_decide_true by done. unfold Delete. rewrite Hget.
    assert (Hrm : (Remove f (p_Path p)).1 = set_files f (delete (p_Path p) (fs_files f))).
    { unfold Remove. rewrite bool_decide_false by done. by destruct Hpath as [x ->]. }
    rewrite Hrm. unfold removeEnrollState, Remove. cbn [fs_locked set_files fs_files].
    rewrite bool_decide_false by done.
    set (m := delete (p_Path p) (fs_files f)).
    assert (Hfiles : fs_files (match m !! state_file url with
        | Some _ => (set_files (set_files f m) (delete (state_file url) m), None)
        | None => (set_files f m, Some (err_noent "remove" (state_file url))) end).1 = delete (state_file url) m).
    { destruct (m !! state_file url) eqn:E; cbn; [done|]. by rewrite delete_id. }
    split; [exact Hfiles|]. unfold findEnrolledProfileID, ReadFile.
    case_bool_decide; [done|]. rewrite Hfiles. by rewrite lookup_delete_eq.
  - intros Hne Hother. destruct Hother as [?|[?|[H1 H2]]]; [done..|].
    rewrite (proj2 (Z.eqb_neq _ _) Hne), (proj2 (Z.eqb_neq _ _) H1), (proj2 (Z.eqb_neq _ _) H2). cbn [orb].
    destruct (_ =? _); [done|]. by destruct (_ <=? _).
Qed.
End facts.

(** ** Witnesses: a codec that marks every character of a field, and its end *)

Fixpoint ex_put (s rest : string) : string :=
  match s with
  | EmptyString => String "0"%char rest
  | String c s => String "1"%char (String c (ex_put s rest))
  end.

Fixpoint ex_take (s : string) : option (string * string) :=
  match s with
  | String "0"%char rest => Some ("", rest)
  | String "1"%char (String c s) => prod_map (String c) id <$> ex_take s
  | _ => None
  end.

Definition ex_json (s : EnrollState) : string :=
  ex_put (es_URL s) (ex_put (es_Fingerprint s) (ex_put (es_ProfileID s) "")).

Definition ex_read (t : string) : EnrollState * bool :=
  match
    '(u, t) ← ex_take t; '(fp, t) ← ex_take t; '(id, t) ← ex_take t;
    if bool_decide (t = "") then Some {| es_URL := u; es_Fingerprint := fp; es_ProfileID := id |} else None
  with Some s => (s, true) | None => (no_state, false) end.

Lemma ex_take_put s rest : ex_take (ex_put s rest) = Some (s, rest).
Proof. induction s as [|c s IH]; cbn [ex_put ex_take]; [done|]. by rewrite IH. Qed.

Lemma ex_state_read s : ex_read (ex_json s) = (s, true).
Proof.
  destruct s as [u fp id]. unfold ex_read, ex_json. cbn [es_URL es_Fingerprint es_ProfileID].
  rewrite ex_take_put. cbn [mbind option_bind]. rewrite ex_take_put. cbn [mbind option_bind].
  rewrite ex_take_put. done.
Qed.

Definition ex_dir : string := "/home/ann/ttclient/enroll".
Definition ex_url : string := "https://vpn.example/enroll/0123456789".

(** A device enrolled with the profile "My-VPN". *)
Definition ex_enrolled : fs :=
  set_files ex_fs
    (<[enrollStateFile id ex_dir ex_url :=
        ex_json {| es_URL := ex_url; es_Fingerprint := "f";
                   es_ProfileID := profile_id (@rev byte) "/home/ann/ttclient/profiles/My-VPN.toml" |}]> (fs_files ex_fs)).

Definition ex_answer (status : Z) (q : string) : res (Z * res string) := Ok (status, Ok "text").

Definition ex_enroll (status : Z) : fs * res EnrollResult :=
  Enroll ex_toml (@rev byte) id ex_json ex_read (fun _ => "") (fun _ => {| ee_Error := ""; ee_Message := "" |})
    ex_dir ex_store ex_enrolled 17 ex_url (Ok "machine") (ex_answer status) "host" "ann".

Definition ex_profile : Profile :=
  {| p_ID := profile_id (@rev byte) "/home/ann/ttclient/profiles/My-VPN.toml";
     p_Path := "/home/ann/ttclient/profiles/My-VPN.toml"; p_Name := "My-VPN";
     p_Endpoint := "vpn.example:443"; p_Username := "ann"; p_Toml := ex_doc |}.

Lemma enroll_success_witness :
  findEnrolledProfileID id ex_read ex_dir (ex_enroll StatusOK).1 ex_url = p_ID ex_profile.
Proof.
  destruct (enroll_success ex_toml (@rev byte) id ex_json ex_read (fun _ => "")
    (fun _ => {| ee_Error := ""; ee_Message := "" |}) ex_dir ex_store ex_state_read
    ex_enrolled (ex_enroll StatusOK).1 17 ex_url "host" "ann" "text" (Ok "machine") (ex_answer StatusOK)
    (Ok (enrolled (p_ID ex_profile))) eq_refl (fun _ => eq_refl)) as (_ & H & _).
  - split; [apply not_elem_of_empty|reflexivity].
  - vm_compute. reflexivity.
  - exact H.
Defined.

Lemma enroll_revocation_witness :
  fs_files (ex_enroll StatusForbidden).1 =
  delete (enrollStateFile id ex_dir ex_url) (delete (p_Path ex_profile) (fs_files ex_enrolled)).
Proof.
  eapply (proj1 (proj1 (enroll_revocation ex_toml (@rev byte) id ex_json ex_read (fun _ => "")
    (fun _ => {| ee_Error := ""; ee_Message := "" |}) ex_dir ex_store
    ex_enrolled 17 ex_url "host" "ann" (Ok "machine") (ex_answer StatusForbidden) StatusForbidden (Ok "text")
    ex_profile (fun _ => eq_refl) _ _ _ _) eq_refl eq_refl (or_introl eq_refl))).
  Unshelve.
  - apply not_elem_of_empty.
  - vm_compute. discriminate.
  - vm_compute. reflexivity.
  - apply not_elem_of_empty.
Defined.
