(* ===== verification/App.v ===== *)
(** cmd/ttclient: the desktop application.  Its bindings as operations on the
    application, the files, the client of [ClientCore] and the notices shown;
    deep links, logs, the update check and the adapters of Windows.  One binding
    runs at a time, and wails, the JSON codecs and the network are parameters. *)
From S2P Require Import Prelude GoStrings GoHttp GoOS Profile Enroll.
From S2P Require Dialer Routes Tun ClientCore.
#[local] Open Scope Z_scope.

#[local] Existing Instance ClientCore.State_eq_dec.

(** ** main.go: deep links *)

Definition deep_scheme : string := "firetunnel://".

(** The characters [url.Parse] takes in the user part of an authority. *)
Definition userinfo_char (c : ascii) : bool :=
  let v := aval c in
  ((97 <=? v) && (v <=? 122)) || ((65 <=? v) && (v <=? 90)) || ((48 <=? v) && (v <=? 57)) ||
  has_char c "-._:~!$&'()*+,;=%@".
Definition valid_userinfo (s : string) : bool := forallb userinfo_char (String.list_ascii_of_string s).

(** [url.Parse] of a link with the scheme: its query when it parses with the
    host "enroll", which no other authority than one ending in it yields. *)
Definition enroll_query (link : string) : option string :=
  let '(u, frag) := default (link, "") (Cut "#"%char link) in
  let '(rest, query) := default (u, "") (Cut "?"%char u) in
  let '(authority, path) := default (sdrop 13 rest, "") (Cut "/"%char (sdrop 13 rest)) in
  let '(user, host) := default ("", authority) (CutLast "@"%char authority) in
  if negb (has_ctl u) && is_ok (QueryUnescape frag) && is_ok (QueryUnescape path) &&
     valid_userinfo user && is_ok (QueryUnescape user) && bool_decide (host = "enroll")
  then Some query else None.

Definition deep_link (arg : string) : option string :=
  if HasPrefix arg deep_scheme then
    query ← enroll_query arg;
    let url := default "" (ParseQuery query !! "url") in
    if bool_decide (url = "") then None else Some url
  else None.

(** [parseDeepLink]: the first argument behind the program that is a link. *)
Definition parseDeepLink (args : list string) : string := default "" (head (omap deep_link (tail args))).

(** ** Files in fixed places (elevate_*.go, logs.go; with slashes) *)

Definition app_file (home name : string) : string :=
  path_Join (path_Join (path_Join home ".config") "ttclient") name.
Definition logFilePath (home : string) : string := app_file home "ttclient.log".
Definition deepLinkFile (home : string) : string :=
  app_file (if bool_decide (home = "") then "/tmp" else home) "pending_deeplink".

(** The file of a link is removed as it is read. *)
Definition readAndClearDeepLinkFile (f : fs) (home : string) : fs * string :=
  match ReadFile f (deepLinkFile home) with
  | Err _ => (f, "")
  | Ok data => ((Remove f (deepLinkFile home)).1, TrimSpace data)
  end.

(** The link [main] starts with. *)
Definition first_link (f : fs) (home : string) (args : list string) : fs * string :=
  let link := parseDeepLink args in
  let '(f, file_link) := readAndClearDeepLinkFile f home in
  (f, if bool_decide (file_link <> "") && bool_decide (link = "") then file_link else link).

(** The script that asks for administrator rights on macOS. *)
Definition elevate_script (exe : string) (args : list string) : string :=
  "do shell script " +:+ String dq (exe +:+ " " +:+ Join " " (tail args)) +:+ String dq " with administrator privileges".

Definition readLogTail (f : fs) (home : string) (maxLines : nat) : res string :=
  data ← ReadFile f (logFilePath home);
  let lines := Split nl data in
  Ok (Join nls (if (maxLines <? length lines)%nat then drop (length lines - maxLines) lines else lines)).

Definition ReadLogs (f : fs) (home : string) (lines : Z) : res string :=
  readLogTail f home (Z.to_nat (if lines <=? 0 then 200 else lines)).

(** ** The update check *)

Definition Version : string := "0.1.0-beta".

Record release := { TagName : string; HTMLURL : string; Body : string }.
Record UpdateInfo := { Available : bool; u_Version : string; URL : string; ReleaseNotes : string }.

(** Go's order of strings. *)
Definition str_gt (a b : string) : bool := negb (String.leb a b).

(** [fetch]: the status and the body; [decode]: encoding/json. *)
Definition CheckForUpdate (fetch : res (Z * res string)) (decode : string -> res release) : res UpdateInfo :=
  '(status, body) ← wrap_err "check update: " fetch;
  if negb (status =? 200) then Ok {| Available := false; u_Version := ""; URL := ""; ReleaseNotes := "" |}
  else
    body ← body;
    r ← decode (stake 65536 body);
    let remote := TrimPrefix (TagName r) "v" in
    Ok (if negb (bool_decide (remote = "")) && negb (bool_decide (remote = Version)) && str_gt remote Version
        then {| Available := true; u_Version := remote; URL := HTMLURL r; ReleaseNotes := Body r |}
        else {| Available := false; u_Version := Version; URL := ""; ReleaseNotes := "" |}).

(** ** wintun_check_windows.go: other VPN adapters *)

Record ConflictAdapter := { ca_Name : string; ca_Description : string; ca_Status : string }.

Definition conflicts : list string :=
  ["radmin"; "hamachi"; "anydesk"; "zerotier"; "tailscale";
   "wireguard"; "wintun"; "cloudflare"; "openvpn"; "tap-windows"].

Definition quote_comma : string := String dq (String ","%char (String dq "")).

(** [strings.Split] at a separator that is not empty. *)
Fixpoint split_go (fuel : nat) (s sep : string) : list string :=
  match fuel, Index s sep with
  | S fuel, Some i => stake i s :: split_go fuel (sdrop (i + String.length sep) s) sep
  | _, _ => [s]
  end.
Definition SplitOn (s sep : string) : list string := split_go (String.length s) s sep.

(** One line of the CSV that PowerShell prints. *)
Definition conflict_of_line (line : string) : option ConflictAdapter :=
  let line := TrimSpace line in
  if bool_decide (line = "") then None
  else
    let q := String dq "" in
    match SplitOn (Trim line q) quote_comma with
    | a :: b :: c :: _ =>
        let '(name, desc, status) := (Trim a q, Trim b q, Trim c q) in
        let lower := ToLower (name +:+ " " +:+ desc) in
        if existsb (fun kw => Contains lower kw && negb (Contains lower "firetunnel")) conflicts
        then Some {| ca_Name := name; ca_Description := desc; ca_Status := status |} else None
    | _ => None
    end.

Definition FindConflictAdapters (out : res string) : list ConflictAdapter :=
  match out with
  | Err _ => []
  | Ok out => omap conflict_of_line (tail (Split nl out))
  end.

(** ** clipboard_other.go *)
Definition readSystemClipboard (xclip xsel : res string) : string :=
  match xclip with
  | Ok out => TrimSpace out
  | Err _ => match xsel with Ok out => TrimSpace out | Err _ => "" end
  end.

(** ** app.go *)

(** The parameters: codecs and hashes, and the directory of the enrolments. *)
Record codecs := {
  k_toml : string -> res ProfileTOML;
  k_sha1 : list byte -> list byte;
  k_sha256 : list byte -> list byte;
  k_state_json : EnrollState -> string;
  k_read_state : string -> EnrollState * bool;
  k_request_json : enrollRequest -> string;
  k_read_error : string -> enrollError;
  k_read_settings : string -> GlobalSettings * option string;
  k_write_settings : GlobalSettings -> res string;
  k_enrollDir : string;
}.

Inductive notice :=
| Notify (text : string)                       (* beeep *)
| Emit (event : string) (data : list string)   (* EventsEmit *)
| Browse (url : string).                       (* BrowserOpenURL *)

Record App (Pool : Type) := {
  client : ClientCore.Client Pool;
  profiles : option ProfileStore;
  settings : option string;                    (* the path of the store *)
  activeProfileID : string;
  pendingDeepLink : string;
}.
Arguments client {Pool} _.
Arguments profiles {Pool} _.
Arguments settings {Pool} _.
Arguments activeProfileID {Pool} _.
Arguments pendingDeepLink {Pool} _.

(** The application with what it works on. *)
Record desk (Pool : Type) := {
  d_app : App Pool;
  d_fs : fs;
  d_world : ClientCore.world;
  d_out : list notice;
}.
Arguments d_app {Pool} _.
Arguments d_fs {Pool} _.
Arguments d_world {Pool} _.
Arguments d_out {Pool} _.

(** What answers while one binding runs. *)
Record around (Pool : Type) := {
  r_client : ClientCore.outside Pool;
  r_machine : res string;
  r_server : string -> string -> res (Z * res string);   (* enrolment URL, request *)
  r_hostname : string;
  r_user : string;
  r_now : Z;
}.
Arguments r_client {Pool} _.
Arguments r_machine {Pool} _.
Arguments r_server {Pool} _.
Arguments r_hostname {Pool} _.
Arguments r_user {Pool} _.
Arguments r_now {Pool} _.

Section app.
Variable k : codecs.
Context {Pool : Type}.

Definition with_app (d : desk Pool) (a : App Pool) : desk Pool :=
  {| d_app := a; d_fs := d_fs d; d_world := d_world d; d_out := d_out d |}.
Definition with_fs (d : desk Pool) (f : fs) : desk Pool :=
  {| d_app := d_app d; d_fs := f; d_world := d_world d; d_out := d_out d |}.
Definition shown (d : desk Pool) (n : list notice) : desk Pool :=
  {| d_app := d_app d; d_fs := d_fs d; d_world := d_world d; d_out := d_out d ++ n |}.
Definition set_active (a : App Pool) (id : string) : App Pool :=
  {| client := client a; profiles := profiles a; settings := settings a; activeProfileID := id;
     pendingDeepLink := pendingDeepLink a |}.
Definition set_pending (a : App Pool) (link : string) : App Pool :=
  {| client := client a; profiles := profiles a; settings := settings a; activeProfileID := activeProfileID a;
     pendingDeepLink := link |}.
Definition active (d : desk Pool) (id : string) : desk Pool := with_app d (set_active (d_app d) id).

Definition with_client (d : desk Pool) (c : ClientCore.Client Pool) (w : ClientCore.world) : desk Pool :=
  {| d_app := {| client := c; profiles := profiles (d_app d); settings := settings (d_app d);
                 activeProfileID := activeProfileID (d_app d); pendingDeepLink := pendingDeepLink (d_app d) |};
     d_fs := d_fs d; d_world := w; d_out := d_out d |}.

Definition client_Connect (d : desk Pool) (s : around Pool) (cfg : Dialer.Config) : desk Pool * option string :=
  let '(c, w, err) := ClientCore.Connect (client (d_app d)) (d_world d) (r_client s) cfg in
  (with_client d c w, err).
Definition client_Disconnect (d : desk Pool) (s : around Pool) : desk Pool * option string :=
  let '(c, w, err) := ClientCore.Disconnect (client (d_app d)) (d_world d) (r_client s) in
  (with_client d c w, err).

(** [NewApp]: a store that cannot be made is absent. *)
Definition NewApp (f : fs) (config_dir : res string) : App Pool :=
  {| client := ClientCore.New; profiles := res_opt (NewProfileStore f config_dir);
     settings := res_opt (NewSettingsStore f config_dir); activeProfileID := ""; pendingDeepLink := "" |}.

Definition no_profiles : string := "profile store unavailable".
Definition no_settings : string := "settings store unavailable".

(** The global settings over the configuration of a connection. *)
Definition merge_settings (g : GlobalSettings) (cfg : Dialer.Config) : Dialer.Config :=
  {| Dialer.Endpoint := Dialer.Endpoint cfg; Dialer.Hostname := Dialer.Hostname cfg;
     Dialer.Username := Dialer.Username cfg; Dialer.Password := Dialer.Password cfg;
     Dialer.Insecure := Dialer.Insecure cfg; Dialer.PinnedCertPEM := Dialer.PinnedCertPEM cfg;
     Dialer.Exclusions := if BypassDomains g then Dialer.Exclusions cfg ++ GlobalExclusions g
                          else Dialer.Exclusions cfg;
     Dialer.EnableAdBlock := gs_EnableAdBlock g;
     Dialer.UpstreamDNS := if bool_decide (gs_UpstreamDNS g <> "") then gs_UpstreamDNS g else "1.1.1.1";
     Dialer.RoutingMode := gs_RoutingMode g |}.

Definition set_last (g : GlobalSettings) (id : string) : GlobalSettings :=
  {| LastProfileID := id; BypassDomains := BypassDomains g; GlobalExclusions := GlobalExclusions g;
     Language := Language g; AutoConnect := AutoConnect g; gs_EnableAdBlock := gs_EnableAdBlock g;
     Theme := Theme g; gs_UpstreamDNS := gs_UpstreamDNS g; gs_RoutingMode := gs_RoutingMode g |}.
Definition set_exclusions (g : GlobalSettings) (l : list string) : GlobalSettings :=
  {| LastProfileID := LastProfileID g; BypassDomains := true; GlobalExclusions := l;
     Language := Language g; AutoConnect := AutoConnect g; gs_EnableAdBlock := gs_EnableAdBlock g;
     Theme := Theme g; gs_UpstreamDNS := gs_UpstreamDNS g; gs_RoutingMode := gs_RoutingMode g |}.

(** The settings, when they load. *)
Definition loaded (d : desk Pool) : option (string * GlobalSettings) :=
  match settings (d_app d) with
  | None => None
  | Some path => match Load (k_read_settings k) (d_fs d) path with
                 | (g, None) => Some (path, g)
                 | (_, Some _) => None
                 end
  end.

Definition Connect (d : desk Pool) (s : around Pool) (cfg : Dialer.Config) : desk Pool * option string :=
  let d := active d "" in
  let cfg := match loaded d with Some (_, g) => merge_settings g cfg | None => cfg end in
  match client_Connect d s cfg with
  | (d, Some e) => (shown d [Notify "Connection failed"], Some e)
  | (d, None) => (shown d [Notify "Connected"], None)
  end.

Definition enroll (d : desk Pool) (s : around Pool) (st : ProfileStore) (url : string)
  : desk Pool * res EnrollResult :=
  let '(f, r) := Enroll (k_toml k) (k_sha1 k) (k_sha256 k) (k_state_json k) (k_read_state k) (k_request_json k)
    (k_read_error k) (k_enrollDir k) st (d_fs d) (r_now s) url (r_machine s) (r_server s url) (r_hostname s)
    (r_user s) in (with_fs d f, r).

Definition states (d : desk Pool) : list EnrollState :=
  LoadAllEnrollStates (k_read_state k) (k_enrollDir k) (d_fs d).

(** The first enrolment of the profile is asked again; a failure does not block. *)
Definition checkEnrollmentForProfile (d : desk Pool) (s : around Pool) (st : ProfileStore) (id : string)
  : desk Pool * bool :=
  match head (filter (fun e => es_ProfileID e = id) (states d)) with
  | None => (d, false)
  | Some e =>
      match enroll d s st (es_URL e) with
      | (d, Err _) => (d, false)
      | (d, Ok r) =>
          if Revoked r
          then (shown d [Notify ("Device access revoked: " +:+ Message r);
                         Emit "enrollment_revoked" [id; Message r]], true)
          else (d, false)
      end
  end.

(** The settings of a profile's connection, which also remember the profile. *)
Definition use_settings (d : desk Pool) (id : string) (cfg : Dialer.Config) : desk Pool * Dialer.Config :=
  match loaded d with
  | None => (d, cfg)
  | Some (path, g) => (with_fs d (Save (k_write_settings k) (d_fs d) path (set_last g id)).1, merge_settings g cfg)
  end.

Definition ConnectProfile (d : desk Pool) (s : around Pool) (id : string) : desk Pool * option string :=
  match profiles (d_app d) with
  | None => (d, Some no_profiles)
  | Some st =>
      let '(d, is_revoked) := checkEnrollmentForProfile d s st id in
      if is_revoked then (d, Some "device access revoked")
      else
        match Get (k_toml k) (k_sha1 k) st (d_fs d) id with
        | Err e => (d, Some e)
        | Ok p =>
            let '(d, cfg) := use_settings (active d id) id (ToConfig p) in
            match client_Connect d s cfg with
            | (d, Some e) => (shown (active d "") [Notify "Connection failed"], Some e)
            | (d, None) => (shown d [Notify ("Connected: " +:+ p_Name p)], None)
            end
        end
  end.

Definition Disconnect (d : desk Pool) (s : around Pool) : desk Pool * option string :=
  match client_Disconnect (active d "") s with
  | (d, Some e) => (d, Some e)
  | (d, None) => (shown d [Notify "Disconnected"], None)
  end.

(** *** Profiles and settings *)

Definition with_store {A} (d : desk Pool) (g : ProfileStore -> res A) : res A :=
  match profiles (d_app d) with None => Err no_profiles | Some st => g st end.
Definition Profiles (d : desk Pool) : res (list Profile) :=
  with_store d (fun st => Ok (List_ (k_toml k) (k_sha1 k) st (d_fs d))).
Definition ReadProfileContent (d : desk Pool) (id : string) : res string :=
  with_store d (fun st => ReadContent (k_toml k) (k_sha1 k) st (d_fs d) id).
Definition SaveProfileContent (d : desk Pool) (id content : string) : desk Pool * option string :=
  match profiles (d_app d) with
  | None => (d, Some no_profiles)
  | Some st => let '(f, err) := WriteContent (k_toml k) (k_sha1 k) st (d_fs d) id content in (with_fs d f, err)
  end.
Definition GetGlobalSettings (d : desk Pool) : GlobalSettings * option string :=
  match settings (d_app d) with
  | None => (zero_settings, Some no_settings)
  | Some path => Load (k_read_settings k) (d_fs d) path
  end.
Definition SaveGlobalSettings (d : desk Pool) (g : GlobalSettings) : desk Pool * option string :=
  match settings (d_app d) with
  | None => (d, Some no_settings)
  | Some path => let '(f, err) := Save (k_write_settings k) (d_fs d) path g in (with_fs d f, err)
  end.

(** [dial]: milliseconds, or a failure.  A profile without address is left out. *)
Definition PingAll (d : desk Pool) (dial : string -> option Z) : gmap string Z :=
  match profiles (d_app d) with
  | None => ∅
  | Some st =>
      foldl (fun m p => if bool_decide (p_Endpoint p = "") then m
                        else <[p_ID p := default (-1) (dial (p_Endpoint p))]> m)
        ∅ (List_ (k_toml k) (k_sha1 k) st (d_fs d))
  end.

Definition import (d : desk Pool) (s : around Pool) (content name : string) : desk Pool * res Profile :=
  match profiles (d_app d) with
  | None => (d, Err no_profiles)
  | Some st => let '(f, r) := ImportContent (k_toml k) (k_sha1 k) st (d_fs d) (r_now s) content name in
               (with_fs d f, r)
  end.
Definition ImportProfileContent (d : desk Pool) (s : around Pool) (content filename : string)
  : desk Pool * res Profile :=
  import d s content (if bool_decide (filename = "") then "imported.toml" else filename).
Definition ImportProfileFromText (d : desk Pool) (s : around Pool) (content name : string)
  : desk Pool * res Profile :=
  match profiles (d_app d) with
  | None => (d, Err no_profiles)
  | Some _ =>
      if bool_decide (TrimSpace content = "") then (d, Err "empty config")
      else
        let name := if bool_decide (name = "") then "imported.toml" else name in
        import d s content (if HasSuffix name ".toml" then name else name +:+ ".toml")
  end.

(** The dialog answers a path, empty when it was cancelled. *)
Definition ImportProfile (d : desk Pool) (s : around Pool) (choice : res string) : desk Pool * res (option Profile) :=
  match profiles (d_app d), choice with
  | None, _ => (d, Err no_profiles)
  | Some _, Err e => (d, Err e)
  | Some st, Ok path =>
      if bool_decide (path = "") then (d, Ok None)
      else match Import (k_toml k) (k_sha1 k) st (d_fs d) (r_now s) path with
           | (f, Err e) => (with_fs d f, Err e)
           | (f, Ok p) => (with_fs d f, Ok (Some p))
           end
  end.

Definition DeleteProfile (d : desk Pool) (s : around Pool) (id : string) : desk Pool * option string :=
  match profiles (d_app d) with
  | None => (d, Some no_profiles)
  | Some st =>
      let d := if bool_decide (activeProfileID (d_app d) = id) then active (client_Disconnect d s).1 "" else d in
      let '(f, err) := Delete (k_toml k) (k_sha1 k) st (d_fs d) id in (with_fs d f, err)
  end.

Definition EnrollDevice (d : desk Pool) (s : around Pool) (url : string) : desk Pool * res EnrollResult :=
  match profiles (d_app d) with
  | None => (d, Err no_profiles)
  | Some st =>
      let url := TrimSpace url in
      if bool_decide (url = "") then (d, Err "empty enroll URL")
      else match enroll d s st url with
           | (d, Err e) => (d, Err e)
           | (d, Ok r) =>
               (shown d ((if OK r && negb (bool_decide (ProfileID r = "")) then [Notify "Устройство привязано"] else [])
                           ++ (if Revoked r then [Notify ("Устройство отозвано: " +:+ Message r)] else [])), Ok r)
           end
  end.

Definition GetPendingDeepLink (d : desk Pool) : desk Pool * string :=
  (with_app d (set_pending (d_app d) ""), pendingDeepLink (d_app d)).
Definition HandleURLOpen (d : desk Pool) (rawURL : string) : desk Pool :=
  let parsed := parseDeepLink [""; rawURL] in
  if bool_decide (parsed <> "") then shown d [Emit "deeplink" [parsed]] else d.

Definition AddExclusion (d : desk Pool) (domain : string) : desk Pool * option string :=
  match settings (d_app d) with
  | None => (d, Some no_settings)
  | Some path =>
      let domain := TrimSpace domain in
      if bool_decide (domain = "") then (d, Some "empty domain")
      else match Load (k_read_settings k) (d_fs d) path with
           | (_, Some e) => (d, Some e)
           | (g, None) =>
               if bool_decide (domain ∈ GlobalExclusions g) then (d, None)
               else let '(f, err) := Save (k_write_settings k) (d_fs d) path
                                       (set_exclusions g (GlobalExclusions g ++ [domain])) in (with_fs d f, err)
           end
  end.

(** *** Start, hot key and end *)

(** The recovery of the DNS, then the pass over the enrolments; [None] is its nil
    pointer panic on an absent profile store. *)
Definition startup (d : desk Pool) (s : around Pool) : option (desk Pool) :=
  let l := Routes.RecoverDNS (ClientCore.o_sys (r_client s)) (ClientCore.w_log (d_world d)) in
  '(f, _) ← CheckAllEnrollments (k_toml k) (k_sha1 k) (k_sha256 k) (k_state_json k) (k_read_state k)
    (k_request_json k) (k_read_error k) (k_enrollDir k) (profiles (d_app d)) (d_fs d) (r_now s) (r_machine s)
    (r_server s) (r_hostname s) (r_user s);
  Some {| d_app := d_app d; d_fs := f;
     d_world := {| ClientCore.w_log := l; ClientCore.w_tuns := ClientCore.w_tuns (d_world d) |}; d_out := d_out d |}.

(** The connection on start. *)
Definition domReady (d : desk Pool) (s : around Pool) : desk Pool :=
  match loaded d with
  | Some (_, g) => if AutoConnect g && negb (bool_decide (LastProfileID g = ""))
                   then (ConnectProfile d s (LastProfileID g)).1 else d
  | None => d
  end.

(** The hot key; [None] is the nil pointer panic of absent settings. *)
Definition hotkey (d : desk Pool) (s : around Pool) : option (desk Pool) :=
  let st := ClientCore.c_state (client (d_app d)) in
  if bool_decide (st = ClientCore.StateConnected) || bool_decide (st = ClientCore.StateConnecting)
  then Some (Disconnect d s).1
  else if bool_decide (activeProfileID (d_app d) <> "") then Some (ConnectProfile d s (activeProfileID (d_app d))).1
  else match settings (d_app d) with
       | None => None
       | Some path =>
           match Load (k_read_settings k) (d_fs d) path with
           | (g, None) => if bool_decide (LastProfileID g <> "") then Some (ConnectProfile d s (LastProfileID g)).1
                          else Some d
           | (_, Some _) => Some d
           end
       end.

Definition shutdown (d : desk Pool) (s : around Pool) : desk Pool := (client_Disconnect d s).1.

Definition statusPayload (d : desk Pool) (s : around Pool) : ClientCore.Snapshot * string :=
  (ClientCore.Status (client (d_app d)) (r_now s), activeProfileID (d_app d)).

(** Bindings that only show something. *)
Definition ProfilesDir (d : desk Pool) : string := from_option Profile.dir "" (profiles (d_app d)).
Definition OpenProfilesDir (d : desk Pool) : desk Pool * option string :=
  match profiles (d_app d) with
  | None => (d, Some no_profiles)
  | Some st => (shown d [Browse ("file://" +:+ Profile.dir st)], None)
  end.
Definition GetConnections (d : desk Pool) : list Tun.ConnEntry := ClientCore.AllConnections (client (d_app d)).

(** *** Histories: the calls between the start and the end *)

Inductive call :=
| CConnect (cfg : Dialer.Config) | CConnectProfile (id : string) | CDisconnect
| CSaveProfile (id content : string) | CSaveSettings (g : GlobalSettings)
| CImport (choice : res string) | CImportContent (content name : string) | CImportText (content name : string)
| CDelete (id : string) | CEnroll (url : string) | CTakeLink | CURLOpen (url : string)
| CAddExclusion (domain : string) | CStartup | CDomReady | CHotkey
| CBypass (ips : list GoNet.IP).               (* the DNS relay of the client *)

Definition bypass (d : desk Pool) (s : around Pool) (ips : list GoNet.IP) : desk Pool :=
  let '(c, w) := ClientCore.bypass (client (d_app d)) (d_world d) (ClientCore.o_sys (r_client s)) ips in
  with_client d c w.

Definition step (d : desk Pool) (sc : around Pool * call) : option (desk Pool) :=
  let s := sc.1 in
  match sc.2 with
  | CConnect cfg => Some (Connect d s cfg).1
  | CConnectProfile id => Some (ConnectProfile d s id).1
  | CDisconnect => Some (Disconnect d s).1
  | CSaveProfile id content => Some (SaveProfileContent d id content).1
  | CSaveSettings g => Some (SaveGlobalSettings d g).1
  | CImport choice => Some (ImportProfile d s choice).1
  | CImportContent content name => Some (ImportProfileContent d s content name).1
  | CImportText content name => Some (ImportProfileFromText d s content name).1
  | CDelete id => Some (DeleteProfile d s id).1
  | CEnroll url => Some (EnrollDevice d s url).1
  | CTakeLink => Some (GetPendingDeepLink d).1
  | CURLOpen url => Some (HandleURLOpen d url)
  | CAddExclusion domain => Some (AddExclusion d domain).1
  | CStartup => startup d s
  | CDomReady => Some (domReady d s)
  | CHotkey => hotkey d s
  | CBypass ips => Some (bypass d s ips)
  end.

(** [None] when the program crashed. *)
Fixpoint run (d : desk Pool) (calls : list (around Pool * call)) : option (desk Pool) :=
  match calls with
  | [] => Some d
  | sc :: calls => match step d sc with Some d => run d calls | None => None end
  end.
End app.

(** ** Lemmas *)

Section facts.
Variable k : codecs.
Context {Pool : Type}.
Implicit Type d : desk Pool.

Definition connected d : Prop := ClientCore.c_state (client (d_app d)) = ClientCore.StateConnected.
#[export] Instance connected_dec d : Decision (connected d) := decide (_ = _).
Definition session d : ClientCore.Client Pool * ClientCore.world := (client (d_app d), d_world d).

(** What holds between calls: the client is consistent, and the profile shown as
    active is the one of a connection. *)
Definition inv d : Prop :=
  ClientCore.consistent (session d) /\ (activeProfileID (d_app d) <> "" -> connected d).

(** A change outside the session. *)
Definition same_session d d' : Prop :=
  client (d_app d') = client (d_app d) /\ ClientCore.w_tuns (d_world d') = ClientCore.w_tuns (d_world d) /\
  activeProfileID (d_app d') = activeProfileID (d_app d) /\ settings (d_app d') = settings (d_app d) /\
  profiles (d_app d') = profiles (d_app d).

#[local] Instance same_session_refl : Reflexive same_session.
Proof. by intros d. Qed.
#[local] Instance same_session_trans : Transitive same_session.
Proof. unfold same_session. intros d1 d2 d3. intuition congruence. Qed.

Lemma same_session_inv d d' : same_session d d' -> inv d -> inv d'.
Proof.
  intros (E1 & E2 & E3 & _) [H1 H2]. unfold inv, connected, session in *. rewrite E1, E3. split; [|done].
  unfold ClientCore.consistent in *. by rewrite E2.
Qed.

Lemma client_Connect_spec d s cfg :
  let '(d', err) := client_Connect d s cfg in
  settings (d_app d') = settings (d_app d) /\ profiles (d_app d') = profiles (d_app d) /\
  activeProfileID (d_app d') = activeProfileID (d_app d) /\ d_fs d' = d_fs d /\ d_out d' = d_out d /\
  (err = None -> connected d' /\ ClientCore.c_cfg (client (d_app d')) = cfg) /\
  (connected d -> session d' = session d /\ err = Some "already connected") /\
  (ClientCore.consistent (session d) -> ClientCore.consistent (session d')).
Proof.
  unfold client_Connect, connected, session. set (c := client (d_app d)). set (w := d_world d).
  pose proof (ClientCore.Connect_refused c w (r_client s) cfg) as Hr.
  pose proof (fun c' w' => ClientCore.Connect_config c c' w w' (r_client s) cfg) as Hc.
  pose proof (ClientCore.consistent_step (c, w) (ClientCore.EvConnect (r_client s) cfg)) as Hs.
  cbn [ClientCore.step fst snd] in Hs.
  destruct (ClientCore.Connect c w (r_client s) cfg) as [[c' w'] err].
  cbn [d_app d_world d_fs d_out with_client client settings profiles activeProfileID].
  split_and!; try done.
  - intros ->. by eapply Hc.
  - intros H. apply Hr in H. by simplify_eq.
Qed.

Lemma client_Disconnect_spec d s :
  let d' := (client_Disconnect d s).1 in
  settings (d_app d') = settings (d_app d) /\ profiles (d_app d') = profiles (d_app d) /\
  activeProfileID (d_app d') = activeProfileID (d_app d) /\ d_fs d' = d_fs d /\
  (ClientCore.consistent (session d) -> ClientCore.consistent (session d')).
Proof.
  unfold client_Disconnect, session.
  pose proof (ClientCore.consistent_step (client (d_app d), d_world d) (ClientCore.EvDisconnect (r_client s))) as Hs.
  cbn [ClientCore.step fst snd] in Hs.
  by destruct (ClientCore.Disconnect _ _ _) as [[c' w'] err].
Qed.

Lemma check_same d s st id : same_session d (checkEnrollmentForProfile k d s st id).1.
Proof.
  unfold checkEnrollmentForProfile, enroll. destruct (head _) as [e|]; [|done].
  destruct (Enroll _ _ _ _ _ _ _ _ _ _ _ _ _ _ _ _) as [f [r|]]; [|done]. by destruct (Revoked r).
Qed.

Lemma check_session d s st id :
  session (checkEnrollmentForProfile k d s st id).1 = session d /\
  activeProfileID (d_app (checkEnrollmentForProfile k d s st id).1) = activeProfileID (d_app d).
Proof.
  unfold checkEnrollmentForProfile, enroll. destruct (head _) as [e|]; [|done].
  destruct (Enroll _ _ _ _ _ _ _ _ _ _ _ _ _ _ _ _) as [f [r|]]; [|done]. by destruct (Revoked r).
Qed.

Lemma use_settings_same d id cfg : same_session d (use_settings k d id cfg).1.
Proof. unfold use_settings. by destruct (loaded k d) as [[path g]|]. Qed.

Lemma active_inv d : ClientCore.consistent (session d) -> inv (active d "").
Proof. intros H. by split. Qed.

(** An operation keeps the invariant and the two stores. *)
Definition stores d : option string * option ProfileStore := (settings (d_app d), profiles (d_app d)).
Definition keeps d d' : Prop := stores d' = stores d /\ (inv d -> inv d').

Lemma keeps_session d d' : same_session d d' -> keeps d d'.
Proof.
  intros H. split; [|by apply same_session_inv]. unfold stores. by destruct H as (_ & _ & _ & -> & ->).
Qed.

Lemma Connect_keeps d s cfg : keeps d (Connect k d s cfg).1.
Proof.
  unfold Connect. set (cfg' := match loaded k (active d "") with Some _ => _ | None => _ end).
  pose proof (client_Connect_spec (active d "") s cfg') as H.
  destruct (client_Connect (active d "") s cfg') as [d' err]. destruct H as (H1 & H0 & H2 & _ & _ & _ & _ & H3).
  split; [unfold stores; destruct err; cbn; by rewrite H1, H0|]. intros [Hi _]. apply H3 in Hi.
  destruct err; (split; [exact Hi|cbn; by rewrite H2]).
Qed.

Lemma ConnectProfile_keeps d s id : keeps d (ConnectProfile k d s id).1.
Proof.
  unfold ConnectProfile. destruct (profiles (d_app d)) as [st|] eqn:Est; [|by split].
  pose proof (check_same d s st id) as Hc. destruct (checkEnrollmentForProfile k d s st id) as [d1 rv]. cbn [fst] in Hc.
  destruct rv; [by apply keeps_session|].
  destruct (Get _ _ st (d_fs d1) id) as [p|]; [|by apply keeps_session].
  pose proof (use_settings_same (active d1 id) id (ToConfig p)) as Hu.
  destruct (use_settings k (active d1 id) id (ToConfig p)) as [d2 cfg]. cbn [fst] in Hu.
  pose proof (client_Connect_spec d2 s cfg) as H. destruct (client_Connect d2 s cfg) as [d3 err].
  destruct H as (H1 & H0 & H2 & _ & _ & Hok & _ & H3).
  assert (Hi2 : inv d -> ClientCore.consistent (session d2)).
  { intros [Hi _]. destruct Hc as (E1 & E2 & _), Hu as (F1 & F2 & _).
    unfold ClientCore.consistent, session in *. cbn in F1, F2. by rewrite F1, F2, E1, E2. }
  destruct Hc as (_ & _ & _ & Es & Ep), Hu as (_ & _ & _ & Fs & Fp). cbn in Fs, Fp.
  destruct err; (split; [unfold stores; cbn; congruence|]); intros Hi; apply Hi2, H3 in Hi.
  - by split.
  - split; [exact Hi|]. intros _. by destruct (Hok eq_refl).
Qed.

Lemma Disconnect_keeps d s : keeps d (Disconnect d s).1.
Proof.
  unfold Disconnect. pose proof (client_Disconnect_spec (active d "") s) as H.
  destruct (client_Disconnect (active d "") s) as [d' err]. destruct H as (H1 & H0 & H2 & _ & H3).
  cbn [fst] in *. split; [unfold stores; destruct err; cbn; by rewrite H1, H0|]. intros [Hi _]. apply H3 in Hi.
  destruct err; (split; [exact Hi|cbn; by rewrite H2]).
Qed.

Lemma DeleteProfile_keeps d s id : keeps d (DeleteProfile k d s id).1.
Proof.
  unfold DeleteProfile. destruct (profiles (d_app d)) as [st|]; [|by split]. cbv zeta.
  set (d1 := if bool_decide _ then _ else d).
  assert (H : keeps d d1).
  { subst d1. case_bool_decide; [|by split]. destruct (client_Disconnect_spec d s) as (H1 & H0 & _ & _ & H3).
    split; [unfold stores; cbn; by rewrite H1, H0|]. intros [Hi _]. apply H3 in Hi. by split. }
  destruct (Delete _ _ st (d_fs d1) id) as [f err]. destruct H as [H1 H2]. by split.
Qed.

(** The calls that leave the session alone. *)
Lemma quiet_calls d s id content name url domain choice g :
  same_session d (SaveProfileContent k d id content).1 /\ same_session d (SaveGlobalSettings k d g).1 /\
  same_session d (ImportProfile k d s choice).1 /\ same_session d (ImportProfileContent k d s content name).1 /\
  same_session d (ImportProfileFromText k d s content name).1 /\ same_session d (EnrollDevice k d s url).1 /\
  same_session d (GetPendingDeepLink d).1 /\ same_session d (HandleURLOpen d url) /\
  same_session d (AddExclusion k d domain).1 /\
  (forall d', startup k d s = Some d' -> same_session d d').
Proof.
  assert (Himp : forall c n, same_session d (import k d s c n).1).
  { intros c n. unfold import. destruct (profiles _); [|done]. by destruct (ImportContent _ _ _ _ _ _ _). }
  split_and!.
  - unfold SaveProfileContent. destruct (profiles _); [|done]. by destruct (WriteContent _ _ _ _ _ _).
  - unfold SaveGlobalSettings. destruct (settings _); [|done]. by destruct (Save _ _ _ _).
  - unfold ImportProfile. destruct (profiles _), choice as [path|]; try done. case_bool_decide; [done|].
    by destruct (Import _ _ _ _ _ _) as [f [p1|]].
  - apply Himp.
  - unfold ImportProfileFromText. destruct (profiles _); [|done]. case_bool_decide; [done|]. apply Himp.
  - unfold EnrollDevice, enroll. destruct (profiles _); [|done]. cbv zeta. case_bool_decide; [done|].
    by destruct (Enroll _ _ _ _ _ _ _ _ _ _ _ _ _ _ _ _) as [f [r|]].
  - done.
  - unfold HandleURLOpen. cbv zeta. by case_bool_decide.
  - unfold AddExclusion. destruct (settings _) as [path|]; [|done]. cbv zeta. case_bool_decide; [done|].
    destruct (Load _ _ _) as [g' [e|]]; [done|]. case_bool_decide; [done|]. by destruct (Save _ _ _ _).
  - intros d'. unfold startup. destruct (CheckAllEnrollments _ _ _ _ _ _ _ _ _ _ _ _ _ _ _) as [[f rs]|]; [|done].
    by intros [= <-].
Qed.

Lemma bypass_keeps d s ips : keeps d (bypass d s ips).
Proof.
  unfold bypass. set (sys := ClientCore.o_sys (r_client s)).
  pose proof (ClientCore.consistent_step (session d) (ClientCore.EvBypass sys ips)) as Hs.
  cbn [ClientCore.step session fst snd] in Hs. unfold ClientCore.bypass in *.
  destruct (ClientCore.c_routes _) as [r|]; cbn in *; [|split; [done|]; intros [Hi Ha]; by split].
  destruct (Routes.AddDynamicHostBypassBatch _ _ _ _) as [r' l]. split; [done|]. intros [Hi Ha].
  split; [by apply Hs|done].
Qed.

Lemma hotkey_keeps d s : inv d ->
  match hotkey k d s with Some d' => keeps d d' | None => settings (d_app d) = None /\ ~ connected d end.
Proof.
  intros [Hi Ha]. unfold hotkey. case_bool_decide as Hc; cbn [orb]; [apply Disconnect_keeps|].
  case_bool_decide; [apply Disconnect_keeps|].
  case_bool_decide as He; [by apply Ha in He|].
  destruct (settings (d_app d)) as [path|]; [|done]. destruct (Load _ _ _) as [g [e|]]; [by split|].
  case_bool_decide; [apply ConnectProfile_keeps|by split].
Qed.

(** What stops the program: a nil pointer, followed by the hot key or by the pass
    over the enrolments. *)
Definition crash d (sc : around Pool * call) : Prop :=
  match sc.2 with
  | CHotkey => settings (d_app d) = None /\ ~ connected d
  | CStartup => profiles (d_app d) = None /\ states k d <> [] /\
                exists url q body, r_server sc.1 url q = Ok (StatusOK, Ok body)
  | _ => False
  end.

Lemma startup_keeps d s :
  match startup k d s with Some d' => keeps d d' | None => crash d (s, CStartup) end.
Proof.
  destruct (startup k d s) as [d'|] eqn:E.
  - apply keeps_session. by apply (quiet_calls d s "" "" "" "" "" (Ok "") zero_settings).
  - unfold startup in E. destruct (CheckAllEnrollments _ _ _ _ _ _ _ _ _ _ _ _ _ _ _) as [[f rs]|] eqn:Ec; [done|].
    by apply CheckAllEnrollments_nil in Ec.
Qed.

Lemma step_keeps d sc : inv d ->
  match step k d sc with Some d' => keeps d d' | None => crash d sc end.
Proof.
  intros Hi. destruct sc as [s c]. pose proof (fun id content name url domain choice g =>
    quiet_calls d s id content name url domain choice g) as Hq.
  destruct c; cbn [step fst snd].
  1: apply Connect_keeps. 1: apply ConnectProfile_keeps. 1: apply Disconnect_keeps.
  6: apply DeleteProfile_keeps. 10: apply startup_keeps. 10: {
    unfold domReady. destruct (loaded k d) as [[path g]|]; [|by split].
    destruct (_ && _); [apply ConnectProfile_keeps|by split]. }
  10: by apply hotkey_keeps. 10: apply bypass_keeps.
  all: apply keeps_session.
  all: edestruct Hq as (H1 & H2 & H3 & H4 & H5 & H6 & H7 & H8 & H9 & _);
    first [exact H1|exact H2|exact H3|exact H4|exact H5|exact H6|exact H7|exact H8|exact H9].
  Unshelve. all: first [exact ""|exact (Ok "")|exact zero_settings].
Qed.

Lemma run_keeps calls d : inv d ->
  match run k d calls with
  | Some d' => keeps d d'
  | None => exists before sc after d', calls = before ++ sc :: after /\ run k d before = Some d' /\
              stores d' = stores d /\ crash d' sc
  end.
Proof.
  revert d. induction calls as [|sc calls IH]; intros d Hi; [by split|]. cbn [run].
  pose proof (step_keeps d sc Hi) as Hs. destruct (step k d sc) as [d1|] eqn:E; [|by exists [], sc, calls, d].
  destruct Hs as [He H1]. specialize (IH d1 (H1 Hi)). destruct (run k d1 calls) as [d2|].
  - destruct IH as [He2 H2]. split; [congruence|auto].
  - destruct IH as (b & sc' & a & d' & -> & Hr & Hd & Hc). exists (sc :: b), sc', a, d'. cbn [run app]. rewrite E.
    split_and!; [done..|congruence|done].
Qed.
End facts.

(** ** Lemmas: links, versions and logs *)

Lemma query_safe_rest url : query_safe url = true ->
  has_ctl (deep_scheme +:+ "enroll?url=" +:+ url) = false /\
  Cut "#"%char (deep_scheme +:+ "enroll?url=" +:+ url) = None /\
  ParseQuery ("url=" +:+ url) !! "url" = Some url.
Proof.
  intros Hs. pose proof (query_safe_spec _ Hs) as (H1 & _ & _ & H4 & _ & H6 & _).
  split_and!; [by rewrite !has_ctl_app, H1|apply Cut_None; by rewrite !has_char_app, H6|].
  unfold ParseQuery. rewrite Split_no_char by (by rewrite has_char_app, H4). cbn [omap list_omap].
  change ("url=" +:+ url) with ("url" +:+ String "="%char url). rewrite query_pair_plain by done.
  cbn. apply lookup_insert_eq.
Qed.

Lemma deep_link_of_url url : query_safe url = true -> url <> "" ->
  deep_link (deep_scheme +:+ "enroll?url=" +:+ url) = Some url.
Proof.
  intros Hs Hne. destruct (query_safe_rest url Hs) as (Hctl & Hfrag & Hq). unfold deep_link.
  rewrite HasPrefix_app. assert (E : enroll_query (deep_scheme +:+ "enroll?url=" +:+ url) = Some ("url=" +:+ url)).
  { unfold enroll_query. rewrite Hfrag. cbn [default from_option id].
    change (deep_scheme +:+ "enroll?url=" +:+ url) with ("firetunnel://enroll" +:+ String "?"%char ("url=" +:+ url)) in *.
    rewrite Cut_app by done. cbn [default from_option id].
    change (sdrop 13 "firetunnel://enroll") with "enroll". rewrite Hctl. done. }
  rewrite E. cbn [mbind option_bind]. rewrite Hq. cbn. by rewrite bool_decide_false.
Qed.

(** ** Properties *)


(** Connecting a profile.  On success the enrolment did not turn out revoked,
    the profile was found, it is active, and the client is connected with the
    profile's configuration under the global settings, when they load, which then
    name it as the last profile; on an error either nothing of the session
    changed, or no profile is active. *)
Theorem connect_profile_spec (k : codecs) {Pool : Type} (d : desk Pool) (s : around Pool) (id : string) :
  let '(d', err) := ConnectProfile k d s id in
  match err with
  | None => exists st d1 p,
      profiles (d_app d) = Some st /\ checkEnrollmentForProfile k d s st id = (d1, false) /\
      Get (k_toml k) (k_sha1 k) st (d_fs d1) id = Ok p /\
      connected d' /\ activeProfileID (d_app d') = id /\
      ClientCore.c_cfg (client (d_app d')) =
        match loaded k d1 with Some (_, g) => merge_settings g (ToConfig p) | None => ToConfig p end /\
      d_fs d' = match loaded k d1 with
                | Some (path, g) => (Save (k_write_settings k) (d_fs d1) path (set_last g id)).1
                | None => d_fs d1
                end
  | Some _ => (session d' = session d /\ activeProfileID (d_app d') = activeProfileID (d_app d)) \/
              activeProfileID (d_app d') = ""
  end.
Proof.
  unfold ConnectProfile. destruct (profiles (d_app d)) as [st|] eqn:Est; [|by left].
  destruct (checkEnrollmentForProfile k d s st id) as [d1 rv] eqn:Ec.
  assert (Hc : session d1 = session d /\ activeProfileID (d_app d1) = activeProfileID (d_app d)).
  { pose proof (check_session k d s st id) as H. rewrite Ec in H. exact H. }
  destruct rv; [by left|]. destruct (Get _ _ st (d_fs d1) id) as [p|] eqn:Eg; [|by left].
  destruct (use_settings k (active d1 id) id (ToConfig p)) as [d2 cfg] eqn:Eu.
  pose proof (client_Connect_spec d2 s cfg) as H. destruct (client_Connect d2 s cfg) as [d3 err].
  destruct H as (_ & _ & Ha & Hf & _ & Hok & _). destruct err as [e|]; [by right|].
  destruct (Hok eq_refl) as [Hcon Hcfg]. exists st, d1, p. cbn.
  unfold use_settings in Eu. change (loaded k (active d1 id)) with (loaded k d1) in Eu.
  rewrite Ha, Hf, Hcfg. destruct (loaded k d1) as [[path g]|]; injection Eu as <- <-; by split_and!.
Qed.

(** Connecting while connected loses the active profile.  With profile [a]
    connected, asking for another stored one is refused as already connected,
    but no profile is active then, and deleting [a] no longer disconnects it. *)
Theorem connect_forgets_active (k : codecs) {Pool : Type} (d d1 : desk Pool) (s s' : around Pool) (a id : string)
    (st : ProfileStore) (p : Profile)
  (Hcon : connected d) (Ha : a <> "") (Hactive : activeProfileID (d_app d) = a) (Hst : profiles (d_app d) = Some st)
  (Hcheck : checkEnrollmentForProfile k d s st id = (d1, false))
  (Hget : Get (k_toml k) (k_sha1 k) st (d_fs d1) id = Ok p) :
  let '(d', err) := ConnectProfile k d s id in
  err = Some "already connected" /\ session d' = session d /\ activeProfileID (d_app d') = "" /\
  session (DeleteProfile k d' s' a).1 = session d.
Proof.
  unfold ConnectProfile. rewrite Hst, Hcheck, Hget.
  assert (Hs1 : session d1 = session d /\ profiles (d_app d1) = profiles (d_app d)).
  { pose proof (check_session k d s st id) as [H _]. pose proof (check_same k d s st id) as (_ & _ & _ & _ & H').
    rewrite Hcheck in H, H'. done. }
  destruct Hs1 as [Hs1 Hp1].
  destruct (use_settings k (active d1 id) id (ToConfig p)) as [d2 cfg] eqn:Eu.
  assert (Hs2 : session d2 = session d /\ profiles (d_app d2) = Some st).
  { unfold use_settings in Eu. destruct (loaded k _) as [[path g]|]; injection Eu as <- _; rewrite <- Hs1, <- Hst, <- Hp1; done. }
  destruct Hs2 as [Hs2 Hp2].
  pose proof (client_Connect_spec d2 s cfg) as H. destruct (client_Connect d2 s cfg) as [d3 err].
  destruct H as (_ & Hp & _ & _ & _ & _ & Href & _).
  destruct Href as [Hs3 ->]; [unfold connected; by injection Hs2 as -> _|].
  assert (E : session (shown (active d3 "") [Notify "Connection failed"]) = session d) by (rewrite <- Hs2, <- Hs3; done).
  split_and!; [done..|]. unfold DeleteProfile. cbn [d_app shown active with_app set_active profiles activeProfileID].
  rewrite Hp, Hp2, bool_decide_false by done.
  destruct (Delete _ _ st _ a) as [f err]. cbn [fst]. rewrite <- E. done.
Qed.

(** A link round trip.  A link made for an enrolment URL of characters that a
    query carries as they are opens exactly that URL, from the arguments of the
    program as well as while it runs. *)
Theorem deep_link_roundtrip {Pool : Type} (d : desk Pool) (url : string) (args : list string)
  (Hurl : query_safe url = true) (Hne : url <> "") :
  parseDeepLink ("ttclient" :: (deep_scheme +:+ "enroll?url=" +:+ url) :: args) = url /\
  d_out (HandleURLOpen d (deep_scheme +:+ "enroll?url=" +:+ url)) = d_out d ++ [Emit "deeplink" [url]].
Proof.
  pose proof (deep_link_of_url url Hurl Hne) as Hl. split.
  - unfold parseDeepLink. cbn [tail]. cbn [omap list_omap]. by rewrite Hl.
  - unfold HandleURLOpen, parseDeepLink. cbn [tail]. cbn [omap list_omap]. rewrite Hl. cbn [head default from_option id].
    by rewrite bool_decide_true.
Qed.

(** An update is offered by the order of strings, which hides the release
    after the pre-release: for an answer that was read, one is offered exactly
    when its tag, less the v, comes after the version in that order, so the final
    version 0.1.0 is never offered to 0.1.0-beta. *)
Theorem update_check_order (fetch : res (Z * res string)) (decode : string -> res release) (body : string) (r : release)
  (Hfetch : fetch = Ok (200, Ok body)) (Hdecode : decode (stake 65536 body) = Ok r) :
  exists u, CheckForUpdate fetch decode = Ok u /\
    (Available u = true <-> String.leb (TrimPrefix (TagName r) "v") Version = false) /\
    (TagName r = "v0.1.0" \/ TagName r = "0.1.0" -> Available u = false).
Proof.
  unfold CheckForUpdate. rewrite Hfetch. cbn [wrap_err map_err mbind res_bind Z.eqb Pos.eqb negb].
  change (200 =? 200) with true. cbn [negb]. rewrite Hdecode. cbn [mbind res_bind]. eexists. split; [reflexivity|].
  unfold str_gt. set (t := TrimPrefix (TagName r) "v").
  assert (Hb : negb (bool_decide (t = "")) && negb (bool_decide (t = Version)) && negb (String.leb t Version)
               = negb (String.leb t Version)).
  { case_bool_decide as H1; [by rewrite H1|]. case_bool_decide as H2; [by rewrite H2|]. done. }
  rewrite Hb. split; [by destruct (String.leb t Version)|]. intros [E|E]; subst t; rewrite E; reflexivity.
Qed.

(** The tail of the log.  [ReadLogs] returns the last lines of the file: what
    it leaves out comes before, and it has as many lines as asked for (200 when
    the number is not positive), or all when the file has fewer. *)
Theorem log_tail (f : fs) (home out : string) (n : Z) (Hread : ReadLogs f home n = Ok out) :
  exists data before, ReadFile f (logFilePath home) = Ok data /\ Split nl data = before ++ Split nl out /\
    length (Split nl out) = min (Z.to_nat (if n <=? 0 then 200 else n)) (length (Split nl data)).
Proof.
  unfold ReadLogs, readLogTail in Hread. set (m := Z.to_nat _) in *.
  assert (Hm : (0 < m)%nat) by (subst m; destruct (Z.leb_spec n 0); lia).
  destruct (ReadFile f (logFilePath home)) as [data|]; [|done]. cbn [mbind res_bind] in Hread.
  injection Hread as <-.
  set (lines := Split nl data). exists data.
  assert (Hsplit : forall l, Forall (fun x => has_char nl x = false) l -> l <> [] -> Split nl (Join nls l) = l)
    by (intros l Hl Hn; by apply Split_Join).
  pose proof (Split_pieces nl data) as Hp. fold lines in Hp.
  assert (Hne : lines <> []) by apply Split_not_nil.
  destruct (Nat.ltb_spec m (length lines)).
  - exists (take (length lines - m) lines). rewrite Hsplit; [|by apply Forall_drop|].
    + split_and!; [done|by rewrite take_drop|]. rewrite length_drop. fold lines. lia.
    + intros E%(f_equal length). rewrite length_drop in E. cbn in E. lia.
  - exists []. rewrite Hsplit by done. split_and!; [done..|]. fold lines. lia.
Qed.

(** ** Witnesses: the profile and codecs of [Enroll], a settings codec of one word *)

Definition ex_codecs : codecs :=
  {| k_toml := ex_toml; k_sha1 := @rev byte; k_sha256 := id; k_state_json := ex_json; k_read_state := ex_read;
     k_request_json := fun _ => ""; k_read_error := fun _ => {| ee_Error := ""; ee_Message := "revoked" |};
     k_read_settings := fun t => (set_last first_settings t, None); k_write_settings := fun g => Ok (LastProfileID g);
     k_enrollDir := ex_dir |}.

(** Everything outside works, and the server answers the status. *)
Definition ex_around (status : Z) : around unit :=
  {| r_client := ClientCore.ex_outside []; r_machine := Ok "machine"; r_server := fun _ => ex_answer status;
     r_hostname := "host"; r_user := "ann"; r_now := 17 |}.

Definition ex_app : App unit := NewApp ex_enrolled (Ok "/home/ann").
Definition ex_desk : desk unit :=
  {| d_app := ex_app; d_fs := ex_enrolled; d_world := ClientCore.fresh_world; d_out := [] |}.
Definition ex_connected : desk unit := (ConnectProfile ex_codecs ex_desk (ex_around 500) (p_ID ex_profile)).1.

Example ex_connects : connected ex_connected /\ activeProfileID (d_app ex_connected) = p_ID ex_profile /\
  (GetGlobalSettings ex_codecs ex_connected).1 = set_last first_settings (p_ID ex_profile) /\
  (ConnectProfile ex_codecs ex_desk (ex_around 403) (p_ID ex_profile)).2 = Some "device access revoked".
Proof. vm_compute. done. Qed.

Lemma connect_forgets_active_witness :
  let d' := (ConnectProfile ex_codecs ex_connected (ex_around 500) (p_ID ex_profile)).1 in
  activeProfileID (d_app d') = "" /\
  session (DeleteProfile ex_codecs d' (ex_around 500) (p_ID ex_profile)).1 = session ex_connected.
Proof.
  pose proof (connect_forgets_active ex_codecs ex_connected
    (checkEnrollmentForProfile ex_codecs ex_connected (ex_around 500) ex_store (p_ID ex_profile)).1
    (ex_around 500) (ex_around 500) (p_ID ex_profile) (p_ID ex_profile) ex_store ex_profile) as H.
  destruct (ConnectProfile ex_codecs ex_connected (ex_around 500) (p_ID ex_profile)) as [d' err].
  apply H.
  - vm_compute. reflexivity.
  - vm_compute. discriminate.
  - vm_compute. reflexivity.
  - vm_compute. reflexivity.
  - vm_compute. reflexivity.
  - vm_compute. reflexivity.
Defined.

Lemma deep_link_roundtrip_witness :
  parseDeepLink ["ttclient"; "firetunnel://enroll?url=https://vpn.example/enroll/0123"] =
  "https://vpn.example/enroll/0123".
Proof.
  exact (proj1 (deep_link_roundtrip ex_desk "https://vpn.example/enroll/0123" []
    ltac:(vm_compute; reflexivity) ltac:(discriminate))).
Defined.

Definition ex_release : release := {| TagName := "v0.1.0"; HTMLURL := "https://vpn.example/r"; Body := "final" |}.

Lemma update_check_order_witness :
  exists u, CheckForUpdate (Ok (200, Ok "json")) (fun _ => Ok ex_release) = Ok u /\ Available u = false.
Proof.
  destruct (update_check_order (Ok (200, Ok "json")) (fun _ => Ok ex_release) "json" ex_release eq_refl eq_refl)
    as (u & Hu & _ & Hf).
  exists u. split; [exact Hu|]. apply Hf. left. reflexivity.
Defined.

Definition ex_log : fs :=
  {| fs_files := {[ "/home/ann/.config/ttclient/ttclient.log" := "one" +:+ nls +:+ "two" +:+ nls +:+ "three" ]};
     fs_locked := ∅; fs_full := ∅ |}.

Lemma log_tail_witness : length (Split nl ("two" +:+ nls +:+ "three")) = 2%nat.
Proof.
  destruct (log_tail ex_log "/home/ann" ("two" +:+ nls +:+ "three") 2 ltac:(vm_compute; reflexivity))
    as (data & before & Hd & _ & Hl).
  rewrite Hl. vm_compute in Hd. injection Hd as <-. vm_compute. reflexivity.
Defined.

(** The adapter of another VPN is found, the program's own is not. *)
Example ex_conflicts :
  let cell s := String dq (s +:+ String dq "") in
  let csv := Join "," [cell "Name"; cell "InterfaceDescription"; cell "Status"] +:+ nls +:+
    Join "," [cell "Eth"; cell "Intel(R)"; cell "Up"] +:+ nls +:+
    Join "," [cell "wg0"; cell "WireGuard Tunnel"; cell "Down"] +:+ nls +:+
    Join "," [cell "tun"; cell "FireTunnel Wintun"; cell "Up"] +:+ nls in
  FindConflictAdapters (Ok csv) =
    [{| ca_Name := "wg0"; ca_Description := "WireGuard Tunnel"; ca_Status := "Down" |}].
Proof. vm_compute. reflexivity. Qed.

(** An argument is spliced into the script that runs as root as it is. *)
Example ex_elevate : elevate_script "/A" ["/A"; "x; id"] =
  "do shell script " +:+ String dq ("/A x; id" +:+ String dq " with administrator privileges").
Proof. reflexivity. Qed.

(** A profile of an enrolled device that the user deletes is there again after
    the next start: the enrolment stays, and the pass over the enrolments imports
    the configuration anew. *)
Example deleted_profile_returns :
  let d := (DeleteProfile ex_codecs ex_desk (ex_around 200) (p_ID ex_profile)).1 in
  Profiles ex_codecs d = Ok [] /\
  exists p, (Profiles ex_codecs <$> startup ex_codecs d (ex_around 200)) = Some (Ok [p]).
Proof. vm_compute. eauto. Qed.

(** The pass over the enrolments of an application without a profile store, whose
    directory could not be made, stops the program when a server answers well. *)
Definition ex_no_directory : fs :=
  {| fs_files := fs_files ex_enrolled; fs_locked := {[ "/home/ann/ttclient/profiles" ]}; fs_full := ∅ |}.

Example startup_without_store :
  let d := {| d_app := NewApp ex_no_directory (Ok "/home/ann"); d_fs := ex_no_directory;
              d_world := ClientCore.fresh_world; d_out := [] |} in
  startup ex_codecs d (ex_around 200) = None /\ is_Some (startup ex_codecs d (ex_around 500)).
Proof. vm_compute. eauto. Qed.
