(* ===== verification/Platform.v ===== *)
(** cmd/ttclient/main.go, elevate_*.go, clipboard_*.go, hotkey_*.go and
    wintun_check_*.go: the desktop program from its start to its window, and what
    it asks of the operating system.  Paths are written with slashes; a command is
    its arguments, and what running it answers is a parameter. *)
From S2P Require Import Prelude GoStrings GoOS.
From S2P Require Import App.
#[local] Open Scope Z_scope.

Inductive system := Darwin | Windows | Other.

#[export] Instance system_eq_dec : EqDecision system.
Proof. solve_decision. Defined.

Definition sq (s : string) : string := "'" +:+ s +:+ "'".

(** ** Elevation *)

(** What the process can know of its rights: [env_root] is Geteuid() == 0, or
    on Windows that the physical drive opens. *)
Record environment := {
  env_system : system;
  env_root : bool;
  env_exe : res string;                 (* os.Executable *)
  env_args : list string;               (* os.Args *)
  env_home : string;
  env_local : string;                   (* LOCALAPPDATA *)
}.

Inductive elevation :=
| Continue
| Exit (code : Z) (command : option (list string)).

(** Where nothing can elevate it, the program ends. *)
Definition ensureElevated_other (root : bool) : elevation := if root then Continue else Exit 1 None.

(** [ensureElevated]; [start] is the error of starting the command. *)
Definition ensureElevated (e : environment) (start : list string -> option string) : elevation :=
  if env_root e then Continue
  else
    let elevate (cmd : string -> list string) :=
      match env_exe e with
      | Err _ => Exit 1 None
      | Ok exe => match start (cmd exe) with
                  | Some _ => Exit 1 (Some (cmd exe))
                  | None => Exit 0 (Some (cmd exe))
                  end
      end in
    match env_system e with
    | Darwin => elevate (fun exe => ["osascript"; "-e"; elevate_script exe (env_args e)])
    | Windows => elevate (fun exe => ["powershell"; "-NoProfile"; "-Command"; "Start-Process"; sq exe; "-Verb";
                                      "RunAs"; "-ArgumentList"; sq (Join " " (tail (env_args e)))])
    | Other => ensureElevated_other (env_root e)
    end.

(** ** The log and the link *)

Definition logDir (e : environment) : string :=
  match env_system e with
  | Windows => path_Join (env_local e) "ttclient"
  | _ => path_Join (path_Join (env_home e) ".config") "ttclient"
  end.

(** [setupLogging]: whether the file is open; it is made if there is none. *)
Definition setupLogging (f : fs) (e : environment) : fs * bool :=
  let p := path_Join (logDir e) "ttclient.log" in
  if bool_decide (p ∈ fs_locked f) then (f, false)
  else (set_files f (<[p := default "" (fs_files f !! p)]> (fs_files f)), true).

Definition pending_file (e : environment) : string :=
  match env_system e with
  | Windows => path_Join (path_Join (env_local e) "ttclient") "pending_deeplink"
  | _ => deepLinkFile (env_home e)
  end.

Definition writeDeepLinkFile (f : fs) (e : environment) (url : string) : fs := (WriteFile f (pending_file e) url).1.

Definition read_and_clear (f : fs) (e : environment) : fs * string :=
  match ReadFile f (pending_file e) with
  | Err _ => (f, "")
  | Ok data => ((Remove f (pending_file e)).1, TrimSpace data)
  end.

(** ** [main] up to the window *)

Inductive launched (Pool : Type) :=
| Ended (code : Z) (f : fs) (command : option (list string))
| Window (a : App Pool) (f : fs).
Arguments Ended {Pool} _ _ _.
Arguments Window {Pool} _ _.

Definition launch {Pool} (f : fs) (e : environment) (start : list string -> option string) (config_dir : res string)
  : launched Pool :=
  let '(f, _) := setupLogging f e in
  match ensureElevated e start with
  | Exit code command => Ended code f command
  | Continue =>
      let a := NewApp f config_dir in
      let link := parseDeepLink (env_args e) in
      let a := if bool_decide (link <> "") then set_pending a link else a in
      let '(f, file_link) := read_and_clear f e in
      Window (if bool_decide (file_link <> "") && bool_decide (pendingDeepLink a = "")
              then set_pending a file_link else a) f
  end.

(** The end of [main], with the error of the window. *)
Definition main_end (err : option string) : Z := match err with Some _ => 1 | None => 0 end.

(** ** Clipboard, hot key, build *)

Definition clipboard_windows (run : list string -> res string) : string :=
  match run ["powershell"; "-NoProfile"; "-Command"; "Get-Clipboard"] with
  | Ok out => TrimSpace out
  | Err _ => ""
  end.

Definition clipboard (s : system) (run : list string -> res string) : string :=
  match s with
  | Darwin => match run ["pbpaste"] with Ok out => TrimSpace out | Err _ => "" end
  | Windows => clipboard_windows run
  | Other => readSystemClipboard (run ["xclip"; "-selection"; "clipboard"; "-o"])
                                 (run ["xsel"; "--clipboard"; "--output"])
  end.

Definition hotkey_label (s : system) : string :=
  match s with Darwin => "Cmd+Shift+V" | _ => "Ctrl+Shift+V" end.

Record BuildInfo := {
  bi_Version : string; bi_BuildDate : string; bi_GitCommit : string; bi_GitBranch : string;
  bi_GoVersion : string; bi_OS : string; bi_Arch : string;
}.

(** The values of a build without linker flags. *)
Definition GetBuildInfo (os arch : string) : BuildInfo :=
  {| bi_Version := Version; bi_BuildDate := "dev"; bi_GitCommit := "unknown"; bi_GitBranch := "unknown";
     bi_GoVersion := "unknown"; bi_OS := os; bi_Arch := arch |}.

(** ** The WinTun driver *)

Definition CheckWintun (f : fs) (dir : string) : bool := file_exists f (path_Join dir "wintun.dll").

(** What lies in a directory. *)
Definition inside (d p : string) : bool := HasPrefix p (d +:+ "/").

(** [os.RemoveAll] of a directory, its error dropped. *)
Definition RemoveAll (f : fs) (d : string) : fs :=
  set_files f (filter (fun kv => inside d kv.1 = false \/ kv.1 ∈ fs_locked f) (fs_files f)).

(** The body of a download: the text, and whether reading it broke off. *)
Record body := { b_text : string; b_error : option string }.

(** The copy of the driver out of the archive. *)
Definition install_dll (f : fs) (src dest : string) : fs * option string :=
  match ReadFile f src with
  | Err e => (f, Some ("read dll: " +:+ e))
  | Ok data => match WriteFile f dest data with
               | (f, Some e) => (f, Some ("write dll: " +:+ e))
               | (f, None) => (f, None)
               end
  end.

(** [DownloadWintun]; [expand] is the run of Expand-Archive on the zip: the
    files after it and its output with the error, if any. *)
Definition DownloadWintun (f : fs) (dir : string) (get : res (Z * body))
    (expand : fs -> fs * option (string * string)) : fs * option string :=
  let dest := path_Join dir "wintun.dll" in
  let tmpZip := path_Join dir "wintun.zip" in
  let tmp := path_Join dir "wintun_tmp" in
  if file_exists f dest then (f, None)
  else match get with
  | Err e => (f, Some ("download failed: " +:+ e))
  | Ok (status, b) =>
      if negb (status =? 200) then (f, Some ("download returned " +:+ fmt_d status))
      else if bool_decide (tmpZip ∈ fs_locked f) then (f, Some ("create temp: " +:+ err_perm "open" tmpZip))
      else let '(f, full) := WriteFile f tmpZip (b_text b) in
          match (match full with Some e => Some e | None => b_error b end) with
          | Some e => ((Remove f tmpZip).1, Some ("download write: " +:+ e))
          | None =>
              match expand f with
              | (f, Some (out, e)) => ((Remove f tmpZip).1, Some ("unzip: " +:+ out +:+ ": " +:+ e))
              | (f, None) =>
                  let dll arch := path_Join (path_Join (path_Join (path_Join tmp "wintun") "bin") arch) "wintun.dll" in
                  let src := if file_exists f (dll "amd64") then dll "amd64" else dll "arm64" in
                  let '(f, err) := install_dll f src dest in
                  ((Remove (RemoveAll f tmp) tmpZip).1, err)
              end
          end
  end.

(** [DisableAdapter]: its command, and its error when the command fails. *)
Definition disable_command (name : string) : list string :=
  ["powershell"; "-NoProfile"; "-Command"; "Disable-NetAdapter -Name " +:+ sq name +:+ " -Confirm:$false"].
Definition DisableAdapter (name : string) (run : list string -> option (string * string)) : option string :=
  match run (disable_command name) with
  | Some (out, e) => Some ("disable adapter " +:+ name +:+ ": " +:+ out +:+ ": " +:+ e)
  | None => None
  end.

(** ** Lemmas *)

Lemma Remove_other f p q : q <> p -> fs_files (Remove f p).1 !! q = fs_files f !! q.
Proof.
  intros Hne. unfold Remove. case_bool_decide; [done|]. destruct (fs_files f !! p); [|done].
  cbn. by rewrite lookup_delete_ne.
Qed.

Lemma Remove_gone f p : p ∉ fs_locked f -> fs_files (Remove f p).1 !! p = None.
Proof.
  intros Hl. unfold Remove. rewrite bool_decide_false by done. destruct (fs_files f !! p) eqn:E; [|done].
  apply lookup_delete_eq.
Qed.

Lemma RemoveAll_other f d p : inside d p = false -> fs_files (RemoveAll f d) !! p = fs_files f !! p.
Proof.
  intros Hp. unfold RemoveAll, set_files. cbn. destruct (fs_files f !! p) as [s|] eqn:E.
  - apply map_lookup_filter_Some. split; [done|by left].
  - apply map_lookup_filter_None. by left.
Qed.

Lemma setupLogging_other f e f' b p : setupLogging f e = (f', b) ->
  p <> path_Join (logDir e) "ttclient.log" -> fs_files f' !! p = fs_files f !! p /\ fs_locked f' = fs_locked f.
Proof.
  unfold setupLogging. case_bool_decide; intros [= <- <-]; [done|]. intros Hp. cbn. by rewrite lookup_insert_ne.
Qed.

Lemma read_and_clear_other f e p : p <> pending_file e ->
  fs_files (read_and_clear f e).1 !! p = fs_files f !! p.
Proof. intros Hp. unfold read_and_clear. destruct (ReadFile f _); [|done]. by apply Remove_other. Qed.

Lemma install_dll_spec f src dest f' err : install_dll f src dest = (f', err) ->
  fs_locked f' = fs_locked f /\ (forall p, p <> dest -> fs_files f' !! p = fs_files f !! p) /\
  match err with
  | None => is_Some (fs_files f' !! dest) /\ ReadFile f src = from_option Ok (Err "") (fs_files f' !! dest)
  | Some _ => f' = f \/ exists data, ReadFile f src = Ok data /\ torn f dest data f'
  end.
Proof.
  unfold install_dll. destruct (ReadFile f src) as [data|e]; [|intros [= <- <-]; by split_and!; [| |left]].
  pose proof (WriteFile_other f dest data) as Hoth. pose proof (WriteFile_paths f dest data) as [Hlk _].
  destruct (WriteFile f dest data) as [f4 [e|]] eqn:Ew; intros [= <- <-].
  - cbn in Hoth, Hlk. split; [done|]. split; [exact Hoth|]. apply WriteFile_Some in Ew as [[_ ->]|Ht]; [by left|right; eauto].
  - apply WriteFile_None in Ew as [_ ->]. cbn. rewrite lookup_insert_eq. split_and!; [done| |eauto|done].
    intros p Hp. by rewrite lookup_insert_ne.
Qed.

(** ** Properties *)

(** A window opens only with the rights it needs, and with the link of its start.
    Without them the process ends, having touched at most its log; with them no
    file but the log and that of the pending link changes, and the link shown is
    the one of the arguments, or else the one of the file. *)
Theorem launch_privileged {Pool} (f : fs) (e : environment) (start : list string -> option string)
    (config_dir : res string) :
  let log := path_Join (logDir e) "ttclient.log" in
  match launch (Pool := Pool) f e start config_dir with
  | Window a f' => env_root e = true /\
      (forall p, p <> log -> p <> pending_file e -> fs_files f' !! p = fs_files f !! p) /\
      pendingDeepLink a = (if bool_decide (parseDeepLink (env_args e) = "")
                           then (read_and_clear (setupLogging f e).1 e).2 else parseDeepLink (env_args e))
  | Ended code f' _ => env_root e = false /\ (forall p, p <> log -> fs_files f' !! p = fs_files f !! p)
  end.
Proof.
  cbn zeta. unfold launch. destruct (setupLogging f e) as [f1 b] eqn:El. cbn [fst].
  assert (Hlog : forall p, p <> path_Join (logDir e) "ttclient.log" -> fs_files f1 !! p = fs_files f !! p)
    by (intros p Hp; by apply (setupLogging_other _ _ _ _ _ El)).
  unfold ensureElevated. destruct (env_root e) eqn:Er.
  - destruct (read_and_clear f1 e) as [f2 link] eqn:Ec. split_and!; [done| |].
    + intros p Hp Hq. pose proof (read_and_clear_other f1 e p Hq) as H. rewrite Ec in H. cbn in H.
      rewrite H. by apply Hlog.
    + cbn [snd]. unfold set_pending. repeat case_bool_decide; cbn in *; naive_solver.
  - by destruct (env_system e); [destruct (env_exe e); [destruct (start _)|]..|].
Qed.

(** A link left in the file is the one the next start shows, once. *)
Theorem pending_link_once (f : fs) (e : environment) (url : string)
  (Hroom : writable f (pending_file e)) (Hlog : path_Join (logDir e) "ttclient.log" <> pending_file e) :
  let f1 := (setupLogging (writeDeepLinkFile f e url) e).1 in
  let '(f2, link) := read_and_clear f1 e in
  link = TrimSpace url /\ (read_and_clear f2 e).2 = "".
Proof.
  pose proof Hroom as [Hlock _].
  cbn zeta. unfold writeDeepLinkFile. rewrite WriteFile_ok by done. cbn [fst].
  destruct (setupLogging _ e) as [f1 b] eqn:El. cbn [fst].
  destruct (setupLogging_other _ _ _ _ (pending_file e) El) as [Hf Hl]; [done|]. cbn in Hf, Hl.
  rewrite lookup_insert_eq in Hf. unfold read_and_clear, ReadFile. rewrite Hl, bool_decide_false, Hf by done.
  split; [done|]. assert (Hlk : fs_locked (Remove f1 (pending_file e)).1 = fs_locked f).
  { unfold Remove. rewrite Hl, bool_decide_false, Hf by done. done. }
  rewrite Hlk, bool_decide_false by done. rewrite Remove_gone by (by rewrite Hl). done.
Qed.

(** The download of the driver.  With an extraction that writes only into its
    directory, CheckWintun finds the driver after a success; after a failure it
    finds one only when the disk was full, and then it is cut short.  Of the other
    files outside that directory none changes, and after a success the zip is
    gone. *)
Theorem download_wintun (f f' : fs) (dir : string) (get : res (Z * body))
    (expand : fs -> fs * option (string * string)) (err : option string)
  (Hrun : DownloadWintun f dir get expand = (f', err))
  (Hnew : CheckWintun f dir = false)
  (Hexp : forall g, fs_locked (expand g).1 = fs_locked g /\ fs_full (expand g).1 = fs_full g /\
            forall p, inside (path_Join dir "wintun_tmp") p = false -> fs_files (expand g).1 !! p = fs_files g !! p)
  (Hdll : inside (path_Join dir "wintun_tmp") (path_Join dir "wintun.dll") = false)
  (Hzip : inside (path_Join dir "wintun_tmp") (path_Join dir "wintun.zip") = false)
  (Hne : path_Join dir "wintun.dll" <> path_Join dir "wintun.zip") :
  let other p := p <> path_Join dir "wintun.dll" /\ p <> path_Join dir "wintun.zip" /\
                 inside (path_Join dir "wintun_tmp") p = false in
  match err with
  | None => CheckWintun f' dir = true
  | Some _ => CheckWintun f' dir = true -> exists n data, fs_full f !! path_Join dir "wintun.dll" = Some n /\
      fs_files f' !! path_Join dir "wintun.dll" = Some (stake n data) /\ stake n data <> data
  end /\
  (forall p, other p -> fs_files f' !! p = fs_files f !! p) /\
  (err = None -> fs_files f' !! path_Join dir "wintun.zip" = None).
Proof.
  cbn zeta. unfold CheckWintun, file_exists in *. unfold DownloadWintun in Hrun.
  set (dest := path_Join dir "wintun.dll") in *. set (zip := path_Join dir "wintun.zip") in *.
  set (tmp := path_Join dir "wintun_tmp") in *.
  assert (Hd : fs_files f !! dest = None).
  { rewrite bool_decide_eq_false in Hnew. by apply eq_None_not_Some. }
  assert (Hno : forall g (P : Prop), fs_files g !! dest = None -> bool_decide (is_Some (fs_files g !! dest)) = true -> P)
    by (intros g P ->; by rewrite bool_decide_false by (by intros [? ?])).
  change (file_exists f dest) with (bool_decide (is_Some (fs_files f !! dest))) in Hrun. rewrite Hnew in Hrun.
  destruct get as [[status b]|e]; [|simplify_eq; split_and!; [by apply Hno|done..]].
  destruct (negb (status =? 200)); [simplify_eq; split_and!; [|done..]; by apply Hno|].
  destruct (decide (zip ∈ fs_locked f)) as [Hlk|Hlk];
    [rewrite bool_decide_true in Hrun by done; simplify_eq; split_and!; [|done..]; by apply Hno|].
  rewrite (bool_decide_false (zip ∈ fs_locked f)) in Hrun by done.
  pose proof (WriteFile_other f zip (b_text b)) as H1. pose proof (WriteFile_paths f zip (b_text b)) as [Hlk1 Hfull1].
  destruct (WriteFile f zip (b_text b)) as [f1 full]. cbn [fst] in H1, Hlk1, Hfull1.
  destruct (match full with Some e => Some e | None => b_error b end) as [e|].
  { simplify_eq. split_and!; [|intros p (_ & Hp & _); by rewrite Remove_other, H1|done].
    apply Hno. by rewrite Remove_other, H1. }
  destruct (Hexp f1) as (Hel & Hefull & Hef).
  destruct (expand f1) as [f2 [[out e]|]] eqn:Ee; cbn [fst] in Hel, Hefull, Hef.
  { simplify_eq. split_and!; [|intros p (_ & Hp & Hi); by rewrite Remove_other, Hef, H1|done].
    apply Hno. by rewrite Remove_other, Hef, H1. }
  set (src := if file_exists _ _ then _ else _) in Hrun.
  destruct (install_dll f2 src dest) as [f3 err3] eqn:E3. simplify_eq.
  destruct (install_dll_spec _ _ _ _ _ E3) as (Hl3 & H3o & H3).
  rewrite Remove_other, RemoveAll_other by done. split_and!.
  - destruct err as [e|]; [|destruct H3 as [H3 _]; by rewrite bool_decide_true].
    destruct H3 as [->|(data & _ & _ & Hne' & ->)]; [apply Hno; by rewrite Hef, H1|]. intros _. cbn.
    rewrite lookup_insert_eq. unfold written in *. rewrite Hefull, Hfull1 in *.
    destruct (fs_full f !! dest) as [n|]; [by exists n, data|done].
  - intros p (Hp1 & Hp2 & Hp3). by rewrite Remove_other, RemoveAll_other, H3o, Hef, H1.
  - intros _. apply Remove_gone. change (fs_locked (RemoveAll f3 tmp)) with (fs_locked f3).
    by rewrite Hl3, Hel, Hlk1.
Qed.

(** The name of an adapter is spliced into the command as it is: a name with a
    quote ends the string early, and the rest of it is run. *)
Example disable_splices :
  nth 3 (disable_command "x'; Stop-Computer; '") "" =
  "Disable-NetAdapter -Name 'x'; Stop-Computer; '' -Confirm:$false".
Proof. reflexivity. Qed.

(** ** Witnesses *)

Definition ex_env : environment :=
  {| env_system := Darwin; env_root := true; env_exe := Ok "/Applications/FireTunnel.app/Contents/MacOS/FireTunnel";
     env_args := ["FireTunnel"]; env_home := "/Users/ann"; env_local := "" |}.
Definition ex_fs : fs := {| fs_files := ∅; fs_locked := ∅; fs_full := ∅ |}.

Lemma pending_link_once_witness :
  (read_and_clear (setupLogging (writeDeepLinkFile ex_fs ex_env " https://vpn.example/e ") ex_env).1 ex_env).2 =
  "https://vpn.example/e".
Proof.
  pose proof (pending_link_once ex_fs ex_env " https://vpn.example/e ") as H. cbn zeta in H.
  destruct (read_and_clear _ ex_env) as [f2 link]. cbn [snd].
  rewrite (proj1 (H ltac:(split; [apply not_elem_of_empty|reflexivity]) ltac:(discriminate))). reflexivity.
Defined.

(** The archive as Expand-Archive leaves it. *)
Definition ex_expand (f : fs) : fs * option (string * string) :=
  (set_files f (<["C:/tt/wintun_tmp/wintun/bin/amd64/wintun.dll" := "MZ"]> (fs_files f)), None).

Lemma download_wintun_witness :
  let r := DownloadWintun ex_fs "C:/tt" (Ok (200, {| b_text := "PK"; b_error := None |})) ex_expand in
  CheckWintun r.1 "C:/tt" = true.
Proof.
  cbn zeta.
  refine (proj1 (download_wintun ex_fs _ "C:/tt" (Ok (200, {| b_text := "PK"; b_error := None |})) ex_expand None
    _ _ _ _ _ _)); [vm_compute; reflexivity|vm_compute; reflexivity| |vm_compute; reflexivity..|discriminate].
  intros g. split; [reflexivity|]. split; [reflexivity|]. intros p Hp. cbn. apply lookup_insert_ne. intros <-. vm_compute in Hp. discriminate.
Defined.
