(* ===== verification/Desktop.v ===== *)
(** cmd/ttclient/elevate_darwin.go, elevate_windows.go (their init functions) and
    the goroutines of app.go: what the desktop program registers with the system
    when it starts, and the loops of the hot key and of the status. *)
From S2P Require Import Prelude GoStrings GoOS.
From S2P Require Import App Platform.
#[local] Open Scope Z_scope.

(** ** The link scheme *)

(** The walk from the executable to its bundle. *)
Fixpoint bundle_walk (fuel : nat) (appPath : string) : string :=
  if bool_decide (appPath = "/") || bool_decide (appPath = ".") || HasSuffix appPath ".app" then appPath
  else match fuel with
       | O => appPath
       | S fuel => bundle_walk fuel (path_Dir appPath)
       end.

Definition lsregister : string :=
  "/System/Library/Frameworks/CoreServices.framework/Versions/A/Frameworks/LaunchServices.framework/Versions/A/Support/lsregister".

(** The command run, its result dropped. *)
Definition registerURLScheme (exe : res string) : option (list string) :=
  match exe with
  | Err _ => None
  | Ok exe =>
      let appPath := bundle_walk (String.length exe) exe in
      if HasSuffix appPath ".app" then Some [lsregister; "-R"; "-f"; appPath] else None
  end.

Definition scheme_key : string := "HKCU:\Software\Classes\firetunnel".
Definition quote_char : string := String (Ascii.ascii_of_nat 34) "".

(** The scripts of [registerDeepLinkProtocol], all of them run. *)
Definition scheme_commands (exe : string) : list string :=
  ["New-Item -Path " +:+ sq scheme_key +:+ " -Force | Out-Null";
   "Set-ItemProperty -Path " +:+ sq scheme_key +:+ " -Name '(Default)' -Value 'URL:FireTunnel Protocol'";
   "Set-ItemProperty -Path " +:+ sq scheme_key +:+ " -Name 'URL Protocol' -Value ''";
   "New-Item -Path " +:+ sq (scheme_key +:+ "\shell\open\command") +:+ " -Force | Out-Null";
   "Set-ItemProperty -Path " +:+ sq (scheme_key +:+ "\shell\open\command") +:+ " -Name '(Default)' -Value " +:+
     sq (quote_char +:+ exe +:+ quote_char +:+ " " +:+ quote_char +:+ "%1" +:+ quote_char)].

Definition registerDeepLinkProtocol (exe : res string) : list (list string) :=
  match exe with
  | Err _ => []
  | Ok exe => map (fun c => ["powershell"; "-NoProfile"; "-Command"; c]) (scheme_commands exe)
  end.

(** What the init functions of the three systems run; [console] is the handle of
    the console window, which Windows hides. *)
Definition init_commands (s : system) (exe : res string) : list (list string) :=
  match s with
  | Darwin => option_list (registerURLScheme exe)
  | Windows => registerDeepLinkProtocol exe
  | Other => []
  end.
Definition hides_console (s : system) (console : Z) : bool :=
  match s with Windows => negb (console =? 0) | _ => false end.

(** [open] is the opening of the physical drive. *)
Definition isAdmin {A} (open : res A) : bool := is_ok open.

(** The driver exists only on Windows; elsewhere the four bindings do nothing. *)
Definition CheckWintun_on (s : system) (f : fs) (dir : string) : bool :=
  match s with Windows => CheckWintun f dir | _ => true end.
Definition DownloadWintun_on (s : system) (f : fs) (dir : string) (get : res (Z * body))
    (expand : fs -> fs * option (string * string)) : fs * option string :=
  match s with Windows => DownloadWintun f dir get expand | _ => (f, None) end.
Definition DisableAdapter_on (s : system) (name : string) (run : list string -> option (string * string)) : option string :=
  match s with Windows => DisableAdapter name run | _ => None end.

(** ** The goroutines of the application *)

Section loops.
Variable k : codecs.
Context {Pool : Type}.

(** What the goroutine of the hot key selects. *)
Inductive key_event := CtxDone | Keydown (s : around Pool).

Inductive key_end :=
| Listening (d : desk Pool)        (* the key is registered *)
| Unregistered (d : desk Pool)
| Crashed.

Fixpoint hotkey_loop (d : desk Pool) (evs : list key_event) : key_end :=
  match evs with
  | [] => Listening d
  | CtxDone :: _ => Unregistered d
  | Keydown s :: evs => match hotkey k d s with
                        | Some d => hotkey_loop d evs
                        | None => Crashed
                        end
  end.

Definition registerHotkeys (register : option string) (d : desk Pool) (evs : list key_event) : key_end :=
  match register with
  | Some _ => Unregistered d
  | None => hotkey_loop d evs
  end.

(** [pushLoop]: the status at each tick, until the context ends. *)
Fixpoint pushLoop (ticks : list (option (desk Pool * around Pool))) : list (ClientCore.Snapshot * string) :=
  match ticks with
  | Some (d, s) :: ticks => statusPayload d s :: pushLoop ticks
  | _ => []
  end.
End loops.
Arguments Crashed {Pool}.
Arguments CtxDone {Pool}.

(** ** Lemmas: paths of proper names *)

Definition slash : Ascii.ascii := "/"%char.

(** An element of a cleaned path. *)
Definition proper (e : string) : Prop := e <> "" /\ e <> "." /\ e <> ".." /\ has_char slash e = false.

Definition slashed (es : list string) : string := foldr (fun e s => String slash (e +:+ s)) "" es.
Definition abs_path (es : list string) : string := match es with [] => "/" | _ => slashed es end.

Lemma slashed_app es e : slashed (es ++ [e]) = slashed es +:+ String slash e.
Proof.
  induction es as [|x es IH]; [by rewrite snil_app; cbn; rewrite sapp_nil_r|].
  cbn [app slashed foldr]. fold (slashed (es ++ [e])). rewrite IH. cbn [slashed foldr]. fold (slashed es).
  rewrite scons_app. f_equal. by rewrite sapp_assoc.
Qed.

Lemma slashed_Join es : es <> [] -> slashed es = String slash (Join "/" es).
Proof.
  induction es as [|e es IH]; [done|]. intros _. cbn [slashed foldr]. fold (slashed es). f_equal.
  destruct es as [|x es]; [cbn; apply sapp_nil_r|]. rewrite IH by done. by rewrite (Join_cons "/" e).
Qed.

Lemma Split_slashed w es : has_char slash w = false -> Forall proper es ->
  Split slash (w +:+ slashed es +:+ "/") = w :: es ++ [""].
Proof.
  intros Hw H. revert w Hw. induction H as [|e es (H1 & H2 & H3 & H4) H IH]; intros w Hw.
  - cbn [slashed foldr]. rewrite snil_app. by apply (Split_app slash w "").
  - cbn [slashed foldr]. fold (slashed es). rewrite scons_app, Split_app by done.
    rewrite sapp_assoc. by rewrite IH.
Qed.

Lemma clean_proper stack es : Forall proper es -> clean_elems true stack (es ++ [""]) = rev stack ++ es.
Proof.
  intros H. revert stack. induction H as [|e es (H1 & H2 & H3 & H4) H IH]; intros stack; [by rewrite app_nil_r|].
  cbn [app clean_elems]. rewrite !bool_decide_false by done. cbn [orb]. rewrite IH. cbn [rev]. by rewrite <- app_assoc.
Qed.

Lemma Clean_slashed es : Forall proper es -> path_Clean (slashed es +:+ "/") = abs_path es.
Proof.
  intros H. unfold path_Clean. pose proof (Split_slashed "" es eq_refl H) as Hs. rewrite snil_app in Hs.
  change (Split "/" (slashed es +:+ "/")) with (Split slash (slashed es +:+ "/")). rewrite Hs.
  assert (E : clean_elems true [] ("" :: es ++ [""]) = es).
  { cbn [clean_elems]. rewrite bool_decide_true by done. cbn [orb]. by rewrite clean_proper. }
  assert (Hp : HasPrefix (slashed es +:+ "/") "/" = true)
    by (destruct es; [done|]; cbn [slashed foldr]; rewrite scons_app; apply (HasPrefix_app "/")).
  rewrite bool_decide_false by (by destruct es; [|cbn [slashed foldr]; rewrite scons_app]). rewrite Hp.
  cbn [negb]. rewrite E. destruct es as [|e es]; [done|]. unfold abs_path. rewrite slashed_Join by done. done.
Qed.

Lemma Dir_abs es e : Forall proper (es ++ [e]) -> path_Dir (abs_path (es ++ [e])) = abs_path es.
Proof.
  intros H. apply Forall_app in H as [Hes He]. apply Forall_cons in He as [(_ & _ & _ & Hc) _].
  assert (E : abs_path (es ++ [e]) = slashed es +:+ String slash e).
  { rewrite <- slashed_app. by destruct es. }
  unfold path_Dir. rewrite E. change "/"%char with slash. rewrite CutLast_app by done. by apply Clean_slashed.
Qed.

(** Splitting off what follows the last separator. *)
Lemma last_slash t : has_char slash t = true -> exists a b, t = a +:+ String slash b /\ has_char slash b = false.
Proof.
  induction t as [|x t IH]; [done|]. cbn [has_char]. intros H. destruct (has_char slash t) eqn:E.
  - destruct (IH eq_refl) as (a & b & -> & Hb). exists (String x a), b. by rewrite scons_app.
  - rewrite orb_false_r in H. apply bool_decide_eq_true in H as ->. by exists "", t.
Qed.

Lemma HasSuffix_last a e suf : has_char slash e = false -> has_char slash suf = false ->
  HasSuffix (a +:+ String slash e) suf = HasSuffix e suf.
Proof.
  intros He Hs. apply Bool.eq_iff_eq_true. rewrite !HasSuffix_spec. split.
  - intros [t Ht]. destruct (has_char slash t) eqn:E.
    + destruct (last_slash t E) as (x & b & -> & Hb). rewrite sapp_assoc, scons_app in Ht.
      pose proof (CutLast_app slash a e He) as C1.
      rewrite Ht, CutLast_app in C1 by (by rewrite has_char_app, Hb). injection C1 as _ <-. eauto.
    + assert (Hn : has_char slash (t +:+ suf) = false) by (by rewrite has_char_app, E).
      rewrite <- Ht, has_char_app in Hn. cbn in Hn. rewrite bool_decide_true in Hn by done.
      by rewrite orb_true_r in Hn.
  - intros [t ->]. exists (a +:+ String slash t). by rewrite sapp_assoc, scons_app.
Qed.

(** The elements up to the last bundle, the last one first. *)
Fixpoint to_bundle (rs : list string) : list string :=
  match rs with
  | [] => []
  | e :: rest => if HasSuffix e ".app" then rs else to_bundle rest
  end.

Lemma abs_path_snoc es e : abs_path (es ++ [e]) = slashed es +:+ String slash e.
Proof. rewrite <- slashed_app. by destruct es. Qed.

Lemma HasSuffix_abs es e : has_char slash e = false -> HasSuffix (abs_path (es ++ [e])) ".app" = HasSuffix e ".app".
Proof. intros He. rewrite abs_path_snoc. by apply HasSuffix_last. Qed.

Lemma bundle_walk_spec rs fuel : (length rs <= fuel)%nat -> Forall proper rs ->
  bundle_walk fuel (abs_path (rev rs)) = abs_path (rev (to_bundle rs)).
Proof.
  intros Hlen H. revert fuel Hlen. induction H as [|e rs Hp H IH]; intros fuel Hlen; [by destruct fuel|].
  pose proof Hp as (H1 & H2 & H3 & H4). cbn [to_bundle rev].
  assert (Hroot : abs_path (rev rs ++ [e]) <> "/").
  { rewrite abs_path_snoc. destruct (rev rs) as [|x xs]; cbn [slashed foldr].
    - rewrite snil_app. intros [= E]. done.
    - rewrite scons_app. intros [= E]. apply (f_equal String.length) in E. rewrite !slength_app in E. cbn in E. lia. }
  assert (Hdot : abs_path (rev rs ++ [e]) <> ".").
  { rewrite abs_path_snoc. destruct (rev rs) as [|x xs]; cbn [slashed foldr];
      [rewrite snil_app|rewrite scons_app]; intros [= E]. }
  destruct fuel as [|fuel]; [cbn in Hlen; lia|]. cbn [bundle_walk].
  rewrite !bool_decide_false, HasSuffix_abs by done. cbn [orb].
  destruct (HasSuffix e ".app"); [by cbn [rev]|].
  rewrite Dir_abs by (apply Forall_app; split; [by apply Forall_rev|by constructor]).
  apply IH. cbn in Hlen. lia.
Qed.

Lemma slashed_length es : (length es <= String.length (slashed es))%nat.
Proof.
  induction es as [|e es IH]; [done|]. cbn [slashed foldr length String.length]. fold (slashed es).
  rewrite slength_app. lia.
Qed.

(** ** Properties *)

(** A download that reports success leaves the check for the driver content, on
    every system. *)
Theorem driver_download_suffices (s : system) (f f' : fs) (dir : string) (get : res (Z * body))
    (expand : fs -> fs * option (string * string))
  (Hrun : DownloadWintun_on s f dir get expand = (f', None))
  (Hexp : forall g, fs_locked (expand g).1 = fs_locked g /\ fs_full (expand g).1 = fs_full g /\
            forall p, inside (path_Join dir "wintun_tmp") p = false -> fs_files (expand g).1 !! p = fs_files g !! p)
  (Hdll : inside (path_Join dir "wintun_tmp") (path_Join dir "wintun.dll") = false)
  (Hzip : inside (path_Join dir "wintun_tmp") (path_Join dir "wintun.zip") = false)
  (Hne : path_Join dir "wintun.dll" <> path_Join dir "wintun.zip") :
  CheckWintun_on s f' dir = true.
Proof.
  destruct s; [done| |done]. cbn [CheckWintun_on DownloadWintun_on] in *.
  destruct (CheckWintun f dir) eqn:E.
  - unfold DownloadWintun in Hrun. unfold CheckWintun in E. rewrite E in Hrun. by injection Hrun as <-.
  - by destruct (download_wintun f f' dir get expand None Hrun E Hexp Hdll Hzip Hne) as [H _].
Qed.

(** The bundle registered for the link scheme is the innermost one that holds
    the executable: for an absolute path the walk ends, and the command names
    the path up to its last element with the suffix of a bundle, or there is no
    such element and nothing is run. *)
Theorem registerURLScheme_bundle (es : list string) (Hes : Forall proper es) :
  registerURLScheme (Ok (abs_path es)) =
  match to_bundle (rev es) with
  | [] => None
  | rs => Some [lsregister; "-R"; "-f"; abs_path (rev rs)]
  end.
Proof.
  unfold registerURLScheme. set (n := String.length (abs_path es)).
  assert (Hn : (length (rev es) <= n)%nat).
  { rewrite length_rev. unfold n, abs_path. destruct es; [cbn; lia|]. apply slashed_length. }
  assert (Hr : Forall proper (rev es)) by (by apply Forall_rev).
  pose proof (bundle_walk_spec (rev es) n Hn Hr) as Hw. rewrite rev_involutive in Hw. rewrite Hw. clear Hw Hn n.
  induction Hr as [|e rs Hp Hr IH]; [done|]. cbn [to_bundle]. destruct (HasSuffix e ".app") eqn:E; [|done].
  cbn [rev]. destruct Hp as (_ & _ & _ & Hc). by rewrite HasSuffix_abs, E.
Qed.

(** The hot key keeps the session as its bindings do: however often it is
    pressed, the client is connected with all its parts or holds none, and the
    program crashes only without a settings store. *)
Theorem hotkeys_keep_session (k : codecs) {Pool : Type} (register : option string) (d : desk Pool)
    (evs : list (key_event (Pool := Pool))) (Hinv : inv d) :
  match registerHotkeys k register d evs with
  | Listening d' | Unregistered d' => keeps d d' /\ inv d'
  | Crashed => settings (d_app d) = None
  end.
Proof.
  unfold registerHotkeys. destruct register; [by split; [split|]|].
  revert d Hinv. induction evs as [|[|s] evs IH]; intros d Hinv; [by split; [split|]|by split; [split|]|].
  cbn [hotkey_loop]. pose proof (hotkey_keeps k d s Hinv) as Hk. destruct (hotkey k d s) as [d1|]; [|by destruct Hk].
  destruct Hk as [Hs Hi]. specialize (IH d1 (Hi Hinv)). destruct (hotkey_loop k d1 evs) as [d2|d2|].
  - destruct IH as [[Hs2 _] H2]. split; [|done]. split; [by rewrite Hs2|done].
  - destruct IH as [[Hs2 _] H2]. split; [|done]. split; [by rewrite Hs2|done].
  - unfold stores in Hs. injection Hs as Hs _. by rewrite <- Hs.
Qed.

(** The path of the program is put into a PowerShell string as it is: installed
    below the folder of a user with an apostrophe in the name, the last script
    does not parse and no link opens the program. *)
Example scheme_apostrophe :
  nth 4 (scheme_commands "C:\Users\O'Brien\ttclient.exe") "" =
  "Set-ItemProperty -Path 'HKCU:\Software\Classes\firetunnel\shell\open\command' -Name '(Default)' -Value '" +:+
  quote_char +:+ "C:\Users\O'Brien\ttclient.exe" +:+ quote_char +:+ " " +:+ quote_char +:+ "%1" +:+ quote_char +:+ "'".
Proof. vm_compute. reflexivity. Qed.

(** ** Witnesses *)

Lemma registerURLScheme_bundle_witness :
  registerURLScheme (Ok "/Applications/FireTunnel.app/Contents/MacOS/FireTunnel") =
  Some [lsregister; "-R"; "-f"; "/Applications/FireTunnel.app"].
Proof.
  exact (registerURLScheme_bundle ["Applications"; "FireTunnel.app"; "Contents"; "MacOS"; "FireTunnel"]
    ltac:(by repeat constructor)).
Defined.

Lemma driver_download_suffices_witness :
  CheckWintun_on Windows (DownloadWintun_on Windows ex_fs "C:/tt" (Ok (200, {| b_text := "PK"; b_error := None |})) ex_expand).1
    "C:/tt" = true.
Proof.
  refine (driver_download_suffices Windows ex_fs _ "C:/tt" (Ok (200, {| b_text := "PK"; b_error := None |})) ex_expand _ _ _ _ _);
    [vm_compute; reflexivity| |vm_compute; reflexivity|vm_compute; reflexivity|discriminate].
  intros g. split; [reflexivity|]. split; [reflexivity|]. intros p Hp. cbn. apply lookup_insert_ne. intros <-. vm_compute in Hp. discriminate.
Defined.

Lemma hotkeys_keep_session_witness (k : codecs) :
  registerHotkeys k (Some "taken")
    {| d_app := NewApp (Pool := unit) ex_fs (Ok "/c"); d_fs := ex_fs; d_world := ClientCore.fresh_world; d_out := [] |} [] <> Crashed.
Proof.
  pose proof (hotkeys_keep_session k (Some "taken")
    {| d_app := NewApp (Pool := unit) ex_fs (Ok "/c"); d_fs := ex_fs; d_world := ClientCore.fresh_world; d_out := [] |} []) as H.
  intros E. rewrite E in H. discriminate H. split; [by right; repeat split; left|done].
Defined.
